(* ===== verification/_CoqProject ===== *)
-Q . S2P
Prelude.v
Mqttsn.v
MqttsnFacts.v
OneWire.v
OneWireFacts.v
IpAddr.v
IpAddrFacts.v
Format.v
TcpPush.v
TcpPushFacts.v
GroundSensor.v
GroundSensorFacts.v
Entry.v
EntryFacts.v
WifiTests.v
WifiTestsFacts.v
EspSupport.v
EspSupportFacts.v
Digispark.v
DigisparkFacts.v
Radio.v
RadioFacts.v
Link.v
Bridge.v
LinkFacts.v
RadioLinux.v
RadioLinuxFacts.v
GatewayFacts.v
Sketches.v
SketchesFacts.v
Sensors.v
SensorsFacts.v
DeviceSketches.v
DeviceSketchesFacts.v
LeafApp.v
LeafAppFacts.v
LeafBootFacts.v
NodeApp.v
NodeAppFacts.v
BusPirate.v
BusPirateFacts.v
Buses.v
BusesFacts.v
FifoBridge.v
FifoBridgeFacts.v
BridgeThreads.v
BridgeThreadsFacts.v
BridgeTypesFacts.v
BridgeMain.v
BridgeMainFacts.v
GatewayTools.v
GatewayToolsFacts.v
LinuxTools.v
LinuxToolsFacts.v
MqttClient.v
MqttClientFacts.v
CalDex.v
CalDexFacts.v
