(* ===== verification/Prelude.v ===== *)
(** * Sentrifarm: a verification of the programs of the repository

    Sentrifarm is a farm sensor network. Leaf nodes (ESP8266 or Teensy) read
    sensors and publish them with MQTT-SN, in frames of their own over a LoRa
    radio (an SX1276 on SPI). A gateway (a Linux board with the same radio)
    moves the datagrams between the radio and a UDP port, where an MQTT-SN broker
    listens. An earlier design (src/attic) has ground sensors with WiFi that
    push JSON over TCP. This library models those programs from their C and C++
    source and proves what makes each part correct, and what is wrong with it
    where it is not.

    ** The parts and how they fit

    The path of a measurement, from the sensor to the broker:
    - [Sensors]: the clock chip, converter and pressure sensor of the leaf and
      the record of measurements (libraries/sentrifarm/sf-*.h);
    - [LeafApp]: the leaf's program (leaf.ino), [NodeApp]: the beacon node's
      (node.ino); both drive
    - [Mqttsn]: the MQTT-SN client (libraries/arduino-mqtt-sn), whose virtual
      method [send_message_impl] is implemented by
    - [Link]: the framing of class [MQTTSX1276] (sx1276mqttsn.cpp), over
    - [Radio]: the microcontroller's LoRa driver (libraries/SX1276lib);
    - [Bridge]: class [RadioManager] of the gateway (sx1276_mqttsn_bridge.cpp),
      over class [SimpleRadio], which is implemented by
    - [RadioLinux]: the gateway's LoRa driver (sx1276/sx1276.cpp), over the bus
      class [SPI], which is implemented twice by
    - [Buses]: spidev and the Bus Pirate (spidev_spi.cpp, buspirate_spi.cpp),
      and the platforms (sx1276_platform.cpp); the second over
    - [BusPirate]: the serial protocol (buspirate_binary.c, bp_sx1276_dump.c);
    - [BridgeThreads]: the two threads of the gateway and its mutex,
      [BridgeMain]: its [main].

    Beside that path:
    - [Sketches]: the sketches that exercise the microcontroller's radio
      (beacon.ino, rx.ino, dump.ino); [GatewayTools]: the test programs of the
      gateway's radio (sx1276_test1_tx.cpp, sx1276_test1_rx.cpp,
      sx1276_dump_regs.cpp);
    - [FifoBridge]: the bridge between UDP and pipes (fifo_mqttsn_bridge.cpp);
    - [MqttClient]: the mosquitto wrapper (mqttclient.cpp) and its tests;
    - [OneWire], [TcpPush], [GroundSensor], [CalDex]: the ground sensor's 1-Wire
      driver, TCP messages, application and exception dump
      (attic/ground-sensor/code/src), with [IpAddr] for the addresses and byte
      orders of its lwIP and [Format] for the printing of C; [Entry]: its boot;
      [WifiTests]: two test programs of its platform; [EspSupport]: the tables, pins
      and serial port of the experiment before it (attic/experiments/esp8266/src);
    - [Digispark], [DeviceSketches]: single sketches (digispark-spi1.ino,
      adc-test.ino, time_solar_and_temp_monitor.ino); [LinuxTools]: small programs
      for Linux (util/b76800.c, esp8266pgm.c, openwrt/sx1276_dump_reg.c,
      spidev_fdx_readloraver.c).

    A component's file has its definitions; what is proved of [X] is in
    [XFacts]. [GatewayFacts] and [LinkFacts] are about several components at
    once: leaf, link and gateway; [LeafBootFacts] joins the leaf's boot to its
    sessions. This file has what all share: machine integers, buffers, the
    monad of stateful code, triples.

    ** How the code is modelled

    A definition has the name of the function or method it models, and its
    statements in their order. Stateful code is a computation of [ST W], a state
    monad over the world [W] whose result is [None] where the source does
    something C or C++ leaves undefined: an access outside a buffer, a signed
    overflow, an uninitialised index, a failed assertion. Such code is proved
    defined under stated conditions, or shown undefined. (The exceptions: counts
    that only go up, of the gateway and of the nodes' loops, are mathematical
    integers; [BridgeTypesFacts] bounds the gateway's. The predicted time on air
    wraps where it overflows, which no setting of the datasheet makes it do.) An integer of [w] bits
    is a [Z] with its truncation written out ([u8], [u16], [u32], [s32]); a byte
    buffer is a list that keeps its length ([load], [store]). A variable that is
    read before it is set has the value of a parameter ([junk]).

    Hardware, libraries and the operating system are classes, one operation per
    call: the SPI and I2C buses, GPIO, the chip's registers, serial ports,
    spidev, sockets, the ESP8266 SDK, mosquitto. A second class of laws states
    what the theorems rely on of them ([Sx1276], [LinuxChip], [SpiWire],
    [FileTable], [OneWireBus] and its devices, [Ds1307], [Broker]); every one has
    an instance, a simulated chip or library, in which the witnesses of the
    theorems are evaluated. Two of the laws are theorems about other code of the
    repository: [gpio_bus] implements [OneWireBus] by the pin routines of
    ds18b20.c, and [spidev_chip] implements [LinuxChip] by spidev_spi.cpp.

    Threads are program points with their locals; a step is one lock, one call
    or one access to shared data, and theorems hold for every sequence of steps.
    Programs that run for ever are taken a turn at a time.

    ** Fuel

    A loop that waits for hardware has a bound on its turns, and running out of
    it is [None]; theorems give a bound that is enough: the radio's receive loop
    ends within the polls the chip takes ([n < fuel]); the gateway's polling
    loops end by their clock, [rx_fuel] and 1001 polls are enough for any clock
    that advances by the time slept; a read of the Bus Pirate takes at most
    [bytes + 3] reads; [exec_ds18b20] one turn per device and one more. The
    theorems on the bridge hold for some fuel exactly when the thread reaches
    the end of its turn.

    ** What is proved

    - MQTT-SN client ([MqttsnFacts]): a request decodes, by an independent decoder of
      the MQTT-SN formats, to itself exactly when it announces its own length,
      which all do but two; an invariant of every reachable state; the
      retry budget; which requests overflow the buffer; replies that are not
      awaited are ignored; what is wrong with CONNECT at boot, PUBACK and REGISTER.
    - LoRa drivers ([RadioFacts], [RadioLinuxFacts]): what is passed is what goes on
      the air; what the chip received is what is reported; the settings the
      registers decode to; for the gateway all this over a bus that may fail any
      transaction: a true result is never a lie.
    - Link and gateway ([LinkFacts], [GatewayFacts]): a leaf's request reaches UDP as
      one datagram that decodes to the request; a reply given to the gateway
      reaches the client waiting for it; lost frames are counted, corrupted ones
      dropped; recovery after a datagram the radio cannot send.
    - The gateway's threads and start ([BridgeThreadsFacts], [BridgeMainFacts]): every
      interleaving is one of atomic turns (a refinement of a sequential machine),
      a thread alone does what [Bridge] says (an equivalence); HELLO frames keep
      the mutex; [main] starts over a configured radio and closes the devices it
      opened; in every interleaving the data keep their types and the counts
      their range ([BridgeTypesFacts]).
    - Sketches and test programs ([SketchesFacts], [GatewayToolsFacts]): the
      beacon's frames, which the gateway drops; what the receiver counts and
      garbles; the numbered messages of the sender; what the dumps show.
    - Buses ([BusesFacts], [BusPirateFacts]): spidev is a register bus; descriptors are
      not leaked; the Bus Pirate functions end and stay in their buffers.
    - Applications ([LeafAppFacts], [LeafBootFacts], [NodeAppFacts]): from boot to sleep,
      whatever quiet turns come between, exactly the registered topic and the
      measurements are published; what happens when nobody answers.
    - Pipes and MQTT ([FifoBridgeFacts], [MqttClientFacts]): no mixed address, both
      streams relayed in order; the connection state tells what the broker said,
      unless a code above 3 ends the process;
      a client that failed to reconnect never tries again.
    - Ground sensor ([OneWireFacts], [GroundSensorFacts], [EntryFacts], [TcpPushFacts],
      [CalDexFacts], [IpAddrFacts], [WifiTestsFacts]): the ROM search finds every device once, checksums detect
      errors; the state machine ends; telemetry reaches the TCP layer, whose blocks
      are freed exactly once in every order of callbacks; the dump reads only the
      stack; addresses print and parse back.
    - Tools and experiments ([DigisparkFacts], [LinuxToolsFacts], [DeviceSketchesFacts],
      [EspSupportFacts]): inline assembly is CRC-16 whatever the registers; what the
      SPI routines put on the wire; the relay moves both streams; the sequence of
      levels that enters the boot loader; the converter test reads what the leaf
      reads; names and pins round trip where the tables have no holes.

    ** Not modelled

    Console output everywhere, and LEDs and pins where nothing depends on them. The
    assembly of cal_dex that saves the registers. Floating-point time-on-air of
    the gateway (only printed). The sketches that blink, or print what a library
    returns (blinky, dht11-test, helloworld, solar-monitor1, dht11, dht_esp8266). The rest
    of lwIP, its headers and the SDK's, JeeLib's serial bridge: third-party code
    without logic of these programs. Build files, packaging, scripts, hardware. *)
From Stdlib Require Export ZArith Lia.
From stdpp Require Export base list gmap strings.
#[global] Open Scope Z_scope.

(** * Machine integers on [Z] *)

Declare Scope word_scope.
Delimit Scope word_scope with word.

(** The value a [w]-bit unsigned object holds after [x] is stored in it. *)
Definition trunc (w x : Z) : Z := x mod 2 ^ w.
Abbreviation u8 := (trunc 8).
Abbreviation u16 := (trunc 16).
Abbreviation u32 := (trunc 32).

(** Truncation to [w] bits read as a two's complement integer. *)
Definition strunc (w x : Z) : Z := (x + 2 ^ (w - 1)) mod 2 ^ w - 2 ^ (w - 1).
Abbreviation s8 := (strunc 8).
Abbreviation s32 := (strunc 32).

(** [x] is representable in an unsigned object of [w] bits. *)
Definition fits (w x : Z) : Prop := 0 <= x < 2 ^ w.
Abbreviation byte_ok := (fits 8).
Abbreviation bytes_ok := (Forall (fits 8)).

(** C truth values: [0] is false, everything else true. *)
Definition b2z (b : bool) : Z := if b then 1 else 0.
Definition z2b (x : Z) : bool := negb (x =? 0).

#[global] Instance fits_dec w x : Decision (fits w x).
Proof. unfold fits. apply _. Defined.

Ltac pow2s :=
  repeat match goal with
  | |- context [2 ^ ?n] => let v := eval vm_compute in (2 ^ n) in change (2 ^ n) with v
  | H : context [2 ^ ?n] |- _ => let v := eval vm_compute in (2 ^ n) in change (2 ^ n) with v in H
  end.

(** Linear arithmetic over truncations and range predicates of constant width. *)
Ltac word_lia :=
  unfold fits, trunc, strunc, b2z, z2b in *; pow2s; Z.div_mod_to_equations; lia.

(** Conjunctions, existentials and equations of the context taken apart. *)
Ltac break :=
  repeat match goal with
  | H : _ /\ _ |- _ => destruct H
  | H : exists _, _ |- _ => destruct H
  | H : Some _ = Some _ |- _ => injection H as H
  | H : (_, _) = (_, _) |- _ => injection H as H
  end; simplify_eq.

(** Case analysis on the test of a conditional or the scrutinee of a match. *)
Ltac split_if :=
  match goal with
  | |- context [if ?b then _ else _] => destruct b eqn:?
  | |- context [match ?x with _ => _ end] => destruct x eqn:?
  end.
Ltac split_if_in H :=
  match type of H with
  | context [if ?b then _ else _] => destruct b eqn:?
  | context [match ?x with _ => _ end] => destruct x eqn:?
  end.

(** ** Range lemmas *)

Lemma trunc_range w x : 0 <= w -> fits w (trunc w x).
Proof. intros; apply Z.mod_pos_bound, Z.pow_pos_nonneg; lia. Qed.

Lemma trunc_small w x : fits w x -> trunc w x = x.
Proof. apply Z.mod_small. Qed.

Lemma trunc_trunc w x : 0 <= w -> trunc w (trunc w x) = trunc w x.
Proof. intros; apply trunc_small, trunc_range; done. Qed.

Lemma strunc_small w x :
  0 < w -> - 2 ^ (w - 1) <= x < 2 ^ (w - 1) -> strunc w x = x.
Proof.
  intros Hw Hx. unfold strunc. rewrite Z.mod_small; [lia|].
  replace (2 ^ w) with (2 * 2 ^ (w - 1)); [lia|].
  rewrite <- Z.pow_succ_r by lia. f_equal; lia.
Qed.

Lemma u8_ok x : byte_ok (u8 x). Proof. apply trunc_range; lia. Qed.
Lemma u16_ok x : fits 16 (u16 x). Proof. apply trunc_range; lia. Qed.
Lemma u32_ok x : fits 32 (u32 x). Proof. apply trunc_range; lia. Qed.

Create HintDb words.
Create Rewrite HintDb words.
#[export] Hint Resolve u8_ok u16_ok u32_ok : words.
#[export] Hint Rewrite trunc_trunc using lia : words.

Lemma fits_high_bits w x i : fits w x -> 0 <= w <= i -> Z.testbit x i = false.
Proof.
  intros Hx Hi. rewrite <- (Z.mod_small x (2 ^ w)) by done.
  apply Z.mod_pow2_bits_high; lia.
Qed.

(** A bitwise operation stays within the width of its operands. *)
Lemma fits_bitwise w x :
  0 <= w -> 0 <= x -> (forall i, w <= i -> Z.testbit x i = false) -> fits w x.
Proof.
  intros Hw Hx Hb. split; [done|].
  assert (x mod 2 ^ w = x) as <-; [|apply Z.mod_pos_bound, Z.pow_pos_nonneg; lia].
  apply Z.bits_inj'; intros i Hi. destruct (decide (i < w)).
  - apply Z.mod_pow2_bits_low; lia.
  - rewrite Z.mod_pow2_bits_high by lia. symmetry; apply Hb; lia.
Qed.

Lemma fits_lxor w x y : 0 <= w -> fits w x -> fits w y -> fits w (Z.lxor x y).
Proof.
  intros Hw Hx Hy. apply fits_bitwise; [done|apply Z.lxor_nonneg; unfold fits in *; lia|].
  intros i Hi. rewrite Z.lxor_spec, !(fits_high_bits w) by (done || lia). done.
Qed.

Lemma fits_lor w x y : 0 <= w -> fits w x -> fits w y -> fits w (Z.lor x y).
Proof.
  intros Hw Hx Hy. apply fits_bitwise; [done|apply Z.lor_nonneg; unfold fits in *; lia|].
  intros i Hi. rewrite Z.lor_spec, !(fits_high_bits w) by (done || lia). done.
Qed.

Lemma fits_land w x y : 0 <= w -> 0 <= x -> fits w y -> fits w (Z.land x y).
Proof.
  intros Hw Hx Hy. apply fits_bitwise; [done|apply Z.land_nonneg; unfold fits in *; lia|].
  intros i Hi. rewrite Z.land_spec, (fits_high_bits w y) by (done || lia). apply andb_false_r.
Qed.

Lemma lor_add_disjoint x y k :
  0 <= k -> 0 <= y < 2 ^ k -> Z.lor (Z.shiftl x k) y = x * 2 ^ k + y.
Proof.
  intros Hk Hy. rewrite <- Z.shiftl_mul_pow2 by done. symmetry.
  rewrite <- Z.lxor_lor, Z.add_nocarry_lxor; [done|..];
    apply Z.bits_inj'; intros i Hi; rewrite Z.land_spec, Z.bits_0;
    (destruct (decide (i < k));
     [rewrite Z.shiftl_spec_low by lia; done
     |rewrite (fits_high_bits k y i) by (done || lia); apply andb_false_r]).
Qed.

(** Masking a field of [w] bits at position [k]. *)
Lemma land_field x k w :
  0 <= k -> 0 <= w ->
  Z.land x (Z.shiftl (Z.ones w) k) = (x / 2 ^ k) mod 2 ^ w * 2 ^ k.
Proof.
  intros Hk Hw. rewrite <- Z.land_ones, <- Z.shiftr_div_pow2, <- Z.shiftl_mul_pow2 by done.
  apply Z.bits_inj'; intros i Hi. rewrite Z.land_spec.
  destruct (decide (i < k)).
  - rewrite !Z.shiftl_spec_low by done. apply andb_false_r.
  - rewrite !Z.shiftl_spec by done. rewrite Z.land_spec, Z.shiftr_spec by lia.
    f_equal. f_equal. lia.
Qed.

Lemma lor_disjoint_add x y k :
  0 <= k -> 0 <= y < 2 ^ k -> x mod 2 ^ k = 0 -> Z.lor x y = x + y.
Proof.
  intros Hk Hy Hx. pose proof (Z.div_mod x (2 ^ k) ltac:(lia)) as E.
  rewrite Hx, Z.add_0_r, Z.mul_comm in E. rewrite E, <- (lor_add_disjoint (x / 2 ^ k) y k) by done.
  by rewrite Z.shiftl_mul_pow2.
Qed.

Lemma testbit_mask x n : (0 <? Z.land x (2 ^ Z.of_nat n)) = Z.testbit x (Z.of_nat n).
Proof.
  destruct (Z.testbit x (Z.of_nat n)) eqn:E.
  - apply Z.ltb_lt. assert (Z.land x (2 ^ Z.of_nat n) = 2 ^ Z.of_nat n) as ->; [|lia].
    apply Z.bits_inj'; intros i Hi. rewrite Z.land_spec, Z.pow2_bits_eqb by lia.
    destruct (Z.eqb_spec (Z.of_nat n) i) as [<-|]; [by rewrite E|apply andb_false_r].
  - apply Z.ltb_ge. assert (Z.land x (2 ^ Z.of_nat n) = 0) as ->; [|lia].
    apply Z.bits_inj'; intros i Hi. rewrite Z.land_spec, Z.pow2_bits_eqb, Z.bits_0 by lia.
    destruct (Z.eqb_spec (Z.of_nat n) i) as [<-|]; [by rewrite E|apply andb_false_r].
Qed.

(** The idiom [x & (1 << n)] of the source, as a truth value. *)
Lemma flag_set x n : 0 <= n -> z2b (Z.land x (Z.shiftl 1 n)) = Z.testbit x n.
Proof.
  intros Hn. rewrite Z.shiftl_1_l. pose proof (testbit_mask x (Z.to_nat n)) as E.
  rewrite Z2Nat.id in E by done. rewrite <- E. unfold z2b.
  pose proof (proj2 (Z.land_nonneg x (2 ^ n)) ltac:(right; lia)).
  destruct (Z.eqb_spec (Z.land x (2 ^ n)) 0), (Z.ltb_spec 0 (Z.land x (2 ^ n))); try done; lia.
Qed.

(** * Exhaustive checks over small ranges *)

(** A boolean property of every value below [n] is decided by evaluation. *)
Definition below (n : nat) : list Z := Z.of_nat <$> seq 0 n.

Lemma forall_below (n : nat) (P : Z -> bool) :
  forallb P (below n) = true -> forall x, 0 <= x < Z.of_nat n -> P x = true.
Proof.
  intros H x Hx. rewrite forallb_forall in H. apply H.
  unfold below. apply list_elem_of_In, list_elem_of_fmap.
  exists (Z.to_nat x). split; [lia|]. apply elem_of_seq. lia.
Qed.

Lemma below_S n : below (S n) = 0 :: (Z.succ <$> below n).
Proof.
  unfold below. cbn [seq]. rewrite fmap_cons, <- fmap_S_seq, <- !list_fmap_compose.
  f_equal. apply list_fmap_ext. intros i x _. simpl. lia.
Qed.

(** * Byte buffers *)

(** [store buf off bs]: write [bs] at offset [off]; an access outside the
    object is undefined behaviour in the source and [None] here. *)
Definition store (buf : list Z) (off : nat) (bs : list Z) : option (list Z) :=
  if decide (off + length bs <= length buf)%nat
  then Some (take off buf ++ bs ++ drop (off + length bs) buf) else None.

(** [load buf off n]: the [n] bytes from offset [off], [None] out of range. *)
Definition load (buf : list Z) (off n : nat) : option (list Z) :=
  if decide (off + n <= length buf)%nat then Some (take n (drop off buf)) else None.

(** Little-endian 16-bit member of a packed structure. *)
Definition le16 (v : Z) : list Z := [v mod 256; (v / 256) mod 256].
Definition of_le16 (bs : list Z) : Z :=
  match bs with [a; b] => a + 256 * b | _ => 0 end.

(** The bytes of a C string up to its terminator. *)
Fixpoint c_string (bs : list Z) : list Z :=
  match bs with [] => [] | b :: r => if b =? 0 then [] else b :: c_string r end.

(** The character codes of a string literal. *)
Definition str (s : string) : list Z :=
  (fun a => Z.of_N (Ascii.N_of_ascii a)) <$> String.list_ascii_of_string s.

Lemma store_Some buf off bs buf' :
  store buf off bs = Some buf' ->
  (off + length bs <= length buf)%nat /\
  buf' = take off buf ++ bs ++ drop (off + length bs) buf.
Proof. unfold store. case_decide; [|done]. intros [= <-]. done. Qed.

Lemma store_length buf off bs buf' :
  store buf off bs = Some buf' -> length buf' = length buf.
Proof.
  intros [Hl ->]%store_Some. rewrite !length_app, length_take, length_drop. lia.
Qed.

Lemma store_is_Some buf off bs :
  is_Some (store buf off bs) <-> (off + length bs <= length buf)%nat.
Proof. unfold store. case_decide; split; intros; eauto; try lia. by destruct H0. Qed.

Lemma Forall_bytes_store buf off bs buf' :
  bytes_ok buf -> bytes_ok bs -> store buf off bs = Some buf' -> bytes_ok buf'.
Proof.
  intros Hb Hs [_ ->]%store_Some.
  repeat apply Forall_app_2; auto using Forall_take, Forall_drop.
Qed.

Lemma load_app_l pre rest off n :
  (off + n <= length pre)%nat -> load (pre ++ rest) off n = Some (take n (drop off pre)).
Proof.
  intros Hl. unfold load. rewrite decide_True by (rewrite length_app; lia).
  rewrite drop_app_le, take_app_le; rewrite ?length_drop; try done; lia.
Qed.

Lemma le16_length v : length (le16 v) = 2%nat. Proof. done. Qed.
Lemma le16_ok v : bytes_ok (le16 v).
Proof. repeat constructor; word_lia. Qed.
Lemma of_le16_le16 v : fits 16 v -> of_le16 (le16 v) = v.
Proof. unfold le16, of_le16. word_lia. Qed.
#[export] Hint Resolve le16_ok : words.

(** * A state and error monad

    [ST W A]: a computation over a world [W] that returns a value and the new
    world, or [None] when it performs an access the source leaves undefined.
    stdpp's monad notations ([x ← m; k], [m ;; k], [mret x]) apply. *)
Definition ST (W A : Type) : Type := W -> option (A * W).
#[export] Instance ST_ret {W} : MRet (ST W) := fun A a w => Some (a, w).
#[export] Instance ST_bind {W} : MBind (ST W) := fun A B k m w =>
  match m w with Some (a, w') => k a w' | None => None end.
Definition get {W} : ST W W := fun w => Some (w, w).
Definition put {W} (w' : W) : ST W () := fun _ => Some ((), w').
Definition modify {W} (f : W -> W) : ST W () := fun w => Some ((), f w).
Definition undefined {W A} : ST W A := fun _ => None.
Definition lift_opt {W A} (o : option A) : ST W A := fun w => (fun a => (a, w)) <$> o.
Definition when {W} (b : bool) (m : ST W ()) : ST W () := if b then m else mret ().

Lemma ST_bind_eq {W A B} (m : ST W A) (k : A -> ST W B) w :
  (m ≫= k) w = match m w with Some (a, w') => k a w' | None => None end.
Proof. done. Qed.

Lemma ST_bind_Some {W A B} (m : ST W A) (k : A -> ST W B) w b w'' :
  (m ≫= k) w = Some (b, w'') -> exists a w', m w = Some (a, w') /\ k a w' = Some (b, w'').
Proof. rewrite ST_bind_eq. destruct (m w) as [[a w']|]; [|done]. eauto. Qed.

(** Takes the defined runs of binds in the context apart. *)
Ltac st_inv :=
  repeat match goal with
  | H : (_ ≫= _) _ = Some _ |- _ =>
      apply ST_bind_Some in H; destruct H as (? & ? & ? & H); cbn beta iota zeta in H
  end.

(** Unfolds the monad's operations in the goal. *)
Ltac st_unfold :=
  unfold mbind, ST_bind, mret, ST_ret, get, put, modify, lift_opt, when, undefined; simpl.

(** A Hoare triple for total correctness: from a world satisfying [P] the
    computation is defined and ends in a world and value satisfying [Q]. *)
Definition triple {W A} (P : W -> Prop) (m : ST W A) (Q : A -> W -> Prop) : Prop :=
  forall w, P w -> exists a w', m w = Some (a, w') /\ Q a w'.

Lemma triple_bind {W A B} P (m : ST W A) (Q : A -> W -> Prop) (k : A -> ST W B) R :
  triple P m Q -> (forall a, triple (Q a) (k a) R) -> triple P (m ≫= k) R.
Proof.
  intros Hm Hk w Hw. destruct (Hm w Hw) as (a & w' & E & HQ).
  destruct (Hk a w' HQ) as (b & w'' & E' & HR).
  exists b, w''. rewrite ST_bind_eq, E. done.
Qed.

Lemma triple_known {W A} (Q : Prop) P (m : ST W A) R :
  (Q -> triple P m R) -> triple (fun s => Q /\ P s) m R.
Proof. intros Ht s [HQ HP]. by apply Ht. Qed.

Lemma triple_ret {W A} (P : W -> Prop) (a : A) (Q : A -> W -> Prop) :
  (forall s, P s -> Q a s) -> triple P (mret a) Q.
Proof. intros HQ s Hs. exists a, s. auto. Qed.

Lemma triple_post {W A} P (m : ST W A) (Q R : A -> W -> Prop) :
  triple P m Q -> (forall a s, Q a s -> R a s) -> triple P m R.
Proof. intros Hm HQR s Hs. destruct (Hm s Hs) as (a & s' & E & HQ). eauto. Qed.

Lemma triple_pre {W A} (P P' : W -> Prop) (m : ST W A) Q :
  triple P' m Q -> (forall s, P s -> P' s) -> triple P m Q.
Proof. intros Hm HP s Hs. auto. Qed.

Lemma triple_ex {W A B} (P : B -> W -> Prop) (m : ST W A) Q :
  (forall x, triple (P x) m Q) -> triple (fun s => exists x, P x s) m Q.
Proof. intros Hm s [x Hs]. exact (Hm x s Hs). Qed.

Lemma triple_lift_opt {W A} (P : W -> Prop) (o : option A) a :
  o = Some a -> triple P (lift_opt o) (fun b s => b = a /\ P s).
Proof. intros -> s Hs. exists a, s. done. Qed.

(** Partial preservation: whenever the computation is defined it keeps [I]. *)
Definition keeps {W A} (I : W -> Prop) (m : ST W A) : Prop :=
  forall w a w', I w -> m w = Some (a, w') -> I w'.

Lemma keeps_ret {W A} (I : W -> Prop) (a : A) : keeps I (mret a : ST W A).
Proof. intros w b w' Hw [= <- <-]. done. Qed.

Lemma keeps_bind {W A B} (I : W -> Prop) (m : ST W A) (k : A -> ST W B) :
  keeps I m -> (forall a, keeps I (k a)) -> keeps I (m ≫= k).
Proof.
  intros Hm Hk w b w' Hw. rewrite ST_bind_eq.
  destruct (m w) as [[a w1]|] eqn:E; [|done]. intros E2.
  exact (Hk a w1 b w' (Hm _ _ _ Hw E) E2).
Qed.

Lemma keeps_get {W} (I : W -> Prop) : keeps I get.
Proof. intros w a w' Hw [= <- <-]. done. Qed.

Lemma keeps_modify {W} (I : W -> Prop) f : (forall w, I w -> I (f w)) -> keeps I (modify f).
Proof. intros Hf w a w' Hw [= <- <-]. auto. Qed.

Lemma keeps_lift_opt {W A} (I : W -> Prop) (o : option A) : keeps I (lift_opt o).
Proof. intros w a w' Hw. unfold lift_opt. destruct o; simpl; intros [= <- <-]. done. Qed.

Lemma keeps_undefined {W A} (I : W -> Prop) : keeps I (undefined : ST W A).
Proof. intros w a w' Hw [=]. Qed.

Create HintDb st.
#[export] Hint Resolve keeps_ret keeps_bind keeps_get keeps_lift_opt keeps_undefined : st.

(** * Iteration of a step function *)
Fixpoint iter_n {A} (n : nat) (f : A -> A) (x : A) : A :=
  match n with O => x | S n => iter_n n f (f x) end.

Lemma iter_n_add {A} (f : A -> A) n m x :
  iter_n (n + m) f x = iter_n m f (iter_n n f x).
Proof. revert x; induction n; simpl; auto. Qed.

Lemma iter_n_inv {A} (P : A -> Prop) (f : A -> A) n x :
  (forall y, P y -> P (f y)) -> P x -> P (iter_n n f x).
Proof. intros Hf; revert x; induction n; simpl; auto. Qed.
