(* ===== verification/Mqttsn.v ===== *)
(** MQTT-SN client state machine: [src/software/mcu/libraries/arduino-mqtt-sn/]
    [mqttsn.h], [mqttsn-messages.h] and [mqttsn-messages.cpp].

    The object is the record [mqttsn]; every method is a computation of the
    monad [ST (world E)], where [E] is the state a derived class adds.  Writes
    outside the 92-byte message buffer are [None].  Virtual methods are the
    fields of [vtable]; [send_message_impl] is recorded as an event. *)
From S2P Require Import Prelude.

(** * Constants of [mqttsn.h] *)
Definition PROTOCOL_ID := 1.
Definition FLAG_QOS_0 := 0x00.
Definition FLAG_QOS_1 := 0x20.
Definition FLAG_QOS_2 := 0x40.
Definition FLAG_QOS_M1 := 0x60.
Definition FLAG_TOPIC_NAME := 0x00.
Definition FLAG_TOPIC_PREDEFINED_ID := 0x01.
Definition QOS_MASK := Z.lor (Z.lor FLAG_QOS_0 FLAG_QOS_1) (Z.lor FLAG_QOS_2 FLAG_QOS_M1).
Definition T_RETRY := 15.
Definition N_RETRY := 5.
Definition MAX_TOPICS := 10.
Definition MAX_BUFFER_SIZE : nat := 92.

(** [enum return_code_t]: a packed one-byte enumeration. *)
Inductive return_code_t :=
  ACCEPTED | REJECTED_CONGESTION | REJECTED_INVALID_TOPIC_ID | REJECTED_NOT_SUPPORTED.
Definition return_code (r : return_code_t) : Z :=
  match r with
  | ACCEPTED => 0 | REJECTED_CONGESTION => 1
  | REJECTED_INVALID_TOPIC_ID => 2 | REJECTED_NOT_SUPPORTED => 3
  end.

(** [enum message_type]: a packed one-byte enumeration with gaps. *)
Inductive message_type :=
  | ADVERTISE | SEARCHGW | GWINFO | CONNECT | CONNACK | WILLTOPICREQ | WILLTOPIC
  | WILLMSGREQ | WILLMSG | REGISTER | REGACK | PUBLISH | PUBACK | PUBCOMP | PUBREC
  | PUBREL | SUBSCRIBE | SUBACK | UNSUBSCRIBE | UNSUBACK | PINGREQ | PINGRESP
  | DISCONNECT | WILLTOPICUPD | WILLTOPICRESP | WILLMSGUPD | WILLMSGRESP.
#[export] Instance message_type_eq_dec : EqDecision message_type.
Proof. solve_decision. Defined.

Definition code (t : message_type) : Z :=
  match t with
  | ADVERTISE => 0x00 | SEARCHGW => 0x01 | GWINFO => 0x02 | CONNECT => 0x04
  | CONNACK => 0x05 | WILLTOPICREQ => 0x06 | WILLTOPIC => 0x07 | WILLMSGREQ => 0x08
  | WILLMSG => 0x09 | REGISTER => 0x0a | REGACK => 0x0b | PUBLISH => 0x0c
  | PUBACK => 0x0d | PUBCOMP => 0x0e | PUBREC => 0x0f | PUBREL => 0x10
  | SUBSCRIBE => 0x12 | SUBACK => 0x13 | UNSUBSCRIBE => 0x14 | UNSUBACK => 0x15
  | PINGREQ => 0x16 | PINGRESP => 0x17 | DISCONNECT => 0x18 | WILLTOPICUPD => 0x1a
  | WILLTOPICRESP => 0x1b | WILLMSGUPD => 0x1c | WILLMSGRESP => 0x1d
  end.

Definition all_types : list message_type :=
  [ADVERTISE; SEARCHGW; GWINFO; CONNECT; CONNACK; WILLTOPICREQ; WILLTOPIC;
   WILLMSGREQ; WILLMSG; REGISTER; REGACK; PUBLISH; PUBACK; PUBCOMP; PUBREC;
   PUBREL; SUBSCRIBE; SUBACK; UNSUBSCRIBE; UNSUBACK; PINGREQ; PINGRESP;
   DISCONNECT; WILLTOPICUPD; WILLTOPICRESP; WILLMSGUPD; WILLMSGRESP].

(** The enumerator a byte denotes, [None] for the unassigned codes. *)
Definition type_of (b : Z) : option message_type :=
  List.find (fun t => code t =? b) all_types.

(** [sizeof] of the packed message structures. *)
Definition sizeof_header : nat := 2.
Definition sizeof_searchgw : nat := 3.
Definition sizeof_connect : nat := 6.
Definition sizeof_willtopic : nat := 3.
Definition sizeof_willmsg : nat := 2.
Definition sizeof_register : nat := 6.
Definition sizeof_regack : nat := 7.
Definition sizeof_publish : nat := 7.
Definition sizeof_puback : nat := 7.
Definition sizeof_pubqos2 : nat := 4.
Definition sizeof_subscribe : nat := 7.
Definition sizeof_unsubscribe : nat := 7.
Definition sizeof_pingreq : nat := 2.
Definition sizeof_disconnect : nat := 4.

(** [bswap]: [(val << 8) | (val >> 8)] returned as [uint16_t]. *)
Definition bswap (val : Z) : Z := u16 (Z.lor (Z.shiftl val 8) (Z.shiftr val 8)).

(** * The object *)

(** [struct topic]: the name is a pointer, not a copy of the characters. *)
Record topic := Topic { t_name : Z; t_id : Z }.

Record mqttsn := MQTTSN {
  waiting_for_response : bool;
  response_to_wait_for : Z;
  message_id : Z;
  topic_count : Z;
  message_buffer : list Z;
  response_buffer : list Z;
  topic_table : list topic;
  gateway_id : Z;
  response_timer : Z;
  response_retries : Z
}.

(** The constructor. *)
Definition new_MQTTSN : mqttsn :=
  MQTTSN true (code ADVERTISE) 0 0 (replicate MAX_BUFFER_SIZE 0)
         (replicate MAX_BUFFER_SIZE 0) (replicate (Z.to_nat MAX_TOPICS) (Topic 0 0)) 0 0 0.

Definition set_waiting (b : bool) (o : mqttsn) : mqttsn :=
  MQTTSN b (response_to_wait_for o) (message_id o) (topic_count o) (message_buffer o)
    (response_buffer o) (topic_table o) (gateway_id o) (response_timer o) (response_retries o).
Definition await (t : message_type) (o : mqttsn) : mqttsn :=
  MQTTSN true (code t) (message_id o) (topic_count o) (message_buffer o)
    (response_buffer o) (topic_table o) (gateway_id o) (response_timer o) (response_retries o).
Definition next_message_id (o : mqttsn) : mqttsn :=
  MQTTSN (waiting_for_response o) (response_to_wait_for o) (u16 (message_id o + 1))
    (topic_count o) (message_buffer o) (response_buffer o) (topic_table o) (gateway_id o)
    (response_timer o) (response_retries o).
Definition set_message_buffer (b : list Z) (o : mqttsn) : mqttsn :=
  MQTTSN (waiting_for_response o) (response_to_wait_for o) (message_id o) (topic_count o) b
    (response_buffer o) (topic_table o) (gateway_id o) (response_timer o) (response_retries o).
Definition set_response_buffer (b : list Z) (o : mqttsn) : mqttsn :=
  MQTTSN (waiting_for_response o) (response_to_wait_for o) (message_id o) (topic_count o)
    (message_buffer o) b (topic_table o) (gateway_id o) (response_timer o) (response_retries o).
Definition set_topics (t : list topic) (n : Z) (o : mqttsn) : mqttsn :=
  MQTTSN (waiting_for_response o) (response_to_wait_for o) (message_id o) n (message_buffer o)
    (response_buffer o) t (gateway_id o) (response_timer o) (response_retries o).
Definition set_gateway (g : Z) (o : mqttsn) : mqttsn :=
  MQTTSN (waiting_for_response o) (response_to_wait_for o) (message_id o) (topic_count o)
    (message_buffer o) (response_buffer o) (topic_table o) g (response_timer o) (response_retries o).
Definition set_timer (t r : Z) (o : mqttsn) : mqttsn :=
  MQTTSN (waiting_for_response o) (response_to_wait_for o) (message_id o) (topic_count o)
    (message_buffer o) (response_buffer o) (topic_table o) (gateway_id o) t r.

(** The world of a method call: the object, the derived class's state, the
    argument lists of the [send_message_impl] calls so far (most recent last:
    the buffer contents and the length passed) and the value of [millis()]. *)
Record world (E : Type) := World {
  obj : mqttsn; ext : E; sent : list (list Z * Z); millis : Z }.
Arguments World {E}. Arguments obj {E}. Arguments ext {E}.
Arguments sent {E}. Arguments millis {E}.

(** The virtual methods a derived class may override. *)
Record vtable (E : Type) := VTable {
  v_parse_impl : ST (world E) bool;
  v_advertise_handler : ST (world E) ();
  v_gwinfo_handler : ST (world E) ();
  v_connack_handler : ST (world E) ();
  v_willtopicreq_handler : ST (world E) ();
  v_willmsgreq_handler : ST (world E) ();
  v_regack_handler : ST (world E) ();
  v_publish_handler : ST (world E) ();
  v_register_handler : ST (world E) ();
  v_puback_handler : ST (world E) ();
  v_suback_handler : ST (world E) ();
  v_unsuback_handler : ST (world E) ();
  v_pingreq_handler : ST (world E) ();
  v_pingresp_handler : ST (world E) ();
  v_disconnect_handler : ST (world E) ();
  v_willtopicresp_handler : ST (world E) ();
  v_willmsgresp_handler : ST (world E) ()
}.
Arguments VTable {E}.
Arguments v_parse_impl {E}. Arguments v_advertise_handler {E}.
Arguments v_gwinfo_handler {E}. Arguments v_connack_handler {E}.
Arguments v_willtopicreq_handler {E}. Arguments v_willmsgreq_handler {E}.
Arguments v_regack_handler {E}. Arguments v_publish_handler {E}.
Arguments v_register_handler {E}. Arguments v_puback_handler {E}.
Arguments v_suback_handler {E}. Arguments v_unsuback_handler {E}.
Arguments v_pingreq_handler {E}. Arguments v_pingresp_handler {E}.
Arguments v_disconnect_handler {E}. Arguments v_willtopicresp_handler {E}.
Arguments v_willmsgresp_handler {E}.

(** * Methods *)
Section Methods.
Context {E : Type}.
Implicit Types w : world E.

Definition on_obj (f : mqttsn -> mqttsn) : ST (world E) () :=
  modify (fun w => World (f (obj w)) (ext w) (sent w) (millis w)).
Definition this : ST (world E) mqttsn := w ← get; mret (obj w).

(** Stores [bs] at offset [off] of [message_buffer]. *)
Definition put_msg (off : nat) (bs : list Z) : ST (world E) () :=
  o ← this;
  b ← lift_opt (store (message_buffer o) off bs);
  on_obj (set_message_buffer b).

(** Loads [n] bytes at offset [off] of [response_buffer]. *)
Definition get_resp (off n : nat) : ST (world E) (list Z) :=
  o ← this; lift_opt (load (response_buffer o) off n).

(** [strcpy] into the message buffer: the characters and the terminator. *)
Definition strcpy_msg (off : nat) (s : list Z) : ST (world E) () :=
  put_msg off (s ++ [0]).

Definition send_message_impl (msg : list Z) (length : Z) : ST (world E) () :=
  modify (fun w => World (obj w) (ext w) (sent w ++ [(msg, length)]) (millis w)).

Definition send_message : ST (world E) () :=
  o ← this;
  hdr ← lift_opt (load (message_buffer o) 0 1);
  send_message_impl (message_buffer o) (hd 0 hdr);;
  w ← get;
  when (negb (waiting_for_response (obj w)))
    (on_obj (set_timer (u32 (millis w)) N_RETRY)).

Definition searchgw (radius : Z) : ST (world E) () :=
  put_msg 0 [Z.of_nat sizeof_searchgw];; put_msg 1 [code SEARCHGW];;
  put_msg 2 [u8 radius];;
  send_message;;
  on_obj (await GWINFO).

Definition connect (flags duration : Z) (client_id : list Z) : ST (world E) () :=
  put_msg 0 [u8 (Z.of_nat (sizeof_connect + length client_id))];;
  put_msg 1 [code CONNECT];; put_msg 2 [u8 flags];; put_msg 3 [PROTOCOL_ID];;
  put_msg 4 (le16 (bswap duration));;
  strcpy_msg 6 client_id;;
  send_message;;
  on_obj (await CONNACK).

Definition willtopic (flags : Z) (will_topic : option (list Z)) (update : bool)
    : ST (world E) () :=
  match will_topic with
  | None =>
      put_msg 1 [code (if update then WILLTOPICUPD else WILLTOPIC)];;
      put_msg 0 [Z.of_nat sizeof_header]
  | Some s =>
      put_msg 1 [code (if update then WILLTOPICUPD else WILLTOPIC)];;
      put_msg 2 [u8 flags];;
      strcpy_msg 3 s
  end;;
  send_message.

Definition willmsg (will_msg : list Z) (update : bool) : ST (world E) () :=
  put_msg 0 [u8 (Z.of_nat (sizeof_willmsg + length will_msg))];;
  put_msg 1 [code (if update then WILLMSGUPD else WILLMSG)];;
  put_msg 2 will_msg;;
  send_message.

Definition disconnect (duration : Z) : ST (world E) () :=
  put_msg 0 [Z.of_nat sizeof_header];; put_msg 1 [code DISCONNECT];;
  when (0 <? duration)
    (o ← this;
     len ← lift_opt (load (message_buffer o) 0 1);
     put_msg 0 [u8 (hd 0 len + Z.of_nat sizeof_disconnect)];;
     put_msg 2 (le16 (bswap duration)));;
  send_message;;
  on_obj (await DISCONNECT).

(** [register_topic(name)]: [ptr] is the pointer, [str] the characters there. *)
Definition register_topic (ptr : Z) (str : list Z) : ST (world E) bool :=
  o ← this;
  if negb (waiting_for_response o) && (topic_count o <? MAX_TOPICS - 1) then
    on_obj next_message_id;;
    on_obj (fun o => set_topics
      (<[Z.to_nat (topic_count o) := Topic ptr 0]> (topic_table o)) (topic_count o) o);;
    o ← this;
    put_msg 0 [u8 (Z.of_nat (sizeof_register + length str))];;
    put_msg 1 [code REGISTER];;
    put_msg 2 (le16 0);; put_msg 4 (le16 (bswap (message_id o)));;
    strcpy_msg 6 str;;
    send_message;;
    on_obj (await REGACK);;
    mret true
  else mret false.

Definition regack (topic_id msg_id : Z) (rc : return_code_t) : ST (world E) () :=
  put_msg 0 [Z.of_nat sizeof_regack];; put_msg 1 [code REGACK];;
  put_msg 2 (le16 (bswap topic_id));; put_msg 4 (le16 (bswap msg_id));;
  put_msg 6 [return_code rc];;
  send_message.

Definition qos_1_or_2 (flags : Z) : bool :=
  (Z.land flags QOS_MASK =? FLAG_QOS_1) || (Z.land flags QOS_MASK =? FLAG_QOS_2).

Definition publish (flags topic_id : Z) (data : list Z) : ST (world E) () :=
  on_obj next_message_id;;
  o ← this;
  put_msg 0 [u8 (Z.of_nat (sizeof_publish + length data))];;
  put_msg 1 [code PUBLISH];; put_msg 2 [u8 flags];;
  put_msg 3 (le16 (bswap topic_id));; put_msg 5 (le16 (bswap (message_id o)));;
  put_msg 7 data;;
  send_message;;
  when (qos_1_or_2 flags) (on_obj (await PUBACK)).

(** [pubrec], [pubrel] and [pubcomp] (compiled with [USE_QOS2]). *)
Definition pubqos2 (t : message_type) : ST (world E) () :=
  o ← this;
  put_msg 0 [Z.of_nat sizeof_pubqos2];; put_msg 1 [code t];;
  put_msg 2 (le16 (bswap (message_id o)));;
  send_message.
Definition pubrec := pubqos2 PUBREC.
Definition pubrel := pubqos2 PUBREL.
Definition pubcomp := pubqos2 PUBCOMP.

Definition puback (topic_id msg_id : Z) (rc : return_code_t) : ST (world E) () :=
  put_msg 0 [Z.of_nat sizeof_puback];; put_msg 1 [code PUBACK];;
  put_msg 2 (le16 (bswap topic_id));; put_msg 4 (le16 (bswap msg_id));;
  put_msg 6 [return_code rc];;
  send_message.

(** The body [subscribe_by_name] and [unsubscribe_by_name] share. *)
Definition subunsub_by_name (t reply : message_type) (size : nat) (flags : Z)
    (topic_name : list Z) : ST (world E) () :=
  on_obj next_message_id;;
  o ← this;
  put_msg 0 [u8 (Z.of_nat (size + length topic_name) - 2)];;
  put_msg 1 [code t];;
  put_msg 2 [u8 (Z.lor (Z.land flags QOS_MASK) FLAG_TOPIC_NAME)];;
  put_msg 3 (le16 (bswap (message_id o)));;
  strcpy_msg 5 topic_name;;
  send_message;;
  when (qos_1_or_2 flags) (on_obj (await reply)).
Definition subscribe_by_name := subunsub_by_name SUBSCRIBE SUBACK sizeof_subscribe.
Definition unsubscribe_by_name :=
  subunsub_by_name UNSUBSCRIBE UNSUBACK sizeof_unsubscribe.

Definition subunsub_by_id (t reply : message_type) (size : nat) (flags topic_id : Z)
    : ST (world E) () :=
  on_obj next_message_id;;
  o ← this;
  put_msg 0 [Z.of_nat size];; put_msg 1 [code t];;
  put_msg 2 [u8 (Z.lor (Z.land flags QOS_MASK) FLAG_TOPIC_PREDEFINED_ID)];;
  put_msg 3 (le16 (bswap (message_id o)));;
  put_msg 5 (le16 (bswap topic_id));;
  send_message;;
  when (qos_1_or_2 flags) (on_obj (await reply)).
Definition subscribe_by_id := subunsub_by_id SUBSCRIBE SUBACK sizeof_subscribe.
Definition unsubscribe_by_id := subunsub_by_id UNSUBSCRIBE UNSUBACK sizeof_unsubscribe.

Definition pingreq (client_id : list Z) : ST (world E) () :=
  put_msg 0 [u8 (Z.of_nat (sizeof_pingreq + length client_id))];;
  put_msg 1 [code PINGREQ];;
  strcpy_msg 2 client_id;;
  send_message;;
  on_obj (await PINGRESP).

Definition pingresp : ST (world E) () :=
  put_msg 0 [Z.of_nat sizeof_header];; put_msg 1 [code PINGRESP];;
  send_message.

Definition timeout : ST (world E) () := on_obj (await ADVERTISE).

(** ** Topic lookup *)

(** The loop of [find_topic_id]: [deref] gives the characters at a pointer. *)
Fixpoint find_topic_from (deref : Z -> list Z) (nm : list Z) (i : Z) (l : list topic)
    : option (Z * Z) :=
  match l with
  | [] => None
  | t :: r => if decide (deref (t_name t) = nm) then Some (i, t_id t)
              else find_topic_from deref nm (i + 1) r
  end.

(** Returns the topic id and the value [index] has after the call. *)
Definition find_topic_id (deref : Z -> list Z) (nm : list Z) (index : Z) (o : mqttsn)
    : Z * Z :=
  match find_topic_from deref nm 0 (take (Z.to_nat (topic_count o)) (topic_table o)) with
  | Some (i, tid) => (tid, i)
  | None => (0xffff, index)
  end.

Definition knows_topic (tid : Z) (o : mqttsn) : bool :=
  existsb (fun t => t_id t =? tid) (take (Z.to_nat (topic_count o)) (topic_table o)).

(** ** Default handlers of the base class *)

Definition advertise_handler : ST (world E) () :=
  g ← get_resp 2 1; on_obj (set_gateway (hd 0 g)).

Definition regack_handler : ST (world E) () :=
  tid ← get_resp 2 2; mid ← get_resp 4 2; rc ← get_resp 6 1;
  o ← this;
  when ((hd 0 rc =? 0) && (topic_count o <? MAX_TOPICS)
        && (bswap (of_le16 mid) =? message_id o))
    (let topic_id := bswap (of_le16 tid) in
     when (negb (knows_topic topic_id o))
       (on_obj (fun o => set_topics
          (alter (fun t => Topic (t_name t) topic_id) (Z.to_nat (topic_count o))
                 (topic_table o))
          (topic_count o + 1) o))).

Definition pingreq_handler : ST (world E) () := pingresp.

Definition publish_handler : ST (world E) () :=
  fl ← get_resp 2 1; tid ← get_resp 3 2; mid ← get_resp 5 2;
  o ← this;
  when (negb (Z.land (hd 0 fl) FLAG_QOS_1 =? 0))
    (puback (of_le16 tid) (of_le16 mid)
       (if knows_topic (bswap (of_le16 tid)) o then ACCEPTED
        else REJECTED_INVALID_TOPIC_ID)).

(** [uint8_t index] is not initialised before [find_topic_id]: [junk] is its
    indeterminate value, [deref] reads C strings.  The test
    [index != 0xffff] compares an 8-bit value. *)
Definition register_handler (deref : Z -> list Z) (junk : Z) : ST (world E) () :=
  o ← this;
  nm ← get_resp 6 (length (response_buffer o) - 6);
  if decide (0 ∈ nm) then
    let index := snd (find_topic_id deref (c_string nm) (u8 junk) o) in
    tid ← get_resp 2 2; mid ← get_resp 4 2;
    if negb (index =? 0xffff) then
      (if index <? MAX_TOPICS then
         on_obj (fun o => set_topics
           (alter (fun t => Topic (t_name t) (bswap (of_le16 tid))) (Z.to_nat index)
                  (topic_table o)) (topic_count o) o)
       else undefined);;
      regack (of_le16 tid) (of_le16 mid) ACCEPTED
    else regack (of_le16 tid) (of_le16 mid) REJECTED_INVALID_TOPIC_ID
  else undefined.

(** The virtual table of the base class ([parse_impl] is pure virtual). *)
Definition base_vtable (parse_impl : ST (world E) bool) (deref : Z -> list Z) (junk : Z)
    : vtable E :=
  VTable parse_impl advertise_handler (mret ()) (mret ()) (mret ()) (mret ())
    regack_handler publish_handler (register_handler deref junk) (mret ()) (mret ())
    (mret ()) pingreq_handler (mret ()) (mret ()) (mret ()) (mret ()).

(** ** Receiving *)
Section Virtual.
Context (vt : vtable E).

Definition awaiting (t : message_type) (o : mqttsn) : bool :=
  waiting_for_response o && (response_to_wait_for o =? code t).

(** A case of [dispatch] that is only handled while its reply is awaited. *)
Definition if_awaited (t : message_type) (h : ST (world E) ()) : ST (world E) bool :=
  o ← this; if awaiting t o then h;; mret true else mret false.

Definition always (h : ST (world E) ()) : ST (world E) bool := h;; mret true.

(** The switch: [None] for the default branch, else the value of [handled]. *)
Definition dispatch_switch (ty : Z) : option (ST (world E) bool) :=
  match type_of ty with
  | Some ADVERTISE => Some (if_awaited ADVERTISE (v_advertise_handler vt))
  | Some GWINFO => Some (always (v_gwinfo_handler vt))
  | Some CONNACK => Some (if_awaited CONNACK (v_connack_handler vt))
  | Some WILLTOPICREQ => Some (always (v_willtopicreq_handler vt))
  | Some WILLMSGREQ => Some (always (v_willmsgreq_handler vt))
  | Some REGISTER => Some (always (v_register_handler vt))
  | Some REGACK => Some (if_awaited REGACK (v_regack_handler vt))
  | Some PUBLISH => Some (always (v_publish_handler vt))
  | Some PUBACK => Some (if_awaited PUBACK (v_puback_handler vt))
  | Some SUBACK => Some (if_awaited SUBACK (v_suback_handler vt))
  | Some UNSUBACK => Some (if_awaited UNSUBACK (v_unsuback_handler vt))
  | Some PINGREQ => Some (always (v_pingreq_handler vt))
  | Some PINGRESP => Some (if_awaited PINGRESP (v_pingresp_handler vt))
  | Some DISCONNECT => Some (always (v_disconnect_handler vt))
  | Some WILLTOPICRESP => Some (if_awaited WILLTOPICRESP (v_willtopicresp_handler vt))
  | Some WILLMSGRESP => Some (if_awaited WILLMSGRESP (v_willmsgresp_handler vt))
  | _ => None
  end.

Definition dispatch : ST (world E) () :=
  ty ← get_resp 1 1;
  match dispatch_switch (hd 0 ty) with
  | None => mret ()
  | Some body => handled ← body; when handled (on_obj (set_waiting false))
  end.

Definition parse : ST (world E) () :=
  ok ← v_parse_impl vt; when ok dispatch.

(** [millis() - _response_timer] is a 32-bit unsigned difference. *)
Definition wait_for_response : ST (world E) bool :=
  w ← get;
  when (waiting_for_response (obj w)
        && (T_RETRY * 1000 <? u32 (millis w - response_timer (obj w))))
    (on_obj (fun o => set_timer (u32 (millis w)) (response_retries o) o);;
     (if response_retries (obj w) =? 0
      then on_obj (set_waiting false);; v_disconnect_handler vt
      else send_message);;
     on_obj (fun o => set_timer (response_timer o) (u8 (response_retries o - 1)) o));;
  o ← this; mret (waiting_for_response o).
End Virtual.
End Methods.
