(* ===== verification/MqttsnFacts.v ===== *)
(** Properties of the MQTT-SN client of [Mqttsn]: what each request puts on
    the wire (against an independent decoder of the MQTT-SN 1.2 formats), the
    object invariant over every reachable state, the retry budget and the
    filtering of unsolicited replies. *)
From S2P Require Import Prelude Mqttsn.

(** * The wire format, as a broker reads it *)

Inductive packet :=
  | P_searchgw (radius : Z)
  | P_connect (flags protocol duration : Z) (client : list Z)
  | P_willtopic (update : bool) (flags_topic : option (Z * list Z))
  | P_willmsg (update : bool) (msg : list Z)
  | P_register (topic msgid : Z) (nm : list Z)
  | P_regack (topic msgid rc : Z)
  | P_publish (flags topic msgid : Z) (data : list Z)
  | P_puback (topic msgid rc : Z)
  | P_pubrec (msgid : Z)
  | P_pubrel (msgid : Z)
  | P_pubcomp (msgid : Z)
  | P_subscribe (flags msgid : Z) (rest : list Z)
  | P_unsubscribe (flags msgid : Z) (rest : list Z)
  | P_pingreq (client : list Z)
  | P_pingresp
  | P_disconnect (duration : option Z).

(** Multi-byte fields travel most significant byte first. *)
Definition be16 (hi lo : Z) : Z := 256 * hi + lo.

(** The fixed part of a WILLTOPIC or WILLTOPICUPD message. *)
Definition decode_willtopic (update : bool) (body : list Z) : packet :=
  match body with
  | [] => P_willtopic update None
  | fl :: t => P_willtopic update (Some (fl, t))
  end.

(** The message types are the numbers of MQTT-SN 1.2, section 5.2.2: the table
    [code] of the client is not used. *)
Definition decode_body (ty : Z) (body : list Z) : option packet :=
  match ty with
  | 0x01 => match body with [r] => Some (P_searchgw r) | _ => None end
  | 0x04 => match body with
            | fl :: pr :: d1 :: d2 :: c => Some (P_connect fl pr (be16 d1 d2) c)
            | _ => None end
  | 0x07 => Some (decode_willtopic false body)
  | 0x09 => Some (P_willmsg false body)
  | 0x0a => match body with
            | t1 :: t2 :: m1 :: m2 :: nm => Some (P_register (be16 t1 t2) (be16 m1 m2) nm)
            | _ => None end
  | 0x0b => match body with
            | [t1; t2; m1; m2; rc] => Some (P_regack (be16 t1 t2) (be16 m1 m2) rc)
            | _ => None end
  | 0x0c => match body with
            | fl :: t1 :: t2 :: m1 :: m2 :: d =>
                Some (P_publish fl (be16 t1 t2) (be16 m1 m2) d)
            | _ => None end
  | 0x0d => match body with
            | [t1; t2; m1; m2; rc] => Some (P_puback (be16 t1 t2) (be16 m1 m2) rc)
            | _ => None end
  | 0x0e => match body with [m1; m2] => Some (P_pubcomp (be16 m1 m2)) | _ => None end
  | 0x0f => match body with [m1; m2] => Some (P_pubrec (be16 m1 m2)) | _ => None end
  | 0x10 => match body with [m1; m2] => Some (P_pubrel (be16 m1 m2)) | _ => None end
  | 0x12 => match body with
            | fl :: m1 :: m2 :: r => Some (P_subscribe fl (be16 m1 m2) r)
            | _ => None end
  | 0x14 => match body with
            | fl :: m1 :: m2 :: r => Some (P_unsubscribe fl (be16 m1 m2) r)
            | _ => None end
  | 0x16 => Some (P_pingreq body)
  | 0x17 => match body with [] => Some P_pingresp | _ => None end
  | 0x18 => match body with
            | [] => Some (P_disconnect None)
            | [d1; d2] => Some (P_disconnect (Some (be16 d1 d2)))
            | _ => None end
  | 0x1a => Some (decode_willtopic true body)
  | 0x1c => Some (P_willmsg true body)
  | _ => None
  end.

(** A datagram is a packet when its length byte is its length. *)
Definition decode (bs : list Z) : option packet :=
  match bs with
  | len :: ty :: body =>
      if len =? Z.of_nat (length bs) then decode_body ty body else None
  | _ => None
  end.

(** The bytes a [send_message_impl] call hands over. *)
Definition wire (e : list Z * Z) : list Z := take (Z.to_nat (snd e)) (fst e).

(** * Requests of the public interface *)
Inductive request :=
  | R_searchgw (radius : Z)
  | R_connect (flags duration : Z) (client : list Z)
  | R_willtopic (flags : Z) (topic : option (list Z)) (update : bool)
  | R_willmsg (msg : list Z) (update : bool)
  | R_register (ptr : Z) (nm : list Z)
  | R_publish (flags topic : Z) (data : list Z)
  | R_subscribe_by_name (flags : Z) (nm : list Z)
  | R_subscribe_by_id (flags topic : Z)
  | R_unsubscribe_by_name (flags : Z) (nm : list Z)
  | R_unsubscribe_by_id (flags topic : Z)
  | R_pingreq (client : list Z)
  | R_pingresp
  | R_disconnect (duration : Z)
  | R_pubrec | R_pubrel | R_pubcomp.

Definition issue {E} (r : request) : ST (world E) () :=
  match r with
  | R_searchgw x => searchgw x
  | R_connect f d c => connect f d c
  | R_willtopic f t u => willtopic f t u
  | R_willmsg m u => willmsg m u
  | R_register p n => register_topic p n;; mret ()
  | R_publish f t d => publish f t d
  | R_subscribe_by_name f n => subscribe_by_name f n
  | R_subscribe_by_id f t => subscribe_by_id f t
  | R_unsubscribe_by_name f n => unsubscribe_by_name f n
  | R_unsubscribe_by_id f t => unsubscribe_by_id f t
  | R_pingreq c => pingreq c
  | R_pingresp => pingresp
  | R_disconnect d => disconnect d
  | R_pubrec => pubrec
  | R_pubrel => pubrel
  | R_pubcomp => pubcomp
  end.

(** Subscription flags: the QoS bits of [f] and the topic type [ty]. *)
Definition sub_flags (f ty : Z) : Z := Z.lor (Z.land f 0x60) ty.

(** The packet a request is meant to be, [mid] the message id it carries. *)
Definition meaning (r : request) (mid : Z) : packet :=
  match r with
  | R_searchgw x => P_searchgw x
  | R_connect f d c => P_connect f 1 d c
  | R_willtopic f t u => P_willtopic u ((fun t => (f, t)) <$> t)
  | R_willmsg m u => P_willmsg u m
  | R_register _ n => P_register 0 mid n
  | R_publish f t d => P_publish f t mid d
  | R_subscribe_by_name f n => P_subscribe (sub_flags f 0) mid n
  | R_subscribe_by_id f t => P_subscribe (sub_flags f 1) mid [t / 256; t mod 256]
  | R_unsubscribe_by_name f n => P_unsubscribe (sub_flags f 0) mid n
  | R_unsubscribe_by_id f t => P_unsubscribe (sub_flags f 1) mid [t / 256; t mod 256]
  | R_pingreq c => P_pingreq c
  | R_pingresp => P_pingresp
  | R_disconnect d => P_disconnect (if 0 <? d then Some d else None)
  | R_pubrec => P_pubrec mid
  | R_pubrel => P_pubrel mid
  | R_pubcomp => P_pubcomp mid
  end.

(** The bytes a request writes into [message_buffer] (a [strcpy] adds one). *)
Definition footprint (r : request) : nat :=
  match r with
  | R_searchgw _ => 3
  | R_connect _ _ c => 7 + length c
  | R_willtopic _ None _ => 2
  | R_willtopic _ (Some t) _ => 4 + length t
  | R_willmsg m _ => 2 + length m
  | R_register _ n => 7 + length n
  | R_publish _ _ d => 7 + length d
  | R_subscribe_by_name _ n | R_unsubscribe_by_name _ n => 6 + length n
  | R_subscribe_by_id _ _ | R_unsubscribe_by_id _ _ => 7
  | R_pingreq c => 3 + length c
  | R_pingresp => 2
  | R_disconnect d => if 0 <? d then 4 else 2
  | R_pubrec | R_pubrel | R_pubcomp => 4
  end.

(** Arguments in the range of their C types. *)
Definition args_fit (r : request) : Prop :=
  match r with
  | R_searchgw x => byte_ok x
  | R_connect f d c => byte_ok f /\ fits 16 d
  | R_publish f t _ => byte_ok f /\ fits 16 t
  | R_subscribe_by_id f t | R_unsubscribe_by_id f t => byte_ok f /\ fits 16 t
  | R_subscribe_by_name f _ | R_unsubscribe_by_name f _ | R_willtopic f _ _ => byte_ok f
  | R_disconnect d => fits 16 d
  | R_willmsg _ _ | R_register _ _ | R_pingreq _ | R_pingresp
  | R_pubrec | R_pubrel | R_pubcomp => True
  end.

(** [register_topic] returns [false]: a reply is pending or the table is full. *)
Definition refused (r : request) (o : mqttsn) : bool :=
  match r with
  | R_register _ _ => waiting_for_response o || (MAX_TOPICS - 1 <=? topic_count o)
  | _ => false
  end.

(** The requests whose length byte is the length of the message: not
    [disconnect] with a sleep period, which adds the length of the header
    twice, nor [willtopic] with a topic, which leaves the byte the buffer had. *)
Definition announces_length (r : request) (o : mqttsn) : Prop :=
  match r with
  | R_disconnect d => d = 0
  | R_willtopic _ (Some t) _ => hd 0 (message_buffer o) = 3 + Z.of_nat (length t)
  | _ => True
  end.

(** Arguments in the range of their C types; [disconnect] without a sleep
    period; [willtopic] without a topic; [register_topic] when it is not
    refused. *)
Definition request_ok (r : request) (o : mqttsn) : Prop :=
  match r with
  | R_searchgw x => byte_ok x
  | R_connect f d c => byte_ok f /\ fits 16 d
  | R_register _ _ => waiting_for_response o = false /\ topic_count o < MAX_TOPICS - 1
  | R_publish f t _ => byte_ok f /\ fits 16 t
  | R_subscribe_by_id f t | R_unsubscribe_by_id f t => byte_ok f /\ fits 16 t
  | R_subscribe_by_name f _ | R_unsubscribe_by_name f _ => byte_ok f
  | R_willtopic f t _ => byte_ok f /\ t = None
  | R_disconnect d => d = 0
  | _ => True
  end.

Definition buffers_ok (o : mqttsn) : Prop :=
  length (message_buffer o) = MAX_BUFFER_SIZE /\
  length (response_buffer o) = MAX_BUFFER_SIZE.

(** * Arithmetic of the fields *)

Lemma bswap_eq v : fits 16 v -> bswap v = 256 * (v mod 256) + v / 256.
Proof.
  intros Hv. unfold bswap. rewrite (Z.shiftr_div_pow2 v 8) by lia.
  rewrite lor_add_disjoint by word_lia.
  word_lia.
Qed.

Lemma bswap_range v : fits 16 (bswap v).
Proof. apply u16_ok. Qed.

Lemma bswap_involutive v : fits 16 v -> bswap (bswap v) = v.
Proof.
  intros Hv. rewrite (bswap_eq (bswap v)) by apply bswap_range.
  rewrite bswap_eq by done. word_lia.
Qed.

Lemma le16_bswap v : fits 16 v -> le16 (bswap v) = [v / 256; v mod 256].
Proof.
  intros Hv. unfold le16. rewrite bswap_eq by done. f_equal; [|f_equal]; word_lia.
Qed.

Lemma bswap_lo v : fits 16 v -> bswap v mod 256 = v / 256.
Proof. intros Hv. by injection (le16_bswap v Hv). Qed.
Lemma bswap_hi v : fits 16 v -> (bswap v / 256) mod 256 = v mod 256.
Proof. intros Hv. by injection (le16_bswap v Hv). Qed.

Lemma le16_bswap_of_le16 a b : byte_ok a -> byte_ok b -> le16 (bswap (of_le16 [a; b])) = [b; a].
Proof.
  intros Ha Hb. rewrite le16_bswap by (unfold of_le16; word_lia).
  unfold of_le16. f_equal; [|f_equal]; word_lia.
Qed.

Lemma bswap_of_bytes a b : byte_ok a -> byte_ok b -> bswap (of_le16 [a; b]) = be16 a b.
Proof. intros Ha Hb. unfold of_le16. rewrite bswap_eq by word_lia. unfold be16. word_lia. Qed.

Lemma be16_split v : be16 (v / 256) (v mod 256) = v.
Proof. unfold be16. Z.div_mod_to_equations; lia. Qed.

Lemma type_of_code t : type_of (code t) = Some t.
Proof. destruct t; reflexivity. Qed.

Lemma code_type_of b t : type_of b = Some t -> code t = b.
Proof.
  unfold type_of. intros [_ H]%List.find_some. by apply Z.eqb_eq in H.
Qed.

Lemma sub_flags_ok f ty : byte_ok f -> byte_ok ty -> byte_ok (sub_flags f ty).
Proof.
  intros Hf Ht. apply fits_lor; [lia| |done].
  apply fits_land; [lia|unfold fits in *; lia|]. by vm_compute.
Qed.

(** * Building a message from the front of the buffer *)
Section Building.
Context {E : Type}.
Implicit Types w : world E.

(** Consecutive stores from offset [off], then [k]. *)
Fixpoint puts_then {A} (off : nat) (chunks : list (list Z)) (k : ST (world E) A)
    : ST (world E) A :=
  match chunks with
  | [] => k
  | c :: r => put_msg off c;; puts_then (off + length c) r k
  end.

Lemma put_msg_eq off bs o (e : E) s m :
  put_msg off bs (World o e s m) =
  match store (message_buffer o) off bs with
  | Some b => Some ((), World (set_message_buffer b o) e s m)
  | None => None
  end.
Proof. unfold put_msg, this, on_obj. st_unfold. by destruct (store _ _ _). Qed.

Lemma store_front pre b0 bs :
  (length pre + length bs <= length b0)%nat ->
  store (pre ++ drop (length pre) b0) (length pre) bs
  = Some ((pre ++ bs) ++ drop (length (pre ++ bs)) b0).
Proof.
  intros Hl. unfold store. rewrite decide_True
    by (rewrite length_app, length_drop; lia).
  rewrite take_app_length, length_app, <- app_assoc.
  do 3 f_equal. rewrite drop_app_add, drop_drop. done.
Qed.

Lemma puts_from {A} chunks (k : ST (world E) A) pre b0 o e s m :
  (length pre + length (concat chunks) <= length b0)%nat ->
  puts_then (length pre) chunks k
    (World (set_message_buffer (pre ++ drop (length pre) b0) o) e s m)
  = k (World (set_message_buffer ((pre ++ concat chunks)
                ++ drop (length (pre ++ concat chunks)) b0) o) e s m).
Proof.
  revert pre. induction chunks as [|c r IH]; intros pre Hl; simpl in *.
  { by rewrite app_nil_r. }
  rewrite length_app in Hl.
  rewrite ST_bind_eq, put_msg_eq. simpl. rewrite store_front by lia.
  rewrite <- length_app, app_assoc. apply (IH (pre ++ c)). rewrite length_app. lia.
Qed.

Lemma puts_then_eq {A} chunks (k : ST (world E) A) o e s m :
  (length (concat chunks) <= length (message_buffer o))%nat ->
  puts_then 0 chunks k (World o e s m)
  = k (World (set_message_buffer (concat chunks
                ++ drop (length (concat chunks)) (message_buffer o)) o) e s m).
Proof.
  intros Hl. rewrite <- (puts_from chunks k [] (message_buffer o)) by done.
  f_equal. destruct o; done.
Qed.

(** The chain is undefined as soon as it leaves the buffer. *)
Lemma puts_then_overflow {A} chunks (k : ST (world E) A) o e s m :
  (length (message_buffer o) < length (concat chunks))%nat ->
  puts_then 0 chunks k (World o e s m) = None.
Proof.
  intros Hl.
  assert (Hgen : forall pre b0 o, (length pre <= length b0)%nat ->
    (length b0 < length pre + length (concat chunks))%nat ->
    puts_then (length pre) chunks k
      (World (set_message_buffer (pre ++ drop (length pre) b0) o) e s m) = None).
  { clear Hl o. induction chunks as [|c r IH]; intros pre b0 o Hp Hl; simpl in *; [lia|].
    rewrite length_app in Hl. rewrite ST_bind_eq, put_msg_eq. simpl.
    destruct (decide (length pre + length c <= length b0)%nat).
    - rewrite store_front by done. rewrite <- length_app.
      apply IH; rewrite length_app; lia.
    - unfold store. rewrite decide_False; [done|].
      rewrite length_app, length_drop. lia. }
  specialize (Hgen [] (message_buffer o) o). destruct o; apply Hgen; simpl in *; lia.
Qed.

Lemma send_message_eq o (e : E) s m :
  message_buffer o <> [] ->
  send_message (World o e s m)
  = Some ((), World (if waiting_for_response o then o
                     else set_timer (u32 m) N_RETRY o) e
                    (s ++ [(message_buffer o, hd 0 (message_buffer o))]) m).
Proof.
  intros Hb. unfold send_message, this, send_message_impl, on_obj. st_unfold.
  destruct (message_buffer o) as [|x r] eqn:Eb; [done|].
  unfold load. rewrite decide_True by (simpl; lia). simpl.
  destruct (waiting_for_response o); done.
Qed.
End Building.

Lemma get_resp_prefix {E} off n pre rest o (e : E) s m :
  response_buffer o = pre ++ rest -> (off + n <= length pre)%nat ->
  get_resp off n (World o e s m) = Some (take n (drop off pre), World o e s m).
Proof.
  intros Hr Hl. unfold get_resp. rewrite ST_bind_eq.
  change (this ?w) with (Some (obj w, w)). cbv iota beta.
  unfold lift_opt. cbn [obj]. by rewrite Hr, load_app_l.
Qed.

(** * The requests as chains of stores *)
Section Requests.
Context {E : Type}.

(** The stores of a request, in order. *)
Definition chunks (r : request) (mid : Z) : list (list Z) :=
  match r with
  | R_searchgw x => [[3]; [code SEARCHGW]; [u8 x]]
  | R_connect f d c => [[u8 (Z.of_nat (6 + length c))]; [code CONNECT]; [u8 f];
      [PROTOCOL_ID]; le16 (bswap d); c ++ [0]]
  | R_willtopic f None u => [[2]; [code (if u then WILLTOPICUPD else WILLTOPIC)]]
  | R_willtopic f (Some t) u =>
      [[3]; [code (if u then WILLTOPICUPD else WILLTOPIC)]; [u8 f]; t ++ [0]]
  | R_willmsg m u =>
      [[u8 (Z.of_nat (2 + length m))]; [code (if u then WILLMSGUPD else WILLMSG)]; m]
  | R_register _ n => [[u8 (Z.of_nat (6 + length n))]; [code REGISTER]; le16 0;
      le16 (bswap mid); n ++ [0]]
  | R_publish f t d => [[u8 (Z.of_nat (7 + length d))]; [code PUBLISH]; [u8 f];
      le16 (bswap t); le16 (bswap mid); d]
  | R_subscribe_by_name f n => [[u8 (Z.of_nat (7 + length n) - 2)]; [code SUBSCRIBE];
      [u8 (sub_flags f 0)]; le16 (bswap mid); n ++ [0]]
  | R_unsubscribe_by_name f n => [[u8 (Z.of_nat (7 + length n) - 2)]; [code UNSUBSCRIBE];
      [u8 (sub_flags f 0)]; le16 (bswap mid); n ++ [0]]
  | R_subscribe_by_id f t => [[7]; [code SUBSCRIBE];
      [u8 (sub_flags f 1)]; le16 (bswap mid); le16 (bswap t)]
  | R_unsubscribe_by_id f t => [[7]; [code UNSUBSCRIBE];
      [u8 (sub_flags f 1)]; le16 (bswap mid); le16 (bswap t)]
  | R_pingreq c => [[u8 (Z.of_nat (2 + length c))]; [code PINGREQ]; c ++ [0]]
  | R_pingresp => [[2]; [code PINGRESP]]
  | R_disconnect _ => [[2]; [code DISCONNECT]]
  | R_pubrec => [[4]; [code PUBREC]; le16 (bswap mid)]
  | R_pubrel => [[4]; [code PUBREL]; le16 (bswap mid)]
  | R_pubcomp => [[4]; [code PUBCOMP]; le16 (bswap mid)]
  end.

(** The object just before the stores, and the reply awaited afterwards. *)
Definition prepare (r : request) (o : mqttsn) : mqttsn :=
  match r with
  | R_register p _ => let o := next_message_id o in
      set_topics (<[Z.to_nat (topic_count o) := Topic p 0]> (topic_table o)) (topic_count o) o
  | R_publish _ _ _ | R_subscribe_by_name _ _ | R_subscribe_by_id _ _
  | R_unsubscribe_by_name _ _ | R_unsubscribe_by_id _ _ => next_message_id o
  | _ => o
  end.

Definition awaited (r : request) : option message_type :=
  match r with
  | R_searchgw _ => Some GWINFO
  | R_connect _ _ _ => Some CONNACK
  | R_register _ _ => Some REGACK
  | R_publish f _ _ => if qos_1_or_2 f then Some PUBACK else None
  | R_subscribe_by_name f _ | R_subscribe_by_id f _ =>
      if qos_1_or_2 f then Some SUBACK else None
  | R_unsubscribe_by_name f _ | R_unsubscribe_by_id f _ =>
      if qos_1_or_2 f then Some UNSUBACK else None
  | R_pingreq _ => Some PINGRESP
  | R_disconnect _ => Some DISCONNECT
  | R_willtopic _ _ _ | R_willmsg _ _ | R_pingresp | R_pubrec | R_pubrel | R_pubcomp => None
  end.

Definition then_await (r : request) (o : mqttsn) : mqttsn :=
  match awaited r with Some t => await t o | None => o end.

Lemma puts_then_ext {A} off cs (k k' : ST (world E) A) w :
  (forall w, k w = k' w) -> puts_then off cs k w = puts_then off cs k' w.
Proof.
  intros Hk. revert off w. induction cs as [|c r IH]; intros off w; simpl; [done|].
  rewrite !ST_bind_eq. destruct (put_msg off c w) as [[[] w']|]; auto.
Qed.

Lemma puts_then_bind {A B} off cs (k : ST (world E) A) (l : A -> ST (world E) B) w :
  (puts_then off cs k ≫= l) w = puts_then off cs (k ≫= l) w.
Proof.
  revert off w. induction cs as [|c r IH]; intros off w; simpl; [done|].
  rewrite !ST_bind_eq. destruct (put_msg off c w) as [[[] w']|]; [|done].
  rewrite <- IH, ST_bind_eq. done.
Qed.

Lemma tail_ret (w : world E) : (send_message;; mret ()) w = (send_message;; on_obj (fun o => o)) w.
Proof. rewrite !ST_bind_eq. by destruct (send_message w) as [[[] []]|]. Qed.
Lemma tail_none (w : world E) : send_message w = (send_message;; on_obj (fun o => o)) w.
Proof. rewrite !ST_bind_eq. by destruct (send_message w) as [[[] []]|]. Qed.

(** [willtopic] stores the type before the length. *)
Lemma put_type_first c (k : ST (world E) ()) o (e : E) s m :
  buffers_ok o ->
  (put_msg 1 [c];; put_msg 0 [2];; k) (World o e s m)
  = puts_then 0 [[2]; [c]] k (World o e s m).
Proof.
  intros [Hb _]. unfold puts_then. rewrite !ST_bind_eq, !put_msg_eq.
  unfold MAX_BUFFER_SIZE in Hb.
  destruct (message_buffer o) as [|b0 [|b1 r]] eqn:Eb; [done..|].
  unfold store. rewrite !decide_True by (simpl in *; lia). cbn.
  rewrite !ST_bind_eq, !put_msg_eq. unfold store.
  rewrite !decide_True by (simpl in *; lia). by destruct o.
Qed.

Lemma issue_chunks r o (e : E) s m :
  request_ok r o -> buffers_ok o ->
  issue r (World o e s m)
  = puts_then 0 (chunks r (message_id (prepare r o)))
      (send_message;; on_obj (then_await r)) (World (prepare r o) e s m).
Proof.
  intros Hok Hb.
  destruct r as [x|f d c|f t u|ms u|p n|f t d|f n|f t|f n|f t|c| |d| | |]; simpl in Hok;
    unfold then_await; simpl awaited; try reflexivity.
  - destruct Hok as [_ ->]. etransitivity; [|apply puts_then_ext, tail_none].
    unfold issue, willtopic. cbn [chunks prepare]. rewrite <- put_type_first by done.
    rewrite !ST_bind_eq. destruct (put_msg 1 _ _) as [[[] w1]|]; [|done].
    by rewrite !ST_bind_eq.
  - etransitivity; [|apply puts_then_ext, tail_none]. reflexivity.
  - unfold issue. rewrite ST_bind_eq.
    assert (register_topic p n (World o e s m) = puts_then 0
      (chunks (R_register p n) (message_id (prepare (R_register p n) o)))
      (send_message;; on_obj (await REGACK);; mret true)
      (World (prepare (R_register p n) o) e s m)) as ->.
    { unfold register_topic. rewrite ST_bind_eq. simpl.
      destruct Hok as [-> Hc%Z.ltb_lt]. rewrite Hc. reflexivity. }
    rewrite <- (ST_bind_eq _ (fun _ => mret ())), puts_then_bind.
    apply puts_then_ext. intros w. rewrite !ST_bind_eq.
    destruct (send_message w) as [[[] w']|]; [|done]. reflexivity.
  - unfold issue, publish. destruct (qos_1_or_2 f); [reflexivity|].
    etransitivity; [|apply puts_then_ext, tail_ret]. reflexivity.
  - unfold issue, subscribe_by_name, subunsub_by_name. destruct (qos_1_or_2 f); [reflexivity|].
    etransitivity; [|apply puts_then_ext, tail_ret]. reflexivity.
  - unfold issue, subscribe_by_id, subunsub_by_id. destruct (qos_1_or_2 f); [reflexivity|].
    etransitivity; [|apply puts_then_ext, tail_ret]. reflexivity.
  - unfold issue, unsubscribe_by_name, subunsub_by_name.
    destruct (qos_1_or_2 f); [reflexivity|].
    etransitivity; [|apply puts_then_ext, tail_ret]. reflexivity.
  - unfold issue, unsubscribe_by_id, subunsub_by_id. destruct (qos_1_or_2 f); [reflexivity|].
    etransitivity; [|apply puts_then_ext, tail_ret]. reflexivity.
  - etransitivity; [|apply puts_then_ext, tail_none]. reflexivity.
  - simpl in Hok. subst d. reflexivity.
  - etransitivity; [|apply puts_then_ext, tail_none]. reflexivity.
  - etransitivity; [|apply puts_then_ext, tail_none]. reflexivity.
  - etransitivity; [|apply puts_then_ext, tail_none]. reflexivity.
Qed.
End Requests.

(** * Well-formed datagrams *)

Definition kind (r : request) : message_type :=
  match r with
  | R_searchgw _ => SEARCHGW | R_connect _ _ _ => CONNECT
  | R_willtopic _ _ u => if u then WILLTOPICUPD else WILLTOPIC
  | R_willmsg _ u => if u then WILLMSGUPD else WILLMSG
  | R_register _ _ => REGISTER | R_publish _ _ _ => PUBLISH
  | R_subscribe_by_name _ _ | R_subscribe_by_id _ _ => SUBSCRIBE
  | R_unsubscribe_by_name _ _ | R_unsubscribe_by_id _ _ => UNSUBSCRIBE
  | R_pingreq _ => PINGREQ | R_pingresp => PINGRESP | R_disconnect _ => DISCONNECT
  | R_pubrec => PUBREC | R_pubrel => PUBREL | R_pubcomp => PUBCOMP
  end.

(** The message body on the wire, and what [strcpy] leaves behind it. *)
Definition body (r : request) (mid : Z) : list Z :=
  match r with
  | R_searchgw x => [x]
  | R_connect f d c => [f; PROTOCOL_ID; d / 256; d mod 256] ++ c
  | R_willtopic f t _ => match t with None => [] | Some t => f :: t end
  | R_willmsg m _ => m
  | R_register _ n => [0; 0; mid / 256; mid mod 256] ++ n
  | R_publish f t d => [f; t / 256; t mod 256; mid / 256; mid mod 256] ++ d
  | R_subscribe_by_name f n | R_unsubscribe_by_name f n =>
      [sub_flags f 0; mid / 256; mid mod 256] ++ n
  | R_subscribe_by_id f t | R_unsubscribe_by_id f t =>
      [sub_flags f 1; mid / 256; mid mod 256; t / 256; t mod 256]
  | R_pingreq c => c
  | R_pingresp | R_disconnect _ => []
  | R_pubrec | R_pubrel | R_pubcomp => [mid / 256; mid mod 256]
  end.

Definition leftover (r : request) : list Z :=
  match r with
  | R_connect _ _ _ | R_register _ _ | R_subscribe_by_name _ _
  | R_unsubscribe_by_name _ _ | R_pingreq _ | R_willtopic _ (Some _) _ => [0]
  | _ => []
  end.

Lemma sub_flags_u8 f ty : byte_ok f -> byte_ok ty -> u8 (sub_flags f ty) = sub_flags f ty.
Proof. intros. apply trunc_small, sub_flags_ok; done. Qed.

Lemma chunks_shape r mid o :
  request_ok r o -> fits 16 mid -> (footprint r <= MAX_BUFFER_SIZE)%nat ->
  concat (chunks r mid)
  = [2 + Z.of_nat (length (body r mid)); code (kind r)] ++ body r mid ++ leftover r
  /\ length (concat (chunks r mid)) = footprint r.
Proof.
  intros Hok Hm Hf. unfold MAX_BUFFER_SIZE in Hf.
  destruct r; simpl in Hok, Hf; break; simpl;
    (split; [|rewrite ?length_app; simpl; rewrite ?length_app; simpl; lia]).
  all: rewrite ?app_nil_r.
  all: repeat match goal with
       | |- context [bswap ?v mod 256] =>
           rewrite (bswap_lo v), (bswap_hi v) by done
       | |- context [u8 (sub_flags _ _)] => rewrite sub_flags_u8 by (done || by vm_compute)
       | H : byte_ok ?x |- context [u8 ?x] => rewrite (trunc_small 8 x) by done
       end.
  all: simpl; rewrite ?app_nil_r; try reflexivity.
  all: f_equal.
  all: try (rewrite trunc_small by word_lia; lia).
  all: rewrite ?length_app; simpl; try (rewrite trunc_small by word_lia; lia).
Qed.

Lemma decode_body_meaning r mid o :
  request_ok r o -> fits 16 mid ->
  decode_body (code (kind r)) (body r mid) = Some (meaning r mid).
Proof.
  intros Hok Hm.
  destruct r; simpl in *; break; simpl; rewrite ?be16_split; try done; by destruct update.
Qed.

Lemma footprint_body r mid o :
  request_ok r o -> footprint r = (2 + length (body r mid) + length (leftover r))%nat.
Proof. destruct r; simpl; intros; break; simpl; rewrite ?length_app; simpl; lia. Qed.

Lemma prepare_message_id r o : fits 16 (message_id o) -> fits 16 (message_id (prepare r o)).
Proof. destruct r; simpl; auto with words. Qed.

Lemma prepare_buffer r o : message_buffer (prepare r o) = message_buffer o.
Proof. by destruct r. Qed.

(** The object after a request: the message stored, the timer started when no
    reply was pending, and the reply of the request awaited. *)
Definition after_request (r : request) (now : Z) (o : mqttsn) : mqttsn :=
  let o1 := set_message_buffer
    (concat (chunks r (message_id (prepare r o)))
     ++ drop (footprint r) (message_buffer o)) (prepare r o) in
  then_await r (if waiting_for_response o1 then o1 else set_timer (u32 now) N_RETRY o1).

Lemma issue_eq {E} r o (e : E) s m :
  request_ok r o -> buffers_ok o -> fits 16 (message_id o) ->
  (footprint r <= MAX_BUFFER_SIZE)%nat ->
  issue r (World o e s m)
  = Some ((), World (after_request r m o) e
      (s ++ [(message_buffer (after_request r m o),
              2 + Z.of_nat (length (body r (message_id (prepare r o)))))]) m).
Proof.
  intros Hok Hbs Hm Hf. pose proof (proj1 Hbs) as Hb.
  pose proof (prepare_message_id r o Hm) as Hm'.
  destruct (chunks_shape r _ o Hok Hm' Hf) as [Hs Hl].
  rewrite issue_chunks by done.
  rewrite puts_then_eq by (rewrite prepare_buffer; lia).
  rewrite ST_bind_eq, send_message_eq by (rewrite Hs; done).
  unfold on_obj, modify, after_request. rewrite Hl, prepare_buffer. simpl.
  do 3 f_equal. rewrite Hs. simpl.
  unfold then_await. destruct (awaited r), (waiting_for_response _); done.
Qed.

Lemma after_request_buffer r m o :
  message_buffer (after_request r m o)
  = concat (chunks r (message_id (prepare r o))) ++ drop (footprint r) (message_buffer o).
Proof. unfold after_request, then_await. by destruct (awaited r), (waiting_for_response _). Qed.

(** The event [issue] logs. *)
Definition sent_event (r : request) (now : Z) (o : mqttsn) : list Z * Z :=
  (message_buffer (after_request r now o),
   2 + Z.of_nat (length (body r (message_id (prepare r o))))).

Lemma wire_decodes r o m :
  request_ok r o -> buffers_ok o -> fits 16 (message_id o) ->
  (footprint r <= MAX_BUFFER_SIZE)%nat ->
  decode (wire (sent_event r m o)) = Some (meaning r (message_id (prepare r o)))
  /\ (2 + length (body r (message_id (prepare r o))) <= MAX_BUFFER_SIZE)%nat
  /\ buffers_ok (after_request r m o).
Proof.
  intros Hok [Hb1 Hb2] Hm Hf.
  pose proof (prepare_message_id r o Hm) as Hm'.
  destruct (chunks_shape r _ o Hok Hm' Hf) as [Hs Hl].
  pose proof (after_request_buffer r m o) as Hbuf.
  set (mid := message_id (prepare r o)) in *.
  assert (response_buffer (after_request r m o) = response_buffer o) as Hresp.
  { unfold after_request, then_await.
    destruct (awaited r), (waiting_for_response _); by destruct r. }
  split; [|split].
  - unfold wire, sent_event. cbn [fst snd]. fold mid. rewrite Hbuf, Hs, <- !app_assoc.
    replace (Z.to_nat _) with (2 + length (body r mid))%nat by lia.
    simpl. rewrite take_app_length. simpl.
    rewrite (proj2 (Z.eqb_eq _ _)) by lia. by eapply decode_body_meaning.
  - rewrite Hs in Hl. simpl in Hl. rewrite length_app in Hl. unfold MAX_BUFFER_SIZE in *. lia.
  - unfold buffers_ok. rewrite Hbuf, Hresp, length_app, length_drop, Hl. split; lia.
Qed.

(** [disconnect] with a sleep period: four bytes stored, six announced. *)
Lemma disconnect_sleep_eq {E} d o (e : E) s m :
  buffers_ok o -> 0 < d -> fits 16 d ->
  exists o', disconnect d (World o e s m)
    = Some ((), World o' e (s ++ [([6; code DISCONNECT; d / 256; d mod 256]
                                  ++ drop 4 (message_buffer o), 6)]) m)
    /\ buffers_ok o'.
Proof.
  intros [Hb Hr] Hd Hf. unfold disconnect. rewrite (proj2 (Z.ltb_lt 0 d)) by done.
  unfold buffers_ok, MAX_BUFFER_SIZE in *.
  destruct o as [wt rw mid tc mb rb tt gw tm rt]. cbn [message_buffer response_buffer] in *.
  destruct mb as [|b0 [|b1 [|b2 [|b3 r]]]]; try (simpl in Hb; lia).
  unfold put_msg, this, on_obj, lift_opt, modify, when.
  unfold mbind, ST_bind, get, mret, ST_ret, store, load. cbn [obj message_buffer].
  assert (Hle : forall n k, (n <= 4)%nat -> (n <= S (S (S (S k))))%nat) by lia.
  repeat (rewrite decide_True by (simpl; apply Hle; lia); cbn -[decide le16 bswap u8 send_message]).
  rewrite le16_bswap by done. cbn -[decide send_message].
  rewrite send_message_eq by done.
  eexists. split; [reflexivity|]. by destruct wt.
Qed.

(** [willtopic] with a topic: all but the first byte stored, the length
    announced is the byte already there. *)
Lemma willtopic_topic_eq {E} f t (u : bool) o (e : E) s m :
  buffers_ok o -> byte_ok f -> (4 + length t <= MAX_BUFFER_SIZE)%nat ->
  let n := hd 0 (message_buffer o) in
  let b := [n; code (if u then WILLTOPICUPD else WILLTOPIC); f] ++ t ++ [0]
           ++ drop (4 + length t) (message_buffer o) in
  exists o', willtopic f (Some t) u (World o e s m)
    = Some ((), World o' e (s ++ [(b, n)]) m)
    /\ buffers_ok o' /\ length b = MAX_BUFFER_SIZE.
Proof.
  intros [Hb Hr] Hf Hl n b.
  assert (message_buffer o = [n] ++ drop 1 (message_buffer o)) as Hn.
  { subst n. by destruct (message_buffer o). }
  set (c := code (if u then WILLTOPICUPD else WILLTOPIC)) in *.
  assert (length b = MAX_BUFFER_SIZE) as Hlb.
  { subst b. rewrite !length_app, length_drop. simpl. rewrite ?length_app. simpl. lia. }
  assert (willtopic f (Some t) u (World o e s m)
    = puts_then 1 [[c]; [f]; t ++ [0]] send_message (World o e s m)) as ->.
  { unfold willtopic, strcpy_msg. fold c.
    rewrite (trunc_small 8 f) by done. unfold puts_then. cbn [length Nat.add]. rewrite !ST_bind_eq.
    destruct (put_msg 1 [c] _) as [[[] w1]|]; [|done]. rewrite !ST_bind_eq.
    destruct (put_msg 2 [f] _) as [[[] w2]|]; [|done]. by rewrite !ST_bind_eq. }
  pose proof (puts_from [[c]; [f]; t ++ [0]] send_message [n] (message_buffer o) o e s m) as Hp.
  cbn [length] in Hp. rewrite <- Hn in Hp.
  replace (set_message_buffer (message_buffer o) o) with o in Hp by by destruct o.
  rewrite Hp by (simpl; rewrite !length_app; simpl; lia). clear Hp.
  assert (([n] ++ concat [[c]; [f]; t ++ [0]]) ++ drop (length ([n] ++ concat [[c]; [f]; t ++ [0]]))
            (message_buffer o) = b) as ->.
  { subst b. cbn [concat app length]. rewrite app_nil_r, length_app, Nat.add_1_r.
    by rewrite <- app_assoc. }
  rewrite send_message_eq by done. eexists. split; [reflexivity|]. split; [|done].
  by destruct (waiting_for_response _).
Qed.

(** ... so it decodes to the will topic only if that byte is right. *)
Lemma willtopic_decodes n (u : bool) f t rest :
  (4 + length t + length rest = MAX_BUFFER_SIZE)%nat ->
  decode (wire ([n; code (if u then WILLTOPICUPD else WILLTOPIC); f] ++ t ++ [0] ++ rest, n))
  = Some (P_willtopic u (Some (f, t))) <-> n = 3 + Z.of_nat (length t).
Proof.
  intros Hl. unfold wire. cbn [fst snd]. set (c := code _).
  assert (forall body, decode_body c body = Some (decode_willtopic u body)) as Hc
    by (intros; subst c; by destruct u).
  split.
  - destruct (Z.to_nat n) as [|[|[|k]]] eqn:En; [done..| |]; cbn [app take decode];
      (destruct (_ =? _) eqn:El; [|done]); apply Z.eqb_eq in El; rewrite Hc; [done|].
    intros [= Ht]. rewrite Ht in El. simpl in El. lia.
  - intros ->. replace (Z.to_nat _) with (3 + length t)%nat by lia.
    cbn [Nat.add app take decode]. rewrite take_app_length, Hc.
    rewrite (proj2 (Z.eqb_eq _ _)) by (simpl; lia). done.
Qed.

(** A refused registration does nothing. *)
Lemma issue_refused {E} r (w : world E) :
  refused r (obj w) = true -> issue r w = Some ((), w).
Proof.
  destruct r; try done. cbn [refused]. intros Hr. unfold issue, register_topic.
  rewrite !ST_bind_eq. change (this w) with (Some (obj w, w)). cbv beta iota.
  replace (negb _ && _) with false; [done|].
  symmetry. destruct (waiting_for_response _); [done|]. simpl in *.
  apply Z.leb_le in Hr. apply Z.ltb_ge. lia.
Qed.

(** Every request is well formed, refused, or one of the two broken ones. *)
Lemma request_cases r o :
  args_fit r -> refused r o = false ->
  request_ok r o \/ (exists d, r = R_disconnect d /\ 0 < d)
  \/ (exists f t u, r = R_willtopic f (Some t) u).
Proof.
  destruct r as [| |f [t|] u| |p n| | | | | | | |d| | |]; simpl; auto.
  - intros. right. right. eauto.
  - rewrite orb_false_iff, Z.leb_gt. auto.
  - intros Hd _. destruct (decide (d = 0)); [by left|]. right. left. exists d.
    split; [done|]. unfold fits in Hd. lia.
Qed.

(** The characters and data of a request are bytes. *)
Definition request_bytes (r : request) : Prop :=
  match r with
  | R_connect _ _ l | R_willtopic _ (Some l) _ | R_willmsg l _ | R_register _ l | R_publish _ _ l
  | R_subscribe_by_name _ l | R_unsubscribe_by_name _ l | R_pingreq l => bytes_ok l
  | _ => True
  end.

Lemma code_byte t : byte_ok (code t).
Proof. destruct t; by apply (bool_decide_unpack (byte_ok _)). Qed.

Lemma body_bytes r o mid :
  request_ok r o -> request_bytes r -> fits 16 mid -> bytes_ok (body r mid ++ leftover r).
Proof.
  intros Hok Hb Hm.
  destruct r as [x|f d c|f t u|ms u|p n|f t d|f n|f t|f n|f t|c| |d| | |]; simpl in *; break;
    repeat first [apply Forall_app_2 | apply Forall_cons; split | apply Forall_nil | assumption
      | apply (sub_flags_ok _ 0) | apply (sub_flags_ok _ 1)];
    try done; try (by apply (bool_decide_unpack (byte_ok _))); word_lia.
Qed.

Lemma ok_announces r o : request_ok r o -> announces_length r o.
Proof. destruct r; simpl; try done. by intros [_ ->]. Qed.

(** The one event of a request that is not refused. *)
Lemma issue_event {E} r o (e : E) s m :
  args_fit r -> refused r o = false -> buffers_ok o -> fits 16 (message_id o) ->
  (footprint r <= MAX_BUFFER_SIZE)%nat ->
  exists o' b n, issue r (World o e s m) = Some ((), World o' e (s ++ [(b, n)]) m)
    /\ buffers_ok o' /\ length b = MAX_BUFFER_SIZE
    /\ (decode (wire (b, n)) = Some (meaning r (message_id (prepare r o))) <-> announces_length r o)
    /\ (bytes_ok (message_buffer o) -> request_bytes r -> bytes_ok b /\ 0 <= n).
Proof.
  intros Hr Href Hb Hm Hf.
  destruct (request_cases r o Hr Href) as [Hok|[(d & -> & Hd)|(f & t & u & ->)]].
  - destruct (wire_decodes r o m Hok Hb Hm Hf) as (Hdec & _ & Hb').
    pose proof (prepare_message_id r o Hm) as Hm'.
    destruct (chunks_shape r _ o Hok Hm' Hf) as [Hs Hl].
    exists (after_request r m o), (sent_event r m o).1, (sent_event r m o).2.
    split; [by apply issue_eq|]. split; [done|]. split; [apply Hb'|]. split; [split; [by intros; apply ok_announces|done]|].
    intros Hbuf Hrb. cbn [sent_event fst snd]. split; [|lia].
    rewrite after_request_buffer, Hs. rewrite Hs in Hl. cbn [app length] in Hl.
    rewrite length_app in Hl. unfold MAX_BUFFER_SIZE in *.
    apply Forall_app_2; [|by apply Forall_drop].
    do 2 (apply Forall_cons; split; [first [apply code_byte|word_lia]|]). by apply (body_bytes r o).
  - destruct (disconnect_sleep_eq d o e s m Hb Hd Hr) as (o' & Hi & Hb').
    do 3 eexists. split; [exact Hi|]. split; [done|].
    destruct Hb as [Hb _]. unfold MAX_BUFFER_SIZE in *. simpl in Hr.
    split; [rewrite length_app, length_drop, Hb; cbn; lia|]. split.
    + destruct (message_buffer o) as [|? [|? [|? [|? [|? [|? l]]]]]]; try done.
      split; [done|]. simpl. lia.
    + intros Hbuf _. split; [|lia]. apply Forall_app_2; [|by apply Forall_drop].
      repeat (apply Forall_cons; split); try apply Forall_nil; try apply code_byte; word_lia.
  - destruct (willtopic_topic_eq f t u o e s m Hb Hr Hf) as (o' & Hi & Hb' & Hl).
    do 3 eexists. split; [exact Hi|]. split; [done|]. split; [exact Hl|]. split.
    + apply willtopic_decodes. rewrite !length_app in Hl. simpl in Hl. simpl. lia.
    + intros Hbuf Hrb. simpl in Hr, Hrb.
      assert (byte_ok (hd 0 (message_buffer o))) as Hn.
      { destruct (message_buffer o); [by apply (bool_decide_unpack (byte_ok 0))|by inversion Hbuf]. }
      split; [|apply Hn]. do 3 (apply Forall_cons; split; [first [done|apply code_byte]|]).
      apply Forall_app_2; [done|]. apply Forall_app_2; [|by apply Forall_drop].
      apply Forall_singleton. by apply (bool_decide_unpack (byte_ok 0)).
Qed.

(** C1: every request of the client, whatever its arguments, that fits the
    message buffer: a refused registration does nothing; any other request hands
    exactly one datagram to the link, and a decoder written from the MQTT-SN 1.2
    formats and type numbers reads the request back from it if and only if the
    request announces its own length, that is always, except for [disconnect]
    with a sleep period (never) and [willtopic] with a topic (only if the byte
    left in the buffer happens to be the length). *)
Theorem request_roundtrip {E} r o (e : E) s m :
  args_fit r -> buffers_ok o -> fits 16 (message_id o) ->
  (footprint r <= MAX_BUFFER_SIZE)%nat ->
  if refused r o then issue r (World o e s m) = Some ((), World o e s m)
  else exists w' ev, issue r (World o e s m) = Some ((), w') /\
    sent w' = s ++ [ev] /\
    (decode (wire ev) = Some (meaning r (message_id (prepare r o)))
     <-> announces_length r o) /\
    buffers_ok (obj w').
Proof.
  intros Hr Hb Hm Hf. destruct (refused r o) eqn:Href; [by apply issue_refused|].
  destruct (issue_event r o e s m Hr Href Hb Hm Hf) as (o' & b & n & Hi & Hb' & _ & Hd & _).
  exists (World o' e (s ++ [(b, n)]) m), (b, n). done.
Qed.

(** * Bounds of the message buffer *)

Lemma chunks_footprint r mid o :
  request_ok r o -> length (concat (chunks r mid)) = footprint r.
Proof.
  destruct r; simpl; intros; break; subst; simpl; rewrite ?length_app; simpl; lia.
Qed.

(** C4: a request stays in the buffer exactly when its footprint does. *)
Theorem request_in_bounds {E} r o (e : E) s m :
  request_ok r o -> buffers_ok o -> fits 16 (message_id o) ->
  is_Some (issue r (World o e s m)) <-> (footprint r <= MAX_BUFFER_SIZE)%nat.
Proof.
  intros Hok Hb Hm. split.
  - intros [x Hx]. destruct (decide (footprint r <= MAX_BUFFER_SIZE)%nat); [done|].
    rewrite issue_chunks, puts_then_overflow in Hx; [done| |done|done].
    rewrite prepare_buffer, (chunks_footprint r _ o) by done. destruct Hb. lia.
  - intros Hf. rewrite issue_eq by done. eauto.
Qed.

(** * The object invariant *)

Definition obj_ok (n : Z) (o : mqttsn) : Prop :=
  buffers_ok o /\ length (topic_table o) = Z.to_nat MAX_TOPICS /\
  0 <= topic_count o <= n /\ fits 16 (message_id o) /\
  fits 8 (response_retries o) /\ fits 32 (response_timer o).

(** At most nine topics; eight while a registration is outstanding. *)
Definition mq_inv (o : mqttsn) : Prop :=
  obj_ok 9 o /\ (awaiting REGACK o = true -> topic_count o <= 8).

(** Predicates that only the message buffer and the timer cannot disturb. *)
Class Framed (P : mqttsn -> Prop) : Prop := {
  framed_buffer o b : P o -> length b = length (message_buffer o) -> P (set_message_buffer b o);
  framed_timer o t r : P o -> fits 32 t -> fits 8 r -> P (set_timer t r o) }.

#[export] Instance obj_ok_framed n : Framed (obj_ok n).
Proof.
  split; intros; unfold obj_ok, buffers_ok in *; break; simpl; repeat split;
    try done; try lia; try (unfold fits in *; lia).
Qed.
#[export] Instance mq_inv_framed : Framed mq_inv.
Proof.
  split; intros o ?; [intros [H1 H2]|intros ? [H1 H2]]; intros; split; try done;
    [by apply framed_buffer|by apply framed_timer].
Qed.

Definition on_world {E} (P : mqttsn -> Prop) (w : world E) : Prop := P (obj w).

Section Keeps.
Context {E : Type} (P : mqttsn -> Prop) `{!Framed P}.
Abbreviation K m := (keeps (@on_world E P) m).

Lemma keeps_this : K this.
Proof. apply keeps_bind; auto with st. Qed.

Lemma keeps_on_obj f : (forall o, P o -> P (f o)) -> K (on_obj f).
Proof. intros Hf. apply keeps_modify. intros w. apply Hf. Qed.

Lemma keeps_put_msg off bs : K (put_msg off bs).
Proof.
  intros [o e s m] a w' Hw. rewrite put_msg_eq. destruct (store _ _ _) eqn:Es; [|done].
  intros [= <- <-]. apply framed_buffer; [done|]. by eapply store_length.
Qed.

Lemma keeps_get_resp off n : K (get_resp off n).
Proof. apply keeps_bind; [apply keeps_this|auto with st]. Qed.

Lemma keeps_when b m : (b = true -> K m) -> K (when b m).
Proof. destruct b; simpl; [auto|intros _; apply keeps_ret]. Qed.

Lemma keeps_send_message : K send_message.
Proof.
  apply keeps_bind; [apply keeps_this|intros o].
  apply keeps_bind; [apply keeps_lift_opt|intros hdr].
  apply keeps_bind; [intros w a w' Hw [= <- <-]; done|intros _].
  apply keeps_bind; [apply keeps_get|intros w]. apply keeps_when. intros _.
  apply keeps_on_obj. intros. apply framed_timer; [done|apply u32_ok|]. done.
Qed.
End Keeps.
#[export] Hint Resolve keeps_this keeps_put_msg keeps_get_resp keeps_send_message : st.
#[export] Hint Extern 1 (Framed _) => typeclasses eauto : st.

(** Peels the sequence of a method, closing the store and send steps. *)
Ltac keeps_step :=
  lazymatch goal with
  | |- keeps _ send_message => apply keeps_send_message; typeclasses eauto
  | |- keeps _ (put_msg _ _) => apply keeps_put_msg; typeclasses eauto
  | |- keeps _ (get_resp _ _) => apply keeps_get_resp
  | |- keeps _ this => apply keeps_this
  | |- keeps _ get => apply keeps_get
  | |- keeps _ (mret _) => apply keeps_ret
  | |- keeps _ (lift_opt _) => apply keeps_lift_opt
  | |- keeps _ undefined => apply keeps_undefined
  | |- keeps _ (_ ≫= _) => apply keeps_bind; [|intros ?]
  | |- keeps _ (when _ _) => apply keeps_when; intros ?
  | |- keeps _ (if ?b then _ else _) => destruct b eqn:?
  end.
Ltac keeps_tac := repeat keeps_step.

Lemma inv_await t o : t <> REGACK -> obj_ok 9 o -> mq_inv (await t o).
Proof.
  intros Ht Ho. split; [done|]. unfold awaiting. simpl.
  intros H%Z.eqb_eq. by destruct t.
Qed.

Lemma inv_not_waiting o : obj_ok 9 o -> mq_inv (set_waiting false o).
Proof. intros Ho. split; [done|]. by unfold awaiting. Qed.

Lemma inv_next o : mq_inv o -> mq_inv (next_message_id o).
Proof.
  intros [(Hb & Ht & Hc & Hm & Hr & Hi) H]. split; [|done].
  repeat split; try done; apply Hb || apply Hc || apply u16_ok || apply Hr || apply Hi.
Qed.

Lemma inv_topics t o :
  length t = length (topic_table o) -> mq_inv o -> mq_inv (set_topics t (topic_count o) o).
Proof.
  intros Hl [(Hb & Ht & Hc & Hm & Hr & Hi) H]. split; [|done].
  repeat split; try done; try apply Hb || apply Hc || apply Hm || apply Hr || apply Hi.
  simpl. by rewrite Hl.
Qed.

(** ** Every method keeps the invariant *)
Section Methods.
Context {E : Type}.
Abbreviation K m := (keeps (@on_world E mq_inv) m).
Abbreviation K9 m := (keeps (@on_world E (obj_ok 9)) m).

Lemma keeps_set_next : K (on_obj next_message_id).
Proof. apply keeps_on_obj. apply inv_next. Qed.

Lemma keeps_await t : t <> REGACK -> K (on_obj (await t)).
Proof. intros Ht. apply keeps_on_obj. intros o [Ho _]. by apply inv_await. Qed.

Ltac k := keeps_tac; try (apply keeps_set_next || (apply keeps_await; done)).

Lemma keeps_register_topic ptr str : K (register_topic ptr str).
Proof.
  intros w a w' Hw. unfold register_topic. rewrite ST_bind_eq.
  change (this w) with (Some (obj w, w)). cbv iota beta.
  destruct (negb _ && _) eqn:Hg; [|by intros [= <- <-]].
  assert (Hc : topic_count (obj w) <= 8).
  { apply andb_prop in Hg as [_ ?%Z.ltb_lt]. unfold MAX_TOPICS in *. lia. }
  (* with a free slot the count stays at most eight throughout *)
  set (I8 := fun o => mq_inv o /\ topic_count o <= 8).
  assert (HF : Framed I8).
  { split; intros; unfold I8 in *; break; (split; [|done]);
      [by apply framed_buffer|by apply framed_timer]. }
  intros Hrun. enough (on_world I8 w') as [? _] by done.
  match type of Hrun with ?m w = _ => assert (Hk : keeps (on_world I8) m) end;
    [|by apply (Hk w a w')].
  unfold strcpy_msg. keeps_tac; apply keeps_on_obj; intros o [Ho ?].
  - split; [by apply inv_next|done].
  - split; [|done]. apply inv_topics; [by rewrite length_insert|done].
  - destruct Ho as [Ho _]. by repeat split; try apply Ho.
Qed.

Lemma keeps_subunsub t reply n f nm : reply <> REGACK ->
  K (subunsub_by_name t reply n f nm).
Proof. intros Hr. unfold subunsub_by_name, strcpy_msg. k. Qed.

Lemma keeps_subunsub_id t reply n f id : reply <> REGACK ->
  K (subunsub_by_id t reply n f id).
Proof. intros Hr. unfold subunsub_by_id. k. Qed.

Lemma keeps_willtopic f t u : K (willtopic f t u).
Proof. unfold willtopic, strcpy_msg. destruct t; k. Qed.

Lemma keeps_issue r : K (issue r).
Proof.
  destruct r; cbn [issue].
  all: try (apply keeps_bind; [apply keeps_register_topic|intros; apply keeps_ret]).
  all: try match goal with
    | |- keeps _ (subscribe_by_name _ _) => by apply keeps_subunsub
    | |- keeps _ (unsubscribe_by_name _ _) => by apply keeps_subunsub
    | |- keeps _ (subscribe_by_id _ _) => by apply keeps_subunsub_id
    | |- keeps _ (unsubscribe_by_id _ _) => by apply keeps_subunsub_id
    | |- keeps _ (willtopic _ _ _) => apply keeps_willtopic
    end.
  all: unfold pubrec, pubrel, pubcomp, pubqos2, searchgw, connect, willmsg, publish, pingreq, pingresp, disconnect,
    strcpy_msg; k.
Qed.

Lemma keeps_puback t i rc : K (puback t i rc). Proof. unfold puback. k. Qed.
Lemma keeps_regack t i rc : K (regack t i rc). Proof. unfold regack. k. Qed.

Lemma keeps_advertise_handler : K advertise_handler.
Proof. unfold advertise_handler. k. apply keeps_on_obj. done. Qed.

Lemma keeps_publish_handler : K publish_handler.
Proof. unfold publish_handler. k. all: apply keeps_puback. Qed.

Lemma keeps_pingreq_handler : K pingreq_handler.
Proof. unfold pingreq_handler, pingresp. k. Qed.

Lemma keeps_register_handler deref junk : K (register_handler deref junk).
Proof.
  unfold register_handler. k; try apply keeps_regack.
  apply keeps_on_obj. intros. apply inv_topics; [|done].
  by rewrite length_alter.
Qed.

(** While a registration is awaited a REGACK may fill the ninth slot. *)
Lemma regack_handler_ok w a w' :
  mq_inv (obj w) -> awaiting REGACK (obj w) = true ->
  regack_handler w = Some (a, w') -> obj_ok 9 (obj (E := E) w').
Proof.
  intros [Hw Hc] Haw Hrun. specialize (Hc Haw).
  unfold regack_handler, get_resp, this in Hrun. revert Hrun. st_unfold.
  destruct (load _ 2 2) as [tid|]; simpl; [|done].
  destruct (load _ 4 2) as [mid|]; simpl; [|done].
  destruct (load _ 6 1) as [rc|]; simpl; [|done].
  repeat (split_if; simpl); intros [= <- <-]; simpl; try done.
  destruct Hw as (Hb & Ht & Hn & Hm & Hr & Hi).
  split; [done|]. simpl. rewrite length_alter. repeat split; try done; try lia; try apply Hm;
    try apply Hr; try apply Hi.
Qed.

Lemma keeps_timeout : K timeout.
Proof. by apply keeps_await. Qed.
End Methods.

(** ** Receiving keeps the invariant, for any well-behaved derived class *)
Record vtable_ok {E} (vt : vtable E) : Prop := {
  ok_parse : keeps (on_world mq_inv) (v_parse_impl vt);
  ok_advertise : keeps (on_world mq_inv) (v_advertise_handler vt);
  ok_gwinfo : keeps (on_world mq_inv) (v_gwinfo_handler vt);
  ok_connack : keeps (on_world mq_inv) (v_connack_handler vt);
  ok_willtopicreq : keeps (on_world mq_inv) (v_willtopicreq_handler vt);
  ok_willmsgreq : keeps (on_world mq_inv) (v_willmsgreq_handler vt);
  ok_regack : forall w a w', mq_inv (obj w) -> awaiting REGACK (obj w) = true ->
    v_regack_handler vt w = Some (a, w') -> obj_ok 9 (obj w');
  ok_publish : keeps (on_world mq_inv) (v_publish_handler vt);
  ok_register : keeps (on_world mq_inv) (v_register_handler vt);
  ok_puback : keeps (on_world mq_inv) (v_puback_handler vt);
  ok_suback : keeps (on_world mq_inv) (v_suback_handler vt);
  ok_unsuback : keeps (on_world mq_inv) (v_unsuback_handler vt);
  ok_pingreq : keeps (on_world mq_inv) (v_pingreq_handler vt);
  ok_pingresp : keeps (on_world mq_inv) (v_pingresp_handler vt);
  ok_disconnect : keeps (on_world mq_inv) (v_disconnect_handler vt);
  ok_willtopicresp : keeps (on_world mq_inv) (v_willtopicresp_handler vt);
  ok_willmsgresp : keeps (on_world mq_inv) (v_willmsgresp_handler vt) }.

Lemma base_vtable_ok {E} p deref junk :
  keeps (on_world mq_inv) p -> vtable_ok (@base_vtable E p deref junk).
Proof.
  intros Hp. split; simpl; try apply keeps_ret; try done.
  - apply keeps_advertise_handler.
  - apply regack_handler_ok.
  - apply keeps_publish_handler.
  - apply keeps_register_handler.
  - apply keeps_pingreq_handler.
Qed.

Section Dispatch.
Context {E : Type} (vt : vtable E).

Lemma finish_ok (h : ST (world E) ()) w a w' :
  (forall b w1, h w = Some (b, w1) -> obj_ok 9 (obj w1)) ->
  (h;; on_obj (set_waiting false)) w = Some (a, w') -> mq_inv (obj w').
Proof.
  intros Hh. rewrite ST_bind_eq. destruct (h w) as [[b w1]|] eqn:Eh; [|done].
  intros [= <- <-]. apply inv_not_waiting. by eapply Hh.
Qed.

Lemma always_ok h w a w' :
  keeps (on_world mq_inv) h -> mq_inv (obj w) ->
  (handled ← always (E := E) h; when handled (on_obj (set_waiting false))) w = Some (a, w') ->
  mq_inv (obj w').
Proof.
  intros Hh Hw Hrun. eapply (finish_ok h w a w').
  - intros b w1 E1. by apply (Hh _ _ _ Hw) in E1 as [? _].
  - revert Hrun. unfold always. rewrite !ST_bind_eq. by destruct (h w) as [[[] ?]|].
Qed.

Lemma if_awaited_ok t h w a w' :
  (forall b w1, awaiting t (obj w) = true -> h w = Some (b, w1) -> obj_ok 9 (obj w1)) ->
  mq_inv (obj w) ->
  (handled ← if_awaited (E := E) t h; when handled (on_obj (set_waiting false))) w
    = Some (a, w') -> mq_inv (obj w').
Proof.
  intros Hh Hw. unfold if_awaited. rewrite !ST_bind_eq.
  change (this w) with (Some (obj w, w)). cbv iota beta.
  destruct (awaiting t (obj w)) eqn:Ha; [|by intros [= <- <-]].
  intros Hrun. eapply (finish_ok h w a w'); [by eauto|].
  revert Hrun. rewrite !ST_bind_eq. by destruct (h w) as [[[] ?]|].
Qed.

Lemma keeps_dispatch : vtable_ok vt -> keeps (on_world mq_inv) (dispatch vt).
Proof.
  intros Hvt. unfold dispatch. apply keeps_bind; [apply keeps_get_resp|intros ty].
  unfold dispatch_switch. intros w a w' Hw.
  assert (Hk : forall h : ST (world E) (), keeps (on_world mq_inv) h ->
    forall b w1, h w = Some (b, w1) -> obj_ok 9 (obj w1)).
  { intros h Hh b w1 E1.
    by apply (Hh _ _ _ Hw) in E1 as [? _]. }
  destruct (type_of (hd 0 ty)) as [[]|]; cbn beta iota; try (by intros [= <- <-]);
    intros Hrun;
    first
      [ eapply always_ok; [|exact Hw|exact Hrun]; apply Hvt
      | eapply if_awaited_ok; [|exact Hw|exact Hrun]; intros b w1 Haw Hh;
        first [ exact (ok_regack vt Hvt _ _ _ Hw Haw Hh)
              | eapply Hk; [|exact Hh]; apply Hvt ] ].
Qed.

Lemma keeps_parse : vtable_ok vt -> keeps (on_world mq_inv) (parse vt).
Proof.
  intros Hvt. apply keeps_bind; [apply Hvt|intros ok].
  apply keeps_when. intros _. by apply keeps_dispatch.
Qed.

Lemma keeps_wait : vtable_ok vt -> keeps (on_world mq_inv) (wait_for_response vt).
Proof.
  intros Hvt. unfold wait_for_response. keeps_tac.
  - apply keeps_on_obj. intros o Ho. apply framed_timer; [done|apply u32_ok|apply Ho].
  - apply keeps_on_obj. intros o Ho. apply inv_not_waiting, Ho.
  - apply Hvt.
  - apply keeps_on_obj. intros o Ho. apply framed_timer; [done|apply Ho|apply u8_ok].
Qed.
End Dispatch.

(** ** Every history of calls *)
Inductive api_call :=
  | Call (r : request) | Call_willtopic (f : Z) (t : option (list Z)) (u : bool)
  | Call_willmsg_update (m : list Z) | Call_pubqos2 (t : message_type)
  | Call_timeout | Call_parse | Call_wait | Time_passes (now : Z).

Definition run_call {E} (vt : vtable E) (c : api_call) : ST (world E) () :=
  match c with
  | Call r => issue r
  | Call_willtopic f t u => willtopic f t u
  | Call_willmsg_update m => willmsg m true
  | Call_pubqos2 t => pubqos2 t
  | Call_timeout => timeout
  | Call_parse => parse vt
  | Call_wait => wait_for_response vt;; mret ()
  | Time_passes now => modify (fun w => World (obj w) (ext w) (sent w) now)
  end.

Fixpoint run_calls {E} (vt : vtable E) (cs : list api_call) : ST (world E) () :=
  match cs with [] => mret () | c :: r => run_call vt c;; run_calls vt r end.

Lemma new_MQTTSN_inv : mq_inv new_MQTTSN.
Proof. repeat split; done. Qed.

Lemma keeps_run_call {E} (vt : vtable E) c :
  vtable_ok vt -> keeps (on_world mq_inv) (run_call vt c).
Proof.
  intros Hvt. destruct c; simpl.
  - apply keeps_issue.
  - apply keeps_willtopic.
  - unfold willmsg. keeps_tac.
  - unfold pubqos2. keeps_tac.
  - apply keeps_timeout.
  - by apply keeps_parse.
  - keeps_tac. by apply keeps_wait.
  - by apply keeps_modify.
Qed.

(** C2: the invariant over every history of calls. *)
Theorem reachable_inv {E} (vt : vtable E) cs (e : E) now a w' :
  vtable_ok vt ->
  run_calls vt cs (World new_MQTTSN e [] now) = Some (a, w') -> mq_inv (obj w').
Proof.
  intros Hvt Hrun.
  assert (Hk : keeps (on_world mq_inv) (run_calls vt cs)).
  { clear Hrun. induction cs; simpl; [apply keeps_ret|].
    apply keeps_bind; [by apply keeps_run_call|done]. }
  eapply (Hk _ _ _ _ Hrun). Unshelve. apply new_MQTTSN_inv.
Qed.

(** * The retry budget *)

Lemma last_shift {A} (x : A) l d : List.last (x :: l) d = List.last l x.
Proof.
  revert x d. induction l as [|y l IH]; intros x d; [done|].
  transitivity (List.last (y :: l) d); [done|]. by rewrite !IH.
Qed.

Section Retries.
Context {E : Type} (vt : vtable E).

Definition expired (t : Z) (o : mqttsn) : bool := T_RETRY * 1000 <? u32 (t - response_timer o).

Lemma wait_idle o (e : E) s t :
  waiting_for_response o && expired t o = false ->
  wait_for_response vt (World o e s t) = Some (waiting_for_response o, World o e s t).
Proof.
  intros H. unfold wait_for_response, this. st_unfold.
  unfold expired in H. rewrite H. done.
Qed.

Lemma wait_resend o (e : E) s t :
  waiting_for_response o = true -> expired t o = true -> response_retries o <> 0 ->
  message_buffer o <> [] ->
  wait_for_response vt (World o e s t)
  = Some (true, World (set_timer (u32 t) (u8 (response_retries o - 1)) o) e
            (s ++ [(message_buffer o, hd 0 (message_buffer o))]) t).
Proof.
  intros Hw Hx Hr Hb. unfold wait_for_response. unfold expired in Hx.
  rewrite ST_bind_eq. simpl. rewrite Hw, Hx. simpl.
  rewrite (proj2 (Z.eqb_neq _ _)) by done.
  unfold on_obj, modify. rewrite !ST_bind_eq. simpl.
  rewrite send_message_eq by done. simpl. rewrite Hw. unfold this. st_unfold. by rewrite Hw.
Qed.

(** The derived class counts the disconnection in its own state. *)
Definition counts_disconnect (f : E -> E) : Prop := forall o e s t,
  v_disconnect_handler vt (World o e s t) = Some ((), World o (f e) s t).

Lemma wait_give_up f o (e : E) s t :
  counts_disconnect f ->
  waiting_for_response o = true -> expired t o = true -> response_retries o = 0 ->
  wait_for_response vt (World o e s t)
  = Some (false, World (set_timer (u32 t) 255 (set_waiting false o)) (f e) s t).
Proof.
  intros Hf Hw Hx Hr. unfold wait_for_response. unfold expired in Hx.
  rewrite ST_bind_eq. simpl. rewrite Hw, Hx, Hr. simpl.
  unfold on_obj, modify. rewrite !ST_bind_eq. simpl. rewrite Hf. simpl. rewrite Hr. done.
Qed.

(** Polls at the given times, each setting the clock. *)
Fixpoint poll (ts : list Z) : ST (world E) () :=
  match ts with
  | [] => mret ()
  | t :: r => run_call vt (Time_passes t);; run_call vt Call_wait;; poll r
  end.

(** Successive times more than [T_RETRY] seconds apart on the 32-bit clock. *)
Fixpoint spaced (t : Z) (ts : list Z) : Prop :=
  match ts with
  | [] => True
  | u :: r => T_RETRY * 1000 < u32 (u - u32 t) /\ spaced u r
  end.

Lemma poll_resends n ts t o (e : E) s c :
  waiting_for_response o = true -> response_retries o = Z.of_nat n -> (n < 256)%nat ->
  response_timer o = u32 t -> message_buffer o <> [] ->
  length ts = n -> spaced t ts ->
  poll ts (World o e s c)
  = Some ((), World (set_timer (u32 (List.last ts t)) 0 o) e
      (s ++ replicate n (message_buffer o, hd 0 (message_buffer o))) (List.last ts c)).
Proof.
  revert n t o s c. induction ts as [|u r IH]; intros n t o s c Hw Hr Hn Ht Hb Hl Hs.
  - simpl in Hl. subst n. simpl in *. rewrite app_nil_r.
    destruct o; simpl in *; subst; done.
  - destruct n as [|n]; [done|]. destruct Hs as [Hx Hs]. simpl in Hl.
    rewrite !last_shift. simpl poll. rewrite ST_bind_eq. simpl. rewrite ST_bind_eq. unfold run_call.
    rewrite ST_bind_eq, wait_resend; [|done| |lia|done].
    2: { unfold expired. rewrite Ht. by apply Z.ltb_lt. }
    simpl. rewrite (IH n u); try done; try lia.
    + rewrite <- app_assoc. done.
    + simpl. rewrite Hr, trunc_small by word_lia. lia.
Qed.
End Retries.

(** C3: a request issued while idle is sent once and resent [N_RETRY] times,
    then the client gives up. *)
Theorem retry_budget {E} (vt : vtable E) f r o (e : E) s m ts t6 :
  counts_disconnect vt f ->
  request_ok r o -> buffers_ok o -> fits 16 (message_id o) ->
  (footprint r <= MAX_BUFFER_SIZE)%nat -> awaited r <> None ->
  waiting_for_response o = false ->
  length ts = 5%nat -> spaced m (ts ++ [t6]) ->
  exists ev o5 o6,
    (issue r;; poll vt ts) (World o e s m)
      = Some ((), World o5 e (s ++ replicate 6 ev) (List.last ts m)) /\
    waiting_for_response o5 = true /\
    decode (wire ev) = Some (meaning r (message_id (prepare r o))) /\
    poll vt [t6] (World o5 e (s ++ replicate 6 ev) (List.last ts m))
      = Some ((), World o6 (f e) (s ++ replicate 6 ev) t6) /\
    waiting_for_response o6 = false.
Proof.
  intros Hf Hok Hb Hm Hfp Haw Hidle Hl Hs.
  destruct (wire_decodes r o m Hok Hb Hm Hfp) as (Hdec & _ & Hb').
  set (ev := sent_event r m o) in *. assert (sent_event r m o = ev) as Hev by done.
  unfold sent_event in Hev.
  set (o1 := after_request r m o) in *.
  assert (waiting_for_response o1 = true /\ response_timer o1 = u32 m /\ response_retries o1 = 5)
    as (Hw1 & Ht1 & Hr1).
  { unfold o1, after_request, then_await.
    assert (waiting_for_response (prepare r o) = false) as Hp by (destruct r; exact Hidle).
    simpl. rewrite Hp. by destruct (awaited r). }
  assert (message_buffer o1 <> []) as Hne by (intros E0; destruct Hb' as [Hb' _]; by rewrite E0 in Hb').
  assert (spaced m ts /\ T_RETRY * 1000 < u32 (t6 - u32 (List.last ts m))) as [Hs1 Hs2].
  { clear -Hs. revert m Hs. induction ts as [|u r IH]; intros m; [simpl; tauto|].
    rewrite last_shift. simpl. intros [H1 H2]. apply IH in H2 as [H3 H4]. done. }
  assert (Hhd : hd 0 (message_buffer o1) = snd ev).
  { subst ev. simpl. destruct (chunks_shape r _ o Hok (prepare_message_id r o Hm) Hfp) as [Hc _].
    unfold o1. by rewrite after_request_buffer, Hc. }
  exists ev, (set_timer (u32 (List.last ts m)) 0 o1).
  eexists. split; [|split; [done|split; [done|]]].
  - rewrite ST_bind_eq, issue_eq by done. fold o1. rewrite Hev.
    rewrite (poll_resends vt 5 ts m) by (done || lia).
    rewrite <- app_assoc, Hhd. subst ev. done.
  - split.
    + simpl. rewrite ST_bind_eq. simpl. rewrite ST_bind_eq. unfold run_call.
      rewrite ST_bind_eq, (wait_give_up vt f); try done.
      unfold expired. simpl. by apply Z.ltb_lt.
    + done.
Qed.

(** C6: the CONNECT a freshly constructed client sends is never resent. *)
Theorem boot_connect_not_resent {E} (vt : vtable E) f fl d c (e : E) m t :
  counts_disconnect vt f -> byte_ok fl -> fits 16 d ->
  (7 + length c <= MAX_BUFFER_SIZE)%nat -> T_RETRY * 1000 < u32 t ->
  exists ev o', (issue (R_connect fl d c);; poll vt [t]) (World new_MQTTSN e [] m)
    = Some ((), World o' (f e) [ev] t) /\ waiting_for_response o' = false.
Proof.
  intros Hf Hfl Hd Hc Ht. eexists _, _. split.
  - rewrite ST_bind_eq, issue_eq by done.
    simpl poll. rewrite ST_bind_eq. simpl. rewrite ST_bind_eq. unfold run_call.
    rewrite ST_bind_eq, (wait_give_up vt f); try done.
    unfold expired. simpl. rewrite Z.sub_0_r. by apply Z.ltb_lt.
  - done.
Qed.

(** * Unsolicited replies *)
Definition ack_types : list message_type :=
  [ADVERTISE; CONNACK; REGACK; PUBACK; SUBACK; UNSUBACK; PINGRESP; WILLTOPICRESP; WILLMSGRESP].

(** C5: an acknowledgement that is not awaited changes nothing. *)
Theorem unsolicited_ack_ignored {E} (vt : vtable E) t (w : world E) :
  t ∈ ack_types -> awaiting t (obj w) = false ->
  load (response_buffer (obj w)) 1 1 = Some [code t] ->
  dispatch vt w = Some ((), w).
Proof.
  intros Ht Ha Hl. unfold dispatch, get_resp. rewrite !ST_bind_eq.
  change (this w) with (Some (obj w, w)). cbv iota beta.
  unfold lift_opt. rewrite Hl. simpl. unfold dispatch_switch. rewrite type_of_code.
  unfold ack_types in Ht. set_unfold in Ht.
  destruct_or! Ht; try done; subst t; unfold if_awaited, this; st_unfold; by rewrite Ha.
Qed.

(** * Wire defects of the acknowledgements the client sends *)

(** Also: the PUBACK for a QoS 1 PUBLISH carries byte-swapped identifiers. *)
Theorem puback_swaps_ids {E} len fl t1 t2 m1 m2 rest o (e : E) s m :
  buffers_ok o -> response_buffer o = [len; code PUBLISH; fl; t1; t2; m1; m2] ++ rest ->
  Z.land fl FLAG_QOS_1 <> 0 ->
  byte_ok t1 -> byte_ok t2 -> byte_ok m1 -> byte_ok m2 ->
  exists w' ev rc, publish_handler (World o e s m) = Some ((), w') /\ sent w' = s ++ [ev] /\
    decode (wire ev) = Some (P_puback (be16 t2 t1) (be16 m2 m1) rc).
Proof.
  intros [Hb _] Hr Hq H1 H2 H3 H4.
  set (rc := if knows_topic (bswap (of_le16 [t1; t2])) o then ACCEPTED
             else REJECTED_INVALID_TOPIC_ID).
  assert (publish_handler (World o e s m)
          = puback (of_le16 [t1; t2]) (of_le16 [m1; m2]) rc (World o e s m)) as ->.
  { unfold publish_handler.
    do 3 (rewrite ST_bind_eq, (get_resp_prefix _ _ _ _ _ _ _ _ Hr) by (simpl; lia)).
    rewrite ST_bind_eq. change (this ?w) with (Some (obj w, w)). cbv iota beta.
    cbn [hd take drop]. by rewrite (proj2 (Z.eqb_neq _ _)). }
  change (puback ?a ?b rc ?w) with
    (puts_then 0 [[7]; [code PUBACK]; le16 (bswap a); le16 (bswap b); [return_code rc]]
       send_message w).
  rewrite puts_then_eq by (simpl; rewrite Hb; unfold MAX_BUFFER_SIZE; lia).
  rewrite send_message_eq by done. eexists _, _, (return_code rc). split; [done|].
  split; [done|]. unfold wire. cbn [concat].
  rewrite !le16_bswap_of_le16 by done. done.
Qed.

(** Also: DISCONNECT with a sleep period announces six bytes instead of four. *)
Theorem disconnect_sleep_malformed {E} d o (e : E) s m :
  buffers_ok o -> 0 < d -> fits 16 d ->
  exists w' b, disconnect d (World o e s m) = Some ((), w') /\ sent w' = s ++ [(b, 6)] /\
    take 4 b = [6; code DISCONNECT; d / 256; d mod 256].
Proof.
  intros Hb Hd Hf. destruct (disconnect_sleep_eq d o e s m Hb Hd Hf) as (o' & -> & _).
  by eexists _, _.
Qed.

(** Registrations of the gateway. *)
Lemma c_string_app nm rest : 0 ∉ nm -> c_string (nm ++ 0 :: rest) = nm.
Proof.
  induction nm as [|b r IH]; simpl; [done|]. intros Hn.
  rewrite (proj2 (Z.eqb_neq _ _)) by set_solver. rewrite IH by set_solver. done.
Qed.

(** Also: a REGISTER for a name the client does not know is accepted, and the
    slot the uninitialised index happens to name is overwritten. *)
Theorem register_unknown_name_clobbers {E} deref junk len t1 t2 m1 m2 nm rest o (e : E) s m :
  buffers_ok o ->
  response_buffer o = [len; code REGISTER; t1; t2; m1; m2] ++ nm ++ 0 :: rest -> 0 ∉ nm ->
  find_topic_from deref nm 0 (take (Z.to_nat (topic_count o)) (topic_table o)) = None ->
  0 <= junk < MAX_TOPICS -> byte_ok t1 -> byte_ok t2 -> byte_ok m1 -> byte_ok m2 ->
  exists w' ev, register_handler deref junk (World o e s m) = Some ((), w') /\
    topic_table (obj w')
      = alter (fun t => Topic (t_name t) (be16 t1 t2)) (Z.to_nat junk) (topic_table o) /\
    sent w' = s ++ [ev] /\
    decode (wire ev) = Some (P_regack (be16 t2 t1) (be16 m2 m1) (return_code ACCEPTED)).
Proof.
  intros [Hb Hrb] Hr Hnm Hf Hj H1 H2 H3 H4. unfold MAX_TOPICS in Hj.
  assert (Hle : forall a b, byte_ok a -> byte_ok b -> fits 16 (of_le16 [a; b]))
    by (intros; unfold of_le16; word_lia).
  assert (Hbe : bswap (of_le16 [t1; t2]) = be16 t1 t2).
  { rewrite bswap_eq by auto. unfold of_le16, be16. word_lia. }
  unfold register_handler.
  rewrite ST_bind_eq. change (this ?w) with (Some (obj w, w)). cbv iota beta. cbn [obj].
  assert (get_resp 6 (length (response_buffer o) - 6) (World o e s m)
          = Some (nm ++ 0 :: rest, World o e s m)) as Hn.
  { unfold get_resp. rewrite ST_bind_eq. change (this ?w) with (Some (obj w, w)).
    cbv iota beta. unfold lift_opt, load. cbn [obj]. rewrite Hr.
    rewrite decide_True by (rewrite !length_app; simpl; lia).
    change (drop 6 ([len; code REGISTER; t1; t2; m1; m2] ++ nm ++ 0 :: rest))
      with (nm ++ 0 :: rest).
    rewrite firstn_all2; [done|]. rewrite !length_app; simpl; lia. }
  rewrite ST_bind_eq, Hn, decide_True by (apply elem_of_app; right; by left).
  unfold find_topic_id. rewrite c_string_app, Hf by done. cbn [snd].
  rewrite trunc_small by word_lia.
  do 2 (rewrite ST_bind_eq, (get_resp_prefix _ _ _ _ _ _ _ _ Hr) by (simpl; lia)).
  cbn [take drop]. rewrite (proj2 (Z.eqb_neq _ _)) by lia. cbn [negb].
  rewrite (proj2 (Z.ltb_lt _ _)) by (unfold MAX_TOPICS; lia).
  rewrite ST_bind_eq. unfold on_obj, modify at 1. cbn [obj ext sent millis].
  change (regack ?a ?b ACCEPTED ?w) with
    (puts_then 0 [[7]; [code REGACK]; le16 (bswap a); le16 (bswap b); [return_code ACCEPTED]]
       send_message w).
  rewrite puts_then_eq by (simpl; rewrite Hb; unfold MAX_BUFFER_SIZE; lia).
  rewrite send_message_eq by done. eexists _, _. split; [done|]. split.
  { rewrite <- Hbe. cbn -[bswap of_le16]. by destruct (waiting_for_response o). }
  split; [done|]. unfold wire. cbn [concat].
  rewrite !le16_bswap_of_le16 by done. done.
Qed.

(** * Witnesses *)
Definition idle_client : mqttsn := set_waiting false new_MQTTSN.
Definition no_parse : ST (world ()) bool := mret false.
Definition plain : vtable () := base_vtable no_parse (fun _ => []) 0.
(** A client whose response buffer holds the given datagram. *)
Definition received (bs : list Z) : mqttsn :=
  set_response_buffer (bs ++ replicate (MAX_BUFFER_SIZE - length bs) 0) idle_client.

Lemma plain_counts : counts_disconnect plain (fun e => e).
Proof. done. Qed.

Ltac evaluate := first [reflexivity | repeat split; vm_compute; (reflexivity || congruence || lia)].

Lemma request_roundtrip_witness : exists w' ev,
  issue (R_publish FLAG_QOS_1 258 [104; 105]) (World idle_client () [] 0) = Some ((), w') /\
  sent w' = [] ++ [ev] /\
  (decode (wire ev) = Some (P_publish FLAG_QOS_1 258 1 [104; 105]) <-> True) /\
  buffers_ok (obj w').
Proof. apply (request_roundtrip (R_publish FLAG_QOS_1 258 [104; 105]) idle_client); evaluate. Defined.

Lemma request_in_bounds_witness :
  is_Some (issue (R_publish 0 1 (replicate 86 65%Z)) (World idle_client () [] 0))
  <-> (footprint (R_publish 0 1 (replicate 86 65%Z)) <= MAX_BUFFER_SIZE)%nat.
Proof. apply (request_in_bounds (R_publish 0 1 (replicate 86 65%Z)) idle_client); evaluate. Defined.

Definition some_calls : list api_call :=
  [Time_passes 16000; Call_wait; Call (R_register 4096 [97; 98]); Time_passes 20000;
   Call_parse; Call (R_disconnect 0)].

Lemma reachable_inv_witness : exists w',
  run_calls plain some_calls (World new_MQTTSN () [] 0) = Some ((), w') /\ mq_inv (obj w').
Proof.
  eexists. split; [vm_compute; reflexivity|].
  apply (reachable_inv plain some_calls () 0 ());
    [apply base_vtable_ok, keeps_ret|vm_compute; reflexivity].
Defined.

Definition poll_times : list Z := [20000; 40000; 60000; 80000; 100000].
Lemma retry_budget_witness : exists ev o5 o6,
  (issue (R_connect 0 30 [115; 102]);; poll plain poll_times) (World idle_client () [] 100)
    = Some ((), World o5 () ([] ++ replicate 6 ev) 100000) /\
  waiting_for_response o5 = true /\
  decode (wire ev) = Some (P_connect 0 1 30 [115; 102]) /\
  poll plain [120000] (World o5 () ([] ++ replicate 6 ev) 100000)
    = Some ((), World o6 () ([] ++ replicate 6 ev) 120000) /\
  waiting_for_response o6 = false.
Proof.
  apply (retry_budget plain (fun e => e) (R_connect 0 30 [115; 102]) idle_client () [] 100
           poll_times 120000); first [apply plain_counts | discriminate | evaluate].
Defined.

Lemma boot_connect_not_resent_witness : exists ev o',
  (issue (R_connect 0 30 [115; 102]);; poll plain [16000]) (World new_MQTTSN () [] 900)
    = Some ((), World o' () [ev] 16000) /\ waiting_for_response o' = false.
Proof.
  apply (boot_connect_not_resent plain (fun e => e)); first [apply plain_counts | evaluate].
Defined.

Lemma unsolicited_ack_ignored_witness :
  dispatch plain (World (received [3; 5; 0]) () [] 0)
  = Some ((), World (received [3; 5; 0]) () [] 0).
Proof.
  apply (unsolicited_ack_ignored plain CONNACK); [|evaluate..].
  apply (bool_decide_unpack _). reflexivity.
Defined.

Lemma puback_swaps_ids_witness : exists w' ev rc,
  publish_handler (World (received [9; 12; 0x20; 1; 2; 3; 4; 88; 89]) () [] 0) = Some ((), w') /\
  sent w' = [] ++ [ev] /\ decode (wire ev) = Some (P_puback (be16 2 1) (be16 4 3) rc).
Proof.
  apply (puback_swaps_ids 9 0x20 1 2 3 4 (88 :: 89 :: replicate 83 0%Z)); evaluate.
Defined.

Lemma disconnect_sleep_malformed_witness : exists w' b,
  disconnect 300 (World idle_client () [] 0) = Some ((), w') /\ sent w' = [] ++ [(b, 6)] /\
  take 4 b = [6; code DISCONNECT; 1; 44].
Proof. apply (disconnect_sleep_malformed 300); evaluate. Defined.

Lemma register_unknown_name_clobbers_witness : exists w' ev,
  register_handler (fun _ => []) 3 (World (received [9; 10; 1; 2; 3; 4; 116; 0]) () [] 0)
    = Some ((), w') /\
  topic_table (obj w') = alter (fun t => Topic (t_name t) (be16 1 2)) 3%nat
    (topic_table (received [9; 10; 1; 2; 3; 4; 116; 0])) /\
  sent w' = [] ++ [ev] /\
  decode (wire ev) = Some (P_regack (be16 2 1) (be16 4 3) (return_code ACCEPTED)).
Proof.
  apply (register_unknown_name_clobbers (fun _ => []) 3 9 1 2 3 4 [116] (replicate 84 0%Z));
    try evaluate.
  apply (bool_decide_unpack _). reflexivity.
Defined.
