(* ===== verification/OneWire.v ===== *)
(** DS18B20 temperature sensors on a 1-Wire bus:
    [src/attic/ground-sensor/code/src/ds18b20.c] and [ds18b20.h].

    The pin-level routines ([reset], [write_bit], [read_bit]) are written over
    the GPIO macros of the SDK (class [Gpio]); everything above them uses the
    bus through the class [OneWireBus], which the pin-level routines
    implement ([gpio_bus]). *)
From S2P Require Import Prelude.

(** * The SDK's pins (not under src/) *)
Class Gpio (W : Type) := {
  PIN_SETUP : Z -> W -> W;            (* PIN_FUNC_SELECT, PIN_PULLDWN_DIS, PIN_PULLUP_EN *)
  GPIO_DIS_OUTPUT : Z -> W -> W;
  GPIO_OUTPUT_SET : Z -> Z -> W -> W;
  GPIO_INPUT_GET : Z -> W -> bool;
  os_delay_us : Z -> W -> W }.

(** * Time slots on the wire *)
Section Pins.
Context {W : Type} `{Gpio W}.

(** The wait loop of [reset]: did the wire come high before the retries ran out? *)
Fixpoint reset_wait (pin : Z) (retries : nat) (w : W) : bool * W :=
  match retries with
  | O | S O => (false, w)
  | S r => let w := os_delay_us 2 w in
           if GPIO_INPUT_GET pin w then (true, w) else reset_wait pin r w
  end.

Definition pin_reset (pin : Z) (w : W) : bool * W :=
  let w := GPIO_DIS_OUTPUT pin w in
  let '(high, w) := reset_wait pin 125 w in
  if negb high then (false, w)
  else
    let w := GPIO_OUTPUT_SET pin 0 w in
    let w := os_delay_us 480 w in
    let w := GPIO_DIS_OUTPUT pin w in
    let w := os_delay_us 70 w in
    let r := negb (GPIO_INPUT_GET pin w) in
    (r, os_delay_us 410 w).

Definition pin_write_bit (pin : Z) (v : bool) (w : W) : W :=
  let w := GPIO_OUTPUT_SET pin 0 w in
  if v then
    let w := os_delay_us 10 w in
    let w := GPIO_OUTPUT_SET pin 1 w in
    os_delay_us 55 w
  else
    let w := os_delay_us 65 w in
    let w := GPIO_OUTPUT_SET pin 1 w in
    os_delay_us 5 w.

Definition pin_read_bit (pin : Z) (w : W) : bool * W :=
  let w := GPIO_OUTPUT_SET pin 0 w in
  let w := os_delay_us 3 w in
  let w := GPIO_DIS_OUTPUT pin w in
  let w := os_delay_us 10 w in
  let r := GPIO_INPUT_GET pin w in
  (r, os_delay_us 53 w).

(** The end of [write] without parasite power. *)
Definition pin_release (pin : Z) (w : W) : W :=
  GPIO_OUTPUT_SET pin 0 (GPIO_DIS_OUTPUT pin w).
End Pins.

(** * The bus as the protocol layer sees it *)
Class OneWireBus (B : Type) := {
  reset : B -> bool * B;
  write_bit : bool -> B -> B;
  read_bit : B -> bool * B;
  release : B -> B;
  settle : Z -> B -> B }.

(** The pin-level routines on [gpioPin]. *)
#[export] Instance gpio_bus {W} `{Gpio W} : OneWireBus (Z * W) := {
  reset := fun '(pin, w) => let '(r, w) := pin_reset pin w in (r, (pin, w));
  write_bit := fun v '(pin, w) => (pin, pin_write_bit pin v w);
  read_bit := fun '(pin, w) => let '(r, w) := pin_read_bit pin w in (r, (pin, w));
  release := fun '(pin, w) => (pin, pin_release pin w);
  settle := fun us '(pin, w) => (pin, os_delay_us us w) }.

(** Commands and family codes: constants of the firmware's [driver/ds18b20.h]. *)
Class DS1820 := {
  DS1820_SEARCHROM : Z;
  DS1820_MATCHROM : Z;
  DS1820_SKIP_ROM : Z;
  DS1820_CONVERT_T : Z;
  DS1820_READ_SCRATCHPAD : Z;
  DS18S20 : Z;
  DS18B20 : Z }.

(** [crc8]: the inner loop over eight bits, the outer loop over the bytes. *)
Definition crc8_bit '(crc, inbyte) : Z * Z :=
  let mix := Z.land (Z.lxor crc inbyte) 0x01 in
  let crc := Z.shiftr crc 1 in
  let crc := if mix =? 0 then crc else Z.lxor crc 0x8C in
  (crc, Z.shiftr inbyte 1).
Definition crc8_byte (crc inbyte : Z) : Z := fst (Nat.iter 8 crc8_bit (crc, inbyte)).
Definition crc8 (addr : list Z) : Z := fold_left crc8_byte addr 0.

Section Protocol.
Context `{DS1820} {B : Type} `{OneWireBus B}.

(** The bit masks 0x01, 0x02, ... 0x80 of the byte loops. *)
Definition masks : list Z := [0x01; 0x02; 0x04; 0x08; 0x10; 0x20; 0x40; 0x80].

Definition write (v : Z) (power : bool) (b : B) : B :=
  let b := fold_left (fun b m => write_bit (z2b (Z.land m v)) b) masks b in
  if power then b else release b.

Definition read (b : B) : Z * B :=
  fold_left (fun '(r, b) m => let '(x, b) := read_bit b in (if x then Z.lor r m else r, b))
    masks (0, b).

Definition select (rom : list Z) (b : B) : B :=
  fold_left (fun b x => write x false b) rom (write DS1820_MATCHROM false b).

(** ** The search state ([ROM_NO], [LastDiscrepancy], ...) *)
Record search_state := Search {
  ROM_NO : list Z;
  LastDiscrepancy : Z;
  LastFamilyDiscrepancy : Z;
  LastDeviceFlag : bool }.

Definition reset_search (s : search_state) : search_state :=
  Search (replicate 8 0) 0 0 false.

(** The locals of [ds_search] with the bus. *)
Record locals := Locals {
  bus : B; rom : list Z; family : Z;
  id_bit_number : Z; last_zero : Z; rom_byte_number : Z; rom_byte_mask : Z }.

Definition set_or_clear (rom : list Z) (byte mask : Z) (dir : bool) : list Z :=
  alter (fun x => if dir then Z.lor x mask else Z.land x (u8 (Z.lnot mask)))
    (Z.to_nat byte) rom.

(** One turn of the loop; the boolean tells whether it broke off. *)
Definition search_turn (last_disc : Z) (l : locals) : bool * locals :=
  let '(id_bit, b) := read_bit (bus l) in
  let '(cmp_id_bit, b) := read_bit b in
  if id_bit && cmp_id_bit then
    (true, Locals b (rom l) (family l) (id_bit_number l) (last_zero l)
             (rom_byte_number l) (rom_byte_mask l))
  else
    let choice := eqb id_bit cmp_id_bit in
    let dir :=
      if negb choice then id_bit
      else if id_bit_number l <? last_disc
           then 0 <? Z.land (nth (Z.to_nat (rom_byte_number l)) (rom l) 0) (rom_byte_mask l)
           else id_bit_number l =? last_disc in
    let lz := if choice && negb dir then id_bit_number l else last_zero l in
    let fam := if choice && negb dir && (lz <? 9) then lz else family l in
    let rom' := set_or_clear (rom l) (rom_byte_number l) (rom_byte_mask l) dir in
    let b := write_bit dir b in
    let mask := u8 (Z.shiftl (rom_byte_mask l) 1) in
    let wrapped := mask =? 0 in
    (false, Locals b rom' fam (u8 (id_bit_number l + 1)) lz
              (if wrapped then u8 (rom_byte_number l + 1) else rom_byte_number l)
              (if wrapped then 1 else mask)).

(** do { ... } while (rom_byte_number < 8): 64 turns at most. *)
Fixpoint search_loop (fuel : nat) (last_disc : Z) (l : locals) : locals :=
  match fuel with
  | O => l
  | S f => let '(broke, l') := search_turn last_disc l in
           if broke then l'
           else if rom_byte_number l' <? 8 then search_loop f last_disc l' else l'
  end.

(** [ds_search]: result, [newAddr] when it is written, bus and search state. *)
Definition ds_search (s : search_state) (b : B)
    : bool * option (list Z) * B * search_state :=
  let finish (found : bool) (b : B) (s : search_state) :=
    let found := found && z2b (nth 0 (ROM_NO s) 0) in
    let s := if found then s else Search (ROM_NO s) 0 0 false in
    (found, Some (ROM_NO s), b, s) in
  if LastDeviceFlag s then finish false b s
  else
    let '(present, b) := reset b in
    if negb present then (false, None, b, Search (ROM_NO s) 0 0 false)
    else
      let b := write DS1820_SEARCHROM false b in
      let l := search_loop 64 (LastDiscrepancy s)
                 (Locals b (ROM_NO s) (LastFamilyDiscrepancy s) 1 0 0 1) in
      if id_bit_number l <? 65
      then finish false (bus l) (Search (rom l) (LastDiscrepancy s) (family l) (LastDeviceFlag s))
      else finish true (bus l) (Search (rom l) (last_zero l) (family l) (last_zero l =? 0)).

(** ** Temperatures *)
Record ds18b20_t := Reading { addr : list Z; tVal : Z; tFract : Z; tSign : Z }.
Definition minus_sign := 45.
Definition plus_sign := 43.

(** The scratchpad's first two bytes to sign, integer part and hundredths. *)
Definition convert (fam d0 d1 : Z) : Z * Z * Z :=
  let t := u16 (Z.lor (Z.shiftl d1 8) d0) in
  let '(t, sign) :=
    if z2b (Z.land t 0x8000) then (u16 (Z.lxor t 0xffff + 1), minus_sign) else (t, plus_sign) in
  if fam =? DS18S20
  then (sign, Z.shiftr t 1, if z2b (Z.land t 1) then 50 else 0)
  else (sign, Z.shiftr t 4, u16 (Z.land t 0x0f * 100 / 16)).

Definition read_n (n : nat) (b : B) : list Z * B :=
  Nat.iter n (fun '(l, b) => let '(x, b) := read b in (l ++ [x], b)) ([], b).

(** The scratchpad of the addressed device. *)
Definition read_scratchpad (a : list Z) (b : B) : list Z * B :=
  let '(_, b) := reset b in
  read_n 9 (write DS1820_READ_SCRATCHPAD false (select a b)).

(** The do-while loop of [exec_ds18b20]; [None]: out of fuel. *)
Fixpoint exec_loop (fuel : nat) (max_results : Z) (n : Z) (acc : list ds18b20_t)
    (s : search_state) (b : B) : option (list ds18b20_t * search_state * B) :=
  match fuel with
  | O => None
  | S f =>
      let '(r, a, b, s) := ds_search s b in
      if negb r then Some (acc, s, b)
      else
        let a := default [] a in
        let again n acc s b :=
          if n <? max_results then exec_loop f max_results n acc s b else Some (acc, s, b) in
        let fam := nth 0 a 0 in
        if (fam =? DS18S20) || (fam =? DS18B20) then
          let '(data, b) := read_scratchpad a b in
          let '(sign, v, fr) := convert fam (nth 0 data 0) (nth 1 data 0) in
          again (n + 1) (acc ++ [Reading a v fr sign]) s b
        else again n acc s b
  end.

(** The guard of [exec_ds18b20] on its arguments. *)
Definition exec_args_ok (valid_pin : Z -> bool) (gpio : Z) (results : bool) (max_results : Z)
    : bool :=
  valid_pin gpio && results && (1 <=? max_results) && (max_results <=? 8).

(** [exec_ds18b20]: the return value and the readings stored ([found_results]
    is their number); [setup] is [ds_init]. *)
Definition exec_ds18b20 (fuel : nat) (valid_pin : Z -> bool) (setup : Z -> B -> B)
    (gpio : Z) (results : bool) (max_results : Z) (s : search_state) (b : B)
    : option (bool * list ds18b20_t * search_state * B) :=
  if negb (exec_args_ok valid_pin gpio results max_results) then Some (false, [], s, b)
  else
    let b := setup gpio b in
    let '(_, b) := reset b in
    let b := write DS1820_SKIP_ROM true b in
    let b := write DS1820_CONVERT_T true b in
    let b := settle (750 * 1000) b in
    let s := reset_search s in
    '(acc, s, b) ← exec_loop fuel max_results 0 [] s b;
    Some (true, acc, s, b).
End Protocol.
Arguments locals : clear implicits.
Arguments search_state : clear implicits.

(** [ds_init]: configures the pin and remembers it in [gpioPin]. *)
Definition ds_init {W} `{Gpio W} (gpio : Z) (b : Z * W) : Z * W :=
  (gpio, GPIO_DIS_OUTPUT gpio (PIN_SETUP gpio (snd b))).
