(* ===== verification/OneWireFacts.v ===== *)
(** The 1-Wire driver: the ROM search finds every device of the bus once and
    in order, [exec_ds18b20] reports the known ones, the checksum detects
    errors, the temperature conversion is exact, the slots have their timing. *)
From Stdlib Require Import Sorted.
From S2P Require Import Prelude OneWire.

(** * Device addresses as sequences of bits *)
Definition bit (r : list Z) (k : nat) : bool :=
  Z.testbit (nth (k / 8) r 0) (Z.of_nat (k mod 8)).

(** A ROM code: eight bytes, the first (the family code) not zero. *)
Definition rom_ok (r : list Z) : Prop := length r = 8%nat /\ bytes_ok r.
Definition device_ok (r : list Z) : Prop := rom_ok r /\ nth 0 r 0 <> 0.

Definition agree (k : nat) (r d : list Z) : Prop := forall j, (j < k)%nat -> bit r j = bit d j.
#[global] Instance agree_dec k r d : Decision (agree k r d).
Proof.
  destruct (decide (Forall (fun j => bit r j = bit d j) (seq 0 k))) as [H|H]; [left|right].
  - intros j Hj. rewrite Forall_forall in H. apply H, elem_of_seq. lia.
  - intros Ha. apply H, Forall_forall. intros j Hj%elem_of_seq. apply Ha. lia.
Defined.

(** The order of the search: bit 0 of the family code first, 0 before 1. *)
Definition rom_lt (r d : list Z) : Prop :=
  exists k, (k < 64)%nat /\ agree k r d /\ bit r k = false /\ bit d k = true.

(** * What the search relies on: the documented behaviour of ROM SEARCH

    After a reset and the command 0xF0 every device takes part; two read slots
    give the wired AND of the next address bit and of its complement; the bit
    then written keeps the devices whose bit it is. *)
Class SearchBus `{DS1820} (B : Type) `{OneWireBus B} (devs : list (list Z)) := {
  sb_ready : B -> Prop;
  sb_polled : nat -> nat -> list (list Z) -> B -> Prop;
  sb_reset (b : B) : exists b', reset b = (bool_decide (devs <> []), b') /\ sb_ready b';
  sb_search b : sb_ready b -> sb_polled 0 0 devs (write DS1820_SEARCHROM false b);
  sb_bit k P b : sb_polled 0 k P b ->
    exists b', read_bit b = (forallb (fun d => bit d k) P, b') /\ sb_polled 1 k P b';
  sb_cmp k P b : sb_polled 1 k P b ->
    exists b', read_bit b = (forallb (fun d => negb (bit d k)) P, b') /\ sb_polled 2 k P b';
  sb_dir k P b v : sb_polled 2 k P b ->
    sb_polled 0 (S k) (filter (fun d => bit d k = v) P) (write_bit v b) }.

(** * Facts on bits *)
Lemma agree_refl k r : agree k r r. Proof. done. Qed.
Lemma agree_sym k r d : agree k r d -> agree k d r.
Proof. intros H j Hj. symmetry. auto. Qed.
Lemma agree_trans k r d e : agree k r d -> agree k d e -> agree k r e.
Proof. intros H1 H2 j Hj. rewrite H1; auto. Qed.
Lemma agree_le k k' r d : (k' <= k)%nat -> agree k r d -> agree k' r d.
Proof. intros Hk H j Hj. apply H. lia. Qed.
Lemma agree_S k r d : agree (S k) r d <-> agree k r d /\ bit r k = bit d k.
Proof.
  split; [intros H; split; [intros j Hj; apply H; lia|apply H; lia]|].
  intros [H E] j Hj. destruct (decide (j = k)) as [->|]; [done|apply H; lia].
Qed.

(** Two addresses differ first at some bit, or agree. *)
Lemma first_difference k r d :
  agree k r d \/ exists j, (j < k)%nat /\ agree j r d /\ bit r j <> bit d j.
Proof.
  induction k as [|k [IH|(j & ? & ? & ?)]].
  - left. intros j; lia.
  - destruct (decide (bit r k = bit d k)).
    + left. by apply agree_S.
    + right. exists k. auto with lia.
  - right. exists j. auto with lia.
Qed.

Lemma bit_byte r i n : (n < 8)%nat -> bit r (8 * i + n) = Z.testbit (nth i r 0) (Z.of_nat n).
Proof.
  intros Hn. unfold bit. f_equal; f_equal.
  - symmetry. apply Nat.div_unique with n; lia.
  - symmetry. apply Nat.mod_unique with i; lia.
Qed.

Lemma nth_lookup_Some {A} (l : list A) i d x : l !! i = Some x -> nth i l d = x.
Proof. revert i; induction l as [|y l IH]; intros [|i]; simpl; try done; [by intros [= ->]|apply IH]. Qed.

Lemma nth_byte_ok r i : bytes_ok r -> byte_ok (nth i r 0).
Proof.
  intros Hb. destruct (r !! i) as [x|] eqn:E.
  - rewrite (nth_lookup_Some _ _ _ _ E). eapply Forall_lookup_1; eauto.
  - rewrite nth_overflow by (by apply lookup_ge_None). word_lia.
Qed.

Lemma agree_eq r d : rom_ok r -> rom_ok d -> agree 64 r d -> r = d.
Proof.
  intros [Lr Br] [Ld Bd] Ha. apply (nth_ext _ _ 0 0); [congruence|].
  intros i Hi. apply Z.bits_inj'; intros n Hn.
  destruct (decide (n < 8)) as [Hlt|Hge].
  - specialize (Ha (8 * i + Z.to_nat n)%nat ltac:(lia)).
    rewrite !bit_byte in Ha by lia. by rewrite !Z2Nat.id in Ha by lia.
  - rewrite !(fits_high_bits 8); auto using nth_byte_ok with lia.
Qed.

Lemma rom_lt_irrefl r : ~ rom_lt r r.
Proof. intros (k & _ & _ & H1 & H2). congruence. Qed.
Lemma rom_lt_trans r d e : rom_lt r d -> rom_lt d e -> rom_lt r e.
Proof.
  intros (k & Hk & Ak & Rk & Dk) (j & Hj & Aj & Dj & Ej).
  destruct (lt_eq_lt_dec k j) as [[Hl| -> ]|Hl].
  - exists k. split_and!; auto. { eapply agree_trans; eauto using agree_le with lia. }
    rewrite <- (Aj k) by done. done.
  - congruence.
  - exists j. split_and!; auto. { eapply agree_trans; eauto using agree_le with lia. }
    rewrite (Ak j) by done. done.
Qed.

(** * Setting a bit of the address under construction *)
Lemma lnot_mask_bits n i :
  0 <= i < 8 -> 0 <= n < 8 -> Z.testbit (u8 (Z.lnot (2 ^ n))) i = negb (n =? i).
Proof.
  intros Hi Hn. unfold trunc. rewrite Z.mod_pow2_bits_low by lia.
  rewrite Z.lnot_spec, Z.pow2_bits_eqb by lia. done.
Qed.

Lemma set_or_clear_ok r i n dir :
  rom_ok r -> (n < 8)%nat -> rom_ok (set_or_clear r (Z.of_nat i) (2 ^ Z.of_nat n) dir).
Proof.
  intros [L B] Hn. unfold set_or_clear. split; [by rewrite length_alter|].
  rewrite Nat2Z.id. apply Forall_alter; [done|]. intros x _ Hx.
  assert (Hm : byte_ok (2 ^ Z.of_nat n)).
  { split; [apply Z.pow_nonneg; lia|]. apply Z.pow_lt_mono_r; lia. }
  destruct dir; [apply fits_lor; done || lia|apply fits_land; [lia|apply Hx|apply u8_ok]].
Qed.

Lemma bit_set_or_clear r i n dir k :
  rom_ok r -> (i < 8)%nat -> (n < 8)%nat ->
  bit (set_or_clear r (Z.of_nat i) (2 ^ Z.of_nat n) dir) k =
  if decide (k = 8 * i + n)%nat then dir else bit r k.
Proof.
  intros [L B] Hi Hn. unfold bit, set_or_clear. rewrite Nat2Z.id.
  pose proof (Nat.div_mod_eq k 8) as Hk. pose proof (Nat.mod_upper_bound k 8 ltac:(lia)) as Hm.
  destruct (r !! i) as [x|] eqn:Ex; [|apply lookup_ge_None in Ex; lia].
  destruct (decide (k / 8 = i)%nat) as [Hq|Hne]; [rewrite Hq in *|].
  - rewrite !nth_lookup, list_lookup_alter, decide_True, Ex by done. cbn [fmap option_fmap option_map from_option id].
    assert (Hd : (Z.of_nat n =? Z.of_nat (k mod 8)) = bool_decide (k = 8 * i + n)%nat).
    { case_bool_decide; [apply Z.eqb_eq|apply Z.eqb_neq]; lia. }
    destruct dir.
    + rewrite Z.lor_spec, Z.pow2_bits_eqb by lia. rewrite Hd.
      case_bool_decide; case_decide; try done; [apply orb_true_r|apply orb_false_r].
    + rewrite Z.land_spec, lnot_mask_bits, Hd by lia.
      case_bool_decide; case_decide; try done; [apply andb_false_r|apply andb_true_r].
  - rewrite decide_False by lia. f_equal.
    rewrite !nth_lookup, list_lookup_alter, decide_False by done. done.
Qed.

(** * One search over a bus that follows the protocol *)
Section Search.
Context `{Ds : DS1820} {B : Type} `{Bus : OneWireBus B} (devs : list (list Z)) `{!SearchBus B devs}.
Context (Hdevs : Forall device_ok devs).

(** A discrepancy at bit [j] below the prefix of [r]: both values occur. *)
Definition has (r : list Z) (j : nat) (v : bool) : Prop :=
  exists d, d ∈ devs /\ agree j r d /\ bit d j = v.

(** [lz] is the position (from 1) of the last bit below [k] at which [r] has a
    0 where a device agreeing with [r] so far has a 1; 0 if there is none. *)
Definition last_zero_at (r : list Z) (k : nat) (lz : Z) : Prop :=
  (lz = 0 \/ exists j, (j < k)%nat /\ lz = Z.of_nat j + 1 /\ bit r j = false /\ has r j true) /\
  (forall j, (j < k)%nat -> lz < Z.of_nat j + 1 -> bit r j = false -> ~ has r j true).

(** The loop's invariant after [k] turns, searching from [r0] with
    [LastDiscrepancy] [L]. *)
Record turn_inv (r0 : list Z) (L : Z) (k : nat) (l : locals B) : Prop := {
  ti_bus : sb_polled 0 k (filter (agree k (rom l)) devs) (bus l);
  ti_rom : rom_ok (rom l);
  ti_some : exists d, d ∈ devs /\ agree k (rom l) d;
  ti_rest : forall j, (k <= j)%nat -> bit (rom l) j = bit r0 j;
  ti_num : id_bit_number l = Z.of_nat k + 1;
  ti_byte : rom_byte_number l = Z.of_nat (k / 8);
  ti_mask : rom_byte_mask l = 2 ^ Z.of_nat (k mod 8);
  ti_zero : last_zero_at (rom l) k (last_zero l);
  ti_choice : forall j, (j < k)%nat -> has (rom l) j true -> has (rom l) j false ->
    bit (rom l) j = if Z.of_nat j + 1 <? L then bit r0 j else (Z.of_nat j + 1 =? L) }.

Lemma has_ext r r' j v : agree j r r' -> has r j v -> has r' j v.
Proof.
  intros Ha (d & Hd & Hr & Hb). exists d. split_and!; auto.
  eapply agree_trans; [apply agree_sym, Ha|done].
Qed.

Lemma last_zero_ext r r' k lz : agree k r r' -> last_zero_at r k lz -> last_zero_at r' k lz.
Proof.
  intros Ha [H1 H2]. split.
  - destruct H1 as [->|(j & Hj & -> & Hb & Hh)]; [by left|right].
    exists j. split_and!; auto. { by rewrite <- Ha. }
    eapply has_ext; [|done]. eapply agree_le; [|done]. lia.
  - intros j Hj Hlt Hb Hh. apply (H2 j); auto. { by rewrite Ha. }
    eapply has_ext; [|done]. apply agree_sym. eapply agree_le; [|done]. lia.
Qed.

Lemma poll_true k r :
  forallb (fun d => bit d k) (filter (agree k r) devs) = true <-> ~ has r k false.
Proof.
  rewrite forallb_forall. split.
  - intros Hf (d & Hd & Ha & Hb). enough (bit d k = true) by congruence.
    apply Hf, list_elem_of_In, list_elem_of_filter. done.
  - intros Hn d [Ha Hd]%list_elem_of_In%list_elem_of_filter.
    destruct (bit d k) eqn:E; [done|]. destruct Hn. by exists d.
Qed.
Lemma poll_false k r :
  forallb (fun d => negb (bit d k)) (filter (agree k r) devs) = true <-> ~ has r k true.
Proof.
  rewrite forallb_forall. split.
  - intros Hf (d & Hd & Ha & Hb). enough (negb (bit d k) = true) by (rewrite Hb in *; done).
    apply Hf, list_elem_of_In, list_elem_of_filter. done.
  - intros Hn d [Ha Hd]%list_elem_of_In%list_elem_of_filter.
    destruct (bit d k) eqn:E; [|done]. destruct Hn. by exists d.
Qed.

Lemma mask_step k :
  (let mask := u8 (Z.shiftl (2 ^ Z.of_nat (k mod 8)) 1) in
   (if mask =? 0 then u8 (Z.of_nat (k / 8) + 1) else Z.of_nat (k / 8),
    if mask =? 0 then 1 else mask)) =
  (Z.of_nat (S k / 8), 2 ^ Z.of_nat (S k mod 8)) \/ (64 <= k)%nat.
Proof.
  destruct (decide (k < 64)%nat) as [Hk|]; [left|right; lia].
  assert (forallb (fun k => let k := Z.to_nat k in
    let mask := u8 (Z.shiftl (2 ^ Z.of_nat (k mod 8)) 1) in
    bool_decide ((if mask =? 0 then u8 (Z.of_nat (k / 8) + 1) else Z.of_nat (k / 8)) = Z.of_nat (S k / 8) /\
    (if mask =? 0 then 1 else mask) = 2 ^ Z.of_nat (S k mod 8))) (below 64) = true) as HH by (vm_compute; reflexivity).
  pose proof (forall_below 64 _ HH (Z.of_nat k) ltac:(lia)) as Hb.
  cbv beta zeta in Hb. rewrite Nat2Z.id in Hb. apply bool_decide_eq_true in Hb as [H1 H2].
  cbv zeta. by rewrite H1, H2.
Qed.

Lemma has_dec r k v : has r k v \/ ~ has r k v.
Proof.
  destruct (decide (Exists (fun d => agree k r d /\ bit d k = v) devs)) as [He|He];
    rewrite Exists_exists in He; [left|right].
  - destruct He as (d & ? & ? & ?). by exists d.
  - intros (d & ? & ? & ?). apply He. eauto.
Qed.

(** What the turn does to the part of the state that is not the bus. *)
Lemma zero_next r r' k (dir : bool) lz lz' :
  agree k r r' -> bit r' k = dir -> last_zero_at r k lz ->
  (dir = false -> has r k true -> lz' = Z.of_nat k + 1) ->
  (dir = true \/ ~ has r k true -> lz' = lz) ->
  last_zero_at r' (S k) lz'.
Proof.
  intros Ha Hd Hz H1 H2. destruct (last_zero_ext _ _ _ _ Ha Hz) as [Z1 Z2].
  destruct (has_dec r k true) as [Hh|Hh]; [destruct dir|].
  1: rewrite H2 by auto. 3: rewrite H2 by auto.
  2: rewrite H1 by auto.
  - split. { destruct Z1 as [->|(j & ?)]; [by left|right; exists j; intuition lia]. }
    intros j Hj Hlt Hb. destruct (decide (j = k)) as [->|]; [congruence|apply Z2; auto; lia].
  - split; [right; exists k; split_and!; auto; eauto using has_ext|intros; lia].
  - split. { destruct Z1 as [->|(j & ?)]; [by left|right; exists j; intuition lia]. }
    intros j Hj Hlt Hb. destruct (decide (j = k)) as [->|]; [|apply Z2; auto; lia].
    intros Hh'. apply Hh. eapply has_ext; [|done]. by apply agree_sym.
Qed.

Lemma filter_agree_S r r' k v :
  agree k r r' -> bit r' k = v ->
  filter (fun d => bit d k = v) (filter (agree k r) devs) = filter (agree (S k) r') devs.
Proof.
  intros Ha Hb. rewrite list_filter_filter. apply list_filter_iff. intros d.
  rewrite agree_S. split; intros [H1 H2].
  - split; [|congruence]. eapply agree_trans; [apply agree_sym, Ha|done].
  - split; [congruence|]. eapply agree_trans; done.
Qed.

(** The state after a turn that writes [dir]. *)
Lemma turn_next r0 L k l b dir lz fam :
  (k < 64)%nat -> turn_inv r0 L k l ->
  sb_polled 2 k (filter (agree k (rom l)) devs) b ->
  has (rom l) k dir ->
  (has (rom l) k (negb dir) ->
   dir = if Z.of_nat k + 1 <? L then bit r0 k else (Z.of_nat k + 1 =? L)) ->
  (dir = false -> has (rom l) k true -> lz = Z.of_nat k + 1) ->
  (dir = true \/ ~ has (rom l) k true -> lz = last_zero l) ->
  turn_inv r0 L (S k)
    (let mask := u8 (Z.shiftl (rom_byte_mask l) 1) in
     Locals (write_bit dir b)
       (set_or_clear (rom l) (rom_byte_number l) (rom_byte_mask l) dir) fam
       (u8 (id_bit_number l + 1)) lz
       (if mask =? 0 then u8 (rom_byte_number l + 1) else rom_byte_number l)
       (if mask =? 0 then 1 else mask)).
Proof.
  intros Hk [Hbus Hrom Hsome Hrest Hnum Hbyte Hmask Hzero Hchoice] Hb Hh Hd Hz1 Hz2.
  pose proof (Nat.div_mod_eq k 8) as Hdm. pose proof (Nat.mod_upper_bound k 8 ltac:(lia)) as Hm.
  assert (Hbit : forall j, bit (set_or_clear (rom l) (rom_byte_number l) (rom_byte_mask l) dir) j =
                 if decide (j = k) then dir else bit (rom l) j).
  { intros j. rewrite Hbyte, Hmask, bit_set_or_clear by (done || lia).
    repeat case_decide; done || lia. }
  assert (Ha : agree k (rom l) (set_or_clear (rom l) (rom_byte_number l) (rom_byte_mask l) dir)).
  { intros j Hj. rewrite Hbit. case_decide; [lia|done]. }
  pose proof (Hbit k) as Hbk. rewrite decide_True in Hbk by done.
  destruct (mask_step k) as [Hs|]; [|lia]. cbv zeta in Hs |- *. injection Hs as Hs1 Hs2.
  constructor; cbn [bus rom family id_bit_number last_zero rom_byte_number rom_byte_mask].
  - rewrite <- (filter_agree_S _ _ _ _ Ha Hbk). by apply sb_dir.
  - rewrite Hbyte, Hmask. by apply set_or_clear_ok.
  - destruct Hh as (d & Hin & Hag & Hbd). exists d. split; [done|]. apply agree_S.
    split; [eapply agree_trans; [apply agree_sym, Ha|done]|congruence].
  - intros j Hj. rewrite Hbit. case_decide; [lia|]. apply Hrest. lia.
  - rewrite Hnum, trunc_small by word_lia. lia.
  - by rewrite Hbyte, Hmask.
  - by rewrite Hmask.
  - eapply zero_next; eauto.
  - intros j Hj Ht Hf. destruct (decide (j = k)) as [->|Hjk].
    + rewrite Hbk. apply Hd. destruct dir; simpl; eapply has_ext; eauto using agree_sym.
    + assert (Hja : agree j (set_or_clear (rom l) (rom_byte_number l) (rom_byte_mask l) dir) (rom l))
        by (eapply agree_le; [|apply agree_sym, Ha]; lia).
      rewrite Hbit, decide_False by done. apply Hchoice; [lia|..]; eapply has_ext; eauto.
Qed.

Lemma search_turn_ok r0 L k l :
  (k < 64)%nat -> turn_inv r0 L k l ->
  exists l', search_turn L l = (false, l') /\ turn_inv r0 L (S k) l'.
Proof.
  intros Hk Hl. pose proof Hl as [Hbus _ (d & Hd & Hda) Hrest Hnum Hbyte Hmask _ _].
  unfold search_turn.
  destruct (sb_bit _ _ _ Hbus) as (b1 & -> & Hb1).
  destruct (sb_cmp _ _ _ Hb1) as (b2 & -> & Hb2).
  pose proof (poll_true k (rom l)) as P1. pose proof (poll_false k (rom l)) as P2.
  assert (Hhas : has (rom l) k (bit d k)) by (exists d; done).
  assert (Hr : (0 <? Z.land (nth (Z.to_nat (rom_byte_number l)) (rom l) 0) (rom_byte_mask l)) = bit r0 k).
  { rewrite <- (Hrest k) by done. unfold bit. rewrite Hbyte, Hmask, Nat2Z.id.
    apply testbit_mask. }
  destruct (forallb (fun d => bit d k) _) eqn:E1, (forallb (fun d => negb (bit d k)) _) eqn:E2;
    destruct (has_dec (rom l) k true) as [Ht|Ht], (has_dec (rom l) k false) as [Hf|Hf];
    try (exfalso; intuition congruence); try (destruct (bit d k); done);
    cbn [andb eqb negb orb]; eexists; (split; [reflexivity|]).
  - apply turn_next; auto; intros; try done.
  - apply turn_next; auto; intros; try done.
  - rewrite Hr. apply turn_next; auto; rewrite ?Hnum.
    + destruct (if Z.of_nat k + 1 <? L then _ else _); done.
    + done.
    + intros ->. done.
    + intros [->|]; done.
Qed.

Lemma search_loop_ok r0 L n : forall k l,
  (k + n = 64)%nat -> (0 < n)%nat -> turn_inv r0 L k l ->
  turn_inv r0 L 64 (search_loop n L l).
Proof.
  induction n as [|n IH]; intros k l Hn Hpos Hl; [lia|].
  cbn [search_loop]. destruct (search_turn_ok r0 L k l ltac:(lia) Hl) as (l' & -> & Hl').
  pose proof (ti_byte _ _ _ _ Hl') as Hb. rewrite Hb.
  destruct (decide (n = 0%nat)) as [->|].
  - replace (S k) with 64%nat in * by lia. done.
  - rewrite (proj2 (Z.ltb_lt _ _)); [apply (IH (S k)); done || lia|].
    enough (S k / 8 < 8)%nat by lia. apply Nat.Div0.div_lt_upper_bound. lia.
Qed.

(** ** What a search finds *)

(** [r] is on the bus and [lz] the state the next search needs to go past it. *)
Definition found (r : list Z) (lz : Z) : Prop := r ∈ devs /\ last_zero_at r 64 lz.

(** The choices a search makes, starting from [r0] with [LastDiscrepancy] [L]. *)
Definition chosen (r0 : list Z) (L : Z) (r : list Z) : Prop :=
  forall j, (j < 64)%nat -> has r j true -> has r j false ->
    bit r j = if Z.of_nat j + 1 <? L then bit r0 j else (Z.of_nat j + 1 =? L).

Lemma search_once s b :
  devs <> [] -> rom_ok (ROM_NO s) -> LastDeviceFlag s = false ->
  exists r b' fam lz, found r lz /\ chosen (ROM_NO s) (LastDiscrepancy s) r /\
    ds_search s b = (true, Some r, b', Search r lz fam (lz =? 0)).
Proof.
  intros Hne Hr Hflag. unfold ds_search. rewrite Hflag.
  destruct (sb_reset b) as (b1 & -> & Hb1). rewrite bool_decide_eq_true_2 by done.
  cbn [negb].
  set (l0 := Locals _ _ _ _ _ _ _).
  assert (H0 : turn_inv (ROM_NO s) (LastDiscrepancy s) 0 l0).
  { constructor; simpl; try done.
    - replace (filter _ devs) with devs; [by apply sb_search|].
      clear. induction devs as [|d l IH]; [done|].
      rewrite filter_cons_True by (intros j; lia). by rewrite <- IH.
    - destruct devs as [|d l]; [done|]. exists d. split; [by left|intros j; lia].
    - split; [by left|intros; lia].
    - intros; lia. }
  pose proof (search_loop_ok _ _ 64 0 l0 ltac:(lia) ltac:(lia) H0) as HL.
  set (l := search_loop 64 (LastDiscrepancy s) l0) in *. clearbody l.
  destruct HL as [_ Hrom (d & Hd & Hda) _ Hnum _ _ Hzero Hchoice].
  rewrite Hnum. cbn [Z.ltb Z.of_nat Z.add Z.compare].
  assert (Hok : device_ok d) by (rewrite Forall_forall in Hdevs; auto).
  assert (rom l = d) as Hrd by (apply agree_eq; [done|apply Hok|done]).
  exists (rom l), (bus l), (family l), (last_zero l).
  split_and!; [split; [by rewrite Hrd|done]|done|].
  change (Z.of_nat 64 + 1 <? 65) with false. cbv iota. cbn [ROM_NO andb].
  assert (z2b (nth 0 (rom l) 0) = true) as ->.
  { rewrite Hrd. unfold z2b. destruct Hok as [_ Hn]. by apply negb_true_iff, Z.eqb_neq. }
  done.
Qed.

(** The address a search from the start finds is the least one. *)
Lemma chosen_least r lz r0 :
  found r lz -> chosen r0 0 r -> forall d, d ∈ devs -> d = r \/ rom_lt r d.
Proof.
  intros [Hr _] Hc d Hd. rewrite Forall_forall in Hdevs.
  destruct (first_difference 64 r d) as [Ha|(j & Hj & Ha & Hb)].
  { left. symmetry. apply agree_eq; [apply Hdevs, Hr|apply Hdevs, Hd|done]. }
  right. exists j. split_and!; auto.
  all: specialize (Hc j Hj); rewrite (proj2 (Z.ltb_ge _ _)), (proj2 (Z.eqb_neq _ _)) in Hc by lia;
    destruct (bit r j) eqn:E1, (bit d j) eqn:E2; try done;
    enough (true = false) by done; apply Hc; [exists r|exists d]; done.
Qed.

(** Searching on from [r], the address found is the one that follows [r]. *)
Lemma chosen_next r lz r' lz' :
  found r lz -> 0 < lz -> found r' lz' -> chosen r lz r' ->
  rom_lt r r' /\ forall d, d ∈ devs -> rom_lt r d -> d = r' \/ rom_lt r' d.
Proof.
  intros [Hr [[->|(k & Hk & -> & Hbk & Hhk)] Hz]] Hpos [Hr' _] Hc; [lia|].
  assert (Hag : forall j, (j <= k)%nat -> agree j r r').
  { induction j as [|j IH]; intros Hj; [intros i; lia|].
    apply agree_S. split; [apply IH; lia|].
    assert (Hj' : agree j r r') by (apply IH; lia).
    destruct (decide (bit r j = bit r' j)) as [|Hn]; [done|].
    specialize (Hc j ltac:(lia)). rewrite (proj2 (Z.ltb_lt _ _)) in Hc by lia.
    symmetry. destruct (bit r j) eqn:E1, (bit r' j) eqn:E2; try done.
    - apply Hc; [exists r|exists r']; auto using agree_sym, agree_refl.
    - apply Hc; [exists r'|exists r]; auto using agree_sym, agree_refl. }
  assert (Hk1 : bit r' k = true).
  { destruct Hhk as (d & Hd & Had & Hbd). destruct (bit r' k) eqn:E; [done|].
    rewrite <- E, (Hc k) by
      first [done | exists d; split_and!; auto; eapply agree_trans; [apply agree_sym, (Hag k)|]; done
            | exists r; split_and!; auto; apply agree_sym, Hag; done].
    rewrite (proj2 (Z.ltb_ge _ _)) by lia. apply Z.eqb_eq. done. }
  split; [exists k; auto|].
  intros d Hd (j & Hj & Haj & Hrj & Hdj). rewrite Forall_forall in Hdevs.
  destruct (lt_eq_lt_dec j k) as [[Hl|Hl]|Hl].
  - right. exists j. split_and!; auto.
    + eapply agree_trans; [apply agree_sym, Hag; lia|done].
    + rewrite <- (Hag k); done || lia.
  - subst j.
    destruct (first_difference 64 r' d) as [Ha|(i & Hi & Ha & Hb)].
    { left. symmetry. apply agree_eq; [apply Hdevs, Hr'|apply Hdevs, Hd|done]. }
    right. exists i.
    assert (k < i)%nat.
    { destruct (lt_eq_lt_dec i k) as [[Hl| -> ]|]; [|congruence|done].
      destruct Hb. rewrite <- (Hag k), (Haj i) by done. done. }
    specialize (Hc i Hi). rewrite (proj2 (Z.ltb_ge _ _)), (proj2 (Z.eqb_neq _ _)) in Hc by lia.
    destruct (bit r' i) eqn:E1, (bit d i) eqn:E2; try done.
    enough (true = false) by done. apply Hc; [exists r'|exists d]; done.
  - exfalso. apply (Hz j); [done|lia|done|]. exists d. done.
Qed.

Lemma found_last r : found r 0 -> forall d, d ∈ devs -> ~ rom_lt r d.
Proof.
  intros [_ [_ Hz]] d Hd (j & Hj & Ha & Hb & Hb').
  apply (Hz j); [done|lia|done|]. exists d. done.
Qed.
Lemma found_more r lz : found r lz -> lz <> 0 -> 0 < lz /\ exists d, d ∈ devs /\ rom_lt r d.
Proof.
  intros [_ [[->|(j & Hj & -> & Hb & d & Hd & Ha & Hb')] _]] Hne; [done|].
  split; [lia|]. exists d. split; [done|]. exists j. done.
Qed.

(** ** The whole enumeration *)

(** From state [s], whatever the bus did in between, the calls of [ds_search]
    return the addresses [l] one after the other and then fail. *)
Fixpoint enumerates (l : list (list Z)) (s : search_state) : Prop :=
  match l with
  | [] => forall b, exists a b' s', ds_search s b = (false, a, b', s')
  | r :: l => forall b, exists b' s', ds_search s b = (true, Some r, b', s') /\ enumerates l s'
  end.

Lemma rom_lt_total r d : device_ok r -> device_ok d -> r = d \/ rom_lt r d \/ rom_lt d r.
Proof.
  intros Hr Hd. destruct (first_difference 64 r d) as [Ha|(j & Hj & Ha & Hb)].
  - left. apply agree_eq; [apply Hr|apply Hd|done].
  - right. destruct (bit r j) eqn:E1, (bit d j) eqn:E2; try done;
      [right|left]; exists j; split_and!; auto using agree_sym.
Qed.

Lemma sorted_exists (l : list (list Z)) :
  Forall device_ok l -> NoDup l -> exists l', StronglySorted rom_lt l' /\ l' ≡ₚ l.
Proof.
  induction l as [|x l IH]; intros Hok Hnd; [by exists []; split; [constructor|]|].
  apply Forall_cons in Hok as [Hx Hok]. apply NoDup_cons in Hnd as [Hnx Hnd].
  destruct (IH Hok Hnd) as (l' & Hs & Hp).
  assert (Hnx' : x ∉ l') by (by rewrite Hp). rewrite <- Hp in Hok.
  enough (exists l'', StronglySorted rom_lt l'' /\ l'' ≡ₚ x :: l') as (l'' & ? & Hp')
    by (exists l''; split; [done|by rewrite Hp', Hp]).
  clear IH Hp Hnx l Hnd. induction Hs as [|y l' Hs IH Hy].
  { exists [x]. by repeat constructor. }
  apply Forall_cons in Hok as [Hyo Hok]. apply not_elem_of_cons in Hnx' as [Hxy Hnx'].
  destruct (rom_lt_total x y Hx Hyo) as [->|[Hlt|Hlt]]; [done|..].
  - exists (x :: y :: l'). split; [|done]. repeat constructor; auto.
    eapply Forall_impl; [exact Hy|]. intros. eapply rom_lt_trans; eauto.
  - destruct (IH Hok Hnx') as (l'' & Hs'' & Hp''). exists (y :: l'').
    split; [constructor; [done|]|].
    + rewrite Hp''. by constructor.
    + rewrite Hp''. constructor.
Qed.

Lemma enumerates_after l : forall r lz fam,
  StronglySorted rom_lt l -> (forall d, d ∈ l <-> d ∈ devs /\ rom_lt r d) ->
  found r lz -> enumerates l (Search r lz fam (lz =? 0)).
Proof.
  induction l as [|x l IH]; intros r lz fam Hs Hl Hf; simpl.
  - intros b. destruct (Z.eqb_spec lz 0) as [->|Hne]; [do 3 eexists; reflexivity|].
    destruct (found_more _ _ Hf Hne) as [_ (d & Hd & Hlt)].
    exfalso. by apply (elem_of_nil d), Hl.
  - intros b. destruct (proj1 (Hl x) ltac:(left)) as [Hx Hrx].
    destruct (Z.eqb_spec lz 0) as [->|Hne]; [by destruct (found_last _ Hf x Hx)|].
    destruct (found_more _ _ Hf Hne) as [Hpos _].
    destruct (search_once (Search r lz fam false) b) as (r' & b' & fam' & lz' & Hf' & Hc & E);
      [by intros ->; apply elem_of_nil in Hx| |done|].
    { rewrite Forall_forall in Hdevs. apply Hdevs, Hf. }
    destruct (chosen_next _ _ _ _ Hf Hpos Hf' Hc) as [Hlt Hmin].
    apply StronglySorted_inv in Hs as [Hs Hxl]. rewrite Forall_forall in Hxl.
    assert (r' = x) as ->.
    { assert (r' ∈ x :: l) as [->|Hin]%elem_of_cons by (apply Hl; split; [apply Hf'|done]); [done|].
      destruct (Hmin x Hx Hrx) as [->|Hlt']; [done|].
      destruct (rom_lt_irrefl r'). eapply rom_lt_trans; [done|]. by apply Hxl. }
    exists b', (Search x lz' fam' (lz' =? 0)). split; [done|].
    apply IH; [done| |done]. intros d. split.
    + intros Hd. split; [|by apply Hxl]. apply (Hl d). by right.
    + intros [Hd Hxd]. assert (d ∈ x :: l) as [->|]%elem_of_cons; [|by apply rom_lt_irrefl in Hxd|done].
      apply Hl. split; [done|]. by eapply rom_lt_trans.
Qed.

Lemma enumerates_start l s :
  StronglySorted rom_lt l -> l ≡ₚ devs ->
  rom_ok (ROM_NO s) -> LastDiscrepancy s = 0 -> LastDeviceFlag s = false -> enumerates l s.
Proof.
  intros Hs Hp Hr HL Hflag. destruct l as [|x l]; simpl; intros b.
  - apply Permutation_nil in Hp. unfold ds_search. rewrite Hflag.
    destruct (sb_reset b) as (b' & -> & _). rewrite Hp. simpl. eauto.
  - assert (Hmem : forall d, d ∈ x :: l <-> d ∈ devs) by (intros; by rewrite Hp).
    destruct (search_once s b) as (r & b' & fam & lz & Hf & Hc & E); try done.
    { intros Hd. rewrite Hd in Hp. by apply Permutation_nil_r in Hp. }
    rewrite HL in Hc. pose proof (chosen_least _ _ _ Hf Hc) as Hmin.
    apply StronglySorted_inv in Hs as [Hs Hxl]. rewrite Forall_forall in Hxl.
    assert (r = x) as ->.
    { assert (r ∈ x :: l) as [->|Hin]%elem_of_cons by (apply Hmem, Hf); [done|].
      destruct (Hmin x) as [->|Hlt]; [apply Hmem; left|done|].
      destruct (rom_lt_irrefl r). eapply rom_lt_trans; [done|]. by apply Hxl. }
    exists b', (Search x lz fam (lz =? 0)). split; [done|].
    apply enumerates_after; [done| |done]. intros d. split.
    + intros Hd. split; [apply Hmem; by right|by apply Hxl].
    + intros [Hd Hxd]. apply Hmem in Hd.
      apply elem_of_cons in Hd as [->|]; [by apply rom_lt_irrefl in Hxd|done].
Qed.

(** Repeated calls until one fails; [None]: out of fuel. *)
Fixpoint search_all (fuel : nat) (s : search_state) (b : B) : option (list (list Z)) :=
  match fuel with
  | O => None
  | S f => let '(r, a, b, s) := ds_search s b in
           if r then l ← search_all f s b; Some (default [] a :: l) else Some []
  end.

Lemma search_all_enumerates l : forall s b fuel,
  enumerates l s -> (length l < fuel)%nat -> search_all fuel s b = Some l.
Proof.
  induction l as [|r l IH]; intros s b [|fuel] He Hf; simpl in *; try lia.
  - destruct (He b) as (a & b' & s' & ->). done.
  - destruct (He b) as (b' & s' & -> & He'). rewrite (IH _ _ fuel He') by lia. done.
Qed.

Lemma reset_search_ok s : rom_ok (ROM_NO (reset_search s)).
Proof. split; [done|]. apply Forall_replicate. word_lia. Qed.
End Search.

(** C7: Started afresh on a bus that follows the ROM SEARCH protocol, successive
    calls of [ds_search] return every device of the bus exactly once, in the
    order of their address bits, and then report the end: the search
    terminates and misses no device. *)
Theorem search_finds_all `{DS1820} {B} `{OneWireBus B} devs `{!SearchBus B devs} (s : search_state) b :
  Forall device_ok devs -> NoDup devs ->
  exists l, search_all (S (length devs)) (reset_search s) b = Some l /\
    StronglySorted rom_lt l /\ l ≡ₚ devs.
Proof.
  intros Hok Hnd. destruct (sorted_exists devs Hok Hnd) as (l & Hs & Hp).
  exists l. split; [|done]. apply search_all_enumerates.
  - apply (enumerates_start devs Hok); auto using reset_search_ok.
  - rewrite Hp. lia.
Qed.

(** * A simulated bus: the laws are satisfiable *)

(** The values of the DS18B20 and DS18S20 data sheets. *)
Definition datasheet : DS1820 := {|
  DS1820_SEARCHROM := 0xF0; DS1820_MATCHROM := 0x55; DS1820_SKIP_ROM := 0xCC;
  DS1820_CONVERT_T := 0x44; DS1820_READ_SCRATCHPAD := 0xBE; DS18S20 := 0x10; DS18B20 := 0x28 |}.
#[local] Existing Instance datasheet.
Inductive sim_mode :=
| Receiving (bits : list bool)
| Searching (phase k : nat) (P : list (list Z)).

Definition bits8 (v : Z) : list bool := (fun m => z2b (Z.land m v)) <$> masks.

Definition sim_bus (devs : list (list Z)) : OneWireBus sim_mode := {|
  reset := fun _ => (bool_decide (devs <> []), Receiving []);
  write_bit := fun v m =>
    match m with
    | Receiving bits =>
        let bits := bits ++ [v] in
        if bool_decide (bits = bits8 DS1820_SEARCHROM) then Searching 0 0 devs else Receiving bits
    | Searching _ k P => Searching 0 (S k) (filter (fun d => bit d k = v) P)
    end;
  read_bit := fun m =>
    match m with
    | Searching 0 k P => (forallb (fun d => bit d k) P, Searching 1 k P)
    | Searching _ k P => (forallb (fun d => negb (bit d k)) P, Searching 2 k P)
    | Receiving bits => (true, Receiving bits)
    end;
  release := fun m => m;
  settle := fun _ m => m |}.

Lemma sim_search_bus devs : @SearchBus _ sim_mode (sim_bus devs) devs.
Proof.
  unshelve econstructor.
  - exact (fun m => m = Receiving []).
  - exact (fun p k P m => m = Searching p k P).
  - intros b. eexists. split; reflexivity.
  - intros b ->. vm_compute. reflexivity.
  - intros k P b ->. eexists. split; reflexivity.
  - intros k P b ->. eexists. split; reflexivity.
  - intros k P b v ->. reflexivity.
Defined.

Definition three_devices : list (list Z) :=
  [[0x28; 3; 0; 0; 0; 0; 0; 9]; [0x10; 1; 2; 3; 4; 5; 6; 7]; [0x28; 1; 0; 0; 0; 0; 0; 9]].
Lemma three_devices_ok : Forall device_ok three_devices.
Proof. repeat constructor; vm_compute; congruence. Qed.
Lemma three_devices_distinct : NoDup three_devices.
Proof.
  repeat (constructor;
    [rewrite ?not_elem_of_cons; repeat split; try discriminate; apply not_elem_of_nil|]).
  constructor.
Qed.

Lemma search_finds_all_witness :
  exists l, @search_all _ _ (sim_bus three_devices) 4 (reset_search (Search [] 0 0 false)) (Receiving [])
      = Some l /\ StronglySorted rom_lt l /\ l ≡ₚ three_devices.
Proof.
  exact (@search_finds_all _ _ (sim_bus three_devices) three_devices
    (sim_search_bus three_devices) (Search [] 0 0 false) (Receiving [])
    three_devices_ok three_devices_distinct).
Defined.

(** * Reading out the sensors *)
Definition known_family `{DS1820} (a : list Z) : bool :=
  (nth 0 a 0 =? DS18S20) || (nth 0 a 0 =? DS18B20).

Lemma exec_loop_enumerates `{DS1820} {B} `{OneWireBus B} max l : forall fuel n acc s b,
  enumerates l s -> (length l < fuel)%nat -> 0 <= n < max ->
  exists acc' s' b', exec_loop fuel max n acc s b = Some (acc', s', b') /\
    addr <$> acc' = (addr <$> acc) ++ take (Z.to_nat (max - n)) (filter known_family l).
Proof.
  induction l as [|a l IH]; intros [|fuel] n acc s b He Hf Hn; simpl in *; try lia.
  - destruct (He b) as (a & b' & s' & ->). simpl. do 3 eexists. split; [done|].
    by rewrite filter_nil, take_nil, app_nil_r.
  - destruct (He b) as (b' & s' & -> & He'). cbn [negb default from_option id].
    fold (known_family a). destruct (known_family a) eqn:Hk.
    + destruct (read_scratchpad a b') as [data b2].
      destruct (convert _ _ _) as [[sign v] fr].
      rewrite filter_cons_True by (by rewrite Hk).
      replace (Z.to_nat (max - n)) with (S (Z.to_nat (max - (n + 1)))) by lia.
      destruct (Z.ltb_spec (n + 1) max).
      * destruct (IH fuel (n + 1) (acc ++ [Reading a v fr sign]) s' b2 He') as (acc' & s2 & b3 & -> & E);
          [lia..|].
        do 3 eexists. split; [done|]. rewrite E, fmap_app. simpl. by rewrite <- app_assoc.
      * do 3 eexists. split; [done|]. replace (Z.to_nat (max - (n + 1))) with 0%nat by lia.
        by rewrite fmap_app.
    + rewrite filter_cons_False by (rewrite Hk; intros []).
      rewrite (proj2 (Z.ltb_lt _ _)) by lia.
      apply IH; auto; lia.
Qed.

(** C8: [exec_ds18b20] on a bus that follows the ROM SEARCH protocol returns, and
    the readings it stores are of the first [max_results] devices of a
    supported family in address order, each device once; devices of another
    family are passed over without using up a result. *)
Theorem exec_reads_known `{DS1820} {B} `{OneWireBus B} devs `{!SearchBus B devs} valid setup gpio max s b :
  Forall device_ok devs -> NoDup devs -> exec_args_ok valid gpio true max = true ->
  exists l readings s' b',
    StronglySorted rom_lt l /\ l ≡ₚ devs /\
    exec_ds18b20 (S (length devs)) valid setup gpio true max s b = Some (true, readings, s', b') /\
    addr <$> readings = take (Z.to_nat max) (filter known_family l).
Proof.
  intros Hok Hnd Hargs. destruct (sorted_exists devs Hok Hnd) as (l & Hs & Hp).
  unfold exec_ds18b20. rewrite Hargs. cbn [negb].
  destruct (reset _) as [pr b1].
  unfold exec_args_ok in Hargs. apply andb_true_iff in Hargs as [Ha Hmax].
  apply andb_true_iff in Ha as [_ Hmin].
  edestruct (exec_loop_enumerates max l (S (length devs)) 0 [] (reset_search s)) as (acc & s' & b' & E & Ea);
    [apply (enumerates_start devs Hok); auto using reset_search_ok|rewrite Hp; lia|lia|].
  exists l, acc, s', b'. split_and!; [done|done| |].
  - rewrite E. done.
  - rewrite Ea. simpl. by rewrite Z.sub_0_r.
Qed.

Lemma exec_reads_known_witness :
  exec_args_ok (fun p => p =? 2) 2 true 2 = true /\
  exists l readings s' b',
    StronglySorted rom_lt l /\ l ≡ₚ three_devices /\
    @exec_ds18b20 _ _ (sim_bus three_devices) 4 (fun p => p =? 2) (fun _ b => b) 2 true 2
      (Search [] 0 0 false) (Receiving []) = Some (true, readings, s', b') /\
    addr <$> readings = take 2 (filter known_family l).
Proof.
  split; [reflexivity|].
  exact (@exec_reads_known _ _ (sim_bus three_devices) three_devices (sim_search_bus three_devices)
    (fun p => p =? 2) (fun _ b => b) 2 2 (Search [] 0 0 false) (Receiving [])
    three_devices_ok three_devices_distinct eq_refl).
Defined.

(** * The checksum *)

(** One turn of the inner loop as a function of the sum of its two operands. *)
Definition lfsr (y : Z) : Z :=
  Z.lxor (Z.shiftr y 1) (if Z.land y 1 =? 0 then 0 else 0x8C).
Definition lfsr8 : Z -> Z := Nat.iter 8 lfsr.

Lemma crc8_bit_lfsr c x :
  let '(c', x') := crc8_bit (c, x) in Z.lxor c' x' = lfsr (Z.lxor c x) /\ x' = Z.shiftr x 1.
Proof.
  simpl. split; [|done]. unfold lfsr. rewrite Z.shiftr_lxor.
  destruct (_ =? 0); [by rewrite Z.lxor_0_r|].
  rewrite !Z.lxor_assoc. f_equal. apply Z.lxor_comm.
Qed.

Lemma crc8_iter n c x :
  let '(c', x') := Nat.iter n crc8_bit (c, x) in
  Z.lxor c' x' = Nat.iter n lfsr (Z.lxor c x) /\ x' = Z.shiftr x (Z.of_nat n).
Proof.
  induction n as [|n IH]; [by rewrite Z.shiftr_0_r|].
  change (Nat.iter (S n) crc8_bit (c, x)) with (crc8_bit (Nat.iter n crc8_bit (c, x))).
  change (Nat.iter (S n) lfsr (Z.lxor c x)) with (lfsr (Nat.iter n lfsr (Z.lxor c x))).
  destruct (Nat.iter n crc8_bit (c, x)) as [c1 x1]. destruct IH as [<- ->].
  pose proof (crc8_bit_lfsr c1 (Z.shiftr x (Z.of_nat n))) as Hb.
  destruct (crc8_bit _) as [c2 x2]. destruct Hb as [-> ->]. split; [done|].
  rewrite Z.shiftr_shiftr by lia. f_equal. lia.
Qed.

Lemma crc8_byte_lfsr c x : byte_ok x -> crc8_byte c x = lfsr8 (Z.lxor c x).
Proof.
  intros Hx. unfold crc8_byte, lfsr8. pose proof (crc8_iter 8 c x) as Hi.
  destruct (Nat.iter 8 crc8_bit (c, x)) as [c' x']. destruct Hi as [<- ->].
  change (Z.of_nat 8) with 8. rewrite (Z.shiftr_div_pow2 x 8), Z.div_small by (done || lia).
  by rewrite Z.lxor_0_r.
Qed.

Definition unlfsr (z : Z) : Z :=
  if z <? 128 then 2 * z else 2 * (Z.lxor z 0x8C) + 1.

Lemma lfsr_byte y : byte_ok y -> byte_ok (lfsr y) /\ unlfsr (lfsr y) = y.
Proof.
  intros Hy.
  assert (H : forallb (fun y => bool_decide (byte_ok (lfsr y) /\ unlfsr (lfsr y) = y)) (below 256) = true)
    by (vm_compute; reflexivity).
  by apply (forall_below 256 _ H y), bool_decide_eq_true in Hy.
Qed.

Lemma lfsr8_byte y : byte_ok y -> byte_ok (lfsr8 y).
Proof. intros H. unfold lfsr8. simpl. do 8 apply lfsr_byte. done. Qed.

Lemma lfsr8_inj y z : byte_ok y -> byte_ok z -> lfsr8 y = lfsr8 z -> y = z.
Proof.
  unfold lfsr8. generalize 8%nat as n. intros n. revert y z.
  assert (Hb : forall n y, byte_ok y -> byte_ok (Nat.iter n lfsr y))
    by (intros m y Hy; induction m; simpl; [done|by apply lfsr_byte]).
  intros y z Hy Hz. induction n as [|n IH]; simpl; [done|]. intros E. apply IH.
  apply (f_equal unlfsr) in E. by rewrite (proj2 (lfsr_byte _ (Hb n y Hy))), (proj2 (lfsr_byte _ (Hb n z Hz))) in E.
Qed.

Lemma crc8_byte_ok c x : byte_ok c -> byte_ok x -> byte_ok (crc8_byte c x).
Proof. intros. rewrite crc8_byte_lfsr by done. apply lfsr8_byte, fits_lxor; done || lia. Qed.

Lemma crc8_fold_ok l : forall c, byte_ok c -> bytes_ok l -> byte_ok (fold_left crc8_byte l c).
Proof.
  induction l as [|x l IH]; intros c Hc Hl; [done|].
  apply Forall_cons in Hl as [Hx Hl]. apply IH; [by apply crc8_byte_ok|done].
Qed.

Lemma lxor_inj_l c x y : Z.lxor c x = Z.lxor c y -> x = y.
Proof.
  intros E. apply (f_equal (Z.lxor c)) in E.
  by rewrite <- !Z.lxor_assoc, !Z.lxor_nilpotent, !Z.lxor_0_l in E.
Qed.

Lemma crc8_fold_inj l : forall c d,
  byte_ok c -> byte_ok d -> bytes_ok l ->
  fold_left crc8_byte l c = fold_left crc8_byte l d -> c = d.
Proof.
  induction l as [|x l IH]; intros c d Hc Hd Hl E; [done|].
  apply Forall_cons in Hl as [Hx Hl]. simpl in E.
  apply IH in E; [|by apply crc8_byte_ok..|done].
  rewrite !crc8_byte_lfsr in E by done.
  apply lfsr8_inj in E; [|apply fits_lxor; done || lia..].
  rewrite !(Z.lxor_comm _ x) in E. by apply lxor_inj_l in E.
Qed.

(** The check the driver makes on an address. *)
Definition crc_passes (a : list Z) : bool := crc8 (take 7 a) =? nth 7 a 0.

Lemma crc_passes_zero a : rom_ok a -> crc_passes a = (crc8 a =? 0).
Proof.
  intros [L Hb]. unfold crc_passes, crc8.
  destruct a as [|a0 [|a1 [|a2 [|a3 [|a4 [|a5 [|a6 [|a7 [|]]]]]]]]]; try done.
  change (take 7 _) with [a0; a1; a2; a3; a4; a5; a6]. cbn [nth].
  change [a0; a1; a2; a3; a4; a5; a6; a7] with ([a0; a1; a2; a3; a4; a5; a6] ++ [a7]) in *.
  apply Forall_app in Hb as [Hb Ha7]. apply Forall_inv in Ha7.
  rewrite fold_left_app. set (c := fold_left crc8_byte _ 0).
  assert (Hc : byte_ok c) by (apply crc8_fold_ok; [word_lia|done]).
  cbn [fold_left]. rewrite crc8_byte_lfsr by done.
  destruct (Z.eqb_spec c a7) as [->|Hne]; [by rewrite Z.lxor_nilpotent|].
  symmetry. apply Z.eqb_neq. intros E. change 0 with (lfsr8 0) in E.
  apply lfsr8_inj in E; [|apply fits_lxor; done || lia|word_lia].
  apply Hne. by apply Z.lxor_eq.
Qed.

(** C9: An address whose checksum passes no longer passes after any corruption
    confined to one of its eight bytes, the checksum itself included. *)
Theorem crc8_detects_byte_error a i x :
  rom_ok a -> crc_passes a = true -> (i < 8)%nat -> byte_ok x -> x <> nth i a 0 ->
  crc_passes (<[i := x]> a) = false.
Proof.
  intros Ha Hp Hi Hx Hne. pose proof Ha as [L Hb].
  assert (Ha' : rom_ok (<[i := x]> a)).
  { split; [by rewrite length_insert|]. by apply Forall_insert. }
  rewrite crc_passes_zero in * by done. apply Z.eqb_eq in Hp. apply Z.eqb_neq. intros E.
  apply Hne. destruct (lookup_lt_is_Some_2 a i) as [y Hy]; [lia|].
  rewrite (nth_lookup_Some _ _ _ _ Hy).
  rewrite insert_take_drop in E by lia.
  rewrite <- (take_drop_middle a i y Hy) in Hp, Hb.
  unfold crc8 in *. rewrite fold_left_app in Hp, E. cbn [fold_left] in Hp, E.
  apply Forall_app in Hb as [Hb1 Hb2]. apply Forall_cons in Hb2 as [Hby Hb2].
  set (c := fold_left crc8_byte (take i a) 0) in *.
  assert (Hc : byte_ok c) by (apply crc8_fold_ok; [word_lia|done]).
  rewrite <- Hp in E. apply crc8_fold_inj in E; [|by apply crc8_byte_ok..|done].
  rewrite !crc8_byte_lfsr in E by done.
  apply lfsr8_inj in E; [|apply fits_lxor; done || lia..].
  by apply lxor_inj_l in E.
Qed.

Lemma crc8_detects_byte_error_witness :
  crc_passes [0x28; 1; 2; 3; 4; 5; 6; crc8 [0x28; 1; 2; 3; 4; 5; 6]] = true /\
  crc_passes (<[3%nat := 0x43]> [0x28; 1; 2; 3; 4; 5; 6; crc8 [0x28; 1; 2; 3; 4; 5; 6]]) = false.
Proof.
  split; [reflexivity|]. apply crc8_detects_byte_error.
  - split; [reflexivity|]. repeat constructor; vm_compute; congruence.
  - reflexivity.
  - lia.
  - vm_compute. split; congruence.
  - vm_compute. congruence.
Defined.

(** * Temperatures *)

(** The scratchpad's register as a two's complement number. *)
Definition raw_temperature (d0 d1 : Z) : Z := strunc 16 (256 * d1 + d0).

Lemma land_low x n : 0 <= n -> Z.land x (Z.ones n) = x mod 2 ^ n.
Proof. apply Z.land_ones. Qed.

Lemma sign_bit t : fits 16 t -> z2b (Z.land t 0x8000) = (32768 <=? t).
Proof.
  intros Ht. change 0x8000 with (2 ^ Z.of_nat 15). unfold z2b.
  replace (Z.land t (2 ^ Z.of_nat 15) =? 0) with (negb (0 <? Z.land t (2 ^ Z.of_nat 15))).
  2: { assert (0 <= Z.land t (2 ^ Z.of_nat 15)) by (apply Z.land_nonneg; left; apply Ht).
       destruct (Z.ltb_spec 0 (Z.land t (2 ^ Z.of_nat 15))), (Z.eqb_spec (Z.land t (2 ^ Z.of_nat 15)) 0);
         done || lia. }
  rewrite negb_involutive, testbit_mask.
  rewrite Z.testbit_eqb by lia. change (2 ^ Z.of_nat 15) with 32768.
  destruct (Z.leb_spec 32768 t), (Z.eqb_spec (t / 32768 mod 2) 1); try done; word_lia.
Qed.

Lemma complement16 t : fits 16 t -> Z.lxor t 0xffff = 65535 - t.
Proof.
  intros Ht. change 0xffff with (Z.ones 16).
  assert (E : Z.lxor t (Z.ones 16) = Z.ldiff (Z.ones 16) t).
  { apply Z.bits_inj'; intros i Hi. rewrite Z.lxor_spec, Z.ldiff_spec.
    destruct (decide (i < 16)).
    - rewrite Z.ones_spec_low by lia. by destruct (Z.testbit t i).
    - rewrite Z.ones_spec_high by lia. rewrite (fits_high_bits 16 t) by (done || lia). done. }
  rewrite E. rewrite <- Z.sub_nocarry_ldiff; [reflexivity|].
  apply Z.bits_inj'; intros i Hi. rewrite Z.ldiff_spec, Z.bits_0.
  destruct (decide (i < 16)).
  - rewrite Z.ones_spec_low by lia. apply andb_false_r.
  - rewrite (fits_high_bits 16 t) by (done || lia). done.
Qed.

Lemma magnitude m :
  0 <= m <= 32768 ->
  (100 * Z.shiftr m 1 + (if z2b (Z.land m 0x01) then 50 else 0) = 100 * m / 2 /\
   0 <= (if z2b (Z.land m 0x01) then 50 else 0) < 100 /\ 0 <= Z.shiftr m 1 <= 16384) /\
  (100 * Z.shiftr m 4 + u16 (Z.land m 0x0f * 100 / 16) = 100 * m / 16 /\
   0 <= u16 (Z.land m 0x0f * 100 / 16) < 100 /\ 0 <= Z.shiftr m 4 <= 16384).
Proof.
  intros Hm. change (Z.land m 0x01) with (Z.land m (Z.ones 1)).
  change (Z.land m 0x0f) with (Z.land m (Z.ones 4)). rewrite !Z.shiftr_div_pow2, !land_low by lia.
  assert (u16 (m mod 2 ^ 4 * 100 / 16) = m mod 2 ^ 4 * 100 / 16) as -> by
    (apply trunc_small; word_lia).
  unfold z2b. pow2s. destruct (Z.eqb_spec (m mod 2) 0); cbn [negb]; Z.div_mod_to_equations; lia.
Qed.

Lemma convert_exact `{DS1820} fam d0 d1 :
  byte_ok d0 -> byte_ok d1 ->
  let t := raw_temperature d0 d1 in
  let '(sign, v, fr) := convert fam d0 d1 in
  100 * v + fr = 100 * Z.abs t / (if fam =? DS18S20 then 2 else 16) /\
  sign = (if t <? 0 then minus_sign else plus_sign) /\ 0 <= fr < 100 /\ 0 <= v <= 16384.
Proof.
  intros H0 H1. cbv zeta. unfold convert, raw_temperature.
  rewrite lor_add_disjoint by (done || lia). change (2 ^ 8) with 256.
  rewrite (trunc_small 16 (d1 * 256 + d0)) by word_lia.
  set (x := d1 * 256 + d0). assert (Hx : fits 16 x) by (unfold x; word_lia).
  replace (256 * d1 + d0) with x by (unfold x; lia). clearbody x. clear H0 H1.
  rewrite sign_bit, complement16 by done.
  assert (Hs : strunc 16 x = if 32768 <=? x then x - 65536 else x)
    by (destruct (Z.leb_spec 32768 x); word_lia).
  rewrite Hs. clear Hs.
  destruct (Z.leb_spec 32768 x).
  - rewrite (trunc_small 16 (65535 - x + 1)) by word_lia.
    rewrite (proj2 (Z.ltb_lt _ _)) by word_lia.
    replace (Z.abs (x - 65536)) with (65535 - x + 1) by word_lia.
    pose proof (magnitude (65535 - x + 1) ltac:(word_lia)).
    destruct (fam =? DS18S20); tauto.
  - rewrite (proj2 (Z.ltb_ge _ _)), Z.abs_eq by word_lia.
    pose proof (magnitude x ltac:(word_lia)).
    destruct (fam =? DS18S20); tauto.
Qed.

(** Also: The conversion of the scratchpad is exact: the sign is that of the
    register read as a two's complement number, and the integer and hundredth
    parts are the magnitude in hundredths of a degree (of sixteenths for a
    DS18B20, of halves for a DS18S20), rounded towards zero; the hundredths stay
    below 100 and no intermediate value overflows its 16 bits. *)
Theorem convert_hundredths `{DS1820} fam d0 d1 :
  byte_ok d0 -> byte_ok d1 ->
  let t := raw_temperature d0 d1 in
  let '(sign, v, fr) := convert fam d0 d1 in
  100 * v + fr = 100 * Z.abs t / (if fam =? DS18S20 then 2 else 16) /\
  sign = (if t <? 0 then minus_sign else plus_sign) /\ 0 <= fr < 100 /\ 0 <= v <= 16384.
Proof. apply convert_exact. Qed.

Lemma convert_hundredths_witness :
  byte_ok 0x5e /\ byte_ok 0xff /\ convert DS18B20 0x5e 0xff = (minus_sign, 10, 12) /\
  (let t := raw_temperature 0x5e 0xff in
   let '(sign, v, fr) := convert DS18B20 0x5e 0xff in
   100 * v + fr = 100 * Z.abs t / (if DS18B20 =? DS18S20 then 2 else 16) /\
   sign = (if t <? 0 then minus_sign else plus_sign) /\ 0 <= fr < 100 /\ 0 <= v <= 16384).
Proof.
  split; [vm_compute; split; congruence|]. split; [vm_compute; split; congruence|].
  split; [reflexivity|].
  apply (convert_hundredths DS18B20 0x5e 0xff); vm_compute; split; congruence.
Defined.

(** ** Readings on an arbitrary bus *)
Definition reading_ok (r : ds18b20_t) : Prop :=
  length (addr r) = 8%nat /\ 0 <= tVal r <= 16384 /\ 0 <= tFract r < 100 /\
  (tSign r = minus_sign \/ tSign r = plus_sign).

Lemma read_byte `{DS1820} {B} `{OneWireBus B} (b : B) : byte_ok (fst (read b)).
Proof.
  unfold read. assert (Hm : bytes_ok masks) by (repeat (apply Forall_cons; split; [word_lia|]); constructor).
  revert Hm. generalize masks as ms. intros ms Hm.
  enough (forall r b, byte_ok r -> byte_ok (fst (fold_left (fun '(r, b) m =>
    let '(x, b) := read_bit b in (if (x : bool) then Z.lor r m else r, b)) ms (r, b : B))))
    as Hgen by (apply Hgen; word_lia).
  induction Hm as [|m ms Hmb Hm IH]; intros r b' Hr; [done|]. simpl.
  destruct (read_bit b') as [x b'']. apply IH. destruct x; [apply fits_lor; done || lia|done].
Qed.

Lemma search_loop_length {B} `{OneWireBus B} n L : forall l : locals B,
  length (rom (search_loop n L l)) = length (rom l).
Proof.
  induction n as [|n IH]; intros l; [done|]. cbn [search_loop].
  unfold search_turn. destruct (read_bit _) as [x b]. destruct (read_bit b) as [y b'].
  destruct (x && y); [done|]. cbv zeta. cbn [rom_byte_number].
  set (l' := Locals _ _ _ _ _ _ _).
  assert (Hl : length (rom l') = length (rom l)) by apply length_alter.
  destruct (_ <? 8); [by rewrite IH|done].
Qed.

Lemma ds_search_length `{DS1820} {B} `{OneWireBus B} s (b : B) r a b' s' :
  ds_search s b = (r, a, b', s') -> length (ROM_NO s) = 8%nat ->
  length (ROM_NO s') = 8%nat /\ (r = true -> exists x, a = Some x /\ length x = 8%nat).
Proof.
  unfold ds_search. intros E Hl. destruct (LastDeviceFlag s).
  { simpl in E. by injection E as <- <- <- <-. }
  destruct (reset b) as [[] b1]; cbn [negb] in E; [|by injection E as <- <- <- <-].
  pose proof (search_loop_length 64 (LastDiscrepancy s)
    (Locals (write DS1820_SEARCHROM false b1) (ROM_NO s) (LastFamilyDiscrepancy s) 1 0 0 1)) as Hs.
  cbn [rom] in Hs. set (l := search_loop _ _ _) in *. clearbody l.
  destruct (id_bit_number l <? 65); cbn [andb ROM_NO] in E.
  - injection E as <- <- <- <-. simpl. split; [congruence|done].
  - destruct (z2b _); injection E as <- <- <- <-; simpl; (split; [congruence|]); [|done].
    intros _. eexists. split; [done|congruence].
Qed.

Lemma read_scratchpad_bytes `{DS1820} {B} `{OneWireBus B} a (b : B) :
  bytes_ok (fst (read_scratchpad a b)).
Proof.
  unfold read_scratchpad. destruct (reset b) as [r b1]. unfold read_n.
  generalize 9%nat as n. induction n as [|n IH]; [constructor|].
  simpl. destruct (Nat.iter n _ _) as [l b']. pose proof (read_byte b') as Hr.
  destruct (read b') as [x b'']. apply Forall_app_2; [done|by apply Forall_singleton].
Qed.

Lemma exec_loop_ok `{DS1820} {B} `{OneWireBus B} max : forall fuel n acc s (b : B) acc' s' b',
  exec_loop fuel max n acc s b = Some (acc', s', b') ->
  Forall reading_ok acc -> length (ROM_NO s) = 8%nat -> n = Z.of_nat (length acc) -> n < max ->
  Forall reading_ok acc' /\ Z.of_nat (length acc') <= max.
Proof.
  induction fuel as [|fuel IH]; intros n acc s b acc' s' b' E Hacc Hl Hn Hmax; [done|].
  cbn [exec_loop] in E. destruct (ds_search s b) as [[[r a] b1] s1] eqn:Es.
  destruct (ds_search_length _ _ _ _ _ _ Es Hl) as [Hl1 Ha].
  destruct r; cbn [negb] in E; [|injection E as <- <- <-; split; [done|lia]].
  destruct (Ha eq_refl) as (x & -> & Hx). cbn [default from_option id] in E.
  destruct (_ || _).
  - pose proof (read_scratchpad_bytes x b1) as Hd.
    destruct (read_scratchpad x b1) as [data b2]. simpl in Hd.
    pose proof (convert_exact (nth 0 x 0) _ _ (nth_byte_ok data 0 Hd) (nth_byte_ok data 1 Hd)) as Hc.
    cbv zeta in Hc. destruct (convert _ _ _) as [[sign v] fr]. destruct Hc as (_ & Hsg & Hf & Hv).
    assert (Hacc2 : Forall reading_ok (acc ++ [Reading x v fr sign])).
    { apply Forall_app_2; [done|]. constructor; [|done].
      repeat split; simpl; try lia; try done. rewrite Hsg. destruct (_ <? 0); auto. }
    assert (Hlen : n + 1 = Z.of_nat (length (acc ++ [Reading x v fr sign])))
      by (rewrite length_app; simpl; lia).
    destruct (Z.ltb_spec (n + 1) max).
    + eapply IH; eauto.
    + injection E as <- <- <-. split; [done|lia].
  - rewrite (proj2 (Z.ltb_lt _ _)) in E by lia. eapply IH; eauto.
Qed.

Lemma exec_ok `{DS1820} {B} `{OneWireBus B} fuel valid setup gpio max s (b : B) ok l s' b' :
  exec_ds18b20 fuel valid setup gpio true max s b = Some (ok, l, s', b') -> 0 < max ->
  Forall reading_ok l /\ Z.of_nat (length l) <= max.
Proof.
  unfold exec_ds18b20. destruct (negb _); [intros [= <- <- <- <-] Hm; split; [done|simpl; lia]|].
  destruct (reset _) as [r b1]. intros E Hm.
  apply bind_Some in E as ([[acc s2] b2] & E & [= <- <- <- <-]).
  eapply exec_loop_ok; eauto.
Qed.

(** * The slots on the wire

    The line as a device sees it while only the master drives it: whether it
    is low and for how long, and the low pulses that have ended. Enabling the
    output drives the line, disabling it lets the pull-up raise it. *)
Record line := Line { low : bool; held : Z; pulses : list Z }.

Definition drive (v : bool) (w : line) : line :=
  if v then (if low w then Line false 0 (pulses w ++ [held w]) else w)
  else (if low w then w else Line true 0 (pulses w)).

#[export] Instance line_gpio : Gpio line := {
  PIN_SETUP := fun _ w => w;
  GPIO_DIS_OUTPUT := fun _ w => drive true w;
  GPIO_OUTPUT_SET := fun _ v w => drive (z2b v) w;
  GPIO_INPUT_GET := fun _ w => negb (low w);
  os_delay_us := fun t w => Line (low w) (held w + t) (pulses w) }.

(** How a device reads a low pulse: up to 15us is a 1, 60us to 120us a 0. *)
Definition device_reads (t : Z) : option bool :=
  if (1 <=? t) && (t <=? 15) then Some true
  else if (60 <=? t) && (t <=? 120) then Some false else None.

(** The line is idle, or was driven low only just now. *)
Definition slot_boundary (w : line) : Prop := low w = true -> held w = 0.

Definition pulse_of (v : bool) : Z := if v then 10 else 65.

Lemma write_bit_pulse pin v w :
  slot_boundary w ->
  exists h, 5 <= h /\ pin_write_bit pin v w = Line false h (pulses w ++ [pulse_of v]).
Proof.
  intros Hw. destruct w as [[] t ps]; unfold slot_boundary in Hw; simpl in Hw;
    [rewrite Hw by done|]; destruct v; eexists; (split; [|reflexivity]); simpl; lia.
Qed.

Lemma write_bits_pulses pin v ms : forall w,
  slot_boundary w ->
  exists w', fold_left (fun b m => write_bit (z2b (Z.land m v)) b) ms (pin, w) = (pin, w') /\
    slot_boundary w' /\ (ms <> [] -> low w' = false) /\
    pulses w' = pulses w ++ (pulse_of <$> ((fun m => z2b (Z.land m v)) <$> ms)).
Proof.
  induction ms as [|m ms IH]; intros w Hw.
  { exists w. by rewrite app_nil_r. }
  destruct (write_bit_pulse pin (z2b (Z.land m v)) w Hw) as (h & _ & E).
  destruct (IH (Line false h (pulses w ++ [pulse_of (z2b (Z.land m v))]))) as (w' & E' & Hb & Hl & Hp);
    [done|].
  exists w'. cbn [fold_left]. change (write_bit ?b (pin, w)) with (pin, pin_write_bit pin b w).
  rewrite E, E'. split_and!; [done|done| |].
  - intros _. destruct ms; [|by apply Hl]. by injection E' as <-.
  - rewrite Hp. simpl. by rewrite <- app_assoc.
Qed.

Lemma write_byte_pulses pin v w :
  slot_boundary w ->
  exists w', write v false (pin, w) = (pin, w') /\ slot_boundary w' /\
    pulses w' = pulses w ++ (pulse_of <$> bits8 v).
Proof.
  intros Hw. destruct (write_bits_pulses pin v masks w Hw) as (w' & E & _ & Hl & Hp).
  unfold write. rewrite E. simpl. unfold pin_release. simpl.
  rewrite Hl by done. simpl. rewrite Hl by done. simpl.
  eexists. split; [reflexivity|]. split; [done|]. simpl. by rewrite Hp.
Qed.

Lemma write_bytes_pulses pin l : forall w,
  slot_boundary w ->
  exists w', fold_left (fun b x => write x false b) l (pin, w) = (pin, w') /\ slot_boundary w' /\
    pulses w' = pulses w ++ (pulse_of <$> (l ≫= bits8)).
Proof.
  induction l as [|x l IH]; intros w Hw; [exists w; by rewrite app_nil_r|].
  destruct (write_byte_pulses pin x w Hw) as (w1 & E1 & Hb1 & Hp1).
  destruct (IH w1 Hb1) as (w2 & E2 & Hb2 & Hp2).
  exists w2. cbn [fold_left]. rewrite E1, E2. split_and!; [done..|].
  rewrite Hp2, Hp1, bind_cons. by rewrite fmap_app, app_assoc.
Qed.

Lemma device_reads_pulse v : device_reads (pulse_of v) = Some v.
Proof. by destruct v. Qed.

(** Also: Addressing a device from an idle line puts 72 low pulses on the wire,
    which a device timing them by the 1-Wire slots reads as the MATCH ROM
    command and the eight bytes of the address, least significant bit first. *)
Theorem select_on_the_wire `{DS1820} pin a w :
  low w = false -> pulses w = [] -> length a = 8%nat ->
  exists w', select a (pin, w) = (pin, w') /\ length (pulses w') = 72%nat /\
    device_reads <$> pulses w' = Some <$> (bits8 DS1820_MATCHROM ++ (a ≫= bits8)).
Proof.
  intros Hl Hp Ha. unfold select.
  destruct (write_byte_pulses pin DS1820_MATCHROM w) as (w1 & -> & Hb1 & Hp1);
    [unfold slot_boundary; congruence|].
  destruct (write_bytes_pulses pin a w1 Hb1) as (w2 & -> & _ & Hp2).
  exists w2. split; [done|]. rewrite Hp2, Hp1, Hp, app_nil_l, <- fmap_app.
  split.
  - rewrite length_fmap, length_app. change (length (bits8 _)) with 8%nat.
    assert (length (a ≫= bits8) = (8 * length a)%nat) as ->; [|by rewrite Ha].
    clear. induction a as [|x a IH]; [done|]. rewrite bind_cons, length_app, IH.
    change (length (bits8 x)) with 8%nat. simpl length. lia.
  - rewrite <- list_fmap_compose. apply list_fmap_ext. intros _ v _. apply device_reads_pulse.
Qed.

Lemma select_on_the_wire_witness :
  low (Line false 0 []) = false /\
  exists w', select [0x28; 1; 2; 3; 4; 5; 6; 7] (4, Line false 0 []) = (4, w') /\
    length (pulses w') = 72%nat /\
    device_reads <$> pulses w' =
    Some <$> (bits8 DS1820_MATCHROM ++ ([0x28; 1; 2; 3; 4; 5; 6; 7] ≫= bits8)).
Proof. split; [done|]. by apply (select_on_the_wire 4 [0x28; 1; 2; 3; 4; 5; 6; 7] (Line false 0 [])). Defined.
