(* ===== verification/IpAddr.v ===== *)
(** IPv4 addresses and byte order:
    [src/attic/experiments/esp8266/src/lwip/core/def.c] and
    [core/ipv4/ip_addr.c]. Characters are their codes; a C string is the list
    of its characters before the terminator. *)
From S2P Require Import Prelude.

(** * Byte order (def.c, little-endian host) *)
Definition lwip_htons (n : Z) : Z :=
  u16 (Z.lor (Z.shiftl (Z.land n 0xff) 8) (Z.shiftr (Z.land n 0xff00) 8)).
Definition lwip_ntohs (n : Z) : Z := lwip_htons n.
Definition lwip_htonl (n : Z) : Z :=
  Z.lor (Z.lor (Z.lor
    (u32 (Z.shiftl (Z.land n 0xff) 24))
    (u32 (Z.shiftl (Z.land n 0xff00) 8)))
    (Z.shiftr (Z.land n 0xff0000) 8))
    (Z.shiftr (Z.land n 0xff000000) 24).
Definition lwip_ntohl (n : Z) : Z := lwip_htonl n.

(** The port's own macros ([arch/cc.h]), which replace the functions above when
    LWIP_PLATFORM_BYTESWAP is set. *)
Definition LWIP_PLATFORM_HTONS (n : Z) : Z :=
  u16 (Z.lor (Z.shiftl (Z.land n 0xff) 8) (Z.land (Z.shiftr n 8) 0xff)).
Definition LWIP_PLATFORM_HTONL (n : Z) : Z :=
  u32 (Z.lor (Z.lor (Z.lor
    (Z.shiftl (Z.land n 0xff) 24)
    (Z.shiftl (Z.land n 0xff00) 8))
    (Z.land (Z.shiftr n 8) 0xff00))
    (Z.land (Z.shiftr n 24) 0xff)).

(** * Addresses, held in network order in an [u32_t] *)
Definition IPADDR_ANY := 0.
Definition IPADDR_BROADCAST := 0xffffffff.
Definition IPADDR_NONE := 0xffffffff.

Definition ip_addr_netcmp (a b mask : Z) : bool := Z.land a mask =? Z.land b mask.

(** The members of [struct netif] that the broadcast test reads. *)
Record netif := Netif { nif_broadcast : bool; nif_ip : Z; nif_netmask : Z }.

(** [~x] on [u32_t]. *)
Definition not32 (x : Z) : Z := u32 (Z.lnot x).

Definition ip4_addr_isbroadcast (a : Z) (n : netif) : bool :=
  if (not32 a =? IPADDR_ANY) || (a =? IPADDR_ANY) then true
  else if negb (nif_broadcast n) then false
  else if a =? nif_ip n then false
  else ip_addr_netcmp a (nif_ip n) (nif_netmask n) &&
       (Z.land a (not32 (nif_netmask n)) =? Z.land IPADDR_BROADCAST (not32 (nif_netmask n))).

(** [ip4_addr_netmask_valid]: the first loop stops at the first zero bit, the
    second one looks for a one from there. [fuel] counts the mask's shifts. *)
Fixpoint first_zero (fuel : nat) (nm mask : Z) : Z :=
  match fuel with
  | O => mask
  | S f => if mask =? 0 then mask
           else if Z.land nm mask =? 0 then mask else first_zero f nm (Z.shiftr mask 1)
  end.
Fixpoint no_one (fuel : nat) (nm mask : Z) : bool :=
  match fuel with
  | O => true
  | S f => if mask =? 0 then true
           else if negb (Z.land nm mask =? 0) then false else no_one f nm (Z.shiftr mask 1)
  end.
Definition ip4_addr_netmask_valid (netmask : Z) : bool :=
  let nm := lwip_htonl netmask in
  no_one 32 nm (first_zero 32 nm (2 ^ 31)).

(** * Character classes *)
Definition in_range (c lo up : Z) : bool := (lo <=? c) && (c <=? up).
Definition isdigit (c : Z) : bool := in_range c 48 57.
Definition isxdigit (c : Z) : bool := isdigit c || in_range c 97 102 || in_range c 65 70.
Definition islower (c : Z) : bool := in_range c 97 122.
Definition isspace (c : Z) : bool :=
  (c =? 32) || (c =? 12) || (c =? 10) || (c =? 13) || (c =? 9) || (c =? 11).

(** * [ipaddr_aton] *)

(** [*cp]: the terminator after the last character. *)
Definition cur (cp : list Z) : Z := match cp with c :: _ => c | [] => 0 end.
#[global] Arguments cur !_ /.

(** The inner loop: digits of one part, modulo 2^32. *)
Fixpoint number (base val : Z) (cp : list Z) : Z * list Z :=
  match cp with
  | c :: r =>
      if isdigit c then number base (u32 (val * base + (c - 48))) r
      else if (base =? 16) && isxdigit c
      then number base (Z.lor (u32 (Z.shiftl val 4)) (c + 10 - (if islower c then 97 else 65))) r
      else (val, cp)
  | [] => (val, cp)
  end.

(** One part: the base from its prefix, then the digits. *)
Definition part (cp : list Z) : option (Z * list Z) :=
  if negb (isdigit (cur cp)) then None
  else if cur cp =? 48
  then let cp := tail cp in
       if (cur cp =? 120) || (cur cp =? 88) then Some (number 16 0 (tail cp))
       else Some (number 8 0 cp)
  else Some (number 10 0 cp).

(** The outer loop: the stored parts, the last value and what follows it. *)
Fixpoint parts_loop (fuel : nat) (parts : list Z) (cp : list Z)
    : option (list Z * Z * list Z) :=
  match fuel with
  | O => None
  | S f =>
      '(val, cp) ← part cp;
      if cur cp =? 46
      then if (3 <=? length parts)%nat then None else parts_loop f (parts ++ [val]) (tail cp)
      else Some (parts, val, cp)
  end.

(** The address concocted from the parts, in host order. *)
Definition concoct (parts : list Z) (val : Z) : option Z :=
  let p i := nth i parts 0 in
  match length parts with
  | 0%nat => Some val
  | 1%nat => if 0xffffff <? val then None else Some (Z.lor val (u32 (Z.shiftl (p 0%nat) 24)))
  | 2%nat => if 0xffff <? val then None
           else Some (Z.lor val (Z.lor (u32 (Z.shiftl (p 0%nat) 24)) (u32 (Z.shiftl (p 1%nat) 16))))
  | _ => if 0xff <? val then None
         else Some (Z.lor val (Z.lor (Z.lor (u32 (Z.shiftl (p 0%nat) 24)) (u32 (Z.shiftl (p 1%nat) 16)))
                      (u32 (Z.shiftl (p 2%nat) 8))))
  end.

(** [ipaddr_aton]: the address in network order, [None] for a return of 0. *)
Definition ipaddr_aton (cp : list Z) : option Z :=
  '(parts, val, cp) ← parts_loop 4 [] cp;
  if negb (cur cp =? 0) && negb (isspace (cur cp)) then None
  else val ← concoct parts val; Some (lwip_htonl val).

Definition ipaddr_addr (cp : list Z) : Z :=
  match ipaddr_aton cp with Some a => a | None => IPADDR_NONE end.

(** * [ipaddr_ntoa_r] *)

(** [inv]: the decimal digits of a byte, last first; three turns at most. *)
Fixpoint inv_digits (fuel : nat) (ap : Z) : list Z :=
  match fuel with
  | O => []
  | S f => (48 + ap mod 10) :: (if ap / 10 =? 0 then [] else inv_digits f (ap / 10))
  end.

(** Writing characters while there is room: [len] counts, [out] is what the
    buffer holds; [None] inside the pair's first component is the NULL return. *)
Fixpoint put_chars (buflen : Z) (cs : list Z) (len : Z) (out : list Z) : option (Z * list Z) :=
  match cs with
  | [] => Some (len, out)
  | c :: cs => if buflen <=? len then None else put_chars buflen cs (len + 1) (out ++ [c])
  end.

(** The bytes of the address in memory order. *)
Definition addr_bytes (a : Z) : list Z :=
  [a mod 256; a / 256 mod 256; a / 65536 mod 256; a / 16777216 mod 256].

Fixpoint ntoa_loop (buflen : Z) (bs : list Z) (len : Z) (out : list Z) : option (list Z) :=
  match bs with
  | [] => Some out
  | b :: bs =>
      '(len, out) ← put_chars buflen (rev (inv_digits 3 b)) len out;
      '(len, out) ← put_chars buflen [46] len out;
      ntoa_loop buflen bs len out
  end.

(** [ipaddr_ntoa_r]: what the buffer holds, the last dot overwritten by the
    terminator; [None]: NULL, the buffer is too small. *)
Definition ipaddr_ntoa_r (a buflen : Z) : option (list Z) :=
  out ← ntoa_loop buflen (addr_bytes a) 0 [];
  Some (removelast out ++ [0]).

Definition ipaddr_ntoa (a : Z) : option (list Z) := ipaddr_ntoa_r a 16.
