(* ===== verification/IpAddrFacts.v ===== *)
(** Byte order, dotted-decimal printing and parsing, netmasks and broadcast
    addresses. *)
From S2P Require Import Prelude IpAddr.

(** * Byte order *)
Definition of_bytes (bs : list Z) : Z := fold_right (fun b x => b + 256 * x) 0 bs.

Lemma lwip_htons_eq n : fits 16 n -> lwip_htons n = n mod 256 * 256 + n / 256.
Proof.
  intros Hn. unfold lwip_htons.
  change 0xff00 with (Z.shiftl (Z.ones 8) 8). change 0xff with (Z.ones 8).
  rewrite land_field, Z.land_ones, Z.shiftr_div_pow2, Z.div_mul by (done || lia).
  rewrite lor_add_disjoint by (done || word_lia). rewrite trunc_small by word_lia. word_lia.
Qed.

(** A 32-bit word as its four bytes. *)
Lemma bytes4 n :
  fits 32 n ->
  exists a b c d, byte_ok a /\ byte_ok b /\ byte_ok c /\ byte_ok d /\
    n = a + 256 * b + 65536 * c + 16777216 * d /\
    n mod 256 = a /\ n / 256 mod 256 = b /\ n / 65536 mod 256 = c /\ n / 16777216 mod 256 = d.
Proof.
  intros Hn. exists (n mod 256), (n / 256 mod 256), (n / 65536 mod 256), (n / 16777216 mod 256).
  change 65536 with (256 * 256). change 16777216 with (256 * 256 * 256).
  rewrite <- !Z.div_div by lia. word_lia.
Qed.

Lemma of_bytes4 a b c d :
  byte_ok a -> byte_ok b -> byte_ok c -> byte_ok d ->
  let n := a + 256 * b + 65536 * c + 16777216 * d in
  fits 32 n /\ n mod 256 = a /\ n / 256 mod 256 = b /\ n / 65536 mod 256 = c /\
  n / 16777216 mod 256 = d.
Proof.
  intros Ha Hb Hc Hd. cbv zeta. set (n := _ + _). change 65536 with (256 * 256).
  change 16777216 with (256 * 256 * 256). rewrite <- !Z.div_div by lia.
  assert (n / 256 = b + 256 * c + 65536 * d) as -> by (unfold n; word_lia).
  assert ((b + 256 * c + 65536 * d) / 256 = c + 256 * d) as -> by word_lia.
  assert ((c + 256 * d) / 256 = d) as -> by word_lia. unfold n. word_lia.
Qed.

Lemma lwip_htonl_bytes a b c d :
  byte_ok a -> byte_ok b -> byte_ok c -> byte_ok d ->
  lwip_htonl (a + 256 * b + 65536 * c + 16777216 * d) =
  d + 256 * c + 65536 * b + 16777216 * a.
Proof.
  intros Ha Hb Hc Hd. destruct (of_bytes4 a b c d Ha Hb Hc Hd) as (Hn & E1 & E2 & E3 & E4).
  set (n := _ + _) in *. unfold lwip_htonl.
  change 0xff000000 with (Z.shiftl (Z.ones 8) 24). change 0xff0000 with (Z.shiftl (Z.ones 8) 16).
  change 0xff00 with (Z.shiftl (Z.ones 8) 8). change 0xff with (Z.ones 8).
  rewrite !land_field, Z.land_ones by lia. pow2s. rewrite E1, E2, E3, E4.
  rewrite !Z.shiftl_mul_pow2, !Z.shiftr_div_pow2 by lia. pow2s. clearbody n. clear E1 E2 E3 E4.
  rewrite !trunc_small by word_lia.
  replace (c * 65536 / 256) with (256 * c) by word_lia.
  replace (d * 16777216 / 16777216) with d by word_lia.
  rewrite (lor_disjoint_add _ (b * 256 * 256) 24) by word_lia.
  rewrite (lor_disjoint_add _ (256 * c) 16) by word_lia.
  rewrite (lor_disjoint_add _ _ 8) by word_lia. lia.
Qed.

Lemma lwip_htonl_involutive n : fits 32 n -> lwip_htonl (lwip_htonl n) = n.
Proof.
  intros Hn. destruct (bytes4 n Hn) as (a & b & c & d & ? & ? & ? & ? & -> & _).
  by rewrite !lwip_htonl_bytes.
Qed.

(** Also: The byte-order functions of def.c and the macros that replace them in the
    port agree, and reversing the bytes twice gives the word back. *)
Theorem byteorder_agree n m :
  fits 32 n -> fits 16 m ->
  LWIP_PLATFORM_HTONL n = lwip_htonl n /\ LWIP_PLATFORM_HTONS m = lwip_htons m /\
  lwip_ntohl (lwip_htonl n) = n /\ lwip_ntohs (lwip_htons m) = m.
Proof.
  intros Hn Hm. split_and!.
  - unfold LWIP_PLATFORM_HTONL.
    replace (Z.land (Z.shiftr n 8) 0xff00) with (Z.shiftr (Z.land n 0xff0000) 8)
      by (rewrite Z.shiftr_land; done).
    replace (Z.land (Z.shiftr n 24) 0xff) with (Z.shiftr (Z.land n 0xff000000) 24)
      by (rewrite Z.shiftr_land; done).
    assert (Hf : fits 32 (Z.shiftl (Z.land n 0xff) 24) /\ fits 32 (Z.shiftl (Z.land n 0xff00) 8)).
    { change 0xff00 with (Z.shiftl (Z.ones 8) 8). change 0xff with (Z.ones 8).
      rewrite land_field, Z.land_ones, !Z.shiftl_mul_pow2 by lia. split; word_lia. }
    destruct Hf as [F1 F2]. unfold lwip_htonl.
    rewrite (trunc_small 32 (Z.shiftl _ 24)), (trunc_small 32 (Z.shiftl _ 8)) by done.
    apply trunc_small. repeat apply fits_lor; try done.
    + change 0xff0000 with (Z.shiftl (Z.ones 8) 16).
      rewrite land_field, Z.shiftr_div_pow2 by lia. word_lia.
    + change 0xff000000 with (Z.shiftl (Z.ones 8) 24).
      rewrite land_field, Z.shiftr_div_pow2 by lia. word_lia.
  - unfold LWIP_PLATFORM_HTONS, lwip_htons. f_equal. f_equal. by rewrite Z.shiftr_land.
  - by apply lwip_htonl_involutive.
  - unfold lwip_ntohs. rewrite !lwip_htons_eq by (rewrite ?lwip_htons_eq; word_lia). word_lia.
Qed.

Lemma byteorder_agree_witness :
  fits 32 0x01020304 /\ fits 16 0x0506 /\
  (LWIP_PLATFORM_HTONL 0x01020304 = lwip_htonl 0x01020304 /\ LWIP_PLATFORM_HTONS 0x0506 = lwip_htons 0x0506 /\
  lwip_ntohl (lwip_htonl 0x01020304) = 0x01020304 /\ lwip_ntohs (lwip_htons 0x0506) = 0x0506).
Proof.
  split; [vm_compute; split; congruence|]. split; [vm_compute; split; congruence|].
  apply byteorder_agree; vm_compute; split; congruence.
Defined.

(** * Printing and parsing *)

(** The decimal value of a string of digits, modulo 2^32 as [number] computes it. *)
Definition decimal (ds : list Z) : Z := fold_left (fun v c => u32 (v * 10 + (c - 48))) ds 0.

(** What the parser needs of the printed digits of a byte. *)
Definition good_digits (b : Z) (ds : list Z) : bool :=
  forallb isdigit ds && (decimal ds =? b) && bool_decide (1 <= length ds <= 3)%nat &&
  implb (cur ds =? 48) (bool_decide (ds = [48])).

Lemma inv_digits_good b : byte_ok b -> good_digits b (rev (inv_digits 3 b)) = true.
Proof.
  intros Hb. apply (forall_below 256 (fun b => good_digits b (rev (inv_digits 3 b))));
    [vm_compute; reflexivity|done].
Qed.

Lemma number_digits base ds : forall v cp,
  base = 10 -> forallb isdigit ds = true -> isdigit (cur cp) = false ->
  number base v (ds ++ cp) = (fold_left (fun v c => u32 (v * 10 + (c - 48))) ds v, cp).
Proof.
  intros v cp ->. revert v. induction ds as [|c ds IH]; intros v Hd Hc.
  - destruct cp as [|c cp]; [done|]. simpl in *. by rewrite Hc.
  - simpl in Hd. apply andb_true_iff in Hd as [Hc' Hd]. simpl. rewrite Hc'. by apply IH.
Qed.

(** The printed digits of a byte are read back. *)
Lemma part_digits b cp :
  byte_ok b -> isdigit (cur cp) = false -> cur cp <> 120 -> cur cp <> 88 ->
  part (rev (inv_digits 3 b) ++ cp) = Some (b, cp).
Proof.
  intros Hb Hc Hx HX. pose proof (inv_digits_good b Hb) as G.
  unfold good_digits in G. rewrite !andb_true_iff in G. destruct G as [[[Hd Hv] Hl] Hz].
  set (ds := rev (inv_digits 3 b)) in *. clearbody ds. apply Z.eqb_eq in Hv.
  destruct ds as [|c ds]; [done|]. unfold part. simpl cur in *.
  pose proof Hd as Hd'. simpl in Hd'. apply andb_true_iff in Hd' as [Hc1 _]. rewrite Hc1. simpl negb.
  destruct (Z.eqb_spec c 48) as [->|Hne]; cbn [implb] in Hz.
  - apply bool_decide_eq_true in Hz as [= ->]. simpl tail.
    cbn [app].    rewrite (proj2 (Z.eqb_neq _ _) Hx), (proj2 (Z.eqb_neq _ _) HX). simpl orb. cbv iota.
    destruct cp as [|c cp]; simpl in *; [|rewrite Hc; simpl]; by rewrite <- Hv.
  - rewrite (number_digits 10 (c :: ds)) by done. by rewrite <- Hv.
Qed.

Lemma put_chars_fits buflen cs : forall len out,
  0 <= len -> len + Z.of_nat (length cs) <= buflen ->
  put_chars buflen cs len out = Some (len + Z.of_nat (length cs), out ++ cs).
Proof.
  induction cs as [|c cs IH]; intros len out H0 Hl; cbn [length put_chars] in *.
  - by rewrite Z.add_0_r, app_nil_r.
  - rewrite (proj2 (Z.leb_gt _ _)) by lia. rewrite IH by lia.
    rewrite <- app_assoc. f_equal. f_equal. lia.
Qed.

(** The printed form: the bytes in decimal, a dot after each. *)
Definition dotted (bs : list Z) : list Z := bs ≫= (fun b => rev (inv_digits 3 b) ++ [46]).

Lemma ntoa_loop_fits buflen bs : forall len out,
  0 <= len -> len + Z.of_nat (length (dotted bs)) <= buflen ->
  ntoa_loop buflen bs len out = Some (out ++ dotted bs).
Proof.
  induction bs as [|b bs IH]; intros len out H0 Hl; [by rewrite app_nil_r|].
  unfold dotted in *. rewrite bind_cons, !length_app in Hl. cbn [ntoa_loop].
  rewrite put_chars_fits by lia. cbn [mbind option_bind].
  rewrite put_chars_fits by (cbn [length] in *; lia). cbn [mbind option_bind].
  rewrite IH by (cbn [length] in *; lia). by rewrite bind_cons, <- !app_assoc.
Qed.

Lemma dotted_length bs : bytes_ok bs -> (length (dotted bs) <= 4 * length bs)%nat.
Proof.
  induction 1 as [|b bs Hb Hbs IH]; [simpl; lia|].
  unfold dotted in *. rewrite bind_cons, !length_app.
  pose proof (inv_digits_good b Hb) as G. unfold good_digits in G. rewrite !andb_true_iff in G.
  destruct G as [[_ Hl] _]. apply bool_decide_eq_true in Hl. cbn [length]. lia.
Qed.

Lemma parts_loop_dotted bs : forall fuel parts b cp,
  bytes_ok bs -> byte_ok b -> (length bs < fuel)%nat -> (length parts + length bs <= 3)%nat ->
  cp = [] ->
  parts_loop fuel parts (dotted bs ++ rev (inv_digits 3 b) ++ cp) = Some (parts ++ bs, b, cp).
Proof.
  induction bs as [|b' bs IH]; intros [|fuel] parts b cp Hbs Hb Hf Hl ->; try (simpl in *; lia).
  - change (dotted []) with (@nil Z). cbn [parts_loop app].
    rewrite part_digits by done. simpl. by rewrite app_nil_r.
  - apply Forall_cons in Hbs as [Hb' Hbs]. simpl in Hf, Hl. cbn [parts_loop].
    unfold dotted. rewrite bind_cons, <- !app_assoc. rewrite part_digits by done.
    cbn [mbind option_bind cur app tail]. rewrite Z.eqb_refl.
    destruct (Nat.leb_spec 3 (length parts)); [lia|].
    rewrite IH by (done || rewrite ?length_app; simpl; lia). by rewrite <- app_assoc.
Qed.

Lemma addr_bytes_ok a : bytes_ok (addr_bytes a).
Proof. unfold addr_bytes. repeat constructor; word_lia. Qed.

(** C18: Every 32-bit address is printed by [ipaddr_ntoa] without exceeding its
    16-byte buffer, and [ipaddr_aton] reads the printed text back as the same
    address. *)
Theorem aton_ntoa a :
  fits 32 a ->
  exists s, ipaddr_ntoa a = Some (s ++ [0]) /\ (length s <= 15)%nat /\ ipaddr_aton s = Some a.
Proof.
  intros Ha. pose proof (addr_bytes_ok a) as Hb.
  pose proof (dotted_length _ Hb) as Hl. change (length (addr_bytes a)) with 4%nat in Hl.
  unfold ipaddr_ntoa, ipaddr_ntoa_r. rewrite ntoa_loop_fits by lia. cbn [mbind option_bind app].
  destruct (bytes4 a Ha) as (a0 & a1 & a2 & a3 & H0 & H1 & H2 & H3 & Ea & E0 & E1 & E2 & E3).
  unfold addr_bytes in *. rewrite E0, E1, E2, E3 in *. clear E0 E1 E2 E3.
  set (d := dotted [a0; a1; a2]). set (l := rev (inv_digits 3 a3)).
  assert (dotted [a0; a1; a2; a3] = (d ++ l) ++ [46]) as Hd.
  { unfold d, l, dotted. rewrite !bind_cons. simpl. by rewrite <- !app_assoc, app_nil_r. }
  rewrite Hd in *. rewrite removelast_last. exists (d ++ l).
  split; [done|]. split; [rewrite length_app in Hl; simpl in Hl; lia|].
  unfold ipaddr_aton, d, l. rewrite <- (app_nil_r (rev (inv_digits 3 a3))).
  assert (H3s : bytes_ok [a0; a1; a2]) by auto using Forall_cons.
  rewrite (parts_loop_dotted [a0; a1; a2] 4 [] a3 []) by first [done | simpl; lia].
  cbn [mbind option_bind cur app]. cbn [Z.eqb negb andb]. unfold concoct. cbn [length].
  rewrite (proj2 (Z.ltb_ge _ _)) by word_lia. cbn [mbind option_bind nth].
  f_equal. rewrite Ea. rewrite <- (lwip_htonl_bytes a3 a2 a1 a0) by done. f_equal.
  rewrite !Z.shiftl_mul_pow2 by lia. rewrite !trunc_small by word_lia.
  rewrite Z.lor_comm.
  rewrite (lor_disjoint_add _ (a1 * 2 ^ 16) 24) by word_lia.
  rewrite (lor_disjoint_add _ (a2 * 2 ^ 8) 16) by word_lia.
  rewrite (lor_disjoint_add _ a3 8) by word_lia. word_lia.
Qed.

Lemma aton_ntoa_witness :
  fits 32 0x0a01a8c0 /\
  exists s, ipaddr_ntoa 0x0a01a8c0 = Some (s ++ [0]) /\ (length s <= 15)%nat /\
    ipaddr_aton s = Some 0x0a01a8c0.
Proof. split; [vm_compute; split; congruence|]. apply aton_ntoa. vm_compute; split; congruence. Defined.

(** Also: The parser does not reject a part above 255 that is not the last: it
    accepts such text and lets the excess bits run into the part before it, so
    a.256.c.d is read as the address of (a|1).0.c.d. *)
Theorem aton_accepts_large_part a :
  0 <= a <= 255 ->
  ipaddr_aton (rev (inv_digits 3 a) ++ [46; 50; 53; 54; 46; 48; 46; 48]) =
    Some (Z.lor a 1) /\
  ipaddr_aton (rev (inv_digits 3 (Z.lor a 1)) ++ [46; 48; 46; 48; 46; 48]) = Some (Z.lor a 1).
Proof.
  intros Ha.
  assert (H : forallb (fun a =>
    bool_decide (ipaddr_aton (rev (inv_digits 3 a) ++ [46; 50; 53; 54; 46; 48; 46; 48]) = Some (Z.lor a 1)) &&
    bool_decide (ipaddr_aton (rev (inv_digits 3 (Z.lor a 1)) ++ [46; 48; 46; 48; 46; 48]) = Some (Z.lor a 1)))
    (below 256) = true) by (vm_compute; reflexivity).
  pose proof (forall_below 256 _ H a ltac:(lia)) as Hb. cbv beta in Hb.
  apply andb_true_iff in Hb as [H1 H2]. apply bool_decide_eq_true in H1, H2. split; assumption.
Qed.

Lemma aton_accepts_large_part_witness :
  0 <= 10 <= 255 /\
  ipaddr_aton (rev (inv_digits 3 10) ++ [46; 50; 53; 54; 46; 48; 46; 48]) = Some (Z.lor 10 1) /\
  ipaddr_aton (rev (inv_digits 3 (Z.lor 10 1)) ++ [46; 48; 46; 48; 46; 48]) = Some (Z.lor 10 1).
Proof. split; [lia|]. apply aton_accepts_large_part. lia. Defined.

(** * Netmasks *)
Lemma land_pow2_zero x n : (Z.land x (2 ^ Z.of_nat n) =? 0) = negb (Z.testbit x (Z.of_nat n)).
Proof.
  rewrite <- testbit_mask. destruct (Z.eqb_spec (Z.land x (2 ^ Z.of_nat n)) 0) as [->|Hn]; [done|].
  assert (0 <= Z.land x (2 ^ Z.of_nat n)) by (apply Z.land_nonneg; right; apply Z.pow_nonneg; lia).
  by rewrite (proj2 (Z.ltb_lt _ _)) by lia.
Qed.

Lemma shift_mask k : Z.shiftr (2 ^ Z.of_nat (S k)) 1 = 2 ^ Z.of_nat k.
Proof.
  rewrite Z.shiftr_div_pow2, Nat2Z.inj_succ, Z.pow_succ_r by lia.
  rewrite Z.mul_comm. apply Z.div_mul. lia.
Qed.

Lemma pow2_not_zero k : (2 ^ Z.of_nat k =? 0) = false.
Proof. apply Z.eqb_neq, Z.pow_nonzero; lia. Qed.

Lemma first_zero_S f nm k :
  first_zero (S f) nm (2 ^ Z.of_nat k) =
  if Z.testbit nm (Z.of_nat k) then first_zero f nm (Z.shiftr (2 ^ Z.of_nat k) 1)
  else 2 ^ Z.of_nat k.
Proof. cbn [first_zero]. rewrite pow2_not_zero, land_pow2_zero. by destruct (Z.testbit _ _). Qed.

(** Where the first loop stops: at the highest zero bit from [k] down, or past
    the end. *)
Lemma first_zero_spec nm k :
  let r := first_zero (S k) nm (2 ^ Z.of_nat k) in
  (r = 0 /\ forall i, (i <= k)%nat -> Z.testbit nm (Z.of_nat i) = true) \/
  (exists j, (j <= k)%nat /\ r = 2 ^ Z.of_nat j /\ Z.testbit nm (Z.of_nat j) = false /\
    forall i, (j < i <= k)%nat -> Z.testbit nm (Z.of_nat i) = true).
Proof.
  assert (Hk : forall k i, (i <= S k)%nat -> (i <= k)%nat \/ i = S k) by lia.
  induction k as [|k IH]; cbv zeta in *; rewrite first_zero_S;
    (destruct (Z.testbit nm _) eqn:E;
      [|right; eexists; split_and!; [reflexivity|reflexivity|done|intros; lia]]).
  - left. split; [done|]. intros i Hi. by replace i with 0%nat by lia.
  - rewrite shift_mask. destruct IH as [[-> Ha]|(j & Hj & -> & Hb & Ha)].
    + left. split; [done|]. intros i [| ->]%Hk; auto.
    + right. exists j. split_and!; auto. intros i [? [| ->]%Hk]; auto.
Qed.

Lemma no_one_spec nm k : forall fuel,
  (k < fuel)%nat ->
  no_one fuel nm (2 ^ Z.of_nat k) = true <->
  forall i, (i <= k)%nat -> Z.testbit nm (Z.of_nat i) = false.
Proof.
  induction k as [|k IH]; intros [|fuel] Hf; try lia; cbn [no_one];
    rewrite pow2_not_zero, land_pow2_zero, negb_involutive; destruct (Z.testbit nm _) eqn:E.
  - split; [done|]. intros H. by rewrite H in E by lia.
  - split; [|by destruct fuel]. intros _ i Hi. by replace i with 0%nat by lia.
  - split; [done|]. intros H. by rewrite H in E by lia.
  - rewrite shift_mask, IH by lia. split; intros H i Hi; [|apply H; lia].
    destruct (decide (i = S k)) as [->|]; [done|apply H; lia].
Qed.

Lemma no_one_zero fuel nm : no_one fuel nm 0 = true.
Proof. by destruct fuel. Qed.

(** Also: A netmask (in network order) is valid exactly when, in host order, it is
    some number of one bits followed by zero bits. *)
Theorem netmask_valid_iff m :
  fits 32 m ->
  ip4_addr_netmask_valid m = true <->
  exists k, (k <= 32)%nat /\ lwip_htonl m = 2 ^ 32 - 2 ^ Z.of_nat k.
Proof.
  intros Hm. unfold ip4_addr_netmask_valid. cbv zeta.
  assert (Hn : fits 32 (lwip_htonl m)).
  { destruct (bytes4 m Hm) as (a & b & c & d & Ha & Hb & Hc & Hd & -> & _).
    rewrite lwip_htonl_bytes by done. apply of_bytes4; done. }
  set (nm := lwip_htonl m) in *. clearbody nm.
  assert (Hones : forall k i, (k <= 32)%nat -> 0 <= i ->
    Z.testbit (2 ^ 32 - 2 ^ Z.of_nat k) i = (Z.of_nat k <=? i) && (i <? 32)).
  { intros k i Hk Hi.
    replace (2 ^ 32 - 2 ^ Z.of_nat k) with (Z.shiftl (Z.ones (32 - Z.of_nat k)) (Z.of_nat k)).
    - rewrite Z.shiftl_spec by done. destruct (Z.leb_spec (Z.of_nat k) i); cbn [andb].
      + destruct (Z.ltb_spec i 32); [apply Z.ones_spec_low|apply Z.ones_spec_high]; lia.
      + apply Z.testbit_neg_r. lia.
    - rewrite Z.shiftl_mul_pow2, Z.ones_equiv by lia. rewrite Z.mul_pred_l, <- Z.pow_add_r by lia.
      f_equal. f_equal. lia. }
  assert (Heq : forall k, (k <= 32)%nat ->
    (forall i, (i < k)%nat -> Z.testbit nm (Z.of_nat i) = false) ->
    (forall i, (k <= i < 32)%nat -> Z.testbit nm (Z.of_nat i) = true) -> nm = 2 ^ 32 - 2 ^ Z.of_nat k).
  { intros k Hk H0 H1. apply Z.bits_inj'; intros i Hi. rewrite Hones by done.
    rewrite <- (Z2Nat.id i) by done.
    destruct (Z.leb_spec (Z.of_nat k) (Z.of_nat (Z.to_nat i))); cbn [andb]; [|apply H0; lia].
    destruct (Z.ltb_spec (Z.of_nat (Z.to_nat i)) 32); [apply H1; lia|].
    apply (fits_high_bits 32); [done|lia]. }
  destruct (first_zero_spec nm 31) as [[E Ha]|(j & Hj & E & Hb & Ha)]; cbv zeta in E;
    change (Z.of_nat 31) with 31 in E; rewrite E.
  - rewrite no_one_zero. split; [|done]. intros _. exists 0%nat. split; [lia|].
    apply Heq; [lia|intros; lia|]. intros; apply Ha; lia.
  - rewrite no_one_spec by lia. split.
    + intros H0. exists (S j). split; [lia|]. apply Heq; [lia| |]; intros; [apply H0|apply Ha]; lia.
    + intros (k & Hk & ->) i Hi. rewrite Hones in * by lia.
      apply andb_false_iff. left. apply Z.leb_gt.
      rewrite andb_false_iff, Z.leb_gt, Z.ltb_ge in Hb. lia.
Qed.

Lemma netmask_valid_iff_witness :
  fits 32 0x00f0ffff /\ (ip4_addr_netmask_valid 0x00f0ffff = true <->
  exists k, (k <= 32)%nat /\ lwip_htonl 0x00f0ffff = 2 ^ 32 - 2 ^ Z.of_nat k).
Proof. split; [vm_compute; split; congruence|]. apply netmask_valid_iff. vm_compute; split; congruence. Defined.
