(* ===== verification/Format.v ===== *)
(** Formatted output of C: the conversions the programs use and [snprintf]
    into a buffer, with the lemmas on the texts they make. *)
From S2P Require Import Prelude IpAddr.

Definition hex_digit (d : Z) : Z := if d <? 10 then 48 + d else 87 + d.
(** [%0nx]: the [n] lowest hexadecimal digits. *)
Fixpoint hex (n : nat) (x : Z) : list Z :=
  match n with
  | O => []
  | S n => hex n (x / 16) ++ [hex_digit (x mod 16)]
  end.
(** [%u] and [%02d]. *)
Definition dec (x : Z) : list Z := rev (inv_digits 10 x).
Definition dec02 (x : Z) : list Z := if x <? 10 then 48 :: dec x else dec x.

(** [%d]. *)
Definition sdec (x : Z) : list Z := if x <? 0 then 45 :: dec (- x) else dec x.
(** [%02d]. *)
Definition sdec02 (x : Z) : list Z :=
  if x <? 0 then sdec x else dec02 x.

(** [snprintf(buf + off, size, ...)] printing [text]: at most [size - 1]
    characters and the terminator, wherever the buffer ends. *)
Definition snprintf (buf : list Z) (off size : nat) (text : list Z) : option (list Z) :=
  store buf off (take (size - 1) text ++ [0]).
Definition strlen (buf : list Z) : nat := length (c_string buf).

(** * [atoi]; of a number that is not an [int] it is undefined. *)
Fixpoint digits_value (v : Z) (s : list Z) : Z :=
  match s with
  | c :: r => if isdigit c then digits_value (v * 10 + (c - 48)) r else v
  | [] => v
  end.
Fixpoint skip_spaces (s : list Z) : list Z :=
  match s with
  | c :: r => if isspace c then skip_spaces r else s
  | [] => []
  end.
Definition atoi (s : list Z) : option Z :=
  let s := skip_spaces s in
  let v := if cur s =? 45 then - digits_value 0 (tail s)
           else if cur s =? 43 then digits_value 0 (tail s) else digits_value 0 s in
  if (- 2 ^ 31 <=? v) && (v <? 2 ^ 31) then Some v else None.

(** * Texts without a terminator inside *)
Definition text_ok (t : list Z) : Prop := Forall (fun c => c <> 0) t.

Lemma text_app t u : text_ok t -> text_ok u -> text_ok (t ++ u).
Proof. apply Forall_app_2. Qed.
Lemma text_literal t : forallb (fun c => negb (c =? 0)) t = true -> text_ok t.
Proof.
  rewrite forallb_forall. intros H. apply Forall_forall. intros c Hc ->.
  by specialize (H 0 (proj1 (list_elem_of_In _ _) Hc)).
Qed.

Create HintDb texts.
#[export] Hint Resolve text_app : texts.
#[export] Hint Extern 1 (text_ok (str _)) => apply text_literal; reflexivity : texts.
#[export] Hint Extern 2 (text_ok [_]) => apply text_literal; reflexivity : texts.

Lemma inv_digits_length k fuel : forall x,
  0 <= x < 10 ^ Z.of_nat k -> (1 <= k)%nat -> (length (inv_digits fuel x) <= k)%nat.
Proof.
  revert fuel. induction k as [|k IH]; intros [|fuel] x Hx Hk; cbn [inv_digits length]; try lia.
  destruct (Z.eqb_spec (x / 10) 0); cbn [length]; [lia|].
  destruct k as [|k]; [exfalso; change (10 ^ Z.of_nat 1) with 10 in Hx; Z.div_mod_to_equations; lia|].
  enough (length (inv_digits fuel (x / 10)) <= S k)%nat by lia.
  apply IH; [|lia]. rewrite Nat2Z.inj_succ, Z.pow_succ_r in Hx by lia.
  split; [apply Z.div_pos; lia|apply Z.div_lt_upper_bound; lia].
Qed.

Lemma inv_digits_ok fuel : forall x, 0 <= x -> text_ok (inv_digits fuel x).
Proof.
  induction fuel as [|fuel IH]; intros x Hx; [constructor|]. cbn [inv_digits].
  constructor; [Z.div_mod_to_equations; lia|].
  destruct (_ =? 0); [constructor|apply IH, Z.div_pos; lia].
Qed.

Lemma dec_length k x : 0 <= x < 10 ^ Z.of_nat k -> (1 <= k)%nat -> (length (dec x) <= k)%nat.
Proof. intros. unfold dec. rewrite length_rev. by apply inv_digits_length. Qed.
Lemma dec_ok x : 0 <= x -> text_ok (dec x).
Proof. intros. apply Forall_rev. by apply inv_digits_ok. Qed.
Lemma dec02_length x : 0 <= x < 100 -> (length (dec02 x) <= 2)%nat.
Proof.
  intros Hx. unfold dec02. destruct (Z.ltb_spec x 10); cbn [length].
  - pose proof (dec_length 1 x). lia.
  - apply (dec_length 2); [exact Hx|lia].
Qed.
Lemma dec02_ok x : 0 <= x -> text_ok (dec02 x).
Proof. intros. unfold dec02. destruct (_ <? _); [constructor; [done|]|]; by apply dec_ok. Qed.
Lemma hex_length n : forall x, length (hex n x) = n.
Proof. induction n as [|n IH]; intros x; [done|]. simpl. rewrite length_app, IH. simpl. lia. Qed.
Lemma hex_ok n : forall x, text_ok (hex n x).
Proof.
  induction n as [|n IH]; intros x; [constructor|]. simpl. apply Forall_app_2; [apply IH|].
  apply Forall_singleton. unfold hex_digit. destruct (Z.ltb_spec (x mod 16) 10); Z.div_mod_to_equations; lia.
Qed.
Lemma bind_hex_length a : length (a ≫= hex 2) = (2 * length a)%nat.
Proof. induction a as [|x a IH]; [done|]. rewrite bind_cons, length_app, IH, hex_length. simpl. lia. Qed.
Lemma bind_hex_ok a : text_ok (a ≫= hex 2).
Proof. induction a as [|x a IH]; [constructor|]. rewrite bind_cons. apply Forall_app_2; [apply hex_ok|done]. Qed.

#[export] Hint Resolve dec_ok dec02_ok hex_ok bind_hex_ok : texts.

Lemma c_string_text t rest : text_ok t -> c_string (t ++ 0 :: rest) = t.
Proof.
  induction 1 as [|c t Hc Ht IH]; [done|]. simpl. rewrite (proj2 (Z.eqb_neq _ _)) by done. by rewrite IH.
Qed.

(** Into a buffer with room, and after the text it already holds. *)
Lemma snprintf_fresh buf size u :
  (length u < size)%nat -> (length u < length buf)%nat ->
  snprintf buf 0 size u = Some (u ++ 0 :: drop (S (length u)) buf).
Proof.
  intros Hs Hb. unfold snprintf, store. rewrite take_ge by lia.
  rewrite decide_True by (rewrite length_app; cbn [length]; lia).
  rewrite length_app. cbn [length]. rewrite take_0. cbn [app].
  rewrite <- app_assoc. do 3 f_equal. f_equal. lia.
Qed.

Lemma snprintf_after t u rest size :
  (length u < size)%nat -> (length u <= length rest)%nat ->
  snprintf (t ++ 0 :: rest) (length t) size u = Some ((t ++ u) ++ 0 :: drop (length u) rest).
Proof.
  intros Hs Hl. unfold snprintf, store. rewrite take_ge by lia.
  rewrite decide_True by (rewrite !length_app; cbn [length]; lia).
  rewrite take_app_length, !length_app. cbn [length].
  replace (length t + (length u + 1))%nat with (length (t ++ [0%Z]) + length u)%nat by (rewrite length_app; simpl; lia).
  replace (t ++ 0 :: rest) with ((t ++ [0%Z]) ++ rest) by (by rewrite <- app_assoc).
  rewrite drop_app_add, <- !app_assoc. done.
Qed.

Lemma snprintf_append t u rest size :
  length (t ++ 0 :: rest) = size -> (length t + length u < size)%nat ->
  snprintf (t ++ 0 :: rest) (length t) size u = Some ((t ++ u) ++ 0 :: drop (length u) rest).
Proof. rewrite length_app. cbn [length]. intros Hs Hl. apply snprintf_after; lia. Qed.

Lemma inv_digits_long k : forall fuel x,
  10 ^ Z.of_nat k <= x -> (k < fuel)%nat -> (k < length (inv_digits fuel x))%nat.
Proof.
  induction k as [|k IH]; intros [|fuel] x Hx Hf; cbn [inv_digits length]; try lia.
  rewrite Nat2Z.inj_succ, Z.pow_succ_r in Hx by lia.
  assert (10 ^ Z.of_nat k <= x / 10) by (apply Z.div_le_lower_bound; lia).
  assert (0 < 10 ^ Z.of_nat k) by (apply Z.pow_pos_nonneg; lia).
  rewrite (proj2 (Z.eqb_neq _ _)) by lia.
  specialize (IH fuel (x / 10)). lia.
Qed.
