(* ===== verification/TcpPush.v ===== *)
(** One-shot TCP messages: [src/attic/ground-sensor/code/src/tcp_push.c].

    Every message has a [struct pokerface] on the heap, addressed by the
    handle given back to the caller; the callbacks of the SDK's espconn layer
    work on it and a timer frees it. An access to a block that is not live, or
    a timer that fires without a function, is undefined. Console messages and
    the local port number chosen by the SDK are left out. *)
From S2P Require Import Prelude IpAddr.

Definition DATABUF_SIZE := 256%nat.

Record pokerface := Poker {
  remote_ip : Z;
  remote_port : Z;
  databuf : list Z;
  datalen : nat;
  conn_checker_fn : bool;       (* os_timer_setfn was called *)
  conn_checker_armed : bool;
  error_handler : bool;         (* the function pointers are not NULL *)
  finish_handler : bool }.

(** Calls into the SDK, and the caller's handlers being called. *)
Inductive effect :=
| espconn_connect (h : nat) (ip port : Z)
| espconn_sent (h : nat) (bytes : list Z)
| espconn_disconnect (h : nat)
| finish_fcn (h : nat)
| error_fcn (h : nat) (err : Z).

Record tcp := Tcp {
  blocks : gmap nat pokerface;
  console_locked : bool;
  effects : list effect }.

Definition emit (e : effect) : ST tcp () :=
  modify (fun w => Tcp (blocks w) (console_locked w) (effects w ++ [e])).
Definition console_lock (b : bool) : ST tcp () :=
  modify (fun w => Tcp (blocks w) b (effects w)).
Definition put_block (h : nat) (p : pokerface) : ST tcp () :=
  modify (fun w => Tcp (<[h := p]> (blocks w)) (console_locked w) (effects w)).
Definition deref (h : nat) : ST tcp pokerface := w ← get; lift_opt (blocks w !! h).
Definition update (h : nat) (f : pokerface -> pokerface) : ST tcp () :=
  p ← deref h; put_block h (f p).
Definition os_free (h : nat) : ST tcp () :=
  deref h;;
  modify (fun w => Tcp (delete h (blocks w)) (console_locked w) (effects w)).

Definition set_timer (fn armed : bool) (p : pokerface) : pokerface :=
  Poker (remote_ip p) (remote_port p) (databuf p) (datalen p) fn armed
    (error_handler p) (finish_handler p).
Definition os_timer_arm (h : nat) : ST tcp () :=
  update h (fun p => set_timer (conn_checker_fn p) true p).
Definition os_timer_disarm (h : nat) : ST tcp () :=
  update h (fun p => set_timer (conn_checker_fn p) false p).
Definition os_timer_setfn (h : nat) : ST tcp () :=
  update h (fun p => set_timer true (conn_checker_armed p) p).

(** * The callbacks *)
Definition conn_checker_handler (h : nat) : ST tcp () := os_free h.

Definition connected (h : nat) : ST tcp () :=
  p ← deref h;
  emit (espconn_sent h (take (datalen p) (databuf p))).

Definition disconnected (h : nat) : ST tcp () :=
  console_lock false;;
  os_timer_arm h;;
  p ← deref h;
  when (finish_handler p) (emit (finish_fcn h)).

Definition reconnect (h : nat) (err : Z) : ST tcp () :=
  p ← deref h;
  emit (espconn_disconnect h);;
  when (error_handler p) (emit (error_fcn h err));;
  os_timer_disarm h;;
  os_timer_setfn h;;
  os_timer_arm h;;
  console_lock false.

Definition datasent (h : nat) : ST tcp () :=
  os_timer_disarm h;;
  os_timer_setfn h;;
  emit (espconn_disconnect h).

(** The timer firing: its function is called, [undefined] when it has none. *)
Definition timer_fires (h : nat) : ST tcp () :=
  p ← deref h;
  when (conn_checker_armed p)
    (update h (set_timer (conn_checker_fn p) false);;
     if conn_checker_fn p then conn_checker_handler h else undefined).

(** * [execute_tcp_push_u]

    [alloc] is what [os_zalloc] returns (an address not in use, or NULL);
    the result is the return value and [*handle] when it is written. *)
Definition execute_tcp_push_u (alloc : option nat) (target port : Z) (text : option (list Z))
    (finish error : bool) : ST tcp (Z * option nat) :=
  if (target =? 0) || (port <? 0) || (65535 <? port) then mret (-1, None)
  else
    match alloc with
    | None => mret (-1, None)
    | Some h =>
        put_block h (Poker 0 0 (replicate DATABUF_SIZE 0) 0 false false false false);;
        match text with
        | None => mret (-1, None)
        | Some text =>
            if (DATABUF_SIZE <? length text + 1)%nat then mret (-1, None)
            else
              put_block h (Poker target port
                (text ++ replicate (DATABUF_SIZE - length text) 0) (length text)
                false false error finish);;
              emit (espconn_connect h target port);;
              console_lock true;;
              mret (0, Some h)
        end
    end.

(** [execute_tcp_push]: the target is left uninitialised ([garbage]) when the
    address does not parse. *)
Definition execute_tcp_push (garbage : Z) (alloc : option nat) (ipaddress : list Z) (port : Z)
    (text : option (list Z)) (finish error : bool) : ST tcp (Z * option nat) :=
  execute_tcp_push_u alloc (default garbage (ipaddr_aton ipaddress)) port text finish error.
