(* ===== verification/TcpPushFacts.v ===== *)
(** The life of a TCP message: what its callbacks do in every order in which
    the SDK may deliver them, and where memory is lost or misused. *)
From S2P Require Import Prelude IpAddr TcpPush.

(** * The callbacks the SDK delivers for one connection *)
Inductive event := EConnected | ESent | EDisconnected | EReconnect (err : Z) | ETimer.

Definition deliver (h : nat) (e : event) : ST tcp () :=
  match e with
  | EConnected => connected h
  | ESent => datasent h
  | EDisconnected => disconnected h
  | EReconnect err => reconnect h err
  | ETimer => timer_fires h
  end.

Fixpoint deliver_all (h : nat) (es : list event) : ST tcp () :=
  match es with
  | [] => mret ()
  | e :: es => deliver h e;; deliver_all h es
  end.

(** How far a connection has come. [Gone]: its block was freed. *)
Inductive progress := Connecting | Open | DataSent | Closing | Failed | Gone.
#[global] Instance progress_eq_dec : EqDecision progress.
Proof. solve_decision. Defined.

(** The orders in which the SDK calls back when the peer does not close the
    connection before the data was sent: an error may be reported at any time
    until the connection closes, and the timer armed on closing expires. *)
Inductive sdk_step : progress -> event -> progress -> Prop :=
| sdk_connect : sdk_step Connecting EConnected Open
| sdk_sent : sdk_step Open ESent DataSent
| sdk_close : sdk_step DataSent EDisconnected Closing
| sdk_error p err : p ∈ [Connecting; Open; DataSent] -> sdk_step p (EReconnect err) Failed
| sdk_close_failed : sdk_step Failed EDisconnected Closing
| sdk_expire p : p ∈ [Closing; Failed] -> sdk_step p ETimer Gone.

Inductive sdk_run : progress -> list event -> progress -> Prop :=
| run_nil p : sdk_run p [] p
| run_cons p e q es r : sdk_step p e q -> sdk_run q es r -> sdk_run p (e :: es) r.

Definition notifies (h : nat) (e : effect) : bool :=
  match e with
  | finish_fcn h' | error_fcn h' _ => bool_decide (h = h')
  | _ => false
  end.
Definition sends (h : nat) (e : effect) : bool :=
  match e with espconn_sent h' _ => bool_decide (h = h') | _ => false end.

(** The block of message [text] after [p] callbacks: only its timer changes. *)
Definition message_block (text : list Z) (target port : Z) (p : progress) : pokerface :=
  Poker target port (text ++ replicate (DATABUF_SIZE - length text) 0) (length text)
    (match p with Connecting | Open => false | _ => true end)
    (match p with Closing | Failed => true | _ => false end) true true.

Definition in_progress (h : nat) (text : list Z) (target port : Z)
    (others : gmap nat pokerface) (p : progress) (w : tcp) : Prop :=
  others !! h = None /\
  blocks w = (match p with Gone => others | _ => <[h := message_block text target port p]> others end).

(** What one callback adds to the log. *)
Definition logged (h : nat) (text : list Z) (e : event) : list effect :=
  match e with
  | EConnected => [espconn_sent h text]
  | ESent => [espconn_disconnect h]
  | EDisconnected => [finish_fcn h]
  | EReconnect err => [espconn_disconnect h; error_fcn h err]
  | ETimer => []
  end.

Lemma deref_live h w b : blocks w !! h = Some b -> deref h w = Some (b, w).
Proof. intros E. unfold deref. st_unfold. by rewrite E. Qed.

Lemma deliver_step h text target port others p e q w :
  in_progress h text target port others p w -> sdk_step p e q ->
  exists w', deliver h e w = Some ((), w') /\ in_progress h text target port others q w' /\
    effects w' = effects w ++ logged h text e.
Proof.
  intros [Hh Hb] Hs.
  unfold in_progress, deliver, connected, disconnected, reconnect, datasent, timer_fires,
    conn_checker_handler, os_free, os_timer_arm, os_timer_disarm, os_timer_setfn, update,
    put_block, emit, console_lock, deref.
  st_unfold.
  destruct Hs as [| | |p err Hp| |p Hp];
    [| | |rewrite !elem_of_cons in Hp; destruct Hp as [->|[->|[->|[]%elem_of_nil]]]|
     |rewrite !elem_of_cons in Hp; destruct Hp as [->|[->|[]%elem_of_nil]]];
    repeat (rewrite ?Hb, ?lookup_insert_eq, ?insert_insert_eq, ?delete_insert_id by done;
            simpl; try (eexists; split; [reflexivity|]; simpl)).
  all: split_and!; [done|..]; rewrite ?insert_insert_eq, <- ?app_assoc; try done.
  all: by rewrite ?take_app_length, ?app_nil_r.
Qed.

Lemma deliver_run h text target port others es : forall p q w,
  in_progress h text target port others p w -> sdk_run p es q ->
  exists w', deliver_all h es w = Some ((), w') /\ in_progress h text target port others q w' /\
    effects w' = effects w ++ (es ≫= logged h text).
Proof.
  induction es as [|e es IH]; intros p q w Hw Hr; inversion Hr; subst.
  { exists w. split_and!; [done|done|by rewrite app_nil_r]. }
  destruct (deliver_step _ _ _ _ _ _ _ _ _ Hw H2) as (w1 & E1 & Hw1 & L1).
  destruct (IH _ _ _ Hw1 H4) as (w2 & E2 & Hw2 & L2).
  exists w2. cbn [deliver_all]. rewrite ST_bind_eq, E1. split_and!; [done|done|].
  by rewrite L2, L1, bind_cons, app_assoc.
Qed.

(** How often the data was handed to the SDK and the caller notified, by
    progress: the bounds a run of the SDK respects. *)
Fixpoint count (f : effect -> bool) (l : list effect) : nat :=
  match l with [] => 0 | e :: l => (if f e then 1 else 0) + count f l end.
Lemma count_app f l k : count f (l ++ k) = (count f l + count f k)%nat.
Proof. induction l as [|e l IH]; simpl; [done|]. rewrite IH. lia. Qed.

Definition sent_before (p : progress) : nat :=
  match p with Connecting => 1 | _ => 0 end.
Definition notices_left (p : progress) : nat :=
  match p with Connecting | Open | DataSent => 2 | Failed => 1 | _ => 0 end.

Lemma step_counts h text p e q :
  sdk_step p e q ->
  (count (sends h) (logged h text e) + sent_before q <= sent_before p)%nat /\
  (count (notifies h) (logged h text e) + notices_left q <= notices_left p)%nat /\
  (p ∈ [Connecting; Open; DataSent] -> q ∉ [Connecting; Open; DataSent] ->
     1 <= count (notifies h) (logged h text e))%nat.
Proof.
  intros [| | |p' err Hp| |p' Hp];
    [| | |rewrite !elem_of_cons in Hp; destruct Hp as [->|[->|[->|[]%elem_of_nil]]]|
     |rewrite !elem_of_cons in Hp; destruct Hp as [->|[->|[]%elem_of_nil]]];
    simpl; repeat (rewrite bool_decide_eq_true_2 by done; simpl);
    rewrite ?elem_of_cons, ?elem_of_nil; intuition (discriminate || lia).
Qed.

Lemma run_counts h text p es q :
  sdk_run p es q ->
  (count (sends h) (es ≫= logged h text) <= sent_before p)%nat /\
  (count (notifies h) (es ≫= logged h text) <= notices_left p)%nat /\
  (p ∈ [Connecting; Open; DataSent] -> q ∉ [Connecting; Open; DataSent] ->
     1 <= count (notifies h) (es ≫= logged h text))%nat.
Proof.
  induction 1 as [p|p e q es r Hs _ IH]; [simpl; rewrite ?elem_of_cons, ?elem_of_nil; intuition (discriminate || lia)|].
  rewrite bind_cons, !count_app. destruct (step_counts h text p e q Hs) as (A1 & A2 & A3).
  destruct IH as (B1 & B2 & B3). split_and!; [lia|lia|].
  intros Hp Hr. destruct (decide (q ∈ [Connecting; Open; DataSent])) as [Hq|Hq].
  - specialize (B3 Hq Hr). lia.
  - specialize (A3 Hp Hq). lia.
Qed.

Lemma push_starts h target port text w :
  blocks w !! h = None -> target <> 0 -> 0 <= port <= 65535 -> (length text < DATABUF_SIZE)%nat ->
  exists w', execute_tcp_push_u (Some h) target port (Some text) true true w = Some ((0, Some h), w') /\
    in_progress h text target port (blocks w) Connecting w' /\
    effects w' = effects w ++ [espconn_connect h target port].
Proof.
  intros Hh Ht Hp Hl. unfold execute_tcp_push_u.
  rewrite (proj2 (Z.eqb_neq _ _)), (proj2 (Z.ltb_ge port 0)), (proj2 (Z.ltb_ge 65535 port)) by lia.
  cbn [orb]. unfold put_block, emit, console_lock. st_unfold.
  destruct (Nat.ltb_spec DATABUF_SIZE (length text + 1)); [lia|]. simpl.
  eexists. split; [reflexivity|]. split; [|done]. split; [done|]. simpl.
  by rewrite insert_insert_eq.
Qed.

(** C16: From a valid call of [execute_tcp_push_u] on, every order of SDK callbacks
    in which the peer does not close before the data was sent runs without
    touching freed memory or an unset timer function; the message's block is
    freed exactly when the timer has expired, which leaves the heap as it was;
    the data goes out at most once; and by then the caller's handlers were
    called at least once and at most twice. *)
Theorem push_lifecycle h target port text w es p :
  blocks w !! h = None -> target <> 0 -> 0 <= port <= 65535 -> (length text < DATABUF_SIZE)%nat ->
  sdk_run Connecting es p ->
  exists w1 w2,
    execute_tcp_push_u (Some h) target port (Some text) true true w = Some ((0, Some h), w1) /\
    deliver_all h es w1 = Some ((), w2) /\
    (p = Gone -> blocks w2 = blocks w) /\
    (p <> Gone -> exists b, blocks w2 = <[h := b]> (blocks w)) /\
    exists log, effects w2 = effects w ++ espconn_connect h target port :: log /\
      (count (sends h) log <= 1)%nat /\
      (p ∉ [Connecting; Open; DataSent] -> 1 <= count (notifies h) log <= 2)%nat.
Proof.
  intros Hh Ht Hp Hl Hr.
  destruct (push_starts h target port text w Hh Ht Hp Hl) as (w1 & E1 & Hw1 & L1).
  destruct (deliver_run _ _ _ _ _ _ _ _ _ Hw1 Hr) as (w2 & E2 & [_ Hb] & L2).
  destruct (run_counts h text _ _ _ Hr) as (C1 & C2 & C3).
  exists w1, w2. split_and!; [done|done|by intros ->| |].
  - intros Hg. destruct p; try done; eauto.
  - exists (es ≫= logged h text). split_and!; [by rewrite L2, L1, <- app_assoc|exact C1|].
    intros Hq. split; [apply C3; [rewrite elem_of_cons; auto|done]|exact C2].
Qed.

Lemma push_lifecycle_witness :
  let w := Tcp ∅ false [] in
  sdk_run Connecting [EConnected; ESent; EDisconnected; ETimer] Gone /\
  exists w1 w2,
    execute_tcp_push_u (Some 7%nat) 0x0101a8c0 7777 (Some [123; 125; 10]) true true w
      = Some ((0, Some 7%nat), w1) /\
    deliver_all 7 [EConnected; ESent; EDisconnected; ETimer] w1 = Some ((), w2) /\
    (Gone = Gone -> blocks w2 = blocks w) /\
    (Gone <> Gone -> exists b, blocks w2 = <[7%nat := b]> (blocks w)) /\
    exists log, effects w2 = effects w ++ espconn_connect 7 0x0101a8c0 7777 :: log /\
      (count (sends 7) log <= 1)%nat /\
      (Gone ∉ [Connecting; Open; DataSent] -> 1 <= count (notifies 7) log <= 2)%nat.
Proof.
  cbv zeta.
  assert (Hr : sdk_run Connecting [EConnected; ESent; EDisconnected; ETimer] Gone).
  { repeat (eapply run_cons; [constructor; rewrite ?elem_of_cons; auto|]). constructor. }
  split; [exact Hr|].
  apply (push_lifecycle 7 0x0101a8c0 7777 [123; 125; 10] (Tcp ∅ false [])
    [EConnected; ESent; EDisconnected; ETimer] Gone);
    [reflexivity|discriminate|lia|vm_compute; lia|exact Hr].
Defined.

(** Also: When the peer closes the connection before the data was sent, the timer is
    armed on a block whose timer function was never set: its expiry calls a null
    function, and the block is never freed. *)
Theorem early_close_calls_null h target port text w es :
  blocks w !! h = None -> target <> 0 -> 0 <= port <= 65535 -> (length text < DATABUF_SIZE)%nat ->
  es = [EDisconnected] \/ es = [EConnected; EDisconnected] ->
  exists w1 w2,
    execute_tcp_push_u (Some h) target port (Some text) true true w = Some ((0, Some h), w1) /\
    deliver_all h es w1 = Some ((), w2) /\ is_Some (blocks w2 !! h) /\
    deliver h ETimer w2 = None.
Proof.
  intros Hh Ht Hp Hl Hes.
  destruct (push_starts h target port text w Hh Ht Hp Hl) as (w1 & E1 & [_ Hb] & _).
  assert (Hc : exists w1', deliver_all h (removelast es) w1 = Some ((), w1') /\ blocks w1' = blocks w1).
  { destruct Hes as [-> | ->]; simpl; [by exists w1|].
    rewrite ST_bind_eq. unfold connected. rewrite ST_bind_eq, (deref_live h w1 _) by
      (rewrite Hb; apply lookup_insert_eq). eexists. split; reflexivity. }
  destruct Hc as (w1' & Ec & Hbc). rewrite Hb in Hbc.
  assert (Hd : exists w2, disconnected h w1' = Some ((), w2) /\
    exists b, blocks w2 !! h = Some b /\ conn_checker_fn b = false /\ conn_checker_armed b = true).
  { unfold disconnected, os_timer_arm, update, put_block, emit, console_lock, deref. st_unfold.
    repeat (rewrite ?Hbc, ?lookup_insert_eq by done; simpl). eexists. split; [reflexivity|].
    simpl. eexists. rewrite lookup_insert_eq. split; [reflexivity|]. done. }
  destruct Hd as (w2 & Ed & b & Hb2 & Hf & Ha).
  exists w1, w2. split_and!; [done| |by eexists|].
  - destruct Hes as [-> | ->]; simpl in *.
    + injection Ec as ->. rewrite ST_bind_eq, Ed. done.
    + rewrite ST_bind_eq in *. destruct (connected h w1) as [[[] w']|]; [|done].
      injection Ec as ->. rewrite ST_bind_eq, Ed. done.
  - simpl. unfold timer_fires. rewrite ST_bind_eq, (deref_live _ _ _ Hb2), Ha, Hf.
    unfold when, update, put_block. rewrite !ST_bind_eq, (deref_live _ _ _ Hb2). done.
Qed.

Lemma early_close_calls_null_witness :
  exists w1 w2,
    execute_tcp_push_u (Some 7%nat) 0x0101a8c0 7777 (Some [123; 125; 10]) true true (Tcp ∅ false [])
      = Some ((0, Some 7%nat), w1) /\
    deliver_all 7 [EConnected; EDisconnected] w1 = Some ((), w2) /\ is_Some (blocks w2 !! 7%nat) /\
    deliver 7 ETimer w2 = None.
Proof.
  apply (early_close_calls_null 7 0x0101a8c0 7777 [123; 125; 10] (Tcp ∅ false []));
    [reflexivity|discriminate|lia|vm_compute; lia|by right].
Defined.

(** Also: A message that does not fit the data buffer (256 bytes or more), or a null
    text, is refused after its block was allocated: the call returns -1 without
    a handle and the block stays allocated. *)
Theorem refused_push_leaks h target port text w :
  blocks w !! h = None -> target <> 0 -> 0 <= port <= 65535 ->
  text = None \/ (exists t, text = Some t /\ (DATABUF_SIZE <= length t)%nat) ->
  exists b, execute_tcp_push_u (Some h) target port text true true w =
    Some ((-1, None), Tcp (<[h := b]> (blocks w)) (console_locked w) (effects w)).
Proof.
  intros Hh Ht Hp Htext. unfold execute_tcp_push_u.
  rewrite (proj2 (Z.eqb_neq _ _)), (proj2 (Z.ltb_ge port 0)), (proj2 (Z.ltb_ge 65535 port)) by lia.
  cbn [orb]. unfold put_block. st_unfold. eexists.
  destruct Htext as [->|(t & -> & Hl)]; [reflexivity|].
  destruct (Nat.ltb_spec DATABUF_SIZE (length t + 1)); [reflexivity|lia].
Qed.

Lemma refused_push_leaks_witness :
  exists b, execute_tcp_push_u (Some 7%nat) 0x0101a8c0 7777 (Some (replicate 256 65)) true true (Tcp ∅ false [])
    = Some ((-1, None), Tcp (<[7%nat := b]> ∅) false []).
Proof.
  apply (refused_push_leaks 7 0x0101a8c0 7777 (Some (replicate 256 65)) (Tcp ∅ false []));
    [reflexivity|discriminate|lia|right; exists (replicate 256 65); split; [reflexivity|vm_compute; lia]].
Defined.
