(* ===== verification/GroundSensor.v ===== *)
(** The ground sensor's application:
    [src/attic/ground-sensor/code/src/sentrifarm.c].

    Its configuration, its state machine (one handler run per timer expiry),
    the readings of the 1-Wire string (module OneWire) and the JSON telemetry
    sent through module TcpPush. What the SDK answers during one run of the
    handler comes in as [inputs]; what it is asked to do is logged. An access
    out of bounds, a signed overflow, or running out of fuel in the 1-Wire
    loop gives [None]. Console messages are left out. *)
From S2P Require Import Prelude OneWire IpAddr Format TcpPush.

(** * Constants *)
Definition SENTRI_GPIO_DS18B20_STRING1 := 0.
Definition TRAIT_EXPECTED_THERMALS1 := 1.
Definition SENSOR_POLL_INTERVAL_SECONDS := 60 * 30.
Definition MAX_WIFIUP_RETRY_ATTEMPTS := 22.
Definition MAX_TELEMETRY_RETRY_ATTEMPTS := 20.
Definition DEMO_IPADDRESS := str "192.168.1.1".
Definition DEMO_PORT := 7777.
Definition MAX_TELEMETRY := 3%nat.

Definition ERR_THERMAL1_GPIO := Z.shiftl 1 1.
Definition ERR_WIFI_CONNECT := Z.shiftl 1 3.
Definition ERR_WIFI_AP_NOT_FOUND := Z.shiftl 1 4.
Definition ERR_THERMAL1_NONE_FOUND := Z.shiftl 1 5.
Definition ERR_THERMAL1_SOME_MISSING := Z.shiftl 1 6.

(** * Configuration and state *)
Record sentrifarm_cfg_t := Cfg {
  wait_settle_s : Z;
  wait_sensors_s : Z;
  wait_wifiup_s : Z;
  wait_transmit_s : Z;
  wait_reboot_s : Z;
  upstream_host : Z;
  upstream_port : Z;
  diag2 : bool;
  deepsleep_us : Z;
  ssid : list Z;
  password : list Z }.

Definition my_config0 : sentrifarm_cfg_t :=
  Cfg 3 2 1 1 SENSOR_POLL_INTERVAL_SECONDS 0 DEMO_PORT false
    (1000 * 1000 * SENSOR_POLL_INTERVAL_SECONDS) (str "sentri") [].

Inductive phase :=
| STATE_BOOT | STATE_SETTLE | STATE_SENSORS | STATE_WIFI_PENDING | STATE_TELEMETRY
| STATE_TELEMETRY_PENDING | STATE_TELEMETRY_FAULT | STATE_DONE | STATE_REBOOT_REQUIRED
| STATE_ERROR.

Record sentrifarm_state_t := St {
  state : phase;
  error_flags : Z;
  thermals1_found : Z;
  thermals1 : list ds18b20_t;
  vdd : Z;
  ticks : Z;
  wifi_pending : bool;
  wifi_retried : Z;
  telemetry_retried : Z;
  telemetry_handle : list (option nat);
  telemetry_done : list bool }.

Definition my_state0 : sentrifarm_state_t :=
  St STATE_BOOT 0 0 [] 0 0 false 0 0 (replicate MAX_TELEMETRY None) (replicate MAX_TELEMETRY false).

(** What [wifi_station_get_connect_status] may answer. *)
Inductive station_status :=
| STATION_IDLE | STATION_CONNECTING | STATION_WRONG_PASSWORD | STATION_NO_AP_FOUND
| STATION_CONNECT_FAIL | STATION_GOT_IP.

(** What the SDK answers during one run of the handler. *)
Record inputs := Inputs {
  in_vdd : Z;                    (* readvdd33 *)
  in_rtc : Z;                    (* system_get_rtc_time *)
  in_status : station_status;    (* wifi_station_get_connect_status *)
  in_alloc : option nat;         (* os_zalloc in tcp_push.c *)
  in_stack : list Z }.           (* what the stack holds where [buf] is *)

(** What the SDK is asked to do. *)
Inductive action :=
| set_auto_connect (on : bool) | set_opmode_station | deep_sleep_set_option (o : Z)
| set_led (on : bool)
| exec_iwconnect (ssid password : list Z)
| wifi_station_disconnect
| console_unlock
| system_deep_sleep (us : Z)
| system_restart.

Section Sensor.
Context `{DS1820} {B : Type} `{OneWireBus B}.
Context (valid_pin : Z -> bool) (ds_setup : Z -> B -> B) (ds_fuel : nat).

Record world := World {
  w_cfg : sentrifarm_cfg_t;
  w_st : sentrifarm_state_t;
  w_tcp : tcp;
  w_bus : B;
  w_search : search_state;
  sentri_state_timer : option Z;     (* armed, for so many milliseconds *)
  w_log : list action }.

Definition set_st (f : sentrifarm_state_t -> sentrifarm_state_t) : ST world () :=
  modify (fun w => World (w_cfg w) (f (w_st w)) (w_tcp w) (w_bus w) (w_search w)
                     (sentri_state_timer w) (w_log w)).
Definition set_timer (t : option Z) : ST world () :=
  modify (fun w => World (w_cfg w) (w_st w) (w_tcp w) (w_bus w) (w_search w) t (w_log w)).
Definition act (a : action) : ST world () :=
  modify (fun w => World (w_cfg w) (w_st w) (w_tcp w) (w_bus w) (w_search w)
                     (sentri_state_timer w) (w_log w ++ [a])).

(** The members of [my_state], one setter each. *)
Definition with_state p s := St p (error_flags s) (thermals1_found s) (thermals1 s) (vdd s) (ticks s)
  (wifi_pending s) (wifi_retried s) (telemetry_retried s) (telemetry_handle s) (telemetry_done s).
Definition with_error e s := St (state s) (Z.lor (error_flags s) e) (thermals1_found s) (thermals1 s)
  (vdd s) (ticks s) (wifi_pending s) (wifi_retried s) (telemetry_retried s) (telemetry_handle s)
  (telemetry_done s).
Definition with_thermals n l s := St (state s) (error_flags s) n l (vdd s) (ticks s)
  (wifi_pending s) (wifi_retried s) (telemetry_retried s) (telemetry_handle s) (telemetry_done s).
Definition with_analog v t s := St (state s) (error_flags s) (thermals1_found s) (thermals1 s) v t
  (wifi_pending s) (wifi_retried s) (telemetry_retried s) (telemetry_handle s) (telemetry_done s).
Definition with_wifi p r s := St (state s) (error_flags s) (thermals1_found s) (thermals1 s) (vdd s)
  (ticks s) p r (telemetry_retried s) (telemetry_handle s) (telemetry_done s).
Definition with_telemetry r h d s := St (state s) (error_flags s) (thermals1_found s) (thermals1 s)
  (vdd s) (ticks s) (wifi_pending s) (wifi_retried s) r h d.

(** ** Reading the sensors *)
Definition sentri_read_thermal : ST world () :=
  set_st (with_thermals 0 []);;
  w ← get;
  '(ok, readings, s, b) ← lift_opt (exec_ds18b20 ds_fuel valid_pin ds_setup
      SENTRI_GPIO_DS18B20_STRING1 true TRAIT_EXPECTED_THERMALS1 (w_search w) (w_bus w));
  modify (fun w => World (w_cfg w) (w_st w) (w_tcp w) b s (sentri_state_timer w) (w_log w));;
  let found := Z.of_nat (length readings) in
  set_st (with_thermals found readings);;
  if negb ok then set_st (with_error ERR_THERMAL1_GPIO)
  else if found =? 0 then set_st (with_error ERR_THERMAL1_NONE_FOUND)
  else when (found <? TRAIT_EXPECTED_THERMALS1) (set_st (with_error ERR_THERMAL1_SOME_MISSING)).

Definition sentri_read_sensors (i : inputs) : ST world () :=
  set_st (with_analog (in_vdd i) (in_rtc i));;
  sentri_read_thermal.

Definition sentri_connect_wifi : ST world () :=
  act set_opmode_station;;
  w ← get;
  act (exec_iwconnect (ssid (w_cfg w)) (password (w_cfg w))).

(** ** Telemetry *)
(** A member ["key":"value"] of the JSON text; 34 is the quote, 58 the colon. *)
Definition json (key : string) (value : list Z) : list Z :=
  [34] ++ str key ++ [34; 58; 34] ++ value ++ [34].

Definition telemetry_head (s : sentrifarm_state_t) (diag2 : bool) : list Z :=
  str "{" ++ json "vdd" (dec (vdd s)) ++ str "," ++ json "ticks" (dec (ticks s)) ++ str "," ++
  json "diag" (dec (b2z diag2)) ++ str "}".
Definition telemetry_thermal (r : ds18b20_t) : list Z :=
  str "{" ++ json "x" (addr r ≫= hex 2) ++ str "," ++
  json "t" ([tSign r] ++ dec (tVal r) ++ str "." ++ dec02 (tFract r)) ++ str "}".
Definition telemetry_tail (s : sentrifarm_state_t) : list Z :=
  str "{" ++ json "error" (hex 8 (error_flags s)) ++ str "}" ++ [10].

(** [char buf[48 + (6+2*8+7+1+7+2+2) * thermals1_found + 22]]. *)
Definition telemetry_size (found : Z) : nat :=
  Z.to_nat (48 + (6 + 2 * 8 + 7 + 1 + 7 + 2 + 2) * found + 22).

(** One [snprintf(buf+strlen(buf), sizeof(buf), ...)] after the other. *)
Fixpoint append_all (size : nat) (texts : list (list Z)) (buf : list Z) : option (list Z) :=
  match texts with
  | [] => Some buf
  | t :: texts => buf ← snprintf buf (strlen buf) size t; append_all size texts buf
  end.

(** The buffer of [sentri_do_telemetry] when it is handed over. *)
Definition telemetry_buf (s : sentrifarm_state_t) (diag2 : bool) (stack : list Z)
    : option (list Z) :=
  let size := telemetry_size (thermals1_found s) in
  rs ← mapM (fun i => thermals1 s !! i) (seq 0 (Z.to_nat (thermals1_found s)));
  buf ← snprintf (resize size 0 stack) 0 size (telemetry_head s diag2);
  append_all size ((telemetry_thermal <$> rs) ++ [telemetry_tail s]) buf.

(** Running an operation of tcp_push.c, then the handlers it called. *)
Definition run_tcp {A} (m : ST tcp A) : ST world A :=
  fun w => '(a, t) ← m (w_tcp w);
    Some (a, World (w_cfg w) (w_st w) t (w_bus w) (w_search w) (sentri_state_timer w) (w_log w)).

(** The loop shared by the two handlers: the first message with this handle is
    marked as done. *)
Fixpoint mark_done (h : nat) (hs : list (option nat)) (ds : list bool) : list bool :=
  match hs, ds with
  | x :: hs, d :: ds => if bool_decide (x = Some h) then true :: ds else d :: mark_done h hs ds
  | _, _ => ds
  end.
Definition sentri_tcp_finish_handler (h : nat) : ST world () :=
  set_st (fun s => with_telemetry (telemetry_retried s) (telemetry_handle s)
    (mark_done h (telemetry_handle s) (telemetry_done s)) s).
Definition sentri_tcp_fault_handler (h : nat) (error : Z) : ST world () :=
  set_st (fun s => with_telemetry (telemetry_retried s) (telemetry_handle s)
    (mark_done h (telemetry_handle s) (telemetry_done s)) s).

Fixpoint call_handlers (es : list effect) : ST world () :=
  match es with
  | [] => mret ()
  | finish_fcn h :: es => sentri_tcp_finish_handler h;; call_handlers es
  | error_fcn h err :: es => sentri_tcp_fault_handler h err;; call_handlers es
  | _ :: es => call_handlers es
  end.

(** An SDK callback for a TCP connection, with the handlers it calls. *)
Definition tcp_callback (m : ST tcp ()) : ST world () :=
  w ← get;
  run_tcp m;;
  w' ← get;
  call_handlers (drop (length (effects (w_tcp w))) (effects (w_tcp w'))).

Definition sentri_do_telemetry (i : inputs) : ST world () :=
  set_st (with_telemetry 0 (replicate MAX_TELEMETRY None) (replicate MAX_TELEMETRY true));;
  w ← get;
  buf ← lift_opt (telemetry_buf (w_st w) (diag2 (w_cfg w)) (in_stack i));
  set_st (fun s => with_telemetry (telemetry_retried s) (telemetry_handle s)
    (<[0%nat := false]> (telemetry_done s)) s);;
  '(_, handle) ← run_tcp (execute_tcp_push_u (in_alloc i) (upstream_host (w_cfg w))
      (upstream_port (w_cfg w)) (Some (c_string buf)) true true);
  match handle with
  | Some h => set_st (fun s => with_telemetry (telemetry_retried s)
                (<[0%nat := Some h]> (telemetry_handle s)) (telemetry_done s) s)
  | None => mret ()
  end.

Definition sentri_check_telemetry (s : sentrifarm_state_t) : bool :=
  forallb (fun d => d) (telemetry_done s).

(** ** The wifi status *)
Definition sentri_check_wifi (i : inputs) : ST world () :=
  match in_status i with
  | STATION_CONNECT_FAIL =>
      set_st (with_error ERR_WIFI_CONNECT);; set_st (fun s => with_wifi false (wifi_retried s) s)
  | STATION_NO_AP_FOUND =>
      set_st (with_error ERR_WIFI_AP_NOT_FOUND);; set_st (fun s => with_wifi false (wifi_retried s) s)
  | STATION_GOT_IP => set_st (fun s => with_wifi false (wifi_retried s) s)
  | _ => mret ()
  end.

(** ** The state machine *)

(** The end of the handler: the next state is entered and the timer armed,
    unless the delay is zero; [next_delay*1000] is an [int]. *)
Definition enter (next : phase) (delay : Z) : ST world () :=
  set_st (with_state next);;
  set_timer None;;
  when (0 <? delay)
    (if delay * 1000 <? 2 ^ 31 then set_timer (Some (delay * 1000)) else undefined).

Definition handle_wifi_pending (i : inputs) : ST world () :=
  sentri_check_wifi i;;
  w ← get;
  let s := w_st w in
  if wifi_pending s then
    act (set_led true);; act (set_led false);;
    set_st (with_wifi (wifi_pending s) (wifi_retried s + 1));;
    if MAX_WIFIUP_RETRY_ATTEMPTS <? wifi_retried s
    then act console_unlock;; enter STATE_ERROR 0
    else enter STATE_WIFI_PENDING (wait_wifiup_s (w_cfg w))
  else if negb (Z.land (error_flags s) ERR_WIFI_AP_NOT_FOUND =? 0)
  then act console_unlock;; enter STATE_REBOOT_REQUIRED 30
  else enter STATE_TELEMETRY (wait_wifiup_s (w_cfg w)).

Definition handle_telemetry_pending : ST world () :=
  w ← get;
  let s := w_st w in
  if negb (sentri_check_telemetry s) then
    set_st (with_telemetry (telemetry_retried s + 1) (telemetry_handle s) (telemetry_done s));;
    if MAX_TELEMETRY_RETRY_ATTEMPTS <? telemetry_retried s
    then enter STATE_TELEMETRY_FAULT (wait_transmit_s (w_cfg w))
    else enter STATE_TELEMETRY_PENDING (wait_transmit_s (w_cfg w))
  else act wifi_station_disconnect;; enter STATE_DONE 3.

Definition sentri_state_handler (i : inputs) : ST world () :=
  w ← get;
  let cfg := w_cfg w in
  match state (w_st w) with
  | STATE_BOOT => enter STATE_SETTLE (wait_settle_s cfg)
  | STATE_SETTLE => act (set_led false);; enter STATE_SENSORS 1
  | STATE_SENSORS =>
      sentri_read_sensors i;;
      sentri_connect_wifi;;
      set_st (with_wifi true 0);;
      enter STATE_WIFI_PENDING (wait_wifiup_s cfg)
  | STATE_WIFI_PENDING => handle_wifi_pending i
  | STATE_TELEMETRY =>
      sentri_do_telemetry i;; enter STATE_TELEMETRY_PENDING (wait_transmit_s cfg)
  | STATE_TELEMETRY_PENDING => handle_telemetry_pending
  | STATE_TELEMETRY_FAULT => enter STATE_REBOOT_REQUIRED (wait_reboot_s cfg)
  | STATE_DONE =>
      set_timer None;;
      when (negb (diag2 cfg)) (act (system_deep_sleep (deepsleep_us cfg)))
  | STATE_REBOOT_REQUIRED =>
      when (negb (diag2 cfg)) (act system_restart);; enter STATE_ERROR 0
  | STATE_ERROR => mret ()
  end.

(** The timer expires: it is no longer armed while its callback runs. *)
Definition sentri_state_timer_cb (i : inputs) : ST world () :=
  set_timer None;; sentri_state_handler i.

(** ** Configuration from the environment

    [env] is the firmware's [env_get]. *)
Definition env_number (env : string -> option (list Z)) (key : string)
    (f : Z -> sentrifarm_cfg_t -> option sentrifarm_cfg_t) (c : sentrifarm_cfg_t)
    : option sentrifarm_cfg_t :=
  match env key with
  | None => Some c
  | Some s => v ← atoi s; if 0 <? v then f v c else Some c
  end.
Definition env_text (env : string -> option (list Z)) (key : string)
    (f : list Z -> sentrifarm_cfg_t -> sentrifarm_cfg_t) (c : sentrifarm_cfg_t)
    : sentrifarm_cfg_t :=
  match env key with
  | Some (x :: s) => f (x :: s) c
  | _ => c
  end.

Definition configure (env : string -> option (list Z)) (c : sentrifarm_cfg_t)
    : option sentrifarm_cfg_t :=
  c ← env_number env "sentri-settle-t" (fun v c => Some (Cfg v (wait_sensors_s c) (wait_wifiup_s c)
        (wait_transmit_s c) (wait_reboot_s c) (upstream_host c) (upstream_port c) (diag2 c)
        (deepsleep_us c) (ssid c) (password c))) c;
  c ← env_number env "sentri-sensors-t" (fun v c => Some (Cfg (wait_settle_s c) v (wait_wifiup_s c)
        (wait_transmit_s c) (wait_reboot_s c) (upstream_host c) (upstream_port c) (diag2 c)
        (deepsleep_us c) (ssid c) (password c))) c;
  c ← env_number env "sentri-wifiup-t" (fun v c => Some (Cfg (wait_settle_s c) (wait_sensors_s c) v
        (wait_transmit_s c) (wait_reboot_s c) (upstream_host c) (upstream_port c) (diag2 c)
        (deepsleep_us c) (ssid c) (password c))) c;
  c ← env_number env "sentri-sleep-t" (fun v c =>
        if v * 1000 * 1000 <? 2 ^ 31
        then Some (Cfg (wait_settle_s c) (wait_sensors_s c) (wait_wifiup_s c) (wait_transmit_s c)
               (wait_reboot_s c) (upstream_host c) (upstream_port c) (diag2 c)
               (v * 1000 * 1000) (ssid c) (password c))
        else None) c;
  c ← env_number env "sentri-upstream-port" (fun v c => Some (Cfg (wait_settle_s c) (wait_sensors_s c)
        (wait_wifiup_s c) (wait_transmit_s c) (wait_reboot_s c) (upstream_host c) v (diag2 c)
        (deepsleep_us c) (ssid c) (password c))) c;
  let c := env_text env "sentri-upstream-host" (fun s c => Cfg (wait_settle_s c) (wait_sensors_s c)
        (wait_wifiup_s c) (wait_transmit_s c) (wait_reboot_s c)
        (default (upstream_host c) (ipaddr_aton s)) (upstream_port c) (diag2 c)
        (deepsleep_us c) (ssid c) (password c)) c in
  let c := env_text env "sentri-ssid" (fun s c => Cfg (wait_settle_s c) (wait_sensors_s c)
        (wait_wifiup_s c) (wait_transmit_s c) (wait_reboot_s c) (upstream_host c) (upstream_port c)
        (diag2 c) (deepsleep_us c) s (password c)) c in
  Some (env_text env "sentri-password" (fun s c => Cfg (wait_settle_s c) (wait_sensors_s c)
        (wait_wifiup_s c) (wait_transmit_s c) (wait_reboot_s c) (upstream_host c) (upstream_port c)
        (diag2 c) (deepsleep_us c) (ssid c) s) c).

Definition with_host (h : Z) (c : sentrifarm_cfg_t) : sentrifarm_cfg_t :=
  Cfg (wait_settle_s c) (wait_sensors_s c) (wait_wifiup_s c) (wait_transmit_s c) (wait_reboot_s c)
    h (upstream_port c) (diag2 c) (deepsleep_us c) (ssid c) (password c).
Definition with_diag2 (d : bool) (c : sentrifarm_cfg_t) : sentrifarm_cfg_t :=
  Cfg (wait_settle_s c) (wait_sensors_s c) (wait_wifiup_s c) (wait_transmit_s c) (wait_reboot_s c)
    (upstream_host c) (upstream_port c) d (deepsleep_us c) (ssid c) (password c).
Definition set_cfg (c : sentrifarm_cfg_t) : ST world () :=
  modify (fun w => World c (w_st w) (w_tcp w) (w_bus w) (w_search w) (sentri_state_timer w) (w_log w)).

(** [sentrifarm_init]; [pin2] is the level read from GPIO 2. *)
Definition sentrifarm_init (env : string -> option (list Z)) (pin2 : bool) (i : inputs) : ST world () :=
  act (set_auto_connect false);;
  act set_opmode_station;;
  act wifi_station_disconnect;;
  act (deep_sleep_set_option 4);;
  w ← get;
  let c := with_host (default (upstream_host (w_cfg w)) (ipaddr_aton DEMO_IPADDRESS)) (w_cfg w) in
  set_st (fun s => St STATE_BOOT 0 0 (thermals1 s) (vdd s) (ticks s) false 0 0
                     (telemetry_handle s) (telemetry_done s));;
  c ← lift_opt (configure env c);
  set_cfg (with_diag2 (negb pin2) c);;
  act (set_led true);;
  sentri_state_handler i.
End Sensor.
Arguments world : clear implicits.
