(* ===== verification/GroundSensorFacts.v ===== *)
(** The ground sensor's state machine ends, what it does about the network, and
    its telemetry text. *)
From S2P Require Import Prelude OneWire OneWireFacts IpAddr IpAddrFacts TcpPush TcpPushFacts.
From S2P Require Import Format GroundSensor.

Ltac st_simpl :=
  unfold set_st, set_cfg, act, set_timer, get, modify, mret, ST_ret in *; simplify_eq.

(** * The state machine *)
Section Machine.
Context `{Ds : DS1820} {B : Type} `{Bus : OneWireBus B}.
Context (valid_pin : Z -> bool) (ds_setup : Z -> B -> B) (ds_fuel : nat).

(** Timer expiries left before the machine stops, at most. *)
Definition expiries_left (s : sentrifarm_state_t) : nat :=
  match state s with
  | STATE_BOOT => 52
  | STATE_SETTLE => 51
  | STATE_SENSORS => 50
  | STATE_WIFI_PENDING => 26 + Z.to_nat (23 - wifi_retried s)
  | STATE_TELEMETRY => 25
  | STATE_TELEMETRY_PENDING => 3 + Z.to_nat (21 - telemetry_retried s)
  | STATE_TELEMETRY_FAULT => 2
  | STATE_DONE | STATE_REBOOT_REQUIRED => 1
  | STATE_ERROR => 0
  end.

Lemma enter_inv p d (w w' : world B) :
  enter p d w = Some ((), w') ->
  w_st w' = with_state p (w_st w) /\ w_cfg w' = w_cfg w /\ w_log w' = w_log w /\
  w_tcp w' = w_tcp w /\
  sentri_state_timer w' = (if 0 <? d then Some (d * 1000) else None).
Proof.
  unfold enter. st_unfold. destruct (0 <? d); [|by intros [= <-]].
  destruct (d * 1000 <? 2 ^ 31); st_unfold; [|done]. by intros [= <-].
Qed.

Lemma run_tcp_inv {A} (m : ST tcp A) a (w w' : world B) :
  run_tcp m w = Some (a, w') ->
  exists t, m (w_tcp w) = Some (a, t) /\
    w' = World (w_cfg w) (w_st w) t (w_bus w) (w_search w) (sentri_state_timer w) (w_log w).
Proof.
  unfold run_tcp. destruct (m (w_tcp w)) as [[a' t]|]; [|done]. simpl. intros [= <- <-]. eauto.
Qed.

(** What the operations with a loop inside leave alone. *)
Lemma do_telemetry_inv i (w w' : world B) :
  sentri_do_telemetry i w = Some ((), w') ->
  telemetry_retried (w_st w') = 0 /\ w_cfg w' = w_cfg w /\ w_log w' = w_log w /\
  sentri_state_timer w' = sentri_state_timer w.
Proof.
  unfold sentri_do_telemetry. intros E. st_inv.
  match goal with H : run_tcp _ _ = Some _ |- _ => apply run_tcp_inv in H as (t & _ & ->) end.
  match goal with H : (let '(_, _) := ?x in _) _ = _ |- _ => destruct x as [r [h|]] end;
    unfold set_st, get, modify, lift_opt, mret, ST_ret in *; simplify_option_eq; done.
Qed.

Lemma read_sensors_inv i (w w' : world B) :
  sentri_read_sensors valid_pin ds_setup ds_fuel i w = Some ((), w') ->
  w_cfg w' = w_cfg w /\ w_log w' = w_log w /\ sentri_state_timer w' = sentri_state_timer w /\
  w_tcp w' = w_tcp w.
Proof.
  unfold sentri_read_sensors, sentri_read_thermal. intros E. st_inv.
  match goal with H : (let '(_, _) := ?x in _) _ = _ |- _ => destruct x as [[[ok rs] s] b] end.
  st_inv. unfold when in *.
  destruct ok; cbn [negb] in *; [destruct (_ =? 0); [|destruct (_ <? _)]|];
    unfold set_st, get, modify, lift_opt, mret, ST_ret in *; simplify_option_eq; done.
Qed.

Ltac measure :=
  unfold expiries_left;
  cbn [with_state with_wifi with_telemetry state wifi_retried telemetry_retried w_st] in *; lia.

(** One expiry of the timer, in a state that armed it. *)
Lemma wifi_pending_progress i (w w' : world B) :
  state (w_st w) = STATE_WIFI_PENDING -> handle_wifi_pending i w = Some ((), w') ->
  sentri_state_timer w' = None \/ (0 < expiries_left (w_st w') < expiries_left (w_st w))%nat.
Proof.
  intros Est E. unfold expiries_left at 3. rewrite Est. unfold handle_wifi_pending in E.
  apply ST_bind_Some in E as ([] & w1 & Hc & E).
  assert (wifi_retried (w_st w1) = wifi_retried (w_st w)) as Hr.
  { unfold sentri_check_wifi in Hc. destruct (in_status i); st_inv; st_simpl; done. }
  apply ST_bind_Some in E as (? & ? & Hg & E). injection Hg as <- <-.
  destruct (wifi_pending (w_st w1)).
  - st_inv. destruct (MAX_WIFIUP_RETRY_ATTEMPTS <? _) eqn:Ht; st_inv; apply enter_inv in E.
    + left. apply E.
    + right. destruct E as (-> & _). st_simpl.
      unfold MAX_WIFIUP_RETRY_ATTEMPTS in Ht. rewrite Hr in *. measure.
  - right. destruct (negb _); st_inv; apply enter_inv in E as (-> & _); st_simpl; measure.
Qed.

Lemma telemetry_pending_progress (w w' : world B) :
  state (w_st w) = STATE_TELEMETRY_PENDING -> handle_telemetry_pending w = Some ((), w') ->
  (0 < expiries_left (w_st w') < expiries_left (w_st w))%nat.
Proof.
  intros Est E. unfold expiries_left at 3. rewrite Est. unfold handle_telemetry_pending in E.
  st_inv. st_simpl. destruct (negb _).
  - st_inv. destruct (MAX_TELEMETRY_RETRY_ATTEMPTS <? _) eqn:Ht; apply enter_inv in E as (-> & _).
    + measure.
    + st_simpl. unfold MAX_TELEMETRY_RETRY_ATTEMPTS in Ht. measure.
  - st_inv. apply enter_inv in E as (-> & _). measure.
Qed.

Lemma expiry_progress i (w w' : world B) :
  sentri_state_timer_cb valid_pin ds_setup ds_fuel i w = Some ((), w') ->
  sentri_state_timer w' = None \/ (0 < expiries_left (w_st w') < expiries_left (w_st w))%nat.
Proof.
  unfold sentri_state_timer_cb, sentri_state_handler. intros E.
  apply ST_bind_Some in E as ([] & w1 & Ht & E). apply ST_bind_Some in E as (? & ? & Hg & E).
  st_simpl. cbn [w_st w_cfg] in E.
  destruct (state (w_st w)) eqn:Est.
  4: by apply wifi_pending_progress in E.
  5: right; by apply telemetry_pending_progress in E.
  all: unfold expiries_left at 3; rewrite Est.
  - apply enter_inv in E as (-> & _). right. measure.
  - st_inv. apply enter_inv in E as (-> & _). right. measure.
  - st_inv. apply enter_inv in E as (-> & _). right. st_simpl. measure.
  - st_inv. apply enter_inv in E as (-> & _). right.
    match goal with H : sentri_do_telemetry _ _ = Some (?u, _) |- _ =>
      destruct u; apply do_telemetry_inv in H as (Hr & _) end. measure.
  - apply enter_inv in E as (-> & _). right. measure.
  - left. st_inv. unfold when in *. destruct (negb _); st_simpl; done.
  - left. st_inv. apply enter_inv in E as (_ & _ & _ & _ & ->). done.
  - left. st_simpl. done.
Qed.

Lemma call_handlers_inv es : forall (w w' : world B),
  call_handlers es w = Some ((), w') ->
  expiries_left (w_st w') = expiries_left (w_st w) /\
  sentri_state_timer w' = sentri_state_timer w /\ w_cfg w' = w_cfg w /\ w_log w' = w_log w.
Proof.
  induction es as [|e es IH]; intros w w' E; simpl in E; [st_simpl; done|].
  destruct e; try (by apply IH); st_inv;
    apply IH in E as (-> & -> & -> & ->);
    unfold sentri_tcp_finish_handler, sentri_tcp_fault_handler in *; st_simpl; done.
Qed.

Lemma tcp_callback_inv m (w w' : world B) :
  tcp_callback m w = Some ((), w') ->
  expiries_left (w_st w') = expiries_left (w_st w) /\
  sentri_state_timer w' = sentri_state_timer w /\ w_cfg w' = w_cfg w /\ w_log w' = w_log w.
Proof.
  unfold tcp_callback. intros E. st_inv.
  match goal with H : run_tcp _ _ = Some _ |- _ => apply run_tcp_inv in H as (t & _ & ->) end.
  st_simpl. apply call_handlers_inv in E as (-> & -> & -> & ->). done.
Qed.

(** ** Runs: what happens to a booted sensor *)
Inductive stimulus := Expires (i : inputs) | Tcp_event (h : nat) (e : event).

(** The stimuli handled in order; an expiry happens only while the timer is
    armed. *)
Fixpoint run (l : list stimulus) : ST (world B) () :=
  match l with
  | [] => mret ()
  | Expires i :: l =>
      w ← get;
      match sentri_state_timer w with
      | Some _ => sentri_state_timer_cb valid_pin ds_setup ds_fuel i;; run l
      | None => undefined
      end
  | Tcp_event h e :: l => tcp_callback (deliver h e);; run l
  end.

Fixpoint expiries (l : list stimulus) : nat :=
  match l with
  | [] => 0
  | Expires _ :: l => S (expiries l)
  | Tcp_event _ _ :: l => expiries l
  end.

Lemma run_expiries l : forall (w w' : world B),
  run l w = Some ((), w') ->
  (expiries l <= if sentri_state_timer w is Some _ then Nat.max 1 (expiries_left (w_st w)) else 0)%nat.
Proof.
  induction l as [|[i|h e] l IH]; intros w w' E; cbn [run] in E; simpl; [lia|..].
  - apply ST_bind_Some in E as (? & ? & Hg & E). injection Hg as <- <-.
    destruct (sentri_state_timer w) as [t|]; [|done].
    apply ST_bind_Some in E as ([] & w1 & Hcb & E). apply IH in E.
    apply expiry_progress in Hcb as [Ht|Hlt]; [rewrite Ht in E; lia|].
    destruct (sentri_state_timer w1); lia.
  - apply ST_bind_Some in E as ([] & w1 & Hcb & E). apply IH in E.
    apply tcp_callback_inv in Hcb as (H1 & H2 & _). by rewrite H1, H2 in E.
Qed.

(** ** Why it stopped *)
Definition stops (a : action) : bool :=
  match a with system_deep_sleep _ | system_restart | console_unlock => true | _ => false end.
Definition cfg_ok (c : sentrifarm_cfg_t) : Prop :=
  0 < wait_settle_s c /\ 0 < wait_wifiup_s c /\ 0 < wait_transmit_s c /\ 0 < wait_reboot_s c.

(** Either the timer is armed or the sensor has stopped, by itself or for the
    operator holding the diagnostic button. *)
Definition alive (w : world B) : Prop :=
  cfg_ok (w_cfg w) /\
  (sentri_state_timer w = None -> diag2 (w_cfg w) = true \/ existsb stops (w_log w) = true) /\
  (sentri_state_timer w <> None -> state (w_st w) <> STATE_ERROR).

Lemma existsb_stop l a : stops a = true -> existsb stops (l ++ [a]) = true.
Proof. intros H. rewrite existsb_app. simpl. rewrite H. apply orb_true_r. Qed.

Lemma enter_alive p d (w w' : world B) :
  enter p d w = Some ((), w') -> cfg_ok (w_cfg w) ->
  0 < d /\ p <> STATE_ERROR \/
  d = 0 /\ (diag2 (w_cfg w) = true \/ existsb stops (w_log w) = true) -> alive w'.
Proof.
  intros (Hs & Hc & Hl & _ & Ht)%enter_inv Hok Hd. unfold alive. rewrite Hs, Hc, Hl, Ht.
  split; [done|]. destruct (Z.ltb_spec 0 d), Hd as [[? ?]|[? ?]]; try lia; done.
Qed.

Lemma handler_alive i (w w' : world B) :
  sentri_state_handler valid_pin ds_setup ds_fuel i w = Some ((), w') ->
  cfg_ok (w_cfg w) -> state (w_st w) <> STATE_ERROR -> alive w'.
Proof.
  unfold sentri_state_handler. intros E Hok Hs. pose proof Hok as (H1 & H2 & H3 & H4).
  apply ST_bind_Some in E as (? & ? & Hg & E). injection Hg as <- <-.
  destruct (state (w_st w)); [..|done].
  - eapply enter_alive; eauto.
  - st_inv. eapply enter_alive; [exact E|st_simpl; done|left; split; [lia|done]].
  - apply ST_bind_Some in E as ([] & w1 & (Hc & Hl & _)%read_sensors_inv & E). st_inv. unfold sentri_connect_wifi in *.
    st_inv. st_simpl. eapply enter_alive; [exact E| |auto]. simpl. by rewrite Hc.
  - unfold handle_wifi_pending in E.
    apply ST_bind_Some in E as ([] & w1 & Hc & E).
    assert (w_cfg w1 = w_cfg w) as Hcfg.
    { unfold sentri_check_wifi in Hc. destruct (in_status i); st_inv; st_simpl; done. }
    apply ST_bind_Some in E as (? & ? & Hg & E). injection Hg as <- <-.
    destruct (wifi_pending (w_st w1)); [|destruct (negb _)]; st_inv.
    + destruct (_ <? _); st_inv; st_simpl; (eapply enter_alive; [exact E|simpl; by rewrite Hcfg|]);
        [right; split; [done|right; by apply existsb_stop]|left; split; [by rewrite Hcfg|done]].
    + st_simpl; (eapply enter_alive; [exact E|simpl; by rewrite Hcfg|left; split; [lia|done]]).
    + eapply enter_alive; [exact E|by rewrite Hcfg|left; split; [by rewrite Hcfg|done]].
  - apply ST_bind_Some in E as ([] & w1 & (_ & Hc & _)%do_telemetry_inv & E).
    eapply enter_alive; [exact E|by rewrite Hc|auto].
  - unfold handle_telemetry_pending in E.
    apply ST_bind_Some in E as (? & ? & Hg & E). injection Hg as <- <-.
    destruct (negb _); st_inv; [destruct (_ <? _)|]; st_simpl;
      (eapply enter_alive; [exact E|done|left; split; [done || lia|done]]).
  - eapply enter_alive; eauto.
  - st_inv. unfold when in E. unfold alive.
    destruct (diag2 (w_cfg w)) eqn:Hd; cbn [negb] in E; st_simpl; (split; [done|]); (split; [intros _|by intros []]); [by left|].
    right. simpl. by apply existsb_stop.
  - apply ST_bind_Some in E as ([] & w1 & Hc & E). unfold when in Hc.
    destruct (diag2 (w_cfg w)) eqn:Hd; cbn [negb] in Hc; st_simpl;
      (eapply enter_alive; [exact E|done|right; split; [done|]]); [by left|right; by apply existsb_stop].
Qed.

Lemma call_handlers_state es : forall (w w' : world B),
  call_handlers es w = Some ((), w') -> state (w_st w') = state (w_st w).
Proof.
  induction es as [|e es IH]; intros w w' E; simpl in E; [st_simpl; done|].
  destruct e; try (by apply IH); st_inv; apply IH in E as ->;
    unfold sentri_tcp_finish_handler, sentri_tcp_fault_handler in *; st_simpl; done.
Qed.

Lemma tcp_callback_alive m (w w' : world B) :
  tcp_callback m w = Some ((), w') -> alive w -> alive w'.
Proof.
  intros E (H1 & H2 & H3). pose proof (tcp_callback_inv _ _ _ E) as (_ & Ht & Hc & Hl).
  unfold alive. rewrite Ht, Hc, Hl. split_and!; [done|done|]. intros Hn.
  unfold tcp_callback in E. st_inv.
  match goal with H : run_tcp _ _ = Some _ |- _ => apply run_tcp_inv in H as (t & _ & ->) end.
  st_simpl. apply call_handlers_state in E as ->. auto.
Qed.

Lemma run_alive l : forall (w w' : world B), run l w = Some ((), w') -> alive w -> alive w'.
Proof.
  induction l as [|[i|h e] l IH]; intros w w' E Hw; cbn [run] in E; [st_simpl; done|..].
  - apply ST_bind_Some in E as (? & ? & Hg & E). injection Hg as <- <-.
    destruct (sentri_state_timer w) as [t|] eqn:Et; [|done].
    apply ST_bind_Some in E as ([] & w1 & Hcb & E). apply (IH _ _ E).
    destruct Hw as (H1 & _ & H3). unfold sentri_state_timer_cb in Hcb.
    apply ST_bind_Some in Hcb as ([] & ? & Hs & Hcb). injection Hs as <-.
    eapply handler_alive; [exact Hcb|done|]. simpl. apply H3. congruence.
  - apply ST_bind_Some in E as ([] & w1 & Hcb & E). eauto using tcp_callback_alive.
Qed.

End Machine.

(** ** Booting *)
Lemma env_number_keeps (P : sentrifarm_cfg_t -> Prop) env key f c c' :
  env_number env key f c = Some c' -> P c ->
  (forall v c c', 0 < v -> P c -> f v c = Some c' -> P c') -> P c'.
Proof.
  unfold env_number. intros E Hc Hf. destruct (env key); [|by simplify_eq].
  apply bind_Some in E as (v & _ & E).
  destruct (Z.ltb_spec 0 v); [by eapply Hf|by simplify_eq].
Qed.
Lemma env_text_keeps (P : sentrifarm_cfg_t -> Prop) env key f c :
  P c -> (forall s c, P c -> P (f s c)) -> P (env_text env key f c).
Proof. intros Hc Hf. unfold env_text. destruct (env key) as [[|]|]; auto. Qed.

Lemma configure_ok env c c' : configure env c = Some c' -> cfg_ok c -> cfg_ok c'.
Proof.
  unfold configure. intros E Hc.
  repeat match goal with
  | H : (env_number _ _ _ _ ≫= _) = Some _ |- _ =>
      apply bind_Some in H; destruct H as (? & ? & H)
  end.
  injection E as <-.
  repeat (apply (env_text_keeps cfg_ok); [|intros ? ? Hk; exact Hk]).
  repeat match goal with
  | H : env_number _ _ _ _ = Some ?c |- cfg_ok ?c =>
      apply (env_number_keeps cfg_ok _ _ _ _ _ H); clear H;
        [|intros ? ? ? ? ? Hf; try (destruct (_ <? _) in Hf; [|done]); injection Hf as <-;
         unfold cfg_ok in *; simpl in *; tauto]
  end. exact Hc.
Qed.
(** What the initialisation leaves to the first run of the handler. *)
Lemma init_inv `{DS1820} {B} `{OneWireBus B} valid_pin ds_setup ds_fuel env pin2 i (w0 w1 : world B) :
  sentrifarm_init valid_pin ds_setup ds_fuel env pin2 i w0 = Some ((), w1) ->
  exists h c w, configure env (with_host h (w_cfg w0)) = Some c /\
    w_cfg w = with_diag2 (negb pin2) c /\ state (w_st w) = STATE_BOOT /\
    enter STATE_SETTLE (wait_settle_s c) w = Some ((), w1).
Proof.
  intros Hi. unfold sentrifarm_init in Hi. st_inv.
  match goal with H : lift_opt _ _ = Some _ |- _ => rename H into Hcf end.
  unfold lift_opt in Hcf. destruct (configure _ _) as [c|] eqn:Hc in Hcf; [|done].
  st_simpl. cbn in Hcf. injection Hcf as <- <-.
  unfold sentri_state_handler in Hi. st_inv.
  match goal with H : get _ = Some _ |- _ => injection H as <- <- end.
  cbn [w_st w_cfg state wait_settle_s with_diag2] in Hi. cbn [w_cfg] in Hc.
  match type of Hi with enter _ _ ?w = _ => exists (default (upstream_host (w_cfg w0)) (ipaddr_aton DEMO_IPADDRESS)), c, w end.
  split; [exact Hc|]. split; [reflexivity|]. split; [reflexivity|exact Hi].
Qed.

Lemma init_terminates `{DS1820} {B} `{OneWireBus B} valid_pin ds_setup ds_fuel env pin2 i l
    (w0 w1 w2 : world B) :
  w_cfg w0 = my_config0 ->
  sentrifarm_init valid_pin ds_setup ds_fuel env pin2 i w0 = Some ((), w1) ->
  run valid_pin ds_setup ds_fuel l w1 = Some ((), w2) ->
  (expiries l <= 51)%nat /\
  (sentri_state_timer w2 = None -> diag2 (w_cfg w2) = true \/ existsb stops (w_log w2) = true).
Proof.
  intros Hcfg Hi Hr. destruct (init_inv _ _ _ _ _ _ _ _ Hi) as (h & c & w & Hc & Hwc & Hs & He).
  apply configure_ok in Hc; [|rewrite Hcfg; repeat split; reflexivity].
  assert (Ha : alive w1).
  { eapply enter_alive; [exact He|by rewrite Hwc|left; split; [apply Hc|done]]. }
  split; [|apply (run_alive _ _ _ _ _ _ Hr Ha)].
  pose proof (run_expiries _ _ _ _ _ _ Hr) as Hx.
  apply enter_inv in He as (Es & _). rewrite Es in Hx.
  destruct (sentri_state_timer w1); [exact Hx|lia].
Qed.

(** Also: From boot on, whatever the environment, the network and the sensors answer
    and whatever TCP callbacks arrive in between, the state machine handles at
    most 51 timer expiries; and it never stalls: as long as it has not asked for
    deep sleep, a restart or the console, and the operator does not hold the
    diagnostic button, its timer is armed. *)
Theorem sensor_terminates `{DS1820} {B} `{OneWireBus B} valid_pin ds_setup ds_fuel env pin2 i l
    (w0 w1 w2 : world B) :
  w_cfg w0 = my_config0 ->
  sentrifarm_init valid_pin ds_setup ds_fuel env pin2 i w0 = Some ((), w1) ->
  run valid_pin ds_setup ds_fuel l w1 = Some ((), w2) ->
  (expiries l <= 51)%nat /\
  (sentri_state_timer w2 = None -> diag2 (w_cfg w2) = true \/ existsb stops (w_log w2) = true).
Proof. apply init_terminates. Qed.

(** A sensor with one DS18B20 on its string, and an uneventful day. *)
#[local] Existing Instance datasheet.
Definition one_device : list (list Z) := [[0x28; 1; 2; 3; 4; 5; 6; 7]].
#[local] Instance demo_bus : OneWireBus sim_mode := sim_bus one_device.
Definition demo_world : world sim_mode :=
  World my_config0 my_state0 (Tcp ∅ false []) (Receiving []) (Search [] 0 0 false) None [].
Definition demo_inputs (st : station_status) : inputs := Inputs 3300 123456 st (Some 5%nat) [].
Definition demo_day : list stimulus :=
  [Expires (demo_inputs STATION_IDLE); Expires (demo_inputs STATION_IDLE);
   Expires (demo_inputs STATION_CONNECTING); Expires (demo_inputs STATION_GOT_IP);
   Expires (demo_inputs STATION_GOT_IP); Tcp_event 5 EConnected; Tcp_event 5 ESent;
   Tcp_event 5 EDisconnected; Expires (demo_inputs STATION_GOT_IP);
   Expires (demo_inputs STATION_GOT_IP)].

Lemma sensor_terminates_witness :
  exists w1 w2,
    sentrifarm_init (fun _ => true) (fun _ b => b) 5 (fun _ => None) true (demo_inputs STATION_IDLE)
      demo_world = Some ((), w1) /\
    run (fun _ => true) (fun _ b => b) 5 demo_day w1 = Some ((), w2) /\
    sentri_state_timer w2 = None /\
    (expiries demo_day <= 51)%nat /\
    (sentri_state_timer w2 = None -> diag2 (w_cfg w2) = true \/ existsb stops (w_log w2) = true).
Proof.
  destruct (sentrifarm_init (fun _ => true) (fun _ b => b) 5 (fun _ => None) true
    (demo_inputs STATION_IDLE) demo_world) as [[[] w1]|] eqn:E1; [|vm_compute in E1; discriminate].
  destruct (run (fun _ => true) (fun _ b => b) 5 demo_day w1) as [[[] w2]|] eqn:E2;
    [|vm_compute in E1; injection E1 as <-; vm_compute in E2; discriminate].
  exists w1, w2. split; [reflexivity|]. split; [exact E2|]. split.
  { vm_compute in E1. injection E1 as <-. vm_compute in E2. injection E2 as <-. reflexivity. }
  exact (sensor_terminates _ _ _ _ _ _ _ demo_world _ _ eq_refl E1 E2).
Defined.

(** * The telemetry text *)

Lemma json_length key v : length (json key v) = (length (str key) + length v + 5)%nat.
Proof. unfold json. rewrite !length_app. simpl. lia. Qed.
Lemma json_ok key v : text_ok (str key) -> text_ok v -> text_ok (json key v).
Proof.
  intros. unfold json. repeat apply text_app; auto with texts; apply text_literal; reflexivity.
Qed.
#[local] Hint Resolve json_ok : texts.
#[local] Hint Extern 3 (0 <= _) => lia : texts.

(** ** Appending with snprintf *)
Lemma append_all_text texts : forall t rest size,
  length (t ++ 0 :: rest) = size -> text_ok t -> Forall text_ok texts ->
  (length t + length (concat texts) < size)%nat ->
  exists rest', append_all size texts (t ++ 0 :: rest) = Some ((t ++ concat texts) ++ 0 :: rest').
Proof.
  induction texts as [|u texts IH]; intros t rest size Hs Ht Hts Hl; simpl in *.
  { exists rest. by rewrite app_nil_r. }
  apply Forall_cons in Hts as [Hu Hts]. rewrite length_app in Hl.
  unfold strlen. rewrite c_string_text, snprintf_append by (done || lia). simpl.
  destruct (IH (t ++ u) (drop (length u) rest) size) as (rest' & E).
  - rewrite !length_app in *. simpl in *. rewrite length_drop. lia.
  - by apply Forall_app_2.
  - done.
  - rewrite length_app. lia.
  - exists rest'. rewrite E. by rewrite app_assoc.
Qed.

(** ** The buffer *)
Definition readings_ok (s : sentrifarm_state_t) : Prop :=
  thermals1_found s = Z.of_nat (length (thermals1 s)) /\
  (Forall reading_ok (thermals1 s) /\ thermals1_found s <= TRAIT_EXPECTED_THERMALS1) /\
  0 <= vdd s < 10 ^ 6 /\ fits 32 (ticks s).

Lemma head_text s d :
  readings_ok s -> text_ok (telemetry_head s d) /\ (length (telemetry_head s d) <= 48)%nat.
Proof.
  intros (_ & _ & Hv & Ht). unfold telemetry_head.
  assert (Hd : 0 <= b2z d < 10 ^ Z.of_nat 1) by (destruct d; simpl; lia).
  assert (Ht' : 0 <= ticks s < 10 ^ Z.of_nat 10) by word_lia.
  pose proof (dec_length 6 (vdd s) Hv ltac:(lia)) as L1.
  pose proof (dec_length 10 (ticks s) Ht' ltac:(lia)) as L2.
  pose proof (dec_length 1 (b2z d) Hd ltac:(lia)) as L3.
  split.
  - auto 20 with texts.
  - rewrite !length_app, !json_length. simpl. lia.
Qed.

Lemma thermal_text r :
  reading_ok r -> text_ok (telemetry_thermal r) /\ (length (telemetry_thermal r) <= 41)%nat.
Proof.
  intros (Ha & Hv & Hf & Hs). unfold telemetry_thermal.
  pose proof (dec_length 5 (tVal r) ltac:(lia) ltac:(lia)) as L1.
  pose proof (dec02_length (tFract r) Hf) as L2. split.
  - assert (text_ok [tSign r]) by (apply Forall_singleton; destruct Hs as [-> | ->]; done).
    auto 20 with texts.
  - rewrite !length_app, !json_length, bind_hex_length, Ha, !length_app. simpl. lia.
Qed.

Lemma tail_text s : text_ok (telemetry_tail s) /\ length (telemetry_tail s) = 21%nat.
Proof.
  unfold telemetry_tail. split.
  - auto 20 with texts.
  - rewrite !length_app, json_length, hex_length. done.
Qed.

Lemma mapM_seq {A} (l : list A) : mapM (fun i => l !! i) (seq 0 (length l)) = Some l.
Proof.
  apply mapM_Some. apply Forall2_same_length_lookup. rewrite length_seq. split; [done|].
  intros i x y Hx Hy. apply lookup_seq in Hx as [-> _]. done.
Qed.

(** The text for a state: what the three groups of snprintf calls print. *)
Definition telemetry_text (s : sentrifarm_state_t) (d : bool) : list Z :=
  telemetry_head s d ++ concat (telemetry_thermal <$> thermals1 s) ++ telemetry_tail s.

Lemma concat_texts_length l :
  Forall reading_ok l ->
  Forall text_ok (telemetry_thermal <$> l) /\
  (length (concat (telemetry_thermal <$> l)) <= 41 * length l)%nat.
Proof.
  induction 1 as [|r l Hr Hl [IH1 IH2]]; [split; [constructor|simpl; lia]|].
  destruct (thermal_text r Hr) as [H1 H2]. split; [by constructor|].
  rewrite fmap_cons. cbn [concat length]. rewrite length_app. lia.
Qed.

Lemma concat_snoc {A} (l : list (list A)) x : concat (l ++ [x]) = concat l ++ x.
Proof. rewrite concat_app. simpl. by rewrite app_nil_r. Qed.

Lemma telemetry_buf_text s d stack :
  readings_ok s ->
  exists buf, telemetry_buf s d stack = Some buf /\ c_string buf = telemetry_text s d /\
    (length (telemetry_text s d) < telemetry_size (thermals1_found s))%nat.
Proof.
  intros Hok. pose proof Hok as (Hf & [Hr _] & _). destruct (head_text s d Hok) as [H1 L1].
  destruct (tail_text s) as [H3 L3]. destruct (concat_texts_length _ Hr) as [H2 L2].
  unfold telemetry_buf. set (size := telemetry_size (thermals1_found s)).
  assert (Hsz : size = (70 + 41 * length (thermals1 s))%nat)
    by (unfold size, telemetry_size; rewrite Hf; lia).
  rewrite Hf, Nat2Z.id, mapM_seq. cbn [mbind option_bind].
  assert (E : snprintf (resize size 0 stack) 0 size (telemetry_head s d) =
    Some (telemetry_head s d ++ 0 :: drop (length (telemetry_head s d) + 1) (resize size 0 stack))).
  { unfold snprintf, store. rewrite take_ge by lia. rewrite length_app.
    rewrite decide_True by (rewrite length_resize; cbn [length]; lia).
    cbn [take app length Nat.add]. by rewrite <- app_assoc. }
  rewrite E. cbn [mbind option_bind].
  set (rest := drop _ _).
  assert (Lr : length (telemetry_head s d ++ 0 :: rest) = size).
  { unfold rest. rewrite length_app. cbn [length]. rewrite length_drop, length_resize. lia. }
  edestruct (append_all_text ((telemetry_thermal <$> thermals1 s) ++ [telemetry_tail s]) _ rest size Lr H1)
    as (rest' & E2).
  - apply Forall_app_2; [done|by apply Forall_singleton].
  - rewrite concat_snoc, length_app, L3. lia.
  - eexists. split; [exact E2|]. unfold telemetry_text.
    rewrite concat_snoc. split.
    + apply c_string_text. apply Forall_app_2; [done|]. apply Forall_app_2; [|done].
      by apply Forall_concat.
    + rewrite !length_app. lia.
Qed.

(** ** From the sensors to the network *)
Section Telemetry.
Context `{Ds : DS1820} {B : Type} `{Bus : OneWireBus B}.
Context (valid_pin : Z -> bool) (ds_setup : Z -> B -> B) (ds_fuel : nat).

Definition inputs_ok (s : stimulus) : Prop :=
  match s with Expires i => 0 <= in_vdd i < 10 ^ 6 /\ fits 32 (in_rtc i) | _ => True end.

Definition measured (w : world B) : Prop :=
  state (w_st w) = STATE_WIFI_PENDING \/ state (w_st w) = STATE_TELEMETRY -> readings_ok (w_st w).

Lemma read_sensors_ok i (w w' : world B) :
  inputs_ok (Expires i) ->
  sentri_read_sensors valid_pin ds_setup ds_fuel i w = Some ((), w') -> readings_ok (w_st w').
Proof.
  intros [Hv Ht]. unfold sentri_read_sensors, sentri_read_thermal. intros E. st_inv.
  match goal with H : lift_opt _ _ = Some _ |- _ => rename H into He end.
  unfold lift_opt in He. destruct (exec_ds18b20 _ _ _ _ _ _ _ _) as [[[[ok rs] s] b]|] eqn:Ex in He; [|done].
  simpl in He. injection He as <- <-. apply exec_ok in Ex as [Hr Hl]; [|done].
  st_inv. unfold when in *.
  assert (Hok : forall v t s, 0 <= v < 10 ^ 6 -> fits 32 t -> vdd s = v -> ticks s = t ->
    readings_ok (with_thermals (Z.of_nat (length rs)) rs s))
    by (intros v t s' ? ? <- <-; unfold readings_ok; simpl; tauto).
  destruct ok; cbn [negb] in E; [destruct (_ =? 0); [|destruct (_ <? _)]|];
    st_simpl; simpl; by eapply Hok.
Qed.

Lemma measured_step i (w w' : world B) :
  inputs_ok (Expires i) ->
  sentri_state_handler valid_pin ds_setup ds_fuel i w = Some ((), w') -> measured w -> measured w'.
Proof.
  intros Hi E Hw. unfold sentri_state_handler in E.
  apply ST_bind_Some in E as (? & ? & Hg & E). injection Hg as <- <-. unfold measured in *.
  destruct (state (w_st w)) eqn:Es.
  - apply enter_inv in E as (-> & _). simpl. by intros [].
  - st_inv. apply enter_inv in E as (-> & _). simpl. by intros [].
  - apply ST_bind_Some in E as ([] & w1 & Hr%read_sensors_ok & E); [|done].
    unfold sentri_connect_wifi in E. st_inv. apply enter_inv in E as (-> & _). st_simpl. done.
  - specialize (Hw (or_introl eq_refl)). unfold handle_wifi_pending in E.
    apply ST_bind_Some in E as ([] & w1 & Hc & E).
    assert (Hr : readings_ok (w_st w1)).
    { unfold sentri_check_wifi in Hc. destruct (in_status i); st_inv; st_simpl; done. }
    apply ST_bind_Some in E as (? & ? & Hg & E). injection Hg as <- <-.
    destruct (wifi_pending (w_st w1)); [|destruct (negb _)]; st_inv;
      [destruct (_ <? _); st_inv|..]; apply enter_inv in E as (-> & _); st_simpl; done.
  - st_inv. apply enter_inv in E as (-> & _). simpl. by intros [].
  - unfold handle_telemetry_pending in E. st_inv. destruct (negb _); st_inv; [destruct (_ <? _)|];
      apply enter_inv in E as (-> & _); simpl; by intros [].
  - apply enter_inv in E as (-> & _). simpl. by intros [].
  - st_inv. unfold when in E. destruct (negb _); st_simpl; simpl; rewrite Es; by intros [].
  - st_inv. apply enter_inv in E as (-> & _). simpl. by intros [].
  - st_simpl. rewrite Es. by intros [].
Qed.

Lemma call_handlers_readings es : forall (w w' : world B),
  call_handlers es w = Some ((), w') -> readings_ok (w_st w) -> readings_ok (w_st w').
Proof.
  induction es as [|e es IH]; intros w w' E Hw; simpl in E; [st_simpl; done|].
  destruct e; try (by eapply IH); st_inv; (eapply IH; [exact E|]);
    unfold sentri_tcp_finish_handler, sentri_tcp_fault_handler in *; st_simpl; done.
Qed.

Lemma measured_tcp m (w w' : world B) :
  tcp_callback m w = Some ((), w') -> measured w -> measured w'.
Proof.
  unfold tcp_callback. intros E Hw. st_inv.
  match goal with H : run_tcp _ _ = Some _ |- _ => apply run_tcp_inv in H as (t & _ & ->) end.
  st_simpl. unfold measured. rewrite (call_handlers_state _ _ _ E). intros Hs.
  eapply call_handlers_readings; [exact E|]. by apply Hw.
Qed.

Lemma measured_run l : forall (w w' : world B),
  Forall inputs_ok l -> run valid_pin ds_setup ds_fuel l w = Some ((), w') -> measured w -> measured w'.
Proof.
  induction l as [|[i|h e] l IH]; intros w w' Hl E Hw; cbn [run] in E; [st_simpl; done|..];
    apply Forall_cons in Hl as [Hi Hl].
  - apply ST_bind_Some in E as (? & ? & Hg & E). injection Hg as <- <-.
    destruct (sentri_state_timer w) as [t|] eqn:Et; [|done].
    apply ST_bind_Some in E as ([] & w1 & Hcb & E). apply (IH _ _ Hl E).
    unfold sentri_state_timer_cb in Hcb.
    apply ST_bind_Some in Hcb as ([] & ? & Hs & Hcb). injection Hs as <-.
    eapply measured_step; [exact Hi|exact Hcb|exact Hw].
  - apply ST_bind_Some in E as ([] & w1 & Hcb & E). eauto using measured_tcp.
Qed.
End Telemetry.

(** C15: In every run from boot on in which the supply voltage reads below 10^6,
    whenever the telemetry is due, the JSON text is built without leaving its
    buffer and without truncation: one object with the supply voltage, the
    clock and the diagnostic switch, one per temperature reading, one with the
    error flags; and it fits the TCP message, so that it is handed to the
    network as it is and its handle is remembered. *)
Theorem telemetry_sent `{DS1820} {B} `{OneWireBus B} valid_pin ds_setup ds_fuel env pin2 i0 l i h
    (w0 w1 w2 : world B) :
  sentrifarm_init valid_pin ds_setup ds_fuel env pin2 i0 w0 = Some ((), w1) ->
  run valid_pin ds_setup ds_fuel l w1 = Some ((), w2) -> Forall inputs_ok l ->
  state (w_st w2) = STATE_TELEMETRY -> in_alloc i = Some h -> blocks (w_tcp w2) !! h = None ->
  upstream_host (w_cfg w2) <> 0 -> 0 <= upstream_port (w_cfg w2) <= 65535 ->
  let text := telemetry_text (w_st w2) (diag2 (w_cfg w2)) in
  exists w3, sentri_do_telemetry i w2 = Some ((), w3) /\
    in_progress h text (upstream_host (w_cfg w2)) (upstream_port (w_cfg w2))
      (blocks (w_tcp w2)) Connecting (w_tcp w3) /\
    telemetry_handle (w_st w3) = [Some h; None; None] /\
    telemetry_done (w_st w3) = [false; true; true].
Proof.
  intros Hi Hr Hin Hs Ha Hh Hhost Hport. cbv zeta.
  assert (Hm : measured w2).
  { eapply measured_run; [exact Hin|exact Hr|].
    destruct (init_inv _ _ _ _ _ _ _ _ Hi) as (? & ? & ? & _ & _ & _ & (Es & _)%enter_inv).
    unfold measured. rewrite Es. simpl. by intros []. }
  specialize (Hm (or_intror Hs)).
  destruct (telemetry_buf_text (w_st w2) (diag2 (w_cfg w2)) (in_stack i) Hm) as (buf & Eb & Ec & Hl).
  assert (length (telemetry_text (w_st w2) (diag2 (w_cfg w2))) < DATABUF_SIZE)%nat as Hl'.
  { unfold telemetry_size in Hl. destruct Hm as (Hf & [_ Hf1] & _).
    unfold TRAIT_EXPECTED_THERMALS1 in Hf1. unfold DATABUF_SIZE. lia. }
  destruct (push_starts h _ _ _ (w_tcp w2) Hh Hhost Hport Hl') as (t & Et & Hp & _).
  unfold sentri_do_telemetry, run_tcp. st_unfold.
  change (telemetry_buf (with_telemetry _ _ _ (w_st w2)) (diag2 (w_cfg w2)) (in_stack i))
    with (telemetry_buf (w_st w2) (diag2 (w_cfg w2)) (in_stack i)).
  rewrite Eb. simpl. rewrite Ec, Ha, Et. simpl. eexists. split; [reflexivity|]. simpl. done.
Qed.

Lemma telemetry_sent_witness :
  let env := (fun _ : string => @None (list Z)) in
  exists w1 w2 w3,
    sentrifarm_init (fun _ => true) (fun _ b => b) 5 env true (demo_inputs STATION_IDLE)
      demo_world = Some ((), w1) /\
    run (fun _ => true) (fun _ b => b) 5 (take 4 demo_day) w1 = Some ((), w2) /\
    state (w_st w2) = STATE_TELEMETRY /\
    sentri_do_telemetry (demo_inputs STATION_GOT_IP) w2 = Some ((), w3) /\
    in_progress 5 (telemetry_text (w_st w2) (diag2 (w_cfg w2))) (upstream_host (w_cfg w2))
      (upstream_port (w_cfg w2)) (blocks (w_tcp w2)) Connecting (w_tcp w3) /\
    telemetry_handle (w_st w3) = [Some 5%nat; None; None] /\
    telemetry_done (w_st w3) = [false; true; true].
Proof.
  cbv zeta.
  destruct (sentrifarm_init (fun _ => true) (fun _ b => b) 5 (fun _ => None) true
    (demo_inputs STATION_IDLE) demo_world) as [[[] w1]|] eqn:E1; [|vm_compute in E1; discriminate].
  destruct (run (fun _ => true) (fun _ b => b) 5 (take 4 demo_day) w1) as [[[] w2]|] eqn:E2;
    [|vm_compute in E1; injection E1 as <-; vm_compute in E2; discriminate].
  assert (Hw : state (w_st w2) = STATE_TELEMETRY /\ blocks (w_tcp w2) !! 5%nat = None /\
    upstream_host (w_cfg w2) <> 0 /\ 0 <= upstream_port (w_cfg w2) <= 65535).
  { vm_compute in E1. injection E1 as <-. vm_compute in E2. injection E2 as <-.
    vm_compute. repeat split; congruence. }
  assert (Hin : Forall inputs_ok (take 4 demo_day)).
  { simpl. repeat (apply Forall_cons; split; [vm_compute; repeat split; congruence|]). constructor. }
  destruct (telemetry_sent _ _ _ _ _ _ _ (demo_inputs STATION_GOT_IP) 5 demo_world w1 w2 E1 E2 Hin
    (proj1 Hw) eq_refl (proj1 (proj2 Hw)) (proj1 (proj2 (proj2 Hw))) (proj2 (proj2 (proj2 Hw))))
    as (w3 & H3).
  exists w1, w2, w3. split; [reflexivity|]. split; [exact E2|]. split; [apply Hw|exact H3].
Defined.

(** Also: With no temperature reading, a supply voltage and a clock of ten digits
    each make the telemetry write behind the end of its buffer: the size given
    to the later snprintf calls is that of the whole buffer. *)
Theorem telemetry_overflow s d stack :
  thermals1_found s = 0 -> 10 ^ 9 <= vdd s < 2 ^ 32 -> 10 ^ 9 <= ticks s < 2 ^ 32 ->
  telemetry_buf s d stack = None.
Proof.
  intros Hf Hv Ht. unfold telemetry_buf. rewrite Hf. change (telemetry_size 0) with 70%nat.
  cbn [Z.to_nat seq mapM mbind option_bind]. simpl mapM. cbn [mbind option_bind mret option_ret].
  assert (L1 : length (dec (vdd s)) = 10%nat).
  { pose proof (dec_length 10 (vdd s) ltac:(word_lia) ltac:(lia)).
    pose proof (inv_digits_long 9 10 (vdd s) ltac:(lia) ltac:(lia)). unfold dec in *.
    rewrite length_rev in *. lia. }
  assert (L2 : length (dec (ticks s)) = 10%nat).
  { pose proof (dec_length 10 (ticks s) ltac:(word_lia) ltac:(lia)).
    pose proof (inv_digits_long 9 10 (ticks s) ltac:(lia) ltac:(lia)). unfold dec in *.
    rewrite length_rev in *. lia. }
  assert (Hl : length (telemetry_head s d) = 52%nat).
  { unfold telemetry_head. rewrite !length_app, !json_length, L1, L2. by destruct d. }
  assert (Hok : text_ok (telemetry_head s d)).
  { unfold telemetry_head. assert (0 <= b2z d) by (destruct d; simpl; lia). auto 20 with texts. }
  assert (E : snprintf (resize 70 0 stack) 0 70 (telemetry_head s d) =
    Some (telemetry_head s d ++ 0 :: drop (length (telemetry_head s d) + 1) (resize 70 0 stack))).
  { unfold snprintf, store. rewrite take_ge by lia. rewrite length_app, length_resize, Hl.
    rewrite decide_True by (cbn [length]; lia).
    cbn [take app length Nat.add]. by rewrite <- app_assoc. }
  rewrite E. cbn [mbind option_bind fmap list_fmap app append_all].
  unfold strlen. rewrite c_string_text by done. unfold snprintf, store.
  rewrite decide_False; [done|].
  rewrite length_app. destruct (tail_text s) as [_ L3]. rewrite take_ge by lia.
  rewrite !length_app, L3, Hl. cbn [length]. rewrite length_drop, length_resize. lia.
Qed.

Lemma telemetry_overflow_witness :
  let s := St STATE_TELEMETRY 0 0 [] (2 ^ 32 - 1) (2 ^ 32 - 1) false 0 0 [] [] in
  thermals1_found s = 0 /\ telemetry_buf s false [] = None.
Proof.
  cbv zeta. split; [reflexivity|].
  apply telemetry_overflow; [reflexivity|vm_compute; split; congruence|vm_compute; split; congruence].
Defined.

(** * What the sensor makes of the network's answer *)

(** Also: While it waits for the network, the sensor goes on to the telemetry once
    it has an address, reboots when the access point is missing, gives up to the
    console after its 24th poll and waits otherwise; a connection failure is
    recorded but the telemetry is attempted all the same. *)
Theorem wifi_outcome `{DS1820} {B} `{OneWireBus B} valid_pin ds_setup ds_fuel i (w : world B) :
  state (w_st w) = STATE_WIFI_PENDING -> wifi_pending (w_st w) = true ->
  Z.land (error_flags (w_st w)) ERR_WIFI_AP_NOT_FOUND = 0 ->
  0 < wait_wifiup_s (w_cfg w) < 2 ^ 31 / 1000 ->
  exists w', sentri_state_handler valid_pin ds_setup ds_fuel i w = Some ((), w') /\
    state (w_st w') =
      match in_status i with
      | STATION_GOT_IP | STATION_CONNECT_FAIL => STATE_TELEMETRY
      | STATION_NO_AP_FOUND => STATE_REBOOT_REQUIRED
      | _ => if wifi_retried (w_st w) <=? 22 then STATE_WIFI_PENDING else STATE_ERROR
      end /\
    error_flags (w_st w') =
      Z.lor (error_flags (w_st w))
        (match in_status i with
         | STATION_CONNECT_FAIL => ERR_WIFI_CONNECT
         | STATION_NO_AP_FOUND => ERR_WIFI_AP_NOT_FOUND
         | _ => 0
         end) /\
    sentri_state_timer w' =
      match in_status i with
      | STATION_NO_AP_FOUND => Some 30000
      | STATION_GOT_IP | STATION_CONNECT_FAIL => Some (wait_wifiup_s (w_cfg w) * 1000)
      | _ => if wifi_retried (w_st w) <=? 22 then Some (wait_wifiup_s (w_cfg w) * 1000) else None
      end.
Proof.
  intros Hs Hp Hf Hw. unfold sentri_state_handler. rewrite ST_bind_eq. cbn [get]. rewrite Hs.
  assert (Ht : (0 <? wait_wifiup_s (w_cfg w)) = true) by (apply Z.ltb_lt; lia).
  assert (Ht' : (wait_wifiup_s (w_cfg w) * 1000 <? 2 ^ 31) = true)
    by (apply Z.ltb_lt; pow2s; Z.div_mod_to_equations; lia).
  assert (Hw1 : Z.land (Z.lor (error_flags (w_st w)) ERR_WIFI_CONNECT) ERR_WIFI_AP_NOT_FOUND = 0).
  { by rewrite Z.land_lor_distr_l, Hf. }
  assert (Hw2 : (Z.land (Z.lor (error_flags (w_st w)) ERR_WIFI_AP_NOT_FOUND) ERR_WIFI_AP_NOT_FOUND =? 0) = false).
  { by rewrite Z.land_lor_distr_l, Hf. }
  unfold handle_wifi_pending, sentri_check_wifi, enter, set_st, set_timer, act.
  destruct (in_status i); st_unfold; rewrite ?Hp; simpl;
    rewrite ?Hw1, ?Hw2, ?Hf; simpl; rewrite ?Z.lor_0_r;
    unfold MAX_WIFIUP_RETRY_ATTEMPTS;
    try (destruct (Z.ltb_spec 22 (wifi_retried (w_st w))) as [Hr|Hr];
      [rewrite (proj2 (Z.leb_gt _ _)) by lia|rewrite (proj2 (Z.leb_le _ _)) by lia]);
    st_unfold; rewrite ?Ht; simpl; rewrite ?Ht'; st_unfold;
    eexists; (split; [reflexivity|]); done.
Qed.

Lemma wifi_outcome_witness :
  let w := World my_config0 (with_wifi true 0 (with_state STATE_WIFI_PENDING my_state0)) (Tcp ∅ false [])
             (Receiving []) (Search [] 0 0 false) None [] in
  exists w', sentri_state_handler (fun _ => true) (fun _ b => b) 5 (demo_inputs STATION_CONNECT_FAIL) w
      = Some ((), w') /\
    state (w_st w') = STATE_TELEMETRY /\ error_flags (w_st w') = Z.lor 0 ERR_WIFI_CONNECT /\
    sentri_state_timer w' = Some 1000.
Proof.
  cbv zeta.
  apply (wifi_outcome (fun _ => true) (fun _ b => b) 5 (demo_inputs STATION_CONNECT_FAIL)
    (World my_config0 (with_wifi true 0 (with_state STATE_WIFI_PENDING my_state0)) (Tcp ∅ false [])
             (Receiving []) (Search [] 0 0 false) None []));
    [reflexivity|reflexivity|reflexivity|vm_compute; split; congruence].
Defined.

(** Also: A sleep time of 2148 seconds or more in the environment overflows the
    [int] in which it is converted to microseconds. *)
Theorem sleep_time_overflow env s v c :
  env "sentri-sleep-t"%string = Some s -> atoi s = Some v -> 2148 <= v -> configure env c = None.
Proof.
  intros Hs Hv Hl. unfold configure.
  destruct (env_number _ "sentri-settle-t" _ _) as [c1|]; [|done]. cbn [mbind option_bind].
  destruct (env_number _ "sentri-sensors-t" _ _) as [c2|]; [|done]. cbn [mbind option_bind].
  destruct (env_number _ "sentri-wifiup-t" _ _) as [c3|]; [|done]. cbn [mbind option_bind].
  destruct (env_number _ "sentri-sleep-t" _ _) as [c4|] eqn:E; [|done].
  unfold env_number in E. rewrite Hs, Hv in E. cbn [mbind option_bind] in E.
  by rewrite (proj2 (Z.ltb_lt 0 v)), (proj2 (Z.ltb_ge (v * 1000 * 1000) _)) in E by (pow2s; lia).
Qed.

Lemma sleep_time_overflow_witness :
  let env (k : string) := if (k =? "sentri-sleep-t")%string then Some (str "3600") else None in
  atoi (str "3600") = Some 3600 /\ configure env my_config0 = None.
Proof.
  cbv zeta. split; [reflexivity|].
  apply (sleep_time_overflow _ (str "3600") 3600); [reflexivity|reflexivity|lia].
Defined.
