(* ===== verification/Entry.v ===== *)
(** The boot of the ground sensor: [src/attic/ground-sensor/code/src/entry.c],
    which sets up the devices and scans for access points before it starts module
    GroundSensor.

    [user_init] is the list of its calls of the SDK. From there on the SDK calls
    back: a definition per callback, with what the SDK answers as arguments. What
    is printed is left out. *)
From S2P Require Import Prelude OneWire Format TcpPush GroundSensor.

(** The calls of [user_init], of this program and of those of module WifiTests;
    the offset and the length of the environment in flash come from the build. *)
Inductive setup_call :=
  | uart_init (port baud : Z)
  | uart_init_io
  | pin_func_gpio (gpio : Z)                       (* PIN_FUNC_SELECT(..., FUNC_GPIOn) *)
  | gpio_output_set (set clear enable disable : Z)
  | env_init
  | rtc_mem_read (block bytes : Z)
  | console_init (len : Z)
  | set_log_level (level : Z)
  | system_timer_reinit
  | wdt_feed
  | system_set_os_print (on : Z)
  | system_init_done_cb.                           (* the next callback below *)

Definition BIT0 := Z.shiftl 1 0.
Definition BIT2 := Z.shiftl 1 2.

Definition setup_uart : list setup_call := [uart_init 0 115200; uart_init_io].
Definition setup_pins : list setup_call :=
  [pin_func_gpio 2; pin_func_gpio 0; gpio_output_set 0 BIT2 BIT2 0; gpio_output_set 0 BIT0 BIT0 0].

(** The dump of the RTC memory, a read per row. *)
Fixpoint dump_rows (words_per_row bytes_per_row row : Z) (rows : nat) : list setup_call :=
  match rows with
  | O => []
  | S rows => rtc_mem_read (row * words_per_row) bytes_per_row
              :: dump_rows words_per_row bytes_per_row (row + 1) rows
  end.
Definition rtc_dump : list setup_call :=
  let bytes := 768 in
  let words_per_row := 8 in
  let bytes_per_row := words_per_row * 4 in            (* sizeof(uint32_t) *)
  dump_rows words_per_row bytes_per_row 0 (Z.to_nat (bytes / bytes_per_row)).

(** [None]: the log level is not an [int]. *)
Definition user_init (env : string -> option (list Z)) : option (list setup_call) :=
  level ← match env "log-level" with
          | Some s => v ← atoi s; Some [set_log_level v]
          | None => Some []
          end;
  Some (setup_uart ++ setup_pins ++ [env_init] ++ rtc_dump ++ [console_init 32] ++ level ++ [system_init_done_cb]).

(** What the environment holds when the flash has none; the store itself is the
    SDK's. *)
Definition defaultenv : list (string * string) :=
  [("sta-mode", "dhcp"); ("log-level", "3"); ("sentri-ssid", "sentri"); ("sentri-password", "");
   ("hostname", "groundstation"); ("bootdelay", "3")]%string.
Definition request_default_environment {E} (env_insert : string -> string -> E -> E) (e : E) : E :=
  foldl (fun e '(key, value) => env_insert key value e) e defaultenv.
Definition fr_request_hostname (env : string -> option (list Z)) : option (list Z) := env "hostname"%string.

Section Entry.
Context `{DS1820} {B : Type} `{OneWireBus B}.
Context (valid_pin : Z -> bool) (ds_setup : Z -> B -> B) (ds_fuel : nat).

Record boot := Boot {
  sensor : world B;
  locked : bool;               (* [console_lock] *)
  scanning : bool;             (* a scan was started and has not called back *)
  restarts : nat }.            (* calls of [system_restart] by the boot *)
Abbreviation M := (ST boot).

Definition on_sensor {A} (m : ST (world B) A) : M A :=
  fun s => '(a, x) ← m (sensor s); Some (a, Boot x (locked s) (scanning s) (restarts s)).
Definition console_lock (b : bool) : M () :=
  modify (fun s => Boot (sensor s) b (scanning s) (restarts s)).

Section Calls.
Variables (env : string -> option (list Z)) (pin2 : bool) (i : inputs).
Definition init : M () := on_sensor (sentrifarm_init valid_pin ds_setup ds_fuel env pin2 i).

(** [pbss]: the list of access points is there. [system_restart] is a request:
    the callback goes on after it. *)
Definition scan_done_cb (pbss : bool) : M () :=
  modify (fun s => Boot (sensor s) (locked s) false (restarts s));;
  when (negb pbss) (modify (fun s => Boot (sensor s) (locked s) (scanning s) (S (restarts s))));;
  console_lock false;;
  init.

(** [softap]: the mode is SOFTAP_MODE; [starts]: [wifi_station_scan] is true. *)
Definition main_init_done (softap starts : bool) : M () :=
  if softap then init
  else if starts then
    modify (fun s => Boot (sensor s) (locked s) true (restarts s));;
    console_lock true
  else init.
End Calls.
End Entry.
Arguments boot : clear implicits.
