(* ===== verification/EntryFacts.v ===== *)
(** The ground sensor from its boot on. *)
From S2P Require Import Prelude OneWire OneWireFacts Format IpAddr TcpPush TcpPushFacts GroundSensor GroundSensorFacts Entry.

(** * user_init *)

Lemma elem_of_dump_rows w b c row rows :
  c ∈ dump_rows w b row rows <-> exists r, row <= r < row + Z.of_nat rows /\ c = rtc_mem_read (r * w) b.
Proof.
  revert row. induction rows as [|rows IH]; intros row; cbn [dump_rows].
  - rewrite elem_of_nil. split; [done|]. intros (r & Hr & _). lia.
  - rewrite elem_of_cons, IH. split.
    + intros [->|(r & Hr & ->)]; [exists row|exists r]; (split; [lia|done]).
    + intros (r & Hr & ->). destruct (decide (r = row)) as [->|]; [by left|].
      right. exists r. split; [lia|done].
Qed.

(** The dump reads every one of the 192 words of the RTC memory, and no other. *)
Lemma rtc_dump_covers word :
  (exists block len, rtc_mem_read block len ∈ rtc_dump /\ block <= word < block + len / 4) <-> 0 <= word < 192.
Proof.
  split.
  - intros (block & len & Hin & Hw). apply elem_of_dump_rows in Hin as (r & Hr & [= -> ->]).
    change (8 * 4 / 4) with 8 in Hw. change (Z.of_nat (Z.to_nat (768 / (8 * 4)))) with 24 in Hr. lia.
  - intros Hw. exists (word / 8 * 8), 32. split.
    + apply elem_of_dump_rows. exists (word / 8). split; [|done].
      change (0 + Z.of_nat (Z.to_nat (768 / (8 * 4)))) with 24. Z.to_euclidean_division_equations; lia.
    + change (32 / 4) with 8. Z.to_euclidean_division_equations; lia.
Qed.

(** [user_init] fails only on a log level that is not an [int]; the callback that
    starts the rest is registered once and last, behind the environment. *)
Lemma user_init_registers env :
  (user_init env = None <-> exists s, env "log-level"%string = Some s /\ atoi s = None)
  /\ forall l, user_init env = Some l ->
       exists l', l = l' ++ [system_init_done_cb] /\ ~ system_init_done_cb ∈ l' /\ env_init ∈ l'.
Proof.
  assert (Hdump : forall c, c ∈ rtc_dump -> exists block, c = rtc_mem_read block 32).
  { intros c (r & _ & ->)%elem_of_dump_rows. by eexists. }
  unfold user_init. split.
  - destruct (env "log-level"%string) as [s|]; [|split; [done|by intros (s & ? & _)]].
    destruct (atoi s) as [v|] eqn:A; (split; [|intros (s' & ? & A'); by simplify_eq/=]); [done|]. by exists s.
  - intros l Hl. apply bind_Some in Hl as (level & Hlevel & [= <-]).
    exists (setup_uart ++ setup_pins ++ [env_init] ++ rtc_dump ++ [console_init 32] ++ level).
    split; [by rewrite <- !app_assoc|]. rewrite !elem_of_app. split; [|set_solver].
    assert (Hl : ~ system_init_done_cb ∈ level).
    { destruct (env _); [apply bind_Some in Hlevel as (v & _ & Hlevel)|]; injection Hlevel as <-; set_solver. }
    intros [?|[?|[?|[(? & ?)%Hdump|[?|?]]]]]; try done; set_solver.
Qed.

(** The environment of an empty flash, in a store that keeps the last value. *)
Example default_log_level :
  let env : gmap string string := request_default_environment (fun k v => <[k := v]>) empty in
  last (omap (fun c => match c with set_log_level v => Some v | _ => None end)
    (default [] (user_init (fun k => str <$> env !! k)))) = Some 3
  /\ fr_request_hostname (fun k => str <$> env !! k) = Some (str "groundstation").
Proof. by vm_compute. Qed.

Section Boot.
Context `{DS1820} {B : Type} `{OneWireBus B} (valid_pin : Z -> bool) (ds_setup : Z -> B -> B) (ds_fuel : nat).


End Boot.

(** * Every run the surroundings allow *)
Section Live.
Context `{DS1820} {B : Type} `{OneWireBus B} {devs : list (list Z)} `{!SearchBus B devs}.
Context (valid_pin : Z -> bool) (ds_setup : Z -> B -> B) (ds_fuel : nat).
Hypothesis devices : Forall device_ok devs.
Hypothesis distinct : NoDup devs.
Hypothesis fuel : (length devs < ds_fuel)%nat.

(** How far the connections the sensor opened have come, as the SDK knows it. *)
Abbreviation connections := (gmap nat progress).



















End Live.


#[local] Existing Instance datasheet.
#[local] Existing Instance demo_bus.


