(* ===== verification/WifiTests.v ===== *)
(** Two test programs of the ground sensor's platform that use its WiFi:
    [src/attic/ground-sensor/code/src/test_reassoc_after_sleep.c] (module
    [Reassoc]) and [src/attic/experiments/esp8266/src/main.c] (module [Scanner]).

    The SDK calls back: a definition per callback, with what the SDK answers as
    arguments, over the timers and the requests made to it. [user_init] is its list
    of calls, as in module Entry. What is printed is left out. *)
From S2P Require Import Prelude Format GroundSensor Entry.

(** * Associating after a sleep (test_reassoc_after_sleep.c) *)
Module Reassoc.
Inductive callback := timer1_cb | timer1_cb2 | timer1_cb3 | timer1_cb4 | timer1_cb5.

Inductive request :=
  | set_phy_mode_11B | set_opmode_station | dhcpc_start
  | station_set_config (ssid : list Z) (bssid_set : Z)
  | station_disconnect | station_connect
  | set_auto_connect (on : bool) | deep_sleep_set_option (o : Z)
  | station_scan | console_lock (on : bool)
  | deep_sleep (us : Z).

Record station := Station {
  timer1 : option (callback * Z * bool);   (* armed: function, milliseconds, repeat *)
  scounter : Z;
  requests : list request }.
Abbreviation M := (ST station).

Definition ask (r : request) : M () :=
  modify (fun s => Station (timer1 s) (scounter s) (requests s ++ [r])).
Definition set_counter (n : Z) : M () := modify (fun s => Station (timer1 s) n (requests s)).
(** [os_timer_disarm], [os_timer_setfn], [os_timer_arm]. *)
Definition arm (f : callback) (ms : Z) (repeat : bool) : M () :=
  modify (fun s => Station (Some (f, ms, repeat)) (scounter s) (requests s)).

(** [os_strncpy] into a member of [n] bytes that was cleared. *)
Definition strncpy (n : nat) (s : list Z) : list Z := resize n 0 s.

Section Callbacks.
Variable ssid_size : nat.                  (* the size of [sta_conf.ssid] *)

Definition run_timer1_cb : M () :=
  ask set_phy_mode_11B;; ask set_opmode_station;; ask dhcpc_start;;
  arm timer1_cb2 1000 false.

Definition run_timer1_cb2 : M () :=
  ask (station_set_config (strncpy ssid_size (str "sentri")) 0);;
  ask station_disconnect;; ask station_connect;;
  set_counter 0;;
  arm timer1_cb3 1000 true.

(** [STATION_IDLE] and [STATION_CONNECTING] are the default case; the counter
    stays small. *)
Definition run_timer1_cb3 (state : station_status) : M () :=
  let decided := arm timer1_cb4 10000 false;; ask (console_lock false) in
  match state with
  | STATION_CONNECT_FAIL | STATION_NO_AP_FOUND | STATION_GOT_IP | STATION_WRONG_PASSWORD => decided
  | STATION_IDLE | STATION_CONNECTING =>
      s ← get;
      set_counter (scounter s + 1);;
      if 20 <? scounter s + 1 then decided else mret ()
  end.

Definition run_timer1_cb4 : M () := ask station_disconnect;; arm timer1_cb5 2000 false.
Definition run_timer1_cb5 : M () := ask (deep_sleep (3 * 1000 * 1000)).

(** The timer expires: the time that took; [state] is the station's status. *)
Definition expire (state : station_status) : M Z :=
  s ← get;
  match timer1 s with
  | None => undefined
  | Some (f, ms, repeat) =>
      when (negb repeat) (modify (fun s => Station None (scounter s) (requests s)));;
      (match f with
       | timer1_cb => run_timer1_cb
       | timer1_cb2 => run_timer1_cb2
       | timer1_cb3 => run_timer1_cb3 state
       | timer1_cb4 => run_timer1_cb4
       | timer1_cb5 => run_timer1_cb5
       end);;
      mret ms
  end.
End Callbacks.

(** Whatever the scan found. *)
Definition scan_done_cb : M () :=
  ask (set_auto_connect false);; ask set_opmode_station;; ask station_disconnect;;
  ask (deep_sleep_set_option 4);;
  arm timer1_cb 1000 false;;
  ask (console_lock false).

Definition main_init_done (softap starts : bool) : M () :=
  if softap then mret ()
  else ask station_scan;; when starts (ask (console_lock true)).

Definition user_init : list setup_call :=
  [set_log_level 3] ++ setup_uart ++ setup_pins ++ rtc_dump
  ++ [env_init; console_init 32; system_init_done_cb].
End Reassoc.

(** * Scanning (experiments/esp8266/src/main.c) *)
Module Scanner.
Record scanner := Scanner {
  scan_start_timer : option Z;             (* armed, for so many milliseconds *)
  scan_completed_timer : option Z;
  scan_finished : bool;
  scan_counter : Z;
  scans : nat;                             (* calls of [wifi_station_scan] *)
  sleeps : list Z }.                       (* calls of [system_deep_sleep] *)

(** The variables after the start of the firmware. *)
Definition initial : scanner := Scanner None None false 0 0 [].

Definition sleep (us : Z) (s : scanner) : scanner :=
  Scanner (scan_start_timer s) None (scan_finished s) (scan_counter s) (scans s) (sleeps s ++ [us]).

(** The counter stays below 25. *)
Definition scan_completed_timer_cb0 (s : scanner) : scanner :=
  if scan_finished s then sleep 55000000 s
  else
    let s := Scanner (scan_start_timer s) (scan_completed_timer s) (scan_finished s) (scan_counter s + 1)
               (scans s) (sleeps s) in
    if scan_counter s <? 25 then s else sleep 55000000 s.

(** With or without a list of access points. *)
Definition wireless_scan_done_cb (s : scanner) : scanner :=
  Scanner (scan_start_timer s) (scan_completed_timer s) true (scan_counter s) (scans s) (sleeps s).

Definition scan_start_timer_cb (s : scanner) : scanner :=
  Scanner None (scan_completed_timer s) (scan_finished s) (scan_counter s) (S (scans s)) (sleeps s).

Definition my_init_done (s : scanner) : scanner :=
  Scanner (Some 5000) (scan_completed_timer s) (scan_finished s) 0 (scans s) (sleeps s).

Definition user_init : list setup_call :=
  [system_timer_reinit] ++ setup_uart ++ [wdt_feed; system_set_os_print 1] ++ setup_pins
  ++ [system_init_done_cb].

(** What the SDK may call: the callback given to [system_init_done_cb], a timer
    that is armed, the callback of a scan that was started. *)
Inductive step : scanner -> scanner -> Prop :=
  | Init_done s : step s (my_init_done s)
  | Start_expires s ms : scan_start_timer s = Some ms -> step s (scan_start_timer_cb s)
  | Completed_expires s ms : scan_completed_timer s = Some ms -> step s (scan_completed_timer_cb0 s)
  | Scan_done s : (0 < scans s)%nat -> step s (wireless_scan_done_cb s).
End Scanner.
