(* ===== verification/WifiTestsFacts.v ===== *)
(** The WiFi test programs: the one reaches its deep sleep whatever the access
    point does, the other never does. *)
From S2P Require Import Prelude Format GroundSensor WifiTests.

(** * Associating after a sleep *)
Section Reassoc.
Import Reassoc.
Variables (ssid_size : nat) (status : nat -> station_status).   (* by timer expiry *)

(** [n] expiries from the [k]-th on, and the milliseconds they take. *)
Fixpoint expiries (n k : nat) : ST station Z :=
  match n with
  | O => mret 0
  | S n => ms ← expire ssid_size (status k); rest ← expiries n (S k); mret (ms + rest)
  end.

Lemma expiries_S n k s ms s1 t s2 :
  expire ssid_size (status k) s = Some (ms, s1) -> expiries n (S k) s1 = Some (t, s2) ->
  expiries (S n) k s = Some (ms + t, s2).
Proof. intros E1 E2. cbn [expiries]. by rewrite ST_bind_eq, E1, ST_bind_eq, E2. Qed.

(** The wait for the access point: from a count of [c] it lasts at most [21 - c]
    seconds, and asks for nothing but the console. *)
Lemma wait_ends m : forall c k q,
  Z.of_nat m = 20 - c ->
  exists n c', (1 <= n <= S m)%nat
    /\ expiries n k (Station (Some (timer1_cb3, 1000, true)) c q)
       = Some (1000 * Z.of_nat n, Station (Some (timer1_cb4, 10000, false)) c' (q ++ [console_lock false])).
Proof.
  induction m as [|m IH]; intros c k q Hm.
  - exists 1%nat. assert (c = 20) as -> by lia.
    destruct (status k) eqn:E; eexists; (split; [lia|]); cbn [expiries]; by rewrite E.
  - assert (exists c', expire ssid_size (status k) (Station (Some (timer1_cb3, 1000, true)) c q)
        = Some (1000, Station (Some (timer1_cb4, 10000, false)) c' (q ++ [console_lock false]))
      \/ expire ssid_size (status k) (Station (Some (timer1_cb3, 1000, true)) c q)
        = Some (1000, Station (Some (timer1_cb3, 1000, true)) (c + 1) q)) as (c' & [E|E]).
    { exists c. destruct (status k); try (by left); right; unfold expire, run_timer1_cb3; st_unfold;
        by rewrite (proj2 (Z.ltb_ge 20 (c + 1))) by lia. }
    + exists 1%nat, c'. split; [lia|]. apply (expiries_S 0 _ _ _ _ 0 _ E eq_refl).
    + destruct (IH (c + 1) (S k) q ltac:(lia)) as (n & c2 & Hn & E2). exists (S n), c2. split; [lia|].
      rewrite (expiries_S _ _ _ _ _ _ _ E E2). do 2 f_equal. lia.
Qed.

Lemma expiries_app a b : forall k s t1 s1 t2 s2,
  expiries a k s = Some (t1, s1) -> expiries b (k + a) s1 = Some (t2, s2) ->
  expiries (a + b) k s = Some (t1 + t2, s2).
Proof.
  induction a as [|a IH]; intros k s t1 s1 t2 s2 E1 E2.
  - injection E1 as <- <-. rewrite Nat.add_0_r in E2. done.
  - cbn [expiries] in E1. rewrite ST_bind_eq in E1.
    destruct (expire _ _ s) as [[ms s0]|] eqn:E0; [|done].
    rewrite ST_bind_eq in E1. destruct (expiries a (S k) s0) as [[t s']|] eqn:E3; [|done].
    injection E1 as <- <-. cbn [Nat.add]. rewrite <- Z.add_assoc.
    eapply expiries_S; [exact E0|]. eapply IH; [exact E3|]. by replace (S k + a)%nat with (k + S a)%nat by lia.
Qed.
End Reassoc.

(** * Properties *)

(** Also: after the scan, whatever it found and whatever the access point answers,
    the program asks for its deep sleep exactly once: within 25 timer expiries
    and 35 seconds, with its station disconnected and no timer left armed. *)
Theorem reassoc_sleeps ssid_size status q :
  exists n t c, (5 <= n <= 25)%nat /\ 15000 <= t <= 35000 /\
    (Reassoc.scan_done_cb;; expiries ssid_size status n 0) (Reassoc.Station None 0 q)
    = Some (t, Reassoc.Station None c
        (q ++ [Reassoc.set_auto_connect false; Reassoc.set_opmode_station; Reassoc.station_disconnect;
               Reassoc.deep_sleep_set_option 4; Reassoc.console_lock false;
               Reassoc.set_phy_mode_11B; Reassoc.set_opmode_station; Reassoc.dhcpc_start;
               Reassoc.station_set_config (Reassoc.strncpy ssid_size (str "sentri")) 0;
               Reassoc.station_disconnect; Reassoc.station_connect; Reassoc.console_lock false;
               Reassoc.station_disconnect; Reassoc.deep_sleep 3000000])).
Proof.
  set (q1 := q ++ [Reassoc.set_auto_connect false; Reassoc.set_opmode_station; Reassoc.station_disconnect;
               Reassoc.deep_sleep_set_option 4; Reassoc.console_lock false;
               Reassoc.set_phy_mode_11B; Reassoc.set_opmode_station; Reassoc.dhcpc_start;
               Reassoc.station_set_config (Reassoc.strncpy ssid_size (str "sentri")) 0;
               Reassoc.station_disconnect; Reassoc.station_connect]).
  destruct (wait_ends ssid_size status 20 0 2 q1 eq_refl) as (n & c & Hn & E2).
  exists (2 + (n + 2))%nat, (2000 + (1000 * Z.of_nat n + 12000)), c. split; [lia|]. split; [lia|].
  rewrite ST_bind_eq. unfold Reassoc.scan_done_cb at 1. st_unfold.
  eapply (expiries_app _ _ 2 (n + 2)).
  { cbn. unfold Reassoc.expire. st_unfold. reflexivity. }
  rewrite <- !app_assoc. cbn [app]. eapply (expiries_app _ _ n 2); [exact E2|].
  cbn [expiries]. unfold Reassoc.expire. st_unfold. subst q1. by rewrite <- !app_assoc.
Qed.

(** Also: whatever the SDK calls back, in whatever order, the scanner never asks
    for deep sleep: nothing arms the timer whose callback would. *)
Theorem scanner_never_sleeps s :
  rtc Scanner.step Scanner.initial s -> Scanner.sleeps s = [] /\ Scanner.scan_completed_timer s = None.
Proof.
  intros Hr. remember Scanner.initial as s0 eqn:E0.
  assert (Scanner.sleeps s0 = [] /\ Scanner.scan_completed_timer s0 = None) as H0 by by subst s0.
  clear E0. induction Hr as [s|s1 s2 s3 Hs _ IH]; [done|]. apply IH.
  destruct H0 as [H1 H2]. by destruct Hs; [..|congruence|].
Qed.

Lemma scanner_never_sleeps_witness :
  Scanner.sleeps (Scanner.wireless_scan_done_cb (Scanner.scan_start_timer_cb (Scanner.my_init_done Scanner.initial))) = [].
Proof.
  refine (proj1 (scanner_never_sleeps _ _)).
  eapply rtc_l; [apply Scanner.Init_done|]. eapply rtc_l; [by eapply Scanner.Start_expires|].
  eapply rtc_l; [by apply Scanner.Scan_done; cbn; lia|]. apply rtc_refl.
Defined.
