(* ===== verification/EspSupport.v ===== *)
(** The support code of the ESP8266 experiment,
    [src/attic/experiments/esp8266/src]: the tables of names (helpers.c, module
    [Helpers]), the pin tables (pin_map.c and include/gpio_map.h, module [PinMap])
    and the serial port (uart.c with include/driver/uart_register.h, module
    [Uart]).

    The SDK's constants are arguments; its calls and the registers are operations
    of a class, or a list in the order they are made. *)
From S2P Require Import Prelude IpAddr.

(** * Names (helpers.c) *)
Module Helpers.
Class Sdk := {
  STATION_MODE : nat; SOFTAP_MODE : nat; STATIONAP_MODE : nat;
  AUTH_OPEN : nat; AUTH_WEP : nat; AUTH_WPA_PSK : nat; AUTH_WPA2_PSK : nat; AUTH_WPA_WPA2_PSK : nat;
  STATION_IF : nat; SOFTAP_IF : nat;
  STATION_IDLE : nat; STATION_CONNECTING : nat; STATION_NO_AP_FOUND : nat;
  STATION_CONNECT_FAIL : nat; STATION_GOT_IP : nat }.

(** An array with designated initializers; [None] is NULL. *)
Definition table := list (option (list Z)).
Definition designated (l : list (nat * string)) : table :=
  foldl (fun t e => <[e.1 := Some (str e.2)]> (t ++ replicate (S e.1 - length t) None)) [] l.

Section Tables.
Context `{Sdk}.
Definition modes : table := designated
  [(0%nat, "NONE"); (STATION_MODE, "STA"); (SOFTAP_MODE, "AP"); (STATIONAP_MODE, "APSTA")]%string.
Definition ciphers : table := designated
  [(AUTH_OPEN, "OPEN"); (AUTH_WEP, "WEP"); (AUTH_WPA_PSK, "WPA_PSK"); (AUTH_WPA2_PSK, "WPA2_PSK");
   (AUTH_WPA_WPA2_PSK, "WPA_WPA2_PSK")]%string.
Definition ifacename : table := designated [(STATION_IF, "sta0"); (SOFTAP_IF, "ap0")]%string.
Definition ifacedsc : table := designated
  [(STATION_IF, "WiFi Client Interface"); (SOFTAP_IF, "WiFi Access Point Interface")]%string.
Definition sta_states : table := designated
  [(STATION_IDLE, "Idle"); (STATION_CONNECTING, "Connecting"); (STATION_NO_AP_FOUND, "No AP Found");
   (STATION_CONNECT_FAIL, "Connection Failed"); (STATION_GOT_IP, "Connected")]%string.
End Tables.

(** The loop from index [i] on; [strcmp] of NULL is undefined. *)
Fixpoint lookup_from (key : list Z) (tbl : table) (i : Z) : option Z :=
  match tbl with
  | [] => Some (-1)
  | None :: _ => None
  | Some s :: tbl => if bool_decide (key = s) then Some i else lookup_from key tbl (i + 1)
  end.
Definition lookup_index (key : list Z) (tbl : table) : option Z := lookup_from key tbl 0.

(** The inner option is the pointer returned; a negative key is out of bounds. *)
Definition lookup_string (key : Z) (tbl : table) : option (option (list Z)) :=
  if Z.of_nat (length tbl) <=? key then Some None
  else if key <? 0 then None else tbl !! Z.to_nat key.

(** The value and what is left of the string; [unsigned long] has 32 bits. *)
Fixpoint skip_atoul_from (i : Z) (s : list Z) : Z * list Z :=
  match s with
  | c :: r => if isdigit c then skip_atoul_from (u32 (i * 10 + c - 48)) r else (i, s)
  | [] => (i, [])
  end.
Definition skip_atoul (s : list Z) : Z * list Z := skip_atoul_from 0 s.
End Helpers.

(** * Pins (pin_map.c, gpio_map.h) *)
Module PinMap.
Definition gpio_pin : list Z :=
  [3; 10; 4; 9;
   2; 1; 0xff; 0xff;
   0xff; 11; 12; 0xff;
   6; 7; 5; 8;
   0].

(** The registers and functions are the SDK's; each is named by the pad it is of. *)
Inductive mux := PAD_XPD_DCDC_CONF | GPIO5_U | GPIO4_U | GPIO0_U | GPIO2_U | MTMS_U | MTDI_U | MTCK_U
  | MTDO_U | U0RXD_U | U0TXD_U | SD_DATA2_U | SD_DATA3_U.
Definition pin_mux : list mux :=
  [PAD_XPD_DCDC_CONF; GPIO5_U; GPIO4_U; GPIO0_U;
   GPIO2_U; MTMS_U; MTDI_U; MTCK_U;
   MTDO_U; U0RXD_U; U0TXD_U; SD_DATA2_U;
   SD_DATA3_U].

Definition pin_num : list Z :=
  [16; 5; 4; 0;
   2; 14; 12; 13;
   15; 3; 1; 9;
   10].

(** [FUNC_GPIO gpio]. *)
Inductive func := Func_0 | FUNC_GPIO (gpio : Z).
Definition pin_func : list func :=
  [Func_0; FUNC_GPIO 5; FUNC_GPIO 4; FUNC_GPIO 0;
   FUNC_GPIO 2; FUNC_GPIO 14; FUNC_GPIO 12; FUNC_GPIO 13;
   FUNC_GPIO 15; FUNC_GPIO 3; FUNC_GPIO 1; FUNC_GPIO 9;
   FUNC_GPIO 10].

(** Out of the arrays they are undefined. *)
Definition USER_GPIO_IS_VALID (gpio : Z) : option bool :=
  if gpio <? 0 then None else p ← gpio_pin !! Z.to_nat gpio; Some (negb (p =? 0xff)).
Definition USER_GPIO_TO_PIN_MUX (gpio : Z) : option mux :=
  if gpio <? 0 then None else p ← gpio_pin !! Z.to_nat gpio; pin_mux !! Z.to_nat p.
Definition USER_GPIO_TO_PIN_FUNC (gpio : Z) : option func :=
  if gpio <? 0 then None else p ← gpio_pin !! Z.to_nat gpio; pin_func !! Z.to_nat p.
End PinMap.

(** * The serial port (uart.c) *)
Module Uart.
(** uart_register.h *)
Definition BIT (n : Z) : Z := Z.shiftl 1 n.
Definition REG_UART_BASE (i : Z) : Z := 0x60000000 + i * 0xf00.
Definition UART_FIFO i := REG_UART_BASE i + 0x0.
Definition UART_INT_ST i := REG_UART_BASE i + 0x8.
Definition UART_INT_ENA i := REG_UART_BASE i + 0xC.
Definition UART_INT_CLR i := REG_UART_BASE i + 0x10.
Definition UART_STATUS i := REG_UART_BASE i + 0x1C.
Definition UART_CONF0 i := REG_UART_BASE i + 0x20.
Definition UART_CONF1 i := REG_UART_BASE i + 0x24.
Definition UART_RXFIFO_FULL_INT_ST := BIT 0.
Definition UART_RXFIFO_FULL_INT_ENA := BIT 0.
Definition UART_RXFIFO_FULL_INT_CLR := BIT 0.
Definition UART_TXFIFO_CNT := 0xFF.
Definition UART_TXFIFO_CNT_S := 16.
Definition UART_RXFIFO_CNT := 0xFF.
Definition UART_RXFIFO_CNT_S := 0.
Definition UART_TXFIFO_RST := BIT 18.
Definition UART_RXFIFO_RST := BIT 17.
Definition UART_SW_RTS := BIT 6.
Definition UART_STOP_BIT_NUM := 0x3.
Definition UART_STOP_BIT_NUM_S := 4.
Definition UART_BIT_NUM_S := 2.
Definition UART_RXFIFO_FULL_THRHD := 0x7F.
Definition UART_RXFIFO_FULL_THRHD_S := 0.
(** uart.h *)
Definition EIGHT_BITS := 3.
Definition ONE_STOP_BIT := 0.
Definition TWO_STOP_BIT := BIT 2.

(** The members of [UartDev] the code uses; the ROM sets it up. *)
Record uart_device := UartDevice {
  baut_rate : Z; data_bits : Z; exist_parity : Z; parity : Z; stop_bits : Z; TrigLvl : Z }.

Class Chip (W : Type) := {
  READ_PERI_REG : Z -> W -> Z * W;
  WRITE_PERI_REG : Z -> Z -> W -> W;
  PIN_FUNC_U1TXD_BK : W -> W;              (* PIN_FUNC_SELECT of GPIO2 *)
  PIN_FUNC_U0TXD : W -> W;
  PIN_PULLUP_DIS_U0TXD : W -> W;
  ETS_UART_INTR_ATTACH : W -> W;           (* of [uart0_rx_intr_handler] *)
  ETS_UART_INTR_ENABLE : W -> W;
  os_install_putc1 : W -> W;               (* of [uart0_write_char] *)
  uart_div_modify : Z -> Z -> W -> W;
  system_os_post : Z -> W -> W }.          (* to task 1, signal 0 *)

Section Uart.
Context {W : Type} `{Chip W}.
Variable UART_CLK_FREQ : Z.
Abbreviation M := (ST W).

Definition do_ (f : W -> W) : M () := fun w => Some ((), f w).
Definition peek (reg : Z) : M Z := fun w => Some (READ_PERI_REG reg w).
Definition SET_PERI_REG_MASK (reg mask : Z) : M () :=
  v ← peek reg; do_ (WRITE_PERI_REG reg (Z.lor v mask)).
Definition CLEAR_PERI_REG_MASK (reg mask : Z) : M () :=
  v ← peek reg; do_ (WRITE_PERI_REG reg (Z.land v (Z.lnot mask))).

Definition conf0 (d : uart_device) : Z :=
  Z.lor (Z.lor (Z.lor (exist_parity d) (parity d)) (Z.shiftl (stop_bits d) UART_STOP_BIT_NUM_S))
        (Z.shiftl (data_bits d) UART_BIT_NUM_S).

(** A rate of zero is a division by zero. *)
Definition uart_config (d : uart_device) (uart_no : Z) : M () :=
  (if uart_no =? 1 then do_ PIN_FUNC_U1TXD_BK
   else do_ ETS_UART_INTR_ATTACH;; do_ PIN_PULLUP_DIS_U0TXD;; do_ PIN_FUNC_U0TXD);;
  (if baut_rate d =? 0 then undefined else do_ (uart_div_modify uart_no (UART_CLK_FREQ / baut_rate d)));;
  do_ (WRITE_PERI_REG (UART_CONF0 uart_no) (conf0 d));;
  SET_PERI_REG_MASK (UART_CONF0 uart_no) (Z.lor UART_RXFIFO_RST UART_TXFIFO_RST);;
  CLEAR_PERI_REG_MASK (UART_CONF0 uart_no) (Z.lor UART_RXFIFO_RST UART_TXFIFO_RST);;
  do_ (WRITE_PERI_REG (UART_CONF1 uart_no)
         (Z.shiftl (Z.land (TrigLvl d) UART_RXFIFO_FULL_THRHD) UART_RXFIFO_FULL_THRHD_S));;
  do_ (WRITE_PERI_REG (UART_INT_CLR uart_no) 0xffff);;
  SET_PERI_REG_MASK (UART_INT_ENA uart_no) UART_RXFIFO_FULL_INT_ENA.

(** The new [UartDev]. *)
Definition uart_init (d : uart_device) (port br : Z) : M uart_device :=
  let d := UartDevice br (data_bits d) (exist_parity d) (parity d) (stop_bits d) (TrigLvl d) in
  (if port =? 0 then uart_config d 0 else if port =? 1 then uart_config d 1 else mret ());;
  mret d.

Definition uart_init_io : M () := do_ ETS_UART_INTR_ENABLE;; do_ os_install_putc1.

(** [fuel] bounds the polls. *)
Fixpoint uart0_tx_one_char (fuel : nat) (TxChar : Z) : M () :=
  match fuel with
  | O => undefined
  | S fuel =>
      status ← peek (UART_STATUS 0);
      let fifo_cnt := Z.land status (Z.shiftl UART_TXFIFO_CNT UART_TXFIFO_CNT_S) in
      if Z.land (Z.shiftr fifo_cnt UART_TXFIFO_CNT_S) UART_TXFIFO_CNT <? 126
      then do_ (WRITE_PERI_REG (UART_FIFO 0) TxChar)
      else uart0_tx_one_char fuel TxChar
  end.

Definition uart0_write_char (fuel : nat) (c : Z) : M () :=
  if c =? 10 then uart0_tx_one_char fuel 13;; uart0_tx_one_char fuel 10
  else if c =? 13 then mret ()
  else uart0_tx_one_char fuel c.

Fixpoint rx_loop (fuel : nat) : M () :=
  match fuel with
  | O => undefined
  | S fuel =>
      status ← peek (UART_STATUS 0);
      if z2b (Z.land status (Z.shiftl UART_RXFIFO_CNT UART_RXFIFO_CNT_S)) then
        x ← peek (UART_FIFO 0);
        do_ (system_os_post (Z.land x 0xFF));;
        rx_loop fuel
      else mret ()
  end.

Definition uart0_rx_intr_handler (fuel : nat) : M () :=
  st ← peek (UART_INT_ST 0);
  if negb (UART_RXFIFO_FULL_INT_ST =? Z.land st UART_RXFIFO_FULL_INT_ST) then mret ()
  else
    do_ (WRITE_PERI_REG (UART_INT_CLR 0) UART_RXFIFO_FULL_INT_CLR);;
    rx_loop fuel.
End Uart.
End Uart.
