(* ===== verification/EspSupportFacts.v ===== *)
(** The support code of the ESP8266 experiment: names round trip where the tables
    have no holes, the pin tables agree with each other, and what goes through the
    serial port. *)
From S2P Require Import Prelude IpAddr Format EspSupport.

(** * Names *)
Module HelpersFacts.
Import Helpers.

Lemma lookup_from_finds key t : forall k i,
  (forall j, (j < i)%nat -> exists s, t !! j = Some (Some s) /\ s <> key) -> t !! i = Some (Some key) ->
  lookup_from key t k = Some (k + Z.of_nat i).
Proof.
  induction t as [|[s|] t IH]; intros k [|i] Hb Hi; try done; cbn [lookup_from].
  - injection Hi as ->. rewrite bool_decide_true by done. f_equal; lia.
  - destruct (Hb 0%nat) as (s' & [= <-] & Hn); [lia|]. rewrite bool_decide_false by done.
    rewrite (IH (k + 1) i); [f_equal; lia| |done]. intros j Hj. apply (Hb (S j)). lia.
  - destruct (Hb 0%nat) as (s' & ? & _); [lia|done].
Qed.

(** Each name of a table without holes and repetitions goes back to its number. *)
Lemma names_round_trip (t : table) i :
  NoDup t -> ~ None ∈ t -> (i < length t)%nat ->
  exists s, lookup_string (Z.of_nat i) t = Some (Some s) /\ lookup_index s t = Some (Z.of_nat i).
Proof.
  intros Hd Hn Hi. assert (Hall : forall j, (j < length t)%nat -> exists s, t !! j = Some (Some s)).
  { intros j Hj. apply lookup_lt_is_Some in Hj as [[s|] E]; [by exists s|]. by apply list_elem_of_lookup_2 in E. }
  destruct (Hall i Hi) as [s E]. exists s. split.
  - unfold lookup_string. rewrite (proj2 (Z.leb_gt _ _)), (proj2 (Z.ltb_ge _ _)), Nat2Z.id by lia. exact E.
  - apply (lookup_from_finds s t 0 i); [|done]. intros j Hj. destruct (Hall j ltac:(lia)) as [s' E'].
    exists s'. split; [done|]. intros ->. pose proof (NoDup_lookup _ _ _ _ Hd E E'). lia.
Qed.

(** Behind a hole every search is undefined, found or not. *)
Lemma hole_undefined key (t : table) : forall k i,
  (forall j, (j < i)%nat -> exists s, t !! j = Some (Some s) /\ s <> key) -> t !! i = Some None ->
  lookup_from key t k = None.
Proof.
  induction t as [|[s|] t IH]; intros k [|i] Hb Hi; try done; cbn [lookup_from].
  destruct (Hb 0%nat) as (s' & [= <-] & Hn); [lia|]. rewrite bool_decide_false by done.
  apply (IH (k + 1) i); [|done]. intros j Hj. apply (Hb (S j)). lia.
Qed.

(** The SDK's numbers; a wrong password is the state 2. *)
#[local] Instance esp_sdk : Sdk := {
  STATION_MODE := 1%nat; SOFTAP_MODE := 2%nat; STATIONAP_MODE := 3%nat;
  AUTH_OPEN := 0%nat; AUTH_WEP := 1%nat; AUTH_WPA_PSK := 2%nat; AUTH_WPA2_PSK := 3%nat; AUTH_WPA_WPA2_PSK := 4%nat;
  STATION_IF := 0%nat; SOFTAP_IF := 1%nat;
  STATION_IDLE := 0%nat; STATION_CONNECTING := 1%nat; STATION_NO_AP_FOUND := 3%nat;
  STATION_CONNECT_FAIL := 4%nat; STATION_GOT_IP := 5%nat }.

(** The tables of modes, ciphers and interfaces are of that kind. *)
Lemma tables_complete t : t ∈ [modes; ciphers; ifacename; ifacedsc] -> NoDup t /\ ~ None ∈ t.
Proof.
  intros Ht. set_unfold in Ht. destruct_or! Ht; subst; (split; apply (bool_decide_unpack _); by vm_compute).
Qed.

(** The states of the station lack the wrong password: its name is NULL, and
    looking up the name of a later state, or one that does not exist, is
    undefined. *)
Lemma states_have_a_hole key :
  lookup_string 2 sta_states = Some None
  /\ (key <> str "Idle" -> key <> str "Connecting" -> lookup_index key sta_states = None).
Proof.
  split; [done|]. intros H0 H1. apply (hole_undefined key sta_states 0 2); [|done].
  intros [|[|j]] Hj; [by exists (str "Idle")|by exists (str "Connecting")|lia].
Qed.

(** [skip_atoul] reads the longest decimal number, modulo 2^32. *)
Fixpoint after_digits (s : list Z) : list Z :=
  match s with c :: r => if isdigit c then after_digits r else s | [] => [] end.

Lemma digits_value_mod s : forall v v', u32 v = u32 v' -> u32 (digits_value v s) = u32 (digits_value v' s).
Proof.
  induction s as [|c s IH]; intros v v' E; [done|]. cbn [digits_value]. destruct (isdigit c); [|done].
  apply IH. unfold trunc in *. rewrite <- (Zplus_mod_idemp_l (v * 10)), <- (Zplus_mod_idemp_l (v' * 10)).
  by rewrite <- (Zmult_mod_idemp_l v), <- (Zmult_mod_idemp_l v'), E.
Qed.

Lemma skip_atoul_value s : skip_atoul s = (u32 (digits_value 0 s), after_digits s).
Proof.
  unfold skip_atoul. assert (E : forall v, fits 32 v -> skip_atoul_from v s = (u32 (digits_value v s), after_digits s));
    [|apply E; by apply (bool_decide_unpack _)].
  induction s as [|c s IH]; intros v Hv; cbn [skip_atoul_from digits_value after_digits].
  - by rewrite trunc_small.
  - destruct (isdigit c); [|by rewrite trunc_small]. rewrite IH by apply u32_ok. f_equal.
    apply digits_value_mod. rewrite trunc_trunc by done. f_equal. lia.
Qed.
End HelpersFacts.

(** * Pins *)
Module PinMapFacts.
Import PinMap.

(** A GPIO is valid exactly when it has a pin; the tables then agree on the pin,
    and the function selected is the GPIO's own but for GPIO 16, which has none. *)
Lemma pins_agree gpio :
  0 <= gpio <= 16 ->
  (USER_GPIO_IS_VALID gpio = Some true <-> gpio ∈ pin_num)
  /\ (USER_GPIO_IS_VALID gpio = Some true ->
      exists p, gpio_pin !! Z.to_nat gpio = Some p /\ pin_num !! Z.to_nat p = Some gpio
        /\ is_Some (USER_GPIO_TO_PIN_MUX gpio)
        /\ USER_GPIO_TO_PIN_FUNC gpio = Some (if gpio =? 16 then Func_0 else FUNC_GPIO gpio)).
Proof.
  intros Hg. assert (gpio ∈ below 17) as Hin.
  { unfold below. apply list_elem_of_fmap. exists (Z.to_nat gpio). rewrite elem_of_seq. lia. }
  revert Hin. clear Hg. change (below 17) with [0; 1; 2; 3; 4; 5; 6; 7; 8; 9; 10; 11; 12; 13; 14; 15; 16].
  rewrite !elem_of_cons, elem_of_nil. intros Hin.
  repeat (destruct Hin as [->|Hin];
    [split; [split; intros Hx; first [discriminate Hx|reflexivity|by apply (bool_decide_unpack _)
                                     |by apply (bool_decide_eq_true_2 _) in Hx]
            |intros Hx; first [discriminate Hx|eexists; split_and!; try done; by eexists]]|]); done.
Qed.

(** A GPIO beyond the table is read out of bounds. *)
Lemma beyond_undefined gpio : 16 < gpio -> USER_GPIO_IS_VALID gpio = None.
Proof.
  intros Hg. unfold USER_GPIO_IS_VALID. rewrite (proj2 (Z.ltb_ge _ _)) by lia.
  rewrite lookup_ge_None_2; [done|]. cbn [length gpio_pin]. lia.
Qed.
End PinMapFacts.

(** * The serial port *)
Module UartFacts.
Import Uart.

(** What the registers of port 0 do: [busy] is how often the status still shows a
    full transmit FIFO, [sent] what was put into it, [pending] the receive FIFO,
    [posted] what the console task was sent. *)
Class UartWire (W : Type) `{Chip W} := {
  busy : W -> nat;
  bound : nat;
  sent : W -> list Z;
  pending : W -> list Z;
  posted : W -> list Z;
  status_law w : let '(st, w') := READ_PERI_REG (UART_STATUS 0) w in
    (Z.land (Z.shiftr st UART_TXFIFO_CNT_S) UART_TXFIFO_CNT <? 126) = bool_decide (busy w = 0%nat)
    /\ busy w' = pred (busy w)
    /\ z2b (Z.land st UART_RXFIFO_CNT) = bool_decide (pending w <> [])
    /\ sent w' = sent w /\ pending w' = pending w /\ posted w' = posted w;
  put_law v w : let w' := WRITE_PERI_REG (UART_FIFO 0) v w in
    sent w' = sent w ++ [v] /\ (busy w' <= bound)%nat;
  take_law w x l : pending w = x :: l -> let '(v, w') := READ_PERI_REG (UART_FIFO 0) w in
    Z.land v 0xFF = x /\ pending w' = l /\ posted w' = posted w /\ sent w' = sent w;
  post_law v w : let w' := system_os_post v w in
    posted w' = posted w ++ [v] /\ pending w' = pending w /\ sent w' = sent w }.

Section Wire.
Context {W : Type} `{UartWire W}.

Lemma mask_of_field st : Z.land (Z.shiftr (Z.land st (Z.shiftl UART_TXFIFO_CNT UART_TXFIFO_CNT_S)) UART_TXFIFO_CNT_S)
  UART_TXFIFO_CNT = Z.land (Z.shiftr st UART_TXFIFO_CNT_S) UART_TXFIFO_CNT.
Proof.
  rewrite Z.shiftr_land. change (Z.shiftr (Z.shiftl UART_TXFIFO_CNT UART_TXFIFO_CNT_S) UART_TXFIFO_CNT_S) with UART_TXFIFO_CNT.
  by rewrite <- Z.land_assoc, Z.land_diag.
Qed.

Definition quiet (l : list Z) (w : W) : Prop := sent w = l /\ (busy w <= bound)%nat.

Lemma tx_one_char_sends fuel c l :
  (bound < fuel)%nat -> triple (quiet l) (uart0_tx_one_char fuel c) (fun _ => quiet (l ++ [c])).
Proof.
  intros Hf w [Hl Hb]. assert (Hb' : (busy w < fuel)%nat) by lia. clear Hb Hf. revert w Hl Hb'.
  induction fuel as [|fuel IH]; intros w Hl Hb; [lia|]. cbn [uart0_tx_one_char]. rewrite ST_bind_eq. unfold peek.
  pose proof (status_law w) as Hs. destruct (READ_PERI_REG (UART_STATUS 0) w) as [st w'].
  destruct Hs as (Hc & Hn & _ & Hs & _). rewrite mask_of_field, Hc. case_bool_decide as E.
  - do 2 eexists. split; [done|]. destruct (put_law c w') as [Hs' Hb']. split; [by rewrite Hs', Hs, Hl|done].
  - apply IH; [congruence|lia].
Qed.

(** What the console shows for a text: a line feed is preceded by a carriage
    return, the carriage returns of the text are dropped. *)
Definition shown_as (c : Z) : list Z := if c =? 10 then [13; 10] else if c =? 13 then [] else [c].
Fixpoint put_text (fuel : nat) (s : list Z) : ST W () :=
  match s with [] => mret () | c :: s => uart0_write_char fuel c;; put_text fuel s end.

Lemma write_char_sends fuel c l :
  (bound < fuel)%nat -> triple (quiet l) (uart0_write_char fuel c) (fun _ => quiet (l ++ shown_as c)).
Proof.
  intros Hf. unfold uart0_write_char, shown_as. destruct (c =? 10); [|destruct (c =? 13)].
  - eapply triple_bind; [by apply tx_one_char_sends|intros ?]. change [13; 10] with ([13] ++ [10]).
    rewrite app_assoc. by apply tx_one_char_sends.
  - apply triple_ret. by rewrite app_nil_r.
  - by apply tx_one_char_sends.
Qed.

Lemma text_is_sent fuel s l :
  (bound < fuel)%nat -> triple (quiet l) (put_text fuel s) (fun _ => quiet (l ++ concat (shown_as <$> s))).
Proof.
  intros Hf. revert l. induction s as [|c s IH]; intros l; cbn [put_text].
  - apply triple_ret. by rewrite app_nil_r.
  - eapply triple_bind; [by apply write_char_sends|intros ?]. cbn [fmap list_fmap concat]. rewrite app_assoc. apply IH.
Qed.

(** The interrupt's loop passes on everything received, in order, and ends. *)
Lemma rx_loop_posts fuel : forall w, (length (pending w) < fuel)%nat ->
  exists w', rx_loop fuel w = Some ((), w') /\ posted w' = posted w ++ pending w /\ pending w' = [] /\ sent w' = sent w.
Proof.
  induction fuel as [|fuel IH]; intros w Hf; [lia|]. cbn [rx_loop]. rewrite ST_bind_eq. unfold peek at 1.
  pose proof (status_law w) as Hs. destruct (READ_PERI_REG (UART_STATUS 0) w) as [st w1].
  destruct Hs as (_ & _ & Hz & Hs & Hp & Hq). change (Z.shiftl UART_RXFIFO_CNT UART_RXFIFO_CNT_S) with UART_RXFIFO_CNT.
  rewrite Hz. destruct (pending w) as [|x l] eqn:E.
  - rewrite bool_decide_false by tauto. exists w1. rewrite app_nil_r. by rewrite Hq.
  - rewrite bool_decide_true by done. rewrite ST_bind_eq. unfold peek at 1.
    pose proof (take_law w1 x l Hp) as Ht. destruct (READ_PERI_REG (UART_FIFO 0) w1) as [v w2].
    destruct Ht as (-> & Hp2 & Hq2 & Hs2). rewrite ST_bind_eq. unfold do_.
    destruct (post_law x w2) as (Hq3 & Hp3 & Hs3).
    destruct (IH (system_os_post x w2)) as (w' & E' & Hq' & Hp' & Hs'); [rewrite Hp3, Hp2; cbn in Hf; lia|].
    exists w'. split; [done|]. split; [|split; [done|congruence]].
    by rewrite Hq', Hq3, Hq2, Hq, Hp3, Hp2, <- app_assoc.
Qed.
End Wire.

(** The format a device without a parity gets: eight bits, one stop bit. *)
Lemma plain_format rate trig : conf0 (UartDevice rate EIGHT_BITS 0 0 ONE_STOP_BIT trig) = Z.shiftl 3 UART_BIT_NUM_S.
Proof. done. Qed.

(** [TWO_STOP_BIT] is already a bit of a register; shifted, it misses the field of
    the stop bits and raises RTS. *)
Lemma two_stop_bits_raise_rts rate trig :
  let v := conf0 (UartDevice rate EIGHT_BITS 0 0 TWO_STOP_BIT trig) in
  Z.land (Z.shiftr v UART_STOP_BIT_NUM_S) UART_STOP_BIT_NUM = 0 /\ z2b (Z.land v UART_SW_RTS) = true.
Proof. done. Qed.
End UartFacts.

(** A port that is full for two polls after every byte. *)
Record desk_port := DeskPort { d_busy : nat; d_sent : list Z; d_pending : list Z; d_posted : list Z }.
#[local] Instance desk_chip : Uart.Chip desk_port := {
  READ_PERI_REG reg w :=
    if reg =? Uart.UART_FIFO 0 then
      (hd 0 (d_pending w), DeskPort (d_busy w) (d_sent w) (tail (d_pending w)) (d_posted w))
    else (Z.lor (if bool_decide (d_busy w = 0%nat) then 0 else Z.shiftl 126 16)
                (if bool_decide (d_pending w = []) then 0 else 1),
          DeskPort (pred (d_busy w)) (d_sent w) (d_pending w) (d_posted w));
  WRITE_PERI_REG reg v w :=
    if reg =? Uart.UART_FIFO 0 then DeskPort 2 (d_sent w ++ [v]) (d_pending w) (d_posted w) else w;
  PIN_FUNC_U1TXD_BK w := w; PIN_FUNC_U0TXD w := w; PIN_PULLUP_DIS_U0TXD w := w;
  ETS_UART_INTR_ATTACH w := w; ETS_UART_INTR_ENABLE w := w; os_install_putc1 w := w;
  uart_div_modify _ _ w := w;
  system_os_post v w := DeskPort (d_busy w) (d_sent w) (d_pending w) (d_posted w ++ [u8 v]) }.

Example desk_console :
  let w := DeskPort 2 [] (str "ok") [] in
  (d_sent ∘ snd <$> UartFacts.put_text 3 (str "hi" ++ [10]) w) = Some (str "hi" ++ [13; 10])
  /\ (d_posted ∘ snd <$> Uart.uart0_rx_intr_handler 3 w) = Some (str "ok").
Proof. by vm_compute. Qed.
