(* ===== verification/Digispark.v ===== *)
(** A radio command from a digispark:
    [src/attic/experiments/arduino/digispark-spi1/digispark-spi1.ino].

    The checksum is inline assembly, modelled by an interpreter of the AVR
    instructions it uses; the registers the compiler picks for its operands are
    arguments. The ports and the serial interface (USI) of the ATtiny85 are a
    class with an operation per access. The debug console is left out. *)
From S2P Require Import Prelude.

(** * _crc16_update *)
Module Avr.
(** [n] is the number of a register; [tmp_reg] is the register 0. *)
Inductive instr :=
  | eor (d r : nat) | mov (d r : nat) | swap (d : nat)
  | lsr (d : nat) | ror (d : nat) | andi (d : nat) (k : Z).
Definition tmp_reg : nat := 0.

Record cpu := Cpu { regs : nat -> Z; carry : bool }.

Definition upd (f : nat -> Z) (d : nat) (v : Z) : nat -> Z := fun n => if decide (n = d) then v else f n.

(** The carry is the only flag these instructions read. *)
Definition exec (i : instr) (c : cpu) : cpu :=
  let r := regs c in
  match i with
  | eor d s => Cpu (upd r d (Z.lxor (r d) (r s))) (carry c)
  | mov d s => Cpu (upd r d (r s)) (carry c)
  | swap d => Cpu (upd r d (Z.lor (u8 (Z.shiftl (r d) 4)) (Z.shiftr (r d) 4))) (carry c)
  | lsr d => Cpu (upd r d (Z.shiftr (r d) 1)) (Z.testbit (r d) 0)
  | ror d => Cpu (upd r d (Z.lor (Z.shiftl (b2z (carry c)) 7) (Z.shiftr (r d) 1))) (Z.testbit (r d) 0)
  | andi d k => Cpu (upd r d (Z.land (r d) k)) (carry c)
  end.
Definition run (p : list instr) (c : cpu) : cpu := foldl (fun c i => exec i c) c p.

(** The operands: [a0] and [b0] hold [%A0] and [%B0], [o1] is [%1], [o2] is [%2]. *)
Definition asm (a0 b0 o1 o2 : nat) : list instr :=
  [eor a0 o2; mov o1 a0; swap o1; eor o1 a0; mov tmp_reg o1; lsr o1; lsr o1; eor o1 tmp_reg;
   mov tmp_reg o1; lsr o1; eor o1 tmp_reg; andi o1 7; mov tmp_reg a0; mov a0 b0; lsr o1;
   ror tmp_reg; ror o1; mov b0 tmp_reg; eor a0 o1; lsr tmp_reg; ror o1; eor b0 tmp_reg; eor a0 o1].

(** [c]: the registers before; [crc] goes in in the registers of the result. *)
Definition crc16_update (a0 b0 o1 o2 : nat) (c : cpu) (crc data : Z) : Z :=
  let r := upd (upd (upd (regs c) o2 data) a0 (crc mod 256)) b0 (crc / 256) in
  let r := regs (run (asm a0 b0 o1 o2) (Cpu r (carry c))) in
  r a0 + 256 * r b0.
End Avr.

(** * The serial interface *)
Inductive pin := PB0 | PB1 | PB2 | PB3 | PB5.
Abbreviation PIN_SPI_MOSI := PB0.
Abbreviation PIN_SPI_MISO := PB1.
Abbreviation PIN_SPI_SCK := PB2.
Abbreviation PIN_SPI_CS0 := PB5.
Inductive usicr_bit := USIWM0 | USITC | USICLK.

(** A register of bits is written with the bits that are set. *)
Class Usi (H : Type) := {
  DDRB : list pin -> H -> H;
  PORTB : list pin -> H -> H;
  PORTB_or : pin -> H -> H;
  PORTB_and_not : pin -> H -> H;
  USICR : list usicr_bit -> H -> H;
  USIDR : Z -> H -> H;
  get_USIDR : H -> Z;
  delay : Z -> H -> H }.

Section Spi.
Context {H : Type} `{Usi H}.

Definition CS_ENABLE : H -> H := PORTB_and_not PIN_SPI_CS0.
Definition CS_DISABLE : H -> H := PORTB_or PIN_SPI_CS0.

Definition spi_run_clock (h : H) : H :=
  let t := [USIWM0; USITC] in
  let c := [USIWM0; USITC; USICLK] in
  foldl (fun h v => USICR v h) h [t; c; t; c; t; c; t; c; t; c; t; c; t; c; t; c].

Definition spi_write (highbyte lowbyte : Z) (h : H) : H :=
  let h := CS_ENABLE h in
  let h := spi_run_clock (USIDR highbyte h) in
  let h := spi_run_clock (USIDR lowbyte h) in
  CS_DISABLE h.

Definition spi_read_write (command : Z) (h : H) : Z * H :=
  let h := CS_ENABLE h in
  let h := spi_run_clock (USIDR command h) in
  let result := get_USIDR h in
  (result, CS_DISABLE h).

(** [crc16]: [_crc16_update] as compiled; a second value it computes is not used. *)
Definition setup (crc16 : Z -> Z -> Z) (h : H) : H :=
  let h := DDRB [PIN_SPI_MISO; PIN_SPI_SCK; PIN_SPI_CS0] h in
  let h := PORTB [PIN_SPI_CS0] h in
  let h := USICR [USIWM0] h in
  let x := crc16 0x1234 0x56 in
  spi_write 0x0f (Z.land x 0xff) h.

Definition loop (h : H) : H :=
  let h := spi_write 0x5a 0xa5 h in
  let (byte1, h) := spi_read_write 0x00 h in
  delay 5000 h.
End Spi.
