(* ===== verification/DigisparkFacts.v ===== *)
(** The checksum of the digispark's sketch against the one it is named after, and
    what its SPI routines put on the wire. *)
From S2P Require Import Prelude Digispark.

(** * The checksum *)
Section Crc16.
Import Avr.

(** The reference: CRC-16 with the polynomial 0xA001, least significant bit
    first. *)
Definition crc16_shift (c : Z) : Z :=
  if Z.testbit c 0 then Z.lxor (Z.shiftr c 1) 0xA001 else Z.shiftr c 1.
Definition crc16_byte (crc data : Z) : Z := iter_n 8 crc16_shift (Z.lxor crc data).
Definition crc16 (crc : Z) (bs : list Z) : Z := foldl crc16_byte crc bs.

Lemma lxor_byte crc data :
  0 <= crc -> byte_ok data -> Z.lxor crc data = Z.lxor (crc mod 256) data + 256 * (crc / 256).
Proof.
  intros Hc Hd. assert (Hm : byte_ok (Z.lxor (crc mod 256) data)) by (apply fits_lxor; [lia|word_lia|done]).
  rewrite Z.add_comm, Z.mul_comm, <- (lor_add_disjoint (crc / 256) _ 8) by done.
  apply Z.bits_inj'; intros i Hi. rewrite Z.lxor_spec, Z.lor_spec.
  change (crc mod 256) with (crc mod 2 ^ 8). change (crc / 256) with (crc / 2 ^ 8).
  destruct (decide (i < 8)).
  - rewrite Z.shiftl_spec_low, Z.lxor_spec, Z.mod_pow2_bits_low by done. done.
  - rewrite Z.shiftl_spec, Z.div_pow2_bits, (fits_high_bits 8 (Z.lxor _ _) i), (fits_high_bits 8 data i) by (done || lia).
    rewrite orb_false_r, xorb_false_r. f_equal; lia.
Qed.

(** Eight shifts of a value whose low byte is zero. *)
Lemma shift_zero c : crc16_byte (256 * c) 0 = c.
Proof.
  unfold crc16_byte. rewrite Z.lxor_0_r.
  assert (E : forall n c, crc16_shift (2 ^ Z.of_nat (S n) * c) = 2 ^ Z.of_nat n * c).
  { clear. intros n c. unfold crc16_shift. rewrite Nat2Z.inj_succ, Z.pow_succ_r by lia.
    rewrite <- Z.mul_assoc, Z.testbit_even_0, Z.shiftr_div_pow2 by done.
    change (2 ^ 1) with 2. rewrite Z.mul_comm, Z.div_mul; lia. }
  change (256 * c) with (2 ^ Z.of_nat 8 * c). cbn [iter_n]. rewrite !E. apply Z.mul_1_l.
Qed.

Lemma crc16_byte_range crc data : fits 16 crc -> byte_ok data -> fits 16 (crc16_byte crc data).
Proof.
  intros Hc Hd. apply (iter_n_inv (fits 16)).
  - intros c H. unfold crc16_shift. assert (fits 16 (Z.shiftr c 1)) by
      (rewrite Z.shiftr_div_pow2 by done; change (2 ^ 1) with 2; word_lia).
    destruct (Z.testbit c 0); [apply fits_lxor; done|done].
  - apply fits_lxor; [done..|word_lia].
Qed.

Lemma crc16_range crc bs : fits 16 crc -> bytes_ok bs -> fits 16 (crc16 crc bs).
Proof.
  intros Hc Hb. revert crc Hc. induction Hb as [|b bs Hb _ IH]; intros crc Hc; [done|].
  by apply IH, crc16_byte_range.
Qed.

(** A message followed by its checksum has the checksum zero. *)
Lemma crc16_residue crc bs : fits 16 crc -> bytes_ok bs -> crc16 crc (bs ++ le16 (crc16 crc bs)) = 0.
Proof.
  intros Hc Hb. pose proof (crc16_range crc bs Hc Hb) as Hv. unfold crc16 at 1. rewrite foldl_app.
  fold (crc16 crc bs). generalize dependent (crc16 crc bs). intros v Hv. unfold le16. cbn [foldl].
  rewrite (Z.mod_small (v / 256)) by word_lia.
  assert (E : forall c d, crc16_byte c d = crc16_byte (Z.lxor c d) 0)
    by (intros; unfold crc16_byte; by rewrite Z.lxor_0_r).
  rewrite E, (E v), (lxor_byte v) by word_lia. rewrite Z.lxor_nilpotent, Z.add_0_l, shift_zero, Z.lxor_nilpotent.
  done.
Qed.

(** ** Renaming registers *)
Definition rename (s : nat -> nat) (i : instr) : instr :=
  match i with
  | eor d r => eor (s d) (s r) | mov d r => mov (s d) (s r) | swap d => swap (s d)
  | lsr d => lsr (s d) | ror d => ror (s d) | andi d k => andi (s d) k
  end.
Definition uses (i : instr) : list nat :=
  match i with eor d r | mov d r => [d; r] | swap d | lsr d | ror d | andi d _ => [d] end.

Definition agree (s : nat -> nat) (live : list nat) (c c' : cpu) : Prop :=
  carry c = carry c' /\ forall n, n ∈ live -> regs c (s n) = regs c' n.

Lemma upd_agree s live c c' d v (cr : bool) :
  (forall n m, n ∈ live -> m ∈ live -> s n = s m -> n = m) -> d ∈ live -> agree s live c c' ->
  agree s live (Cpu (upd (regs c) (s d) v) cr) (Cpu (upd (regs c') d v) cr).
Proof.
  intros Hs Hd [_ Hr]. split; [done|]. intros n Hn. unfold upd; simpl.
  destruct (decide (n = d)) as [->|N]; [by rewrite decide_True|].
  rewrite decide_False by (intros E; apply N; by apply Hs). by apply Hr.
Qed.

(** A program does the same on the registers it uses, however they are named. *)
Lemma run_agree s live p c c' :
  (forall n m, n ∈ live -> m ∈ live -> s n = s m -> n = m) ->
  Forall (fun i => Forall (.∈ live) (uses i)) p -> agree s live c c' ->
  agree s live (run (rename s <$> p) c) (run p c').
Proof.
  intros Hs Hp. revert c c'. induction Hp as [|i p Hi _ IH]; intros c c' Ha; [done|].
  cbn [fmap list_fmap]. unfold run in *. cbn [foldl]. apply IH.
  destruct (Ha) as [Hc Hr].
  destruct i; cbn [rename exec uses] in *; rewrite ?Forall_cons in Hi; destruct_and? Hi;
    rewrite ?Hc, ?Hr by done; by apply upd_agree.
Qed.

(** ** The rest of the routine, with 0 for the scratch register, 1 for [%1], 2 and
    3 for the result *)
Definition named (a0 b0 o1 n : nat) : nat :=
  match n with 0 => tmp_reg | 1 => o1 | 2 => a0 | _ => b0 end%nat.
Definition rest : list instr := tail (asm 2 3 1 4).

Lemma asm_rest a0 b0 o1 o2 : asm a0 b0 o1 o2 = eor a0 o2 :: (rename (named a0 b0 o1) <$> rest).
Proof. done. Qed.

Definition ready (x hi t o : Z) (cr : bool) : cpu :=
  Cpu (fun n => match n with 0 => t | 1 => o | 2 => x | _ => hi end%nat) cr.
Definition result (x hi t o : Z) (cr : bool) : Z :=
  let r := regs (run rest (ready x hi t o cr)) in r 2%nat + 256 * r 3%nat.

Lemma rename_id (p : list instr) : rename id <$> p = p.
Proof. induction p as [|i p IH]; [done|]. rewrite fmap_cons, IH. by destruct i. Qed.

(** Its result does not depend on what the scratch registers and the carry held. *)
Lemma result_fresh x hi t o cr : result x hi t o cr = result x hi 0 0 false.
Proof.
  assert (Ha : agree id [0; 1; 2; 3]%nat (run (drop 5 rest) (run (take 5 rest) (ready x hi t o cr)))
                 (run (drop 5 rest) (run (take 5 rest) (ready x hi 0 0 false)))).
  { rewrite <- (rename_id (drop 5 rest)) at 1. apply run_agree; [done| |].
    - by apply (bool_decide_unpack _).
    - split; [done|]. intros n Hn. by set_unfold in Hn; destruct_or! Hn; subst. }
  assert (E : forall c, run rest c = run (drop 5 rest) (run (take 5 rest) c))
    by (intros c; unfold run; by rewrite <- foldl_app, take_drop).
  unfold result. rewrite !E. clear E. revert Ha.
  generalize (run (drop 5 rest) (run (take 5 rest) (ready x hi t o cr))).
  generalize (run (drop 5 rest) (run (take 5 rest) (ready x hi 0 0 false))).
  intros c' c [_ Ha]. unfold id in Ha. by rewrite !Ha by set_solver.
Qed.

Lemma result_reference x hi : byte_ok x -> byte_ok hi -> result x hi 0 0 false = iter_n 8 crc16_shift (x + 256 * hi).
Proof.
  intros Hx Hh.
  assert (E : forallb (fun x => forallb (fun hi =>
    result x hi 0 0 false =? iter_n 8 crc16_shift (x + 256 * hi)) (below 256)) (below 256) = true) by (by vm_compute).
  pose proof (forall_below _ _ E x Hx) as Ex. apply Z.eqb_eq. exact (forall_below _ _ Ex hi Hh).
Qed.

(** The first instruction leaves the sum of data and low byte in [%A0]. *)
Lemma run_asm a0 b0 o1 o2 r cr :
  NoDup [tmp_reg; o1; a0; b0] ->
  let c := run (asm a0 b0 o1 o2) (Cpu r cr) in
  regs c a0 + 256 * regs c b0 = result (Z.lxor (r a0) (r o2)) (r b0) (r tmp_reg) (r o1) cr.
Proof.
  intros Hd. rewrite asm_rest. cbv zeta. unfold result.
  change (run (eor a0 o2 :: ?p) ?c) with (run p (exec (eor a0 o2) c)).
  assert (Hs : forall n m, n ∈ [0; 1; 2; 3]%nat -> m ∈ [0; 1; 2; 3]%nat ->
            named a0 b0 o1 n = named a0 b0 o1 m -> n = m).
  { intros n m Hn Hm. rewrite !NoDup_cons in Hd. set_unfold in Hn. set_unfold in Hm.
    destruct_or! Hn; destruct_or! Hm; subst; cbn [named]; set_solver. }
  pose proof (run_agree (named a0 b0 o1) [0; 1; 2; 3]%nat rest (exec (eor a0 o2) (Cpu r cr))
    (ready (Z.lxor (r a0) (r o2)) (r b0) (r tmp_reg) (r o1) cr) Hs) as Ha.
  revert Ha. generalize (run (rename (named a0 b0 o1) <$> rest) (exec (eor a0 o2) (Cpu r cr))).
  generalize (run rest (ready (Z.lxor (r a0) (r o2)) (r b0) (r tmp_reg) (r o1) cr)).
  intros c' c Ha. destruct Ha as [_ Ha]; [by apply (bool_decide_unpack _)| |].
  - split; [done|]. rewrite !NoDup_cons in Hd. intros n Hn. set_unfold in Hn.
    destruct_or! Hn; subst; cbn [named exec regs ready]; unfold upd; case_decide; try done; set_solver.
  - rewrite <- (Ha 2%nat), <- (Ha 3%nat) by set_solver. done.
Qed.

(** C40: in whatever registers the compiler puts its operands, the one it may let
    [%1] and [%2] share included, and whatever the scratch register and the carry
    held, the assembly of [_crc16_update] computes CRC-16 (0xA001). *)
Theorem crc16_update_reference a0 b0 o1 o2 c crc data :
  NoDup [tmp_reg; o1; a0; b0] -> ~ o2 ∈ [a0; b0] -> fits 16 crc -> byte_ok data ->
  crc16_update a0 b0 o1 o2 c crc data = crc16_byte crc data.
Proof.
  intros Hd Ho Hc Hb. unfold crc16_update. cbn zeta. cbn [regs carry].
  rewrite (run_asm _ _ _ _ _ _ Hd), result_fresh. unfold crc16_byte.
  assert (a0 <> b0 /\ o2 <> a0 /\ o2 <> b0) as (? & ? & ?) by (rewrite !NoDup_cons in Hd; set_solver).
  unfold upd. repeat first [case_decide; [congruence|]|case_decide; [|congruence]].
  rewrite result_reference; [f_equal; symmetry; apply lxor_byte; [apply Hc|done]|apply fits_lxor; [lia|word_lia|done]|word_lia].
Qed.
End Crc16.

Lemma crc16_update_reference_witness :
  NoDup [Avr.tmp_reg; 18; 24; 25]%nat
  /\ Avr.crc16_update 24 25 18 18 (Avr.Cpu (fun n => Z.of_nat n * 7) true) 0x1234 0x56 = crc16_byte 0x1234 0x56.
Proof.
  assert (Hd : NoDup [Avr.tmp_reg; 18; 24; 25]%nat) by (by apply (bool_decide_unpack _)).
  split; [exact Hd|].
  apply (crc16_update_reference 24 25 18 18 (Avr.Cpu (fun n => Z.of_nat n * 7) true) 0x1234 0x56 Hd);
    [by apply (bool_decide_unpack _)|by apply (bool_decide_unpack _)|by apply (bool_decide_unpack _)].
Defined.

(** * The serial interface *)

(** What the data sheet says of the three-wire mode driven by software, and of a
    slave in SPI mode 0: a write with [USITC] toggles the clock, one with [USICLK]
    shifts in what the slave drives; the slave takes the bit at the data register's
    top when the clock rises. [heard]: what it took since it was selected, [drives]:
    the bits it drives, one per clock. *)
Class UsiWire (H : Type) `{Usi H} := {
  clock_high : H -> bool;
  selected : H -> bool;
  heard : H -> list bool;
  drives : H -> list bool;
  USIDR_byte h : byte_ok (get_USIDR h);
  PORTB_law h : let h' := PORTB [PIN_SPI_CS0] h in
    clock_high h' = false /\ selected h' = false /\ drives h' = drives h;
  DDRB_law ps h : drives (DDRB ps h) = drives h;
  mode_law h : let h' := USICR [USIWM0] h in
    clock_high h' = clock_high h /\ selected h' = selected h /\ drives h' = drives h;
  select_law h : let h' := PORTB_and_not PIN_SPI_CS0 h in
    clock_high h' = clock_high h /\ selected h' = true
    /\ (selected h = false -> heard h' = []) /\ drives h' = drives h /\ get_USIDR h' = get_USIDR h;
  deselect_law h : let h' := PORTB_or PIN_SPI_CS0 h in
    clock_high h' = clock_high h /\ selected h' = false /\ heard h' = heard h /\ drives h' = drives h;
  USIDR_law v h : byte_ok v -> let h' := USIDR v h in
    clock_high h' = clock_high h /\ selected h' = selected h /\ heard h' = heard h /\ drives h' = drives h
    /\ get_USIDR h' = v;
  rise_law h : clock_high h = false -> selected h = true -> let h' := USICR [USIWM0; USITC] h in
    clock_high h' = true /\ selected h' = true /\ drives h' = drives h /\ get_USIDR h' = get_USIDR h
    /\ heard h' = heard h ++ [Z.testbit (get_USIDR h) 7];
  fall_law h b bs : clock_high h = true -> selected h = true -> drives h = b :: bs ->
    let h' := USICR [USIWM0; USITC; USICLK] h in
    clock_high h' = false /\ selected h' = true /\ heard h' = heard h /\ drives h' = bs
    /\ get_USIDR h' = u8 (2 * get_USIDR h + b2z b) }.

(** The bits of a byte, the most significant first, and back. *)
Definition bits (n : nat) (v : Z) : list bool := (fun i => Z.testbit v (7 - Z.of_nat i)) <$> seq 0 n.
Definition of_bits (bs : list bool) : Z := foldl (fun v b => 2 * v + b2z b) 0 bs.

Lemma testbit_shifted v b i : 0 < i < 8 -> Z.testbit (u8 (2 * v + b2z b)) i = Z.testbit v (i - 1).
Proof.
  intros Hi. unfold trunc. rewrite Z.mod_pow2_bits_low by lia.
  replace i with (Z.succ (i - 1)) at 1 by lia. destruct b; unfold b2z.
  - by rewrite Z.testbit_odd_succ by lia.
  - by rewrite Z.add_0_r, Z.testbit_even_succ by lia.
Qed.

Lemma bits_S n v b : (n < 8)%nat -> bits (S n) v = Z.testbit v 7 :: bits n (u8 (2 * v + b2z b)).
Proof.
  intros Hn. unfold bits. cbn [seq]. rewrite fmap_cons, <- fmap_S_seq, <- list_fmap_compose. f_equal. apply list_fmap_ext. intros i x Hx.
  apply lookup_seq in Hx as [-> Hx]. cbn. rewrite testbit_shifted by lia. f_equal; lia.
Qed.

Section Wire.
Context `{UsiWire H}.

(** One bit: the clock up, the clock down. *)
Lemma pulse h b bs :
  clock_high h = false -> selected h = true -> drives h = b :: bs ->
  let h' := USICR [USIWM0; USITC; USICLK] (USICR [USIWM0; USITC] h) in
  clock_high h' = false /\ selected h' = true /\ drives h' = bs
  /\ heard h' = heard h ++ [Z.testbit (get_USIDR h) 7] /\ get_USIDR h' = u8 (2 * get_USIDR h + b2z b).
Proof.
  intros Hc Hs Hd. destruct (rise_law h Hc Hs) as (Hc1 & Hs1 & Hd1 & Hv1 & Hh1). rewrite Hd in Hd1.
  destruct (fall_law _ b bs Hc1 Hs1 Hd1) as (Hc2 & Hs2 & Hh2 & Hd2 & Hv2).
  rewrite Hh1 in Hh2. rewrite Hv1 in Hv2. done.
Qed.

Definition pulses (n : nat) : list (list usicr_bit) :=
  concat (replicate n [[USIWM0; USITC]; [USIWM0; USITC; USICLK]]).

Lemma run_pulses bs rest h :
  (length bs <= 8)%nat -> clock_high h = false -> selected h = true -> drives h = bs ++ rest ->
  let h' := foldl (fun h v => USICR v h) h (pulses (length bs)) in
  clock_high h' = false /\ selected h' = true /\ drives h' = rest
  /\ heard h' = heard h ++ bits (length bs) (get_USIDR h)
  /\ get_USIDR h' mod 256 = foldl (fun v b => 2 * v + b2z b) (get_USIDR h) bs mod 256.
Proof.
  revert h. induction bs as [|b bs IH]; intros h Hl Hc Hs Hd; [by rewrite app_nil_r|].
  destruct (pulse h b (bs ++ rest) Hc Hs Hd) as (Hc1 & Hs1 & Hd1 & Hh1 & Hv1).
  destruct (IH _ ltac:(simpl in Hl; lia) Hc1 Hs1 Hd1) as (Hc2 & Hs2 & Hd2 & Hh2 & Hv2).
  change (foldl (fun h v => USICR v h) h (pulses (length (b :: bs)))) with
    (foldl (fun h v => USICR v h) (USICR [USIWM0; USITC; USICLK] (USICR [USIWM0; USITC] h)) (pulses (length bs))).
  cbv zeta. split_and!; [done..| |].
  - rewrite Hh2, Hh1, Hv1, <- app_assoc. cbn [length]. by rewrite (bits_S _ _ b) by (simpl in Hl; lia).
  - rewrite Hv2, Hv1. cbn [foldl]. clear. generalize (2 * get_USIDR h + b2z b). unfold trunc. change (2 ^ 8) with 256.
    assert (E : forall bs v v', v mod 256 = v' mod 256 ->
      foldl (fun v b => 2 * v + b2z b) v bs mod 256 = foldl (fun v b => 2 * v + b2z b) v' bs mod 256).
    { clear. induction bs as [|b bs IH]; intros v v' E; [done|]. apply IH. unfold b2z. destruct b; Z.div_mod_to_equations; lia. }
    intros v. apply E. by rewrite Z.mod_mod.
Qed.

Lemma of_bits_range bs : 0 <= of_bits bs < 2 ^ Z.of_nat (length bs).
Proof.
  unfold of_bits. assert (E : forall bs v n, 0 <= v < 2 ^ n -> 0 <= n ->
    0 <= foldl (fun v b => 2 * v + b2z b) v bs < 2 ^ (n + Z.of_nat (length bs))).
  { clear. induction bs as [|b bs IH]; intros v n Hv Hn; [by rewrite Z.add_0_r|].
    cbn [foldl length]. replace (n + Z.of_nat (S (length bs))) with (Z.succ n + Z.of_nat (length bs)) by lia.
    apply IH; [|lia]. rewrite Z.pow_succ_r by done. destruct b; unfold b2z; lia. }
  by apply (E bs 0 0).
Qed.

Lemma foldl_bits bs v : foldl (fun v b => 2 * v + b2z b) v bs = v * 2 ^ Z.of_nat (length bs) + of_bits bs.
Proof.
  unfold of_bits. revert v. assert (E : forall bs v, foldl (fun v b => 2 * v + b2z b) v bs
    = v * 2 ^ Z.of_nat (length bs) + foldl (fun v b => 2 * v + b2z b) 0 bs); [|by apply E].
  clear. induction bs as [|b bs IH]; intros v; [cbn; lia|]. cbn [foldl length].
  rewrite IH, (IH (2 * 0 + b2z b)), Nat2Z.inj_succ, Z.pow_succ_r by lia. lia.
Qed.

(** A byte goes out and one comes in. *)
Lemma spi_run_clock_byte v bs rest h :
  length bs = 8%nat -> byte_ok v -> clock_high h = false -> selected h = true -> drives h = bs ++ rest ->
  let h' := spi_run_clock (USIDR v h) in
  clock_high h' = false /\ selected h' = true /\ drives h' = rest
  /\ heard h' = heard h ++ bits 8 v /\ get_USIDR h' = of_bits bs.
Proof.
  intros Hl Hv Hc Hs Hd. destruct (USIDR_law v h Hv) as (E1 & E2 & E3 & E4 & E5). rewrite <- E4 in Hd.
  destruct (run_pulses bs rest (USIDR v h)) as (Hc' & Hs' & Hd' & Hh' & Hv'); [lia|congruence..|].
  rewrite Hl in *. cbv zeta. change (spi_run_clock (USIDR v h)) with
    (foldl (fun h v => USICR v h) (USIDR v h) (pulses 8)).
  split_and!; [done..|by rewrite Hh', E3, E5|].
  rewrite foldl_bits, Hl in Hv'. pose proof (of_bits_range bs) as Hr. rewrite Hl in Hr.
  pose proof (USIDR_byte (foldl (fun h v => USICR v h) (USIDR v h) (pulses 8))) as Hb. word_lia.
Qed.

(** From an idle bus, [spi_write] makes a slave hear the two bytes, in order and
    the most significant bit first, and leaves the bus idle. *)
Lemma spi_write_heard highbyte lowbyte b1 b2 rest h :
  byte_ok highbyte -> byte_ok lowbyte -> length b1 = 8%nat -> length b2 = 8%nat ->
  clock_high h = false -> selected h = false -> drives h = b1 ++ b2 ++ rest ->
  let h' := spi_write highbyte lowbyte h in
  clock_high h' = false /\ selected h' = false /\ drives h' = rest
  /\ heard h' = bits 8 highbyte ++ bits 8 lowbyte.
Proof.
  intros Hhi Hlo L1 L2 Hc Hs Hd. unfold spi_write, CS_ENABLE, CS_DISABLE. cbv zeta.
  destruct (select_law h) as (Hc0 & Hs0 & Hh0 & Hd0 & _). rewrite Hc in Hc0. rewrite Hd in Hd0.
  destruct (spi_run_clock_byte highbyte b1 (b2 ++ rest) _ L1 Hhi Hc0 Hs0 Hd0) as (Hc1 & Hs1 & Hd1 & Hh1 & _).
  destruct (spi_run_clock_byte lowbyte b2 rest _ L2 Hlo Hc1 Hs1 Hd1) as (Hc2 & Hs2 & Hd2 & Hh2 & _).
  rewrite Hh1, (Hh0 Hs), app_nil_l in Hh2.
  destruct (deselect_law (spi_run_clock (USIDR lowbyte (spi_run_clock (USIDR highbyte (PORTB_and_not PIN_SPI_CS0 h))))))
    as (Hc3 & Hs3 & Hh3 & Hd3).
  by rewrite Hc3, Hs3, Hh3, Hd3.
Qed.

(** The result of [spi_read_write] is what the slave drove while the command was
    still going out: the byte [b1] cannot depend on the command, and the response
    [b2] is never clocked in. *)
Lemma spi_read_write_early command b1 b2 h :
  byte_ok command -> length b1 = 8%nat -> clock_high h = false -> selected h = false -> drives h = b1 ++ b2 ->
  let '(result, h') := spi_read_write command h in
  result = of_bits b1 /\ drives h' = b2 /\ heard h' = bits 8 command /\ selected h' = false.
Proof.
  intros Hv L1 Hc Hs Hd. unfold spi_read_write, CS_ENABLE, CS_DISABLE.
  destruct (select_law h) as (Hc0 & Hs0 & Hh0 & Hd0 & _). rewrite Hc in Hc0. rewrite Hd in Hd0.
  destruct (spi_run_clock_byte command b1 b2 _ L1 Hv Hc0 Hs0 Hd0) as (_ & _ & Hd1 & Hh1 & Hv1).
  rewrite (Hh0 Hs), app_nil_l in Hh1.
  destruct (deselect_law (spi_run_clock (USIDR command (PORTB_and_not PIN_SPI_CS0 h)))) as (_ & Hs3 & Hh3 & Hd3).
  by rewrite Hs3, Hh3, Hd3.
Qed.

(** [setup] sends 0x0f and the low byte of the checksum. *)
Lemma setup_sends crc16 b1 b2 rest h :
  crc16 0x1234 0x56 = crc16_byte 0x1234 0x56 -> length b1 = 8%nat -> length b2 = 8%nat -> drives h = b1 ++ b2 ++ rest ->
  let h' := setup crc16 h in
  clock_high h' = false /\ selected h' = false /\ drives h' = rest /\ heard h' = bits 8 0x0f ++ bits 8 0x93.
Proof.
  intros E L1 L2 Hd. unfold setup. rewrite E. cbv zeta.
  change (Z.land (crc16_byte 4660 86) 255) with 0x93.
  destruct (PORTB_law (DDRB [PIN_SPI_MISO; PIN_SPI_SCK; PIN_SPI_CS0] h)) as (Hc & Hs & Hd1).
  rewrite DDRB_law, Hd in Hd1.
  destruct (mode_law (PORTB [PIN_SPI_CS0] (DDRB [PIN_SPI_MISO; PIN_SPI_SCK; PIN_SPI_CS0] h))) as (Hc2 & Hs2 & Hd2).
  rewrite Hc in Hc2. rewrite Hs in Hs2. rewrite Hd1 in Hd2.
  by apply (spi_write_heard _ _ b1 b2 rest).
Qed.
End Wire.

(** ** A simulated ATtiny85 and its slave *)
Record tiny := Tiny { t_port : list pin; t_data : Z; t_heard : list bool; t_drives : list bool }.

#[local] Instance pin_eq : EqDecision pin. Proof. solve_decision. Defined.
#[local] Instance usicr_bit_eq : EqDecision usicr_bit. Proof. solve_decision. Defined.

Definition has (p : pin) (t : tiny) : bool := bool_decide (p ∈ t_port t).
Definition without (p : pin) (ps : list pin) : list pin := filter (fun q => q <> p) ps.
Definition tiny_USICR (v : list usicr_bit) (t : tiny) : tiny :=
  let (d, bs) := if bool_decide (USICLK ∈ v)
                 then (u8 (2 * u8 (t_data t) + b2z (hd false (t_drives t))), tail (t_drives t))
                 else (t_data t, t_drives t) in
  if negb (bool_decide (USITC ∈ v)) then Tiny (t_port t) d (t_heard t) bs
  else if has PB2 t then Tiny (without PB2 (t_port t)) d (t_heard t) bs
  else Tiny (PB2 :: t_port t) d
         (if has PB5 t then t_heard t else t_heard t ++ [Z.testbit (u8 (t_data t)) 7]) bs.

#[local] Instance tiny_usi : Usi tiny := {
  DDRB ps t := t;
  PORTB ps t := Tiny ps (t_data t) (t_heard t) (t_drives t);
  PORTB_or p t := Tiny (p :: t_port t) (t_data t) (t_heard t) (t_drives t);
  PORTB_and_not p t := Tiny (without p (t_port t)) (t_data t)
    (if bool_decide (p = PB5) && has PB5 t then [] else t_heard t) (t_drives t);
  USICR := tiny_USICR;
  USIDR v t := Tiny (t_port t) v (t_heard t) (t_drives t);
  get_USIDR t := u8 (t_data t);
  delay ms t := t }.

Lemma without_other (p q : pin) ps : p <> q -> bool_decide (p ∈ without q ps) = bool_decide (p ∈ ps).
Proof. intros N. apply bool_decide_ext. unfold without. rewrite list_elem_of_filter. naive_solver. Qed.
Lemma without_same (p : pin) ps : bool_decide (p ∈ without p ps) = false.
Proof. apply bool_decide_eq_false_2. unfold without. rewrite list_elem_of_filter. naive_solver. Qed.
Lemma cons_other (p q : pin) ps : p <> q -> bool_decide (p ∈ q :: ps) = bool_decide (p ∈ ps).
Proof. intros N. apply bool_decide_ext. rewrite elem_of_cons. naive_solver. Qed.
Lemma cons_same (p : pin) ps : bool_decide (p ∈ p :: ps) = true.
Proof. apply bool_decide_eq_true_2. left. Qed.

Lemma tiny_rise t :
  has PB2 t = false -> has PB5 t = false ->
  tiny_USICR [USIWM0; USITC] t
  = Tiny (PB2 :: t_port t) (t_data t) (t_heard t ++ [Z.testbit (u8 (t_data t)) 7]) (t_drives t).
Proof. intros H2 H5. unfold tiny_USICR. rewrite H2, H5. done. Qed.

Lemma tiny_fall t b bs :
  has PB2 t = true -> t_drives t = b :: bs ->
  tiny_USICR [USIWM0; USITC; USICLK] t
  = Tiny (without PB2 (t_port t)) (u8 (2 * u8 (t_data t) + b2z b)) (t_heard t) bs.
Proof. intros H2 Hd. unfold tiny_USICR. rewrite H2, Hd. done. Qed.

#[local] Instance tiny_wire : UsiWire tiny.
Proof.
  refine {| clock_high := has PB2; selected t := negb (has PB5 t); heard := t_heard; drives := t_drives |}.
  - intros h. apply u8_ok.
  - done.
  - done.
  - done.
  - intros h. cbn. unfold has. cbn. rewrite without_same, without_other by done.
    split_and!; try done. by intros ->%negb_false_iff.
  - intros h. unfold has. cbn. by rewrite cons_same, cons_other.
  - intros v h Hv. split_and!; try done. by apply trunc_small.
  - intros h Hc Hs%negb_true_iff. cbn zeta. change (USICR ?v h) with (tiny_USICR v h).
    rewrite (tiny_rise h Hc Hs). unfold has in *. cbn [t_port t_data t_heard t_drives].
    rewrite cons_same, cons_other by done. by rewrite Hs.
  - intros h b bs Hc Hs%negb_true_iff Hd. cbn zeta. change (USICR ?v h) with (tiny_USICR v h).
    rewrite (tiny_fall h b bs Hc Hd). unfold has in *. cbn [t_port t_data t_heard t_drives].
    rewrite without_same, without_other, Hs by done. split_and!; try done. apply trunc_trunc. lia.
Defined.

(** A slave that answers 0x12 to the command: the sketch reads what it drove
    before. *)
Example digispark_demo :
  let idle := Tiny [PB5] 0 [] (bits 8 0xff ++ bits 8 0x12) in
  let '(result, t) := spi_read_write 0x00 idle in
  result = 0xff /\ heard t = bits 8 0x00 /\ drives t = bits 8 0x12.
Proof. by vm_compute. Qed.
