(* ===== verification/Radio.v ===== *)
(** The microcontroller's SX1276 LoRa driver:
    [src/software/mcu/libraries/SX1276lib/sx1276.cpp], [sx1276.h] and
    [sx1276reg.h].

    The chip is reached through SPI transactions of two bytes (class [Spi],
    Arduino's SPI library and chip select); [delay] is Arduino's. Debug output
    is left out. The receive loop polls the chip until it reports something, so
    it has fuel; [None] is running out of it. *)
From S2P Require Import Prelude.

(** * Registers (sx1276reg.h) *)
Definition SX1276REG_Fifo := 0x00.
Definition SX1276REG_OpMode := 0x01.
Definition SX1276REG_FrfMsb := 0x06.
Definition SX1276REG_FrfMid := 0x07.
Definition SX1276REG_FrfLsb := 0x08.
Definition SX1276REG_PaConfig := 0x09.
Definition SX1276REG_Ocp := 0x0B.
Definition SX1276REG_FifoAddrPtr := 0x0D.
Definition SX1276REG_FifoTxBaseAddr := 0x0E.
Definition SX1276REG_FifoRxBaseAddr := 0x0F.
Definition SX1276REG_IrqFlagsMask := 0x11.
Definition SX1276REG_IrqFlags := 0x12.
Definition SX1276REG_FifoRxNbBytes := 0x13.
Definition SX1276REG_RxHeaderCntValueMsb := 0x14.
Definition SX1276REG_RxHeaderCntValueLsb := 0x15.
Definition SX1276REG_RxPacketCntValueMsb := 0x16.
Definition SX1276REG_RxPacketCntValueLsb := 0x17.
Definition SX1276REG_ModemStat := 0x18.
Definition SX1276REG_PacketSnr := 0x19.
Definition SX1276REG_PacketRssi := 0x1A.
Definition SX1276REG_Rssi := 0x1B.
Definition SX1276REG_ModemConfig1 := 0x1D.
Definition SX1276REG_ModemConfig2 := 0x1E.
Definition SX1276REG_SymbTimeoutLsb := 0x1F.
Definition SX1276REG_PreambleLSB := 0x21.
Definition SX1276REG_PayloadLength := 0x22.
Definition SX1276REG_MaxPayloadLength := 0x23.
Definition SX1276REG_FifoRxByteAddrPtr := 0x25.
Definition SX1276REG_DioMapping1 := 0x40.
Definition SX1276REG_DioMapping2 := 0x41.
Definition SX1276REG_Version := 0x42.
Definition SX1276REG_PaDac := 0x4d.

(** The codes of the bandwidths, in the order of the SX1276_LORA_BW constants. *)
Definition bandwidths : list Z :=
  [7800; 10400; 15600; 20800; 31250; 41700; 62500; 125000; 250000; 500000].

(** [0], the code of the narrowest bandwidth, for an unknown one. *)
Definition BandwidthToBitfield (bandwidth_hz : Z) : Z :=
  match list_find (eq bandwidth_hz) bandwidths with
  | Some (i, _) => Z.of_nat i
  | None => 0
  end.

(** [None]: the function ends without returning a value. *)
Definition BitfieldToBandwidth (bitfield : Z) : option Z :=
  if bitfield <? 0 then None else bandwidths !! Z.to_nat bitfield.

Definition CodingRateToBitfield (coding_rate : Z) : Z :=
  if coding_rate =? 5 then 0x01 else if coding_rate =? 6 then 0x02
  else if coding_rate =? 7 then 0x03 else if coding_rate =? 8 then 0x04 else 0.

(** * The bus (not under src/) *)
Class Spi (W : Type) := {
  transaction : Z -> Z -> W -> Z * W;   (* address byte, data byte; the second byte read *)
  delay : Z -> W -> W }.

(** * The driver's state *)
Record radio := Radio {
  symbol_timeout_ : Z;
  preamble_ : Z;
  max_tx_payload_bytes_ : Z;
  max_rx_payload_bytes_ : Z;
  bandwidth_hz_ : Z;
  spreading_factor_ : Z;
  coding_rate_ : Z;
  rssi_dbm_ : Z;
  rx_snr_db_ : Z;
  rx_warm_ : bool;
  dead_ : bool }.

Definition new_SX1276Radio : radio := Radio 366 0x8 0x80 0x80 125000 9 6 (-255) (-255) false true.

Definition with_warm (b : bool) (r : radio) : radio :=
  Radio (symbol_timeout_ r) (preamble_ r) (max_tx_payload_bytes_ r) (max_rx_payload_bytes_ r)
    (bandwidth_hz_ r) (spreading_factor_ r) (coding_rate_ r) (rssi_dbm_ r) (rx_snr_db_ r) b (dead_ r).
Definition with_alive (r : radio) : radio :=
  Radio (symbol_timeout_ r) (preamble_ r) (max_tx_payload_bytes_ r) (max_rx_payload_bytes_ r)
    (bandwidth_hz_ r) (spreading_factor_ r) (coding_rate_ r) (rssi_dbm_ r) (rx_snr_db_ r)
    (rx_warm_ r) false.
Definition with_quality (rssi snr : Z) (r : radio) : radio :=
  Radio (symbol_timeout_ r) (preamble_ r) (max_tx_payload_bytes_ r) (max_rx_payload_bytes_ r)
    (bandwidth_hz_ r) (spreading_factor_ r) (coding_rate_ r) rssi snr (rx_warm_ r) (dead_ r).

(** * Time on air, in integer arithmetic: [/] and [%] of [int] truncate; the
    sums with [bandwidth_hz_] are unsigned. With the settings of the datasheet the
    products of [int]s do not overflow ([RadioFacts.predict_eq]); with others the
    source leaves the result undefined, and the wrapped one stands for it. *)
Definition PredictTimeOnAir (r : radio) (payload_len : Z) : Z :=
  let N := Z.shiftl payload_len 3 - 4 * spreading_factor_ r + 28 + 16 in
  let D := 4 * spreading_factor_ r in
  let N := Z.quot N D in
  let N := if negb (Z.rem N D =? 0) then N + 1 else N in
  let N := N * coding_rate_ r in
  let N := if N <? 0 then 0 else N in
  let N := N + 8 in
  let Tpreamble := u32 ((1000 * preamble_ r + 4250) * Z.shiftl 1 (spreading_factor_ r)) / bandwidth_hz_ r in
  let Tpayload := u32 (1000 * N * Z.shiftl 1 (spreading_factor_ r)) / bandwidth_hz_ r in
  s32 (Tpreamble + Tpayload).

Section Driver.
Context {W : Type} `{Spi W}.

(** A method runs over the object and the chip. *)
Abbreviation M := (ST (radio * W)).
Definition chip {A} (f : W -> A * W) : M A :=
  fun '(r, w) => let '(a, w) := f w in Some (a, (r, w)).
Definition this : M radio := fun '(r, w) => Some (r, (r, w)).
Definition set_this (f : radio -> radio) : M () := fun '(r, w) => Some ((), (f r, w)).

Definition ReadRegister (reg : Z) : M Z := chip (transaction reg 0).
Definition pause (ms : Z) : M () := chip (fun w => ((), delay ms w)).
Definition WriteRegister (reg val : Z) (verify : bool) : M () :=
  chip (transaction (u8 (reg + 0x80)) val);;
  when verify (pause 10;; ReadRegister reg;; mret ()).

Definition ReadVersion : M Z := ReadRegister SX1276REG_Version.

Definition Begin : M bool :=
  v ← ReadRegister SX1276REG_OpMode;
  WriteRegister SX1276REG_OpMode (Z.land v 0xf8) true;;
  WriteRegister SX1276REG_OpMode 0x80 true;;
  WriteRegister SX1276REG_OpMode 0x81 true;;
  WriteRegister SX1276REG_Ocp (Z.lor (Z.shiftl 1 5) 0x0B) false;;
  v ← ReadRegister SX1276REG_OpMode;
  if negb (v =? 0x81) then mret false
  else
    set_this with_alive;;
    r ← this;
    WriteRegister SX1276REG_ModemConfig1
      (u8 (Z.lor (Z.lor (Z.shiftl (BandwidthToBitfield (bandwidth_hz_ r)) 4)
             (Z.shiftl (CodingRateToBitfield (coding_rate_ r)) 1)) 0x0)) false;;
    WriteRegister SX1276REG_ModemConfig2
      (u8 (Z.lor (Z.lor (Z.lor (Z.shiftl (spreading_factor_ r) 4) (Z.shiftl 0 3)) (Z.shiftl 1 2))
             (Z.land (Z.shiftr (symbol_timeout_ r) 8) 0x03))) false;;
    WriteRegister SX1276REG_SymbTimeoutLsb (Z.land (symbol_timeout_ r) 0xff) false;;
    WriteRegister SX1276REG_DioMapping1 0x41 false;;
    WriteRegister SX1276REG_DioMapping2 0x20 false;;
    WriteRegister SX1276REG_PreambleLSB (u8 (preamble_ r)) false;;
    mret true.

Definition ReadCarrier : M Z :=
  v0 ← ReadRegister SX1276REG_FrfMsb;
  v1 ← ReadRegister SX1276REG_FrfMid;
  v2 ← ReadRegister SX1276REG_FrfLsb;
  let Frf := Z.lor (Z.lor (Z.shiftl v0 16) (Z.shiftl v1 8)) v2 in
  mret (u32 (Z.shiftr (32000000 * Frf) 19)).

Definition SetCarrier (carrier_hz : Z) : M () :=
  set_this (with_warm false);;
  let Frf := carrier_hz * Z.shiftl 1 19 / 32000000 in
  WriteRegister SX1276REG_FrfMsb (u8 (Z.shiftr Frf 16)) false;;
  WriteRegister SX1276REG_FrfMid (u8 (Z.shiftr Frf 8)) false;;
  WriteRegister SX1276REG_FrfLsb (Z.land Frf 0xff) false.

Definition Standby : M () :=
  WriteRegister SX1276REG_OpMode 0x81 false;;
  pause 10;;
  set_this (with_warm false).

(** ** Transmitting *)
Fixpoint write_fifo (payload : list Z) : M () :=
  match payload with
  | [] => mret ()
  | b :: payload => WriteRegister SX1276REG_Fifo b false;; write_fifo payload
  end.

(** The wait for TX DONE: [ticks] polls 10 ms apart after the first. (The
    prediction is not negative with the settings of the datasheet; where it
    overflows, a negative number of ticks is taken as none.) *)
Fixpoint wait_tx (ticks : nat) : M bool :=
  v ← ReadRegister SX1276REG_IrqFlags;
  if z2b (Z.land v (Z.shiftl 1 3)) then mret true
  else match ticks with
       | O => mret false
       | S ticks => pause 10;; wait_tx ticks
       end.

(** [payload] holds the [len] bytes the caller passes. *)
Definition TransmitMessage (payload : list Z) (len : Z) : M bool :=
  r ← this;
  let len := if max_tx_payload_bytes_ r <? len then max_tx_payload_bytes_ r else len in
  set_this (with_warm false);;
  WriteRegister SX1276REG_OpMode 0x81 false;;
  pause 10;;
  let FIFO_START := u8 (0xff - max_tx_payload_bytes_ r + 1) in
  WriteRegister SX1276REG_FifoTxBaseAddr FIFO_START false;;
  WriteRegister SX1276REG_FifoAddrPtr FIFO_START false;;
  WriteRegister SX1276REG_MaxPayloadLength (max_tx_payload_bytes_ r) false;;
  WriteRegister SX1276REG_PayloadLength len false;;
  write_fifo (take (Z.to_nat len) payload);;
  ReadRegister SX1276REG_FifoAddrPtr;;
  WriteRegister SX1276REG_IrqFlagsMask 0xf7 false;;
  WriteRegister SX1276REG_IrqFlags 0xff false;;
  WriteRegister SX1276REG_OpMode 0x83 false;;
  wait_tx (Z.to_nat (1 + Z.quot (PredictTimeOnAir r len) 10)).

(** ** Receiving *)
Definition RX_BASE_ADDR := 0x0.

Definition ReceiveInit : M () :=
  r ← this;
  if rx_warm_ r then mret ()
  else
    WriteRegister SX1276REG_OpMode 0x81 false;;
    pause 10;;
    WriteRegister SX1276REG_FifoTxBaseAddr (Z.lor (Z.shiftl 0x4 5) 0x00) false;;
    WriteRegister SX1276REG_MaxPayloadLength (max_rx_payload_bytes_ r) false;;
    WriteRegister SX1276REG_PayloadLength (max_rx_payload_bytes_ r) false;;
    WriteRegister SX1276REG_FifoRxBaseAddr RX_BASE_ADDR false;;
    WriteRegister SX1276REG_FifoAddrPtr RX_BASE_ADDR false;;
    WriteRegister SX1276REG_IrqFlagsMask 0x0f false;;
    set_this (with_warm true).

(** The polling loop: RX DONE or symbol timeout, and the last flags read. *)
Fixpoint wait_rx (fuel : nat) : M (bool * Z) :=
  match fuel with
  | O => undefined
  | S fuel =>
      flags ← ReadRegister SX1276REG_IrqFlags;
      if z2b (Z.land flags (Z.shiftl 1 6)) then mret (true, flags)
      else if z2b (Z.land flags (Z.shiftl 1 7)) then mret (false, flags)
      else wait_rx fuel
  end.

(** [(v & 0x80 ? (~v + 1) : v) >> 4] *)
Definition snr_of (v : Z) : Z :=
  Z.shiftr (if z2b (Z.land v 0x80) then Z.lnot v + 1 else v) 4.

Fixpoint read_fifo (n : nat) : M (list Z) :=
  match n with
  | O => mret []
  | S n => v ← ReadRegister SX1276REG_Fifo; rest ← read_fifo n; mret (v :: rest)
  end.

(** The result: the return value, the bytes put into the buffer with
    [received] their number when it returns true, and [crc_error]. *)
Record reception := Reception { ok : bool; bytes : list Z; crc_error : bool }.

Definition ReceiveMessage (fuel : nat) (size : Z) : M reception :=
  if size <? 1 then mret (Reception false [] false)
  else
    ReceiveInit;;
    WriteRegister SX1276REG_IrqFlags 0xff false;;
    WriteRegister SX1276REG_OpMode 0x86 false;;
    '(done, flags) ← wait_rx fuel;
    v ← ReadRegister SX1276REG_Rssi;
    set_this (with_quality (-137 + v) (-255));;
    if negb done then mret (Reception false [] false)
    else
      ReadRegister SX1276REG_PacketRssi;;
      snr ← ReadRegister SX1276REG_PacketSnr;
      ReadRegister SX1276REG_ModemStat;;
      set_this (fun r => with_quality (rssi_dbm_ r) (snr_of snr) r);;
      payloadSizeBytes ← ReadRegister SX1276REG_FifoRxNbBytes;
      ReadRegister SX1276REG_RxHeaderCntValueMsb;;
      ReadRegister SX1276REG_RxHeaderCntValueLsb;;
      ReadRegister SX1276REG_RxPacketCntValueMsb;;
      ReadRegister SX1276REG_RxPacketCntValueLsb;;
      ReadRegister SX1276REG_FifoRxByteAddrPtr;;
      let payloadSizeBytes := u8 (payloadSizeBytes - 1) in
      if Z.land flags (Z.shiftl 1 5) =? 1 then mret (Reception false [] true)
      else if size <? payloadSizeBytes then mret (Reception false [] false)
      else
        l ← read_fifo (Z.to_nat payloadSizeBytes);
        mret (Reception true l false).
End Driver.
