(* ===== verification/RadioFacts.v ===== *)
(** The microcontroller's LoRa driver against the chip.

    Class [Sx1276] states what the driver relies on of the SX1276: plain
    registers hold what is written, the FIFO pointer advances with each access,
    writing TX mode to OpMode sends [PayloadLength] bytes from [FifoTxBaseAddr],
    writing RX single mode ends, after some polls of IrqFlags, in RX DONE or a
    symbol timeout. [sim_chip] is a chip that satisfies it. *)
From S2P Require Import Prelude Radio.

(** * The chip *)

(** How a reception in RX single mode ends; [crc_bad] is bit 5 of IrqFlags. *)
Inductive event := Quiet | Packet (p : list Z) (crc_bad : bool).

Record view := View {
  regs : gmap Z Z;
  fifo : gmap Z Z;
  ptr : Z;
  aired : list (list Z);
  flags_read : Z;              (* the last value IrqFlags returned *)
  clock : Z;                   (* milliseconds spent in [delay] *)
  rx : option (nat * event);   (* polls left and outcome of the current reception *)
  arrivals : list (nat * event) }.

Definition set_reg (a x : Z) (v : view) : view :=
  View (<[a := x]> (regs v)) (fifo v) (ptr v) (aired v) (flags_read v) (clock v) (rx v) (arrivals v).
Definition set_ptr (x : Z) (v : view) : view :=
  View (regs v) (fifo v) x (aired v) (flags_read v) (clock v) (rx v) (arrivals v).
Definition push (x : Z) (v : view) : view :=
  View (regs v) (<[ptr v := x]> (fifo v)) (u8 (ptr v + 1)) (aired v) (flags_read v) (clock v)
    (rx v) (arrivals v).
Definition saw (x : Z) (v : view) : view :=
  View (regs v) (fifo v) (ptr v) (aired v) x (clock v) (rx v) (arrivals v).
Definition tick (ms : Z) (v : view) : view :=
  View (regs v) (fifo v) (ptr v) (aired v) (flags_read v) (clock v + ms) (rx v) (arrivals v).
Definition set_rx (o : option (nat * event)) (l : list (nat * event)) (v : view) : view :=
  View (regs v) (fifo v) (ptr v) (aired v) (flags_read v) (clock v) o l.

Definition frame_of (v : view) : list Z :=
  (fun i => fifo v !!! u8 (regs v !!! SX1276REG_FifoTxBaseAddr + i))
    <$> below (Z.to_nat (regs v !!! SX1276REG_PayloadLength)).
Definition air (v : view) : view :=
  View (regs v) (fifo v) (ptr v) (aired v ++ [frame_of v]) (flags_read v) (clock v) None (arrivals v).

Fixpoint fill (a : Z) (p : list Z) (f : gmap Z Z) : gmap Z Z :=
  match p with [] => f | b :: p => fill (u8 (a + 1)) p (<[a := b]> f) end.

(** A reception ends: the packet is in the FIFO from [FifoRxBaseAddr]. *)
Definition deliver (e : event) (v : view) : view :=
  match e with
  | Quiet => set_rx None (arrivals v) v
  | Packet p _ =>
      View (<[SX1276REG_FifoRxNbBytes := Z.of_nat (length p)]> (regs v))
        (fill (regs v !!! SX1276REG_FifoRxBaseAddr) p (fifo v))
        (ptr v) (aired v) (flags_read v) (clock v) None (arrivals v)
  end.

(** What IrqFlags shows at the end of a reception. *)
Definition flags_show (e : event) (x : Z) : Prop :=
  match e with
  | Quiet => Z.testbit x 6 = false /\ Z.testbit x 7 = true
  | Packet _ crc_bad => Z.testbit x 6 = true /\ Z.testbit x 5 = crc_bad
  end.

(** Entering RX single mode: the next thing on the air, or silence. *)
Definition listen (v : view) : view :=
  match arrivals v with
  | [] => set_rx (Some (O, Quiet)) [] v
  | a :: l => set_rx (Some a) l v
  end.

(** Registers that hold what is written to them. *)
Definition plain : list Z :=
  [SX1276REG_FrfMsb; SX1276REG_FrfMid; SX1276REG_FrfLsb; SX1276REG_Ocp;
   SX1276REG_FifoTxBaseAddr; SX1276REG_FifoRxBaseAddr; SX1276REG_IrqFlagsMask;
   SX1276REG_ModemConfig1; SX1276REG_ModemConfig2; SX1276REG_SymbTimeoutLsb;
   SX1276REG_PreambleLSB; SX1276REG_PayloadLength; SX1276REG_MaxPayloadLength;
   SX1276REG_DioMapping1; SX1276REG_DioMapping2].

Class Sx1276 (W : Type) `{Spi W} := {
  look : W -> view;
  write_plain a x w : a ∈ plain ->
    look (transaction (u8 (a + 0x80)) x w).2 = set_reg a x (look w);
  write_ptr x w :
    look (transaction (u8 (SX1276REG_FifoAddrPtr + 0x80)) x w).2 = set_ptr x (look w);
  write_cell x w :
    look (transaction (u8 (SX1276REG_Fifo + 0x80)) x w).2 = push x (look w);
  write_flags x w :
    look (transaction (u8 (SX1276REG_IrqFlags + 0x80)) x w).2 = look w;
  write_idle x w : x ∉ [0x83; 0x86] ->
    look (transaction (u8 (SX1276REG_OpMode + 0x80)) x w).2 = look w;
  write_tx w :
    look (transaction (u8 (SX1276REG_OpMode + 0x80)) 0x83 w).2 = air (look w);
  write_rx w :
    look (transaction (u8 (SX1276REG_OpMode + 0x80)) 0x86 w).2 = listen (look w);
  read_plain a w : a ∈ SX1276REG_FifoRxNbBytes :: plain ->
    (transaction a 0 w).1 = regs (look w) !!! a;
  read_keeps a w : 0 <= a < 0x80 -> a ∉ [SX1276REG_Fifo; SX1276REG_IrqFlags] ->
    look (transaction a 0 w).2 = look w;
  read_snr w : fits 8 (transaction SX1276REG_PacketSnr 0 w).1;
  read_cell w : exists w',
    transaction SX1276REG_Fifo 0 w = (fifo (look w) !!! ptr (look w), w')
    /\ look w' = set_ptr (u8 (ptr (look w) + 1)) (look w);
  read_flags w : rx (look w) = None -> exists x w',
    transaction SX1276REG_IrqFlags 0 w = (x, w') /\ look w' = saw x (look w);
  read_waiting w n e : rx (look w) = Some (S n, e) -> exists x w',
    transaction SX1276REG_IrqFlags 0 w = (x, w')
    /\ Z.testbit x 6 = false /\ Z.testbit x 7 = false
    /\ look w' = saw x (set_rx (Some (n, e)) (arrivals (look w)) (look w));
  read_done w e : rx (look w) = Some (O, e) -> exists x w',
    transaction SX1276REG_IrqFlags 0 w = (x, w') /\ flags_show e x
    /\ look w' = saw x (deliver e (look w));
  delay_ticks ms w : look (delay ms w) = tick ms (look w) }.

(** * A simulated chip: outside a reception IrqFlags reads [idle]. *)
Section Sim.
Variable idle : Z.

Definition sim_flags (e : event) : Z :=
  match e with Quiet => 0x80 | Packet _ true => 0x70 | Packet _ false => 0x50 end.

Definition sim_transaction (a x : Z) (v : view) : Z * view :=
  if bool_decide (0x80 <= a) then
    let a := a - 0x80 in
    (0, if bool_decide (a ∈ plain) then set_reg a x v
        else if a =? SX1276REG_FifoAddrPtr then set_ptr x v
        else if a =? SX1276REG_Fifo then push x v
        else if a =? SX1276REG_OpMode then
          if x =? 0x83 then air v else if x =? 0x86 then listen v else v
        else v)
  else if a =? SX1276REG_Fifo then (fifo v !!! ptr v, set_ptr (u8 (ptr v + 1)) v)
  else if a =? SX1276REG_IrqFlags then
    match rx v with
    | None => (idle, saw idle v)
    | Some (S n, e) => (0, saw 0 (set_rx (Some (n, e)) (arrivals v) v))
    | Some (O, e) => (sim_flags e, saw (sim_flags e) (deliver e v))
    end
  else if a =? SX1276REG_PacketSnr then (u8 (regs v !!! a), v)
  else (regs v !!! a, v).

Definition sim_spi : Spi view := {| transaction := sim_transaction; delay := tick |}.

Definition sim_chip : @Sx1276 view sim_spi.
Proof.
  refine (@Build_Sx1276 view sim_spi id _ _ _ _ _ _ _ _ _ _ _ _ _ _ _); unfold id; cbn [transaction delay sim_spi].
  all: try done.
  - intros a x w Ha. unfold sim_transaction.
    assert (0 <= a < 0x80) by (unfold plain in Ha; rewrite !elem_of_cons, elem_of_nil in Ha;
      repeat (destruct Ha as [->|Ha]; [split; vm_compute; congruence|]); done).
    replace (u8 (a + 0x80)) with (a + 0x80) by word_lia.
    rewrite bool_decide_true by lia. cbn zeta.
    replace (a + 0x80 - 0x80) with a by lia. by rewrite bool_decide_true.
  - intros x w Hx. unfold sim_transaction.
    change (u8 (SX1276REG_OpMode + 0x80)) with 0x81. cbn.
    rewrite !not_elem_of_cons in Hx. destruct Hx as (?&?&_).
    rewrite (proj2 (Z.eqb_neq x 0x83)), (proj2 (Z.eqb_neq x 0x86)) by done. done.
  - intros a w Ha. unfold sim_transaction. unfold plain in Ha. rewrite !elem_of_cons, elem_of_nil in Ha.
    repeat (destruct Ha as [->|Ha]; [done|]). done.
  - intros a w Hr Ha. rewrite !not_elem_of_cons in Ha. destruct Ha as (?&?&_).
    unfold sim_transaction. rewrite bool_decide_false by lia.
    rewrite (proj2 (Z.eqb_neq a _)), (proj2 (Z.eqb_neq a _)) by done. by destruct (_ =? _).
  - intros w. apply u8_ok.
  - intros w. by eexists.
  - intros w E. unfold sim_transaction. cbn. rewrite E. by do 2 eexists.
  - intros w n e E. unfold sim_transaction. cbn. rewrite E. by do 2 eexists.
  - intros w e E. unfold sim_transaction. cbn. rewrite E. do 2 eexists.
    split; [done|]. split; [|done]. by destruct e as [|? []].
Defined.
End Sim.

(** A simulated chip that reports TX DONE at once, untouched since power-on. *)
Definition demo : Type := view.
#[export] Instance demo_spi : Spi demo := sim_spi 8.
#[export] Instance demo_chip : Sx1276 demo := sim_chip 8.
Definition blank : view := View ∅ ∅ 0 [] 0 0 None [].

(** * The driver's operations *)
Section Driver.
Context {W : Type} `{HS : Spi W} {HC : Sx1276 W}.

(** The object is [r] and the chip looks like [v]. *)
Definition at_ (r : radio) (v : view) : radio * W -> Prop :=
  fun s => s.1 = r /\ look s.2 = v.

Lemma triple_write r v a x (v' : view) :
  (forall w, look w = v -> look (transaction (u8 (a + 0x80)) x w).2 = v') ->
  triple (at_ r v) (WriteRegister a x false) (fun _ => at_ r v').
Proof.
  intros Hl [r' w] [Hr Hw]. cbn in Hr, Hw. subst r'.
  specialize (Hl w Hw). unfold WriteRegister, chip, when. st_unfold.
  destruct (transaction _ x w) as [y w']. exists (), (r, w'). done.
Qed.

Lemma triple_write_plain r v a x :
  bool_decide (a ∈ plain) = true ->
  triple (at_ r v) (WriteRegister a x false) (fun _ => at_ r (set_reg a x v)).
Proof. intros Ha%bool_decide_eq_true. apply triple_write. intros w <-. by apply write_plain. Qed.

Lemma triple_write_ptr r v x :
  triple (at_ r v) (WriteRegister SX1276REG_FifoAddrPtr x false) (fun _ => at_ r (set_ptr x v)).
Proof. apply triple_write. intros w <-. apply write_ptr. Qed.

Lemma triple_write_cell r v x :
  triple (at_ r v) (WriteRegister SX1276REG_Fifo x false) (fun _ => at_ r (push x v)).
Proof. apply triple_write. intros w <-. apply write_cell. Qed.

Lemma triple_write_flags r v x :
  triple (at_ r v) (WriteRegister SX1276REG_IrqFlags x false) (fun _ => at_ r v).
Proof. apply triple_write. intros w <-. apply write_flags. Qed.

Lemma triple_write_idle r v x :
  bool_decide (x ∉ [0x83; 0x86]) = true ->
  triple (at_ r v) (WriteRegister SX1276REG_OpMode x false) (fun _ => at_ r v).
Proof. intros Hx%bool_decide_eq_true. apply triple_write. intros w <-. by apply write_idle. Qed.

Lemma triple_write_tx r v :
  triple (at_ r v) (WriteRegister SX1276REG_OpMode 0x83 false) (fun _ => at_ r (air v)).
Proof. apply triple_write. intros w <-. apply write_tx. Qed.

Lemma triple_write_rx r v :
  triple (at_ r v) (WriteRegister SX1276REG_OpMode 0x86 false) (fun _ => at_ r (listen v)).
Proof. apply triple_write. intros w <-. apply write_rx. Qed.

Lemma triple_pause r v ms : triple (at_ r v) (pause ms) (fun _ => at_ r (tick ms v)).
Proof. intros [r' w] [Hr Hw]; cbn in Hr, Hw; subst. do 2 eexists. split; [done|]. split; [done|]. apply delay_ticks. Qed.

Lemma triple_set_this r v f : triple (at_ r v) (set_this f) (fun _ => at_ (f r) v).
Proof. intros [r' w] [Hr Hw]; cbn in Hr, Hw; subst. do 2 eexists. done. Qed.

Lemma triple_this r v : triple (at_ r v) this (fun a s => a = r /\ at_ r v s).
Proof. intros [r' w] [Hr Hw]; cbn in Hr, Hw; subst. do 2 eexists. done. Qed.

Lemma triple_read r v a :
  bool_decide (0 <= a < 0x80 /\ a ∉ [SX1276REG_Fifo; SX1276REG_IrqFlags]) = true ->
  triple (at_ r v) (ReadRegister a) (fun _ => at_ r v).
Proof.
  intros [Hr Ha]%bool_decide_eq_true [r' w] [Hr' Hw]; cbn in Hr', Hw; subst. unfold ReadRegister, chip. cbn in *.
  pose proof (read_keeps a w Hr Ha) as E. destruct (transaction a 0 w) as [x w'].
  exists x, (r, w'). done.
Qed.

Lemma triple_read_snr r v :
  triple (at_ r v) (ReadRegister SX1276REG_PacketSnr) (fun x s => fits 8 x /\ at_ r v s).
Proof.
  intros [r' w] [Hr Hw]; cbn in Hr, Hw; subst. unfold ReadRegister, chip.
  pose proof (read_snr w) as Hx. pose proof (read_keeps SX1276REG_PacketSnr w) as E.
  destruct (transaction SX1276REG_PacketSnr 0 w) as [x w']. exists x, (r, w'). split; [done|].
  split; [exact Hx|]. split; [done|]. by apply E; [|apply (bool_decide_unpack _)].
Qed.

Lemma triple_read_plain r v a :
  bool_decide (a ∈ SX1276REG_FifoRxNbBytes :: plain) = true ->
  triple (at_ r v) (ReadRegister a) (fun x s => x = regs v !!! a /\ at_ r v s).
Proof.
  intros Ha%bool_decide_eq_true [r' w] [Hr' Hw]; cbn in Hr', Hw; subst. unfold ReadRegister, chip. cbn in *.
  pose proof (read_plain a w Ha) as E1.
  assert (0 <= a < 0x80 /\ a ∉ [SX1276REG_Fifo; SX1276REG_IrqFlags]) as [Hr Hn].
  { unfold plain in Ha. rewrite !elem_of_cons, elem_of_nil in Ha.
    repeat (destruct Ha as [->|Ha]; [by apply (bool_decide_eq_true_1 (_ /\ _))|]). done. }
  pose proof (read_keeps a w Hr Hn) as E. destruct (transaction a 0 w) as [x w'].
  exists x, (r, w'). done.
Qed.

Lemma triple_read_cell r v :
  triple (at_ r v) (ReadRegister SX1276REG_Fifo)
    (fun x s => x = fifo v !!! ptr v /\ at_ r (set_ptr (u8 (ptr v + 1)) v) s).
Proof.
  intros [r' w] [Hr Hw]; cbn in Hr, Hw; subst. unfold ReadRegister, chip. cbn in *.
  destruct (read_cell w) as (w' & -> & E). by exists (fifo (look w) !!! ptr (look w)), (r, w').
Qed.

End Driver.

(** One operation of a driver method: its triple, then the continuation. *)
Ltac chip_op :=
  first [ apply triple_write_plain; reflexivity | apply triple_write_ptr
        | apply triple_write_cell | apply triple_write_flags | apply triple_write_tx
        | apply triple_write_rx | apply triple_write_idle; reflexivity
        | apply triple_pause | apply triple_set_this | apply triple_this
        | apply triple_read_plain; reflexivity | apply triple_read; reflexivity ].
Ltac chip_step :=
  eapply triple_bind; [chip_op|cbn beta; intro]; try (apply triple_known; intros ->).

(** * The FIFO *)
Lemma fill_other p a f c :
  (forall i, 0 <= i < Z.of_nat (length p) -> u8 (a + i) <> c) -> fits 8 a ->
  fill a p f !!! c = f !!! c.
Proof.
  revert a f. induction p as [|b p IH]; intros a f Hc Ha; [done|]. cbn [fill].
  rewrite IH.
  - rewrite lookup_total_insert_ne; [done|]. intros <-.
    apply (Hc 0); [cbn [length]; lia|]. word_lia.
  - intros i Hi E. apply (Hc (i + 1)); [cbn [length]; lia|]. rewrite <- E. word_lia.
  - apply u8_ok.
Qed.

(** The [n] cells from address [a]. *)
Definition cells (f : gmap Z Z) (a : Z) (n : nat) : list Z :=
  (fun i => f !!! u8 (a + i)) <$> below n.

Lemma cells_S f a n : fits 8 a -> cells f a (S n) = f !!! a :: cells f (u8 (a + 1)) n.
Proof.
  intros Ha. unfold cells. rewrite below_S, fmap_cons, <- list_fmap_compose. f_equal.
  - f_equal. word_lia.
  - apply list_fmap_ext. intros i x _. simpl. f_equal. word_lia.
Qed.

Lemma cells_fill a p f n :
  fits 8 a -> (n <= length p <= 256)%nat -> cells (fill a p f) a n = take n p.
Proof.
  revert a f n. induction p as [|b p IH]; intros a f n Ha Hn.
  { by replace n with O by (simpl in *; lia). }
  destruct n as [|n]; [done|]. rewrite cells_S by done. cbn [fill take]. f_equal.
  - rewrite fill_other; [apply lookup_total_insert_eq| |apply u8_ok].
    intros i Hi E. cbn [length] in Hn. word_lia.
  - apply IH; [apply u8_ok|cbn [length] in Hn; lia].
Qed.

Lemma length_cells f a n : length (cells f a n) = n.
Proof. unfold cells. unfold below. by rewrite !length_fmap, length_seq. Qed.

Lemma cells_app f a m k : cells f a (m + k) = cells f a m ++ cells f (u8 (a + Z.of_nat m)) k.
Proof.
  unfold cells, below. rewrite seq_app, !fmap_app. f_equal. rewrite <- !list_fmap_compose.
  replace (seq (0 + m) k) with (Nat.add m <$> seq 0 k)
    by (rewrite fmap_add_seq; f_equal; lia).
  rewrite <- list_fmap_compose. apply list_fmap_ext. intros i x _. simpl. f_equal. word_lia.
Qed.

(** Cells past the ones filled from address 0 keep their contents. *)
Lemma cells_past_fill p f n :
  (length p + n <= 256)%nat ->
  cells (fill 0 p f) (Z.of_nat (length p)) n = cells f (Z.of_nat (length p)) n.
Proof.
  intros Hl. unfold cells, below. apply list_fmap_ext. intros i x Hx.
  apply list_lookup_fmap_Some in Hx as (j & -> & Hj). apply lookup_seq in Hj as [-> Hj].
  apply fill_other; [|word_lia]. intros y Hy E. word_lia.
Qed.

Lemma cells_last p f :
  (1 <= length p <= 256)%nat ->
  cells (fill 0 p f) (Z.of_nat (length p) - 1) 1 = drop (length p - 1) p.
Proof.
  intros Hl. pose proof (cells_fill 0 p f (length p) ltac:(word_lia) ltac:(lia)) as E.
  rewrite take_ge in E by done.
  replace (length p) with (length p - 1 + 1)%nat in E at 1 by lia.
  rewrite cells_app, (cells_fill 0 p f (length p - 1)) in E by (word_lia || lia).
  replace (u8 (0 + Z.of_nat (length p - 1))) with (Z.of_nat (length p) - 1) in E by word_lia.
  apply (app_inv_head (take (length p - 1) p)). by rewrite E, take_drop.
Qed.

(** A read that starts on the last cell filled: it, then what was there before. *)
Lemma cells_behind p f :
  (2 <= length p <= 128)%nat ->
  cells (fill 0 p f) (Z.of_nat (length p) - 1) (length p - 1)
  = drop (length p - 1) p ++ cells f (Z.of_nat (length p)) (length p - 2).
Proof.
  intros Hl. replace (length p - 1)%nat with (1 + (length p - 2))%nat at 1 by lia.
  rewrite cells_app, cells_last by lia. f_equal.
  replace (u8 _) with (Z.of_nat (length p)) by word_lia. apply cells_past_fill. lia.
Qed.

Definition push_all (l : list Z) (v : view) : view :=
  View (regs v) (fill (ptr v) l (fifo v)) (u8 (ptr v + Z.of_nat (length l))) (aired v)
    (flags_read v) (clock v) (rx v) (arrivals v).

Section Methods.
Context {W : Type} `{HS : Spi W} {HC : Sx1276 W}.

Lemma triple_write_fifo r v l :
  fits 8 (ptr v) -> triple (at_ r v) (write_fifo l) (fun _ => at_ r (push_all l v)).
Proof.
  revert v. induction l as [|b l IH]; intros v Hp; cbn [write_fifo].
  - apply triple_ret. intros s [<- E]. split; [done|]. rewrite E. unfold push_all.
    destruct v. cbn in *. f_equal. word_lia.
  - chip_step. eapply triple_post; [apply IH, u8_ok|].
    intros _ s [<- E]. split; [done|]. rewrite E. unfold push_all, push. cbn. f_equal. word_lia.
Qed.

Lemma triple_read_fifo r v n :
  fits 8 (ptr v) ->
  triple (at_ r v) (read_fifo n)
    (fun l s => l = cells (fifo v) (ptr v) n /\ at_ r (set_ptr (u8 (ptr v + Z.of_nat n)) v) s).
Proof.
  revert v. induction n as [|n IH]; intros v Hp; cbn [read_fifo].
  - apply triple_ret. intros s [<- E]. split; [done|]. split; [done|]. rewrite E.
    destruct v. unfold set_ptr. cbn in *. f_equal. word_lia.
  - eapply triple_bind; [apply triple_read_cell|]. cbn beta. intros x. apply triple_known. intros ->.
    eapply triple_bind; [apply IH, u8_ok|]. cbn beta. intros l. apply triple_known. intros ->.
    apply triple_ret. intros s [<- E]. rewrite cells_S by done. split; [done|]. split; [done|].
    rewrite E. unfold set_ptr. cbn. f_equal. word_lia.
Qed.

(** ** Carrier frequency *)

(** The frequency code of [hz] is in the three registers. *)
Definition tuned (Frf : Z) (v : view) : view :=
  set_reg SX1276REG_FrfLsb (Z.land Frf 0xff)
    (set_reg SX1276REG_FrfMid (u8 (Z.shiftr Frf 8))
       (set_reg SX1276REG_FrfMsb (u8 (Z.shiftr Frf 16)) v)).

Lemma triple_SetCarrier r v hz :
  triple (at_ r v) (SetCarrier hz)
    (fun _ => at_ (with_warm false r) (tuned (hz * Z.shiftl 1 19 / 32000000) v)).
Proof. unfold SetCarrier. do 3 chip_step. apply triple_write_plain. reflexivity. Qed.

Lemma bytes_of_word x :
  fits 24 x ->
  Z.lor (Z.lor (Z.shiftl (u8 (Z.shiftr x 16)) 16) (Z.shiftl (u8 (Z.shiftr x 8)) 8)) (Z.land x 0xff) = x.
Proof.
  intros Hx. change 0xff with (Z.ones 8).
  rewrite (Z.land_ones x 8 ltac:(lia)), !Z.shiftr_div_pow2, !(Z.shiftl_mul_pow2 (u8 _)) by lia.
  rewrite (lor_disjoint_add _ (_ * _) 16) by word_lia.
  rewrite (lor_disjoint_add _ (_ mod _) 8) by word_lia. word_lia.
Qed.

Lemma triple_ReadCarrier r v Frf :
  fits 24 Frf ->
  triple (at_ r (tuned Frf v)) ReadCarrier
    (fun f s => f = u32 (Z.shiftr (32000000 * Frf) 19) /\ at_ r (tuned Frf v) s).
Proof.
  intros HF. unfold ReadCarrier. do 3 chip_step. apply triple_ret. intros s Hs.
  split; [|done]. f_equal. f_equal. f_equal. unfold tuned, set_reg. cbn [regs].
  repeat first [rewrite lookup_total_insert_eq | rewrite lookup_total_insert_ne by done].
  by apply bytes_of_word.
Qed.

Lemma carrier_steps hz :
  0 <= hz < 1024000000 ->
  let Frf := hz * Z.shiftl 1 19 / 32000000 in
  let f := u32 (Z.shiftr (32000000 * Frf) 19) in
  fits 24 Frf /\ f <= hz <= f + 62 /\ (hz mod 1000000 = 0 -> f = hz).
Proof.
  intros Hhz. cbn zeta. rewrite Z.shiftr_div_pow2 by lia.
  change (Z.shiftl 1 19) with 524288. word_lia.
Qed.

(** ** Transmitting *)
Lemma triple_poll r v :
  rx v = None -> triple (at_ r v) (ReadRegister SX1276REG_IrqFlags) (fun x => at_ r (saw x v)).
Proof.
  intros Hrx [r' w] [Hr Hw]; cbn in Hr, Hw; subst. destruct (read_flags w Hrx) as (x & w' & E & El).
  exists x, (r, w'). unfold ReadRegister, chip. by rewrite E.
Qed.

Lemma triple_wait_tx r v ticks :
  rx v = None ->
  triple (at_ r v) (wait_tx ticks)
    (fun done s => exists x n, done = Z.testbit x 3 /\ 0 <= n <= 10 * Z.of_nat ticks
                               /\ at_ r (saw x (tick n v)) s).
Proof.
  revert v. induction ticks as [|ticks IH]; intros v Hrx; cbn [wait_tx];
    (eapply triple_bind; [by apply triple_poll|]; intros x; cbn beta);
    rewrite flag_set by lia; destruct (Z.testbit x 3) eqn:Ex.
  1, 2, 3: apply triple_ret; intros s [<- E]; exists x, 0; rewrite Ex; split; [done|];
    split; [lia|]; split; [done|]; rewrite E; unfold saw, tick; cbn; f_equal; lia.
  chip_step. eapply triple_post; [by apply IH|].
  intros b s (y & n & -> & Hn & <- & E). exists y, (10 + n). split; [done|]. split; [lia|].
  split; [done|]. rewrite E. unfold saw, tick. cbn. f_equal. lia.
Qed.

(** The chip after the set-up of a transmission of [l] by a radio that sends
    at most [m] bytes. *)
Definition loaded (m : Z) (l : list Z) (v : view) : view :=
  push_all l
    (set_reg SX1276REG_PayloadLength (Z.of_nat (length l))
      (set_reg SX1276REG_MaxPayloadLength m
        (set_ptr (u8 (0xff - m + 1))
          (set_reg SX1276REG_FifoTxBaseAddr (u8 (0xff - m + 1)) (tick 10 v))))).

Lemma frame_loaded m l v a x :
  (length l <= 256)%nat -> a <> SX1276REG_FifoTxBaseAddr -> a <> SX1276REG_PayloadLength ->
  frame_of (set_reg a x (loaded m l v)) = l.
Proof.
  intros Hl Ha1 Ha2. unfold frame_of, loaded, push_all, set_reg. cbn [regs fifo ptr set_ptr].
  rewrite !(lookup_total_insert_ne _ a) by done.
  repeat first [rewrite lookup_total_insert_eq | rewrite lookup_total_insert_ne by done].
  rewrite Nat2Z.id. fold (cells (fill (u8 (255 - m + 1)) l (fifo (tick 10 v))) (u8 (255 - m + 1)) (length l)).
  rewrite cells_fill by (auto using u8_ok; lia). apply take_ge. lia.
Qed.

Definition cut_to (m : Z) (payload : list Z) : list Z := take (Z.to_nat m) payload.

Lemma triple_Transmit r v payload :
  fits 8 (max_tx_payload_bytes_ r) -> (length payload <= 255)%nat ->
  let l := cut_to (max_tx_payload_bytes_ r) payload in
  triple (at_ r v) (TransmitMessage payload (Z.of_nat (length payload)))
    (fun done s => s.1 = with_warm false r /\ aired (look s.2) = aired v ++ [l]
       /\ done = Z.testbit (flags_read (look s.2)) 3
       /\ 0 <= clock (look s.2) - clock v - 10
            <= 10 * Z.of_nat (Z.to_nat (1 + Z.quot (PredictTimeOnAir r (Z.of_nat (length l))) 10))
       /\ arrivals (look s.2) = arrivals v).
Proof.
  intros Hm Hp l. unfold TransmitMessage.
  set (len := if max_tx_payload_bytes_ r <? Z.of_nat (length payload)
              then max_tx_payload_bytes_ r else Z.of_nat (length payload)).
  chip_step. fold len.
  assert (Z.of_nat (length l) = len) as Hlen.
  { subst l len. unfold cut_to. rewrite length_take. unfold fits in Hm.
    destruct (Z.ltb_spec (max_tx_payload_bytes_ r) (Z.of_nat (length payload))); lia. }
  assert (take (Z.to_nat len) payload = l) as ->.
  { subst l len. unfold cut_to. 
    destruct (Z.ltb_spec (max_tx_payload_bytes_ r) (Z.of_nat (length payload))); [done|].
    rewrite !take_ge by lia. done. }
  do 7 chip_step.
  eapply triple_bind; [apply triple_write_fifo, u8_ok|]. intros ?; cbn beta.
  do 4 chip_step.
  rewrite <- Hlen. eapply triple_post; [by apply triple_wait_tx|].
  intros b s (x & n & -> & Hn & <- & E). rewrite E. split; [done|]. split; [|split; [done|split; [|done]]].
  - cbn [aired saw tick air set_reg]. f_equal. f_equal. apply frame_loaded; try done. 
    subst l. unfold cut_to. rewrite length_take. lia.
  - cbn. lia.
Qed.

(** ** Receiving *)

(** The number of polls the next reception takes, its outcome, and what is
    left to arrive. *)
Definition next (v : view) : nat * event :=
  match arrivals v with [] => (O, Quiet) | a :: _ => a end.

Definition is_packet (e : event) : bool := match e with Quiet => false | Packet _ _ => true end.

Lemma triple_wait_rx r v n e fuel :
  rx v = Some (n, e) -> (n < fuel)%nat ->
  triple (at_ r v) (wait_rx fuel)
    (fun o s => flags_show e o.2 /\ o.1 = is_packet e /\ at_ r (saw o.2 (deliver e v)) s).
Proof.
  revert v n. induction fuel as [|fuel IH]; intros v n Hrx Hn; [lia|]. cbn [wait_rx].
  destruct n as [|n].
  - eapply (triple_bind _ _ (fun x s => flags_show e x /\ at_ r (saw x (deliver e v)) s)).
    { intros [r' w] [Hr Hw]; cbn in Hr, Hw; subst.
      destruct (read_done w e Hrx) as (x & w' & E & Hf & El). exists x, (r, w').
      unfold ReadRegister, chip. by rewrite E. }
    intros x. apply triple_known. intros Hf. cbn beta. rewrite !flag_set by lia.
    destruct e as [|p c]; destruct Hf as [H6 H7]; rewrite H6, ?H7; by apply triple_ret.
  - eapply (triple_bind _ _ (fun x s => (Z.testbit x 6 = false /\ Z.testbit x 7 = false)
              /\ at_ r (saw x (set_rx (Some (n, e)) (arrivals v) v)) s)).
    { intros [r' w] [Hr Hw]; cbn in Hr, Hw; subst.
      destruct (read_waiting w n e Hrx) as (x & w' & E & H6 & H7 & El). exists x, (r, w').
      unfold ReadRegister, chip. by rewrite E. }
    intros x. apply triple_known. intros [H6 H7]. cbn beta. rewrite !flag_set, H6, H7 by lia.
    eapply triple_post; [apply (IH _ n); [done|lia]|].
    intros o s (Hf & Ho & <- & E). split; [done|]. split; [done|]. split; [done|]. rewrite E.
    by destruct e.
Qed.

(** The chip after [ReceiveInit]: only a cold radio touches it. *)
Definition inited (r : radio) (v : view) : view :=
  if rx_warm_ r then v
  else set_reg SX1276REG_IrqFlagsMask 0x0f
    (set_ptr RX_BASE_ADDR
      (set_reg SX1276REG_FifoRxBaseAddr RX_BASE_ADDR
        (set_reg SX1276REG_PayloadLength (max_rx_payload_bytes_ r)
          (set_reg SX1276REG_MaxPayloadLength (max_rx_payload_bytes_ r)
            (set_reg SX1276REG_FifoTxBaseAddr 0x80 (tick 10 v)))))).

Lemma triple_ReceiveInit r v :
  triple (at_ r v) ReceiveInit (fun _ => at_ (with_warm true r) (inited r v)).
Proof.
  unfold ReceiveInit, inited. chip_step. destruct (rx_warm_ r) eqn:Ew.
  - apply triple_ret. intros s [<- <-]. split; [|done]. destruct s as [r' w]. cbn in *.
    destruct r'. cbn in *. by subst.
  - do 8 chip_step. apply triple_set_this.
Qed.

(** What [ReceiveMessage] returns of a reception that ends with [e] in front of
    a chip whose FIFO pointer is at [a] after [f] was filled. *)
Definition received_as (e : event) (size : Z) (l : list Z) : reception :=
  match e with
  | Quiet => Reception false [] false
  | Packet p _ =>
      if size <? u8 (Z.of_nat (length p) - 1) then Reception false [] false
      else Reception true l false
  end.

(** What a reception leaves as the signal to noise ratio. *)
Definition snr_ok (e : event) (snr : Z) : Prop :=
  match e with Quiet => snr = -255 | Packet _ _ => -16 <= snr < 8 end.

Lemma snr_of_range x : fits 8 x -> -16 <= snr_of x < 8.
Proof.
  intros Hx. pose proof (forall_below 256 (fun x => (-16 <=? snr_of x) && (snr_of x <? 8))) as H.
  specialize (H ltac:(vm_compute; reflexivity) x Hx). cbv beta in H. lia.
Qed.

Lemma triple_Receive r v size fuel n e :
  1 <= size -> next (inited r v) = (n, e) -> (n < fuel)%nat -> fits 8 (ptr (inited r v)) ->
  let v' := deliver e (inited r v) in
  triple (at_ r v) (ReceiveMessage fuel size)
    (fun o s => o = received_as e size
                      (match e with
                       | Quiet => []
                       | Packet p _ => cells (fifo v') (ptr v') (Z.to_nat (u8 (Z.of_nat (length p) - 1)))
                       end)
       /\ (exists rssi snr, s.1 = with_quality rssi snr (with_warm true r) /\ snr_ok e snr)
       /\ aired (look s.2) = aired v /\ arrivals (look s.2) = tail (arrivals v)
       /\ regs (look s.2) = regs v' /\ fifo (look s.2) = fifo v'
       /\ ptr (look s.2) = u8 (ptr v' + Z.of_nat (length (bytes o)))).
Proof.
  intros Hs Hn Hf Hp v'. unfold ReceiveMessage. rewrite (proj2 (Z.ltb_ge size 1)) by done.
  eapply triple_bind; [apply triple_ReceiveInit|]. intros []; cbn beta.
  chip_step. chip_step.
  eapply triple_bind.
  { apply (triple_wait_rx _ _ n e); [|done]. revert Hn. unfold next, listen.
    destruct (arrivals (inited r v)); [intros [= <- <-]|intros ->]; done. }
  intros [done flags]. cbn beta iota. cbn [fst snd].
  apply triple_known. intros Hfl. apply triple_known. intros ->.
  chip_step. chip_step.
  set (vl := saw flags (deliver e (listen (inited r v)))).
  assert (Hq : regs vl = regs v' /\ fifo vl = fifo v' /\ ptr vl = ptr v').
  { subst vl v'. unfold listen. by destruct (arrivals (inited r v)), e. }
  destruct Hq as (Hrr & Hff & Hpp).
  assert (fits 8 (ptr v')) as Hp' by (subst v'; by destruct e).
  assert (ptr vl = u8 (ptr v' + 0)) as Hp0 by (rewrite Z.add_0_r, trunc_small; done).
  assert (Hvl : aired vl = aired v /\ arrivals vl = tail (arrivals v)
                /\ (forall p c, e = Packet p c -> regs vl !!! SX1276REG_FifoRxNbBytes = Z.of_nat (length p))).
  { subst vl v'. unfold listen. 
    assert (arrivals (inited r v) = arrivals v /\ aired (inited r v) = aired v) as [-> <-]
      by (unfold inited; by destruct (rx_warm_ r)).
    destruct (arrivals v); destruct e; cbn; split_and!; try done; intros ? ? [= <- <-];
      apply lookup_total_insert_eq. }
  destruct Hvl as (Ha & Hr & Hpk). clearbody vl. destruct e as [|p crc]; cbn [is_packet negb].
  { apply triple_ret. intros s [-> ->]. split_and!; try discriminate; auto;
      do 2 eexists; (split; [reflexivity|first [reflexivity|exact Hsnr]]). }
  pose proof (Hpk p crc eq_refl) as Hnb.
  chip_step.
  eapply triple_bind; [apply triple_read_snr|]. intros x; cbn beta. apply triple_known. intros Hx.
  pose proof (snr_of_range x Hx) as Hsnr.
  do 3 chip_step. rewrite Hnb. do 5 chip_step.
  assert ((Z.land flags (Z.shiftl 1 5) =? 1) = false) as ->.
  { change (Z.shiftl 1 5) with (Z.shiftl (Z.ones 1) 5). rewrite land_field by lia. word_lia. }
  unfold received_as. destruct (size <? u8 (Z.of_nat (length p) - 1)).
  { apply triple_ret. intros s [-> ->]. split_and!; try discriminate; auto;
      do 2 eexists; (split; [reflexivity|first [reflexivity|exact Hsnr]]). }
  rewrite <- Hff, <- Hpp.
  eapply triple_bind; [apply triple_read_fifo; by rewrite Hpp|].
  cbn beta. intros l. apply triple_known. intros ->. apply triple_ret.
  intros s [-> ->]. cbn [bytes]. rewrite length_cells. split_and!; try discriminate; auto;
      do 2 eexists; (split; [reflexivity|first [reflexivity|exact Hsnr]]).
Qed.
End Methods.

(** * Time on air *)

(** The datasheet's number of coded payload symbols (explicit header, CRC on,
    no low data rate optimisation) and the duration in milliseconds, rounded
    down as the code rounds. *)
Definition ceil_div (n d : Z) : Z := - ((- n) / d).
Definition symbols (sf cr len : Z) : Z := 8 + Z.max (ceil_div (8 * len - 4 * sf + 28 + 16) (4 * sf) * cr) 0.
Definition time_on_air (bw sf cr preamble len : Z) : Z :=
  (1000 * preamble + 4250) * 2 ^ sf / bw + 1000 * symbols sf cr len * 2 ^ sf / bw.

(** The number of symbols the driver computes. *)
Definition counted (sf cr len : Z) : Z :=
  let q := Z.quot (8 * len - 4 * sf + 28 + 16) (4 * sf) in
  8 + Z.max ((if negb (Z.rem q (4 * sf) =? 0) then q + 1 else q) * cr) 0.

Lemma counted_error sf cr len :
  6 <= sf <= 12 -> 5 <= cr <= 8 -> 0 <= len <= 255 ->
  symbols sf cr len - cr <= counted sf cr len <= symbols sf cr len + cr
  /\ 8 <= counted sf cr len <= 708.
Proof.
  intros Hs Hc Hl.
  assert (sf = 6 \/ sf = 7 \/ sf = 8 \/ sf = 9 \/ sf = 10 \/ sf = 11 \/ sf = 12) as Hsf by lia.
  unfold symbols, counted, ceil_div.
  set (n := 8 * len - 4 * sf + 28 + 16).
  assert (- ((- n) / (4 * sf)) - 1 <= (if negb (Z.rem (Z.quot n (4 * sf)) (4 * sf) =? 0)
            then Z.quot n (4 * sf) + 1 else Z.quot n (4 * sf)) <= - ((- n) / (4 * sf)) + 1
          /\ (if negb (Z.rem (Z.quot n (4 * sf)) (4 * sf) =? 0)
            then Z.quot n (4 * sf) + 1 else Z.quot n (4 * sf)) <= 87) as [Hb Hm].
  { destruct Hsf as [->|[->|[->|[->|[->|[->| ->]]]]]]; cbn [Z.mul Pos.mul] in *;
      destruct (negb _) eqn:E; Z.quot_rem_to_equations; Z.div_mod_to_equations; lia. }
  set (x := if negb _ then _ else _) in *. set (y := - (- n / (4 * sf))) in *.
  split; [|nia]. nia.
Qed.

Lemma counted_small sf cr len :
  6 <= sf <= 12 -> 5 <= cr <= 8 -> 0 <= len <= 255 -> 1000 * counted sf cr len * 2 ^ sf < 2 ^ 31.
Proof.
  intros Hs Hc Hl.
  assert (sf = 6 \/ sf = 7 \/ sf = 8 \/ sf = 9 \/ sf = 10 \/ sf = 11 \/ sf = 12) as Hsf by lia.
  unfold counted. set (n := 8 * len - 4 * sf + 28 + 16).
  eapply (Z.le_lt_trans _ (1000 * (8 + Z.max ((Z.quot n (4 * sf) + 1) * cr) 0) * 2 ^ sf)).
  - apply Z.mul_le_mono_nonneg_r; [lia|]. destruct (negb _); nia.
  - destruct Hsf as [->|[->|[->|[->|[->|[->| ->]]]]]]; cbn [Z.mul Pos.mul] in *; pow2s;
      match goal with |- context [Z.quot ?a ?b] =>
        assert (Z.quot a b <= 2060 / b) by (Z.quot_rem_to_equations; Z.div_mod_to_equations; lia) end; 
      match goal with H : Z.quot ?a ?b <= ?c |- _ =>
        let v := eval vm_compute in c in change c with v in H;
        set (q := Z.quot a b) in * end; nia.
Qed.

Lemma div_near a b c d : 0 < d -> b - c <= a <= b + c -> b / d - (c / d + 1) <= a / d <= b / d + (c / d + 1).
Proof. intros Hd Hab. Z.div_mod_to_equations. nia. Qed.

(** A radio whose settings are values of the datasheet. *)
Definition configured (r : radio) : Prop :=
  bandwidth_hz_ r ∈ bandwidths /\ 6 <= spreading_factor_ r <= 12 /\ 5 <= coding_rate_ r <= 8
  /\ 0 <= preamble_ r <= 500 /\ 0 <= symbol_timeout_ r < 1024.

Lemma bandwidth_large b : b ∈ bandwidths -> 7800 <= b.
Proof. unfold bandwidths. rewrite !elem_of_cons, elem_of_nil. lia. Qed.

Lemma predict_eq r len :
  configured r -> 0 <= len <= 255 ->
  PredictTimeOnAir r len =
  (1000 * preamble_ r + 4250) * 2 ^ spreading_factor_ r / bandwidth_hz_ r
  + 1000 * counted (spreading_factor_ r) (coding_rate_ r) len * 2 ^ spreading_factor_ r / bandwidth_hz_ r.
Proof.
  intros (Hb%bandwidth_large & Hs & Hc & Hp & _) Hl. unfold PredictTimeOnAir.
  rewrite !Z.shiftl_mul_pow2 by lia. rewrite Z.mul_1_l.
  replace (len * 2 ^ 3) with (8 * len) by lia.
  fold (Z.quot (8 * len - 4 * spreading_factor_ r + 28 + 16) (4 * spreading_factor_ r)).
  set (x := if negb _ then _ else _).
  replace ((if x * coding_rate_ r <? 0 then 0 else x * coding_rate_ r) + 8)
    with (counted (spreading_factor_ r) (coding_rate_ r) len)
    by (unfold counted; fold x; destruct (Z.ltb_spec (x * coding_rate_ r) 0); lia).
  pose proof (counted_small _ _ len Hs Hc Hl) as Hsm.
  pose proof (counted_error _ _ len Hs Hc Hl) as [_ Hce].
  assert (0 < 2 ^ spreading_factor_ r <= 4096) as Hsf.
  { split; [lia|]. change 4096 with (2 ^ 12). apply Z.pow_le_mono_r; lia. }
  set (k := 2 ^ spreading_factor_ r) in *. set (c := counted _ _ _) in *.
  assert (0 <= (1000 * preamble_ r + 4250) * k < 2 ^ 31) by nia.
  rewrite !trunc_small by (unfold fits; nia).
  assert (forall a, 0 <= a < 2 ^ 31 -> 0 <= a / bandwidth_hz_ r < 2 ^ 20) as Hq.
  { intros a Ha. split; [apply Z.div_pos; lia|]. apply Z.div_lt_upper_bound; [lia|]. nia. }
  pose proof (Hq ((1000 * preamble_ r + 4250) * k)). pose proof (Hq (1000 * c * k)).
  apply strunc_small; [lia|]. nia.
Qed.

Lemma predict_error r len :
  configured r -> 0 <= len <= 255 ->
  let block := 1000 * coding_rate_ r * 2 ^ spreading_factor_ r / bandwidth_hz_ r in
  Z.abs (PredictTimeOnAir r len
         - time_on_air (bandwidth_hz_ r) (spreading_factor_ r) (coding_rate_ r) (preamble_ r) len)
  <= block + 1.
Proof.
  intros Hr Hl. cbn zeta. rewrite predict_eq by done. unfold time_on_air.
  destruct Hr as (Hb%bandwidth_large & Hs & Hc & _).
  destruct (counted_error _ _ len Hs Hc Hl) as [Hce _].
  pose proof (div_near
    (1000 * counted (spreading_factor_ r) (coding_rate_ r) len * 2 ^ spreading_factor_ r)
    (1000 * symbols (spreading_factor_ r) (coding_rate_ r) len * 2 ^ spreading_factor_ r)
    (1000 * coding_rate_ r * 2 ^ spreading_factor_ r) (bandwidth_hz_ r) ltac:(lia)) as Hn.
  assert (0 < 2 ^ spreading_factor_ r) by lia. nia.
Qed.

(** * Configuration *)

(** What the chip's registers say: bandwidth, coding rate denominator,
    spreading factor, symbol timeout and preamble. *)
Definition programmed (v : view) : option Z * Z * Z * Z * Z :=
  let mc1 := regs v !!! SX1276REG_ModemConfig1 in
  let mc2 := regs v !!! SX1276REG_ModemConfig2 in
  (BitfieldToBandwidth (Z.shiftr mc1 4), Z.land (Z.shiftr mc1 1) 7 + 4, Z.shiftr mc2 4,
   Z.shiftl (Z.land mc2 3) 8 + regs v !!! SX1276REG_SymbTimeoutLsb,
   regs v !!! SX1276REG_PreambleLSB).

Definition mc1_of (bw cr : Z) : Z :=
  u8 (Z.lor (Z.lor (Z.shiftl (BandwidthToBitfield bw) 4) (Z.shiftl (CodingRateToBitfield cr) 1)) 0x0).
Definition mc2_of (sf timeout : Z) : Z :=
  u8 (Z.lor (Z.lor (Z.lor (Z.shiftl sf 4) (Z.shiftl 0 3)) (Z.shiftl 1 2))
       (Z.land (Z.shiftr timeout 8) 0x03)).

Lemma mc1_decodes bw cr :
  bw ∈ bandwidths -> 5 <= cr <= 8 ->
  BitfieldToBandwidth (Z.shiftr (mc1_of bw cr) 4) = Some bw
  /\ Z.land (Z.shiftr (mc1_of bw cr) 1) 7 + 4 = cr.
Proof.
  intros Hb Hc. assert (cr = 5 \/ cr = 6 \/ cr = 7 \/ cr = 8) as Hcr by lia.
  unfold bandwidths in Hb. rewrite !elem_of_cons, elem_of_nil in Hb.
  destruct Hcr as [->|[->|[->| ->]]];
    repeat (destruct Hb as [->|Hb]; [by vm_compute|]); done.
Qed.

Lemma mc2_decodes sf timeout :
  6 <= sf <= 12 -> 0 <= timeout < 1024 ->
  Z.shiftr (mc2_of sf timeout) 4 = sf
  /\ Z.shiftl (Z.land (mc2_of sf timeout) 3) 8 + Z.land timeout 0xff = timeout.
Proof.
  intros Hs Ht. change 0xff with (Z.ones 8). rewrite Z.land_ones by lia.
  assert (Z.land (Z.shiftr timeout 8) 0x03 = timeout / 2 ^ 8) as Ehi.
  { change 0x03 with (Z.ones 2). rewrite Z.land_ones, Z.shiftr_div_pow2 by lia. word_lia. }
  unfold mc2_of. rewrite Ehi. 
  assert (sf = 6 \/ sf = 7 \/ sf = 8 \/ sf = 9 \/ sf = 10 \/ sf = 11 \/ sf = 12) as Hsf by lia.
  assert (timeout / 2 ^ 8 = 0 \/ timeout / 2 ^ 8 = 1 \/ timeout / 2 ^ 8 = 2 \/ timeout / 2 ^ 8 = 3)
    as Hq by word_lia.
  split.
  - destruct Hsf as [->|[->|[->|[->|[->|[->| ->]]]]]]; destruct Hq as [->|[->|[->| ->]]]; by vm_compute.
  - rewrite (Z.div_mod timeout (2 ^ 8)) at 3 by done.
    destruct Hsf as [->|[->|[->|[->|[->|[->| ->]]]]]]; destruct Hq as [->|[->|[->| ->]]];
      vm_compute (Z.shiftl _ _); lia.
Qed.

Section Configure.
Context {W : Type} `{HS : Spi W} {HC : Sx1276 W}.

Lemma regs_set_reg a x v : regs (set_reg a x v) = <[a := x]> (regs v).
Proof. done. Qed.

Lemma triple_write_mode r v x :
  bool_decide (x ∉ [0x83; 0x86]) = true ->
  triple (at_ r v) (WriteRegister SX1276REG_OpMode x true) (fun _ => at_ r (tick 10 v)).
Proof.
  intros Hx%bool_decide_eq_true. unfold WriteRegister, when.
  eapply (triple_bind _ _ (fun _ => at_ r v)).
  { intros [r' w] [Hr Hw]; cbn in Hr, Hw; subst. pose proof (write_idle x w Hx) as E. unfold chip.
    destruct (transaction _ x w) as [y w']. exists y, (r, w'). done. }
  intros ?; cbn beta. do 2 chip_step. by apply triple_ret.
Qed.

Lemma not_tx_rx x : bool_decide (Z.land x 0xf8 ∉ [0x83; 0x86]) = true.
Proof.
  apply bool_decide_eq_true. change 0xf8 with (Z.shiftl (Z.ones 5) 3).
  rewrite land_field by lia. rewrite !not_elem_of_cons.
  split_and!; [..|by apply not_elem_of_nil]; pow2s; lia.
Qed.

Lemma triple_Begin r v :
  configured r ->
  triple (at_ r v) Begin
    (fun ok s => aired (look s.2) = aired v
       /\ if ok then s.1 = with_alive r
                 /\ programmed (look s.2)
                    = (Some (bandwidth_hz_ r), coding_rate_ r, spreading_factor_ r,
                       symbol_timeout_ r, u8 (preamble_ r))
          else s.1 = r).
Proof.
  intros (Hb & Hs & Hc & _ & Ht). unfold Begin.
  chip_step. eapply triple_bind; [apply triple_write_mode, not_tx_rx|]. intros ?; cbn beta.
  do 2 (eapply triple_bind; [by apply triple_write_mode|]; intros ?; cbn beta).
  chip_step. chip_step. match goal with |- context [negb ?b] => destruct b end; cbn [negb].
  2: { by apply triple_ret; intros s [-> ->]. }
  do 8 chip_step. apply triple_ret. intros s [-> ->]. split; [done|]. split; [done|].
  cbn [with_alive bandwidth_hz_ coding_rate_ spreading_factor_ symbol_timeout_ preamble_].
  fold (mc1_of (bandwidth_hz_ r) (coding_rate_ r)) (mc2_of (spreading_factor_ r) (symbol_timeout_ r)).
  unfold programmed. rewrite !regs_set_reg.
  repeat first [rewrite lookup_total_insert_eq | rewrite lookup_total_insert_ne by done].
  destruct (mc1_decodes _ _ Hb Hc) as [-> ->]. by destruct (mc2_decodes _ _ Hs Ht) as [-> ->].
Qed.
End Configure.

(** * Properties *)

Section Properties.
Context {W : Type} `{HS : Spi W} {HC : Sx1276 W}.

(** A reception from a radio that rewinds the FIFO pointer, or whose pointer
    is where the next packet will be. *)
Definition clean (r : radio) (v : view) : Prop :=
  rx_warm_ r = false \/ (ptr v = 0 /\ regs v !!! SX1276REG_FifoRxBaseAddr = 0).

Lemma inited_clean r v :
  clean r v -> ptr (inited r v) = 0 /\ regs (inited r v) !!! SX1276REG_FifoRxBaseAddr = 0
               /\ next (inited r v) = next v.
Proof.
  intros Hc. unfold inited. destruct (rx_warm_ r) eqn:Ew.
  - destruct Hc as [|[]]; [congruence|done].
  - cbn. split; [done|]. split; [|done]. by repeat first
      [rewrite lookup_total_insert_eq | rewrite lookup_total_insert_ne by done].
Qed.

(** What [ReceiveMessage] makes of the next event on the air. *)
Definition heard (e : event) (size : Z) : reception :=
  match e with
  | Packet p _ =>
      if Z.of_nat (length p) - 1 <=? size
      then Reception true (take (length p - 1) p) false
      else Reception false [] false
  | Quiet => Reception false [] false
  end.

Lemma triple_Receive_clean r v size fuel :
  clean r v -> 1 <= size -> ((next v).1 < fuel)%nat ->
  (forall p c, (next v).2 = Packet p c -> (1 <= length p <= 256)%nat) ->
  triple (at_ r v) (ReceiveMessage fuel size)
    (fun o s => o = heard (next v).2 size
       /\ (exists rssi snr, s.1 = with_quality rssi snr (with_warm true r) /\ snr_ok (next v).2 snr)
       /\ aired (look s.2) = aired v /\ arrivals (look s.2) = tail (arrivals v)
       /\ ((next v).2 = Quiet -> clean s.1 (look s.2))).
Proof.
  intros Hw Hs Hf Hp. destruct (inited_clean r v Hw) as (Ep & Eb & En').
  destruct (next v) as [n e]. cbn [fst snd] in *.
  eapply triple_post; [apply (triple_Receive r v size fuel n e); try done; by rewrite Ep|].
  intros o s (-> & Hr & Ha & Harr & Hrr & _ & Hpp). split_and!; try done.
  - unfold heard. destruct e as [|p c]; [done|]. specialize (Hp p c eq_refl). unfold received_as.
    cbn [deliver fifo ptr]. rewrite Ep, Eb.
    rewrite trunc_small by word_lia.
    replace (Z.to_nat (Z.of_nat (length p) - 1)) with (length p - 1)%nat by lia.
    rewrite cells_fill by (done || lia).
    destruct (Z.ltb_spec size (Z.of_nat (length p) - 1)), (Z.leb_spec (Z.of_nat (length p) - 1) size);
      done || lia.
  - intros ->. right. rewrite Hpp, Hrr. cbn. by rewrite Ep, Eb.
Qed.

(** Also: [SetCarrier] then [ReadCarrier] gives the requested frequency rounded
    down by at most 62 Hz, for every request the 24-bit code can hold (below
    1024 MHz), and a whole number of megahertz exactly; the radio is cold
    afterwards. *)
Theorem carrier_reads_back r v hz :
  0 <= hz < 1024000000 ->
  triple (at_ r v) (SetCarrier hz;; ReadCarrier)
    (fun f s => s.1 = with_warm false r /\ f <= hz <= f + 62 /\ (hz mod 1000000 = 0 -> f = hz)).
Proof.
  intros Hhz. destruct (carrier_steps hz Hhz) as (HF & Hle & Hmhz).
  eapply triple_bind; [apply triple_SetCarrier|]. intros []; cbn beta.
  eapply triple_post; [by apply triple_ReadCarrier|]. intros f s [-> [Hr _]]. done.
Qed.

(** C21: [Begin] either reports failure and leaves the object alone, or marks
    the radio alive with the chip's registers decoding to the object's
    bandwidth, coding rate, spreading factor and symbol timeout and to the low
    byte of its preamble ([PreambleMSB] is not written, so a preamble above 255
    loses its upper byte), for every setting of the datasheet; nothing is
    transmitted. *)
Theorem begin_programs_settings r v :
  configured r ->
  triple (at_ r v) Begin
    (fun ok s => aired (look s.2) = aired v
       /\ if ok then s.1 = with_alive r
                 /\ programmed (look s.2)
                    = (Some (bandwidth_hz_ r), coding_rate_ r, spreading_factor_ r,
                       symbol_timeout_ r, u8 (preamble_ r))
          else s.1 = r).
Proof. apply triple_Begin. Qed.

(** C19: [TransmitMessage] puts exactly one frame on the air: the payload cut to
    [max_tx_payload_bytes_]. It returns whether the last IrqFlags it read has TX
    DONE, and sleeps 10 ms plus at most one 10 ms tick more than the predicted
    time on air has, so it ends even when the chip never reports. *)
Theorem transmit_airs_payload r v payload :
  fits 8 (max_tx_payload_bytes_ r) -> (length payload <= 255)%nat ->
  let l := cut_to (max_tx_payload_bytes_ r) payload in
  triple (at_ r v) (TransmitMessage payload (Z.of_nat (length payload)))
    (fun done s => s.1 = with_warm false r /\ aired (look s.2) = aired v ++ [l]
       /\ done = Z.testbit (flags_read (look s.2)) 3
       /\ 0 <= clock (look s.2) - clock v - 10
            <= 10 * Z.of_nat (Z.to_nat (1 + Z.quot (PredictTimeOnAir r (Z.of_nat (length l))) 10))).
Proof.
  intros Hm Hp l. eapply triple_post; [by apply triple_Transmit|]. by intros done s (? & ? & ? & ? & _).
Qed.

(** C20: a cold [ReceiveMessage] ends as soon as the chip reports, with fuel for
    its polls. On a packet that fits the buffer it returns the packet without
    its last byte ([payloadSizeBytes--]), whether or not the chip flagged a CRC
    error; otherwise it returns false. [crc_error] is never set. Afterwards the
    radio is warm and nothing was transmitted. *)
Theorem receive_cold r v size fuel :
  rx_warm_ r = false -> 1 <= size -> ((next v).1 < fuel)%nat ->
  (forall p c, (next v).2 = Packet p c -> (1 <= length p <= 256)%nat) ->
  triple (at_ r v) (ReceiveMessage fuel size)
    (fun o s => o = match (next v).2 with
                    | Packet p _ =>
                        if Z.of_nat (length p) - 1 <=? size
                        then Reception true (take (length p - 1) p) false
                        else Reception false [] false
                    | Quiet => Reception false [] false
                    end
       /\ rx_warm_ s.1 = true /\ aired (look s.2) = aired v /\ arrivals (look s.2) = tail (arrivals v)).
Proof.
  intros Hw Hs Hf Hp. eapply triple_post; [apply triple_Receive_clean; [by left|done..]|].
  intros o s (-> & (rssi & snr & -> & _) & Ha & Hr & _). done.
Qed.

(** Also: a second [ReceiveMessage] without a transmission in between finds the
    radio warm and does not rewind the FIFO pointer: after a packet of [n]
    bytes, a packet [p] of the same length is returned as its own last byte and
    then [n - 2] stale cells of the FIFO. *)
Theorem receive_warm_misreads r v size fuel p c :
  rx_warm_ r = true -> (2 <= length p <= 128)%nat -> Z.of_nat (length p) <= size -> (0 < fuel)%nat ->
  arrivals v = [(O, Packet p c)] ->
  ptr v = Z.of_nat (length p) - 1 -> regs v !!! SX1276REG_FifoRxBaseAddr = 0 ->
  triple (at_ r v) (ReceiveMessage fuel size)
    (fun o _ => o = Reception true
       (drop (length p - 1) p ++ cells (fifo v) (Z.of_nat (length p)) (length p - 2)) false).
Proof.
  intros Hw Hl Hs Hf Ha Hp Hb.
  assert (inited r v = v) as Ei by (unfold inited; by rewrite Hw).
  eapply triple_post; [apply (triple_Receive r v size fuel O (Packet p c)); rewrite ?Ei; try lia|].
  - unfold next. by rewrite Ha.
  - rewrite Hp. word_lia.
  - rewrite Ei. intros o s (-> & _). unfold received_as. cbn [deliver fifo ptr]. rewrite Hp, Hb.
    rewrite (trunc_small 8 (Z.of_nat (length p) - 1)) by word_lia.
    rewrite (proj2 (Z.ltb_ge size _)) by lia. f_equal.
    replace (Z.to_nat (Z.of_nat (length p) - 1)) with (length p - 1)%nat by lia.
    by apply cells_behind.
Qed.

(** Also: for every payload and every setting of the datasheet,
    [PredictTimeOnAir] is within one coding block (and the rounding of a
    millisecond) of the datasheet's formula: the test of the remainder, made
    after the division has replaced the dividend, can add or lose one block. *)
Theorem predict_within_a_block r len :
  configured r -> 0 <= len <= 255 ->
  let block := 1000 * coding_rate_ r * 2 ^ spreading_factor_ r / bandwidth_hz_ r in
  Z.abs (PredictTimeOnAir r len
         - time_on_air (bandwidth_hz_ r) (spreading_factor_ r) (coding_rate_ r) (preamble_ r) len)
  <= block + 1.
Proof. apply predict_error. Qed.
End Properties.

(** The rounding is wrong in both directions with the default settings: a
    payload of 1 byte loses a block, one of 8 bytes gains one. *)
Example predict_rounds_wrongly :
  PredictTimeOnAir new_SX1276Radio 1 = 82 /\ time_on_air 125000 9 6 8 1 = 107
  /\ PredictTimeOnAir new_SX1276Radio 8 = 156 /\ time_on_air 125000 9 6 8 8 = 131.
Proof. vm_compute. repeat split. Qed.

(** A negative signal-to-noise ratio is not decoded as two's complement: -1 dB
    (register 0xFC) reads as -16. *)
Example snr_sign_lost : snr_of 0xFC = -16. Proof. done. Qed.

(** ** Witnesses *)
Lemma new_radio_configured : configured new_SX1276Radio.
Proof. unfold configured. cbn. split; [by apply (bool_decide_eq_true_1 (125000 ∈ bandwidths))|lia]. Defined.

Lemma carrier_reads_back_witness :
  triple (at_ new_SX1276Radio blank) (SetCarrier (W := demo) 919000000;; ReadCarrier)
    (fun f s => s.1 = with_warm false new_SX1276Radio /\ f <= 919000000 <= f + 62
                /\ (919000000 mod 1000000 = 0 -> f = 919000000)).
Proof. apply carrier_reads_back. lia. Defined.

(** A chip whose OpMode reads LoRa standby, as [Begin] wants it. *)
Definition awake : view := set_reg SX1276REG_OpMode 0x81 blank.

Lemma begin_programs_settings_witness : exists s,
  Begin (W := demo) (new_SX1276Radio, (awake : demo)) = Some (true, s)
  /\ aired (look (W := demo) s.2) = [] /\ s.1 = with_alive new_SX1276Radio
  /\ programmed (look (W := demo) s.2) = (Some 125000, 6, 9, 366, 8).
Proof.
  destruct (begin_programs_settings (W := demo) new_SX1276Radio awake new_radio_configured
    (new_SX1276Radio, (awake : demo))) as (ok & s & E & Ha & H); [done|].
  assert (fst <$> Begin (W := demo) (new_SX1276Radio, (awake : demo)) = Some true) as Hok
    by (vm_compute; reflexivity).
  rewrite E in Hok. injection Hok as ->. destruct H as [H1 H2]. exists s.
  split; [exact E|]. split; [exact Ha|]. split; [exact H1|exact H2].
Defined.

Lemma transmit_airs_payload_witness :
  triple (at_ new_SX1276Radio blank) (TransmitMessage (W := demo) [104; 105] 2)
    (fun done s => s.1 = with_warm false new_SX1276Radio /\ aired (look s.2) = [[104; 105]]
       /\ done = Z.testbit (flags_read (look s.2)) 3
       /\ 0 <= clock (look s.2) - 0 - 10 <= 90).
Proof.
  apply (transmit_airs_payload new_SX1276Radio blank [104; 105]).
  - by apply (bool_decide_eq_true_1 (fits 8 0x80)).
  - cbn. lia.
Defined.

Definition hearing (l : list (nat * event)) : view := set_rx None l blank.

Lemma receive_cold_witness :
  triple (at_ new_SX1276Radio (hearing [(2%nat, Packet [1; 2; 3] true)])) (ReceiveMessage (W := demo) 3 128)
    (fun o s => o = Reception true [1; 2] false
       /\ rx_warm_ s.1 = true /\ aired (look s.2) = [] /\ arrivals (look s.2) = []).
Proof.
  apply (receive_cold new_SX1276Radio (hearing [(2%nat, Packet [1; 2; 3] true)]) 128 3); try done.
  - cbn. lia.
  - intros p c [= <- <-]. cbn. lia.
Defined.

(** The chip after the reception of [1; 2; 3], with an older 4 in its FIFO. *)
Definition after_one : view :=
  set_rx None [(O, Packet [7; 8; 9] false)]
    (set_ptr 2 (deliver (Packet [1; 2; 3] false)
      (set_reg SX1276REG_FifoRxBaseAddr 0 (push 4 (set_ptr 3 blank))))).

Lemma receive_warm_misreads_witness :
  triple (at_ (with_warm true new_SX1276Radio) after_one) (ReceiveMessage (W := demo) 1 128)
    (fun o _ => o = Reception true [9; 4] false).
Proof.
  eapply triple_post.
  - apply (receive_warm_misreads (with_warm true new_SX1276Radio) after_one 128 1 [7; 8; 9] false);
      try done; cbn; lia.
  - intros o s ->. vm_compute. done.
Defined.

Lemma predict_within_a_block_witness :
  Z.abs (PredictTimeOnAir new_SX1276Radio 1 - 107) <= 25.
Proof. apply (predict_within_a_block new_SX1276Radio 1); [exact new_radio_configured|lia]. Defined.
