(* ===== verification/Link.v ===== *)
(** The framing of MQTT-SN datagrams on the LoRa link, as the leaf node does it:
    [src/software/mcu/libraries/sentrifarm/sx1276mqttsn.cpp] and
    [sx1276mqttsn.h], the class [MQTTSX1276] derived from [MQTTSN] over
    [SX1276Radio].

    A node is the client of [Mqttsn] with the derived class's members, and the
    radio with its chip. The base class calls [send_message_impl] last of all it
    does with the derived object, so its calls, which [Mqttsn] logs in order, are
    carried out by [flush] when the client method returns. *)
From S2P Require Import Prelude Mqttsn Radio.

(** * The data members (sx1276mqttsn.h) *)
Record leaf := Leaf {
  rx_buffer_ : list Z;         (* byte[128] *)
  rx_buffer_len_ : Z;
  tx_buffer_ : list Z;         (* byte[MAX_BUFFER_SIZE+4] *)
  tx_rolling_ : Z;
  got_disconnect_ : Z;
  got_puback_ : Z;
  connack_possible_ : bool }.

Definition new_MQTTSX1276 : leaf :=
  Leaf (replicate 128 0) 0 (replicate (MAX_BUFFER_SIZE + 4) 0) 0 0 0 false.

Definition set_rx (b : list Z) (n : Z) (l : leaf) : leaf :=
  Leaf b n (tx_buffer_ l) (tx_rolling_ l) (got_disconnect_ l) (got_puback_ l) (connack_possible_ l).
Definition set_tx (b : list Z) (n : Z) (l : leaf) : leaf :=
  Leaf (rx_buffer_ l) (rx_buffer_len_ l) b n (got_disconnect_ l) (got_puback_ l) (connack_possible_ l).
Definition count_disconnect (l : leaf) : leaf :=
  Leaf (rx_buffer_ l) (rx_buffer_len_ l) (tx_buffer_ l) (tx_rolling_ l)
    (u8 (got_disconnect_ l + 1)) (got_puback_ l) (connack_possible_ l).
Definition count_puback (l : leaf) : leaf :=
  Leaf (rx_buffer_ l) (rx_buffer_len_ l) (tx_buffer_ l) (tx_rolling_ l)
    (got_disconnect_ l) (u8 (got_puback_ l + 1)) (connack_possible_ l).
Definition connack_seen (l : leaf) : leaf :=
  Leaf (rx_buffer_ l) (rx_buffer_len_ l) (tx_buffer_ l) (tx_rolling_ l)
    (got_disconnect_ l) (got_puback_ l) true.
Definition ResetDisconnect (l : leaf) : leaf :=
  Leaf (rx_buffer_ l) (rx_buffer_len_ l) (tx_buffer_ l) (tx_rolling_ l)
    0 (got_puback_ l) (connack_possible_ l).

Definition IsMaybeConnected (l : leaf) : bool := connack_possible_ l.
Definition DidDisconnect (l : leaf) : bool := 0 <? got_disconnect_ l.
Definition DidPuback (l : leaf) : bool := 0 <? got_puback_ l.

(** * The virtual methods it overrides *)
Definition on_ext (f : leaf -> leaf) : ST (world leaf) () :=
  modify (fun w => World (obj w) (f (ext w)) (sent w) (millis w)).

(** [true] makes [parse] call [dispatch], on a short frame or a HELLO too. *)
Definition parse_impl : ST (world leaf) bool :=
  w ← get;
  let l := ext w in
  if rx_buffer_len_ l <? 3 then mret true
  else
    ty ← lift_opt (load (rx_buffer_ l) 0 1);
    if hd 0 ty =? 0x2 then mret true
    else
      let n := if Z.of_nat MAX_BUFFER_SIZE <? rx_buffer_len_ l - 3
               then MAX_BUFFER_SIZE else Z.to_nat (rx_buffer_len_ l - 3) in
      bs ← lift_opt (load (rx_buffer_ l) 3 n);
      b ← lift_opt (store (response_buffer (obj w)) 0 bs);
      on_obj (set_response_buffer b);;
      mret true.

Definition willmsgreq_handler : ST (world leaf) () := willmsg [] false.
Definition connack_handler : ST (world leaf) () := on_ext connack_seen.
Definition puback_handler : ST (world leaf) () := on_ext count_puback.
Definition disconnect_handler : ST (world leaf) () := on_ext count_disconnect.

Definition leaf_vtable (deref : Z -> list Z) (junk : Z) : vtable leaf :=
  VTable parse_impl advertise_handler (mret ()) connack_handler (mret ()) willmsgreq_handler
    regack_handler publish_handler (register_handler deref junk) puback_handler (mret ())
    (mret ()) pingreq_handler (mret ()) disconnect_handler (mret ()) (mret ()).

(** * The link *)
Definition xorvbuf (buf : list Z) : Z := fold_left (fun xorv b => Z.lxor xorv b) buf 0.

Section Node.
Context {W : Type} `{Spi W}.

Record node := Node { client : world leaf; air_side : radio * W }.
Abbreviation N := (ST node).

Definition on_client {A} (m : ST (world leaf) A) : N A :=
  fun s => match m (client s) with
           | Some (a, w) => Some (a, Node w (air_side s)) | None => None end.
Definition on_radio {A} (m : ST (radio * W) A) : N A :=
  fun s => match m (air_side s) with
           | Some (a, r) => Some (a, Node (client s) r) | None => None end.
Definition members : N leaf := on_client (w ← get; mret (ext w)).

(** [MQTTSX1276::send_message_impl]; [msg] is the client's message buffer. *)
Definition send_frame (msg : list Z) (length : Z) : N () :=
  l ← members;
  b ← lift_opt (store (tx_buffer_ l) 0 [0; tx_rolling_ l; 0]);
  let length := if Z.of_nat MAX_BUFFER_SIZE <? length then Z.of_nat MAX_BUFFER_SIZE else length in
  bs ← lift_opt (load msg 0 (Z.to_nat length));
  b ← lift_opt (store b 3 bs);
  let xorv := xorvbuf (take (Z.to_nat (length + 3)) b) in
  b ← lift_opt (store b (Z.to_nat (length + 3)) [xorv]);
  on_client (on_ext (set_tx b (u8 (tx_rolling_ l + 1))));;
  on_radio (TransmitMessage (take (Z.to_nat (length + 4)) b) (length + 4));;
  on_radio Standby.

(** Carries out the calls of [send_message_impl] that are in the log. *)
Fixpoint send_all (calls : list (list Z * Z)) : N () :=
  match calls with
  | [] => mret ()
  | (msg, len) :: calls => send_frame msg len;; send_all calls
  end.
Definition flush : N () :=
  calls ← on_client (w ← get; mret (sent w));
  on_client (modify (fun w => World (obj w) (ext w) [] (millis w)));;
  send_all calls.

(** A client method of the node. *)
Definition method {A} (m : ST (world leaf) A) : N A :=
  a ← on_client m; flush;; mret a.

(** [MQTTSX1276::Begin] *)
Definition Begin : N bool :=
  on_radio ReadVersion;;
  started_ok ← on_radio Radio.Begin;
  if (started_ok : bool) then on_radio (SetCarrier 919000000);; on_radio ReadCarrier;; mret true
  else mret false.

(** [MQTTSX1276::TryReceive]: its return value and [crc]. *)
Definition TryReceive (vt : vtable leaf) (fuel : nat) : N (bool * bool) :=
  on_client (on_ext (fun l => set_rx (rx_buffer_ l) 0 l));;
  l ← members;
  o ← on_radio (ReceiveMessage fuel 128);
  if ok o then
    b ← lift_opt (store (rx_buffer_ l) 0 (bytes o));
    on_client (on_ext (set_rx b (Z.of_nat (length (bytes o)))));;
    method (parse vt);;
    mret (true, crc_error o)
  else mret (false, crc_error o).
End Node.
