(* ===== verification/Bridge.v ===== *)
(** The gateway's bridge between UDP and the LoRa link:
    [src/software/sx1276/sx1276_mqttsn_bridge.cpp], class [RadioManager].

    The radio is used through class [SimpleRadio], which has the interface of
    the Linux [SX1276Radio] (its implementation is modelled in [RadioLinux]).
    Both threads hold [radio_mutex_] while they use the radio, so the methods
    are atomic up to the unlock of [TryReceive]'s loop, between whose turns the
    other thread may transmit: this is proved in [BridgeThreadsFacts]. Console
    output is left out. *)
From S2P Require Import Prelude.

(** What [ReceiveSimpleMessage(buffer, size, timeout_ms, timeout, crc_error)]
    leaves: its return value, [size], the new values of [timeout] and
    [crc_error] given the old ones, and the bytes at the start of [buffer]. *)
Record rx_report := Report {
  no_fault : bool; rx_size : Z; rx_timeout : bool; rx_crc_error : bool; rx_bytes : list Z }.

Class SimpleRadio (R : Type) := {
  SendSimpleMessage : list Z -> R -> bool * R;
  ReceiveSimpleMessage : Z -> Z -> bool -> bool -> R -> rx_report * R;
  ResetSX1276 : R -> R;
  ChangeCarrier : Z -> R -> R;
  ApplyDefaultLoraConfiguration : R -> R }.

(** * The data members. The six counts are [int]s, here mathematical integers:
    none leaves the range of an [int] in the threads' first 8388607 steps
    ([BridgeTypesFacts.threads_typed]). *)
Record manager := Manager {
  port_ : option (list Z * list Z);      (* have_port_, from_ip_, from_port_ *)
  rolling_counter_ : Z;
  rolling_counter_rx_ : Z;
  num_tx_ : Z;
  num_valid_received_ : Z;
  num_crc_errors_ : Z;
  num_junk_ : Z;
  num_xorv_ : Z;
  dropped_ : Z;
  have_rx_ : bool }.

Definition new_RadioManager : manager := Manager None 0 0xff 0 0 0 0 0 0 false.

Definition set_port (p : list Z * list Z) (m : manager) : manager :=
  Manager (Some p) (rolling_counter_ m) (rolling_counter_rx_ m) (num_tx_ m)
    (num_valid_received_ m) (num_crc_errors_ m) (num_junk_ m) (num_xorv_ m) (dropped_ m) (have_rx_ m).
Definition set_counter (c : Z) (m : manager) : manager :=
  Manager (port_ m) c (rolling_counter_rx_ m) (num_tx_ m)
    (num_valid_received_ m) (num_crc_errors_ m) (num_junk_ m) (num_xorv_ m) (dropped_ m) (have_rx_ m).
Definition count_tx (m : manager) : manager :=
  Manager (port_ m) (rolling_counter_ m) (rolling_counter_rx_ m) (num_tx_ m + 1)
    (num_valid_received_ m) (num_crc_errors_ m) (num_junk_ m) (num_xorv_ m) (dropped_ m) (have_rx_ m).
Definition count_crc (m : manager) : manager :=
  Manager (port_ m) (rolling_counter_ m) (rolling_counter_rx_ m) (num_tx_ m)
    (num_valid_received_ m) (num_crc_errors_ m + 1) (num_junk_ m) (num_xorv_ m) (dropped_ m) (have_rx_ m).
Definition count_junk (m : manager) : manager :=
  Manager (port_ m) (rolling_counter_ m) (rolling_counter_rx_ m) (num_tx_ m)
    (num_valid_received_ m) (num_crc_errors_ m) (num_junk_ m + 1) (num_xorv_ m) (dropped_ m) (have_rx_ m).
Definition count_xorv (m : manager) : manager :=
  Manager (port_ m) (rolling_counter_ m) (rolling_counter_rx_ m) (num_tx_ m)
    (num_valid_received_ m) (num_crc_errors_ m) (num_junk_ m) (num_xorv_ m + 1) (dropped_ m) (have_rx_ m).
Definition hello_seen (c : Z) (m : manager) : manager :=
  Manager (port_ m) (rolling_counter_ m) c (num_tx_ m)
    (num_valid_received_ m) (num_crc_errors_ m) (num_junk_ m) (num_xorv_ m) (dropped_ m) false.
Definition data_seen (c dropped : Z) (m : manager) : manager :=
  Manager (port_ m) (rolling_counter_ m) c (num_tx_ m)
    (num_valid_received_ m + 1) (num_crc_errors_ m) (num_junk_ m) (num_xorv_ m) dropped true.

Definition SetPort (ip port : list Z) (m : manager) : manager := set_port (ip, port) m.
Definition GetPort (m : manager) : option (list Z * list Z) := port_ m.

(** * The loop that xors [n] bytes; beyond the buffer is undefined *)
Definition xor_bytes (buffer : list Z) (n : Z) : option Z :=
  if n <=? Z.of_nat (length buffer)
  then Some (fold_left Z.lxor (take (Z.to_nat n) buffer) 0) else None.

(** The counter [received_counter] follows, and the messages lost before it. *)
Definition expected_counter (m : manager) : Z :=
  if rolling_counter_rx_ m =? 0xff then 0 else rolling_counter_rx_ m + 1.
Definition skipped (received expected : Z) : Z :=
  let skipped := received - expected in if skipped <? 1 then skipped + 256 else skipped.

(** What a turn of [TryReceive]'s loop does with a frame: [inl] is the payload
    it returns, [inr] goes on, with [true] by way of [continue], which leaves
    the end of the loop's body out. [received] is an [int], compared as unsigned;
    [received-4] becomes the [size_t] of [memcpy]. [room] is the payload
    buffer's size, [buffer] the whole VLA. *)
Definition handle_frame (room : nat) (buffer : list Z) (received : Z) (m : manager)
    : option ((list Z + bool) * manager) :=
  xorv ← xor_bytes buffer (u32 (received - 1));
  last ← (if received <? 1 then None else buffer !! Z.to_nat (received - 1));
  if negb (xorv =? last) then Some (inr false, count_xorv m)
  else
    b0 ← buffer !! 0%nat; b1 ← buffer !! 1%nat;
    if b0 =? 2 then Some (inr true, hello_seen b1 m)
    else if b0 =? 0 then
      let dropped :=
        if have_rx_ m && negb (b1 =? expected_counter m)
        then dropped_ m + skipped b1 (expected_counter m) else dropped_ m in
      if received <? 4 then None
      else
        payload ← load buffer 3 (Z.to_nat (received - 4));
        if decide (length payload <= room)%nat
        then Some (inl payload, data_seen b1 dropped m) else None
    else Some (inr false, count_junk m).

(** The frames the bridge sends. *)
Definition seal (b : list Z) : list Z := b ++ [fold_left Z.lxor b 0].
Definition data_frame (roll rx : Z) (payload : list Z) : list Z := seal ([0x0; roll; rx] ++ payload).
Definition hello_frame (roll i : Z) : list Z :=
  seal ([0x02; roll; 0xff] ++ str "hello" ++ [48 + i]).

Section Bridge.
Context {R : Type} `{SimpleRadio R}.
Abbreviation M := (ST (manager * R)).

Definition on_manager (f : manager -> manager) : M () := fun '(m, r) => Some ((), (f m, r)).
Definition this : M manager := fun '(m, r) => Some (m, (m, r)).
Definition radio_op {A} (f : R -> A * R) : M A :=
  fun '(m, r) => let '(a, r) := f r in Some (a, (m, r)).

Definition Restart : M () :=
  radio_op (fun r => ((), ResetSX1276 r));;
  radio_op (fun r => ((), ChangeCarrier 919000000 r));;
  radio_op (fun r => ((), ApplyDefaultLoraConfiguration r)).

(** Five HELLO messages. (The function is declared [bool] and has no return
    statement, which C++ leaves undefined; it is taken to return.) *)
Fixpoint hello_loop (n : nat) (i : Z) : M () :=
  match n with
  | O => mret ()
  | S n =>
      m ← this;
      on_manager (set_counter (u8 (rolling_counter_ m + 1)));;
      radio_op (SendSimpleMessage (hello_frame (rolling_counter_ m) i));;
      hello_loop n (i + 1)
  end.
Definition TransmitHello : M () := hello_loop 5 0.

(** [Transmit] before it locks: the header's counter is taken and moved on. *)
Definition next_roll : M Z :=
  m ← this;
  on_manager (set_counter (if rolling_counter_ m =? 0xff then 0 else rolling_counter_ m + 1));;
  mret (rolling_counter_ m).

(** [Transmit] under the lock. *)
Definition send_framed (roll : Z) (payload : list Z) : M bool :=
  m ← this;
  sent ← radio_op (SendSimpleMessage (data_frame roll (rolling_counter_rx_ m) payload));
  if (sent : bool) then on_manager count_tx;; mret true else mret false.

Definition Transmit (payload : list Z) : M bool :=
  roll ← next_roll;
  send_framed roll payload.

(** A turn of the receiving loop, from what the stack buffer, [timeout] and
    [crc_error] hold to how it goes on; [continued] is the [continue] that skips
    the moment in which the mutex is free. *)
Inductive turn :=
  | Fault
  | Got (payload : list Z)
  | Again (continued : bool) (buffer : list Z) (timeout crc_error : bool).

Definition receive_turn (len : nat) (buffer : list Z) (timeout crc_error : bool) : M turn :=
  o ← radio_op (ReceiveSimpleMessage (Z.of_nat (len + 4)) 20000 timeout crc_error);
  if negb (no_fault o) then mret Fault
  else
    buffer ← lift_opt (store buffer 0 (rx_bytes o));
    if negb (rx_timeout o) && negb (rx_crc_error o) then
      m ← this;
      '(res, m) ← lift_opt (handle_frame len buffer (rx_size o) m);
      on_manager (fun _ => m);;
      mret (match (res : list Z + bool) with
            | inl payload => Got payload
            | inr continued => Again continued buffer (rx_timeout o) (rx_crc_error o)
            end)
    else
      when (rx_crc_error o) (on_manager count_crc);;
      mret (Again false buffer (rx_timeout o) (rx_crc_error o)).

(** The receiving loop. [junk] is what the stack buffer holds before a message
    is stored in it; [timeout] and [crc_error] keep their values between turns. *)
Fixpoint receive_loop (fuel : nat) (len : nat) (junk : list Z) (timeout crc_error : bool)
    : M (option (list Z)) :=
  match fuel with
  | O => undefined
  | S fuel =>
      t ← receive_turn len junk timeout crc_error;
      match (t : turn) with
      | Fault => mret None
      | Got payload => mret (Some payload)
      | Again _ buffer timeout crc_error => receive_loop fuel len buffer timeout crc_error
      end
  end.

(** The payload received, or [None] when the radio has a fault. *)
Definition TryReceive (fuel : nat) (junk : list Z) (len : nat) : M (option (list Z)) :=
  receive_loop fuel len junk false false.

(** A turn of [WorkerThread::OutLoop]: a datagram from UDP. *)
Definition out_turn (ip port : list Z) (datagram : list Z) : M () :=
  if (0 <? Z.of_nat (length datagram)) then
    on_manager (SetPort ip port);; Transmit datagram;; mret ()
  else mret ().

(** A turn of [WorkerThread::InLoop]: the datagram for UDP and its
    destination, if any. [is_client] is the cast to a client socket. *)
Inductive udp_out := To_port (ip port datagram : list Z) | To_broker (datagram : list Z) | Nowhere.
Definition in_turn (fuel : nat) (junk : list Z) (is_client : bool) : M udp_out :=
  r ← TryReceive fuel junk 256;
  match (r : option (list Z)) with
  | Some payload =>
      m ← this;
      mret (match GetPort m with
            | Some (ip, port) => To_port ip port payload
            | None => if is_client then To_broker payload else Nowhere
            end)
  | None => Restart;; mret Nowhere
  end.
End Bridge.
