(* ===== verification/LinkFacts.v ===== *)
(** The LoRa link from end to end: what the leaf puts on the air reaches the
    bridge's UDP side and the other way round, what the trailer and the
    counters of the frames detect, and the frames neither side is safe from. *)
From S2P Require Import Prelude Mqttsn MqttsnFacts Radio RadioFacts Link Bridge.

(** * Frames *)
Lemma fold_lxor_start l a : fold_left Z.lxor l a = Z.lxor a (fold_left Z.lxor l 0).
Proof.
  revert a. induction l as [|b l IH]; intros a; cbn [fold_left].
  - by rewrite Z.lxor_0_r.
  - rewrite IH, (IH (Z.lxor 0 b)), Z.lxor_0_l. apply Z.lxor_assoc.
Qed.

Lemma fold_lxor_insert l i x y :
  l !! i = Some y ->
  fold_left Z.lxor (<[i := x]> l) 0 = Z.lxor (fold_left Z.lxor l 0) (Z.lxor y x).
Proof.
  revert i. induction l as [|b l IH]; intros i Hi; [done|]. destruct i as [|i]; cbn in Hi.
  - injection Hi as <-. cbn [fold_left insert list_insert]. rewrite !Z.lxor_0_l.
    rewrite fold_lxor_start, (fold_lxor_start l b).
    rewrite (Z.lxor_comm b (fold_left _ _ _)), <- Z.lxor_assoc, (Z.lxor_assoc _ b b).
    rewrite Z.lxor_nilpotent, Z.lxor_0_r. apply Z.lxor_comm.
  - change (<[S i := x]> (b :: l)) with (b :: <[i := x]> l). cbn [fold_left].
    rewrite fold_lxor_start, (fold_lxor_start l). rewrite IH by done. symmetry. apply Z.lxor_assoc.
Qed.

Lemma length_seal b : length (seal b) = S (length b).
Proof. unfold seal. rewrite length_app. cbn. lia. Qed.

Lemma xor_bytes_app b rest : xor_bytes (b ++ rest) (Z.of_nat (length b)) = Some (fold_left Z.lxor b 0).
Proof.
  unfold xor_bytes. rewrite (proj2 (Z.leb_le _ _)) by (rewrite length_app; lia).
  by rewrite Nat2Z.id, take_app_length.
Qed.

(** The two tests every frame goes through, for a buffer that starts with the
    bytes [b] and the trailer [t]. *)
Lemma handle_frame_eq room b t rest m :
  (length b < 1000)%nat ->
  handle_frame room (b ++ t :: rest) (Z.of_nat (length b) + 1) m =
  if negb (fold_left Z.lxor b 0 =? t) then Some (inr false, count_xorv m)
  else
    b0 ← (b ++ t :: rest) !! 0%nat; b1 ← (b ++ t :: rest) !! 1%nat;
    if b0 =? 2 then Some (inr true, hello_seen b1 m)
    else if b0 =? 0 then
      let dropped :=
        if have_rx_ m && negb (b1 =? expected_counter m)
        then dropped_ m + skipped b1 (expected_counter m) else dropped_ m in
      if Z.of_nat (length b) + 1 <? 4 then None
      else
        payload ← load (b ++ t :: rest) 3 (Z.to_nat (Z.of_nat (length b) + 1 - 4));
        if decide (length payload <= room)%nat
        then Some (inl payload, data_seen b1 dropped m) else None
    else Some (inr false, count_junk m).
Proof.
  intros Hb. unfold handle_frame.
  replace (u32 (Z.of_nat (length b) + 1 - 1)) with (Z.of_nat (length b)) by word_lia.
  rewrite xor_bytes_app. cbn [mbind option_bind].
  rewrite (proj2 (Z.ltb_ge (Z.of_nat (length b) + 1) 1)) by lia.
  replace (Z.to_nat (Z.of_nat (length b) + 1 - 1)) with (length b) by lia.
  rewrite (lookup_app_r b (t :: rest) (length b)), Nat.sub_diag by lia. done.
Qed.

Lemma frame_accepted roll rx payload room rest m :
  (length payload <= room)%nat -> (length payload < 900)%nat ->
  handle_frame room (data_frame roll rx payload ++ rest) (Z.of_nat (length (data_frame roll rx payload))) m
  = Some (inl payload,
          data_seen roll (if have_rx_ m && negb (roll =? expected_counter m)
                          then dropped_ m + skipped roll (expected_counter m) else dropped_ m) m).
Proof.
  intros Hr Hl. unfold data_frame. set (b := [0x0; roll; rx] ++ payload).
  assert (length b = 3 + length payload)%nat as Hb by done.
  rewrite length_seal. unfold seal. rewrite <- app_assoc.
  change ([fold_left Z.lxor b 0] ++ rest) with (fold_left Z.lxor b 0 :: rest).
  replace (Z.of_nat (S (length b))) with (Z.of_nat (length b) + 1) by lia.
  rewrite (handle_frame_eq _ b) by lia. rewrite Z.eqb_refl. cbn [negb].
  rewrite (proj2 (Z.ltb_ge (_ + 1) 4)) by lia.
  replace (Z.to_nat _) with (length payload) by lia. clear Hb. subst b. rewrite <- app_assoc.
  cbn [app lookup list_lookup mbind option_bind].
  change (0 =? 2) with false. change (0 =? 0) with true. cbn iota zeta.
  unfold load. rewrite decide_True by (cbn [length]; rewrite length_app; lia).
  cbn [drop mbind option_bind]. rewrite drop_0, take_app_length. by rewrite decide_True.
Qed.

Lemma corrupt_seal b i x y rest room m :
  (length b < 1000)%nat -> seal b !! i = Some y -> x <> y ->
  handle_frame room (<[i := x]> (seal b) ++ rest) (Z.of_nat (length (seal b))) m
  = Some (inr false, count_xorv m).
Proof.
  intros Hb Hi Hxy. rewrite length_seal.
  replace (Z.of_nat (S (length b))) with (Z.of_nat (length b) + 1) by lia.
  unfold seal in *. destruct (decide (i < length b)%nat) as [Hlt|Hge].
  - rewrite insert_app_l by done. rewrite lookup_app_l in Hi by done.
    rewrite <- app_assoc. change ([?t] ++ rest) with (t :: rest).
    rewrite <- (length_insert b i x), handle_frame_eq by (rewrite length_insert; done).
    rewrite (fold_lxor_insert b i x y) by done.
    rewrite (proj2 (Z.eqb_neq _ _)); [done|]. intros E.
    apply (f_equal (Z.lxor (fold_left Z.lxor b 0))) in E.
    rewrite <- Z.lxor_assoc, Z.lxor_nilpotent, Z.lxor_0_l in E. by apply Z.lxor_eq in E.
  - assert (i = length b) as ->.
    { apply lookup_lt_Some in Hi. rewrite length_app in Hi. cbn in Hi. lia. }
    rewrite lookup_app_r, Nat.sub_diag in Hi by lia. injection Hi as Hi.
    rewrite insert_app_r_alt, Nat.sub_diag by lia. cbn [list_insert insert].
    rewrite <- app_assoc. change ([x] ++ rest) with (x :: rest).
    rewrite handle_frame_eq by done. rewrite (proj2 (Z.eqb_neq _ _)) by congruence. done.
Qed.

(** ** Lost messages *)

(** The frames that get through of a sender whose counter is [c], each after
    [gap] frames that do not. *)
Fixpoint survivors (c rx : Z) (l : list (Z * list Z)) : list (list Z) :=
  match l with
  | [] => []
  | (gap, p) :: l => data_frame ((c + gap) mod 256) rx p :: survivors ((c + gap + 1) mod 256) rx l
  end.

Definition losses (l : list (Z * list Z)) : Z := fold_right Z.add 0 l.*1.

Section Receiving.
Context {R : Type} `{SimpleRadio R}.

(** The radio delivers the frame [f] next, whatever the flags of the call. *)
Definition hears (r : R) (size : Z) (f : list Z) (r' : R) : Prop := forall ms t c,
  ReceiveSimpleMessage size ms t c r = (Report true (Z.of_nat (length f)) false false f, r').

Inductive hears_all (size : Z) : R -> list (list Z) -> R -> Prop :=
  | hears_none r : hears_all size r [] r
  | hears_more r f r1 l r' :
      hears r size f r1 -> hears_all size r1 l r' -> hears_all size r (f :: l) r'.

(** Successive calls of [TryReceive], each with its own stack buffer. *)
Fixpoint receive_many (n : nat) (fuel : nat) (junk : list Z) (room : nat)
    : ST (manager * R) (list (option (list Z))) :=
  match n with
  | O => mret []
  | S n => p ← TryReceive fuel junk room; ps ← receive_many n fuel junk room; mret (p :: ps)
  end.

Lemma TryReceive_frame fuel junk room roll rx p m r r' :
  (0 < fuel)%nat -> length junk = (room + 4)%nat -> (length p <= room < 900)%nat ->
  hears r (Z.of_nat (room + 4)) (data_frame roll rx p) r' ->
  TryReceive fuel junk room (m, r)
  = Some (Some p,
      (data_seen roll (if have_rx_ m && negb (roll =? expected_counter m)
                       then dropped_ m + skipped roll (expected_counter m) else dropped_ m) m, r')).
Proof.
  intros Hf Hj Hp Hh. unfold TryReceive. destruct fuel as [|fuel]; [lia|]. cbn [receive_loop].
  rewrite ST_bind_eq. unfold receive_turn. rewrite ST_bind_eq. unfold radio_op. rewrite Hh. cbn [no_fault negb rx_bytes rx_timeout rx_crc_error andb].
  assert (length (data_frame roll rx p) = 4 + length p)%nat as Hl by (unfold data_frame; rewrite length_seal; done).
  assert (store junk 0 (data_frame roll rx p)
          = Some (data_frame roll rx p ++ drop (4 + length p) junk)) as ->.
  { unfold store. by rewrite decide_True, Hl by (rewrite Hl, Hj; lia). }
  rewrite ST_bind_eq. unfold lift_opt at 1. cbn [fmap option_fmap option_map].
  rewrite ST_bind_eq. unfold this. rewrite ST_bind_eq. cbn [rx_size].
  unfold lift_opt. rewrite frame_accepted by lia. done.
Qed.

Lemma skipped_gap c gap :
  0 <= c < 256 -> 0 <= gap < 256 ->
  (if negb ((c + gap) mod 256 =? c) then skipped ((c + gap) mod 256) c else 0) = gap.
Proof.
  intros Hc Hg. unfold skipped. destruct (Z.eqb_spec ((c + gap) mod 256) c); cbn [negb].
  - Z.div_mod_to_equations. lia.
  - destruct (Z.ltb_spec ((c + gap) mod 256 - c) 1); Z.div_mod_to_equations; lia.
Qed.

Lemma expected_after roll d m : 0 <= roll < 256 -> expected_counter (data_seen roll d m) = (roll + 1) mod 256.
Proof.
  intros Hr. unfold expected_counter. cbn. destruct (Z.eqb_spec roll 255); Z.div_mod_to_equations; lia.
Qed.

Lemma receive_many_counts fuel junk room rx l m r r' :
  (0 < fuel)%nat -> length junk = (room + 4)%nat -> (room < 900)%nat ->
  Forall (fun gp => 0 <= gp.1 < 256 /\ (length gp.2 <= room)%nat) l ->
  have_rx_ m = true -> 0 <= expected_counter m < 256 ->
  hears_all (Z.of_nat (room + 4)) r (survivors (expected_counter m) rx l) r' ->
  exists m', receive_many (length l) fuel junk room (m, r) = Some (Some <$> l.*2, (m', r'))
    /\ dropped_ m' = dropped_ m + losses l
    /\ num_valid_received_ m' = num_valid_received_ m + Z.of_nat (length l).
Proof.
  intros Hf Hj Hr Hl. revert m r. induction Hl as [|[gap p] l [Hg Hp] Hl IH]; intros m r Hm Hc Hh.
  { inversion Hh; subst. exists m. cbn. split; [done|]. unfold losses. cbn. lia. }
  cbn [survivors] in Hh. inversion Hh as [|? ? r1 ? ? Hh1 Hh2]; subst. cbn [fst snd] in *.
  cbn [length receive_many]. rewrite ST_bind_eq.
  erewrite TryReceive_frame by (try done; lia). rewrite Hm. cbn [andb].
  set (c := expected_counter m) in *. set (roll := (c + gap) mod 256) in *.
  pose proof (skipped_gap c gap Hc Hg) as Hsk. fold roll in Hsk.
  set (d := if negb (roll =? c) then _ else _).
  assert (d = dropped_ m + gap) as Hd by (subst d; destruct (negb _); lia).
  assert (expected_counter (data_seen roll d m) = (c + gap + 1) mod 256) as Hx.
  { rewrite expected_after by (subst roll; apply Z.mod_pos_bound; lia). subst roll.
    by rewrite Zplus_mod_idemp_l. }
  destruct (IH (data_seen roll d m) r1) as (m' & E & Ed & En).
  - done.
  - rewrite Hx. apply Z.mod_pos_bound. lia.
  - by rewrite Hx.
  - exists m'. rewrite ST_bind_eq, E. split; [done|]. cbn [dropped_ data_seen num_valid_received_] in *.
    unfold losses in *. cbn [fmap list_fmap fold_right fst] in *. split; lia.
Qed.
End Receiving.

(** * The leaf's side *)
Section Leaf.
Context {W : Type} `{HS : Spi W} {HC : Sx1276 W}.

(** The node's client is [c], its radio [r], and the chip looks like [v]. *)
Definition node_at (c : world leaf) (r : radio) (v : view) (s : node) : Prop :=
  client s = c /\ at_ r v (air_side s).

Lemma triple_on_radio {A} c P (m : ST (radio * W) A) Q :
  triple P m Q ->
  triple (fun s => client s = c /\ P (air_side s)) (on_radio m)
    (fun a s => client s = c /\ Q a (air_side s)).
Proof.
  intros Hm [c' rw] [Hc Ha]. cbn in Hc, Ha. subst c'. destruct (Hm rw Ha) as (a & rw' & E & HQ).
  exists a, (Node c rw'). unfold on_radio. cbn. by rewrite E.
Qed.

Lemma triple_on_client {A} c r v (m : ST (world leaf) A) a c' :
  m c = Some (a, c') ->
  triple (node_at c r v) (on_client m) (fun b s => b = a /\ node_at c' r v s).
Proof.
  intros E [c1 rw] [Hc Ha]. cbn in Hc, Ha. subst c1. exists a, (Node c' rw).
  unfold on_client. cbn. by rewrite E.
Qed.

Lemma triple_Standby r l q :
  triple (fun rw => rw.1 = r /\ aired (look rw.2) = l /\ arrivals (look rw.2) = q) Standby
    (fun _ rw => exists v, at_ (with_warm false r) v rw /\ aired v = l /\ arrivals v = q).
Proof.
  intros rw (<- & <- & <-).
  assert (triple (at_ rw.1 (look rw.2)) Standby
            (fun _ => at_ (with_warm false rw.1) (tick 10 (look rw.2)))) as Ht.
  { unfold Standby. do 2 chip_step. apply triple_set_this. }
  destruct (Ht rw ltac:(done)) as (u & s & E & Hat). exists u, s. split; [exact E|]. by eexists.
Qed.

(** The buffer the frame is built in. *)
Lemma build_frame buf roll payload :
  length buf = (MAX_BUFFER_SIZE + 4)%nat -> (length payload <= MAX_BUFFER_SIZE)%nat ->
  exists b1 b2 b3,
    store buf 0 [0; roll; 0] = Some b1 /\ store b1 3 payload = Some b2
    /\ store b2 (3 + length payload) [xorvbuf (take (3 + length payload) b2)] = Some b3
    /\ length b3 = (MAX_BUFFER_SIZE + 4)%nat
    /\ take (4 + length payload) b3 = data_frame roll 0 payload.
Proof.
  intros Hb Hp.
  set (b1 := [0; roll; 0] ++ drop 3 buf).
  set (b2 := ([0; roll; 0] ++ payload) ++ drop (3 + length payload) buf).
  assert (length b1 = MAX_BUFFER_SIZE + 4)%nat as H1
    by (subst b1; rewrite length_app, length_drop, Hb; cbn [length]; unfold MAX_BUFFER_SIZE; lia).
  assert (length b2 = MAX_BUFFER_SIZE + 4)%nat as H2
    by (subst b2; rewrite !length_app, length_drop, Hb; cbn [length]; unfold MAX_BUFFER_SIZE in *; lia).
  assert (take (3 + length payload) b2 = [0; roll; 0] ++ payload) as Ht
    by (subst b2; apply (take_app_length ([0; roll; 0] ++ payload))).
  assert (drop (3 + length payload) b1 = drop (3 + length payload) buf) as Hd.
  { subst b1. exact (eq_trans (drop_app_add [0; roll; 0] _ (length payload)) (drop_drop _ _ _)). }
  set (x := fold_left Z.lxor ([0; roll; 0] ++ payload) 0).
  exists b1, b2, (data_frame roll 0 payload ++ drop (4 + length payload) buf).
  split; [|split; [|split; [|split]]].
  - unfold store. rewrite decide_True by (rewrite Hb; cbn [length]; unfold MAX_BUFFER_SIZE; lia). done.
  - unfold store. rewrite decide_True by (rewrite H1; unfold MAX_BUFFER_SIZE in *; lia).
    rewrite Hd. subst b1 b2. by rewrite <- app_assoc.
  - unfold store. rewrite decide_True by (rewrite H2; cbn [length]; unfold MAX_BUFFER_SIZE in *; lia).
    rewrite Ht. change (xorvbuf ([0; roll; 0] ++ payload)) with x. f_equal.
    unfold data_frame, seal. fold x. rewrite <- (app_assoc (_ ++ payload) [x]).
    f_equal. f_equal. subst b2. rewrite Nat.add_1_r.
    rewrite drop_app_ge by (cbn [app length]; lia). rewrite drop_drop. f_equal. cbn [app length]. lia.
  - unfold data_frame. rewrite length_app, length_seal, length_app, length_drop, Hb.
    cbn [length]. unfold MAX_BUFFER_SIZE in *. lia.
  - apply take_app_length'. unfold data_frame. by rewrite length_seal.
Qed.

Definition sent_ok (e : leaf) : Prop := length (tx_buffer_ e) = (MAX_BUFFER_SIZE + 4)%nat.

Lemma triple_send_frame o (e : leaf) q ms r v msg len :
  sent_ok e -> max_tx_payload_bytes_ r = 0x80 -> 0 <= len ->
  length msg = MAX_BUFFER_SIZE ->
  triple (node_at (World o e q ms) r v) (send_frame msg len)
    (fun _ s => exists b v',
       node_at (World o (set_tx b (u8 (tx_rolling_ e + 1)) e) q ms) (with_warm false r) v' s
       /\ length b = (MAX_BUFFER_SIZE + 4)%nat
       /\ aired v' = aired v ++ [data_frame (tx_rolling_ e) 0 (take (Z.to_nat len) msg)]
       /\ arrivals v' = arrivals v).
Proof.
  intros He Hr Hlen Hmsg. unfold send_frame, members.
  eapply triple_bind; [by apply (triple_on_client _ _ _ _ e (World o e q ms))|].
  cbn beta. intros l. apply triple_known. intros ->.
  set (n := if Z.of_nat MAX_BUFFER_SIZE <? len then Z.of_nat MAX_BUFFER_SIZE else len).
  set (payload := take (Z.to_nat n) msg).
  assert (Z.of_nat (length payload) = n /\ take (Z.to_nat len) msg = payload) as [Hn Hpay].
  { subst payload n. rewrite length_take, Hmsg.
    destruct (Z.ltb_spec (Z.of_nat MAX_BUFFER_SIZE) len); [|split; [lia|done]].
    split; [lia|]. rewrite !take_ge by (rewrite Hmsg; lia). done. }
  assert (length payload <= MAX_BUFFER_SIZE)%nat as Hp
    by (subst payload; rewrite length_take, Hmsg; lia).
  destruct (build_frame (tx_buffer_ e) (tx_rolling_ e) payload He Hp)
    as (b1 & b2 & b3 & E1 & E2 & E3 & Hl3 & Ht3).
  assert (Z.to_nat n = length payload) as Enat by lia.
  eapply triple_bind; [by apply (triple_lift_opt _ _ b1)|]. intros ?. apply triple_known. intros ->.
  cbn zeta. fold n.
  eapply triple_bind; [apply (triple_lift_opt _ _ payload)|].
  { unfold load. rewrite decide_True by lia. by rewrite drop_0. }
  intros ?. apply triple_known. intros ->.
  eapply triple_bind; [by apply (triple_lift_opt _ _ b2)|]. intros ?. apply triple_known. intros ->.
  replace (Z.to_nat (n + 3)) with (3 + length payload)%nat by lia.
  eapply triple_bind; [by apply (triple_lift_opt _ _ b3)|]. intros ?. apply triple_known. intros ->.
  eapply triple_bind; [by apply triple_on_client|]. intros ?. apply triple_known. intros _.
  replace (Z.to_nat (n + 4)) with (4 + length payload)%nat by lia. rewrite Ht3.
  assert (length (data_frame (tx_rolling_ e) 0 payload) = 4 + length payload)%nat as Hlf
    by (unfold data_frame; by rewrite length_seal).
  replace (n + 4) with (Z.of_nat (length (data_frame (tx_rolling_ e) 0 payload))) by lia.
  assert (length payload <= 92)%nat as Hp' by exact Hp.
  eapply triple_bind.
  { apply triple_on_radio, triple_Transmit; [rewrite Hr; by vm_compute|lia]. }
  intros sent_ok. cbn beta. 
  eapply triple_post.
  { intros s (Hc & Hrw & Ha & _ & _ & Hq). eapply (triple_on_radio _ _ _ _ (triple_Standby _ _ _)).
    split; [exact Hc|]. split; [exact Hrw|]. split; [exact Ha|exact Hq]. }
  intros u s (Hc & v' & Hat & Ha' & Hq). exists b3, v'. split; [done|]. split; [done|]. split; [|done].
  rewrite Ha'. f_equal. f_equal. rewrite Hpay. unfold cut_to. apply take_ge. rewrite Hr, Hlf. lia.
Qed.
End Leaf.

Section Exchange.
Context {W : Type} `{HS : Spi W} {HC : Sx1276 W}.

Lemma triple_flush_one o (e : leaf) ms r v msg len :
  sent_ok e -> max_tx_payload_bytes_ r = 0x80 -> 0 <= len -> length msg = MAX_BUFFER_SIZE ->
  triple (node_at (World o e [(msg, len)] ms) r v) flush
    (fun _ s => exists b v',
       node_at (World o (set_tx b (u8 (tx_rolling_ e + 1)) e) [] ms) (with_warm false r) v' s
       /\ length b = (MAX_BUFFER_SIZE + 4)%nat
       /\ aired v' = aired v ++ [data_frame (tx_rolling_ e) 0 (take (Z.to_nat len) msg)]
       /\ arrivals v' = arrivals v).
Proof.
  intros He Hr Hlen Hmsg. unfold flush.
  eapply triple_bind; [by apply triple_on_client|]. intros l. apply triple_known. intros ->.
  eapply triple_bind; [by apply triple_on_client|]. intros []. apply triple_known. intros _.
  cbn [send_all sent obj ext millis].
  eapply triple_bind; [by apply triple_send_frame|]. intros []. by apply triple_ret.
Qed.

Lemma triple_flush_none o (e : leaf) ms r v :
  triple (node_at (World o e [] ms) r v) flush (fun _ => node_at (World o e [] ms) r v).
Proof.
  unfold flush.
  eapply triple_bind; [by apply triple_on_client|]. intros l. apply triple_known. intros ->.
  eapply triple_bind; [by apply triple_on_client|]. intros []. apply triple_known. intros _.
  by apply triple_ret.
Qed.

(** A method that sends nothing only touches the client. *)
Lemma triple_method_silent {A} c r v (m : ST (world leaf) A) a o e ms :
  m c = Some (a, World o e [] ms) ->
  triple (node_at c r v) (method m) (fun b s => b = a /\ node_at (World o e [] ms) r v s).
Proof.
  intros Hm. unfold method.
  eapply triple_bind; [by apply triple_on_client|]. intros b. apply triple_known. intros ->.
  eapply triple_bind; [apply triple_flush_none|]. intros []. by apply triple_ret.
Qed.

(** A request that hands one message to the link. *)
Lemma triple_issue rq o (e : leaf) ms r v o' b n :
  issue rq (World o e [] ms) = Some ((), World o' e [(b, n)] ms) ->
  0 <= n -> length b = MAX_BUFFER_SIZE -> sent_ok e -> max_tx_payload_bytes_ r = 0x80 ->
  triple (node_at (World o e [] ms) r v) (method (issue rq))
    (fun _ s => exists t v',
       node_at (World o' (set_tx t (u8 (tx_rolling_ e + 1)) e) [] ms) (with_warm false r) v' s
       /\ length t = (MAX_BUFFER_SIZE + 4)%nat
       /\ aired v' = aired v ++ [data_frame (tx_rolling_ e) 0 (wire (b, n))]
       /\ arrivals v' = arrivals v).
Proof.
  intros Ei Hn Hb He Hr. unfold method.
  eapply triple_bind; [by apply triple_on_client|].
  intros x. apply triple_known. intros ->.
  eapply triple_bind; [by apply triple_flush_one|].
  intros []. by apply triple_ret.
Qed.

(** A method that issues the request [rq] and returns [a]. *)
Lemma triple_request_as {A} (m : ST (world leaf) A) a rq o (e : leaf) ms r v :
  m (World o e [] ms) = (fun p => (a, p.2)) <$> issue rq (World o e [] ms) ->
  request_ok rq o -> buffers_ok o -> fits 16 (message_id o) ->
  (footprint rq <= MAX_BUFFER_SIZE)%nat -> sent_ok e -> max_tx_payload_bytes_ r = 0x80 ->
  triple (node_at (World o e [] ms) r v) (method m)
    (fun x s => x = a /\ exists b v',
       node_at (World (after_request rq ms o) (set_tx b (u8 (tx_rolling_ e + 1)) e) [] ms)
         (with_warm false r) v' s
       /\ length b = (MAX_BUFFER_SIZE + 4)%nat
       /\ aired v' = aired v ++ [data_frame (tx_rolling_ e) 0 (wire (sent_event rq ms o))]
       /\ arrivals v' = arrivals v).
Proof.
  intros Em Hok Hb Hm Hf He Hr. unfold method.
  destruct (wire_decodes rq o ms Hok Hb Hm Hf) as (_ & _ & [Hl _]).
  rewrite issue_eq in Em by done. cbn [fmap option_fmap option_map snd] in Em.
  eapply triple_bind; [by apply triple_on_client|].
  intros x. apply triple_known. intros ->. cbn [app].
  eapply triple_bind; [apply triple_flush_one; [done|done|lia|done]|].
  intros []. by apply triple_ret.
Qed.

Lemma triple_request rq o (e : leaf) ms r v :
  request_ok rq o -> buffers_ok o -> fits 16 (message_id o) ->
  (footprint rq <= MAX_BUFFER_SIZE)%nat -> sent_ok e -> max_tx_payload_bytes_ r = 0x80 ->
  triple (node_at (World o e [] ms) r v) (method (issue rq))
    (fun _ s => exists b v',
       node_at (World (after_request rq ms o) (set_tx b (u8 (tx_rolling_ e + 1)) e) [] ms)
         (with_warm false r) v' s
       /\ length b = (MAX_BUFFER_SIZE + 4)%nat
       /\ aired v' = aired v ++ [data_frame (tx_rolling_ e) 0 (wire (sent_event rq ms o))]
       /\ arrivals v' = arrivals v).
Proof.
  intros. eapply triple_post; [apply (triple_request_as _ () rq); try done|by intros x s []].
  by destruct (issue rq _) as [[[] ?]|].
Qed.

(** [register_topic] when it is not refused. *)
Lemma register_issued p nm (w : world leaf) :
  request_ok (R_register p nm) (obj w) ->
  Mqttsn.register_topic p nm w = (fun x => (true, x.2)) <$> issue (R_register p nm) w.
Proof.
  intros [Hw Ht]. cbn [issue]. rewrite ST_bind_eq.
  destruct (Mqttsn.register_topic p nm w) as [[b w']|] eqn:E; [|done].
  unfold mret, ST_ret. cbn. do 2 f_equal.
  unfold Mqttsn.register_topic in E. rewrite ST_bind_eq in E. change (Mqttsn.this w) with (Some (obj w, w)) in E.
  cbv iota beta in E. rewrite Hw, (proj2 (Z.ltb_lt _ _) Ht) in E. cbn [negb andb] in E. st_inv.
  by injection E as <- <-.
Qed.

(** ** Receiving *)
Lemma triple_any_radio {A} c (R : radio -> view -> Prop) (m : ST (node (W := W)) A) Q :
  (forall r v, R r v -> triple (node_at c r v) m Q) ->
  triple (fun s => client s = c /\ R (air_side s).1 (look (air_side s).2)) m Q.
Proof. intros Hm s [Hc HR]. by apply (Hm (air_side s).1 (look (air_side s).2) HR). Qed.

Definition room_ok (o : mqttsn) : Prop := length (response_buffer o) = MAX_BUFFER_SIZE.

(** The members once the frame [fr], without its trailer, is in the buffer. *)
Definition with_frame (fr : list Z) (e : leaf) : leaf :=
  set_rx (take (length fr - 1) fr ++ drop (length fr - 1) (rx_buffer_ e))
    (Z.of_nat (length fr - 1)) e.

Lemma triple_TryReceive vt fuel o (e : leaf) ms r v n fr c rest o' e' ms' :
  clean r v -> length (rx_buffer_ e) = 128%nat -> (1 <= length fr <= 128)%nat ->
  arrivals v = (n, Packet fr c) :: rest -> (n < fuel)%nat ->
  parse vt (World o (with_frame fr e) [] ms) = Some ((), World o' e' [] ms') ->
  triple (node_at (World o e [] ms) r v) (Link.TryReceive vt fuel)
    (fun res s => res = (true, false) /\ client s = World o' e' [] ms'
       /\ (exists rssi snr, (air_side s).1 = with_quality rssi snr (with_warm true r) /\ -16 <= snr < 8)
       /\ aired (look (air_side s).2) = aired v /\ arrivals (look (air_side s).2) = rest).
Proof.
  intros Hw Hb Hfr Ha Hn Hp. unfold Link.TryReceive, members.
  eapply triple_bind; [by apply triple_on_client|]. intros []. apply triple_known. intros _.
  eapply triple_bind; [by apply triple_on_client|]. intros l. apply triple_known. intros ->.
  eapply triple_bind.
  { apply triple_on_radio, triple_Receive_clean; [done|lia|..]; unfold next; rewrite Ha; [done|].
    intros p c' [= <- <-]. lia. }
  intros res. cbn beta. unfold next. rewrite Ha. cbn [snd heard tail].
  rewrite (proj2 (Z.leb_le _ _)) by lia.
  eapply triple_pre.
  2: { intros s (Hc & Ho & Hr & Ha1 & Hq1 & _). apply (conj Ho (conj Hc (conj Hr (conj Ha1 Hq1)))). }
  apply triple_known. intros ->. cbn [ok bytes crc_error].
  eapply (triple_any_radio _ (fun r' v' => (exists rssi snr, r' = with_quality rssi snr (with_warm true r) /\ -16 <= snr < 8)
            /\ aired v' = aired v /\ arrivals v' = rest)).
  intros r1 v1 (Hr1 & Ha1 & Hq1). cbn [rx_buffer_ set_rx].
  assert (length (take (length fr - 1) fr) = length fr - 1)%nat as Hlt
    by (rewrite length_take; lia).
  eapply triple_bind; [apply (triple_lift_opt _ _
    (take (length fr - 1) fr ++ drop (length fr - 1) (rx_buffer_ e)))|].
  { unfold store. cbn [ext rx_buffer_ set_rx]. rewrite decide_True by (rewrite Hlt, Hb; lia). by rewrite Hlt. }
  intros ?. apply triple_known. intros ->. rewrite Hlt.
  eapply triple_bind; [by apply triple_on_client|]. intros []. apply triple_known. intros _.
  cbn [obj ext sent millis].
  eapply triple_bind; [by apply triple_method_silent|]. intros []. apply triple_known. intros _.
  apply triple_ret. intros s [Hc [-> ->]]. done.
Qed.

(** A reception that times out. *)
Lemma triple_TryReceive_quiet vt fuel o (e : leaf) ms r v :
  clean r v -> (next v).2 = Quiet -> ((next v).1 < fuel)%nat ->
  triple (node_at (World o e [] ms) r v) (Link.TryReceive vt fuel)
    (fun res s => res = (false, false) /\ client s = World o (set_rx (rx_buffer_ e) 0 e) [] ms
       /\ (exists rssi snr, (air_side s).1 = with_quality rssi snr (with_warm true r) /\ snr = -255)
       /\ aired (look (air_side s).2) = aired v /\ arrivals (look (air_side s).2) = tail (arrivals v)
       /\ clean (air_side s).1 (look (air_side s).2)).
Proof.
  intros Hw Hq Hn. unfold Link.TryReceive, members.
  eapply triple_bind; [by apply triple_on_client|]. intros []. apply triple_known. intros _.
  eapply triple_bind; [by apply triple_on_client|]. intros l. apply triple_known. intros ->.
  eapply triple_bind.
  { apply triple_on_radio, triple_Receive_clean; [done|lia|done|]. by rewrite Hq. }
  intros res. cbn beta. rewrite Hq. cbn [heard].
  eapply triple_pre.
  2: { intros s (Hc & Ho & Hr). apply (conj Ho (conj Hc Hr)). }
  apply triple_known. intros ->. cbn [ok crc_error].
  apply triple_ret. intros s (-> & Hr & Ha & Hl & Hcl). split_and!; auto.
Qed.
End Exchange.

(** Frames of bytes are bytes. *)
Lemma byte_xor l : bytes_ok l -> forall a, byte_ok a -> byte_ok (fold_left Z.lxor l a).
Proof. induction 1 as [|b l Hb Hl IH]; intros a Ha; [done|]. cbn. apply IH. by apply fits_lxor. Qed.

Lemma byte_seal b : bytes_ok b -> bytes_ok (seal b).
Proof.
  intros Hb. apply Forall_app. split; [done|]. constructor; [|done]. apply byte_xor; [done|].
  unfold fits; lia.
Qed.

Lemma byte_frame roll rx p : byte_ok roll -> byte_ok rx -> bytes_ok p -> bytes_ok (data_frame roll rx p).
Proof. intros Hr Hx Hp. apply byte_seal. repeat (constructor; [unfold fits in *; lia|]). done. Qed.

(** * The gateway's replies *)
Inductive reply :=
  | Connack (rc : Z) | Regack (t1 t2 m1 m2 rc : Z) | Puback (t1 t2 m1 m2 rc : Z) | Disconnected.

(** As MQTT-SN 1.2 lays them out: length, message type, body. *)
Definition reply_bytes (rp : reply) : list Z :=
  match rp with
  | Connack rc => [3; 0x05; rc]
  | Regack t1 t2 m1 m2 rc => [7; 0x0b; t1; t2; m1; m2; rc]
  | Puback t1 t2 m1 m2 rc => [7; 0x0d; t1; t2; m1; m2; rc]
  | Disconnected => [2; 0x18]
  end.

(** What the leaf remembers of a reply. *)
Definition effect (rp : reply) (e : leaf) : leaf :=
  match rp with
  | Connack _ => connack_seen e
  | Regack _ _ _ _ _ => e
  | Puback _ _ _ _ _ => count_puback e
  | Disconnected => count_disconnect e
  end.

(** What the client makes of it: an accepted registration under the current
    message id names the topic it was waiting to name, unless the id is known. *)
Definition taken (rp : reply) (o : mqttsn) : mqttsn :=
  match rp with
  | Regack t1 t2 m1 m2 rc =>
      if (rc =? 0) && (topic_count o <? MAX_TOPICS) && (be16 m1 m2 =? message_id o)
         && negb (knows_topic (be16 t1 t2) o)
      then set_topics (alter (fun t => Topic (t_name t) (be16 t1 t2)) (Z.to_nat (topic_count o)) (topic_table o))
             (topic_count o + 1) o
      else o
  | _ => o
  end.

(** The client is waiting for it; a DISCONNECT is always handled. *)
Definition expected (rp : reply) (o : mqttsn) : Prop :=
  match rp with
  | Connack _ => awaiting CONNACK o = true
  | Regack t1 t2 m1 m2 _ => awaiting REGACK o = true /\ bytes_ok [t1; t2; m1; m2]
  | Puback _ _ _ _ _ => awaiting PUBACK o = true
  | Disconnected => True
  end.

Lemma taken_buffer rp b o : taken rp (set_response_buffer b o) = set_response_buffer b (taken rp o).
Proof. destruct rp; try done. cbn. unfold knows_topic. cbn. by destruct (_ && _ && _ && _). Qed.

(** The handler of REGACK. *)
Lemma regack_taken t1 t2 m1 m2 rc rest o (e : leaf) ms :
  bytes_ok [t1; t2; m1; m2] -> response_buffer o = reply_bytes (Regack t1 t2 m1 m2 rc) ++ rest ->
  regack_handler (World o e [] ms) = Some ((), World (taken (Regack t1 t2 m1 m2 rc) o) e [] ms).
Proof.
  intros Hby Hb. inversion_clear Hby as [|? ? Ht1 Hby']. inversion_clear Hby' as [|? ? Ht2 Hby].
  inversion_clear Hby as [|? ? Hm1 Hby']. inversion_clear Hby' as [|? ? Hm2 _].
  set (p := reply_bytes (Regack t1 t2 m1 m2 rc)) in *.
  assert (forall off n, (off + n <= 7)%nat ->
    get_resp off n (World o e [] ms) = Some (take n (drop off p), World o e [] ms)) as Hget.
  { intros off n Hn. by apply (get_resp_prefix off n p rest). }
  unfold regack_handler. rewrite ST_bind_eq, Hget by lia. rewrite ST_bind_eq, Hget by lia.
  rewrite ST_bind_eq, Hget by lia. unfold p. cbn [reply_bytes take drop hd]. rewrite ST_bind_eq.
  change (Mqttsn.this (World o e [] ms)) with (Some (o, World o e [] ms)). cbv iota beta zeta.
  rewrite !bswap_of_bytes by done. cbn [taken].
  destruct ((rc =? 0) && (topic_count o <? MAX_TOPICS) && (be16 m1 m2 =? message_id o)); cbn [when andb]; [|done].
  by destruct (negb _).
Qed.

Lemma dispatch_reply deref junk rp rest o e ms :
  expected rp o -> response_buffer o = reply_bytes rp ++ rest ->
  dispatch (leaf_vtable deref junk) (World o e [] ms)
  = Some ((), World (set_waiting false (taken rp o)) (effect rp e) [] ms).
Proof.
  intros He Hb. unfold dispatch. rewrite ST_bind_eq.
  rewrite (get_resp_prefix 1 1 (reply_bytes rp) rest) by (done || (destruct rp; cbn; lia)).
  destruct rp as [rc|t1 t2 m1 m2 rc|t1 t2 m1 m2 rc|].
  - change (dispatch_switch _ _) with (Some (if_awaited CONNACK (v_connack_handler (leaf_vtable deref junk)))).
    cbn [v_connack_handler leaf_vtable expected] in *. unfold if_awaited, this. st_unfold. by rewrite He.
  - change (dispatch_switch _ _) with (Some (if_awaited REGACK (v_regack_handler (leaf_vtable deref junk)))).
    cbn [v_regack_handler leaf_vtable expected] in *. destruct He as [He Hby]. unfold if_awaited.
    rewrite !ST_bind_eq. change (Mqttsn.this (World o e [] ms)) with (Some (o, World o e [] ms)). cbv iota beta.
    rewrite He, ST_bind_eq, (regack_taken t1 t2 m1 m2 rc rest) by done. done.
  - change (dispatch_switch _ _) with (Some (if_awaited PUBACK (v_puback_handler (leaf_vtable deref junk)))).
    cbn [v_puback_handler leaf_vtable expected] in *. unfold if_awaited, this. st_unfold. by rewrite He.
  - done.
Qed.

Lemma frame_body roll rx p :
  take (length (data_frame roll rx p) - 1) (data_frame roll rx p) = [0x0; roll; rx] ++ p.
Proof.
  unfold data_frame. rewrite length_seal. unfold seal.
  apply take_app_length'. cbn [length]. lia.
Qed.

Lemma length_frame roll rx p : length (data_frame roll rx p) = (4 + length p)%nat.
Proof. unfold data_frame. by rewrite length_seal. Qed.

Lemma parse_impl_data roll rx p o e ms :
  (length p <= MAX_BUFFER_SIZE)%nat -> length (response_buffer o) = MAX_BUFFER_SIZE ->
  parse_impl (World o (with_frame (data_frame roll rx p) e) [] ms)
  = Some (true, World (set_response_buffer (p ++ drop (length p) (response_buffer o)) o)
                  (with_frame (data_frame roll rx p) e) [] ms).
Proof.
  intros Hp Hb. unfold parse_impl, get. rewrite ST_bind_eq. cbn [ext].
  assert (rx_buffer_len_ (with_frame (data_frame roll rx p) e) = 3 + Z.of_nat (length p)) as ->
    by (unfold with_frame; cbn [rx_buffer_len_ set_rx]; rewrite length_frame; lia).
  assert (rx_buffer_ (with_frame (data_frame roll rx p) e)
          = [0x0; roll; rx] ++ p ++ drop (length (data_frame roll rx p) - 1) (rx_buffer_ e)) as ->
    by (unfold with_frame; cbn [rx_buffer_ set_rx]; by rewrite frame_body, <- app_assoc).
  rewrite (proj2 (Z.ltb_ge (3 + _) 3)) by lia.
  set (rest := drop (_ - 1) _).
  assert (load ([0x0; roll; rx] ++ p ++ rest) 0 1 = Some [0]) as ->
    by (unfold load; by rewrite decide_True by (cbn [app length]; lia)).
  rewrite ST_bind_eq. unfold lift_opt at 1. cbn [fmap option_fmap option_map hd].
  change (0 =? 2) with false. cbn iota.
  assert (Z.of_nat (length p) <= Z.of_nat MAX_BUFFER_SIZE) as Hp' by lia.
  replace (3 + Z.of_nat (length p) - 3) with (Z.of_nat (length p)) by lia.
  rewrite (proj2 (Z.ltb_ge _ _)) by exact Hp'. rewrite Nat2Z.id.
  assert (load ([0x0; roll; rx] ++ p ++ rest) 3 (length p) = Some p) as ->.
  { unfold load. rewrite decide_True by (cbn [app length]; rewrite length_app; lia).
    cbn [app drop]. by rewrite drop_0, take_app_length. }
  rewrite ST_bind_eq. unfold lift_opt at 1. cbn [fmap option_fmap option_map obj].
  assert (store (response_buffer o) 0 p = Some (p ++ drop (length p) (response_buffer o))) as ->
    by (unfold store; by rewrite decide_True by lia).
  done.
Qed.

(** A frame of fewer than four bytes, or one whose type is HELLO, leaves the
    response buffer alone and is dispatched all the same. *)
Lemma parse_impl_other fr o e ms :
  (length fr < 4)%nat \/ head fr = Some 2 -> (length fr <= 128)%nat ->
  length (rx_buffer_ e) = 128%nat ->
  parse_impl (World o (with_frame fr e) [] ms)
  = Some (true, World o (with_frame fr e) [] ms).
Proof.
  intros Hfr Hl Hb. unfold parse_impl, get. rewrite ST_bind_eq. cbn [ext].
  unfold with_frame at 1. cbn [rx_buffer_len_ set_rx].
  destruct (Z.ltb_spec (Z.of_nat (length fr - 1)) 3) as [|Hge]; [done|].
  destruct Hfr as [|Hh]; [lia|]. destruct fr as [|t fr]; [done|]. injection Hh as ->.
  assert (load (rx_buffer_ (with_frame (2 :: fr) e)) 0 1 = Some [2]) as ->.
  { unfold with_frame, load. cbn [rx_buffer_ set_rx length].
    replace (S (length fr) - 1)%nat with (S (length fr - 1)) by (cbn [length] in Hge; lia).
    cbn [take app]. rewrite decide_True by (cbn [length]; lia). done. }
  rewrite ST_bind_eq. done.
Qed.

Lemma parse_reply_to deref junk roll rx rp o e ms :
  expected rp o -> length (response_buffer o) = MAX_BUFFER_SIZE ->
  let fr := data_frame roll rx (reply_bytes rp) in
  exists b, length b = MAX_BUFFER_SIZE
    /\ parse (leaf_vtable deref junk) (World o (with_frame fr e) [] ms)
       = Some ((), World (set_waiting false (taken rp (set_response_buffer b o)))
                     (effect rp (with_frame fr e)) [] ms).
Proof.
  intros He Hb fr. unfold parse. cbn [v_parse_impl leaf_vtable]. eexists. split; [|
    rewrite ST_bind_eq; subst fr; rewrite parse_impl_data; [|destruct rp; unfold MAX_BUFFER_SIZE; cbn; lia|done];
    cbn [when]; eapply (dispatch_reply deref junk rp); [|reflexivity]; by destruct rp].
  rewrite length_app, length_drop, Hb. unfold MAX_BUFFER_SIZE. destruct rp; cbn; lia.
Qed.

Lemma parse_reply deref junk roll rx rp o e ms :
  expected rp o -> length (response_buffer o) = MAX_BUFFER_SIZE ->
  let fr := data_frame roll rx (reply_bytes rp) in
  exists o', waiting_for_response o' = false /\ topic_count o' = topic_count (taken rp o)
    /\ topic_table o' = topic_table (taken rp o)
    /\ parse (leaf_vtable deref junk) (World o (with_frame fr e) [] ms)
       = Some ((), World o' (effect rp (with_frame fr e)) [] ms).
Proof.
  intros He Hb fr. destruct (parse_reply_to deref junk roll rx rp o e ms He Hb) as (b & _ & Hp).
  exists (set_waiting false (taken rp (set_response_buffer b o))). rewrite taken_buffer in *. done.
Qed.

Lemma parse_stale deref junk rp fr rest o e ms :
  (length fr < 4)%nat \/ head fr = Some 2 -> (length fr <= 128)%nat ->
  length (rx_buffer_ e) = 128%nat ->
  expected rp o -> response_buffer o = reply_bytes rp ++ rest ->
  parse (leaf_vtable deref junk) (World o (with_frame fr e) [] ms)
  = Some ((), World (set_waiting false (taken rp o)) (effect rp (with_frame fr e)) [] ms).
Proof.
  intros Hfr Hl Hrx He Hb. unfold parse. cbn [v_parse_impl leaf_vtable].
  rewrite ST_bind_eq, parse_impl_other by done. cbn [when]. by apply (dispatch_reply deref junk rp rest).
Qed.

(** * Properties *)
Section Properties.
Context {W : Type} `{HS : Spi W} {HC : Sx1276 W}.

(** Also: a request of the leaf's client goes out as one frame, and the bridge,
    whatever its state, takes that frame apart into a datagram that decodes to
    the request with its arguments and message id. *)
Theorem request_reaches_gateway rq o (e : leaf) ms r v :
  request_ok rq o -> buffers_ok o -> fits 16 (message_id o) ->
  (footprint rq <= MAX_BUFFER_SIZE)%nat -> sent_ok e -> max_tx_payload_bytes_ r = 0x80 ->
  triple (node_at (World o e [] ms) r v) (method (issue rq))
    (fun _ s => exists fr p,
       aired (look (air_side s).2) = aired v ++ [fr]
       /\ decode p = Some (meaning rq (message_id (prepare rq o)))
       /\ sent (client s) = [] /\ tx_rolling_ (ext (client s)) = u8 (tx_rolling_ e + 1)
       /\ forall room junk m, (MAX_BUFFER_SIZE <= room)%nat -> exists d,
            handle_frame room (fr ++ junk) (Z.of_nat (length fr)) m
            = Some (inl p, data_seen (tx_rolling_ e) d m)).
Proof.
  intros Hok Hb Hm Hf He Hr. destruct (wire_decodes rq o ms Hok Hb Hm Hf) as (Hd & Hl & [Hlm _]).
  assert (length (wire (sent_event rq ms o)) <= MAX_BUFFER_SIZE)%nat as Hw
    by (unfold wire, sent_event; cbn [fst]; rewrite length_take, Hlm; lia).
  eapply triple_post; [by apply triple_request|].
  intros _ s (b & v' & [-> [_ Hv]] & _ & Ha & _). exists (data_frame (tx_rolling_ e) 0 (wire (sent_event rq ms o))),
    (wire (sent_event rq ms o)). rewrite Hv. do 4 (split; [done|]).
  intros room junk m Hroom. eexists. apply frame_accepted; [lia|].
  assert (Z.of_nat (length (wire (sent_event rq ms o))) <= 92) by (unfold MAX_BUFFER_SIZE in Hw; lia). lia.
Qed.

(** Also: a CONNACK, REGACK or PUBACK the client waits for, or a DISCONNECT, sent by the
    bridge arrives: the leaf's driver drops exactly the trailer of the frame,
    [TryReceive] returns true, the client stops waiting and the derived class
    records the reply. *)
Theorem reply_reaches_client deref junk rp roll rx o (e : leaf) ms r v n c rest fuel :
  expected rp o -> length (response_buffer o) = MAX_BUFFER_SIZE ->
  length (rx_buffer_ e) = 128%nat -> rx_warm_ r = false ->
  arrivals v = (n, Packet (data_frame roll rx (reply_bytes rp)) c) :: rest -> (n < fuel)%nat ->
  triple (node_at (World o e [] ms) r v) (Link.TryReceive (leaf_vtable deref junk) fuel)
    (fun res s => res = (true, false) /\ waiting_for_response (obj (client s)) = false
       /\ ext (client s) = effect rp (with_frame (data_frame roll rx (reply_bytes rp)) e)
       /\ sent (client s) = []).
Proof.
  intros He Hb Hrx Hw Ha Hn. destruct (parse_reply deref junk roll rx rp o e ms He Hb) as (o' & Ho' & _ & _ & Hp).
  eapply triple_post; [eapply triple_TryReceive; [by left|done| |done|done|exact Hp]|].
  - rewrite length_frame. destruct rp; cbn; lia.
  - intros res s (-> & -> & _). done.
Qed.

(** Also: what [parse_impl] returns makes [parse] dispatch the response buffer even
    when the frame carried no message: a HELLO of the bridge, or a frame of
    fewer than four bytes, acts like the last message received, here like a
    reply the client is waiting for. *)
Theorem stale_reply_replayed deref junk rp fr old o (e : leaf) ms r v n c rest fuel :
  (1 <= length fr < 4)%nat \/ (head fr = Some 2 /\ (length fr <= 128)%nat) ->
  expected rp o -> response_buffer o = reply_bytes rp ++ old ->
  length (rx_buffer_ e) = 128%nat -> rx_warm_ r = false ->
  arrivals v = (n, Packet fr c) :: rest -> (n < fuel)%nat ->
  triple (node_at (World o e [] ms) r v) (Link.TryReceive (leaf_vtable deref junk) fuel)
    (fun res s => res = (true, false) /\ waiting_for_response (obj (client s)) = false
       /\ ext (client s) = effect rp (with_frame fr e)).
Proof.
  intros Hfr He Hb Hrx Hw Ha Hn.
  assert ((length fr < 4)%nat \/ head fr = Some 2) as Hfr' by (destruct Hfr as [|[]]; [left; lia|by right]).
  assert (1 <= length fr <= 128)%nat as Hl.
  { destruct Hfr as [|[Hh ?]]; [lia|]. split; [|done]. destruct fr; [done|cbn; lia]. }
  pose proof (parse_stale deref junk rp fr old o e ms Hfr' ltac:(lia) Hrx He Hb) as Hp.
  eapply triple_post; [eapply triple_TryReceive; [by left|done|done|done|done|exact Hp]|].
  intros res s (-> & -> & _). done.
Qed.
End Properties.

(** Also: the trailer detects every corruption of a single byte of a frame,
    trailer included: the bridge counts it and keeps waiting. *)
Theorem corruption_detected b i x y rest room m :
  (length b < 1000)%nat -> seal b !! i = Some y -> x <> y ->
  handle_frame room (<[i := x]> (seal b) ++ rest) (Z.of_nat (length (seal b))) m
  = Some (inr false, count_xorv m).
Proof. apply corrupt_seal. Qed.

(** Also: once a message has been received, [TryReceive] returns the payloads of
    the frames that arrive in order and [dropped_] grows by exactly the number
    of frames lost between them, as long as fewer than 256 are lost in a row. *)
Theorem losses_counted {R} `{SimpleRadio R} fuel junk room rx l m r r' :
  (0 < fuel)%nat -> length junk = (room + 4)%nat -> (room < 900)%nat ->
  Forall (fun gp => 0 <= gp.1 < 256 /\ (length gp.2 <= room)%nat) l ->
  have_rx_ m = true -> 0 <= expected_counter m < 256 ->
  hears_all (Z.of_nat (room + 4)) r (survivors (expected_counter m) rx l) r' ->
  exists m', receive_many (length l) fuel junk room (m, r) = Some (Some <$> l.*2, (m', r'))
    /\ dropped_ m' = dropped_ m + losses l
    /\ num_valid_received_ m' = num_valid_received_ m + Z.of_nat (length l).
Proof. apply receive_many_counts. Qed.

(** Also: [TryReceive] is undefined (it reads or copies outside its buffers) when
    the radio reports a message of size 0, as after its own timeout, or a frame
    of one to three zero bytes, whose trailer is right. *)
Theorem short_frame_undefined {R} `{SimpleRadio R} fuel junk room f m r r' :
  f ∈ [[]; [0]; [0; 0]; [0; 0; 0]] -> length junk = (room + 4)%nat -> (room < 900)%nat ->
  hears r (Z.of_nat (room + 4)) f r' ->
  TryReceive (S fuel) junk room (m, r) = None.
Proof.
  intros Hf Hj Hr Hh. unfold TryReceive. cbn [receive_loop].
  rewrite ST_bind_eq. unfold receive_turn. rewrite ST_bind_eq. unfold radio_op. rewrite Hh. cbn [no_fault negb rx_bytes rx_timeout rx_crc_error andb].
  assert (exists rest, store junk 0 f = Some (f ++ rest) /\ length (f ++ rest) = (room + 4)%nat)
    as (rest & Es & Hlen).
  { unfold store. rewrite decide_True; [eexists; split; [done|]|];
      [rewrite length_app, length_drop|]; rewrite Hj;
      (repeat (apply elem_of_cons in Hf as [->|Hf]; [cbn; lia|]); by apply not_elem_of_nil in Hf). }
  rewrite Es, ST_bind_eq. unfold lift_opt at 1. cbn [fmap option_fmap option_map].
  rewrite ST_bind_eq. unfold this. rewrite ST_bind_eq. cbn [rx_size].
  assert (handle_frame room (f ++ rest) (Z.of_nat (length f)) m = None) as ->; [|done].
  repeat (apply elem_of_cons in Hf as [->|Hf]; [unfold handle_frame, xor_bytes; rewrite Hlen|]);
    [..|by apply not_elem_of_nil in Hf]; cbn [length app] in *.
  { rewrite (proj2 (Z.leb_gt _ _)); [done|]. word_lia. }
  all: rewrite (proj2 (Z.leb_le _ _)) by word_lia; cbn [mbind option_bind].
  - destruct rest as [|x rest]; [cbn in Hlen; lia|]. done.
  - done.
  - done.
Qed.

(** ** Witnesses *)
Definition ready : mqttsn := set_waiting false new_MQTTSN.
Definition leaf_node (o : mqttsn) (l : list (nat * event)) : node (W := demo) :=
  Node (World o new_MQTTSX1276 [] 0) (new_SX1276Radio, hearing l).

Lemma request_reaches_gateway_witness : exists s fr p,
  method (W := demo) (issue (R_publish 0 7 [49; 50])) (leaf_node ready []) = Some ((), s)
  /\ aired (look (W := demo) (air_side s).2) = [fr]
  /\ decode p = Some (meaning (R_publish 0 7 [49; 50]) 1)
  /\ exists d, handle_frame 256 (fr ++ []) (Z.of_nat (length fr)) new_RadioManager
               = Some (inl p, data_seen 0 d new_RadioManager).
Proof.
  destruct (request_reaches_gateway (W := demo) (R_publish 0 7 [49; 50]) ready new_MQTTSX1276 0
    new_SX1276Radio (hearing []) ltac:(cbn; unfold fits; lia) ltac:(done) ltac:(by vm_compute)
    ltac:(cbn; unfold MAX_BUFFER_SIZE; lia) ltac:(done) ltac:(done) (leaf_node ready []) ltac:(done))
    as ([] & s & E & fr & p & Ha & Hd & _ & _ & Hf).
  exists s, fr, p. split; [exact E|]. split; [exact Ha|]. split; [exact Hd|].
  apply Hf. unfold MAX_BUFFER_SIZE. lia.
Defined.

Definition hoping : mqttsn := await CONNACK ready.

Lemma reply_reaches_client_witness : exists s,
  Link.TryReceive (W := demo) (leaf_vtable (fun _ => []) 0) 1
    (leaf_node hoping [(O, Packet (data_frame 5 9 [3; 5; 0]) false)]) = Some ((true, false), s)
  /\ waiting_for_response (obj (client s)) = false /\ IsMaybeConnected (ext (client s)) = true.
Proof.
  destruct (reply_reaches_client (W := demo) (fun _ => []) 0 (Connack 0) 5 9 hoping new_MQTTSX1276 0
    new_SX1276Radio (hearing [(O, Packet (data_frame 5 9 [3; 5; 0]) false)]) 0 false [] 1
    ltac:(done) ltac:(done) ltac:(done) ltac:(done) ltac:(done) ltac:(lia)
    (leaf_node hoping [(O, Packet (data_frame 5 9 [3; 5; 0]) false)]) ltac:(done))
    as (res & s & E & -> & Hw & He & _).
  exists s. split; [exact E|]. split; [exact Hw|]. by rewrite He.
Defined.

Definition stale : mqttsn := set_response_buffer ([3; 5; 0] ++ replicate 89 0) hoping.

Lemma stale_reply_replayed_witness : exists s,
  Link.TryReceive (W := demo) (leaf_vtable (fun _ => []) 0) 1
    (leaf_node stale [(O, Packet (hello_frame 0 0) false)]) = Some ((true, false), s)
  /\ IsMaybeConnected (ext (client s)) = true.
Proof.
  destruct (stale_reply_replayed (W := demo) (fun _ => []) 0 (Connack 0) (hello_frame 0 0)
    (replicate 89 0) stale new_MQTTSX1276 0 new_SX1276Radio
    (hearing [(O, Packet (hello_frame 0 0) false)]) 0 false [] 1
    ltac:(right; split; [done|cbn; lia]) ltac:(done) ltac:(done) ltac:(done) ltac:(done) ltac:(done)
    ltac:(lia) (leaf_node stale [(O, Packet (hello_frame 0 0) false)]) ltac:(done))
    as (res & s & E & -> & Hw & He).
  exists s. split; [exact E|]. by rewrite He.
Defined.

Lemma corruption_detected_witness :
  handle_frame 256 ([0; 1; 2; 9; 7] ++ []) 5 new_RadioManager = Some (inr false, count_xorv new_RadioManager).
Proof.
  apply (corruption_detected [0; 1; 2; 4] 3 9 4 [] 256 new_RadioManager);
    [cbn; lia|done|lia].
Defined.

(** A radio that hears the frames of a list, without ever failing. *)
#[export] Instance script : SimpleRadio (list (list Z)) := {|
  SendSimpleMessage _ r := (true, r);
  ReceiveSimpleMessage _ _ _ _ r :=
    match r with
    | [] => (Report true 0 true false [], [])
    | f :: r => (Report true (Z.of_nat (length f)) false false f, r)
    end;
  ResetSX1276 r := r; ChangeCarrier _ r := r; ApplyDefaultLoraConfiguration r := r |}.

Definition heard_one : manager := data_seen 9 0 new_RadioManager.

Lemma losses_counted_witness : exists m',
  receive_many 2 1 (replicate 260 0) 256
    (heard_one, [data_frame 10 3 [65]; data_frame 14 3 [66]]) = Some ([Some [65]; Some [66]], (m', []))
  /\ dropped_ m' = 3.
Proof.
  destruct (losses_counted 1 (replicate 260 0) 256 3 [(0, [65]); (3, [66])] heard_one
    [data_frame 10 3 [65]; data_frame 14 3 [66]] []) as (m' & E & Ed & _).
  - lia.
  - done.
  - lia.
  - repeat constructor; cbn; lia.
  - done.
  - cbn. lia.
  - repeat econstructor; done.
  - exists m'. split; [exact E|]. exact Ed.
Defined.

Lemma short_frame_undefined_witness :
  TryReceive 1 (replicate 260 0) 256 (new_RadioManager, [[]]) = None.
Proof.
  apply (short_frame_undefined 0 (replicate 260 0) 256 [] new_RadioManager [[]] []);
    [by left|done|lia|done].
Defined.
