(* ===== verification/RadioLinux.v ===== *)
(** The gateway's SX1276 driver: [src/software/sx1276/sx1276.cpp],
    [sx1276.hpp], over the abstract bus of [spi.hpp].

    The bus may fail a transaction, so registers are read and written with
    retries and a failure is remembered in [fault_]. A variable that is read
    before it is set has the value [junk]. Time is in microseconds; the two
    polling loops end by the clock and have fuel. Output, and the time-on-air
    prediction in floating point that only output uses, are left out. *)
From S2P Require Import Prelude Radio Bridge.

(** * The bus (spi.hpp): the register, the old value of [result]; whether the
    transaction worked and the new value of [result]. *)
Class SPI (W : Type) := {
  spi_ReadRegister : Z -> Z -> W -> bool * Z * W;
  spi_WriteRegister : Z -> Z -> W -> bool * W }.

(** [usleep] and [steady_clock::now]. *)
Class Clock (W : Type) := {
  usleep : Z -> W -> W;
  now : W -> Z * W }.

Definition DEFAULT_INTRA_DELAY_US := 100.

Record linux_radio := LinuxRadio {
  fault_ : bool;
  version_ : Z;
  max_tx_payload_bytes_ : Z;
  max_rx_payload_bytes_ : Z;
  last_rssi_dbm_ : Z;
  actual_hz_ : Z;
  continuousMode_ : bool;
  continuousSetup_ : bool;
  high_power_mode_ : bool;
  preamble_ : Z;
  symbolTimeout_ : Z }.

Definition with_fault (b : bool) (r : linux_radio) : linux_radio :=
  LinuxRadio b (version_ r) (max_tx_payload_bytes_ r) (max_rx_payload_bytes_ r) (last_rssi_dbm_ r)
    (actual_hz_ r) (continuousMode_ r) (continuousSetup_ r) (high_power_mode_ r) (preamble_ r)
    (symbolTimeout_ r).
Definition with_setup (b : bool) (r : linux_radio) : linux_radio :=
  LinuxRadio (fault_ r) (version_ r) (max_tx_payload_bytes_ r) (max_rx_payload_bytes_ r)
    (last_rssi_dbm_ r) (actual_hz_ r) (continuousMode_ r) b (high_power_mode_ r) (preamble_ r)
    (symbolTimeout_ r).
Definition with_rssi (x : Z) (r : linux_radio) : linux_radio :=
  LinuxRadio (fault_ r) (version_ r) (max_tx_payload_bytes_ r) (max_rx_payload_bytes_ r) x
    (actual_hz_ r) (continuousMode_ r) (continuousSetup_ r) (high_power_mode_ r) (preamble_ r)
    (symbolTimeout_ r).
Definition with_carrier (x : Z) (r : linux_radio) : linux_radio :=
  LinuxRadio (fault_ r) (version_ r) (max_tx_payload_bytes_ r) (max_rx_payload_bytes_ r)
    (last_rssi_dbm_ r) x (continuousMode_ r) (continuousSetup_ r) (high_power_mode_ r) (preamble_ r)
    (symbolTimeout_ r).
Definition with_version (x : Z) (r : linux_radio) : linux_radio :=
  LinuxRadio (fault_ r) x (max_tx_payload_bytes_ r) (max_rx_payload_bytes_ r) (last_rssi_dbm_ r)
    (actual_hz_ r) (continuousMode_ r) (continuousSetup_ r) (high_power_mode_ r) (preamble_ r)
    (symbolTimeout_ r).

(** The setters of the header. *)
Definition SetSymbolTimeout (x : Z) (r : linux_radio) : linux_radio :=
  LinuxRadio (fault_ r) (version_ r) (max_tx_payload_bytes_ r) (max_rx_payload_bytes_ r)
    (last_rssi_dbm_ r) (actual_hz_ r) (continuousMode_ r) (continuousSetup_ r) (high_power_mode_ r)
    (preamble_ r) x.
Definition SetPreamble (x : Z) (r : linux_radio) : linux_radio :=
  LinuxRadio (fault_ r) (version_ r) (max_tx_payload_bytes_ r) (max_rx_payload_bytes_ r)
    (last_rssi_dbm_ r) (actual_hz_ r) (continuousMode_ r) (continuousSetup_ r) (high_power_mode_ r)
    x (symbolTimeout_ r).
Definition EnableContinuousRx (b : bool) (r : linux_radio) : linux_radio :=
  LinuxRadio (fault_ r) (version_ r) (max_tx_payload_bytes_ r) (max_rx_payload_bytes_ r)
    (last_rssi_dbm_ r) (actual_hz_ r) b (continuousSetup_ r) (high_power_mode_ r) (preamble_ r)
    (symbolTimeout_ r).
Definition EnableHighPowerMode (b : bool) (r : linux_radio) : linux_radio :=
  LinuxRadio (fault_ r) (version_ r) (max_tx_payload_bytes_ r) (max_rx_payload_bytes_ r)
    (last_rssi_dbm_ r) (actual_hz_ r) (continuousMode_ r) (continuousSetup_ r) b (preamble_ r)
    (symbolTimeout_ r).
Definition reset_fault (r : linux_radio) : linux_radio := with_fault false r.

(** The data members the constructor starts from; [high] is the environment
    variable SX1276_HIGH being "1". *)
Definition new_radio (junk : Z) (high : bool) : linux_radio :=
  LinuxRadio false junk 0x80 0x80 255 0 false false high 0x8 0x08.

Section Driver.
Context {W : Type} `{SPI W} `{Clock W}.
Abbreviation M := (ST (linux_radio * W)).

Definition this : M linux_radio := fun '(r, w) => Some (r, (r, w)).
Definition set_this (f : linux_radio -> linux_radio) : M () := fun '(r, w) => Some ((), (f r, w)).
Definition pause (us : Z) : M () := fun '(r, w) => Some ((), (r, usleep us w)).
Definition time_now : M Z := fun '(r, w) => let '(t, w) := now w in Some (t, (r, w)).

(** [spi_->ReadRegister(reg, v)] with [v] holding [old] before. *)
Definition spi_read (reg old : Z) : M (bool * Z) :=
  fun '(r, w) => let '(ok, x, w) := spi_ReadRegister reg old w in Some ((ok, x), (r, w)).
Definition spi_write (reg x : Z) : M bool :=
  fun '(r, w) => let '(ok, w) := spi_WriteRegister reg x w in Some (ok, (r, w)).

Fixpoint harder_loop (retries : nat) (reg value : Z) : M (bool * Z) :=
  match retries with
  | O => set_this (with_fault true);; mret (false, value)
  | S retries =>
      '(ok, value) ← spi_read reg value;
      if (ok : bool) then mret (true, value) else harder_loop retries reg value
  end.
Definition ReadRegisterHarder (reg value : Z) (retries : nat) : M (bool * Z) :=
  harder_loop retries reg value.

(** The tries left of [WriteRegisterVerify] and [WriteRegisterVerifyMask]. *)
Fixpoint verify_loop (tries : nat) (reg value intra_delay : Z) : M bool :=
  match tries with
  | O => set_this (with_fault true);; mret false
  | S tries =>
      ok ← spi_write reg value;
      '(ok, check) ← (if (ok : bool)
                      then pause intra_delay;; spi_read reg (u8 (Z.lnot value))
                      else mret (ok, u8 (Z.lnot value)));
      if (ok : bool) && (check =? value) then mret true
      else verify_loop tries reg value intra_delay
  end.
Definition WriteRegisterVerify (reg value : Z) : M bool :=
  verify_loop 2 reg value DEFAULT_INTRA_DELAY_US.

Definition WriteRegisterVerifyMask (junk reg value mask : Z) : M bool :=
  '(ok, old_value) ← ReadRegisterHarder reg junk 2;
  if negb ok then mret false
  else
    verify_loop 2 reg (u8 (Z.lor (Z.land old_value (Z.lnot mask)) (Z.land value mask)))
      DEFAULT_INTRA_DELAY_US.

Definition EnterStandby : M () :=
  WriteRegisterVerify SX1276REG_OpMode 0x81;;
  set_this (with_setup false);;
  pause 10000.

Definition EnterSleep : M () :=
  WriteRegisterVerify SX1276REG_OpMode 0x80;;
  set_this (with_setup false);;
  pause 10000.

(** The return value and [old_mode]. *)
Definition Standby : M (bool * Z) :=
  '(_, v) ← spi_read SX1276REG_OpMode 0;
  r ← this;
  when (negb (fault_ r)) EnterStandby;;
  r ← this;
  mret (negb (fault_ r), v).

Definition Sleep : M (bool * Z) :=
  '(_, v) ← spi_read SX1276REG_OpMode 0;
  r ← this;
  when (negb (fault_ r)) EnterSleep;;
  r ← this;
  mret (negb (fault_ r), v).

Definition ReadCarrier (junk : Z) : M () :=
  '(_, v0) ← ReadRegisterHarder SX1276REG_FrfMsb junk 3;
  '(_, v1) ← ReadRegisterHarder SX1276REG_FrfMid v0 3;
  '(_, v2) ← ReadRegisterHarder SX1276REG_FrfLsb v1 3;
  let Frf := Z.lor (Z.lor (Z.shiftl v0 16) (Z.shiftl v1 8)) v2 in
  set_this (with_carrier (u32 (Z.shiftr (32000000 * Frf) 19))).

(** The constructor's body. *)
Definition construct (junk : Z) : M () :=
  '(ok, v) ← spi_read 0x42 junk;
  set_this (with_version v);;
  set_this (with_fault (negb ok));;
  ReadCarrier junk.

Definition ChangeCarrier (junk carrier_hz : Z) : M bool :=
  let Frf := carrier_hz * Z.shiftl 1 19 / 32000000 in
  WriteRegisterVerify SX1276REG_FrfMsb (u8 (Z.shiftr Frf 16));;
  WriteRegisterVerify SX1276REG_FrfMid (u8 (Z.shiftr Frf 8));;
  WriteRegisterVerify SX1276REG_FrfLsb (Z.land Frf 0xff);;
  ReadCarrier junk;;
  set_this (with_setup false);;
  r ← this;
  mret (fault_ r).

(** The registers written once the chip is in LoRa standby mode. *)
Definition program : M bool :=
  r ← this;
  WriteRegisterVerify SX1276REG_ModemConfig1 (Z.lor (Z.lor (Z.shiftl 0x7 4) (Z.shiftl 0x02 1)) 0x0);;
  WriteRegisterVerify SX1276REG_ModemConfig2
    (u8 (Z.lor (Z.lor (Z.lor (Z.shiftl 0x9 4) (Z.shiftl 0 3)) (Z.shiftl 1 2))
           (Z.land (Z.shiftr (symbolTimeout_ r) 8) 0x03)));;
  let v := Z.land (symbolTimeout_ r) 0xff in
  WriteRegisterVerify SX1276REG_SymbTimeoutLsb v;;
  (if high_power_mode_ r
   then WriteRegisterVerify SX1276REG_PaConfig 0xff;; WriteRegisterVerify SX1276REG_PaDac 0x87
   else WriteRegisterVerify SX1276REG_PaConfig 0x7f;; WriteRegisterVerify SX1276REG_PaDac 0x84);;
  '(_, v) ← spi_read SX1276REG_DioMapping1 v;
  WriteRegisterVerify SX1276REG_DioMapping1 (u8 (Z.land (Z.lor v 0x1) (Z.lnot 0x10)));;
  set_this (with_setup false);;
  r ← this;
  mret (negb (fault_ r)).

Definition ApplyDefaultLoraConfiguration (junk : Z) : M bool :=
  set_this (with_fault false);;
  '(_, v) ← spi_read SX1276REG_OpMode junk;
  WriteRegisterVerify SX1276REG_OpMode (Z.land v 0xf8);;
  pause 10000;;
  Sleep;; Standby;;
  ReadCarrier junk;;
  WriteRegisterVerify SX1276REG_Ocp (Z.lor (Z.shiftl 1 5) 0x0B);;
  '(_, v) ← spi_read SX1276REG_OpMode v;
  r ← this;
  if fault_ r || negb (v =? 0x81) then set_this (with_fault true);; mret false
  else program.

(** ** Transmitting *)

(** The bytes from index [b] on, each followed by a look at the FIFO pointer.
    (The index is a byte; it cannot wrap, because the pointer is one as well
    and the test fails at 255.) [None]: the loop returned false. *)
Fixpoint fifo_loop (b fifo_pos v : Z) (payload : list Z) : M (option Z) :=
  match payload with
  | [] => mret (Some v)
  | x :: payload =>
      spi_write SX1276REG_Fifo x;;
      pause 100;;
      '(_, v) ← ReadRegisterHarder SX1276REG_FifoAddrPtr v 3;
      if negb (v - fifo_pos - 1 =? b) then set_this (with_fault true);; mret None
      else fifo_loop (u8 (b + 1)) fifo_pos v payload
  end.

(** The wait for TX DONE until the time [t1]: whether it was seen. *)
Fixpoint tx_loop (fuel : nat) (t1 v : Z) : M bool :=
  match fuel with
  | O => undefined
  | S fuel =>
      '(ok, v) ← ReadRegisterHarder SX1276REG_IrqFlags v 4;
      if negb ok then mret false
      else if z2b (Z.land v (Z.shiftl 1 3)) then mret true
      else
        pause 1000;;
        t ← time_now;
        if (t : Z) <? t1 then tx_loop fuel t1 v else mret false
  end.

(** From the filled FIFO on. *)
Definition start_tx (fuel : nat) (v : Z) : M bool :=
  WriteRegisterVerify SX1276REG_IrqFlagsMask 0xf7;;
  spi_write SX1276REG_IrqFlags 0xff;;
  WriteRegisterVerify SX1276REG_OpMode 0x83;;
  r ← this;
  if fault_ r then spi_read SX1276REG_IrqFlags v;; mret false
  else
    t0 ← time_now;
    done ← tx_loop fuel ((t0 : Z) + 1000 * 1000) v;
    mret (done : bool).

(** [SendSimpleMessage(payload, n)], [payload] being the [n] bytes. *)
Definition SendSimpleMessage (junk : Z) (fuel : nat) (payload : list Z) : M bool :=
  let n := Z.of_nat (length payload) in
  set_this (with_setup false);;
  Standby;;
  r ← this;
  WriteRegisterVerify SX1276REG_PreambleLSB (u8 (preamble_ r));;
  WriteRegisterVerify SX1276REG_FifoTxBaseAddr 0x80;;
  WriteRegisterVerify SX1276REG_FifoAddrPtr 0x80;;
  WriteRegisterVerify SX1276REG_MaxPayloadLength (max_tx_payload_bytes_ r);;
  WriteRegisterVerify SX1276REG_PayloadLength (u8 n);;
  pause 100;;
  '(_, fifo_pos) ← ReadRegisterHarder SX1276REG_FifoAddrPtr junk 3;
  v ← fifo_loop 0 fifo_pos junk payload;
  match (v : option Z) with
  | None => mret false
  | Some v =>
      '(_, v) ← ReadRegisterHarder SX1276REG_FifoAddrPtr v 3;
      if negb (v =? 0x80 + n) then set_this (with_fault true);; mret false
      else start_tx fuel v
  end.

(** [snprintf] with the payload as the format: no conversion without arguments
    is defined but [%%]. *)
Fixpoint formatted (s : list Z) : option (list Z) :=
  match s with
  | [] => Some []
  | 37 :: 37 :: s => cons 37 <$> formatted s
  | 37 :: _ => None
  | c :: s => cons c <$> formatted s
  end.

(** [SendSimpleMessage(payload)], [payload] being a C string with what follows
    it: as many bytes as the formatted text and its terminator have. *)
Definition SendSimpleText (junk : Z) (fuel : nat) (payload : list Z) : M bool :=
  buf ← lift_opt (formatted (c_string payload));
  bytes ← lift_opt (load payload 0 (length buf + 1));
  SendSimpleMessage junk fuel bytes.

(** ** Receiving *)
Definition rx_setup : M () :=
  WriteRegisterVerify SX1276REG_OpMode 0x81;;
  pause 10000;;
  WriteRegisterVerify SX1276REG_FifoTxBaseAddr (Z.lor (Z.shiftl 0x4 5) 0x00);;
  r ← this;
  WriteRegisterVerify SX1276REG_MaxPayloadLength (max_rx_payload_bytes_ r);;
  WriteRegisterVerify SX1276REG_PayloadLength (max_rx_payload_bytes_ r);;
  WriteRegisterVerify SX1276REG_FifoRxBaseAddr RX_BASE_ADDR;;
  WriteRegisterVerify SX1276REG_FifoAddrPtr RX_BASE_ADDR;;
  WriteRegisterVerify SX1276REG_IrqFlagsMask 0x0f;;
  mret ().

(** How the polling loop ends, with the flags it saw last. *)
Inductive rx_end := Rx_done (flags : Z) | Rx_timeout | User_timeout | Rx_fault.

Fixpoint rx_loop (fuel : nat) (timeout_ms t1 flags : Z) (have_header : bool) : M rx_end :=
  match fuel with
  | O => undefined
  | S fuel =>
      '(ok, flags) ← ReadRegisterHarder SX1276REG_IrqFlags flags 3;
      if negb ok then mret Rx_fault
      else
        let header := z2b (Z.land flags (Z.shiftl 1 4)) && negb have_header in
        let t1 := if header then t1 + 1000 * timeout_ms else t1 in
        let have_header := have_header || header in
        if z2b (Z.land flags (Z.shiftl 1 6)) then mret (Rx_done flags)
        else if z2b (Z.land flags (Z.shiftl 1 7)) then mret Rx_timeout
        else
          t2 ← time_now;
          pause 100;;
          if (t2 : Z) <? t1 then rx_loop fuel timeout_ms t1 flags have_header
          else mret User_timeout
  end.

(** The bytes from the FIFO: whether all were read, and those stored. *)
Fixpoint fifo_read_loop (todo : nat) (v : Z) (buffer : list Z) : M (bool * list Z) :=
  match todo with
  | O => mret (true, buffer)
  | S todo =>
      '(_, byte) ← spi_read SX1276REG_Fifo 0;
      pause 100;;
      '(_, v) ← ReadRegisterHarder SX1276REG_FifoAddrPtr v 3;
      r ← this;
      if fault_ r || negb (v =? RX_BASE_ADDR + v) then mret (false, buffer)
      else fifo_read_loop todo v (buffer ++ [byte])
  end.

(** The registers read about a packet: FifoRxNbBytes. *)
Definition read_packet_info (v stat : Z) : M (Z * Z) :=
  '(_, v) ← ReadRegisterHarder SX1276REG_PacketRssi v 3;
  '(_, v) ← ReadRegisterHarder SX1276REG_PacketSnr v 3;
  ReadRegisterHarder SX1276REG_ModemStat stat 3;;
  '(_, payloadSizeBytes) ← ReadRegisterHarder SX1276REG_FifoRxNbBytes 0xff 3;
  '(_, v) ← ReadRegisterHarder SX1276REG_RxHeaderCntValueMsb v 3;
  '(_, v) ← ReadRegisterHarder SX1276REG_RxHeaderCntValueLsb v 3;
  '(_, v) ← ReadRegisterHarder SX1276REG_RxPacketCntValueMsb v 3;
  '(_, v) ← ReadRegisterHarder SX1276REG_RxPacketCntValueLsb v 3;
  ReadRegisterHarder SX1276REG_FifoRxByteAddrPtr 0 3;;
  mret (payloadSizeBytes, v).

(** From the end of the polling loop on. *)
Definition finish_rx (maxBufferSize : Z) (timeout crc_error : bool) (junk : Z) (e : rx_end)
    : M rx_report :=
  '(_, stat) ← ReadRegisterHarder SX1276REG_ModemStat 0 3;
  set_this (with_rssi 255);;
  '(ok, v) ← ReadRegisterHarder SX1276REG_Rssi junk 3;
  when ok (set_this (with_rssi (-137 + v)));;
  match e with
  | Rx_done flags =>
      '(payloadSizeBytes, v) ← read_packet_info v stat;
      r ← this;
      if fault_ r then mret (Report false 0 false crc_error [])
      else if Z.land flags (Z.shiftl 1 5) =? 1 then mret (Report true 0 false true [])
      else if maxBufferSize <? payloadSizeBytes then mret (Report false 0 false crc_error [])
      else
        '(all, bytes) ← fifo_read_loop (Z.to_nat payloadSizeBytes) v [];
        mret (if (all : bool) then Report true payloadSizeBytes false crc_error bytes
              else Report false 0 false crc_error bytes)
  | Rx_timeout => mret (Report true 0 true crc_error [])
  | _ => mret (Report true 0 timeout crc_error [])
  end.

Definition ReceiveSimpleMessage (junk : Z) (fuel : nat) (size timeout_ms : Z)
    (timeout crc_error : bool) : M rx_report :=
  r ← this;
  when (negb (continuousMode_ r) || (continuousMode_ r && negb (continuousSetup_ r))) rx_setup;;
  spi_write SX1276REG_IrqFlags 0xff;;
  (if negb (continuousMode_ r) then WriteRegisterVerify SX1276REG_OpMode 0x86;; mret ()
   else when (negb (continuousSetup_ r))
          (WriteRegisterVerify SX1276REG_OpMode 0x85;; set_this (with_setup true)));;
  r ← this;
  if fault_ r then
    spi_read SX1276REG_IrqFlags junk;; mret (Report false 0 timeout crc_error [])
  else
    t0 ← time_now;
    e ← rx_loop fuel timeout_ms ((t0 : Z) + 1000 * timeout_ms) 0 false;
    match (e : rx_end) with
    | Rx_fault => mret (Report false 0 timeout crc_error [])
    | _ => finish_rx size timeout crc_error junk e
    end.
End Driver.

(** * The bridge's radio

    [RadioManager] holds an [SX1276Radio] and the platform that resets the chip
    (not modelled here). The methods are defined for the fuel they need, so the
    default value of [run] is never used (see [RadioLinuxFacts]). *)
Class Platform (W : Type) := { platform_reset : W -> W }.

Section Radio.
Context {W : Type} `{SPI W} `{Clock W} `{Platform W}.

Definition run {A} (d : A) (m : ST (linux_radio * W) A) (s : linux_radio * W) : A * (linux_radio * W) :=
  default (d, s) (m s).

(** Polls enough for the second of [tx_loop] and a receive timeout of [ms]. *)
Definition rx_fuel (ms : Z) : nat := Z.to_nat (20 * ms + 2).

Definition gateway_radio (junk : Z) : SimpleRadio (linux_radio * W) := {|
  Bridge.SendSimpleMessage l := run false (SendSimpleMessage junk 1001 l);
  Bridge.ReceiveSimpleMessage size ms timeout crc :=
    run (Report false 0 timeout crc []) (ReceiveSimpleMessage junk (rx_fuel ms) size ms timeout crc);
  Bridge.ResetSX1276 := fun '(r, w) => (r, platform_reset w);
  Bridge.ChangeCarrier hz s := (run true (ChangeCarrier junk hz) s).2;
  Bridge.ApplyDefaultLoraConfiguration s := (run false (ApplyDefaultLoraConfiguration junk) s).2 |}.
End Radio.
