(* ===== verification/RadioLinuxFacts.v ===== *)
(** The gateway's driver against the chip, over a bus that may fail.

    Class [LinuxChip] states what the driver relies on: a transaction that fails
    leaves the chip alone (what it hands back is any byte), one that works acts
    on the chip of [RadioFacts]; [reliable] says that none fails; time passes.
    [tracks] follows the driver through both: either the chip looks as it
    should, or the fault flag is set and the bus is not reliable. *)
From S2P Require Import Prelude Radio RadioFacts Bridge RadioLinux.

(** * The chip *)
Definition held : list Z := SX1276REG_PaConfig :: SX1276REG_PaDac :: plain.

(** A write: entering a mode acts once, writing the current mode does nothing. *)
Definition chip_writes (a x : Z) (v : view) : view :=
  if a =? SX1276REG_Fifo then push x v
  else if a =? SX1276REG_FifoAddrPtr then set_ptr x v
  else if a =? SX1276REG_OpMode then
    if bool_decide (regs v !! a = Some x) then v
    else if x =? 0x83 then air (set_reg a x v)
    else if x =? 0x86 then listen (set_reg a x v)
    else set_rx None (arrivals v) (set_reg a x v)
  else if bool_decide (a ∈ held) then set_reg a x v
  else v.

(** What a read shows and leaves. IrqFlags counts the reception down; the chip
    is back in standby once it has reported the end of a mode. *)
Definition chip_reads (a : Z) (v : view) (x : Z) (v' : view) : Prop :=
  if a =? SX1276REG_Fifo then x = u8 (fifo v !!! ptr v) /\ v' = set_ptr (u8 (ptr v + 1)) v
  else if a =? SX1276REG_IrqFlags then
    match rx v with
    | None => v' = saw x (if Z.testbit x 3 then set_reg SX1276REG_OpMode 0x81 v else v)
    | Some (S n, e) =>
        Z.testbit x 6 = false /\ Z.testbit x 7 = false
        /\ v' = saw x (set_rx (Some (n, e)) (arrivals v) v)
    | Some (O, e) =>
        flags_show e x /\ v' = saw x (set_reg SX1276REG_OpMode 0x81 (deliver e v))
    end
  else v' = v /\ (a = SX1276REG_FifoAddrPtr -> x = u8 (ptr v))
       /\ (a ∈ SX1276REG_OpMode :: SX1276REG_FifoRxNbBytes :: held -> x = u8 (regs v !!! a)).

Class LinuxChip (W : Type) `{SPI W} `{Clock W} := {
  sees : W -> view;
  time : W -> Z;
  reliable : Prop;
  read_result a old w : fits 7 a ->
    let '(ok, x, w') := spi_ReadRegister a old w in
    (fits 8 old -> fits 8 x) /\ time w <= time w' /\ (reliable -> ok = true)
    /\ if ok then chip_reads a (sees w) x (sees w') else sees w' = sees w;
  write_result a x w : fits 7 a ->
    let '(ok, w') := spi_WriteRegister a x w in
    time w <= time w' /\ (reliable -> ok = true)
    /\ sees w' = if ok then chip_writes a x (sees w) else sees w;
  read_takes_time a old w : time w <= time (spi_ReadRegister a old w).2;
  write_takes_time a x w : time w <= time (spi_WriteRegister a x w).2;
  usleep_passes us w : 0 <= us ->
    sees (usleep us w) = sees w /\ time w + us <= time (usleep us w);
  now_shows w :
    let '(t, w') := now w in t = time w /\ sees w' = sees w /\ time w <= time w' }.

(** What a register that can be read back shows. *)
Definition shown (a : Z) (v : view) : Z :=
  u8 (if a =? SX1276REG_FifoAddrPtr then ptr v else regs v !!! a).

Definition verifiable (a : Z) : bool :=
  bool_decide (a ∈ SX1276REG_FifoAddrPtr :: SX1276REG_OpMode :: held).

Lemma verifiable_cases a :
  verifiable a = true ->
  a = SX1276REG_FifoAddrPtr \/ a = SX1276REG_OpMode
  \/ (a ∈ held /\ (a =? SX1276REG_Fifo) = false /\ (a =? SX1276REG_FifoAddrPtr) = false
      /\ (a =? SX1276REG_OpMode) = false /\ (a =? SX1276REG_IrqFlags) = false).
Proof.
  unfold verifiable. intros Ha%bool_decide_eq_true. unfold held, plain in Ha.
  rewrite !elem_of_cons, elem_of_nil in Ha.
  repeat (destruct Ha as [->|Ha];
    [first [by left | by right; left
           | right; right; split; [apply (bool_decide_unpack _); vm_compute; exact I|done]]|]). done.
Qed.

Lemma verifiable_range a : verifiable a = true -> fits 7 a.
Proof.
  unfold verifiable. intros Ha%bool_decide_eq_true. unfold held, plain in Ha.
  rewrite !elem_of_cons, elem_of_nil in Ha.
  repeat (destruct Ha as [->|Ha]; [by apply (bool_decide_unpack (fits 7 _))|]). done.
Qed.

(** The two registers whose reads act on the chip. *)
Lemma fifo_range : fits 7 SX1276REG_Fifo. Proof. by apply (bool_decide_unpack (fits 7 _)). Qed.
Lemma flags_range : fits 7 SX1276REG_IrqFlags. Proof. by apply (bool_decide_unpack (fits 7 _)). Qed.

Lemma regs_set_reg_eq a x v : regs (set_reg a x v) !!! a = x.
Proof. apply lookup_total_insert_eq. Qed.

Lemma regs_listen v : regs (listen v) = regs v.
Proof. unfold listen. by destruct (arrivals v). Qed.

(** The register shows the value after a write that worked. *)
Lemma chip_writes_mode x v : regs (chip_writes SX1276REG_OpMode x v) !! SX1276REG_OpMode = Some x.
Proof.
  unfold chip_writes. cbn. case_bool_decide; [done|].
  destruct (x =? 0x83); [|destruct (x =? 0x86)]; rewrite ?regs_listen; apply lookup_insert_eq.
Qed.

Lemma chip_writes_mode_same x v :
  regs v !! SX1276REG_OpMode = Some x -> chip_writes SX1276REG_OpMode x v = v.
Proof. intros E. unfold chip_writes. cbn. by rewrite bool_decide_true. Qed.

Lemma chip_writes_held a x v :
  a ∈ held -> (a =? SX1276REG_Fifo) = false -> (a =? SX1276REG_FifoAddrPtr) = false ->
  (a =? SX1276REG_OpMode) = false -> chip_writes a x v = set_reg a x v.
Proof. intros Ha E1 E2 E3. unfold chip_writes. by rewrite E1, E2, E3, bool_decide_true. Qed.

(** A write repeated after it worked changes nothing. *)
Lemma chip_writes_again a x v :
  verifiable a = true -> chip_writes a x (chip_writes a x v) = chip_writes a x v.
Proof.
  intros [->|[->|(Ha & E1 & E2 & E3 & _)]]%verifiable_cases.
  - done.
  - apply chip_writes_mode_same, chip_writes_mode.
  - rewrite !chip_writes_held by done. unfold set_reg. cbn. by rewrite insert_insert_eq.
Qed.

Lemma chip_writes_shown a x v :
  verifiable a = true -> fits 8 x -> shown a (chip_writes a x v) = x.
Proof.
  intros [->|[->|(Ha & E1 & E2 & E3 & _)]]%verifiable_cases Hx; unfold shown.
  - by apply trunc_small.
  - etransitivity; [|by apply (trunc_small 8)]. f_equal. apply lookup_total_correct, chip_writes_mode.
  - rewrite E2, chip_writes_held, regs_set_reg_eq by done. by apply trunc_small.
Qed.

Lemma chip_reads_shown a v x v' :
  verifiable a = true -> chip_reads a v x v' -> v' = v /\ x = shown a v.
Proof.
  intros [->|[->|(Ha & E1 & E2 & E3 & E4)]]%verifiable_cases; unfold chip_reads, shown.
  - intros (-> & Hp & _). split; [done|by apply Hp].
  - intros (-> & _ & Hr). split; [done|]. apply Hr. by left.
  - rewrite E1, E2, E4. intros (-> & _ & Hr). split; [done|]. apply Hr. by do 2 right.
Qed.

Lemma aired_listen v : aired (listen v) = aired v.
Proof. unfold listen. by destruct (arrivals v). Qed.

(** Only entering TX mode puts anything on the air. *)
Lemma chip_writes_silent a x v : (a, x) <> (SX1276REG_OpMode, 0x83) -> aired (chip_writes a x v) = aired v.
Proof.
  intros Hn. unfold chip_writes.
  destruct (a =? SX1276REG_Fifo); [done|]. destruct (a =? SX1276REG_FifoAddrPtr); [done|].
  destruct (Z.eqb_spec a SX1276REG_OpMode) as [->|].
  - case_bool_decide; [done|]. destruct (Z.eqb_spec x 0x83) as [->|]; [done|].
    destruct (x =? 0x86); [|done]. by rewrite aired_listen.
  - by case_bool_decide.
Qed.

Lemma chip_reads_silent a v x v' : chip_reads a v x v' -> aired v' = aired v.
Proof.
  unfold chip_reads. destruct (a =? SX1276REG_Fifo); [by intros [_ ->]|].
  destruct (a =? SX1276REG_IrqFlags); [|by intros [-> _]].
  destruct (rx v) as [[[|n] e]|].
  - intros [_ ->]. by destruct e.
  - by intros (_ & _ & ->).
  - intros ->. by destruct (Z.testbit x 3).
Qed.

(** * The driver's operations *)
Section Driver.
Context {W : Type} `{HS : SPI W} `{HK : Clock W} {HC : LinuxChip W}.

Lemma spi_read_runs a old r w :
  fits 7 a -> fits 8 old ->
  exists ok x w', spi_read a old (r, w) = Some ((ok, x), (r, w')) /\ fits 8 x
    /\ time w <= time w' /\ (reliable -> ok = true)
    /\ if (ok : bool) then chip_reads a (sees w) x (sees w') else sees w' = sees w.
Proof.
  intros Ha Ho. unfold spi_read. pose proof (read_result a old w Ha) as Hr.
  destruct (spi_ReadRegister a old w) as [[ok x] w']. destruct Hr as [Hx Hr]. exists ok, x, w'. auto.
Qed.

Lemma spi_write_runs a x r w :
  fits 7 a ->
  exists ok w', spi_write a x (r, w) = Some (ok, (r, w')) /\ (reliable -> ok = true)
    /\ sees w' = if (ok : bool) then chip_writes a x (sees w) else sees w.
Proof.
  intros Ha. unfold spi_write. pose proof (write_result a x w Ha) as Hr.
  destruct (spi_WriteRegister a x w) as [ok w']. exists ok, w'. intuition.
Qed.

(** A read with retries works, or leaves the fault flag set and the chip alone. *)
Lemma harder_runs n a old r w :
  fits 7 a -> fits 8 old ->
  exists ok x w', ReadRegisterHarder a old n (r, w)
                  = Some ((ok, x), (if (ok : bool) then r else with_fault true r, w'))
    /\ fits 8 x /\ time w <= time w' /\ (reliable -> (0 < n)%nat -> ok = true)
    /\ if (ok : bool) then chip_reads a (sees w) x (sees w') else sees w' = sees w.
Proof.
  intros Ha. unfold ReadRegisterHarder. revert old w. induction n as [|n IH]; intros old w Ho; cbn [harder_loop].
  - exists false, old, w. split; [done|]. split; [done|]. split; [lia|]. split; [lia|done].
  - destruct (spi_read_runs a old r w Ha Ho) as (ok & x & w1 & E & Hx & Ht & Hr & Hc).
    rewrite ST_bind_eq, E. cbv iota beta. destruct ok.
    + exists true, x, w1. done.
    + destruct (IH x w1 Hx) as (ok & y & w2 & -> & Hy & Ht2 & Hr2 & Hc2).
      exists ok, y, w2. rewrite Hc in Hc2. split; [done|]. split; [done|]. split; [lia|].
      split; [|done]. intros HR. by specialize (Hr HR).
Qed.

(** A verified write works, or leaves the fault flag set. *)
Lemma verify_runs n a x r w d :
  verifiable a = true -> fits 8 x -> 0 <= d ->
  exists ok w', verify_loop n a x d (r, w)
                = Some (ok, (if (ok : bool) then r else with_fault true r, w'))
    /\ (reliable -> (0 < n)%nat -> ok = true)
    /\ (sees w' = chip_writes a x (sees w) \/ ok = false /\ sees w' = sees w).
Proof.
  intros Ha Hx Hd. pose proof (verifiable_range a Ha) as Hf.
  revert w. induction n as [|n IH]; intros w; cbn [verify_loop].
  { exists false, w. split; [done|]. split; [lia|by right]. }
  destruct (spi_write_runs a x r w Hf) as (ok & w1 & E1 & Hr1 & Hs1).
  rewrite ST_bind_eq, E1. cbv beta iota. rewrite ST_bind_eq. destruct ok.
  2: { unfold mret, ST_ret. cbv iota beta. cbn [andb].
       destruct (IH w1) as (ok & w2 & -> & Hr2 & Hs2). exists ok, w2. rewrite Hs1 in Hs2.
       split; [done|]. split; [|done]. intros HR. by specialize (Hr1 HR). }
  rewrite ST_bind_eq. unfold pause at 1. cbv iota beta.
  destruct (usleep_passes d w1 Hd) as [Hp _].
  destruct (spi_read_runs a (u8 (Z.lnot x)) r (usleep d w1) Hf (u8_ok _)) as (ok & y & w2 & -> & Hy & _ & Hr2 & Hs2).
  cbv iota beta. rewrite Hp, Hs1 in Hs2.
  assert (ok = true -> sees w2 = chip_writes a x (sees w) /\ y = x) as Hok.
  { intros ->. destruct (chip_reads_shown _ _ _ _ Ha Hs2) as [Ev ->]. split; [done|].
    by apply chip_writes_shown. }
  assert (sees w2 = chip_writes a x (sees w)) as Ew2 by (destruct ok; [by apply Hok|done]).
  destruct (ok && (y =? x)) eqn:Eb.
  - exists true, w2. split; [done|]. split; [done|by left].
  - destruct (IH w2) as (ok3 & w3 & -> & Hr3 & Hs3). exists ok3, w3. split; [done|]. split.
    + intros HR _. specialize (Hr2 HR). subst ok. destruct (Hok eq_refl) as [_ ->].
      rewrite Z.eqb_refl in Eb. done.
    + rewrite Ew2, chip_writes_again in Hs3 by done. left. by destruct Hs3 as [|[_ ?]].
Qed.

(** ** Following the driver *)

(** Nothing new is on the air, and either the object is [r], the chip looks like
    [v] and [P] holds, or a fault has been noticed. *)
Definition tracksP (P : Prop) (r : linux_radio) (v : view) (s : linux_radio * W) : Prop :=
  aired (sees s.2) = aired v
  /\ ((s.1 = r /\ sees s.2 = v /\ P) \/ (s.1 = with_fault true r /\ ~ reliable)).
Abbreviation tracks := (tracksP True).

Lemma tracks_weaken (P Q : Prop) r v s : (P -> Q) -> tracksP P r v s -> tracksP Q r v s.
Proof. unfold tracksP. intuition. Qed.

Lemma t_verify P r v a x :
  verifiable a = true -> fits 8 x -> (a, x) <> (SX1276REG_OpMode, 0x83) ->
  triple (tracksP P r v) (WriteRegisterVerify a x) (fun _ => tracksP P r (chip_writes a x v)).
Proof.
  intros Ha Hx Hn [r' w] [Hl Hs]. cbn [fst snd] in *. unfold WriteRegisterVerify.
  destruct (verify_runs 2 a x r' w DEFAULT_INTRA_DELAY_US Ha Hx) as (ok & w' & -> & Hr & Hw); [done|].
  do 2 eexists. split; [done|]. split; cbn [fst snd].
  - rewrite chip_writes_silent by done. destruct Hw as [->|[_ ->]]; [|done].
    by rewrite chip_writes_silent.
  - destruct Hs as [(-> & <- & HP)|[-> Hnr]].
    + destruct ok; [left|right; split; [done|]].
      * by destruct Hw as [->|[? _]].
      * intros HR. by specialize (Hr HR ltac:(lia)).
    + right. split; [by destruct ok|done].
Qed.

(** A read of a register with no effect on the chip. *)
Definition quiet (a : Z) : bool :=
  bool_decide (fits 7 a) && (negb (a =? SX1276REG_Fifo) && negb (a =? SX1276REG_IrqFlags)).

Lemma quiet_range a : quiet a = true -> fits 7 a.
Proof. by intros [?%bool_decide_eq_true _]%andb_true_iff. Qed.
#[local] Hint Resolve quiet_range : core.
Definition readable (a : Z) : bool := verifiable a || (a =? SX1276REG_FifoRxNbBytes).

Lemma chip_reads_quiet a v x v' :
  quiet a = true -> chip_reads a v x v' -> v' = v /\ (readable a = true -> x = shown a v).
Proof.
  unfold quiet. intros [_ [E1%negb_true_iff E2%negb_true_iff]%andb_true_iff]%andb_true_iff Hc.
  split; [revert Hc; unfold chip_reads; rewrite E1, E2; by intros [-> _]|].
  unfold readable. intros [Hv|Ha]%orb_true_iff.
  - by eapply chip_reads_shown.
  - apply Z.eqb_eq in Ha. subst a. destruct Hc as (_ & _ & Hr). apply Hr. right. by left.
Qed.

Lemma t_harder P r v a old n :
  quiet a = true -> fits 8 old -> (0 < n)%nat ->
  triple (tracksP P r v) (ReadRegisterHarder a old n)
    (fun o s => fits 8 o.2 /\ tracksP (P /\ (readable a = true -> o.2 = shown a v)) r v s).
Proof.
  intros Ha Ho Hn [r' w] [Hl Hs]. cbn [fst snd] in *.
  destruct (harder_runs n a old r' w (quiet_range a Ha) Ho) as (ok & x & w' & -> & Hx & _ & Hr & Hw).
  do 2 eexists. split; [done|]. cbn [fst snd]. split; [done|].
  assert (sees w' = sees w /\ (ok = true -> readable a = true -> x = shown a (sees w))) as [Ew Ex].
  { destruct ok; [|done]. by destruct (chip_reads_quiet _ _ _ _ Ha Hw). }
  split; cbn [fst snd]; rewrite Ew; [done|].
  destruct Hs as [(-> & <- & HP)|[-> Hnr]].
  - destruct ok; [left|right; split; [done|]]; [by auto|]. intros HR. by specialize (Hr HR Hn).
  - right. split; [by destruct ok|done].
Qed.

Lemma t_spi_read P r v a old :
  quiet a = true -> fits 8 old ->
  triple (tracksP P r v) (spi_read a old)
    (fun o s => fits 8 o.2 /\ (reliable -> readable a = true -> tracksP (o.2 = shown a v) r v s)
                /\ tracksP P r v s).
Proof.
  intros Ha Ho [r' w] [Hl Hs]. cbn [fst snd] in *.
  destruct (spi_read_runs a old r' w (quiet_range a Ha) Ho) as (ok & x & w' & -> & Hx & _ & Hr & Hw).
  do 2 eexists. split; [done|]. cbn [fst snd]. split; [done|].
  assert (sees w' = sees w /\ (ok = true -> readable a = true -> x = shown a (sees w))) as [Ew Ex].
  { destruct ok; [|done]. by destruct (chip_reads_quiet _ _ _ _ Ha Hw). }
  split; [intros HR Hra|]; (split; cbn [fst snd]; rewrite Ew; [done|]); [|done].
  destruct Hs as [(-> & <- & _)|[_ ?]]; [|done]. left. auto.
Qed.

Lemma t_write_flags P r v x :
  triple (tracksP P r v) (spi_write SX1276REG_IrqFlags x) (fun _ => tracksP P r v).
Proof.
  intros [r' w] [Hl Hs]. destruct (spi_write_runs SX1276REG_IrqFlags x r' w flags_range) as (ok & w' & -> & _ & Hw).
  assert (sees w' = sees w) as Ew by (by destruct ok).
  do 2 eexists. split; [done|]. split; cbn [fst snd] in *; by rewrite Ew.
Qed.

Lemma t_pause P r v us : 0 <= us -> triple (tracksP P r v) (pause us) (fun _ => tracksP P r v).
Proof.
  intros Hu [r' w] Hs. do 2 eexists. split; [done|]. unfold tracksP in *. cbn [fst snd] in *.
  by destruct (usleep_passes us w Hu) as [-> _].
Qed.

(** A change of the object that does not look at the fault flag. *)
Lemma t_set P r v f :
  (forall b x, f (with_fault b x) = with_fault b (f x)) ->
  triple (tracksP P r v) (set_this f) (fun _ => tracksP P (f r) v).
Proof.
  intros Hf [r' w] [Hl Hs]. do 2 eexists. split; [done|]. split; [done|]. cbn [fst snd] in *.
  destruct Hs as [(-> & <- & HP)|[-> Hn]]; [by left|right]. by rewrite Hf.
Qed.

Lemma t_this P r v :
  triple (tracksP P r v) this
    (fun a s => (exists b, a = with_fault b r) /\ (a = s.1 /\ tracksP P r v s)).
Proof.
  intros [r' w] Hs. do 2 eexists. split; [done|]. split; [|done].
  destruct Hs as [_ [(E & _ & _)|[E _]]]; cbn in E; subst.
  - exists (fault_ r). by destruct r.
  - by exists true.
Qed.
End Driver.

(** One operation: its triple, then the continuation. *)
Ltac t_op :=
  first [ apply t_verify; [reflexivity|try done|done] | apply t_pause; done
        | apply t_write_flags | apply t_set; done | apply t_this ].
Ltac t_step := eapply triple_bind; [t_op|cbn beta; intro].

Section Methods.
Context {W : Type} `{HS : SPI W} `{HK : Clock W} {HC : LinuxChip W}.

(** ** Standby *)
Definition stood (r : linux_radio) (v : view) : view :=
  if fault_ r then v else chip_writes SX1276REG_OpMode 0x81 v.

Lemma t_Standby r v :
  triple (tracksP True r v) Standby
    (fun _ s => exists c, tracksP True (with_setup c r) (stood r v) s).
Proof.
  unfold Standby. eapply triple_bind; [apply t_spi_read; done|]. intros [ok x]; cbn beta iota.
  eapply triple_pre; [|intros s0 (_ & _ & Hq); exact Hq].
  apply (triple_bind _ _ (fun a s => a = s.1 /\ tracksP True r v s)).
  { intros s Hs. destruct (t_this True r v s Hs) as (a1 & s' & E & _ & Hq). eauto. }
  intros a1. eapply (triple_bind _ _ (fun _ s => exists c, tracksP True (with_setup c r) (stood r v) s)).
  2: { intros _ s (c & Hs). destruct (t_this True _ _ s Hs) as (a2 & s1 & E & _ & _ & Hs1).
       rewrite ST_bind_eq, E. do 2 eexists. split; [done|]. by exists c. }
  assert (triple (tracksP True r v) EnterStandby
            (fun _ => tracksP True (with_setup false r) (chip_writes SX1276REG_OpMode 0x81 v))) as Hen.
  { unfold EnterStandby. t_step. t_step. by apply t_pause. }
  intros s (-> & Hs). destruct (fault_ s.1) eqn:Ef; cbn [negb when].
  - do 2 eexists. split; [done|]. exists (continuousSetup_ r). 
    assert (with_setup (continuousSetup_ r) r = r) as -> by by destruct r.
    unfold stood. destruct Hs as [Hl [(E & Hv & _)|Hlost]].
    + rewrite <- E, Ef. split; [done|]. left. done.
    + split; [|by right]. rewrite Hl. destruct (fault_ r); [done|]. by rewrite chip_writes_silent.
  - destruct (Hen s Hs) as (u & s' & E & Hs'). exists u, s'. split; [done|]. exists false. unfold stood.
    destruct Hs as [_ [(<- & _)|[E' _]]]; [by rewrite Ef|]. rewrite E' in Ef. done.
Qed.

(** ** Filling the FIFO *)
Lemma t_cell P r v x old :
  fits 8 old ->
  triple (tracksP P r v)
    (spi_write SX1276REG_Fifo x;; pause 100;; ReadRegisterHarder SX1276REG_FifoAddrPtr old 3)
    (fun o s => fits 8 o.2
       /\ (tracksP (P /\ o.2 = u8 (ptr v + 1)) r (push x v) s
           \/ (P /\ ~ reliable /\ s.1 = r /\ aired (sees s.2) = aired v /\ o.2 = u8 (ptr v)))).
Proof.
  intros Ho s Hs.
  destruct (spi_write_runs SX1276REG_Fifo x s.1 s.2 fifo_range) as (ok & w1 & E1 & Hr1 & Hw1).
  assert (tracksP P r (push x v) (s.1, w1)
          \/ (P /\ ~ reliable /\ tracksP (P /\ s.1 = r) r v (s.1, w1))) as Hcase.
  { destruct Hs as [Hl Hs]. destruct s as [r' w]. cbn [fst snd] in *.
    assert (aired (sees w1) = aired v) as Hl1 by (by destruct ok; rewrite Hw1).
    destruct Hs as [(-> & <- & HP)|[-> Hnr]].
    - destruct ok.
      + left. split; [done|]. left. done.
      + right. split; [done|]. split; [intros HR; by specialize (Hr1 HR)|]. split; [done|]. by left.
    - left. split; [done|]. by right. }
  rewrite ST_bind_eq. destruct s as [r' w]. cbn [fst snd] in *. rewrite E1. cbv iota beta.
  assert (forall Q u, triple (tracksP Q r u) (pause 100;; ReadRegisterHarder SX1276REG_FifoAddrPtr old 3)
      (fun a s2 => fits 8 a.2 /\ tracksP (Q /\ a.2 = u8 (ptr u)) r u s2)) as Hread.
  { intros Q u. t_step. eapply triple_post; [apply t_harder; [done|done|lia]|].
    intros o s2 [Ho2 Hs2]. split; [done|]. eapply tracks_weaken; [|done].
    intros [HQ Hx]. split; [done|]. exact (Hx eq_refl). }
  destruct Hcase as [H1|(HP & Hnr & H1)]; destruct (Hread _ _ _ H1) as (a & s2 & -> & Ha & H2).
  - exists a, s2. split; [done|]. split; [done|]. left.
    cbn [ptr push] in H2. by rewrite trunc_trunc in H2.
  - exists a, s2. split; [done|]. split; [done|].
    destruct H2 as [Hl [(-> & <- & (_ & ->) & ->)|[E2 _]]]; [by right; cbn|].
    left. split; [done|]. by right.
Qed.

Lemma t_fifo_loop r v b fp old l :
  fits 8 b -> fits 8 fp -> fits 8 old -> ptr v = u8 (0x80 + b) ->
  triple (tracksP (fp = 0x80) r v) (fifo_loop b fp old l)
    (fun o s => match o with
                | Some y => fits 8 y /\ tracksP (fp = 0x80) r (push_all l v) s
                | None => s.1 = with_fault true r /\ aired (sees s.2) = aired v
                          /\ (reliable -> 127 < b + Z.of_nat (length l))
                end).
Proof.
  intros Hb Hfp. revert v b old Hb. induction l as [|x l IH]; intros v b old Hb Ho Hptr; cbn [fifo_loop].
  { apply triple_ret. intros s Hs. split; [done|].
    replace (push_all [] v) with v; [done|]. unfold push_all. destruct v. cbn in *. f_equal. word_lia. }
  intros s Hs. destruct (t_cell _ r v x old Ho s Hs) as ([ok y] & s1 & E1 & Hy & Hcase).
  cbn [fst snd] in *. revert E1. rewrite !ST_bind_eq.
  destruct (spi_write SX1276REG_Fifo x s) as [[u1 w1]|]; [|done]. rewrite !ST_bind_eq.
  destruct (pause 100 w1) as [[u2 w2]|]; [|done]. intros E1. rewrite ST_bind_eq, E1. cbv beta iota.
  destruct (Z.eqb_spec (y - fp - 1) b) as [Hyb|Hyb]; cbn [negb].
  - destruct Hcase as [H1|(-> & _ & _ & _ & ->)].
    2: { rewrite Hptr, trunc_trunc in Hyb by lia. exfalso. word_lia. }
    assert (tracksP (fp = 0x80) r (push x v) s1) as H1'
      by (eapply tracks_weaken; [|exact H1]; by intros [? _]).
    destruct (IH (push x v) (u8 (b + 1)) y (u8_ok _) Hy) with (w := s1) as (o & s2 & -> & H2); [|done|].
    { cbn. rewrite Hptr. word_lia. }
    exists o, s2. split; [done|]. destruct o as [z|].
    + destruct H2 as [Hz H2]. split; [done|].
      replace (push_all (x :: l) v) with (push_all l (push x v)); [done|].
      unfold push_all, push. cbn. f_equal. word_lia.
    + destruct H2 as (Hf & Ha & Hr). split; [done|]. split; [done|]. intros HR. specialize (Hr HR).
      destruct H1 as [_ [(_ & _ & -> & ->)|[_ ?]]]; [|done]. rewrite Hptr in Hyb. cbn [length].
      revert Hr Hyb Hb. clear. intros. word_lia.
  - rewrite ST_bind_eq. unfold set_this at 1. destruct s1 as [r1 w3].
    exists None, (with_fault true r1, w3). split; [done|]. cbn [fst snd length] in *.
    split; [by destruct Hcase as [[_ [(Er & _)|[Er _]]]|(_ & _ & Er & _)]; cbn in Er; subst r1|].
    split; [by destruct Hcase as [[? _]|(_ & _ & _ & ? & _)]|]. intros HR.
    destruct Hcase as [[_ [(_ & _ & -> & ->)|[_ ?]]]|(_ & ? & _)]; [|done|done].
    rewrite Hptr in Hyb. revert Hyb Hb. clear. intros. word_lia.
Qed.

(** ** Waiting for TX DONE *)

(** The iterations the wait can take. *)
Definition ticks_until (t1 t : Z) (fuel : nat) : Prop :=
  (0 < fuel)%nat /\ t1 - t < 1000 * Z.of_nat fuel.

Lemma tx_loop_ends fuel t1 old s :
  fits 8 old -> rx (sees s.2) = None -> ticks_until t1 (time s.2) fuel ->
  exists done s', tx_loop fuel t1 old s = Some (done, s')
    /\ aired (sees s'.2) = aired (sees s.2)
    /\ (s'.1 = s.1 \/ s'.1 = with_fault true s.1)
    /\ (done = true -> s'.1 = s.1)
    /\ (reliable -> s'.1 = s.1 /\ done = Z.testbit (flags_read (sees s'.2)) 3).
Proof.
  revert old s. induction fuel as [|fuel IH]; intros old [r w] Ho Hrx [Hf Ht]; [lia|].
  cbn [tx_loop fst snd] in *.
  destruct (harder_runs 4 SX1276REG_IrqFlags old r w flags_range Ho) as (ok & x & w1 & E & Hx & Ht1 & Hr & Hw).
  rewrite ST_bind_eq, E. cbv beta iota. destruct ok; cbn [negb].
  2: { do 2 eexists. split; [done|]. cbn [fst snd]. rewrite Hw. split; [done|]. split; [by right|]. split; [done|].
       intros HR. by specialize (Hr HR ltac:(lia)). }
  unfold chip_reads in Hw. change (SX1276REG_IrqFlags =? SX1276REG_Fifo) with false in Hw.
  rewrite Z.eqb_refl, Hrx in Hw. cbv iota in Hw.
  assert (aired (sees w1) = aired (sees w) /\ rx (sees w1) = None
          /\ flags_read (sees w1) = x) as (Ha1 & Hrx1 & Hf1)
    by (rewrite Hw; by destruct (Z.testbit x 3)).
  rewrite flag_set by lia. destruct (Z.testbit x 3) eqn:E3.
  { do 2 eexists. split; [done|]. cbn [fst snd]. split; [done|]. split; [by left|]. split; [done|].
    intros _. by rewrite Hf1. }
  rewrite ST_bind_eq. unfold pause at 1. cbv beta iota. rewrite ST_bind_eq. unfold time_now at 1.
  destruct (usleep_passes 1000 w1 ltac:(lia)) as [Hp Hpt].
  pose proof (now_shows (usleep 1000 w1)) as Hn.
  destruct (now (usleep 1000 w1)) as [t w2]. destruct Hn as (-> & Hs2 & Ht2). cbv beta iota.
  assert (sees w2 = sees w1) as E2 by congruence.
  destruct (Z.ltb_spec (time (usleep 1000 w1)) t1) as [Hlt|Hge].
  - destruct (IH x (r, w2)) as (b & s' & -> & Hb); [done|cbn [snd]; by rewrite E2| |].
    { unfold ticks_until. cbn. split; lia. }
    exists b, s'. cbn [fst snd] in *. rewrite E2, Ha1 in Hb. done.
  - do 2 eexists. split; [done|]. cbn [fst snd]. rewrite E2. split; [done|]. split; [by left|].
    split; [done|]. intros _. by rewrite Hf1, E3.
Qed.

Lemma frame_of_set_reg a x v :
  a <> SX1276REG_FifoTxBaseAddr -> a <> SX1276REG_PayloadLength ->
  frame_of (set_reg a x v) = frame_of v.
Proof. intros H1 H2. unfold frame_of. cbn [regs fifo set_reg]. by rewrite !lookup_total_insert_ne. Qed.

Lemma chip_writes_tx v :
  chip_writes SX1276REG_OpMode 0x83 v = v
  \/ chip_writes SX1276REG_OpMode 0x83 v = air (set_reg SX1276REG_OpMode 0x83 v).
Proof. unfold chip_writes. cbn. case_bool_decide; [by left|by right]. Qed.

Lemma chip_writes_tx_new v :
  regs v !! SX1276REG_OpMode <> Some 0x83 ->
  chip_writes SX1276REG_OpMode 0x83 v = air (set_reg SX1276REG_OpMode 0x83 v).
Proof. intros Hn. unfold chip_writes. cbn. by rewrite bool_decide_false. Qed.

(** What a transmission of the frame [f] by the radio [r] has put on the air,
    when it returns [done]. *)
Definition sent (r : linux_radio) (l : list (list Z)) (f : list Z) (done : bool) (s : linux_radio * W) : Prop :=
  (if done then fault_ s.1 = false /\ aired (sees s.2) = l ++ [f]
   else aired (sees s.2) = l \/ exists g, aired (sees s.2) = l ++ [g])
  /\ (reliable -> fault_ r = false ->
      aired (sees s.2) = l ++ [f] /\ done = Z.testbit (flags_read (sees s.2)) 3 /\ fault_ s.1 = false)
  /\ exists b, s.1 = with_fault b r.

Lemma t_start_tx r v fuel y :
  fits 8 y -> (1000 < fuel)%nat ->
  (fault_ r = false -> regs v !! SX1276REG_OpMode <> Some 0x83) ->
  triple (tracksP True r v) (start_tx fuel y) (sent r (aired v) (frame_of v)).
Proof.
  intros Hy Hfu Hm. unfold start_tx. t_step. t_step.
  assert (aired (set_reg SX1276REG_IrqFlagsMask 0xf7 v) = aired v) as Ea by done.
  change (chip_writes SX1276REG_IrqFlagsMask 0xf7 v) with (set_reg SX1276REG_IrqFlagsMask 0xf7 v).
  set (u := set_reg SX1276REG_IrqFlagsMask 0xf7 v) in *.
  assert (frame_of (set_reg SX1276REG_OpMode 0x83 u) = frame_of v) as Ef
    by (unfold u; by rewrite !frame_of_set_reg).
  assert (fault_ r = false -> regs u !! SX1276REG_OpMode <> Some 0x83) as Hmu
    by (intros Hr; unfold u; rewrite regs_set_reg, lookup_insert_ne by done; by apply Hm).
  clearbody u. intros [r' w] [Hl Hs]. cbn [fst snd] in *.
  rewrite ST_bind_eq. unfold WriteRegisterVerify.
  destruct (verify_runs 2 SX1276REG_OpMode 0x83 r' w DEFAULT_INTRA_DELAY_US) as (ok & w1 & -> & Hr & Hw); [done..|].
  cbv beta iota. rewrite ST_bind_eq. unfold this at 1. cbv beta iota.
  set (r1 := if ok then r' else with_fault true r').
  assert (exists b, r1 = with_fault b r) as Hr1.
  { subst r1. destruct Hs as [(-> & _)|[-> _]]; destruct ok; try by eexists.
    exists (fault_ r). by destruct r. }
  assert (aired (sees w1) = aired v \/ exists g, aired (sees w1) = aired v ++ [g]) as Hany.
  { rewrite <- Ea, <- Hl. destruct Hw as [->|[_ ->]]; [|by left].
    destruct (chip_writes_tx (sees w)) as [->| ->]; [by left|right; by eexists]. }
  destruct (fault_ r1) eqn:Ef1.
  { destruct (spi_read_runs SX1276REG_IrqFlags y r1 w1 flags_range Hy) as (ok2 & x & w2 & E & _ & _ & _ & Hw2).
    rewrite ST_bind_eq, E. do 2 eexists. split; [done|]. cbn [fst snd].
    assert (aired (sees w2) = aired (sees w1)) as E2
      by (destruct ok2; [by eapply chip_reads_silent|by rewrite Hw2]).
    unfold sent. cbn [fst snd]. split; [by rewrite E2|]. split; [|done]. intros HR Hr0. exfalso. destruct Hs as [(-> & _)|[_ ?]]; [|done].
    subst r1. rewrite (Hr HR ltac:(lia)), Hr0 in Ef1. done. }
  assert (ok = true /\ r1 = r /\ fault_ r = false /\ sees w1 = air (set_reg SX1276REG_OpMode 0x83 u))
    as (-> & Er1 & Hr0 & Hw1).
  { destruct ok; [|done]. destruct Hs as [(-> & <- & _)|[-> _]]; [|done]. subst r1.
    split; [done|]. split; [done|]. split; [done|].
    destruct Hw as [->|[? _]]; [|done]. apply chip_writes_tx_new. by apply Hmu. }
  rewrite ST_bind_eq. unfold time_now. pose proof (now_shows w1) as Hn.
  destruct (now w1) as [t w2]. destruct Hn as (-> & Hs2 & Ht2). cbv beta iota.
  destruct (tx_loop_ends fuel (time w1 + 1000 * 1000) y (r1, w2)) as (b & s' & E & Hb & Hc & Hd & HR).
  { done. } { cbn. by rewrite Hs2, Hw1. } { unfold ticks_until. cbn. lia. }
  rewrite ST_bind_eq, E. exists b, s'. split; [done|]. cbn [fst snd] in *.
  assert (aired (sees s'.2) = aired v ++ [frame_of v]) as Hair.
  { rewrite Hb, Hs2, Hw1. cbn [aired air set_reg]. by rewrite Ea, Ef. }
  split.
  - destruct b; [|right; by eexists]. by rewrite (Hd eq_refl), Er1.
  - split; [intros Hrel _; destruct (HR Hrel) as [-> ?]; by rewrite Er1|].
    destruct Hr1 as [b1 Hr1]. destruct Hc as [->| ->]; rewrite Hr1; by eexists.
Qed.

(** ** Sending *)
Lemma frame_push_all l v :
  fits 8 (ptr v) -> (length l <= 256)%nat ->
  regs v !!! SX1276REG_FifoTxBaseAddr = ptr v ->
  regs v !!! SX1276REG_PayloadLength = Z.of_nat (length l) ->
  frame_of (push_all l v) = l.
Proof.
  intros Hp Hl H1 H2. unfold frame_of, push_all. cbn [regs fifo]. rewrite H1, H2, Nat2Z.id.
  fold (cells (fill (ptr v) l (fifo v)) (ptr v) (length l)).
  rewrite cells_fill by (done || lia). by apply take_ge.
Qed.

(** The chip with its FIFO ready for [n] bytes. *)
Definition readied (r : linux_radio) (n : Z) (v : view) : view :=
  set_reg SX1276REG_PayloadLength (u8 n)
    (set_reg SX1276REG_MaxPayloadLength (max_tx_payload_bytes_ r)
      (set_ptr 0x80
        (set_reg SX1276REG_FifoTxBaseAddr 0x80
          (set_reg SX1276REG_PreambleLSB (u8 (preamble_ r)) (stood r v))))).

Definition tx_possible (r : linux_radio) (payload : list Z) : Prop :=
  fits 8 (max_tx_payload_bytes_ r) /\ Z.of_nat (length payload) <= 127.

(** What a call of [SendSimpleMessage] has done when it returns [done]. *)
Definition send_outcome (r : linux_radio) (v : view) (payload : list Z) (done : bool)
    (s : linux_radio * W) : Prop :=
  (if done
   then fault_ s.1 = false /\ Z.of_nat (length payload) <= 127 /\ aired (sees s.2) = aired v ++ [payload]
   else aired (sees s.2) = aired v \/ exists g, aired (sees s.2) = aired v ++ [g])
  /\ (127 < Z.of_nat (length payload) -> done = false /\ fault_ s.1 = true /\ aired (sees s.2) = aired v)
  /\ (reliable -> fault_ r = false -> Z.of_nat (length payload) <= 127 ->
      aired (sees s.2) = aired v ++ [payload] /\ done = Z.testbit (flags_read (sees s.2)) 3
      /\ fault_ s.1 = false)
  /\ exists b c, s.1 = with_fault b (with_setup c r).

Lemma aired_stood r v : aired (stood r v) = aired v.
Proof. unfold stood. destruct (fault_ r); [done|]. by apply chip_writes_silent. Qed.

Lemma readied_frame r v l :
  Z.of_nat (length l) <= 127 ->
  let u := push_all l (readied r (Z.of_nat (length l)) v) in
  frame_of u = l /\ ptr u = 0x80 + Z.of_nat (length l)
  /\ (fault_ r = false -> regs u !! SX1276REG_OpMode <> Some 0x83).
Proof.
  intros Hl u. split; [|split].
  - apply frame_push_all; [by apply (bool_decide_unpack (fits 8 0x80))|lia|..];
      unfold readied; cbn; repeat first
      [rewrite lookup_total_insert_eq | rewrite lookup_total_insert_ne by done]; [done|word_lia].
  - unfold u, push_all, readied. cbn. word_lia.
  - intros Hr. unfold u, push_all, readied. cbn [regs set_reg set_ptr].
    rewrite !lookup_insert_ne by done. unfold stood. rewrite Hr, chip_writes_mode. congruence.
Qed.

Lemma t_send junk fuel r v payload :
  fits 8 junk -> (1000 < fuel)%nat -> fits 8 (max_tx_payload_bytes_ r) ->
  triple (tracksP True r v) (SendSimpleMessage junk fuel payload) (send_outcome r v payload).
Proof.
  intros Hj Hfu Hmax. unfold SendSimpleMessage. set (n := Z.of_nat (length payload)).
  t_step. eapply triple_bind; [by apply t_Standby|]. intros ?; cbn beta. apply triple_ex. intros c.
  set (r0 := with_setup c (with_setup false r)).
  change (stood (with_setup false r) v) with (stood r0 v).
  eapply triple_bind; [apply t_this|]. intros ra; cbn beta. apply triple_known. intros [b ->].
  eapply triple_pre; [|intros s0 [_ H0]; exact H0].
  cbn [preamble_ max_tx_payload_bytes_ with_fault].
  t_step; [apply u8_ok|]. do 2 t_step. t_step. t_step; [apply u8_ok|]. t_step.
  eapply triple_bind; [apply t_harder; [done|done|lia]|]. intros [ok fp]; cbn beta iota.
  cbn [snd]. apply triple_known. intros Hfp.
  match goal with |- triple (tracksP _ _ ?u) _ _ => set (v1 := u) in * end.
  assert (v1 = readied r0 n v) as Ev by done.
  assert (ptr v1 = 0x80 /\ aired v1 = aired v) as [Hp1 Ha1]
    by (split; [done|rewrite Ev; apply (aired_stood r0)]).
  eapply triple_pre; [|intros s0 H0; eapply tracks_weaken; [|exact H0]; intros [_ Hx]; by apply Hx].
  change (shown _ _) with 0x80.
  eapply triple_bind; [apply t_fifo_loop; try done; by rewrite Hp1|]. intros [y|]; cbn beta iota.
  2: { apply triple_ret. intros s (Hf & Ha & Hr). rewrite Ha1 in Ha. unfold send_outcome. rewrite Hf.
       split; [by left|]. split; [done|]. split; [|by exists true, c].
       intros HR _. fold n. specialize (Hr HR). fold n in Hr. lia. }
  apply triple_known. intros Hy.
  eapply triple_bind; [apply t_harder; [done|done|lia]|]. intros [ok2 z]; cbn beta iota.
  cbn [snd]. apply triple_known. intros Hz.
  destruct (Z.eqb_spec z (0x80 + n)) as [Hzn|Hzn]; cbn [negb].
  - assert (n <= 127) as Hn by (revert Hzn Hz; clear; intros; word_lia).
    destruct (readied_frame r0 v payload Hn) as (Hfr & _ & Hmode). fold n in Hfr, Hmode.
    rewrite <- Ev in Hfr, Hmode.
    eapply triple_post; [eapply triple_pre; [apply (t_start_tx r0 (push_all payload v1)); try done|]|].
    + intros s0 H0. by eapply tracks_weaken; [|exact H0].
    + intros d s (Hd & Hrel & b1 & Hb1). rewrite Hfr in *. cbn [aired push_all] in *. rewrite Ha1 in *.
      split; [by destruct d; intuition|]. split; [lia|]. split; [|by exists b1, c].
      intros HR Hr _. by apply Hrel.
  - intros [r2 w] [Hl Hs]. rewrite ST_bind_eq. unfold set_this at 1.
    do 2 eexists. split; [done|]. unfold send_outcome. cbn [fst snd fault_ with_fault] in *.
    change (aired (push_all payload v1)) with (aired v1) in Hl. rewrite Ha1 in Hl.
    split; [by left|]. split; [done|]. fold n.
    split; [|exists true, c; by destruct Hs as [(-> & _)|[-> _]]]. intros HR _ Hn. exfalso.
    destruct (readied_frame r0 v payload Hn) as (_ & Hptr & _). fold n in Hptr. rewrite <- Ev in Hptr.
    destruct Hs as [(_ & _ & _ & Hx)|[_ ?]]; [|done]. specialize (Hx eq_refl).
    apply Hzn. rewrite Hx. change (u8 (ptr (push_all payload v1)) = 0x80 + n). rewrite Hptr.
    apply trunc_small. revert Hn. subst n. clear. intros. word_lia.
Qed.
End Methods.

(** * Receiving over a reliable bus *)
Section Receive.
Context {W : Type} `{HS : SPI W} `{HK : Clock W} {HC : LinuxChip W}.
Hypothesis bus_works : reliable.

Lemma tracks_exact P r v (s : linux_radio * W) :
  tracksP P r v s <-> s.1 = r /\ sees s.2 = v /\ P.
Proof.
  split.
  - by intros [_ [?|[_ ?]]].
  - intros (<- & <- & HP). split; [done|]. by left.
Qed.

(** The iterations of the polling loop, whose limit a header moves once. *)
Definition polls_until (timeout_ms t1 t : Z) (have_header : bool) (fuel : nat) : Prop :=
  (0 < fuel)%nat
  /\ t1 + (if have_header then 0 else 1000 * timeout_ms) - t < 100 * (Z.of_nat fuel - 1).

(** How the loop can end when the reception ends with [e]. *)
Definition ends_as (e : event) (v : view) (o : rx_end) (v' : view) : Prop :=
  match o with
  | Rx_done flags =>
      is_packet e = true /\ v' = saw flags (set_reg SX1276REG_OpMode 0x81 (deliver e v))
  | Rx_timeout =>
      is_packet e = false /\ exists flags, v' = saw flags (set_reg SX1276REG_OpMode 0x81 (deliver e v))
  | User_timeout => aired v' = aired v /\ arrivals v' = arrivals v
  | Rx_fault => False
  end.

Lemma rx_loop_ends fuel ms t1 old hh s n e :
  fits 8 old -> 0 <= ms -> rx (sees s.2) = Some (n, e) -> polls_until ms t1 (time s.2) hh fuel ->
  exists o s', rx_loop fuel ms t1 old hh s = Some (o, s') /\ s'.1 = s.1
    /\ ends_as e (sees s.2) o (sees s'.2) /\ (n = O -> o <> User_timeout)
    /\ (o = User_timeout -> t1 <= time s'.2).
Proof.
  revert t1 old hh s n. induction fuel as [|fuel IH]; intros t1 old hh [r w] n Ho Hms Hrx [Hf Ht]; [lia|].
  cbn [rx_loop fst snd] in *.
  destruct (harder_runs 3 SX1276REG_IrqFlags old r w flags_range Ho) as (ok & x & w1 & E & Hx & Ht1 & Hr & Hw).
  rewrite ST_bind_eq, E. cbv beta iota. rewrite (Hr bus_works) in * by lia. cbn [negb].
  unfold chip_reads in Hw. change (SX1276REG_IrqFlags =? SX1276REG_Fifo) with false in Hw.
  rewrite Z.eqb_refl, Hrx in Hw. cbv iota in Hw. rewrite !flag_set by lia.
  set (hd := Z.testbit x 4 && negb hh).
  destruct n as [|n].
  - destruct Hw as [Hfl Hw]. destruct e as [|p c]; destruct Hfl as [H6 H7].
    + rewrite H6, H7. do 2 eexists. split; [done|]. split; [done|]. split; [|done]. split; [done|]. by eexists.
    + rewrite H6. do 2 eexists. split; [done|]. split; [done|]. split; [|done]. split; [done|]. exact Hw.
  - destruct Hw as (H6 & H7 & Hw). rewrite H6, H7. rewrite ST_bind_eq. unfold time_now at 1.
    pose proof (now_shows w1) as Hn. destruct (now w1) as [t w2]. destruct Hn as (-> & Hs2 & Ht2).
    cbv beta iota. rewrite ST_bind_eq. unfold pause at 1. cbv beta iota.
    destruct (usleep_passes 100 w2 ltac:(lia)) as [Hp Hpt].
    assert (sees (usleep 100 w2) = saw x (set_rx (Some (n, e)) (arrivals (sees w)) (sees w))) as E2
      by congruence.
    destruct (Z.ltb_spec (time w1) (if hd then t1 + 1000 * ms else t1)) as [Hlt|Hge].
    + destruct (IH (if hd then t1 + 1000 * ms else t1) x (hh || hd) (r, usleep 100 w2) n) as (o & s' & -> & Hs & He & _ & Hto);
        [done|done|cbn [snd]; by rewrite E2| |].
      { unfold polls_until. cbn [snd]. subst hd. destruct hh, (Z.testbit x 4); cbn [andb negb orb] in *; lia. }
      exists o, s'. split; [done|]. split; [done|]. split.
      { cbn [snd] in He. rewrite E2 in He. destruct o; cbn [ends_as] in *; try done; by destruct e. }
      split; [done|]. intros Ho'. specialize (Hto Ho'). destruct hd; lia.
    + do 2 eexists. split; [done|]. split; [done|]. cbn [snd]. rewrite E2. split; [done|]. split; [done|].
      intros _. destruct hd; lia.
Qed.

(** The chip set up for a reception. *)
Definition rx_ready (r : linux_radio) (v : view) : view :=
  set_reg SX1276REG_IrqFlagsMask 0x0f
    (set_ptr RX_BASE_ADDR
      (set_reg SX1276REG_FifoRxBaseAddr RX_BASE_ADDR
        (set_reg SX1276REG_PayloadLength (max_rx_payload_bytes_ r)
          (set_reg SX1276REG_MaxPayloadLength (max_rx_payload_bytes_ r)
            (set_reg SX1276REG_FifoTxBaseAddr 0x80 (chip_writes SX1276REG_OpMode 0x81 v)))))).

Lemma t_rx_setup r v :
  fits 8 (max_rx_payload_bytes_ r) ->
  triple (tracksP True r v) rx_setup (fun _ => tracksP True r (rx_ready r v)).
Proof.
  intros Hm. unfold rx_setup. t_step. t_step. t_step.
  eapply triple_bind; [apply t_this|]. intros ra; cbn beta. apply triple_known. intros [b ->].
  eapply triple_pre; [|intros s0 [_ Hq]; exact Hq].
  cbn [max_rx_payload_bytes_ with_fault]. do 5 t_step. by apply triple_ret.
Qed.

(** Reading the payload from the FIFO. *)
Lemma t_fifo_read r v old n buf :
  fits 8 old -> fits 8 (ptr v) -> fault_ r = false ->
  triple (tracksP True r v) (fifo_read_loop n old buf)
    (fun o s => o = (true, buf ++ (u8 <$> cells (fifo v) (ptr v) n))
                /\ s.1 = r /\ sees s.2 = set_ptr (u8 (ptr v + Z.of_nat n)) v).
Proof.
  intros Ho Hp Hr. revert v old buf Ho Hp. induction n as [|n IH]; intros v old buf Ho Hp; cbn [fifo_read_loop].
  { apply triple_ret. intros s (-> & -> & _)%tracks_exact. rewrite app_nil_r. split; [done|]. split; [done|].
    destruct v. unfold set_ptr. cbn in *. f_equal. word_lia. }
  intros [r' w] (Er & Ev & _)%tracks_exact. cbn [fst snd] in Er, Ev. subst r' v.
  destruct (spi_read_runs SX1276REG_Fifo 0 r w fifo_range) as (ok & x & w1 & E & Hx & _ & Hrel & Hw).
  { by apply (bool_decide_unpack (fits 8 0)). }
  rewrite ST_bind_eq, E. cbv beta iota. rewrite (Hrel bus_works) in Hw. destruct Hw as [-> Hw].
  assert (triple (tracksP True r (sees w1))
            (pause 100;; '(_, v) ← ReadRegisterHarder SX1276REG_FifoAddrPtr old 3; r' ← this;
             if fault_ r' || negb (v =? RX_BASE_ADDR + v) then mret (false, buf)
             else fifo_read_loop n v (buf ++ [u8 (fifo (sees w) !!! ptr (sees w))]))
            (fun o s => o = (true, (buf ++ [u8 (fifo (sees w) !!! ptr (sees w))])
                                   ++ (u8 <$> cells (fifo (sees w1)) (ptr (sees w1)) n))
                /\ s.1 = r /\ sees s.2 = set_ptr (u8 (ptr (sees w1) + Z.of_nat n)) (sees w1))) as Ht.
  { t_step. eapply triple_bind; [apply t_harder; [done|done|lia]|]. intros [ok2 y]; cbn beta iota.
    cbn [snd]. apply triple_known. intros Hy. eapply triple_bind; [apply t_this|]. intros ra; cbn beta.
    eapply triple_pre; [|intros s0 (_ & Ha & Hq); exact (conj Ha Hq)].
    intros s0 [-> Hq]. pose proof (proj1 (tracks_exact _ _ _ _) Hq) as (-> & _). rewrite Hr.
    change (RX_BASE_ADDR + y) with y. rewrite Z.eqb_refl. cbn [orb negb].
    apply IH; [done|rewrite Hw; apply u8_ok|]. eapply tracks_weaken; [|exact Hq]. done. }
  destruct (Ht (r, w1)) as (o & s' & -> & -> & Hs & Hv); [by apply tracks_exact|].
  do 2 eexists. split; [done|]. split; [|split; [done|]].
  - rewrite cells_S by done. rewrite fmap_cons, <- app_assoc. rewrite Hw. done.
  - rewrite Hv, Hw. unfold set_ptr. cbn. f_equal. word_lia.
Qed.

Lemma t_read_info r v old stat :
  fits 8 old -> fits 8 stat ->
  triple (tracksP True r v) (read_packet_info old stat)
    (fun o s => fits 8 o.2 /\ tracksP (o.1 = shown SX1276REG_FifoRxNbBytes v) r v s).
Proof.
  intros Ho Hst. unfold read_packet_info.
  do 2 (eapply triple_bind; [apply t_harder; [done|done|lia]|]; intros [? ?]; cbn beta iota; cbn [snd];
    apply triple_known; intros ?).
  eapply triple_bind; [apply t_harder; [done|done|lia]|]. intros ?; cbn beta. apply triple_known. intros _.
  eapply triple_bind; [apply t_harder; [done|by apply (bool_decide_unpack (fits 8 0xff))|lia]|].
  intros [ok nb]; cbn beta iota; cbn [snd]. apply triple_known. intros Hnb.
  eapply triple_pre; [|intros s0 Hq; eapply (tracks_weaken _ (nb = shown SX1276REG_FifoRxNbBytes v)); [|exact Hq];
    intros [_ Hx]; by apply Hx].
  do 4 (eapply triple_bind; [apply t_harder; [done|done|lia]|]; intros [? ?]; cbn beta iota; cbn [snd];
    apply triple_known; intros ?).
  eapply triple_bind; [apply t_harder; [done|by apply (bool_decide_unpack (fits 8 0))|lia]|].
  intros ?; cbn beta. apply triple_known. intros _.
  apply triple_ret. intros s Hs. split; [done|]. eapply tracks_weaken; [|exact Hs]. cbn [fst]. intuition.
Qed.

(** The report of a reception that the chip ended with [e]. *)
Definition linux_report (e : event) (size : Z) (crc_error : bool) : rx_report :=
  match e with
  | Quiet => Report true 0 true crc_error []
  | Packet p _ =>
      if size <? Z.of_nat (length p) then Report false 0 false crc_error []
      else Report true (Z.of_nat (length p)) false crc_error p
  end.

Definition sane (e : event) : Prop :=
  match e with Quiet => True | Packet p _ => bytes_ok p /\ (length p <= 255)%nat end.

Lemma t_finish r v v' size timeout crc junk e o :
  fits 8 junk -> fault_ r = false -> sane e -> ends_as e v o v' ->
  ptr v = 0 -> regs v !!! SX1276REG_FifoRxBaseAddr = 0 ->
  triple (tracksP True r v') (finish_rx size timeout crc junk o)
    (fun rep s => (rep = linux_report e size crc \/ o = User_timeout /\ rep = Report true 0 timeout crc [])
       /\ (exists y, s.1 = with_rssi y r) /\ aired (sees s.2) = aired v' /\ arrivals (sees s.2) = arrivals v').
Proof.
  intros Hj Hr He Hend Hp Hb. unfold finish_rx.
  eapply triple_bind; [apply t_harder; [done|by apply (bool_decide_unpack (fits 8 0))|lia]|].
  intros [ok stat]; cbn beta iota; cbn [snd]. apply triple_known. intros Hst.
  eapply triple_pre; [|intros s0 Hq; exact (tracks_weaken _ True _ _ _ (fun _ => I) Hq)].
  t_step. eapply triple_bind; [apply t_harder; [done|done|lia]|].
  intros [ok2 x]; cbn beta iota; cbn [snd]. apply triple_known. intros Hx.
  eapply triple_pre; [|intros s0 Hq; exact (tracks_weaken _ True _ _ _ (fun _ => I) Hq)].
  eapply (triple_bind _ _ (fun _ s => exists y, tracksP True (with_rssi y r) v' s)).
  { destruct ok2; cbn [when].
    - eapply triple_post; [by apply t_set|]. intros ? s0 Hq. by exists (-137 + x).
    - apply triple_ret. intros s0 Hq. by exists 255. }
  intros _. apply triple_ex. intros y.
  assert (fault_ (with_rssi y r) = false) as Hry by done.
  assert (exists y', with_rssi y r = with_rssi y' r) as Hey by (by exists y).
  set (ry := with_rssi y r) in *. clearbody ry.
  destruct o as [flags| | |]; cbn [ends_as] in Hend.
  - destruct Hend as [Hpk Hv]. destruct e as [|p c]; [done|]. destruct He as [Hpb Hpl].
    eapply triple_bind; [by apply t_read_info|]. intros [nb z]; cbn beta iota; cbn [fst snd].
    apply triple_known. intros Hz.
    eapply triple_pre; [apply (triple_known (nb = shown SX1276REG_FifoRxNbBytes v') (tracksP True ry v'))|].
    2: { intros s0 (E1 & E2 & E3)%tracks_exact. split; [done|]. by apply tracks_exact. }
    intros ->. assert (shown SX1276REG_FifoRxNbBytes v' = Z.of_nat (length p)) as ->.
    { rewrite Hv. unfold shown, saw, set_reg. cbn. rewrite lookup_total_insert_ne by done.
      rewrite lookup_total_insert_eq. apply trunc_small. word_lia. }
    eapply triple_bind; [apply t_this|]. intros ra; cbn beta.
    eapply triple_pre; [|intros s0 (_ & Ha & Hq); exact (conj Ha Hq)].
    intros s0 [-> Hq]. pose proof (proj1 (tracks_exact _ _ _ _) Hq) as (-> & Hs0 & _). rewrite Hry.
    assert ((Z.land flags (Z.shiftl 1 5) =? 1) = false) as ->.
    { change (Z.shiftl 1 5) with (Z.shiftl (Z.ones 1) 5). rewrite land_field by lia. word_lia. }
    unfold linux_report. destruct (size <? Z.of_nat (length p)).
    { do 2 eexists. split; [done|]. split; [by left|]. rewrite Hs0.
      apply tracks_exact in Hq as (-> & _). done. }
    assert (fits 8 (ptr v')) as Hpv by (rewrite Hv; cbn; rewrite Hp; by apply (bool_decide_unpack (fits 8 0))).
    destruct (t_fifo_read ry v' z (Z.to_nat (Z.of_nat (length p))) [] Hz Hpv Hry s0 Hq) as (o & s' & E & -> & E1 & E2).
    rewrite ST_bind_eq, E. cbv beta iota. do 2 eexists. split; [done|]. split; [|by rewrite E1, E2].
    left. f_equal. rewrite Nat2Z.id. cbn [app].
    replace (cells (fifo v') (ptr v') (length p)) with p.
    { clear -Hpb. induction Hpb as [|b l Hb _ IH]; [done|]. rewrite fmap_cons, IH. f_equal. by apply trunc_small. }
    rewrite Hv. cbn. rewrite Hp, Hb. rewrite cells_fill; [by rewrite take_ge| |lia].
    by apply (bool_decide_unpack (fits 8 0)).
  - destruct Hend as [Hpk [flags Hv]]. destruct e; [|done].
    apply triple_ret. intros s0 (-> & -> & _)%tracks_exact. split; [by left|]. done.
  - apply triple_ret. intros s0 (-> & -> & _)%tracks_exact. split; [by right|]. done.
  - done.
Qed.
End Receive.

(** * Configuration, over any bus *)
Section Configure.
Context {W : Type} `{HS : SPI W} `{HK : Clock W} {HC : LinuxChip W}.

(** Bandwidth, coding rate, spreading factor and symbol timeout of the chip. *)
Definition settings (v : view) : option Z * Z * Z * Z := (programmed v).1.

Lemma tracks_end r v (s : linux_radio * W) :
  tracksP True r v s ->
  aired (sees s.2) = aired v /\ (fault_ s.1 = false -> s.1 = r /\ sees s.2 = v)
  /\ (reliable -> fault_ r = false -> fault_ s.1 = false).
Proof.
  intros [Ha Hs]. split; [done|]. destruct Hs as [(-> & -> & _)|[-> Hn]]; [done|]. by split.
Qed.

Lemma t_program r v :
  0 <= symbolTimeout_ r < 1024 ->
  triple (tracksP True r v) program
    (fun ok s => aired (sees s.2) = aired v
       /\ (ok = true -> fault_ s.1 = false /\ settings (sees s.2) = (Some 125000, 6, 9, symbolTimeout_ r))
       /\ (reliable -> fault_ r = false -> ok = true)).
Proof.
  intros Ht. unfold program. eapply triple_bind; [apply t_this|]. intros ra; cbn beta.
  apply triple_known. intros [b ->]. eapply triple_pre; [|intros s0 [_ Hq]; exact Hq].
  cbn [symbolTimeout_ high_power_mode_ with_fault].
  assert (fits 8 (Z.land (symbolTimeout_ r) 0xff)) as Hlsb
    by (change 0xff with (Z.ones 8); rewrite Z.land_ones by lia; apply u8_ok).
  change (Z.lor (Z.lor (Z.shiftl 0x7 4) (Z.shiftl 0x02 1)) 0x0) with (mc1_of 125000 6).
  fold (mc2_of 9 (symbolTimeout_ r)).
  do 3 (t_step; try apply u8_ok; try exact Hlsb).
  eapply (triple_bind _ _ (fun _ => tracksP True r
    (set_reg SX1276REG_PaDac (if high_power_mode_ r then 0x87 else 0x84)
      (set_reg SX1276REG_PaConfig (if high_power_mode_ r then 0xff else 0x7f)
        (set_reg SX1276REG_SymbTimeoutLsb (Z.land (symbolTimeout_ r) 0xff)
          (set_reg SX1276REG_ModemConfig2 (mc2_of 9 (symbolTimeout_ r))
            (set_reg SX1276REG_ModemConfig1 (mc1_of 125000 6) v))))))).
  { destruct (high_power_mode_ r); t_step; by apply t_verify. }
  intros ?; cbn beta. eapply triple_bind; [by apply t_spi_read|]. intros [okd d]; cbn beta iota; cbn [snd].
  eapply triple_pre; [|intros s0 (_ & _ & Hq); exact Hq].
  t_step; [apply u8_ok|]. t_step. eapply triple_bind; [apply t_this|]. intros rb; cbn beta.
  eapply triple_pre; [|intros s0 (_ & Ha & Hq); exact (conj Ha Hq)].
  apply triple_ret. intros s [-> (Ha & Hok & Hrel)%tracks_end]. split; [exact Ha|].
  split; [|by intros HR Hr; rewrite (Hrel HR Hr)].
  intros Hf%negb_true_iff. split; [done|]. destruct (Hok Hf) as [_ ->].
  rewrite chip_writes_held by first [by apply (bool_decide_unpack _)|done].
  unfold settings, programmed. cbn [regs set_reg fst].
  repeat first [rewrite lookup_total_insert_eq | rewrite lookup_total_insert_ne by done].
  destruct (mc1_decodes 125000 6) as [-> ->]; [by apply (bool_decide_unpack _)|lia|].
  by destruct (mc2_decodes 9 (symbolTimeout_ r)) as [-> ->].
Qed.

Lemma t_Sleep r v :
  triple (tracksP True r v) Sleep
    (fun _ s => exists c v', aired v' = aired v /\ tracksP True (with_setup c r) v' s).
Proof.
  unfold Sleep. eapply triple_bind; [apply t_spi_read; done|]. intros [ok x]; cbn beta iota.
  eapply triple_pre; [|intros s0 (_ & _ & Hq); exact Hq].
  eapply triple_bind; [apply t_this|]. intros ra; cbn beta. apply triple_known. intros [b ->].
  eapply triple_pre; [|intros s0 [_ Hq]; exact Hq].
  eapply (triple_bind _ _ (fun _ s => exists c v', aired v' = aired v /\ tracksP True (with_setup c r) v' s)).
  { destruct (fault_ _); cbn [negb when].
    - apply triple_ret. intros s Hs. exists (continuousSetup_ r), v. split; [done|]. by destruct r.
    - unfold EnterSleep. t_step. t_step. eapply triple_post; [by apply t_pause|].
      intros ? s Hs. do 2 eexists. split; [|exact Hs]. by apply chip_writes_silent. }
  intros _ s (c & v' & Ha & Hs). destruct (t_this True _ v' s Hs) as (a1 & s1 & E & _ & _ & Hs1).
  rewrite ST_bind_eq, E. do 2 eexists. split; [done|]. by exists c, v'.
Qed.

(** Reading the carrier frequency back. *)
Lemma t_ReadCarrier r v junk :
  fits 8 junk ->
  triple (tracksP True r v) (ReadCarrier junk)
    (fun _ s => exists f, tracksP
       (f = u32 (Z.shiftr (32000000 * Z.lor (Z.lor (Z.shiftl (shown SX1276REG_FrfMsb v) 16)
                    (Z.shiftl (shown SX1276REG_FrfMid v) 8)) (shown SX1276REG_FrfLsb v)) 19))
       (with_carrier f r) v s).
Proof.
  intros Hj. unfold ReadCarrier.
  do 3 (eapply triple_bind; [apply t_harder; [done|done|lia]|]; intros [? ?]; cbn beta iota; cbn [snd];
    apply triple_known; intros ?).
  match goal with |- triple _ (set_this (with_carrier ?x)) _ => set (f := x) end.
  eapply triple_post; [by apply t_set|]. intros ? s Hs. exists f. eapply tracks_weaken; [|exact Hs].
  intros (((_ & Hx0) & Hx1) & Hx2). unfold f. by rewrite (Hx0 eq_refl), (Hx1 eq_refl), (Hx2 eq_refl).
Qed.

(** The object is [r] and the chip looks like [v]. *)
Definition lin (r : linux_radio) (v : view) (s : linux_radio * W) : Prop := s.1 = r /\ sees s.2 = v.

Lemma lin_tracks r v s : lin r v s -> tracksP True r v s.
Proof. intros [<- <-]. split; [done|by left]. Qed.

Lemma t_apply r v junk :
  0 <= symbolTimeout_ r < 1024 -> fits 8 junk ->
  triple (lin r v) (ApplyDefaultLoraConfiguration junk)
    (fun ok s => aired (sees s.2) = aired v
       /\ (ok = true -> fault_ s.1 = false /\ settings (sees s.2) = (Some 125000, 6, 9, symbolTimeout_ r))
       /\ (reliable -> ok = true)).
Proof.
  intros Ht Hj. unfold ApplyDefaultLoraConfiguration.
  eapply (triple_bind _ _ (fun _ => tracksP True (with_fault false r) v)).
  { intros [r' w] [Er Ev]. cbn in Er, Ev. subst. do 2 eexists. split; [done|]. split; [done|by left]. }
  intros _. set (r0 := with_fault false r).
  assert (fault_ r0 = false /\ symbolTimeout_ r0 = symbolTimeout_ r) as [Hr0 Hto] by done.
  rewrite <- Hto in *. clearbody r0.
  eapply triple_bind; [by apply t_spi_read|]. intros [okm m]; cbn beta iota; cbn [snd].
  apply triple_known. intros Hm. eapply triple_pre; [|intros s0 (_ & Hq); exact Hq].
  assert (fits 8 (Z.land m 0xf8) /\ Z.land m 0xf8 <> 0x83) as [Hm1 Hm2].
  { split; [apply fits_land; [lia|unfold fits in Hm; lia|by apply (bool_decide_unpack (fits 8 0xf8))]|].
    change 0xf8 with (Z.shiftl (Z.ones 5) 3). rewrite land_field by lia. pow2s. lia. }
  eapply triple_bind; [apply t_verify; [done|done|congruence]|]. intros ?; cbn beta. t_step.
  eapply triple_bind; [apply t_Sleep|]. intros ?; cbn beta.
  apply triple_ex; intros c1; apply triple_ex; intros v1. apply triple_known. intros Hv1.
  rewrite chip_writes_silent in Hv1 by congruence.
  eapply triple_bind; [apply t_Standby|]. intros ?; cbn beta. apply triple_ex; intros c2.
  eapply triple_bind; [by apply t_ReadCarrier|]. intros ?; cbn beta. apply triple_ex. intros f.
  eapply triple_pre; [|intros s0 Hq; exact (tracks_weaken _ True _ _ _ (fun _ => I) Hq)].
  unfold stood. cbn [fault_ with_setup]. rewrite Hr0.
  set (v2 := chip_writes SX1276REG_OpMode 0x81 v1). 
  assert (aired v2 = aired v) as Hv2 by (unfold v2; by rewrite chip_writes_silent).
  assert (shown SX1276REG_OpMode v2 = 0x81) as Hshow by (by apply chip_writes_shown).
  clearbody v2. t_step. change (chip_writes SX1276REG_Ocp _ v2) with (set_reg SX1276REG_Ocp (Z.lor (Z.shiftl 1 5) 0x0B) v2).
  set (v3 := set_reg SX1276REG_Ocp _ v2).
  assert (shown SX1276REG_OpMode v3 = 0x81) as Hshow3.
  { rewrite <- Hshow. unfold shown, v3. cbn. by rewrite lookup_total_insert_ne. }
  change (aired v2) with (aired v3) in Hv2. clearbody v3.
  set (r1 := with_carrier f _). assert (fault_ r1 = false /\ symbolTimeout_ r1 = symbolTimeout_ r0) as [Hr1 Hto1] by done.
  rewrite <- Hto1 in *. clearbody r1. rewrite <- Hv2.
  eapply triple_bind; [by apply t_spi_read|]. intros [okm2 m2]; cbn beta iota; cbn [snd].
  apply triple_known. intros Hm3.
  apply (triple_bind _ _ (fun a s => a = s.1 /\ (tracksP True r1 v3 s /\ (reliable -> m2 = 0x81)))).
  { intros s [Hrel Hs]. exists s.1, s. split; [by destruct s|]. split; [done|]. split; [done|].
    intros HR. destruct (Hrel HR eq_refl) as [_ [(_ & _ & ->)|[_ ?]]]; done. }
  intros ra s (-> & Hs & Hrel). destruct (fault_ s.1 || negb (m2 =? 0x81)) eqn:Eb.
  - destruct s as [r' w']. do 2 eexists. split; [done|]. cbn [fst snd] in *. split; [by apply Hs|]. split; [done|].
    intros HR. exfalso. rewrite (Hrel HR), Z.eqb_refl, orb_false_r in Eb.
    apply tracks_end in Hs as (_ & _ & Hf). cbn [fst] in Hf. by rewrite (Hf HR Hr1) in Eb.
  - destruct (t_program r1 v3 Ht s Hs) as (ok & s' & E & Ha & Hok & HR). exists ok, s'. split; [done|].
    split; [done|]. split; [done|]. intros Hrl. by apply HR.
Qed.

Lemma t_carrier r v junk hz :
  0 <= hz < 1024000000 -> fits 8 junk ->
  triple (tracksP True r v) (ChangeCarrier junk hz)
    (fun b s => b = fault_ s.1 /\ aired (sees s.2) = aired v
       /\ (fault_ s.1 = false -> actual_hz_ s.1 <= hz <= actual_hz_ s.1 + 62
             /\ (hz mod 1000000 = 0 -> actual_hz_ s.1 = hz))
       /\ (reliable -> fault_ r = false -> fault_ s.1 = false)
       /\ symbolTimeout_ s.1 = symbolTimeout_ r).
Proof.
  intros Hhz Hj. destruct (carrier_steps hz Hhz) as (HF & Hle & Hmhz). unfold ChangeCarrier.
  set (Frf := hz * Z.shiftl 1 19 / 32000000) in *.
  assert (fits 8 (Z.land Frf 0xff)) as Hlsb
    by (change 0xff with (Z.ones 8); rewrite Z.land_ones by lia; apply u8_ok).
  do 3 (t_step; try apply u8_ok; try exact Hlsb).
  change (chip_writes SX1276REG_FrfLsb (Z.land Frf 0xff) _) with (tuned Frf v).
  eapply triple_bind; [by apply t_ReadCarrier|]. intros ?; cbn beta. apply triple_ex. intros f.
  eapply triple_pre; [|intros s0 Hq; exact Hq].
  eapply triple_bind; [by apply t_set|]. intros ?; cbn beta.
  eapply triple_bind; [apply t_this|]. intros ra; cbn beta.
  eapply triple_pre; [|intros s0 (_ & Ha & Hq); exact (conj Ha Hq)].
  apply triple_ret. intros s [-> [Hl Hs]]. split; [done|]. split; [exact Hl|].
  destruct Hs as [(-> & _ & ->)|[-> Hn]]; [|by split_and!].
  split; [|by split_and!]. intros _. cbn [actual_hz_ with_setup with_carrier].
  assert (Z.lor (Z.lor (Z.shiftl (shown SX1276REG_FrfMsb (tuned Frf v)) 16)
            (Z.shiftl (shown SX1276REG_FrfMid (tuned Frf v)) 8)) (shown SX1276REG_FrfLsb (tuned Frf v)) = Frf) as ->.
  { rewrite <- (bytes_of_word Frf HF) at 4. unfold shown, tuned. cbn -[Z.land Z.shiftr Z.shiftl Z.lor].
    repeat first [rewrite lookup_total_insert_eq | rewrite lookup_total_insert_ne by done].
    rewrite !trunc_trunc by lia. by rewrite (trunc_small 8 (Z.land Frf 255)) by exact Hlsb. }
  done.
Qed.
End Configure.

Section ReceiveMessage.
Context {W : Type} `{HS : SPI W} `{HK : Clock W} {HC : LinuxChip W}.

(** ** Time never goes back *)
Abbreviation after_time T := (fun s : linux_radio * W => T <= time s.2).

Lemma k_this T : keeps (after_time T) this.
Proof. intros [r w] a s' Hs [= <- <-]. done. Qed.
Lemma k_set_this T f : keeps (after_time T) (set_this f).
Proof. intros [r w] a s' Hs [= <- <-]. done. Qed.
Lemma k_pause T us : 0 <= us -> keeps (after_time T) (pause us).
Proof. intros Hu [r w] a s' Hs [= <- <-]. destruct (usleep_passes us w Hu). cbn in *. lia. Qed.
Lemma k_read T a old : keeps (after_time T) (spi_read a old).
Proof.
  intros [r w] x s' Hs. unfold spi_read. pose proof (read_takes_time a old w) as Ht.
  destruct (spi_ReadRegister a old w) as [[ok y] w']. intros [= <- <-]. cbn in *. lia.
Qed.
Lemma k_write T a x : keeps (after_time T) (spi_write a x).
Proof.
  intros [r w] y s' Hs. unfold spi_write. pose proof (write_takes_time a x w) as Ht.
  destruct (spi_WriteRegister a x w) as [ok w']. intros [= <- <-]. cbn in *. lia.
Qed.

Ltac k_step :=
  first
  [ apply keeps_ret | apply k_this | apply k_set_this | apply k_read | apply k_write
  | apply k_pause; unfold DEFAULT_INTRA_DELAY_US; lia | apply keeps_bind; [|intros ?]
  | match goal with
    | |- keeps _ (match ?x with _ => _ end) => destruct x
    | |- keeps _ (when ?b _) => destruct b; cbn [when]
    end ].

Lemma k_harder T a old n : keeps (after_time T) (ReadRegisterHarder a old n).
Proof. unfold ReadRegisterHarder. revert old. induction n as [|n IH]; intros old; cbn [harder_loop]; repeat k_step; apply IH. Qed.
Lemma k_verify T a x : keeps (after_time T) (WriteRegisterVerify a x).
Proof.
  unfold WriteRegisterVerify. generalize 2%nat. intros n.
  induction n as [|n IH]; cbn [verify_loop]; repeat k_step; apply IH.
Qed.
Ltac k_steps := repeat first [apply k_harder | apply k_verify | k_step].
Lemma k_rx_setup T : keeps (after_time T) rx_setup.
Proof. unfold rx_setup. k_steps. Qed.
Lemma k_fifo_read T n : forall v buf, keeps (after_time T) (fifo_read_loop n v buf).
Proof. induction n as [|n IH]; intros v buf; cbn [fifo_read_loop]; k_steps; apply IH. Qed.
Lemma k_finish T size timeout crc junk e : keeps (after_time T) (finish_rx size timeout crc junk e).
Proof. unfold finish_rx, read_packet_info. repeat first [apply k_fifo_read | k_steps]. Qed.

Lemma triple_keeps {A} (P I : linux_radio * W -> Prop) (m : ST (linux_radio * W) A) Q :
  triple P m Q -> keeps I m -> triple (fun s => P s /\ I s) m (fun a s => Q a s /\ I s).
Proof.
  intros Hm Hk s [HP HI]. destruct (Hm s HP) as (a & s' & E & HQ). exists a, s'.
  split; [exact E|]. split; [exact HQ|]. by eapply Hk.
Qed.

(** What [ReceiveSimpleMessage] called at time [t] leaves, when the chip's next
    reception takes [n] polls and ends with [e]: it gives up only when the time
    it was given has passed. *)
Definition receive_outcome (r : linux_radio) (v : view) (t size ms : Z) (timeout crc : bool)
    (rep : rx_report) (s : linux_radio * W) : Prop :=
  let '(n, e) := next v in
  (if fault_ r then rep = Report false 0 timeout crc []
   else rep = linux_report e size crc
        \/ (0 < n)%nat /\ t + 1000 * ms <= time s.2 /\ rep = Report true 0 timeout crc [])
  /\ (exists y, s.1 = with_rssi y r)
  /\ aired (sees s.2) = aired v
  /\ (fault_ r = false -> arrivals (sees s.2) = tail (arrivals v)).

Lemma chip_writes_rx_new v :
  regs v !! SX1276REG_OpMode <> Some 0x86 ->
  chip_writes SX1276REG_OpMode 0x86 v = listen (set_reg SX1276REG_OpMode 0x86 v).
Proof. intros Hn. unfold chip_writes. cbn. by rewrite bool_decide_false. Qed.

Lemma next_listen v : rx (listen v) = Some (next v) /\ arrivals (listen v) = tail (arrivals v).
Proof. unfold listen, next. by destruct (arrivals v). Qed.

Lemma arrivals_rx_ready r v : arrivals (rx_ready r v) = arrivals v.
Proof.
  unfold rx_ready. cbn [arrivals set_reg set_ptr]. unfold chip_writes. cbn.
  by case_bool_decide.
Qed.

Lemma t_receive r v t size ms timeout crc junk fuel :
  reliable -> continuousMode_ r = false -> fits 8 (max_rx_payload_bytes_ r) -> fits 8 junk ->
  0 <= ms -> 20 * ms + 1 < Z.of_nat fuel -> sane (next v).2 ->
  triple (fun s => lin r v s /\ time s.2 = t) (ReceiveSimpleMessage junk fuel size ms timeout crc)
    (receive_outcome r v t size ms timeout crc).
Proof.
  intros HR Hcm Hm Hj Hms Hfu He. unfold ReceiveSimpleMessage.
  apply (triple_bind _ _ (fun a s => a = r /\ (tracksP True r v s /\ t <= time s.2))).
  { intros [r' w] [Hs <-]. do 2 eexists. split; [done|]. split; [by apply Hs|]. split; [by apply lin_tracks|done]. }
  intros ra. apply triple_known. intros ->. rewrite Hcm. cbn [negb orb when].
  eapply triple_bind; [apply triple_keeps; [by apply t_rx_setup|apply k_rx_setup]|]. intros ?; cbn beta.
  eapply triple_bind; [apply triple_keeps; [apply t_write_flags|apply k_write]|]. intros ?; cbn beta.
  set (v1 := rx_ready r v).
  assert (exists v2, chip_writes SX1276REG_OpMode 0x86 v1 = listen v2 /\ arrivals v2 = arrivals v
    /\ aired v2 = aired v /\ ptr v2 = 0 /\ regs v2 !!! SX1276REG_FifoRxBaseAddr = 0) as (v2 & E2 & Ha2 & Hr2 & Hp2 & Hb2).
  { exists (set_reg SX1276REG_OpMode 0x86 v1). split_and!.
    - apply chip_writes_rx_new. unfold v1, rx_ready.
      cbn [regs set_reg set_ptr]. rewrite !lookup_insert_ne, chip_writes_mode by done. congruence.
    - apply arrivals_rx_ready.
    - unfold v1, rx_ready. cbn [aired set_reg set_ptr]. by rewrite chip_writes_silent.
    - done.
    - unfold v1, rx_ready. cbn [regs set_reg set_ptr].
      by repeat first [rewrite lookup_total_insert_eq | rewrite lookup_total_insert_ne by done]. }
  eapply (triple_bind _ _ (fun _ s => tracksP True r (listen v2) s /\ t <= time s.2)).
  { apply triple_keeps; [rewrite <- E2; t_step; by apply triple_ret|]. k_steps. }
  intros ?; cbn beta. destruct (next_listen v2) as [Hrx Harr].
  assert (next v2 = next v) as En by (unfold next; by rewrite Ha2). rewrite En in Hrx. rewrite Ha2 in Harr.
  assert (aired (listen v2) = aired v) as Hair by (by rewrite aired_listen).
  assert (ptr (listen v2) = 0 /\ regs (listen v2) !!! SX1276REG_FifoRxBaseAddr = 0) as [Hp3 Hb3]
    by (rewrite regs_listen; split; [unfold listen; by destruct (arrivals v2)|done]).
  unfold receive_outcome. destruct (next v) as [n e]. cbn [snd] in He. clear En E2 Ha2 Hr2 Hp2 Hb2.
  set (v3 := listen v2) in *. clearbody v3. clear v1 v2.
  intros [r' w] [(Er & Ev & _)%(tracks_exact HR) Htw]. cbn in Er, Ev, Htw. subst r' v3.
  rewrite ST_bind_eq. unfold this at 1. cbv beta iota. destruct (fault_ r) eqn:Ef.
  - destruct (spi_read_runs SX1276REG_IrqFlags junk r w flags_range Hj) as (ok & x & w' & E & _ & _ & _ & Hw).
    rewrite ST_bind_eq, E. do 2 eexists. split; [done|]. cbn [fst snd]. split; [done|].
    split; [exists (last_rssi_dbm_ r); by destruct r|]. split; [|done].
    rewrite <- Hair. destruct ok; [by eapply chip_reads_silent|by rewrite Hw].
  - rewrite ST_bind_eq. unfold time_now at 1. pose proof (now_shows w) as Hn.
    destruct (now w) as [t0 w1]. destruct Hn as (-> & Hs1 & Ht1). cbv beta iota.
    destruct (rx_loop_ends HR fuel ms (time w + 1000 * ms) 0 false (r, w1) n e) as (o & s' & E & Ers & Hend & Hn & Hto).
    { by apply (bool_decide_unpack (fits 8 0)). } { done. } { cbn. by rewrite Hs1. }
    { unfold polls_until. cbn. lia. }
    rewrite ST_bind_eq, E. cbv beta iota. cbn [fst snd] in *. rewrite Hs1 in Hend.
    destruct o as [fl| | |]; [..|by destruct Hend].
    all: destruct (t_finish HR r (sees w) (sees s'.2) size timeout crc junk e _ Hj Ef He Hend Hp3 Hb3 s')
           as (rep & s2 & Erun & Hrep & Hy & Hair2 & Harr2);
         [by apply tracks_exact|rewrite Erun; exists rep, s2; split; [done|]; split;
           [destruct Hrep as [Hrep|[Ho Hrep]]; [by left|right; split; [|split; [|exact Hrep]]]
           |split; [done|]; rewrite Hair2, Harr2]].
    all: try done.
    + destruct Hend as [_ ->]. destruct e as [|p c]; by rewrite <- Hair, <- Harr.
    + destruct Hend as (_ & flags & ->). destruct e as [|p c]; by rewrite <- Hair, <- Harr.
    + destruct n; [by destruct (Hn eq_refl)|lia].
    + eapply (k_finish (t + 1000 * ms)); [|exact Erun]. cbn. specialize (Hto eq_refl). lia.
    + destruct Hend as [-> ->]. done.
Qed.
End ReceiveMessage.

(** * A simulated chip behind a bus that fails as a script says *)
Record sim := Sim { sim_view : view; sim_time : Z; script : list bool }.

Section Sim.
Variable faulty : bool.
Variable idle : Z.   (* what IrqFlags shows outside a reception *)
Hypothesis idle_ok : fits 8 idle.

Definition sim_works (w : sim) : bool := if faulty then hd true (script w) else true.
Definition sim_next (v : view) (w : sim) : sim := Sim v (sim_time w + 10) (tail (script w)).

Definition sim_read (a : Z) (v : view) : Z * view :=
  if a =? SX1276REG_Fifo then (u8 (fifo v !!! ptr v), set_ptr (u8 (ptr v + 1)) v)
  else if a =? SX1276REG_IrqFlags then
    match rx v with
    | None => (idle, saw idle (if Z.testbit idle 3 then set_reg SX1276REG_OpMode 0x81 v else v))
    | Some (S n, e) => (0, saw 0 (set_rx (Some (n, e)) (arrivals v) v))
    | Some (O, e) => (sim_flags e, saw (sim_flags e) (set_reg SX1276REG_OpMode 0x81 (deliver e v)))
    end
  else (u8 (if a =? SX1276REG_FifoAddrPtr then ptr v else regs v !!! a), v).

Definition sim_SPI : SPI sim := {|
  spi_ReadRegister a old w :=
    if sim_works w then let '(x, v) := sim_read a (sim_view w) in (true, x, sim_next v w)
    else (false, old, sim_next (sim_view w) w);
  spi_WriteRegister a x w :=
    if sim_works w then (true, sim_next (chip_writes a x (sim_view w)) w)
    else (false, sim_next (sim_view w) w) |}.
Definition sim_clock : Clock sim := {|
  usleep us w := Sim (sim_view w) (sim_time w + us) (script w);
  now w := (sim_time w, w) |}.

Lemma sim_read_ok a v :
  fits 8 (sim_read a v).1 /\ chip_reads a v (sim_read a v).1 (sim_read a v).2.
Proof.
  unfold sim_read, chip_reads. destruct (a =? SX1276REG_Fifo); [by split; [apply u8_ok|]|].
  destruct (a =? SX1276REG_IrqFlags).
  - destruct (rx v) as [[[|n] e]|]; cbn [fst snd].
    + destruct e as [|p []]; (split; [by apply (bool_decide_unpack (fits 8 _))|done]).
    + by split; [apply (bool_decide_unpack (fits 8 0))|].
    + by split.
  - split; [apply u8_ok|]. split; [done|]. cbn [fst]. split; [by intros ->|].
    intros Ha. destruct (Z.eqb_spec a SX1276REG_FifoAddrPtr) as [->|]; [exfalso; revert Ha|done].
    by apply (bool_decide_unpack (SX1276REG_FifoAddrPtr ∉ _)).
Qed.

Definition sim_linux_chip : @LinuxChip sim sim_SPI sim_clock.
Proof.
  refine (@Build_LinuxChip sim sim_SPI sim_clock sim_view sim_time (faulty = false) _ _ _ _ _ _);
    cbn [spi_ReadRegister spi_WriteRegister usleep now sim_SPI sim_clock].
  - intros a old w _. unfold sim_works. pose proof (sim_read_ok a (sim_view w)) as [Hx Hc].
    destruct (sim_read a (sim_view w)) as [x v]. cbn [fst snd] in *.
    destruct faulty; [destruct (hd true (script w))|]; cbn; split_and!; try done; lia.
  - intros a x w _. unfold sim_works. destruct faulty; [destruct (hd true (script w))|]; cbn; split_and!; try done; lia.
  - intros a old w. destruct (sim_works w), (sim_read a (sim_view w)); cbn; lia.
  - intros a x w. destruct (sim_works w); cbn; lia.
  - intros us w Hu. cbn. split; [done|lia].
  - intros w. split_and!; [done..|lia].
Defined.
End Sim.

(** Two chips that report TX DONE at once: one behind a good bus, one behind a
    bus that fails by script. *)
Definition good : Type := sim.
Definition flaky : Type := sim.
#[global] Typeclasses Opaque good flaky.
#[export] Instance good_spi : SPI good := sim_SPI false 8.
#[export] Instance good_clock : Clock good := sim_clock.
#[export] Instance good_chip : LinuxChip good := sim_linux_chip false 8 (bool_decide_unpack (fits 8 8) I).
#[export] Instance flaky_spi : SPI flaky := sim_SPI true 8.
#[export] Instance flaky_clock : Clock flaky := sim_clock.
#[export] Instance flaky_chip : LinuxChip flaky := sim_linux_chip true 8 (bool_decide_unpack (fits 8 8) I).

(** * Properties *)
Section Properties.
Context {W : Type} `{HS : SPI W} `{HK : Clock W} {HC : LinuxChip W}.

(** C31: over a bus that may fail any transaction, [SendSimpleMessage] ends; when
    it returns true exactly the payload went out in one frame and no fault is
    pending; when it returns false at most one frame went out. A payload of more
    than 127 bytes is never sent and leaves the fault flag set. Over a bus that
    does not fail a shorter one is always sent without a fault, and the result is
    whether the chip reported TX DONE. *)
Theorem send_honest junk fuel r v payload :
  fits 8 junk -> (1000 < fuel)%nat -> fits 8 (max_tx_payload_bytes_ r) ->
  triple (lin r v) (SendSimpleMessage junk fuel payload) (send_outcome r v payload).
Proof. intros. eapply triple_pre; [by apply t_send|apply lin_tracks]. Qed.

(** C32: over a bus that does not fail, [ReceiveSimpleMessage] ends within its
    timeouts in single reception mode and reports what the chip received: the
    packet whole, CRC error or not, a symbol timeout, or false for a packet
    larger than the buffer. It gives up, with size 0 and no flag set, only when
    the chip has not reported at the first poll and [ms] milliseconds of the
    clock have passed since the call. With a fault pending it returns false at
    once. Nothing is transmitted. *)
Theorem receive_reports r v t size ms timeout crc junk fuel :
  reliable -> continuousMode_ r = false -> fits 8 (max_rx_payload_bytes_ r) -> fits 8 junk ->
  0 <= ms -> 20 * ms + 1 < Z.of_nat fuel -> sane (next v).2 ->
  triple (fun s => lin r v s /\ time s.2 = t) (ReceiveSimpleMessage junk fuel size ms timeout crc)
    (receive_outcome r v t size ms timeout crc).
Proof. apply t_receive. Qed.

(** C33: whatever the bus fails and whatever fault was pending,
    [ApplyDefaultLoraConfiguration] ends without transmitting; when it returns
    true no fault is pending and the chip's registers decode to 125 kHz, 4/6,
    SF9 and the object's symbol timeout. Over a bus that does not fail it
    returns true. *)
Theorem configure_honest r v junk :
  0 <= symbolTimeout_ r < 1024 -> fits 8 junk ->
  triple (lin r v) (ApplyDefaultLoraConfiguration junk)
    (fun ok s => aired (sees s.2) = aired v
       /\ (ok = true -> fault_ s.1 = false /\ settings (sees s.2) = (Some 125000, 6, 9, symbolTimeout_ r))
       /\ (reliable -> ok = true)).
Proof. apply t_apply. Qed.

(** Also: [ChangeCarrier] returns the fault flag, that is false when it worked; if
    no fault is pending afterwards, [carrier()] is the request rounded down by
    at most 62 Hz, exact for whole megahertz. *)
Theorem change_carrier_inverted r v junk hz :
  0 <= hz < 1024000000 -> fits 8 junk ->
  triple (lin r v) (ChangeCarrier junk hz)
    (fun b s => b = fault_ s.1 /\ aired (sees s.2) = aired v
       /\ (fault_ s.1 = false -> actual_hz_ s.1 <= hz <= actual_hz_ s.1 + 62
             /\ (hz mod 1000000 = 0 -> actual_hz_ s.1 = hz))
       /\ (reliable -> fault_ r = false -> fault_ s.1 = false)).
Proof.
  intros. eapply triple_post; [eapply triple_pre; [by apply t_carrier|apply lin_tracks]|].
  intros b s Hs. cbn beta in Hs. intuition.
Qed.
End Properties.

(** ** Witnesses *)
Definition quiet_chip (l : list (nat * event)) : view := set_rx None l blank.
Definition on_sim (v : view) (sc : list bool) : linux_radio * sim := (new_radio 0 false, Sim v 0 sc).

(** One transaction failing anywhere is retried, except on a byte of the FIFO. *)
Example one_failure_retried :
  forallb (fun k =>
    match SendSimpleMessage (W := flaky) 0 1001 [7; 8] (on_sim blank (replicate k true ++ [false])) with
    | Some (true, s) => bool_decide (aired (sim_view s.2) = [[7; 8]])
    | _ => false
    end) (filter (fun k => k <> 14 /\ k <> 16)%nat (seq 0 40)) = true.
Proof. vm_compute. reflexivity. Qed.

(** The configuration starts by clearing the fault, and so forgets that the
    change of carrier before it failed: both writes of its first byte are lost,
    no fault is left, and the radio is not at 919 MHz. *)
Example carrier_failure_forgotten :
  match ChangeCarrier (W := flaky) 0 919000000 (on_sim blank [false; false]) with
  | Some (true, s) =>
      match ApplyDefaultLoraConfiguration (W := flaky) 0 s with
      | Some (true, s) => negb (fault_ s.1) && negb (actual_hz_ s.1 =? 919000000)
      | _ => false
      end
  | _ => false
  end = true.
Proof. vm_compute. reflexivity. Qed.

(** A failing read of the FIFO goes unnoticed: the byte is reported as 0, the
    later ones are shifted and the last one is lost. *)
Example fifo_read_failure_unnoticed :
  (fst <$> ReceiveSimpleMessage (W := flaky) 0 402 100 20 false false
     (on_sim (quiet_chip [(O, Packet [10; 20; 30] false)]) (replicate 31 true ++ [false])))
  = Some (Report true 3 false false [10; 0; 20]).
Proof. vm_compute. reflexivity. Qed.

Lemma send_honest_witness :
  triple (lin (new_radio 0 false) blank) (SendSimpleMessage (W := flaky) 0 1001 [104; 105])
    (send_outcome (new_radio 0 false) blank [104; 105]).
Proof. apply send_honest; [by apply (bool_decide_unpack (fits 8 0))|lia|by apply (bool_decide_unpack (fits 8 0x80))]. Defined.

Lemma receive_reports_witness : exists rep s',
  ReceiveSimpleMessage (W := good) 0 402 128 20 false false
    (on_sim (quiet_chip [(2%nat, Packet [1; 2; 3] true)]) []) = Some (rep, s')
  /\ rep = Report true 3 false false [1; 2; 3]
  /\ receive_outcome (W := good) (new_radio 0 false) (quiet_chip [(2%nat, Packet [1; 2; 3] true)]) 0 128 20 false false rep s'.
Proof.
  assert (reliable (W := good)) as HR by reflexivity.
  destruct (receive_reports (HC := good_chip) (new_radio 0 false) (quiet_chip [(2%nat, Packet [1; 2; 3] true)]) 0 128 20 false false 0 402
    HR eq_refl ltac:(by apply (bool_decide_unpack (fits 8 0x80))) ltac:(by apply (bool_decide_unpack (fits 8 0)))
    ltac:(lia) ltac:(lia)) with (w := on_sim (quiet_chip [(2%nat, Packet [1; 2; 3] true)]) []) as (rep & s' & E & Ho).
  - split; [|cbn; lia]. by apply (bool_decide_unpack (bytes_ok [1; 2; 3])).
  - split; [split; reflexivity|reflexivity].
  - assert (fst <$> ReceiveSimpleMessage (W := good) 0 402 128 20 false false
      (on_sim (quiet_chip [(2%nat, Packet [1; 2; 3] true)]) []) = Some (Report true 3 false false [1; 2; 3])) as Hr
      by (vm_compute; reflexivity).
    rewrite E in Hr. injection Hr as ->. exists (Report true 3 false false [1; 2; 3]), s'.
    split; [exact E|]. split; [reflexivity|exact Ho].
Defined.

Lemma configure_honest_witness :
  triple (lin (new_radio 0 true) blank) (ApplyDefaultLoraConfiguration (W := good) 0)
    (fun ok s => aired (sees s.2) = []
       /\ (ok = true -> fault_ s.1 = false /\ settings (sees s.2) = (Some 125000, 6, 9, 8))
       /\ (reliable (W := good) -> ok = true)).
Proof. apply (configure_honest (new_radio 0 true) blank); [cbn; lia|by apply (bool_decide_unpack (fits 8 0))]. Defined.

Lemma change_carrier_inverted_witness :
  triple (lin (new_radio 0 false) blank) (ChangeCarrier (W := good) 0 919000000)
    (fun b s => b = fault_ s.1 /\ aired (sees s.2) = []
       /\ (fault_ s.1 = false -> actual_hz_ s.1 <= 919000000 <= actual_hz_ s.1 + 62
             /\ (919000000 mod 1000000 = 0 -> actual_hz_ s.1 = 919000000))
       /\ (reliable (W := good) -> false = false -> fault_ s.1 = false)).
Proof.
  apply (change_carrier_inverted (new_radio 0 false) blank); [lia|by apply (bool_decide_unpack (fits 8 0))].
Defined.
