(* ===== verification/GatewayFacts.v ===== *)
(** The gateway as a whole: the bridge of [Bridge] on the driver of
    [RadioLinux]. What a leaf requests comes out as a datagram, what comes in
    as a datagram is on the air, and a datagram the radio cannot send stops the
    gateway until its next reception resets the chip. *)
From S2P Require Import Prelude Mqttsn MqttsnFacts Radio RadioFacts Link Bridge LinkFacts.
From S2P Require Import RadioLinux RadioLinuxFacts.

(** [Transmit] as one call of the radio between two changes of the counters. *)
Lemma Transmit_eq {R} `{SimpleRadio R} payload m r :
  Transmit payload (m, r)
  = let '(ok, r') := Bridge.SendSimpleMessage (data_frame (rolling_counter_ m) (rolling_counter_rx_ m) payload) r in
    let m' := set_counter (if rolling_counter_ m =? 0xff then 0 else rolling_counter_ m + 1) m in
    Some (ok, (if (ok : bool) then count_tx m' else m', r')).
Proof.
  cbv [Transmit next_roll send_framed Bridge.this on_manager radio_op mbind ST_bind mret ST_ret].
  cbn [rolling_counter_rx_ set_counter].
  by destruct (Bridge.SendSimpleMessage _ r) as [[] r'].
Qed.

Section Gateway.
Context {W : Type} `{HS : SPI W} `{HK : Clock W} `{HP : Platform W} {HC : LinuxChip W}.
Variable junk : Z.
Hypothesis junk_ok : fits 8 junk.
Hypothesis bus_works : reliable.
#[local] Instance the_radio : SimpleRadio (linux_radio * W) := gateway_radio junk.

(** A radio whose settings are those of the constructor or of the setters with
    values in range, in single reception mode. *)
Definition usable (r : linux_radio) : Prop :=
  continuousMode_ r = false /\ fits 8 (max_rx_payload_bytes_ r) /\ fits 8 (max_tx_payload_bytes_ r)
  /\ 0 <= symbolTimeout_ r < 1024.

Lemma run_triple {A} P (m : ST (linux_radio * W) A) Q d s :
  triple P m Q -> P s -> Q (run d m s).1 (run d m s).2.
Proof. intros Hm Hs. destruct (Hm s Hs) as (a & s' & E & HQ). unfold run. by rewrite E. Qed.

(** One reception by the bridge's radio. *)
Lemma receive_once r w size timeout crc :
  usable r -> sane (next (sees w)).2 ->
  let o := Bridge.ReceiveSimpleMessage size 20000 timeout crc (r, w) in
  receive_outcome r (sees w) (time w) size 20000 timeout crc o.1 o.2.
Proof.
  intros (Hcm & Hm & _) He. apply (run_triple (fun s => lin r (sees w) s /\ time s.2 = time w) _
    (receive_outcome r (sees w) (time w) size 20000 timeout crc)); [|done].
  apply t_receive; [done..|lia|unfold rx_fuel; lia|done].
Qed.

Lemma send_once r w payload :
  usable r ->
  let o := Bridge.SendSimpleMessage payload (r, w) in
  send_outcome r (sees w) payload o.1 o.2.
Proof.
  intros (_ & _ & Hm & _). apply (run_triple (lin r (sees w)) _ (send_outcome r (sees w) payload)); [|done].
  eapply triple_pre; [apply t_send; [done|lia|done]|apply lin_tracks].
Qed.

(** The chip reports the end of a reception at the first poll, or before the
    20 seconds the bridge gives a reception are over. *)
Definition in_time (size : Z) (n : nat) (r : linux_radio) (w : W) : Prop :=
  n = O \/ time (Bridge.ReceiveSimpleMessage size 20000 false false (r, w)).2.2 < time w + 1000 * 20000.

(** A frame the chip reports in time comes out of [TryReceive]. *)
Lemma TryReceive_packet fuel buf room roll rx p c n m r w :
  usable r -> fault_ r = false -> (0 < fuel)%nat -> length buf = (room + 4)%nat ->
  (length p <= room)%nat -> (length p <= 251)%nat -> bytes_ok (data_frame roll rx p) ->
  next (sees w) = (n, Packet (data_frame roll rx p) c) -> in_time (Z.of_nat (room + 4)) n r w ->
  exists s', TryReceive fuel buf room (m, (r, w))
    = Some (Some p,
        (data_seen roll (if have_rx_ m && negb (roll =? expected_counter m)
                         then dropped_ m + skipped roll (expected_counter m) else dropped_ m) m, s'))
    /\ usable s'.1 /\ fault_ s'.1 = false /\ arrivals (sees s'.2) = tail (arrivals (sees w)).
Proof.
  intros Hu Hr Hf Hb Hp Hp2 Hby Hn Hin. unfold TryReceive. destruct fuel as [|fuel]; [lia|]. cbn [receive_loop].
  assert (length (data_frame roll rx p) = 4 + length p)%nat as Hl by apply length_frame.
  pose proof (receive_once r w (Z.of_nat (room + 4)) false false Hu) as Ho.
  rewrite Hn in Ho. cbn [snd] in Ho. specialize (Ho ltac:(split; [done|lia])).
  rewrite ST_bind_eq. unfold receive_turn at 1. rewrite ST_bind_eq. unfold radio_op at 1.
  unfold in_time in Hin.
  destruct (Bridge.ReceiveSimpleMessage _ _ _ _ _) as [rep s']. cbn [fst snd] in Ho, Hin.
  unfold receive_outcome in Ho. rewrite Hn, Hr in Ho.
  destruct Ho as (Hrep & [y Hy] & _ & Ha).
  destruct Hrep as [->|(Hlt & Hlate & _)]; [|lia]. unfold linux_report.
  rewrite (proj2 (Z.ltb_ge (Z.of_nat (room + 4)) _)) by lia.
  cbn [no_fault negb rx_bytes rx_timeout rx_crc_error andb].
  assert (store buf 0 (data_frame roll rx p) = Some (data_frame roll rx p ++ drop (4 + length p) buf)) as ->.
  { unfold store. by rewrite decide_True, Hl by (rewrite Hl, Hb; lia). }
  rewrite ST_bind_eq. unfold lift_opt at 1. cbn [fmap option_fmap option_map].
  rewrite ST_bind_eq. unfold Bridge.this. rewrite ST_bind_eq. cbn [rx_size].
  unfold lift_opt. rewrite frame_accepted by lia.
  exists s'. split; [done|]. rewrite Hy. cbn. split; [exact Hu|]. split; [done|]. by apply Ha.
Qed.

(** A fault pending makes [TryReceive] give up. *)
Lemma TryReceive_faulted fuel buf room m r w :
  usable r -> fault_ r = true -> (0 < fuel)%nat -> sane (next (sees w)).2 ->
  exists r' w', TryReceive fuel buf room (m, (r, w)) = Some (None, (m, (r', w'))) /\ usable r'.
Proof.
  intros Hu Hr Hf He. unfold TryReceive. destruct fuel as [|fuel]; [lia|]. cbn [receive_loop].
  pose proof (receive_once r w (Z.of_nat (room + 4)) false false Hu He) as Ho.
  rewrite ST_bind_eq. unfold receive_turn at 1. rewrite ST_bind_eq. unfold radio_op at 1.
  destruct (Bridge.ReceiveSimpleMessage _ _ _ _ _) as [rep [r' w']]. cbn [fst snd] in Ho.
  unfold receive_outcome in Ho. destruct (next (sees w)) as [n e]. rewrite Hr in Ho. cbn [fst snd] in Ho.
  destruct Ho as (-> & [y ->] & _). do 2 eexists. split; [done|]. exact Hu.
Qed.

(** The reset chip is configured anew and no fault is pending. *)
Lemma Restart_clears m r w :
  usable r -> exists r' w', Restart (m, (r, w)) = Some ((), (m, (r', w'))) /\ fault_ r' = false.
Proof.
  intros (_ & _ & _ & Ht). unfold Restart. rewrite ST_bind_eq. unfold radio_op at 1. cbn [Bridge.ResetSX1276 the_radio gateway_radio].
  rewrite ST_bind_eq. unfold radio_op at 1.
  change (Bridge.ChangeCarrier 919000000 (r, platform_reset w))
    with (run true (ChangeCarrier junk 919000000) (r, platform_reset w)).2.
  pose proof (run_triple _ _ _ true (r, platform_reset w)
    (t_carrier r (sees (platform_reset w)) junk 919000000 ltac:(lia) junk_ok)
    (lin_tracks _ _ _ (conj eq_refl eq_refl))) as (_ & _ & _ & _ & Hto).
  destruct (run true (ChangeCarrier junk 919000000) (r, platform_reset w)) as [b [r1 w1]].
  cbn [fst snd] in Hto |- *. unfold radio_op.
  change (Bridge.ApplyDefaultLoraConfiguration (r1, w1))
    with (run false (ApplyDefaultLoraConfiguration junk) (r1, w1)).2.
  rewrite <- Hto in Ht.
  pose proof (run_triple _ _ _ false (r1, w1) (t_apply r1 (sees w1) junk Ht junk_ok) (conj eq_refl eq_refl))
    as (_ & Hok & Hrel).
  destruct (run false (ApplyDefaultLoraConfiguration junk) (r1, w1)) as [ok [r2 w2]].
  cbn [fst snd] in *. do 2 eexists. split; [done|]. by apply Hok, Hrel.
Qed.

(** The receiving thread's turn while a fault is pending. *)
Lemma in_turn_faulted fuel buf is_client m r w :
  usable r -> fault_ r = true -> (0 < fuel)%nat -> sane (next (sees w)).2 ->
  exists m2 r2 w2, in_turn fuel buf is_client (m, (r, w)) = Some (Nowhere, (m2, (r2, w2))) /\ fault_ r2 = false.
Proof.
  intros Hu Hr Hf He. unfold in_turn.
  destruct (TryReceive_faulted fuel buf 256 m r w Hu Hr Hf He) as (r1 & w1 & E & Hu1).
  destruct (Restart_clears m r1 w1 Hu1) as (r2 & w2 & E2 & Hf2).
  rewrite ST_bind_eq, E. cbv iota beta. rewrite ST_bind_eq, E2. do 3 eexists. done.
Qed.

(** C25: a datagram of more than 123 bytes is not transmitted and stops the
    gateway: the radio's fault flag stays set, so nothing is reported as sent
    from then on. The next turn of the receiving thread returns nothing but
    resets and configures the chip, after which no fault is pending. *)
Theorem oversize_recovers ip port datagram m r w fuel buf is_client :
  usable r -> fault_ r = false -> 123 < Z.of_nat (length datagram) -> (0 < fuel)%nat ->
  exists m' r' w', out_turn ip port datagram (m, (r, w)) = Some ((), (m', (r', w')))
    /\ aired (sees w') = aired (sees w) /\ fault_ r' = true /\ num_tx_ m' = num_tx_ m
    /\ (sane (next (sees w')).2 -> exists m2 r2 w2,
          in_turn fuel buf is_client (m', (r', w')) = Some (Nowhere, (m2, (r2, w2))) /\ fault_ r2 = false).
Proof.
  intros Hu Hr Hl Hf. unfold out_turn. rewrite (proj2 (Z.ltb_lt 0 _)) by lia.
  rewrite ST_bind_eq. unfold on_manager at 1. cbv beta iota. rewrite ST_bind_eq, Transmit_eq.
  set (fr := data_frame _ _ datagram).
  assert (127 < Z.of_nat (length fr)) as Hfr by (unfold fr; rewrite length_frame; lia).
  pose proof (send_once r w fr Hu) as Ho.
  destruct (Bridge.SendSimpleMessage fr (r, w)) as [done [r' w']]. cbn [fst snd] in Ho.
  destruct Ho as (_ & Hlong & _ & b & c & Er). destruct (Hlong Hfr) as (-> & Hfl & Ha).
  cbn [fst snd] in *. do 3 eexists. split; [done|]. split; [done|]. split; [done|]. split; [done|].
  intros Hs. apply in_turn_faulted; try done. rewrite Er. exact Hu.
Qed.

(** A datagram of at most 123 bytes goes out as exactly the frame a leaf
    expects, with the counters of the bridge; it is counted when the chip
    reports TX DONE. *)
Lemma datagram_aired ip port datagram m r w :
  usable r -> fault_ r = false -> 0 < Z.of_nat (length datagram) <= 123 ->
  exists m' r' w', out_turn ip port datagram (m, (r, w)) = Some ((), (m', (r', w')))
    /\ aired (sees w') = aired (sees w) ++ [data_frame (rolling_counter_ m) (rolling_counter_rx_ m) datagram]
    /\ GetPort m' = Some (ip, port)
    /\ num_tx_ m' = num_tx_ m + (if Z.testbit (flags_read (sees w')) 3 then 1 else 0).
Proof.
  intros Hu Hr Hl. unfold out_turn. rewrite (proj2 (Z.ltb_lt 0 _)) by lia.
  rewrite ST_bind_eq. unfold on_manager at 1. cbv beta iota. rewrite ST_bind_eq, Transmit_eq. 
  change (rolling_counter_ (SetPort ip port m)) with (rolling_counter_ m).
  change (rolling_counter_rx_ (SetPort ip port m)) with (rolling_counter_rx_ m).
  set (fr := data_frame _ _ datagram).
  assert (Z.of_nat (length fr) <= 127) as Hfr by (unfold fr; rewrite length_frame; lia).
  pose proof (send_once r w fr Hu) as Ho.
  destruct (Bridge.SendSimpleMessage fr (r, w)) as [done [r' w']]. cbn [fst snd] in Ho.
  destruct Ho as (_ & _ & Hsent & _). destruct (Hsent bus_works Hr Hfr) as (Ha & Hd & _). cbn [fst snd] in *.
  destruct done; (do 3 eexists; split; [done|]; split; [done|]; split; [done|]); rewrite <- Hd; cbn; lia.
Qed.

(** A frame heard in time becomes a datagram. *)
Lemma frame_to_udp fuel buf is_client roll rx p c n ip port m r w :
  usable r -> fault_ r = false -> (0 < fuel)%nat -> length buf = 260%nat ->
  (length p <= 251)%nat -> bytes_ok (data_frame roll rx p) -> GetPort m = Some (ip, port) ->
  next (sees w) = (n, Packet (data_frame roll rx p) c) -> in_time 260 n r w ->
  exists m' r' w', in_turn fuel buf is_client (m, (r, w)) = Some (To_port ip port p, (m', (r', w')))
    /\ fault_ r' = false /\ rolling_counter_rx_ m' = roll
    /\ num_valid_received_ m' = num_valid_received_ m + 1.
Proof.
  intros Hu Hr Hf Hb Hp Hby Hport Hn Hin.
  destruct (TryReceive_packet fuel buf 256 roll rx p c n m r w) as ([r' w'] & E & _ & Hr' & _); try done; try lia.
  unfold in_turn. rewrite ST_bind_eq, E. cbv iota beta. rewrite ST_bind_eq. unfold Bridge.this.
  unfold mret, ST_ret. 
  match goal with |- context [GetPort ?m1] => change (GetPort m1) with (GetPort m) end.
  rewrite Hport. do 3 eexists. done.
Qed.
End Gateway.

(** * End to end *)
Section EndToEnd.
Context {L : Type} `{HLS : Spi L} {HLC : Sx1276 L}.
Context {W : Type} `{HS : SPI W} `{HK : Clock W} `{HP : Platform W} {HC : LinuxChip W}.
Variable junk : Z.
Hypothesis junk_ok : fits 8 junk.
Hypothesis bus_works : reliable.
#[local] Existing Instance gateway_radio.

(** C22: every request of the leaf's client interface that is not refused and
    fits the message buffer goes out as one frame, and a gateway without a fault
    that hears the frame, at whatever poll within the 20 seconds of a reception,
    and knows a port hands exactly one datagram to that port; no fault is
    pending afterwards and one more message counts as received. The datagram
    decodes by the MQTT-SN format to the request, its arguments and the message
    id if and only if the request announces its own length: always, but for a
    disconnect with a sleep period and a willtopic with a topic over the wrong
    left-over byte. *)
Theorem request_reaches_udp rq o (e : leaf) ms r v :
  args_fit rq -> request_bytes rq -> refused rq o = false ->
  buffers_ok o -> bytes_ok (message_buffer o) -> fits 16 (message_id o) ->
  (footprint rq <= MAX_BUFFER_SIZE)%nat -> sent_ok e -> byte_ok (tx_rolling_ e) ->
  Radio.max_tx_payload_bytes_ r = 0x80 ->
  triple (node_at (World o e [] ms) r v) (method (issue rq))
    (fun _ s => exists fr p,
       aired (look (air_side s).2) = aired v ++ [fr]
       /\ (decode p = Some (meaning rq (message_id (prepare rq o))) <-> announces_length rq o)
       /\ forall fuel buf is_client c n ip port m r2 w2,
            usable r2 -> fault_ r2 = false -> (0 < fuel)%nat -> length buf = 260%nat ->
            GetPort m = Some (ip, port) ->
            next (sees w2) = (n, Packet fr c) -> in_time junk 260 n r2 w2 ->
            exists m' r' w',
              in_turn (H := gateway_radio junk) fuel buf is_client (m, (r2, w2))
              = Some (To_port ip port p, (m', (r', w')))
              /\ fault_ r' = false /\ num_valid_received_ m' = num_valid_received_ m + 1).
Proof.
  intros Hir Hrb Href Hb Hbb Hm Hf He Hroll Hr.
  destruct (issue_event rq o e [] ms Hir Href Hb Hm Hf) as (o' & b & n & Hi & _ & Hlb & Hd & Hby).
  destruct (Hby Hbb Hrb) as [Hbytes Hn]. cbn [app] in Hi.
  assert (length (wire (b, n)) <= MAX_BUFFER_SIZE)%nat as Hw
    by (unfold wire; cbn [fst]; rewrite length_take, Hlb; lia).
  assert (bytes_ok (wire (b, n))) as Hwb by (unfold wire; by apply Forall_take).
  eapply triple_post; [by apply (triple_issue rq o e ms r v o' b n)|].
  intros _ s (t & v' & [_ [_ Hv]] & _ & Ha & _). do 2 eexists. rewrite Hv. split; [exact Ha|]. split; [exact Hd|].
  intros fuel buf is_client c k ip port m r2 w2 Hu Hr2 Hfu Hbuf Hp Hnx Hin.
  destruct (frame_to_udp junk junk_ok bus_works fuel buf is_client (tx_rolling_ e) 0
    (wire (b, n)) c k ip port m r2 w2) as (m' & r' & w' & E & Hf' & _ & Hnum);
    try done; [unfold MAX_BUFFER_SIZE in Hw; lia|..|by exists m', r', w'].
  apply byte_frame; [done|by apply (bool_decide_unpack (byte_ok 0))|done].
Qed.

(** C23: a reply the client waits for (CONNACK, REGACK or PUBACK) or a
    DISCONNECT, given to a gateway without a fault as a datagram of the MQTT-SN
    format, goes out as one frame; and a leaf whose radio is cold, or has
    received no packet since it was, and that hears the frame first takes it:
    [TryReceive] returns true, the client stops waiting, the derived class has
    recorded the reply, and an accepted registration names its topic. *)
Theorem udp_reaches_client rp ip port m r w :
  usable r -> fault_ r = false ->
  exists m' r' w' fr,
    out_turn (H := gateway_radio junk) ip port (reply_bytes rp) (m, (r, w)) = Some ((), (m', (r', w')))
    /\ aired (sees w') = aired (sees w) ++ [fr] /\ GetPort m' = Some (ip, port)
    /\ forall deref g o (e : leaf) ms lr v n c rest fuel,
         expected rp o -> length (response_buffer o) = MAX_BUFFER_SIZE ->
         length (rx_buffer_ e) = 128%nat -> clean lr v ->
         arrivals v = (n, Packet fr c) :: rest -> (n < fuel)%nat ->
         triple (node_at (W := L) (World o e [] ms) lr v) (Link.TryReceive (leaf_vtable deref g) fuel)
           (fun res s => res = (true, false) /\ waiting_for_response (obj (client s)) = false
              /\ topic_count (obj (client s)) = topic_count (taken rp o)
              /\ topic_table (obj (client s)) = topic_table (taken rp o)
              /\ ext (client s) = effect rp (with_frame fr e) /\ Mqttsn.sent (client s) = []).
Proof.
  intros Hu Hr.
  destruct (datagram_aired junk junk_ok bus_works ip port (reply_bytes rp) m r w Hu Hr) as (m' & r' & w' & E & Ha & Hp & _).
  { destruct rp; cbn; lia. }
  exists m', r', w'. eexists. split; [exact E|]. split; [exact Ha|]. split; [done|].
  intros deref g o e ms lr v n c rest fuel Hex Hb Hrx Hw Harr Hn.
  destruct (parse_reply deref g (rolling_counter_ m) (rolling_counter_rx_ m) rp o e ms Hex Hb)
    as (o' & Ho' & Htc & Htt & Hpr).
  eapply triple_post; [eapply triple_TryReceive; [done|done| |done|done|exact Hpr]|].
  - rewrite length_frame. destruct rp; cbn; lia.
  - intros res s (-> & -> & _). done.
Qed.
End EndToEnd.

(** ** Witnesses *)
#[export] Instance good_platform : Platform good := {| platform_reset w := Sim blank (sim_time w) [] |}.

Lemma usable_new junk high : usable (new_radio junk high).
Proof. split; [done|]. split_and!; try (by apply (bool_decide_unpack (fits 8 0x80))); cbn; lia. Defined.

Lemma oversize_recovers_witness :
  exists m' r' w',
    out_turn (H := gateway_radio (W := good) 0) [10; 0; 0; 1] [49] (replicate 124 7)
      (new_RadioManager, (new_radio 0 false, (Sim blank 0 [] : good))) = Some ((), (m', (r', w')))
    /\ aired (sees (w' : good)) = [] /\ fault_ r' = true /\ num_tx_ m' = 0
    /\ (sane (next (sees (w' : good))).2 -> exists m2 r2 w2,
          in_turn (H := gateway_radio (W := good) 0) 1 [] true (m', (r', w')) = Some (Nowhere, (m2, (r2, w2)))
          /\ fault_ r2 = false).
Proof.
  apply (oversize_recovers (W := good) 0 ltac:(by apply (bool_decide_unpack (fits 8 0))) ltac:(done)
    [10; 0; 0; 1] [49] (replicate 124 7) new_RadioManager (new_radio 0 false) (Sim blank 0 [] : good));
    [apply usable_new|done|done|lia].
Defined.

(** The leaf publishes; the gateway that hears the frame at its third poll sends
    a datagram. *)
Lemma request_reaches_udp_witness : exists s fr p,
  method (W := demo) (issue (R_publish 0 7 [49; 50])) (leaf_node ready []) = Some ((), s)
  /\ aired (look (W := demo) (air_side s).2) = [fr]
  /\ (decode p = Some (meaning (R_publish 0 7 [49; 50]) 1) <-> True)
  /\ exists m' r' w',
       in_turn (H := gateway_radio (W := good) 0) 1 (replicate 260 0) true
         (SetPort [10] [49] new_RadioManager,
          (new_radio 0 false, (Sim (quiet_chip [(2%nat, Packet fr false)]) 0 [] : good)))
       = Some (To_port [10] [49] p, (m', (r', w')))
       /\ fault_ r' = false /\ num_valid_received_ m' = 1.
Proof.
  assert (reliable (W := good)) as HR by reflexivity.
  destruct (request_reaches_udp (L := demo) (HC := good_chip) 0 ltac:(by apply (bool_decide_unpack (fits 8 0)))
    HR (R_publish 0 7 [49; 50]) ready new_MQTTSX1276 0
    new_SX1276Radio (hearing [])
    ltac:(by apply (bool_decide_unpack (byte_ok 0 /\ fits 16 7))) ltac:(by apply (bool_decide_unpack (bytes_ok [49; 50])))
    eq_refl ltac:(done) ltac:(by apply (bool_decide_unpack (bytes_ok (replicate 92 0))))
    ltac:(by vm_compute) ltac:(cbn; unfold MAX_BUFFER_SIZE; lia) ltac:(done)
    ltac:(by apply (bool_decide_unpack (byte_ok 0))) ltac:(done) (leaf_node ready []) ltac:(done))
    as ([] & s & E & fr & p & Ha & Hd & Hf).
  exists s, fr, p. split; [exact E|]. split; [exact Ha|]. split; [exact Hd|].
  assert ((fun x => aired (look (W := demo) (air_side x.2).2))
            <$> method (W := demo) (issue (R_publish 0 7 [49; 50])) (leaf_node ready [])
          = Some [data_frame 0 0 [9; 0x0c; 0; 0; 7; 0; 1; 49; 50]]) as Hfr by (vm_compute; reflexivity).
  rewrite E in Hfr. cbn [fmap option_fmap option_map snd] in Hfr. rewrite Ha in Hfr.
  apply (inj Some) in Hfr. injection Hfr as ->.
  apply (Hf 1%nat (replicate 260 0) true false 2%nat [10] [49] (SetPort [10] [49] new_RadioManager)
           (new_radio 0 false)
           (Sim (quiet_chip [(2%nat, Packet (data_frame 0 0 [9; 0x0c; 0; 0; 7; 0; 1; 49; 50]) false)]) 0 [] : good));
    [apply usable_new|done|lia|done|done|done|].
  right. apply Z.ltb_lt. vm_compute. reflexivity.
Defined.

(** A REGACK with topic id 258 for a client that registers its first topic. *)
Definition naming : mqttsn := await REGACK (next_message_id ready).

Lemma udp_reaches_client_witness :
  exists m' r' w' fr,
    out_turn (H := gateway_radio (W := good) 0) [10] [49] (reply_bytes (Regack 1 2 0 1 0))
      (new_RadioManager, (new_radio 0 false, (Sim blank 0 [] : good))) = Some ((), (m', (r', w')))
    /\ aired (sees (w' : good)) = [fr]
    /\ exists s, Link.TryReceive (W := demo) (leaf_vtable (fun _ => []) 0) 1
         (leaf_node naming [(O, Packet fr false)]) = Some ((true, false), s)
       /\ waiting_for_response (obj (client s)) = false /\ topic_count (obj (client s)) = 1
       /\ head (topic_table (obj (client s))) = Some (Topic 0 258).
Proof.
  assert (reliable (W := good)) as HR by reflexivity.
  destruct (udp_reaches_client (L := demo) (HC := good_chip) 0 ltac:(by apply (bool_decide_unpack (fits 8 0)))
    HR (Regack 1 2 0 1 0) [10] [49] new_RadioManager (new_radio 0 false) (Sim blank 0 [] : good)
    (usable_new 0 false) ltac:(done)) as (m' & r' & w' & fr & E & Ha & _ & Hl).
  exists m', r', w', fr. split; [exact E|]. split; [exact Ha|].
  assert (expected (Regack 1 2 0 1 0) naming) as Hex
    by (split; [reflexivity|by apply (bool_decide_unpack (bytes_ok [1; 2; 0; 1]))]).
  destruct (Hl (fun _ => []) 0 naming new_MQTTSX1276 0 new_SX1276Radio
    (hearing [(O, Packet fr false)]) 0%nat false [] 1%nat
    Hex eq_refl eq_refl (or_introl eq_refl) eq_refl ltac:(lia)
    (leaf_node naming [(O, Packet fr false)]) ltac:(split; [|split]; reflexivity))
    as (res & s & Es & -> & Hw & Htc & Htt & _).
  exists s. split; [exact Es|]. split; [exact Hw|]. rewrite Htc, Htt. split; reflexivity.
Defined.
