(* ===== verification/Sketches.v ===== *)
(** The sketches that exercise the microcontroller's radio:
    [src/software/mcu/sx1276-beacon/src/beacon.ino],
    [src/software/mcu/sx1276-rx/src/rx.ino] and
    [src/software/mcu/sx1276-regdump/src/dump.ino], built for the ESP8266.

    They call class [SX1276Radio] (module Radio) without a link protocol. The
    LED, the pins and the text around the data printed are left out; the printed
    data are events. [ESP.deepSleep] is an event, after which the code runs on. *)
From S2P Require Import Prelude Format Radio.

(** What [Serial] shows of the data. *)
Inductive shown :=
  | Dump (rows : list (list Z))        (* the bytes printed in each row *)
  | Report (rx timeout crc : Z).       (* the three counts *)

Section Sketches.
Context {W : Type} `{HS : Spi W}.

(** The sketches' variables; the beacon has the first three. *)
Record sketch := Sketch {
  driver : radio * W;
  started_ok : bool;
  naps : list Z;                       (* the [deepSleep] calls, in milliseconds *)
  got_message : bool;
  rx_count : Z;
  crc_count : Z;
  timeout_count : Z;
  timeElapsed : Z;                     (* when it was last set to 0 *)
  output : list shown }.
Abbreviation M := (ST sketch).

Definition power_on (w : W) : sketch := Sketch (new_SX1276Radio, w) false [] false 0 0 0 0 [].

Definition put_driver (x : radio * W) (s : sketch) : sketch :=
  Sketch x (started_ok s) (naps s) (got_message s) (rx_count s) (crc_count s) (timeout_count s)
    (timeElapsed s) (output s).
Definition put_started (b : bool) (s : sketch) : sketch :=
  Sketch (driver s) b (naps s) (got_message s) (rx_count s) (crc_count s) (timeout_count s)
    (timeElapsed s) (output s).
Definition log_nap (ms : Z) (s : sketch) : sketch :=
  Sketch (driver s) (started_ok s) (naps s ++ [ms]) (got_message s) (rx_count s) (crc_count s)
    (timeout_count s) (timeElapsed s) (output s).
Definition put_counts (got : bool) (rx crc timeout : Z) (s : sketch) : sketch :=
  Sketch (driver s) (started_ok s) (naps s) got rx crc timeout (timeElapsed s) (output s).
Definition put_elapsed (t : Z) (s : sketch) : sketch :=
  Sketch (driver s) (started_ok s) (naps s) (got_message s) (rx_count s) (crc_count s)
    (timeout_count s) t (output s).
Definition show (o : shown) (s : sketch) : sketch :=
  Sketch (driver s) (started_ok s) (naps s) (got_message s) (rx_count s) (crc_count s)
    (timeout_count s) (timeElapsed s) (output s ++ [o]).

Definition on_driver {A} (m : ST (radio * W) A) : M A :=
  fun s => match m (driver s) with Some (a, x) => Some (a, put_driver x s) | None => None end.
Definition delay (ms : Z) : M () := on_driver (pause ms).

(** [setup] of the beacon and of the receiver, which are the same but for a
    line of text. *)
Definition setup_radio : M () :=
  delay 1000;;
  delay 10;; delay 50;;
  on_driver ReadVersion;;
  ok ← on_driver Begin;
  when ok (on_driver (SetCarrier 919000000);; on_driver ReadCarrier;; modify (put_started true));;
  delay 500.

(** [ms * 1000] is an [int]. *)
Definition go_to_sleep (ms : Z) : M () :=
  if ms * 1000 <? 2 ^ 31 then modify (log_nap ms);; delay 500 else undefined.

(** * The beacon *)
Definition BEACON_MSG : list Z := str "Hello, World! Hello, World!" ++ [0].

Definition beacon_loop : M () :=
  s ← get;
  if started_ok s then
    on_driver (TransmitMessage BEACON_MSG (Z.of_nat (length BEACON_MSG)));;
    on_driver Standby;;
    delay 500;;
    go_to_sleep 7500
  else delay 500;; delay 500.

(** * The receiver *)

(** The rows of 16 in which [received] bytes of the buffer are printed. *)
Fixpoint rows (n : nat) (l : list Z) : list (list Z) :=
  match n with
  | O => []
  | S n => take 16 l :: rows n (drop 16 l)
  end.
Definition print_rows (l : list Z) : list (list Z) :=
  rows (Z.to_nat ((Z.of_nat (length l) + 16 - 1) / 16)) l.

Definition double_short : M () := delay 250;; delay 250;; delay 250;; delay 250.

(** A count is an [int]. *)
Definition succ_int (n : Z) : M Z := if n + 1 <? 2 ^ 31 then mret (n + 1) else undefined.

(** [now] is what [millis] gives where [timeElapsed] is looked at. *)
Definition rx_loop (fuel : nat) (now : Z) : M () :=
  s ← get;
  if negb (started_ok s) then delay 500;; delay 500
  else
    when (negb (got_message s)) double_short;;
    o ← on_driver (ReceiveMessage fuel 128);
    (if ok o then
       modify (show (Dump (print_rows (bytes o))));;
       n ← succ_int (rx_count s);
       modify (put_counts true n (crc_count s) (timeout_count s))
     else if crc_error o then
       n ← succ_int (crc_count s);
       modify (put_counts (got_message s) (rx_count s) n (timeout_count s));;
       delay 600;; delay 600
     else
       n ← succ_int (timeout_count s);
       modify (put_counts (got_message s) (rx_count s) (crc_count s) n));;
    s ← get;
    when (60000 <? u32 (now - timeElapsed s))
      (modify (show (Report (rx_count s) (timeout_count s) (crc_count s)));;
       modify (put_elapsed now)).

(** * The register dump *)

(** The registers from [r] on, read without the driver. *)
Fixpoint read_from (n : nat) (r : Z) : M (list Z) :=
  match n with
  | O => mret []
  | S n =>
      v ← on_driver (ReadRegister r);
      l ← read_from n (u8 (r + 1));
      mret (v :: l)
  end.

Fixpoint rows8 (n : nat) (l : list Z) : list (list Z) :=
  match n with
  | O => []
  | S n => take 8 l :: rows8 n (drop 8 l)
  end.

Definition dump_loop : M () :=
  delay 10;; delay 50;;
  l ← read_from 0x71 0;
  modify (show (Dump (rows8 15 l)));;
  delay 100;;
  modify (log_nap 8000);;
  delay 500.
End Sketches.
Arguments sketch W : clear implicits.
