(* ===== verification/SketchesFacts.v ===== *)
(** The radio sketches against the chip of [RadioFacts]: what the beacon sends,
    what the receiver counts and prints, what the gateway makes of the beacon. *)
From S2P Require Import Prelude Format Radio RadioFacts Bridge Sketches.

(** [n] turns of a [loop]. *)
Fixpoint turns {W} (n : nat) (loop : ST W ()) : ST W () :=
  match n with O => mret () | S n => loop;; turns n loop end.

Section Sketches.
Context {W : Type} `{HS : Spi W} {HC : Sx1276 W}.

(** A receiver's turns at the times [nows]. *)
Definition rx_turns (fuel : nat) (nows : list Z) : ST (sketch W) () :=
  foldr (fun now m => rx_loop fuel now;; m) (mret ()) nows.

(** A sketch with the chip seen through [look]. *)
Definition seen (s : sketch W) : sketch view :=
  Sketch ((driver s).1, look (driver s).2) (started_ok s) (naps s) (got_message s) (rx_count s)
    (crc_count s) (timeout_count s) (timeElapsed s) (output s).
Definition is_ (t : sketch view) (s : sketch W) : Prop := seen s = t.

Lemma triple_driver {A} t (m : ST (radio * W) A) (Q : A -> radio * W -> Prop) :
  triple (at_ (driver t).1 (driver t).2) m Q ->
  triple (is_ t) (on_driver m) (fun a s => exists x, Q a x /\ is_ (put_driver (x.1, look x.2) t) s).
Proof.
  intros Hm s Hs. unfold is_ in Hs. subst t. destruct (Hm (driver s)) as (a & x & E & HQ); [done|].
  exists a, (put_driver x s). unfold on_driver. rewrite E. split; [done|].
  exists x. split; [exact HQ|reflexivity].
Qed.

Lemma triple_driver_at {A} t (m : ST (radio * W) A) r v :
  triple (at_ (driver t).1 (driver t).2) m (fun _ => at_ r v) ->
  triple (is_ t) (on_driver m) (fun _ => is_ (put_driver (r, v) t)).
Proof.
  intros Hm. eapply triple_post; [by apply triple_driver|]. by intros a s (x & [-> ->] & Hs).
Qed.

Lemma triple_delay t ms :
  triple (is_ t) (Sketches.delay ms) (fun _ => is_ (put_driver ((driver t).1, tick ms (driver t).2) t)).
Proof. apply triple_driver_at, triple_pause. Qed.

Lemma triple_modify t (f : sketch W -> sketch W) (g : sketch view -> sketch view) :
  (forall s, seen (f s) = g (seen s)) -> triple (is_ t) (modify f) (fun _ => is_ (g t)).
Proof. intros Hf s Hs. unfold is_ in *. subst t. exists (), (f s). split; [done|]. apply Hf. Qed.

Lemma triple_get t : triple (is_ t) get (fun a s => seen a = t /\ is_ t s).
Proof. intros s Hs. by exists s, s. Qed.

Lemma triple_nap t ms :
  triple (is_ t) (modify (log_nap ms)) (fun _ => is_ (log_nap ms t)).
Proof. by apply triple_modify. Qed.

(** ** Starting the radio and sending *)

(** What [setup_radio] leaves: the radio of its default settings. *)
Definition sends (r : radio) : Prop := max_tx_payload_bytes_ r = 128.

Lemma triple_setup t :
  (driver t).1 = new_SX1276Radio -> started_ok t = false ->
  triple (is_ t) setup_radio
    (fun _ s => exists r v b, is_ (put_driver (r, v) (put_started b t)) s
                  /\ sends r /\ rx_warm_ r = false /\ aired v = aired (driver t).2).
Proof.
  intros Hr Hst. unfold setup_radio.
  do 3 (eapply triple_bind; [apply triple_delay|]; intros []; cbn beta).
  cbn [driver put_driver fst snd]. rewrite Hr.
  eapply triple_bind; [apply triple_driver_at; cbn; by apply triple_read|]. intros ?; cbn beta.
  eapply triple_bind; [apply triple_driver; cbn; apply triple_Begin|].
  { split; [by apply (bool_decide_unpack _)|]. cbn. lia. }
  intros ok. cbn beta. apply triple_ex. intros [r w]. cbn [fst snd].
  apply triple_known. intros [Ha Hok]. cbn [aired tick] in Ha.
  set (t1 := put_driver _ _).
  eapply (triple_bind _ _ (fun _ s => exists r v b, is_ (put_driver (r, v) (put_started b t)) s
                  /\ sends r /\ rx_warm_ r = false /\ aired v = aired (driver t).2)).
  - destruct ok; cbn [when].
    + destruct Hok as [-> _].
      eapply triple_bind; [apply triple_driver_at; cbn; apply triple_SetCarrier|]. intros []; cbn beta.
      eapply triple_bind; [apply triple_driver; cbn; apply triple_ReadCarrier; vm_compute; done|].
      intros f; cbn beta. apply triple_ex. intros [r w']. apply triple_known.
      intros [_ [Er Ew]]. cbn [fst snd] in Er, Ew.
      eapply triple_post; [by apply (triple_modify _ _ (put_started true))|].
      intros [] s Hs. exists r, (look w'), true. split; [exact Hs|]. subst r. by rewrite Ew.
    + apply triple_ret. intros s Hs. exists r, (look w), false. subst r.
      destruct t. cbn in *. subst. done.
  - intros []. apply triple_ex. intros r'. apply triple_ex. intros v. apply triple_ex. intros b s [Hs Hrest].
    destruct (triple_delay _ 500 _ Hs) as ([] & s' & E & Hs'). exists (), s'. split; [done|].
    by exists r', (tick 500 v), b.
Qed.

Lemma triple_beacon_loop t :
  sends (driver t).1 ->
  triple (is_ t) beacon_loop
    (fun _ s => exists t', is_ t' s /\ sends (driver t').1 /\ started_ok t' = started_ok t
       /\ aired (driver t').2 = aired (driver t).2 ++ (if started_ok t then [BEACON_MSG] else [])
       /\ naps t' = naps t ++ (if started_ok t then [7500] else [])).
Proof.
  intros Hr. unfold beacon_loop. eapply triple_bind; [apply triple_get|].
  intros s0. cbn beta. apply triple_known. intros E0.
  assert (started_ok s0 = started_ok t) as -> by by subst t.
  destruct (started_ok t) eqn:Est.
  - eapply triple_bind; [apply triple_driver, triple_Transmit|].
    { by rewrite Hr. } { vm_compute. lia. }
    intros done. cbn beta. apply triple_ex. intros [r w]. cbn [fst snd].
    apply triple_known. intros (-> & Ha & _).
    assert (cut_to (max_tx_payload_bytes_ (driver t).1) BEACON_MSG = BEACON_MSG) as E by by rewrite Hr.
    rewrite E in Ha. clear E.
    eapply triple_bind.
    { apply triple_driver_at. cbn [driver put_driver fst snd]. unfold Standby.
      chip_step. chip_step. apply triple_set_this. }
    intros []; cbn beta. eapply triple_bind; [apply triple_delay|]. intros []; cbn beta.
    unfold go_to_sleep. change (7500 * 1000 <? 2 ^ 31) with true. cbv iota.
    eapply triple_bind; [apply triple_nap|]. intros []; cbn beta.
    eapply triple_post; [apply triple_delay|]. intros [] s Hs. eexists. split; [exact Hs|].
    by rewrite <- Ha.
  - eapply triple_bind; [apply triple_delay|]. intros []; cbn beta.
    eapply triple_post; [apply triple_delay|]. intros [] s Hs. eexists. split; [exact Hs|].
    by rewrite !app_nil_r.
Qed.

Lemma triple_beacon_turns n t :
  sends (driver t).1 ->
  triple (is_ t) (turns n beacon_loop)
    (fun _ s => exists t', is_ t' s /\ started_ok t' = started_ok t
       /\ aired (driver t').2 = aired (driver t).2 ++ (if started_ok t then replicate n BEACON_MSG else [])
       /\ naps t' = naps t ++ (if started_ok t then replicate n 7500 else [])).
Proof.
  revert t. induction n as [|n IH]; intros t Hr; cbn [turns].
  - apply triple_ret. intros s Hs. exists t. destruct (started_ok t); by rewrite !app_nil_r.
  - eapply triple_bind; [by apply triple_beacon_loop|]. intros []; cbn beta. apply triple_ex. intros t1.
    intros s (Hs & Hr1 & E1 & Ha & Hn). destruct (IH t1 Hr1 s Hs) as ([] & s' & E & t' & Hs' & E' & Ha' & Hn').
    exists (), s'. split; [done|]. exists t'. rewrite E', Ha', Hn', E1, Ha, Hn.
    destruct (started_ok t); cbn [replicate]; by rewrite <- ?app_assoc, ?app_nil_r.
Qed.

(** ** Receiving *)

(** A turn of the receiver on the next event: what it counts and prints. *)
Definition take_turn (o : reception) (now : Z) (t : sketch view) : sketch view :=
  let t := if ok o
           then put_counts true (rx_count t + 1) (crc_count t) (timeout_count t) (show (Dump (print_rows (bytes o))) t)
           else put_counts (got_message t) (rx_count t) (crc_count t) (timeout_count t + 1) t in
  if 60000 <? u32 (now - timeElapsed t)
  then put_elapsed now (show (Report (rx_count t) (timeout_count t) (crc_count t)) t) else t.

(** What a reception of [e] by [r] in front of [v] returns and leaves. *)
Definition landed (r : radio) (v : view) (e : event) : view := deliver e (inited r v).
Definition reported (r : radio) (v : view) (e : event) : reception :=
  received_as e 128
    (match e with
     | Quiet => []
     | Packet p _ => cells (fifo (landed r v e)) (ptr (landed r v e)) (Z.to_nat (u8 (Z.of_nat (length p) - 1)))
     end).

Lemma landed_tick r v e ms :
  regs (landed r (tick ms v) e) = regs (landed r v e) /\ fifo (landed r (tick ms v) e) = fifo (landed r v e)
  /\ ptr (landed r (tick ms v) e) = ptr (landed r v e).
Proof. unfold landed, inited. by destruct (rx_warm_ r), e. Qed.

(** The chip after a turn, as far as the next one depends on it. *)
Definition follows (r : radio) (v : view) (o : reception) (e : event) (r' : radio) (v' : view) : Prop :=
  rx_warm_ r' = true /\ arrivals v' = tail (arrivals v) /\ regs v' = regs (landed r v e)
  /\ fifo v' = fifo (landed r v e) /\ ptr v' = u8 (ptr (landed r v e) + Z.of_nat (length (bytes o))).

Lemma ptr_ok r v : fits 8 (ptr v) -> fits 8 (ptr (inited r v)).
Proof. intros Hp. unfold inited. by destruct (rx_warm_ r). Qed.

Lemma crc_unreported e l : crc_error (received_as e 128 l) = false.
Proof. destruct e; [done|]. cbn. by destruct (_ <? _). Qed.

Lemma triple_reception t fuel r v :
  driver t = (r, v) -> fits 8 (ptr v) -> ((next v).1 < fuel)%nat ->
  triple (is_ t) (on_driver (ReceiveMessage fuel 128))
    (fun o s => o = reported r v (next v).2
       /\ exists r' v', is_ (put_driver (r', v') t) s /\ follows r v o (next v).2 r' v').
Proof.
  intros Hd Hp Hf. eapply triple_post.
  { apply triple_driver. rewrite Hd.
    apply (triple_Receive r v 128 fuel (next v).1 (next v).2); [done| |done|by apply ptr_ok].
    rewrite <- surjective_pairing. unfold next, inited. by destruct (rx_warm_ r). }
  cbn beta. intros o s ([r' w] & Hq & Hs). cbn [fst snd] in *.
  destruct Hq as (-> & (rssi & snr & -> & _) & _ & Harr & Hregs & Hff & Hpp).
  split; [reflexivity|]. do 2 eexists. split; [exact Hs|]. done.
Qed.

Lemma triple_succ (P : sketch W -> Prop) n :
  n + 1 < 2 ^ 31 -> triple P (succ_int n) (fun m s => m = n + 1 /\ P s).
Proof.
  intros Hn. unfold succ_int. rewrite (proj2 (Z.ltb_lt _ _)) by done. by apply triple_ret.
Qed.

Lemma put_same t r v : driver t = (r, v) -> put_driver (r, tick 0 v) t = t.
Proof.
  destruct t, v. cbn. intros ->. unfold put_driver, tick. cbn. by rewrite Z.add_0_r.
Qed.

Lemma tick_tick a b v : tick b (tick a v) = tick (a + b) v.
Proof. unfold tick. cbn. by rewrite Z.add_assoc. Qed.

(** Until something was received the LED blinks, which only takes time. *)
Lemma triple_blink t r v :
  driver t = (r, v) ->
  triple (is_ t) (when (negb (got_message t)) double_short) (fun _ s => exists ms, is_ (put_driver (r, tick ms v) t) s).
Proof.
  intros Hd. destruct (got_message t); cbn [negb when].
  - apply triple_ret. intros s Hs. exists 0. by rewrite put_same.
  - unfold double_short. do 3 (eapply triple_bind; [apply triple_delay|]; intros []; cbn beta).
    eapply triple_post; [apply triple_delay|]. cbn [driver put_driver fst snd]. rewrite Hd.
    cbn [fst snd]. intros [] s Hs. exists 1000. rewrite !tick_tick in Hs. exact Hs.
Qed.

Lemma triple_rx_loop t fuel now r v :
  driver t = (r, v) -> started_ok t = true -> fits 8 (ptr v) -> ((next v).1 < fuel)%nat ->
  rx_count t + 1 < 2 ^ 31 -> timeout_count t + 1 < 2 ^ 31 ->
  triple (is_ t) (rx_loop fuel now)
    (fun _ s => exists r' v', is_ (take_turn (reported r v (next v).2) now (put_driver (r', v') t)) s
                  /\ follows r v (reported r v (next v).2) (next v).2 r' v').
Proof.
  intros Hd Hst Hp Hf Hrx Hto. unfold rx_loop. eapply triple_bind; [apply triple_get|].
  intros s0. cbn beta. apply triple_known. intros E0.
  assert (started_ok s0 = true /\ got_message s0 = got_message t /\ rx_count s0 = rx_count t
          /\ crc_count s0 = crc_count t /\ timeout_count s0 = timeout_count t) as (-> & -> & -> & -> & ->)
    by by subst t.
  cbn [negb].
  eapply triple_bind; [by apply (triple_blink t r v)|]. intros []. cbn beta. apply triple_ex. intros ms.
  set (t1 := put_driver (r, tick ms v) t).
  eapply triple_bind; [apply (triple_reception t1 fuel r (tick ms v)); done|].
  intros o; cbn beta. change (next (tick ms v)) with (next v).
  assert (reported r (tick ms v) (next v).2 = reported r v (next v).2) as ->.
  { unfold reported. destruct (landed_tick r v (next v).2 ms) as (_ & -> & ->). done. }
  apply triple_known. intros ->. set (o := reported r v (next v).2) in *.
  apply triple_ex. intros r'. apply triple_ex. intros v'.
  eapply (triple_pre _ (fun s => follows r v o (next v).2 r' v' /\ is_ (put_driver (r', v') t) s)).
  2: { intros s [Hs Hfo]. split; [|exact Hs]. unfold follows in *. cbn [arrivals tick] in Hfo.
       destruct (landed_tick r v (next v).2 ms) as (E1 & E2 & E3). by rewrite E1, E2, E3 in Hfo. }
  apply triple_known. intros Hfo.
  eapply (triple_bind _ _ (fun _ => is_ (if ok o
    then put_counts true (rx_count t + 1) (crc_count t) (timeout_count t)
           (show (Dump (print_rows (bytes o))) (put_driver (r', v') t))
    else put_counts (got_message t) (rx_count t) (crc_count t) (timeout_count t + 1) (put_driver (r', v') t)))).
  - assert (crc_error o = false) as Hc by (subst o; apply crc_unreported).
    clearbody o. destruct (ok o); [|rewrite Hc].
    + eapply triple_bind; [by apply (triple_modify _ _ (show (Dump (print_rows (bytes o)))))|].
      intros []; cbn beta. eapply triple_bind; [by apply triple_succ|].
      intros n; cbn beta. apply triple_known. intros ->. by apply triple_modify.
    + eapply triple_bind; [by apply triple_succ|].
      intros n; cbn beta. apply triple_known. intros ->. by apply triple_modify.
  - intros []. cbn beta. set (t2 := if ok o then _ else _).
    eapply triple_bind; [apply triple_get|]. intros s1; cbn beta. apply triple_known. intros E1.
    assert (timeElapsed s1 = timeElapsed t2 /\ rx_count s1 = rx_count t2 /\ crc_count s1 = crc_count t2
            /\ timeout_count s1 = timeout_count t2) as (-> & -> & -> & ->) by by rewrite <- E1.
    assert (take_turn o now (put_driver (r', v') t)
            = if 60000 <? u32 (now - timeElapsed t2)
              then put_elapsed now (show (Report (rx_count t2) (timeout_count t2) (crc_count t2)) t2) else t2)
      as Et by (subst t2; unfold take_turn; destruct (ok o); done).
    eapply (triple_post _ _ (fun _ => is_ (take_turn o now (put_driver (r', v') t))));
      [rewrite Et|intros [] s Hs; by exists r', v'].
    destruct (60000 <? _); cbn [when].
    + eapply triple_bind; [by apply (triple_modify _ _ (show (Report (rx_count t2) (timeout_count t2) (crc_count t2))))|].
      intros []; cbn beta. by apply triple_modify.
    + by apply triple_ret.
Qed.

(** *** Several turns *)

(** A packet the receiver takes for a message. *)
Definition fits_buffer (e : event) : bool :=
  match e with Packet p _ => u8 (Z.of_nat (length p) - 1) <=? 128 | Quiet => false end.

Lemma ok_reported r v e : ok (reported r v e) = fits_buffer e.
Proof. destruct e as [|p c]; [done|]. cbn. rewrite Z.ltb_antisym. by destruct (_ <=? 128). Qed.

(** The messages among the next [n] events. *)
Definition messages (n : nat) (v : view) : nat := length (List.filter fits_buffer (take n (arrivals v).*2)).

Lemma messages_next n v v' :
  arrivals v' = tail (arrivals v) ->
  messages (S n) v = ((if fits_buffer (next v).2 then 1 else 0) + messages n v')%nat.
Proof.
  intros E. unfold messages. rewrite E. unfold next.
  destruct (arrivals v) as [|[k e] l]; [by destruct n|]. cbn. by destruct (fits_buffer e).
Qed.

Lemma messages_le n v : (messages n v <= n)%nat.
Proof.
  unfold messages. etransitivity; [apply List.filter_length_le|]. rewrite length_take. lia.
Qed.

Lemma triple_rx_turns nows : forall t fuel r v,
  driver t = (r, v) -> started_ok t = true -> fits 8 (ptr v) ->
  Forall (fun a => (a.1 < fuel)%nat) (arrivals v) -> (0 < fuel)%nat ->
  rx_count t + Z.of_nat (length nows) < 2 ^ 31 -> timeout_count t + Z.of_nat (length nows) < 2 ^ 31 ->
  triple (is_ t) (rx_turns fuel nows)
    (fun _ s => let k := messages (length nows) v in
       rx_count s = rx_count t + Z.of_nat k /\ crc_count s = crc_count t
       /\ timeout_count s = timeout_count t + Z.of_nat (length nows - k)).
Proof.
  induction nows as [|now nows IH]; intros t fuel r v Hd Hst Hp Hf Hf0 Hrx Hto.
  { apply triple_ret. intros s Hs. unfold is_ in Hs. subst t. cbn. rewrite !Z.add_0_r. done. }
  cbn [length] in *. change (rx_turns fuel (now :: nows)) with (rx_loop fuel now;; rx_turns fuel nows).
  eapply triple_bind; [apply (triple_rx_loop t fuel now r v Hd Hst Hp); [|lia..]|].
  { unfold next. destruct (arrivals v); [done|]. by inversion Hf. }
  intros []; cbn beta. set (o := reported _ _ _).
  apply triple_ex. intros r'. apply triple_ex. intros v' s [Hs (Hw & Ha & _ & _ & Hp')].
  set (t' := take_turn o now (put_driver (r', v') t)) in *.
  assert (driver t' = (r', v') /\ started_ok t' = true /\ crc_count t' = crc_count t
          /\ rx_count t' = rx_count t + (if ok o then 1 else 0)
          /\ timeout_count t' = timeout_count t + (if ok o then 0 else 1)) as (Hd' & Hst' & Hc' & Hrx' & Hto').
  { subst t'. unfold take_turn. destruct (ok o), (60000 <? _); cbn; rewrite ?Z.add_0_r; auto. }
  destruct (IH t' fuel r' v' Hd' Hst') with s as ([] & s' & E & Hk); rewrite ?Hp', ?Ha; auto with words.
  { by destruct (arrivals v); inversion Hf. }
  { rewrite Hrx'. destruct (ok o); lia. } { rewrite Hto'. destruct (ok o); lia. }
  exists (), s'. split; [done|]. cbn zeta in *. rewrite (messages_next _ v v' Ha).
  pose proof (messages_le (length nows) v'). subst o. rewrite ok_reported in *.
  rewrite Hc', Hrx', Hto' in Hk. destruct (fits_buffer _); lia.
Qed.

(** ** What is printed *)

(** The bytes of the messages printed, each read across its rows. *)
Definition printed (l : list shown) : list (list Z) :=
  omap (fun o => match o with Dump rows => Some (concat rows) | Report _ _ _ => None end) l.

Lemma concat_rows n l : (length l <= 16 * n)%nat -> concat (rows n l) = l.
Proof.
  revert l. induction n as [|n IH]; intros l Hl.
  - by destruct l; [|cbn in Hl; lia].
  - cbn [rows concat]. rewrite IH by (rewrite length_drop; lia). apply take_drop.
Qed.

Lemma concat_print_rows l : concat (print_rows l) = l.
Proof. apply concat_rows. unfold print_rows. Z.div_mod_to_equations. lia. Qed.

Lemma printed_turn o now t :
  printed (output (take_turn o now t)) = printed (output t) ++ (if ok o then [bytes o] else []).
Proof.
  unfold take_turn, printed. destruct (ok o), (60000 <? _); cbn [output show put_counts put_elapsed];
    rewrite ?omap_app; cbn; by rewrite ?concat_print_rows, ?app_nil_r.
Qed.

Lemma bytes_reported r v p c :
  (1 <= length p <= 129)%nat ->
  reported r v (Packet p c)
  = Reception true (cells (fifo (landed r v (Packet p c))) (ptr (landed r v (Packet p c))) (length p - 1)) false.
Proof.
  intros Hl. unfold reported, received_as.
  replace (u8 (Z.of_nat (length p) - 1)) with (Z.of_nat (length p) - 1) by word_lia.
  rewrite (proj2 (Z.ltb_ge 128 _)) by lia.
  by replace (Z.to_nat (Z.of_nat (length p) - 1)) with (length p - 1)%nat by lia.
Qed.

Lemma messages_two t fuel now1 now2 r v k1 k2 p q c1 c2 rest :
  driver t = (r, v) -> started_ok t = true -> rx_warm_ r = false -> fits 8 (ptr v) ->
  arrivals v = (k1, Packet p c1) :: (k2, Packet q c2) :: rest ->
  (2 <= length p <= 128)%nat -> length q = length p -> (k1 < fuel)%nat -> (k2 < fuel)%nat ->
  rx_count t + 2 < 2 ^ 31 -> timeout_count t + 2 < 2 ^ 31 ->
  let n := length p in
  triple (is_ t) (rx_turns fuel [now1; now2])
    (fun _ s => printed (output s)
       = printed (output t) ++ [take (n - 1) p; drop (n - 1) q ++ cells (fifo v) (Z.of_nat n) (n - 2)]).
Proof.
  intros Hd Hst Hw Hp Ha Hl Hq Hk1 Hk2 Hrx Hto n. cbn [rx_turns foldr].
  assert (next v = (k1, Packet p c1)) as En by (unfold next; by rewrite Ha).
  eapply triple_bind; [apply (triple_rx_loop t fuel now1 r v Hd Hst Hp); rewrite ?En; [done|lia..]|].
  rewrite En. cbn [snd]. intros []; cbn beta.
  rewrite bytes_reported by lia. unfold landed, deliver, inited. rewrite Hw. cbn [fifo ptr regs set_reg set_ptr tick].
  repeat first [rewrite lookup_total_insert_eq | rewrite lookup_total_insert_ne by done].
  rewrite cells_fill by (done || lia).
  set (o1 := Reception true _ false). apply triple_ex. intros r1. apply triple_ex. intros v1 s1.
  intros [Hs1 Hv1].
  set (t1 := take_turn o1 now1 (put_driver (r1, v1) t)) in *.
  assert (driver t1 = (r1, v1) /\ started_ok t1 = true /\ rx_count t1 = rx_count t + 1
          /\ timeout_count t1 = timeout_count t) as (Hd1 & Hst1 & Hrx1 & Hto1).
  { subst t1. unfold take_turn. cbn [ok o1]. by destruct (60000 <? _). }
  assert (printed (output t1) = printed (output t) ++ [take (n - 1) p]) as Ho1
    by (subst t1; by rewrite printed_turn).
  destruct Hv1 as (Hw1 & Ha1 & Hr1 & Hf1 & Hp1). cbn [fifo ptr regs] in *. rewrite Ha in Ha1. cbn [tail] in Ha1.
  assert (next v1 = (k2, Packet q c2)) as En1 by (unfold next; by rewrite Ha1).
  destruct (triple_rx_loop t1 fuel now2 r1 v1 Hd1 Hst1) with s1 as ([] & s2 & E2 & r2 & v2 & Hs2 & _);
    rewrite ?En1, ?Hp1; auto with words; [lia..|].
  rewrite ST_bind_eq, E2. cbn beta iota. exists (), s2. split; [done|].
  unfold is_ in Hs2. change (output s2) with (output (seen s2)). rewrite Hs2, En1. cbn [snd].
  rewrite printed_turn, bytes_reported by lia. cbn [ok bytes output put_driver]. rewrite Ho1, <- app_assoc.
  f_equal. cbn [app]. f_equal. f_equal. unfold landed at 1 2, inited. rewrite Hw1. cbn [deliver fifo ptr].
  rewrite Hr1, Hp1, Hf1. unfold landed, inited. rewrite Hw. cbn [deliver fifo ptr regs set_reg set_ptr tick].
  repeat first [rewrite lookup_total_insert_eq | rewrite lookup_total_insert_ne by done].
  cbn [bytes o1]. rewrite length_take. change RX_BASE_ADDR with 0.
  rewrite trunc_small by (unfold fits; lia).
  replace (0 + Z.of_nat ((length p - 1) `min` length p)) with (Z.of_nat (length q) - 1) by lia.
  rewrite cells_behind by lia. rewrite Hq, cells_past_fill by lia. done.
Qed.

(** ** The register dump *)
Lemma triple_read_from n : forall r (P : sketch W -> Prop),
  (forall x s, P s -> P (put_driver x s)) ->
  triple P (read_from n r) (fun l s => length l = n /\ P s).
Proof.
  induction n as [|n IH]; intros r P HP; cbn [read_from]; [by apply triple_ret|].
  eapply (triple_bind _ _ (fun _ => P)).
  { intros s Hs. unfold on_driver, ReadRegister, chip. destruct (driver s) as [x w].
    destruct (transaction r 0 w) as [y w']. exists y, (put_driver (x, w') s). auto. }
  intros y. eapply triple_bind; [by apply IH|]. intros l. cbn beta. apply triple_known. intros <-.
  by apply triple_ret.
Qed.
End Sketches.

(** * Properties *)

(** Also: from power-on, whatever the chip answers, the beacon's [setup] and any
    number of turns of its [loop] end; when [setup] found the radio every turn
    has put exactly the 28 bytes of [BEACON_MSG] on the air, once, and has
    asked for 7.5 s of sleep; when it did not nothing was sent. *)
Theorem beacon_run {W} `{HS : Spi W} {HC : Sx1276 W} n (w : W) :
  exists s, (setup_radio;; turns n beacon_loop) (power_on w) = Some ((), s)
    /\ aired (look (driver s).2) = aired (look w) ++ (if started_ok s then replicate n BEACON_MSG else [])
    /\ naps s = (if started_ok s then replicate n 7500 else []).
Proof.
  destruct (triple_setup (seen (power_on w)) eq_refl eq_refl (power_on w) eq_refl)
    as ([] & s1 & E1 & r & v & b & Hs1 & Hr & _ & Ha).
  destruct (triple_beacon_turns n (put_driver (r, v) (put_started b (seen (power_on w)))) Hr _ Hs1) as ([] & s & E & t' & Hs & Est & Ha' & Hn).
  exists s. rewrite ST_bind_eq, E1, E. split; [done|]. unfold is_ in Hs. subst t'.
  change (started_ok (seen s)) with (started_ok s) in *. change (naps (seen s)) with (naps s) in Hn.
  change (driver (seen s)).2 with (look (driver s).2) in Ha'. cbn in Ha, Ha', Hn, Est.
  by rewrite Ha', Hn, Ha, Est.
Qed.

(** Also: the gateway counts the beacon's message as a frame whose check byte is
    wrong and delivers nothing of it, whatever else its buffer holds. *)
Theorem beacon_is_noise room junk m :
  handle_frame room (BEACON_MSG ++ junk) (Z.of_nat (length BEACON_MSG)) m = Some (inr false, count_xorv m).
Proof.
  unfold handle_frame. change (Z.of_nat (length BEACON_MSG)) with 28.
  change (u32 (28 - 1)) with 27. unfold xor_bytes.
  rewrite (proj2 (Z.leb_le 27 _)) by (rewrite length_app; cbn; lia).
  rewrite take_app_le by (cbn; lia). reflexivity.
Qed.

(** Also: the receiver counts every event of the air exactly once: as a message
    when it is a packet that fits, with or without a CRC error, otherwise as a
    timeout; its count of CRC errors never moves. *)
Theorem rx_counts {W} `{HS : Spi W} {HC : Sx1276 W} fuel nows (s : sketch W) :
  let v := look (driver s).2 in
  started_ok s = true -> fits 8 (ptr v) -> (0 < fuel)%nat ->
  Forall (fun a => (a.1 < fuel)%nat) (arrivals v) ->
  rx_count s + Z.of_nat (length nows) < 2 ^ 31 -> timeout_count s + Z.of_nat (length nows) < 2 ^ 31 ->
  exists s', rx_turns fuel nows s = Some ((), s') /\
    let k := messages (length nows) v in
    rx_count s' = rx_count s + Z.of_nat k /\ crc_count s' = crc_count s
    /\ timeout_count s' = timeout_count s + Z.of_nat (length nows - k).
Proof.
  intros v Hst Hp Hf0 Hf Hrx Hto.
  destruct (triple_rx_turns nows (seen s) fuel (driver s).1 v eq_refl Hst Hp Hf Hf0 Hrx Hto s eq_refl)
    as ([] & s' & E & Hk). by exists s'.
Qed.

(** Also: the receiver never rewinds the radio between messages: of two messages
    of the same length in a row it prints the first without its last byte, and
    of the second only its last byte, followed by what the FIFO held before. *)
Theorem rx_garbles_second {W} `{HS : Spi W} {HC : Sx1276 W} fuel now1 now2 (s : sketch W) k1 k2 p q c1 c2 rest :
  let v := look (driver s).2 in
  started_ok s = true -> rx_warm_ (driver s).1 = false -> fits 8 (ptr v) ->
  arrivals v = (k1, Packet p c1) :: (k2, Packet q c2) :: rest ->
  (2 <= length p <= 128)%nat -> length q = length p -> (k1 < fuel)%nat -> (k2 < fuel)%nat ->
  rx_count s + 2 < 2 ^ 31 -> timeout_count s + 2 < 2 ^ 31 ->
  let n := length p in
  exists s', rx_turns fuel [now1; now2] s = Some ((), s') /\
    printed (output s') = printed (output s)
      ++ [take (n - 1) p; drop (n - 1) q ++ cells (fifo v) (Z.of_nat n) (n - 2)].
Proof.
  intros v Hst Hw Hp Ha Hl Hq Hk1 Hk2 Hrx Hto n.
  destruct (messages_two (seen s) fuel now1 now2 (driver s).1 v k1 k2 p q c1 c2 rest
              eq_refl Hst Hw Hp Ha Hl Hq Hk1 Hk2 Hrx Hto s eq_refl) as ([] & s' & E & Ho).
  by exists s'.
Qed.

(** Also: a turn of the register dump prints 0x71 values in rows of eight and asks
    for 8 s of sleep. *)
Theorem dump_prints {W} `{HS : Spi W} (s : sketch W) :
  exists s' l, dump_loop s = Some ((), s') /\ length l = 113%nat
    /\ output s' = output s ++ [Dump (rows8 15 l)] /\ naps s' = naps s ++ [8000].
Proof.
  set (P := fun s' : sketch W => output s' = output s /\ naps s' = naps s).
  assert (forall ms, triple P (Sketches.delay ms) (fun _ => P)) as Hd.
  { intros ms s' Hs'. unfold Sketches.delay, on_driver, pause, chip. destruct (driver s') as [r w].
    by exists (), (put_driver (r, Radio.delay ms w) s'). }
  assert (triple P dump_loop (fun _ s' => exists l, length l = 113%nat
    /\ output s' = output s ++ [Dump (rows8 15 l)] /\ naps s' = naps s ++ [8000])) as Ht.
  - unfold dump_loop. do 2 (eapply triple_bind; [apply Hd|]; intros []; cbn beta).
    eapply triple_bind; [by apply triple_read_from|]. intros l; cbn beta. apply triple_known. intros Hl.
    intros [[r w] ?] [Ho Hn]. do 2 eexists. split; [reflexivity|].
    exists l. cbn in *. by rewrite Ho, Hn.
  - destruct (Ht s) as ([] & s' & E & l & Hl); [done|]. by exists s', l.
Qed.

(** ** Witnesses *)

(** A receiver that has started in front of the beacon's messages. *)
Definition receiver : sketch demo :=
  Sketch (with_alive new_SX1276Radio, View ∅ ∅ 0 [] 0 0 None [(3%nat, Packet BEACON_MSG false); (1%nat, Packet BEACON_MSG true)])
    true [] false 0 0 0 0 [].

Lemma rx_counts_witness :
  exists s', rx_turns 10 [100; 200; 300] receiver = Some ((), s')
    /\ rx_count s' = 2 /\ crc_count s' = 0 /\ timeout_count s' = 1.
Proof.
  destruct (rx_counts 10 [100; 200; 300] receiver eq_refl) as (s' & E & Hk);
    [cbn; unfold fits; lia|lia|repeat (constructor; [cbn; lia|]); constructor|cbn; lia..|].
  exists s'. split; [exact E|exact Hk].
Defined.

(** Of the beacon's message the receiver prints the text without its NUL, then
    the NUL and the cells of the FIFO after it (1 where nothing was stored). *)
Lemma rx_garbles_second_witness :
  exists s', rx_turns 10 [100; 200] receiver = Some ((), s')
    /\ printed (output s') = [str "Hello, World! Hello, World!"; 0 :: replicate 26 1].
Proof.
  destruct (rx_garbles_second 10 100 200 receiver 3 1 BEACON_MSG BEACON_MSG false true []) as (s' & E & Hk);
    [reflexivity|reflexivity|cbn; unfold fits; lia|reflexivity|cbn; lia|reflexivity|lia|lia|cbn; lia|cbn; lia|].
  exists s'. split; [exact E|]. rewrite Hk. vm_compute. reflexivity.
Defined.
