(* ===== verification/Sensors.v ===== *)
(** The leaf node's sensors and its record of measurements:
    [src/software/mcu/libraries/sentrifarm/] [sf-util.h], [sf-ds1307.h] (the
    clock and its memory), [sf-pcf8591.h] (the converter), [sf-sensordata.h],
    [sf-bmp180.h], and [boot_count] of [src/software/mcu/leaf/src/leaf.ino].

    The I2C bus is class [Wire], Arduino's object of that name. A [float] is a
    [spec_float] of the Standard Library with the format of binary32. Output is
    left out, and with it the members of [SensorData] that are only printed. *)
From Stdlib Require Import SpecFloat.
From S2P Require Import Prelude IpAddr Format.

(** * sf-util.h *)
Abbreviation float := spec_float.
Definition f32 (x : Z) : float := binary_normalize 24 128 x 0 false.
Definition fadd := SFadd 24 128.
Definition fsub := SFsub 24 128.
Definition fmul := SFmul 24 128.
Definition fdiv := SFdiv 24 128.

(** The value of a finite number times [2 ^ k], truncated or rounded down. *)
Definition trunc_of (f : float) : option Z :=
  match f with
  | S754_zero _ => Some 0
  | S754_finite s m e =>
      let x := if s then Z.neg m else Z.pos m in
      Some (Z.quot (x * 2 ^ Z.max e 0) (2 ^ Z.max (- e) 0))
  | _ => None
  end.
Definition floorf (f : float) : float :=
  match f with
  | S754_finite s m e =>
      let x := if s then Z.neg m else Z.pos m in
      if 0 <=? e then f else f32 (x / 2 ^ (- e))
  | _ => f
  end.

(** The conversion to [int]; out of range it is undefined. *)
Definition int_of (f : float) : option Z :=
  x ← trunc_of f; if decide (- 2 ^ 31 <= x < 2 ^ 31) then Some x else None.
(** The conversion to [byte]. *)
Definition byte_of (f : float) : option Z :=
  x ← trunc_of f; if decide (fits 8 x) then Some x else None.

Definition fraction (v : float) : option Z := int_of (fmul (fsub v (floorf v)) (f32 10)).
Definition decToBcd (val : Z) : Z := u8 (Z.quot val 10 * 16 + Z.rem val 10).
Definition bcdToDec (val : Z) : Z := u8 (Z.quot val 16 * 10 + Z.rem val 16).
Definition bin2bcd (val : Z) : Z := u8 (val + 6 * (val / 10)).

(** * sf-sensordata.h *)
Record datetime := Datetime {
  second : Z; minute : Z; hour : Z; dayOfWeek : Z; dayOfMonth : Z; month : Z; year : Z }.

Record sensor_data := SensorData {
  beacon_mode : bool;
  bootCount : Z;
  chipVcc : Z;
  mac : list Z;
  have_mac : bool;
  have_radio : bool;
  radio_version : Z;
  rssi : Z;
  snr : Z;
  have_bmp180 : bool;
  ambient_hpa : float;
  ambient_degc : float;
  altitude_m : float;
  have_pcf8591 : bool;
  adc_data : list Z;         (* adc_data0 to adc_data3 *)
  have_date : bool;
  date : datetime;
  have_humidity : bool;
  humidity : float;
  humidity_temp : float }.

(** All bytes zero, then [reset]. *)
Definition sensor_reset : sensor_data :=
  SensorData false (s32 0xffffffff) 0 (replicate 6 0) false false 0 0 0
    false (f32 0) (f32 0) (f32 0) false (replicate 4 0) false (Datetime 0 0 0 0 0 0 0)
    false (f32 (-1)) (f32 (-1)).

Definition with_boot (n : Z) (d : sensor_data) : sensor_data :=
  SensorData (beacon_mode d) n (chipVcc d) (mac d) (have_mac d) (have_radio d) (radio_version d) (rssi d)
    (snr d) (have_bmp180 d) (ambient_hpa d) (ambient_degc d) (altitude_m d) (have_pcf8591 d)
    (adc_data d) (have_date d) (date d) (have_humidity d) (humidity d) (humidity_temp d).
Definition with_chip (vcc : Z) (m : list Z) (d : sensor_data) : sensor_data :=
  SensorData (beacon_mode d) (bootCount d) vcc m true (have_radio d) (radio_version d) (rssi d)
    (snr d) (have_bmp180 d) (ambient_hpa d) (ambient_degc d) (altitude_m d) (have_pcf8591 d)
    (adc_data d) (have_date d) (date d) (have_humidity d) (humidity d) (humidity_temp d).
Definition with_radio (have : bool) (version : Z) (d : sensor_data) : sensor_data :=
  SensorData (beacon_mode d) (bootCount d) (chipVcc d) (mac d) (have_mac d) have version
    (if have then 0 else rssi d)
    (snr d) (have_bmp180 d) (ambient_hpa d) (ambient_degc d) (altitude_m d) (have_pcf8591 d)
    (adc_data d) (have_date d) (date d) (have_humidity d) (humidity d) (humidity_temp d).
Definition with_link (r s : Z) (d : sensor_data) : sensor_data :=
  SensorData (beacon_mode d) (bootCount d) (chipVcc d) (mac d) (have_mac d) (have_radio d)
    (radio_version d) r s (have_bmp180 d) (ambient_hpa d) (ambient_degc d) (altitude_m d)
    (have_pcf8591 d) (adc_data d) (have_date d) (date d) (have_humidity d) (humidity d)
    (humidity_temp d).
Definition with_bmp (have : bool) (hpa degc alt : float) (d : sensor_data) : sensor_data :=
  SensorData (beacon_mode d) (bootCount d) (chipVcc d) (mac d) (have_mac d) (have_radio d)
    (radio_version d) (rssi d) (snr d) have hpa degc alt (have_pcf8591 d) (adc_data d)
    (have_date d) (date d) (have_humidity d) (humidity d) (humidity_temp d).
Definition with_adc (have : bool) (l : list Z) (d : sensor_data) : sensor_data :=
  SensorData (beacon_mode d) (bootCount d) (chipVcc d) (mac d) (have_mac d) (have_radio d)
    (radio_version d) (rssi d) (snr d) (have_bmp180 d) (ambient_hpa d) (ambient_degc d)
    (altitude_m d) have l (have_date d) (date d) (have_humidity d) (humidity d) (humidity_temp d).
Definition with_date (have : bool) (t : datetime) (d : sensor_data) : sensor_data :=
  SensorData (beacon_mode d) (bootCount d) (chipVcc d) (mac d) (have_mac d) (have_radio d)
    (radio_version d) (rssi d) (snr d) (have_bmp180 d) (ambient_hpa d) (ambient_degc d)
    (altitude_m d) (have_pcf8591 d) (adc_data d) have t (have_humidity d) (humidity d)
    (humidity_temp d).

Definition with_humidity (h t : float) (d : sensor_data) : sensor_data :=
  SensorData (beacon_mode d) (bootCount d) (chipVcc d) (mac d) (have_mac d) (have_radio d)
    (radio_version d) (rssi d) (snr d) (have_bmp180 d) (ambient_hpa d) (ambient_degc d)
    (altitude_m d) (have_pcf8591 d) (adc_data d) (have_date d) (date d) true h t.
Definition with_beacon (b : bool) (d : sensor_data) : sensor_data :=
  SensorData b (bootCount d) (chipVcc d) (mac d) (have_mac d) (have_radio d)
    (radio_version d) (rssi d) (snr d) (have_bmp180 d) (ambient_hpa d) (ambient_degc d)
    (altitude_m d) (have_pcf8591 d) (adc_data d) (have_date d) (date d) (have_humidity d)
    (humidity d) (humidity_temp d).

Definition PCF8591_VREF := 2490.

(** [int v = float(adc) * PCF8591_VREF / 256.F] *)
Definition millivolts (adc : Z) : option Z :=
  int_of (fdiv (fmul (f32 adc) (f32 PCF8591_VREF)) (f32 256)).

(** The two numbers a [float] is printed as. *)
Definition tenths (v : float) : option (list Z) :=
  i ← int_of (floorf v); f ← fraction v; Some (sdec i ++ str "." ++ sdec f).

(** The text [make_mqtt_0] prints; 44 is the comma. *)
Definition mqtt_text (d : sensor_data) : option (list Z) :=
  hpa ← tenths (ambient_hpa d); degc ← tenths (ambient_degc d);
  hum ← tenths (humidity d); humt ← tenths (humidity_temp d);
  mv ← mapM millivolts (adc_data d);
  let t := date d in
  Some (str "X," ++ concat ((fun b => sdec (b2z b)) <$>
          [have_mac d; have_date d; have_bmp180 d; have_pcf8591 d; have_humidity d]) ++ [44]
        ++ sdec (bootCount d) ++ [44] ++ sdec (radio_version d) ++ [44] ++ sdec (snr d) ++ [44]
        ++ concat (sdec02 <$> [month t; dayOfMonth t; hour t; minute t; second t]) ++ [44]
        ++ hpa ++ [44] ++ degc ++ [44]
        ++ concat ((fun v => sdec v ++ [44]) <$> mv)
        ++ hum ++ [44] ++ humt ++ [44] ++ sdec (chipVcc d)).

(** [make_mqtt_0(buf, len)] *)
Definition make_mqtt_0 (buf : list Z) (len : nat) (d : sensor_data) : option (list Z) :=
  text ← mqtt_text d; snprintf buf 0 len text.

(** * The bus (Arduino's Wire; not under src/) *)
Class Wire (W : Type) := {
  beginTransmission : Z -> W -> W;
  wire_write : Z -> W -> W;
  endTransmission : W -> Z * W;
  requestFrom : Z -> Z -> W -> W;
  available : W -> bool;
  wire_read : W -> Z * W;          (* -1: no byte is left *)
  wire_delay : Z -> W -> W }.

Definition D1307_I2C_ADDR := 0x68.
Definition PCF8591_I2C_ADDR := Z.shiftr 0x90 1.

Section Bus.
Context {W : Type} `{Wire W}.
Abbreviation M := (ST W).
Definition begin_tx (a : Z) : M () := modify (beginTransmission a).
Definition put_byte (b : Z) : M () := modify (wire_write (u8 b)).
Definition end_tx : M Z := fun w => Some (endTransmission w).
Definition request (a n : Z) : M () := modify (requestFrom a n).
Definition get_byte : M Z := fun w => Some (wire_read w).
Definition is_available : M bool := fun w => Some (available w, w).
Definition pause (ms : Z) : M () := modify (wire_delay ms).

(** * sf-ds1307.h *)

(** A [byte] argument of [bcdToDec]: the [int] read, truncated. *)
Definition bcd_byte (mask : Z) : M Z := b ← get_byte; mret (bcdToDec (u8 (Z.land b mask))).

Definition read_datetime_once (d : sensor_data) : M sensor_data :=
  begin_tx D1307_I2C_ADDR;; put_byte 0;;
  error ← end_tx;
  if negb (error =? 0) then mret (with_date false (date d) d)
  else
    request D1307_I2C_ADDR 8;;
    s ← bcd_byte 0x7f; mi ← bcd_byte (-1); h ← bcd_byte 0x3f; dw ← bcd_byte (-1);
    dm ← bcd_byte (-1); mo ← bcd_byte (-1); y ← bcd_byte (-1);
    get_byte;;
    error ← end_tx;
    mret (with_date (error =? 0) (Datetime s mi h dw dm mo y) d).

Definition read_nvram_byte (a : Z) : M Z :=
  begin_tx D1307_I2C_ADDR;; put_byte (a + 0x8);; end_tx;;
  request D1307_I2C_ADDR 1;;
  value ← get_byte;
  end_tx;;
  mret (u8 value).

Definition save_nvram_byte (a value : Z) : M () :=
  begin_tx D1307_I2C_ADDR;; put_byte (a + 0x8);; put_byte value;; end_tx;; mret ().

(** The clock set to the time in the source, then read again. *)
Definition fix_datetime_once (blah : sensor_data) : M sensor_data :=
  blah ← read_datetime_once blah;
  begin_tx D1307_I2C_ADDR;;
  put_byte 0;; put_byte 0;; put_byte (bin2bcd 41);; put_byte (Z.land (bin2bcd 12) (Z.lnot 0x40));;
  put_byte 5;; put_byte (bin2bcd 3);; put_byte (bin2bcd 12);; put_byte (bin2bcd 15);; put_byte 0;;
  error ← end_tx;
  if negb (error =? 0) then mret blah else read_datetime_once blah.

(** [boot_count] (leaf.ino) *)
Definition boot_count (in_beacon_mode : bool) (d : sensor_data) : M sensor_data :=
  b0 ← read_nvram_byte 10; b1 ← read_nvram_byte 11;
  b2 ← read_nvram_byte 12; b3 ← read_nvram_byte 13;
  let bc := Z.lor (Z.lor (Z.lor (Z.shiftl b0 24) (Z.shiftl b1 16)) (Z.shiftl b2 8)) b3 in
  let bc := u32 (bc + 1) in
  let bc := if (in_beacon_mode : bool) then 0 else bc in
  save_nvram_byte 10 (Z.shiftr (Z.land bc 0xff000000) 24);;
  save_nvram_byte 11 (Z.shiftr (Z.land bc 0xff0000) 16);;
  save_nvram_byte 12 (Z.shiftr (Z.land bc 0xff00) 8);;
  save_nvram_byte 13 (Z.land bc 0xff);;
  mret (with_boot (s32 bc) d).

(** * sf-pcf8591.h *)

(** [abs] of Arduino: [x > 0 ? x : -x]. *)
Definition fabs (f : float) : float := SFabs f.

Definition sum_f (l : list Z) : float := fold_left (fun mean v => fadd mean (f32 v)) l (f32 0).

(** The value of a channel from its samples. *)
Definition average (value : list Z) : option Z :=
  let mean := fdiv (sum_f value) (f32 5) in
  dist ← mapM (fun v => byte_of (fabs (fsub (f32 v) mean))) value;
  let meandist := fdiv (sum_f dist) (f32 5) in
  if SFltb (f32 0) meandist then
    let valid := (filter (fun p => SFltb (f32 p.2) meandist = true) (zip value dist)).*1 in
    let mean := sum_f valid in
    byte_of (if (0 <? length valid)%nat then fdiv mean (f32 (Z.of_nat (length valid))) else mean)
  else byte_of mean.

(** [None]: no byte was available. *)
Fixpoint sample_loop (n : nat) (value : list Z) : M (option (list Z)) :=
  match n with
  | O => mret (Some value)
  | S n =>
      request PCF8591_I2C_ADDR 2;;
      a ← is_available;
      if negb a then mret None
      else
        get_byte;;
        a ← is_available;
        if negb a then mret None
        else b ← get_byte; sample_loop n (value ++ [u8 b])
  end.

(** The end of the function, after the label [done]. *)
Definition dac_off : M () := begin_tx PCF8591_I2C_ADDR;; put_byte 0;; end_tx;; mret ().

Fixpoint channel_loop (todo : nat) (ch : Z) (d : sensor_data) : M sensor_data :=
  match todo with
  | O => dac_off;; mret (with_adc true (adc_data d) d)
  | S todo =>
      begin_tx PCF8591_I2C_ADDR;; put_byte (Z.lor ch 0x40);; put_byte 0;;
      error ← end_tx;
      if negb (error =? 0) then mret d
      else
        value ← sample_loop 5 [];
        match (value : option (list Z)) with
        | None => dac_off;; mret d
        | Some value =>
            adcValue ← lift_opt (average value);
            pause 100;;
            channel_loop todo (ch + 1)
              (with_adc (have_pcf8591 d) (<[Z.to_nat ch := adcValue]> (adc_data d)) d)
        end
  end.
Definition read_pcf8591_once (d : sensor_data) : M sensor_data :=
  channel_loop 4 0 (with_adc false (adc_data d) d).
End Bus.

(** * sf-bmp180.h: the driver is Adafruit's (not modelled): whether it starts,
    the pressure, and the temperature and altitude it then gives. *)
Definition read_bmp_once (begins : bool) (pressure temperature altitude : float) (d : sensor_data)
    : sensor_data :=
  if negb begins then with_bmp false (ambient_hpa d) (ambient_degc d) (altitude_m d) d
  else if SFeqb pressure (f32 0) then with_bmp false (ambient_hpa d) (ambient_degc d) (altitude_m d) d
  else with_bmp true pressure temperature altitude d.
