(* ===== verification/SensorsFacts.v ===== *)
(** The clock chip and the measurements of the leaf.

    Class [Ds1307] states what the code relies on of the clock chip behind the
    bus: it acknowledges the transmissions addressed to it (nothing is said of
    those to other addresses), a write sets the register pointer and stores the
    bytes that follow, a request hands out bytes from the pointer on.

    The first part shows that the converter's floating-point average of five
    bytes is always defined. *)
From Stdlib Require Import SpecFloat.
From S2P Require Import Prelude IpAddr Format Sensors.

(** * Bounds of the floating-point averages *)
Section Bounds.
(** Zero, or a finite number of magnitude at most [N] and no positive exponent. *)
Definition upto (N : Z) (f : spec_float) : Prop :=
  match f with
  | S754_zero _ => 0 <= N
  | S754_finite _ m e => e <= 0 /\ Zpos m <= N * 2 ^ (- e)
  | _ => False
  end.
Definition nonneg (f : spec_float) : Prop :=
  match f with S754_zero _ | S754_finite false _ _ => True | _ => False end.

Lemma digits_le m : forall k, 0 <= k -> Zpos m < 2 ^ k -> Zpos (digits2_pos m) <= k.
Proof.
  induction m as [p IH|p IH|]; intros k Hk Hm; cbn [digits2_pos].
  1,2: destruct (decide (k = 0)) as [->|Hn]; [lia|]; rewrite Pos2Z.inj_succ;
    (replace k with (Z.succ (k - 1)) in Hm by lia); rewrite Z.pow_succ_r in Hm by lia;
    specialize (IH (k - 1)); lia.
  destruct (decide (k = 0)) as [->|Hn]; lia.
Qed.

(** The mantissa rounded up. *)
Definition ceil_m (x : shr_record) : Z := shr_m x + b2z (shr_r x || shr_s x).
Definition within (N : Z) (x : shr_record) (e : Z) : Prop :=
  0 <= shr_m x /\ e <= 0 /\ ceil_m x <= N * 2 ^ (- e).

Lemma shr_1_within N x e : 0 <= N -> e + 1 <= 0 -> within N x e -> within N (shr_1 x) (e + 1).
Proof.
  intros HN He (Hm & _ & Hc). unfold within, ceil_m in *.
  replace (2 ^ (- e)) with (2 * 2 ^ (- (e + 1))) in Hc
    by (rewrite <- Z.pow_succ_r by lia; f_equal; lia).
  assert (0 < 2 ^ (- (e + 1))) by (apply Z.pow_pos_nonneg; lia).
  destruct x as [m r s]. cbn [shr_m shr_r shr_s] in *.
  destruct m as [|[p|p|]|p]; cbn [shr_1 shr_m shr_r shr_s]; [| | | |lia];
    destruct r, s; cbn [orb b2z] in *; nia.
Qed.

Lemma iter_within N p : forall x e, 0 <= N -> e + Zpos p <= 0 -> within N x e ->
  within N (SpecFloat.iter_pos shr_1 p x) (e + Zpos p).
Proof.
  induction p as [p IH|p IH|]; intros x e HN He Hx; cbn [SpecFloat.iter_pos].
  - replace (e + Z.pos p~1) with ((e + 1 + Zpos p) + Zpos p) by lia.
    apply IH; [done|lia|]. apply IH; [done|lia|]. apply shr_1_within; [done|lia|done].
  - replace (e + Z.pos p~0) with ((e + Zpos p) + Zpos p) by lia.
    apply IH; [done|lia|]. apply IH; [done|lia|done].
  - by apply shr_1_within.
Qed.

Lemma shr_fexp_within N m e l :
  0 <= N < 2 ^ 24 -> within N (shr_record_of_loc m l) e ->
  within N (shr_fexp 24 128 m e l).1 (shr_fexp 24 128 m e l).2.
Proof.
  intros HN Hx. unfold shr_fexp.
  assert (fexp 24 128 (Zdigits2 m + e) <= 0) as Hf.
  { unfold fexp, emin. destruct Hx as (Hm & He & Hc).
    assert (m <= ceil_m (shr_record_of_loc m l)) as Hmc by (unfold ceil_m; destruct l as [|[]]; cbn; lia).
    assert (shr_m (shr_record_of_loc m l) = m) as E by by destruct l as [|[]]. rewrite E in Hm.
    enough (Zdigits2 m <= 24 - e) by lia. destruct m as [|m|m]; cbn [Zdigits2]; [lia| |lia].
    apply digits_le; [lia|]. replace (24 - e) with (24 + - e) by lia.
    rewrite Z.pow_add_r by lia. assert (0 < 2 ^ (- e)) by (apply Z.pow_pos_nonneg; lia). nia. }
  unfold shr. destruct (_ - e) as [|p|p] eqn:En; cbn [fst snd]; [done| |done].
  apply iter_within; [lia|lia|done].
Qed.

Lemma round_upto N s m e l :
  0 <= N < 2 ^ 24 -> within N (shr_record_of_loc m l) e ->
  upto N (binary_round_aux 24 128 s m e l) /\ (s = false -> nonneg (binary_round_aux 24 128 s m e l)).
Proof.
  intros HN Hx. unfold binary_round_aux.
  pose proof (shr_fexp_within N m e l HN Hx) as H1.
  destruct (shr_fexp 24 128 m e l) as [x1 e1]. cbn [fst snd] in H1.
  set (R := round_nearest_even _ _).
  assert (within N (shr_record_of_loc R loc_Exact) e1) as H2.
  { destruct H1 as (Hm & He & Hc). unfold within, ceil_m in *. cbn [shr_record_of_loc shr_m shr_r shr_s orb b2z].
    assert (0 <= R <= shr_m x1 + b2z (shr_r x1 || shr_s x1)); [|lia].
    subst R. destruct x1 as [m1 [] []]; cbn in *; repeat split_if; lia. }
  pose proof (shr_fexp_within N R e1 loc_Exact HN H2) as H3.
  destruct (shr_fexp 24 128 R e1 loc_Exact) as [x2 e2]. cbn [fst snd] in H3.
  destruct H3 as (Hm & He & Hc). unfold ceil_m in Hc.
  destruct (shr_m x2) as [|p|p]; [cbn; split; [lia|by intros ->]| |lia].
  rewrite (proj2 (Z.leb_le e2 _)) by lia. split; [|by intros ->].
  split; [done|]. destruct (_ || _); cbn [b2z] in Hc; lia.
Qed.

Lemma shl_align_eq m e e' : e' <= e -> shl_align m e e' = (Z.to_pos (Zpos m * 2 ^ (e - e')), e').
Proof.
  intros He. unfold shl_align. destruct (e' - e) as [|p|p] eqn:E; [|lia|].
  - replace (e - e') with 0 by lia. rewrite Z.mul_1_r. f_equal; lia.
  - replace (e - e') with (Zpos p) by lia. f_equal.
    rewrite <- Pos2Z.inj_pow, <- Pos2Z.inj_mul. cbn [Z.to_pos].
    clear. induction p as [|p IH] using Pos.peano_ind; [cbn; lia|].
    rewrite Pos.iter_succ, IH, Pos.pow_succ_r. lia.
Qed.

Lemma normalize_upto N m e z :
  0 <= N < 2 ^ 24 -> e <= 0 -> Z.abs m <= N * 2 ^ (- e) ->
  upto N (binary_normalize 24 128 m e z) /\ (0 <= m -> nonneg (binary_normalize 24 128 m e z)).
Proof.
  intros HN He Hm.
  assert (forall s p, Zpos p <= N * 2 ^ (- e) ->
    upto N (binary_round 24 128 s p e) /\ (s = false -> nonneg (binary_round 24 128 s p e))) as Hp.
  { clear m Hm. intros s p Hp. unfold binary_round.
    set (e' := fexp _ _ _).
    destruct (decide (e' <= e)).
    - rewrite shl_align_eq by done. apply round_upto; [done|].
      unfold within, ceil_m. cbn. split; [lia|]. split; [lia|].
      rewrite Z2Pos.id by (apply Z.mul_pos_pos; [lia|apply Z.pow_pos_nonneg; lia]).
      replace (- e') with (- e + (e - e')) by lia. rewrite Z.pow_add_r by lia.
      assert (0 < 2 ^ (e - e')) by (apply Z.pow_pos_nonneg; lia). nia.
    - assert (shl_align p e e' = (p, e)) as -> by (unfold shl_align; destruct (e' - e) eqn:E; [done..|lia]).
      apply round_upto; [done|]. unfold within, ceil_m. cbn. lia. }
  destruct m as [|p|p]; cbn [binary_normalize].
  - split; [cbn; lia|done].
  - destruct (Hp false p) as [H1 H2]; [lia|]. auto.
  - destruct (Hp true p) as [H1 H2]; [lia|]. split; [done|lia].
Qed.

Lemma f32_upto x : 0 <= x < 2 ^ 24 -> upto x (f32 x) /\ nonneg (f32 x).
Proof.
  intros Hx. unfold f32. destruct (normalize_upto x x 0 false Hx) as [H1 H2]; [done|lia|].
  split; [done|apply H2; lia].
Qed.

Lemma upto_le N M f : N <= M -> upto N f -> upto M f.
Proof.
  destruct f as [s| | |s m e]; cbn; try done; [lia|]. intros Hl [He Hm]. split; [done|].
  assert (0 < 2 ^ (- e)) by (apply Z.pow_pos_nonneg; lia). nia.
Qed.

(** The mantissa of an operand at the smaller exponent. *)
Lemma aligned m e ez N : ez <= e -> e <= 0 -> Zpos m <= N * 2 ^ (- e) ->
  0 < Zpos (fst (shl_align m e ez)) <= N * 2 ^ (- ez).
Proof.
  intros H1 H2 H3. rewrite shl_align_eq by done. cbn [fst].
  assert (0 < 2 ^ (e - ez)) by (apply Z.pow_pos_nonneg; lia).
  rewrite Z2Pos.id by lia. replace (- ez) with (- e + (e - ez)) by lia.
  rewrite Z.pow_add_r by lia. nia.
Qed.

Lemma fadd_upto N M x y :
  0 <= N -> 0 <= M -> N + M < 2 ^ 24 -> upto N x -> nonneg x -> upto M y -> nonneg y ->
  upto (N + M) (fadd x y) /\ nonneg (fadd x y).
Proof.
  intros HN HM Hl Hx Px Hy Py.
  destruct x as [s| | |[] m e]; try done; destruct y as [t| | |[] n f]; try done; cbn [fadd SFadd].
  - destruct s, t; split; cbn; try done; lia.
  - split; [eapply upto_le; [|exact Hy]; lia|done].
  - split; [eapply upto_le; [|exact Hx]; lia|done].
  - destruct Hx as [He Hm], Hy as [Hf Hn]. cbn [cond_Zopp].
    pose proof (aligned m e (Z.min e f) N ltac:(lia) He Hm).
    pose proof (aligned n f (Z.min e f) M ltac:(lia) Hf Hn).
    destruct (normalize_upto (N + M) (Zpos (fst (shl_align m e (Z.min e f))) + Zpos (fst (shl_align n f (Z.min e f))))
      (Z.min e f) false) as [H1 H2]; [lia..|]. split; [exact H1|apply H2; lia].
Qed.

Lemma fsub_upto N x y :
  0 <= N < 2 ^ 24 -> upto N x -> nonneg x -> upto N y -> nonneg y -> upto N (fsub x y).
Proof.
  intros HN Hx Px Hy Py.
  destruct x as [s| | |[] m e]; try done; destruct y as [t| | |[] n f]; try done; cbn [fsub SFsub].
  - destruct s, t; cbn; lia.
  - destruct Hx as [He Hm], Hy as [Hf Hn]. cbn [cond_Zopp].
    pose proof (aligned m e (Z.min e f) N ltac:(lia) He Hm).
    pose proof (aligned n f (Z.min e f) N ltac:(lia) Hf Hn).
    apply normalize_upto; lia.
Qed.

Lemma fabs_upto N x : upto N x -> upto N (fabs x) /\ nonneg (fabs x).
Proof. by destruct x. Qed.

Lemma byte_of_upto x : upto 255 x -> nonneg x -> exists b, byte_of x = Some b /\ byte_ok b.
Proof.
  intros Hx Px. unfold byte_of, trunc_of. destruct x as [s| | |[] m e]; try done.
  - exists 0. split; [done|]. by apply (bool_decide_unpack _).
  - destruct Hx as [He Hm]. unfold mbind, option_bind. replace (Z.max e 0) with 0 by lia.
    replace (Z.max (- e) 0) with (- e) by lia. rewrite Z.mul_1_r.
    assert (0 < 2 ^ (- e)) by (apply Z.pow_pos_nonneg; lia).
    assert (fits 8 (Zpos m ÷ 2 ^ (- e))) as Hf.
    { rewrite Z.quot_div_nonneg by lia. split; [apply Z.div_pos; lia|].
      apply Z.div_lt_upper_bound; [done|]. lia. }
    rewrite decide_True by done. eauto.
Qed.

(** Division by a positive whole number. *)
Lemma fdiv_upto N k x my ey :
  0 <= N -> 1 <= k -> N * k < 2 ^ 24 -> f32 k = S754_finite false my ey -> ey <= 0 ->
  Zpos my = k * 2 ^ (- ey) -> 1 <= Zdigits2 (Zpos my) + ey ->
  upto (N * k) x -> nonneg x -> upto N (fdiv x (f32 k)) /\ nonneg (fdiv x (f32 k)).
Proof.
  intros HN Hk Hl -> Hey Hmy Hd Hx Px. destruct x as [s| | |[] m e]; try done.
  destruct Hx as [He Hm]. unfold fdiv. cbn [SFdiv xorb]. unfold SFdiv_core_binary.
  set (e' := Z.min _ _).
  assert (e' <= 0) as He'.
  { subst e'. unfold fexp, emin. enough (Zdigits2 (Zpos m) <= 24 - e) by lia. cbn [Zdigits2].
    apply digits_le; [lia|]. replace (24 - e) with (24 + - e) by lia. rewrite Z.pow_add_r by lia.
    assert (0 < 2 ^ (- e)) by (apply Z.pow_pos_nonneg; lia). nia. }
  set (m' := match e - ey - e' with Z0 => _ | _ => _ end).
  assert (0 < m' <= N * Zpos my * 2 ^ (- e')) as Hm'.
  { assert (m' = Zpos m * 2 ^ (e - ey - e')) as ->.
    { subst m'. destruct (e - ey - e') as [|p|p] eqn:E; [lia| |lia]. rewrite Z.shiftl_mul_pow2; lia. }
    assert (0 < 2 ^ (e - ey - e')) by (apply Z.pow_pos_nonneg; lia).
    rewrite Hmy. replace (N * (k * 2 ^ (- ey)) * 2 ^ (- e')) with (N * k * (2 ^ (- ey) * 2 ^ (- e'))) by ring.
    rewrite <- Z.pow_add_r by lia. replace (- ey + - e') with (- e + (e - ey - e')) by lia.
    rewrite Z.pow_add_r by lia. nia. }
  pose proof (Z.div_eucl_eq m' (Zpos my) ltac:(lia)) as Hq.
  pose proof (Z.mod_pos_bound m' (Zpos my) ltac:(lia)) as Hr. unfold Z.modulo in Hr.
  destruct (Z.div_eucl m' (Zpos my)) as [q r]. 
  assert (0 < 2 ^ (- e')) by (apply Z.pow_pos_nonneg; lia).
  destruct (round_upto N false q e' (new_location (Zpos my) r)) as [H1 H2]; [nia| |auto].
  assert (0 <= q) by nia.
  assert (q <= N * 2 ^ (- e') /\ (r <> 0 -> q + 1 <= N * 2 ^ (- e'))) as [Hq1 Hq2] by (split; nia).
  assert (r = 0 -> new_location (Zpos my) r = loc_Exact) as Hex.
  { intros ->. unfold new_location, new_location_even, new_location_odd. by repeat split_if. }
  unfold within, ceil_m.
  destruct (decide (r = 0)) as [Hz|Hz]; [rewrite (Hex Hz); cbn; lia|].
  specialize (Hq2 Hz). destruct (new_location (Zpos my) r) as [|[]]; cbn; lia.
Qed.

Lemma f32_small k : 1 <= k <= 5 -> exists my ey,
  f32 k = S754_finite false my ey /\ ey <= 0 /\ Zpos my = k * 2 ^ (- ey) /\ 1 <= Zdigits2 (Zpos my) + ey.
Proof.
  intros Hk. assert (k = 1 \/ k = 2 \/ k = 3 \/ k = 4 \/ k = 5) as [->|[->|[->|[->| ->]]]] by lia;
    do 2 eexists; (split; [vm_compute; reflexivity|]); vm_compute; done.
Qed.

Lemma mean_upto k x : 1 <= k <= 5 -> upto (255 * k) x -> nonneg x ->
  upto 255 (fdiv x (f32 k)) /\ nonneg (fdiv x (f32 k)).
Proof.
  intros Hk Hx Px. destruct (f32_small k Hk) as (my & ey & E & H1 & H2 & H3).
  eapply fdiv_upto; eauto; lia.
Qed.

Lemma sum_upto l : Forall byte_ok l -> (length l <= 5)%nat ->
  upto (255 * Z.of_nat (length l)) (sum_f l) /\ nonneg (sum_f l).
Proof.
  unfold sum_f. intros Hl Hn.
  assert (forall k acc, 0 <= k -> upto (255 * k) acc -> nonneg acc -> k + Z.of_nat (length l) <= 5 ->
    upto (255 * (k + Z.of_nat (length l))) (fold_left (fun mean v => fadd mean (f32 v)) l acc)
    /\ nonneg (fold_left (fun mean v => fadd mean (f32 v)) l acc)) as H.
  { clear Hn. induction Hl as [|v l Hv Hl IH]; intros k acc Hk Ha Hp Hn; cbn [length fold_left].
    { replace (k + Z.of_nat 0) with k by lia. done. }
    cbn [length] in Hn. replace (k + Z.of_nat (S (length l))) with (k + 1 + Z.of_nat (length l)) by lia.
    destruct (f32_upto v) as [H1 H2]; [unfold fits in *; lia|].
    destruct (fadd_upto (255 * k) 255 acc (f32 v)) as [H3 H4]; try done; [lia..| |].
    { eapply upto_le; [|exact H1]. unfold fits in *. lia. }
    apply IH; [lia| |done|lia]. by replace (255 * (k + 1)) with (255 * k + 255) by lia. }
  apply (H 0 (f32 0)); [lia| |done|lia]. cbn. lia.
Qed.

(** The average of five samples is always a byte: no conversion is undefined. *)
Lemma average_defined value :
  Forall byte_ok value -> length value = 5%nat -> exists b, average value = Some b /\ byte_ok b.
Proof.
  intros Hv Hn. unfold average.
  destruct (sum_upto value Hv ltac:(lia)) as [Hs Ps]. rewrite Hn in Hs.
  destruct (mean_upto 5 (sum_f value) ltac:(lia) Hs Ps) as [Hmb Hmp].
  set (mean := fdiv (sum_f value) (f32 5)) in *. clearbody mean.
  assert (exists dist, mapM (fun v => byte_of (fabs (fsub (f32 v) mean))) value = Some dist) as [dist ->].
  { clear Hn Hs Ps. induction Hv as [|v l Hv Hl IH]; [by eexists|].
    destruct (f32_upto v) as [H1 H2]; [unfold fits in *; lia|].
    destruct (fabs_upto 255 (fsub (f32 v) mean)) as [H3 H4].
    { apply fsub_upto; try done. eapply upto_le; [|exact H1]. unfold fits in *; lia. }
    destruct (byte_of_upto _ H3 H4) as (b & E & _). destruct IH as [dist E'].
    exists (b :: dist). simpl. rewrite E. simpl. by rewrite E'. }
  unfold mbind at 1, option_bind at 1.
  destruct (SFltb (f32 0) _); [|by apply byte_of_upto].
  set (valid := (filter _ _).*1).
  assert (Forall byte_ok valid /\ (length valid <= 5)%nat) as [Hvb Hvl].
  { subst valid. split.
    - apply Forall_fmap, Forall_forall. intros [a b] [_ Hab]%list_elem_of_filter.
      cbn. eapply Forall_forall; [exact Hv|]. by eapply elem_of_zip_l.
    - rewrite length_fmap. etransitivity; [apply length_filter|]. rewrite length_zip_with. lia. }
  destruct (sum_upto valid Hvb Hvl) as [H1 H2].
  destruct (Nat.ltb_spec 0 (length valid)) as [Hpos|Hz].
  - apply byte_of_upto; apply mean_upto; try done; lia.
  - apply byte_of_upto; [|done]. eapply upto_le; [|exact H1]. lia.
Qed.
End Bounds.

(** The converter's code runs to its end whatever is on the bus. *)
Section Converter.
Context {W : Type} `{HW : Wire W}.

Lemma sample_total n : forall value w, Forall byte_ok value ->
  exists r w', sample_loop (W := W) n value w = Some (r, w')
    /\ forall l, r = Some l -> Forall byte_ok l /\ length l = (length value + n)%nat.
Proof.
  induction n as [|n IH]; intros value w Hv; cbn [sample_loop].
  { do 2 eexists. split; [reflexivity|]. intros l [= <-]. split; [done|lia]. }
  unfold request, is_available, get_byte. rewrite !ST_bind_eq. unfold modify at 1. cbv beta iota.
  rewrite !ST_bind_eq. cbv beta iota.
  destruct (available _); cbn [negb]; [|do 2 eexists; split; [reflexivity|done]].
  rewrite !ST_bind_eq. destruct (wire_read _) as [x w1]. rewrite !ST_bind_eq. cbv beta iota.
  destruct (available _); cbn [negb]; [|do 2 eexists; split; [reflexivity|done]].
  rewrite !ST_bind_eq. destruct (wire_read w1) as [b w2].
  destruct (IH (value ++ [u8 b]) w2) as (r & w' & E & H).
  { apply Forall_app. split; [done|]. constructor; [apply u8_ok|constructor]. }
  do 2 eexists. split; [exact E|]. intros l Hl. destruct (H l Hl) as [H1 H2].
  split; [done|]. rewrite H2, length_app. simpl. lia.
Qed.

Lemma dac_total w : exists w', dac_off (W := W) w = Some ((), w').
Proof.
  unfold dac_off, begin_tx, put_byte, end_tx. rewrite !ST_bind_eq. unfold modify at 1. cbv beta iota.
  rewrite !ST_bind_eq. unfold modify at 1. cbv beta iota. rewrite !ST_bind_eq.
  destruct (endTransmission _) as [e w']. eexists. reflexivity.
Qed.

Lemma pcf8591_total d w : exists d' w', read_pcf8591_once (W := W) d w = Some (d', w').
Proof.
  unfold read_pcf8591_once. generalize 4%nat at 1. intros todo. generalize 0 (with_adc false (adc_data d) d).
  revert w. induction todo as [|todo IH]; intros w ch e; cbn [channel_loop].
  { rewrite ST_bind_eq. destruct (dac_total w) as [w' ->]. do 2 eexists. reflexivity. }
  unfold begin_tx, put_byte, end_tx. rewrite ?ST_bind_eq. unfold modify at 1. cbv beta iota.
  rewrite ?ST_bind_eq. unfold modify at 1. cbv beta iota. rewrite ?ST_bind_eq. unfold modify at 1. cbv beta iota.
  rewrite ?ST_bind_eq. destruct (endTransmission _) as [err w1].
  destruct (negb _); [do 2 eexists; reflexivity|].
  rewrite ?ST_bind_eq. destruct (sample_total 5 [] w1 ltac:(constructor)) as (r & w2 & -> & Hr).
  destruct r as [value|].
  - destruct (Hr value eq_refl) as [Hb Hl]. destruct (average_defined value Hb Hl) as (x & -> & _).
    unfold lift_opt. rewrite ?ST_bind_eq. cbv beta iota. unfold pause, modify. rewrite ?ST_bind_eq.
    cbv beta iota. apply IH.
  - rewrite ST_bind_eq. destruct (dac_total w2) as [w' ->]. do 2 eexists. reflexivity.
Qed.
End Converter.

(** * The clock chip *)
Record rtc := Rtc { cells : gmap Z Z; cur : Z; wtx : option (list Z); wrx : list Z }.

Fixpoint put_cells (a : Z) (l : list Z) (c : gmap Z Z) : gmap Z Z :=
  match l with [] => c | b :: l => put_cells ((a + 1) mod 64) l (<[a := b]> c) end.
Definition get_cells (a : Z) (n : nat) (c : gmap Z Z) : list Z :=
  (fun i => c !!! ((a + i) mod 64)) <$> below n.

Definition rtc_begin (a : Z) (v : rtc) : rtc :=
  Rtc (cells v) (cur v) (if a =? D1307_I2C_ADDR then Some [] else None) (wrx v).
Definition rtc_write (b : Z) (v : rtc) : rtc :=
  Rtc (cells v) (cur v) ((fun l => l ++ [b]) <$> wtx v) (wrx v).
Definition rtc_end (v : rtc) : rtc :=
  match wtx v with
  | Some (p :: l) => Rtc (put_cells (p mod 64) l (cells v)) ((p + Z.of_nat (length l)) mod 64) (Some []) (wrx v)
  | _ => v
  end.
Definition rtc_request (n : Z) (v : rtc) : rtc :=
  Rtc (cells v) ((cur v + n) mod 64) (wtx v) (get_cells (cur v) (Z.to_nat n) (cells v)).
Definition rtc_read (v : rtc) : Z * rtc :=
  match wrx v with [] => (-1, v) | b :: l => (b, Rtc (cells v) (cur v) (wtx v) l) end.

Class Ds1307 (W : Type) `{Wire W} := {
  chip_of : W -> rtc;
  begin_law a w : chip_of (beginTransmission a w) = rtc_begin a (chip_of w);
  write_law b w : chip_of (wire_write b w) = rtc_write b (chip_of w);
  end_law w : (is_Some (wtx (chip_of w)) -> (endTransmission w).1 = 0)
              /\ chip_of (endTransmission w).2 = rtc_end (chip_of w);
  request_law n w : chip_of (requestFrom D1307_I2C_ADDR n w) = rtc_request n (chip_of w);
  read_law w : (wire_read w).1 = (rtc_read (chip_of w)).1 /\ chip_of (wire_read w).2 = (rtc_read (chip_of w)).2 }.

(** The chip itself as the bus, with nothing else on it. *)
#[export] Instance rtc_wire : Wire rtc := {|
  beginTransmission := rtc_begin; wire_write := rtc_write;
  endTransmission v := (if wtx v then 0 else 2, rtc_end v);
  requestFrom a n v := if a =? D1307_I2C_ADDR then rtc_request n v else Rtc (cells v) (cur v) (wtx v) [];
  available v := bool_decide (wrx v <> []);
  wire_read := rtc_read; wire_delay _ v := v |}.
#[export] Instance rtc_ds1307 : Ds1307 rtc.
Proof.
  refine (@Build_Ds1307 rtc rtc_wire (fun v => v) _ _ _ _ _); try done.
  intros v. split; [|done]. by intros [l E]; cbn; rewrite E.
Defined.

Section Steps.
Context {W : Type} `{HW : Wire W} {HD : Ds1307 W}.

Definition rtc_at (v : rtc) (w : W) : Prop := chip_of w = v.

Lemma t_begin v a : triple (rtc_at v) (begin_tx a) (fun _ => rtc_at (rtc_begin a v)).
Proof. intros w <-. do 2 eexists. split; [done|]. apply begin_law. Qed.
Lemma t_put v b : triple (rtc_at v) (put_byte b) (fun _ => rtc_at (rtc_write (u8 b) v)).
Proof. intros w <-. do 2 eexists. split; [done|]. apply write_law. Qed.
Lemma t_end v : is_Some (wtx v) -> triple (rtc_at v) end_tx (fun e w => e = 0 /\ rtc_at (rtc_end v) w).
Proof.
  intros Hv w Hw. destruct (end_law w) as [E1 E2]. unfold rtc_at in Hw. rewrite Hw in E1, E2.
  specialize (E1 Hv). unfold end_tx. destruct (endTransmission w) as [e w']. do 2 eexists. done.
Qed.
Lemma t_request v n : triple (rtc_at v) (request D1307_I2C_ADDR n) (fun _ => rtc_at (rtc_request n v)).
Proof. intros w <-. do 2 eexists. split; [done|]. apply request_law. Qed.
Lemma t_get v : triple (rtc_at v) get_byte (fun b w => b = (rtc_read v).1 /\ rtc_at (rtc_read v).2 w).
Proof.
  intros w <-. destruct (read_law w) as [E1 E2]. unfold get_byte.
  destruct (wire_read w) as [b w']. do 2 eexists. done.
Qed.

End Steps.

(** One bus operation, its result known, then the continuation. *)
Ltac rtc_step :=
  eapply triple_bind;
    [first [apply t_begin | apply t_put | apply t_end; eexists; reflexivity | apply t_request | apply t_get]
    |cbn beta; intro]; try (apply triple_known; intros ->).

Section Clock.
Context {W : Type} `{HW : Wire W} {HD : Ds1307 W}.

(** The memory is [c], whatever the rest of the chip's state. *)
Definition memory (c : gmap Z Z) (w : W) : Prop := cells (chip_of w) = c.

Lemma triple_memory {A} c (m : ST W A) Q :
  (forall v, cells v = c -> triple (rtc_at v) m Q) -> triple (memory c) m Q.
Proof. intros Hm w Hw. by apply (Hm (chip_of w)). Qed.

Lemma t_nvram_read c a :
  0 <= a < 56 ->
  triple (memory c) (read_nvram_byte a) (fun x w => x = u8 (c !!! (a + 8)) /\ memory c w).
Proof.
  intros Ha. apply triple_memory. intros v Hv. unfold read_nvram_byte.
  do 5 rtc_step. rtc_step. apply triple_ret. intros w Hw.
  unfold rtc_at in Hw. unfold memory. rewrite Hw.
  rewrite (trunc_small 8 (a + 8)) by word_lia.
  cbn -[Z.modulo Z.add get_cells]. rewrite Hv. change (Z.of_nat 0) with 0. 
  rewrite (Z.mod_small (a + 8 + 0)) by lia.
  assert (get_cells (a + 8 + 0) (Z.to_nat 1) c = [c !!! (a + 8)]) as E.
  { unfold get_cells. change (below (Z.to_nat 1)) with [0]. cbn [fmap list_fmap]. rewrite !Z.add_0_r, Z.mod_small by lia. done. }
  unfold rtc_request, rtc_read. cbn [cells cur wtx wrx]. rewrite E. done.
Qed.

Lemma t_nvram_save c a x :
  0 <= a < 56 -> fits 8 x ->
  triple (memory c) (save_nvram_byte a x) (fun _ => memory (<[a + 8 := x]> c)).
Proof.
  intros Ha Hx. apply triple_memory. intros v Hv. unfold save_nvram_byte.
  do 4 rtc_step. apply triple_ret. intros w Hw. unfold rtc_at in Hw. unfold memory. rewrite Hw.
  rewrite !(trunc_small 8) by (done || word_lia).
  cbn -[Z.modulo Z.add]. rewrite Hv, Z.mod_small by lia. done.
Qed.

(** ** The boot count *)

(** The number in the four cells of the boot count. *)
Definition stored (c : gmap Z Z) : Z :=
  Z.lor (Z.lor (Z.lor (Z.shiftl (u8 (c !!! 18)) 24) (Z.shiftl (u8 (c !!! 19)) 16))
               (Z.shiftl (u8 (c !!! 20)) 8)) (u8 (c !!! 21)).

Definition count_cells (n : Z) (c : gmap Z Z) : gmap Z Z :=
  <[21 := Z.land n 0xff]> (<[20 := Z.shiftr (Z.land n 0xff00) 8]>
    (<[19 := Z.shiftr (Z.land n 0xff0000) 16]> (<[18 := Z.shiftr (Z.land n 0xff000000) 24]> c))).

Lemma byte_field n k : 0 <= k -> Z.shiftr (Z.land n (Z.shiftl (Z.ones 8) k)) k = (n / 2 ^ k) mod 2 ^ 8.
Proof.
  intros Hk. rewrite land_field by lia. rewrite Z.shiftr_div_pow2 by done. by rewrite Z.div_mul by lia.
Qed.

Lemma count_fields n :
  Z.shiftr (Z.land n 0xff000000) 24 = (n / 2 ^ 24) mod 2 ^ 8
  /\ Z.shiftr (Z.land n 0xff0000) 16 = (n / 2 ^ 16) mod 2 ^ 8
  /\ Z.shiftr (Z.land n 0xff00) 8 = (n / 2 ^ 8) mod 2 ^ 8
  /\ Z.land n 0xff = n mod 2 ^ 8.
Proof.
  change 0xff000000 with (Z.shiftl (Z.ones 8) 24). change 0xff0000 with (Z.shiftl (Z.ones 8) 16).
  change 0xff00 with (Z.shiftl (Z.ones 8) 8). change 0xff with (Z.ones 8).
  rewrite !byte_field, Z.land_ones by lia. done.
Qed.

Lemma stored_count n c : fits 32 n -> stored (count_cells n c) = n.
Proof.
  intros Hn. unfold stored, count_cells. destruct (count_fields n) as (-> & -> & -> & ->).
  repeat first [rewrite lookup_total_insert_eq | rewrite lookup_total_insert_ne by done].
  fold (u8 (n / 2 ^ 24)) (u8 (n / 2 ^ 16)) (u8 (n / 2 ^ 8)) (u8 n). rewrite !trunc_trunc by lia.
  rewrite !Z.shiftl_mul_pow2 by lia.
  rewrite (lor_disjoint_add _ (_ * 2 ^ 16) 24) by word_lia.
  rewrite (lor_disjoint_add _ (_ * 2 ^ 8) 16) by word_lia.
  rewrite (lor_disjoint_add _ (u8 n) 8) by word_lia. word_lia.
Qed.

Lemma t_boot beacon d c :
  triple (memory c) (boot_count beacon d)
    (fun d' w => let n := if beacon then 0 else u32 (stored c + 1) in
                 d' = with_boot (s32 n) d /\ memory (count_cells n c) w).
Proof.
  unfold boot_count.
  do 4 (eapply triple_bind; [apply t_nvram_read; lia|]; intros ?; cbn beta; apply triple_known; intros ->).
  cbn zeta. change (10 + 8) with 18. change (11 + 8) with 19. change (12 + 8) with 20. change (13 + 8) with 21.
  fold (stored c). set (n := if beacon then 0 else u32 (stored c + 1)).
  assert (fits 32 n) as Hn by (subst n; destruct beacon; [word_lia|apply u32_ok]).
  destruct (count_fields n) as (E1 & E2 & E3 & E4).
  do 4 (eapply triple_bind; [apply t_nvram_save; [lia|rewrite ?E1, ?E2, ?E3, ?E4; apply u8_ok]|]; intros ?; cbn beta).
  apply triple_ret. intros w Hw. done.
Qed.

(** ** Date and time *)
Lemma get_cells_cons a n c :
  0 <= a < 64 -> get_cells a (S n) c = c !!! a :: get_cells ((a + 1) mod 64) n c.
Proof.
  intros Ha. unfold get_cells. rewrite below_S, fmap_cons, <- list_fmap_compose. f_equal.
  - f_equal. rewrite Z.add_0_r. by apply Z.mod_small.
  - apply list_fmap_ext. intros i x _. simpl. f_equal. Z.div_mod_to_equations. lia.
Qed.

(** What the clock registers say. *)
Definition decoded (c : gmap Z Z) : datetime :=
  Datetime (bcdToDec (u8 (Z.land (c !!! 0) 0x7f))) (bcdToDec (u8 (c !!! 1)))
    (bcdToDec (u8 (Z.land (c !!! 2) 0x3f))) (bcdToDec (u8 (c !!! 3))) (bcdToDec (u8 (c !!! 4)))
    (bcdToDec (u8 (c !!! 5))) (bcdToDec (u8 (c !!! 6))).

Lemma t_bcd v mask b l :
  wrx v = b :: l ->
  triple (rtc_at v) (bcd_byte mask)
    (fun x w => x = bcdToDec (u8 (Z.land b mask)) /\ rtc_at (Rtc (cells v) (cur v) (wtx v) l) w).
Proof.
  intros E. unfold bcd_byte. rtc_step. unfold rtc_read. rewrite E. apply triple_ret. by intros w Hw.
Qed.

Lemma t_datetime d c :
  triple (memory c) (read_datetime_once d)
    (fun d' w => d' = with_date true (decoded c) d /\ memory c w).
Proof.
  apply triple_memory. intros v Hv. unfold read_datetime_once.
  do 3 rtc_step. rewrite Z.eqb_refl. cbn [negb]. rtc_step.
  assert (rtc_request 8 (rtc_end (rtc_write (u8 0) (rtc_begin D1307_I2C_ADDR v)))
          = Rtc c 8 (Some []) [c !!! 0; c !!! 1; c !!! 2; c !!! 3; c !!! 4; c !!! 5; c !!! 6; c !!! 7]) as ->.
  { unfold rtc_request. cbn -[get_cells Z.to_nat]. rewrite Hv. change (Z.to_nat 8) with 8%nat.
    change (0 `mod` 64) with 0. rewrite !get_cells_cons by done. done. }
  do 7 (eapply triple_bind; [by apply t_bcd|]; intros ?; cbn beta; apply triple_known; intros ->;
        cbn [cells cur wtx wrx]).
  rtc_step. rtc_step. rewrite Z.eqb_refl. apply triple_ret. intros w Hw.
  rewrite !Z.land_m1_r. split; [done|]. unfold rtc_at in Hw. unfold memory. by rewrite Hw.
Qed.

Lemma bcd_round v : 0 <= v < 100 -> bcdToDec (bin2bcd v) = v /\ bin2bcd v = decToBcd v /\ fits 8 (bin2bcd v).
Proof.
  intros Hv.
  pose proof (forall_below 100 (fun v => bool_decide (bcdToDec (bin2bcd v) = v /\ bin2bcd v = decToBcd v
                                                      /\ fits 8 (bin2bcd v)))) as H.
  specialize (H ltac:(vm_compute; reflexivity) v Hv). by apply bool_decide_eq_true in H.
Qed.

(** A date and time the clock can hold. *)
Definition valid (t : datetime) : Prop :=
  0 <= second t < 60 /\ 0 <= minute t < 60 /\ 0 <= hour t < 24 /\ 1 <= dayOfWeek t <= 7
  /\ 1 <= dayOfMonth t <= 31 /\ 1 <= month t <= 12 /\ 0 <= year t < 100.

(** The clock's registers hold [t], with the clock halted or not. *)
Definition holds (t : datetime) (halted : bool) (c : gmap Z Z) : Prop :=
  c !!! 0 = bin2bcd (second t) + (if halted then 0x80 else 0) /\ c !!! 1 = bin2bcd (minute t)
  /\ c !!! 2 = bin2bcd (hour t) /\ c !!! 3 = bin2bcd (dayOfWeek t) /\ c !!! 4 = bin2bcd (dayOfMonth t)
  /\ c !!! 5 = bin2bcd (month t) /\ c !!! 6 = bin2bcd (year t).

Lemma bcd_masks v :
  0 <= v < 60 ->
  Z.land (bin2bcd v) 0x7f = bin2bcd v /\ Z.land (bin2bcd v + 0x80) 0x7f = bin2bcd v
  /\ (v < 24 -> Z.land (bin2bcd v) 0x3f = bin2bcd v).
Proof.
  intros Hv.
  pose proof (forall_below 60 (fun v => bool_decide (Z.land (bin2bcd v) 0x7f = bin2bcd v
     /\ Z.land (bin2bcd v + 0x80) 0x7f = bin2bcd v) && (negb (v <? 24) || (Z.land (bin2bcd v) 0x3f =? bin2bcd v)))) as H.
  specialize (H ltac:(vm_compute; reflexivity) v Hv).
  apply andb_true_iff in H as [H1%bool_decide_eq_true H2].
  split; [apply H1|]. split; [apply H1|]. intros Hlt. rewrite (proj2 (Z.ltb_lt v 24)) in H2 by done.
  by apply Z.eqb_eq in H2.
Qed.

Lemma decoded_holds t h c : valid t -> holds t h c -> decoded c = t.
Proof.
  intros (H0 & H1 & H2 & H3 & H4 & H5 & H6) (E0 & E1 & E2 & E3 & E4 & E5 & E6).
  unfold decoded. rewrite E0, E1, E2, E3, E4, E5, E6.
  destruct (bcd_masks (second t) H0) as (M1 & M2 & _). destruct (bcd_masks (hour t)) as (_ & _ & M3); [lia|].
  replace (Z.land (bin2bcd (second t) + (if h then 0x80 else 0)) 0x7f) with (bin2bcd (second t))
    by (destruct h; [by rewrite M2|by rewrite Z.add_0_r, M1]).
  rewrite M3 by lia.
  assert (forall v, 0 <= v < 100 -> bcdToDec (u8 (bin2bcd v)) = v) as Hr.
  { intros v Hv. destruct (bcd_round v Hv) as (E & _ & Hf). by rewrite trunc_small. }
  rewrite !Hr by lia. by destruct t.
Qed.

Lemma put_cells_fix c :
  decoded (put_cells 0 [0; bin2bcd 41; Z.land (bin2bcd 12) (Z.lnot 0x40); 5; bin2bcd 3; bin2bcd 12; bin2bcd 15; 0] c)
  = Datetime 0 41 12 5 3 12 15.
Proof.
  cbn [put_cells]. repeat match goal with |- context [?a mod 64] => let v := eval vm_compute in (a mod 64) in change (a mod 64) with v end.
  unfold decoded.
  repeat first [rewrite lookup_total_insert_eq | rewrite lookup_total_insert_ne by done].
  vm_compute. reflexivity.
Qed.

Lemma t_fix d c :
  triple (memory c) (fix_datetime_once d)
    (fun d' w => d' = with_date true (Datetime 0 41 12 5 3 12 15) d).
Proof.
  unfold fix_datetime_once. eapply triple_bind; [apply t_datetime|]. intros d1; cbn beta.
  apply triple_known. intros ->. apply triple_memory. intros v Hv.
  do 11 rtc_step. rewrite Z.eqb_refl. cbn [negb].
  set (v' := rtc_end _).
  assert (cells v' = put_cells 0 [0; bin2bcd 41; Z.land (bin2bcd 12) (Z.lnot 0x40); 5; bin2bcd 3; bin2bcd 12; bin2bcd 15; 0] c) as Hc.
  { subst v'. rewrite <- Hv. done. }
  eapply triple_post; [eapply triple_pre; [apply (t_datetime _ (cells v'))|]|].
  - intros w Hw. unfold rtc_at in Hw. unfold memory. by rewrite Hw.
  - intros d2 w [-> _]. rewrite Hc, put_cells_fix. done.
Qed.
End Clock.

(** * The measurements as text *)

(** A number prints within [n] characters. *)
Lemma sdec_length k x : - 10 ^ Z.of_nat k < x < 10 ^ Z.of_nat (S k) -> (1 <= k)%nat -> (length (sdec x) <= S k)%nat.
Proof.
  intros Hx Hk. unfold sdec. destruct (Z.ltb_spec x 0).
  - cbn [length]. pose proof (dec_length k (- x) ltac:(lia) Hk). lia.
  - apply dec_length; lia.
Qed.

Lemma sdec_digits k x : 0 <= x < 10 ^ Z.of_nat k -> (1 <= k)%nat -> (length (sdec x) <= k)%nat.
Proof. intros Hx Hk. unfold sdec. rewrite (proj2 (Z.ltb_ge x 0)) by lia. by apply dec_length. Qed.

Lemma sdec02_two x : 0 <= x < 100 -> (length (sdec02 x) <= 2)%nat.
Proof. intros Hx. unfold sdec02. rewrite (proj2 (Z.ltb_ge x 0)) by lia. by apply dec02_length. Qed.

Lemma millivolts_range x : 0 <= x < 256 -> exists v, millivolts x = Some v /\ 0 <= v < 10000.
Proof.
  intros Hx. pose proof (forall_below 256 (fun x => match millivolts x with
    Some v => (0 <=? v) && (v <? 10000) | None => false end)) as H.
  specialize (H ltac:(vm_compute; reflexivity) x Hx). cbv beta in H.
  destruct (millivolts x) as [v|]; [|done].
  exists v. split; [done|]. lia.
Qed.

(** A float that prints within [n] characters. *)
Definition prints (n : nat) (v : float) : Prop := exists t, tenths v = Some t /\ (length t <= n)%nat.

(** Measurements of a plausible size: a count below [10 ^ k], readings of the
    sensors' ranges. *)
Definition plausible (k : nat) (d : sensor_data) : Prop :=
  0 <= bootCount d < 10 ^ Z.of_nat k /\ (1 <= k)%nat /\ byte_ok (radio_version d) /\ -100 < snr d < 1000
  /\ valid (date d) /\ prints 6 (ambient_hpa d) /\ prints 5 (ambient_degc d)
  /\ prints 5 (humidity d) /\ prints 5 (humidity_temp d)
  /\ length (adc_data d) = 4%nat /\ bytes_ok (adc_data d) /\ fits 16 (chipVcc d).

Lemma b2z_length b : length (sdec (b2z b)) = 1%nat.
Proof. by destruct b. Qed.

Lemma mv_length l :
  bytes_ok l -> exists mv, mapM millivolts l = Some mv
    /\ (length (concat ((fun v => sdec v ++ [44%Z]) <$> mv)) <= 5 * length l)%nat.
Proof.
  induction 1 as [|x l Hx _ (mv & E & Hl)]; [by exists []|].
  destruct (millivolts_range x Hx) as (v & Ev & Hv). exists (v :: mv). cbn [mapM]. rewrite Ev. cbn. rewrite E.
  split; [done|]. rewrite !length_app. cbn [length]. pose proof (sdec_digits 4 v ltac:(lia) ltac:(lia)). lia.
Qed.

Lemma text_length k d :
  plausible k d -> exists t, mqtt_text d = Some t /\ (length t <= 79 + k)%nat.
Proof.
  intros (Hb & Hk & Hv & Hs & (D0 & D1 & D2 & _ & D4 & D5 & _) & (ha & Eha & Lha) & (hb & Ehb & Lhb)
          & (hc & Ehc & Lhc) & (hd & Ehd & Lhd) & Hal & Hab & Hvc).
  destruct (mv_length _ Hab) as (mv & Emv & Lmv). unfold mqtt_text.
  rewrite Eha, Ehb, Ehc, Ehd, Emv. cbn [mbind option_bind]. eexists. split; [done|].
  pose proof (sdec_digits k (bootCount d) Hb Hk).
  pose proof (sdec_digits 3 (radio_version d) ltac:(word_lia) ltac:(lia)).
  pose proof (sdec_length 2 (snr d) ltac:(cbn; lia) ltac:(lia)).
  pose proof (sdec_digits 5 (chipVcc d) ltac:(word_lia) ltac:(lia)).
  pose proof (sdec02_two (month (date d)) ltac:(lia)). pose proof (sdec02_two (dayOfMonth (date d)) ltac:(lia)).
  pose proof (sdec02_two (hour (date d)) ltac:(lia)). pose proof (sdec02_two (minute (date d)) ltac:(lia)).
  pose proof (sdec02_two (second (date d)) ltac:(lia)).
  rewrite Hal in Lmv. cbn [fmap list_fmap concat]. 
  repeat rewrite length_app. rewrite !b2z_length. cbn [length]. change (length (str "X,")) with 2%nat. lia.
Qed.

Lemma sdec_ok x : text_ok (sdec x).
Proof. unfold sdec. destruct (Z.ltb_spec x 0); [constructor; [done|]|]; apply dec_ok; lia. Qed.
Lemma sdec02_ok x : text_ok (sdec02 x).
Proof. unfold sdec02. destruct (Z.ltb_spec x 0); [apply sdec_ok|apply dec02_ok; lia]. Qed.
#[local] Hint Resolve sdec_ok sdec02_ok : texts.
Lemma tenths_ok v t : tenths v = Some t -> text_ok t.
Proof.
  unfold tenths. destruct (int_of _); [|done]. destruct (fraction _); [|done]. intros <-%(inj Some). auto with texts.
Qed.
Lemma concat_ok l : Forall text_ok l -> text_ok (concat l).
Proof. induction 1; [constructor|]. by apply text_app. Qed.

Lemma mqtt_text_ok d t : mqtt_text d = Some t -> text_ok t.
Proof.
  unfold mqtt_text. destruct (tenths (ambient_hpa d)) as [ha|] eqn:Ea; [|done].
  destruct (tenths (ambient_degc d)) as [hb|] eqn:Eb; [|done].
  destruct (tenths (humidity d)) as [hc|] eqn:Ec; [|done].
  destruct (tenths (humidity_temp d)) as [hd|] eqn:Ed; [|done]. cbn [mbind option_bind].
  destruct (mapM millivolts (adc_data d)) as [mv|]; [|done]. intros <-%(inj Some).
  apply tenths_ok in Ea, Eb, Ec, Ed.
  assert (text_ok (concat ((fun v => sdec v ++ [44]) <$> mv))).
  { apply concat_ok. apply Forall_fmap, Forall_forall. intros x _. cbn. auto with texts. }
  repeat first [done | apply Forall_nil_2 | apply text_app | apply concat_ok, Forall_fmap, Forall_forall; intros x _; cbn | auto with texts].
Qed.

(** * Properties *)
Section Properties.
Context {W : Type} `{HW : Wire W} {HD : Ds1307 W}.

(** Also: each boot of the leaf adds one to the count in the clock chip's memory
    (modulo 2^32), or stores zero in beacon mode, reports the new count as a
    signed number, and touches no other cell. *)
Theorem boot_counted beacon d c :
  triple (memory c) (boot_count beacon d)
    (fun d' w => let n := if beacon then 0 else u32 (stored c + 1) in
       bootCount d' = s32 n /\ stored (cells (chip_of w)) = n
       /\ forall a, a ∉ [18; 19; 20; 21] -> cells (chip_of w) !!! a = c !!! a).
Proof.
  eapply triple_post; [apply t_boot|]. intros d' w [-> Hw]. cbn zeta in *.
  set (n := if beacon then 0 else u32 (stored c + 1)) in *.
  assert (fits 32 n) as Hn by (subst n; destruct beacon; [word_lia|apply u32_ok]).
  unfold memory in Hw. rewrite Hw. split; [done|]. split; [by apply stored_count|].
  intros a Ha. rewrite !not_elem_of_cons in Ha. destruct Ha as (?&?&?&?&_).
  unfold count_cells. by rewrite !lookup_total_insert_ne by congruence.
Qed.

(** C17: a date and time in the clock chip's registers, the clock halted or not,
    is read as itself, and [have_date] is set. *)
Theorem clock_reads_back t halted d c :
  valid t -> holds t halted c ->
  triple (memory c) (read_datetime_once d) (fun d' w => have_date d' = true /\ date d' = t /\ memory c w).
Proof.
  intros Ht Hh. eapply triple_post; [apply t_datetime|]. intros d' w [-> Hw].
  by rewrite (decoded_holds _ _ _ Ht Hh).
Qed.

(** Also: [fix_datetime_once] sets 12:41:00 on Thursday 3 December 2015 (its
    comment says 11:53). *)
Theorem fixed_time d c :
  triple (memory c) (fix_datetime_once d) (fun d' _ => date d' = Datetime 0 41 12 5 3 12 15).
Proof. eapply triple_post; [apply t_fix|]. by intros d' w ->. Qed.
End Properties.

(** Also: the converter's averaging gives 0 for three samples of any value and two
    that are 3 above it: every distance from the mean truncates to the mean
    distance, no sample counts as valid, and the sum that was cleared is kept. *)
Theorem average_drops_to_zero a :
  0 <= a < 253 -> average [a; a; a; a + 3; a + 3] = Some 0.
Proof.
  intros Ha.
  pose proof (forall_below 253 (fun a => bool_decide (average [a; a; a; a + 3; a + 3] = Some 0))) as H.
  specialize (H ltac:(vm_compute; reflexivity) a Ha). by apply bool_decide_eq_true in H.
Qed.

(** Equal samples average to themselves, and a sample far off is dropped. *)
Example average_equal : forallb (fun a => bool_decide (average (replicate 5 a) = Some a)) (below 256) = true.
Proof. vm_compute. reflexivity. Qed.
Example average_outlier : average [100; 100; 255; 100; 100] = Some 100. Proof. vm_compute. reflexivity. Qed.

(** A value between 0 and -1 is printed with the wrong whole part. *)
Example negative_misprinted : tenths (fdiv (f32 (-7)) (f32 10)) = Some (str "-1.3").
Proof. vm_compute. reflexivity. Qed.

(** ** Witnesses *)
Definition some_time : datetime := Datetime 59 41 23 5 31 12 15.
Definition clock_cells : gmap Z Z :=
  list_to_map [(0, 0xd9); (1, 0x41); (2, 0x23); (3, 5); (4, 0x31); (5, 0x12); (6, 0x15)].

Lemma clock_reads_back_witness :
  triple (memory (W := rtc) clock_cells) (read_datetime_once sensor_reset)
    (fun d' w => have_date d' = true /\ date d' = some_time /\ memory clock_cells w).
Proof. apply (clock_reads_back some_time true); [vm_compute; intuition congruence|by vm_compute]. Defined.

Lemma average_drops_to_zero_witness : average [10; 10; 10; 13; 13] = Some 0.
Proof. apply (average_drops_to_zero 10). lia. Defined.
