(* ===== verification/DeviceSketches.v ===== *)
(** Two sketches that read devices on the I2C bus: the averaging test of the
    converter, [src/software/mcu/adc-test/src/adc-test.ino] (module [AdcTest],
    compiled without [GOOD_SINGLE]), and the logger of
    [src/attic/experiments/arduino/time_solar_and_temp_monitor/] (module [Solar]).

    The bus and what both share with the leaf's sensors are those of [Sensors].
    What a sketch prints is the result of a definition, without the text around
    it; starting the bus and the console and the pin modes are left out. *)
From S2P Require Import Prelude IpAddr Format Sensors.

(** * adc-test.ino *)
Module AdcTest.
Section Sketch.
Context {W : Type} `{Wire W}.
Abbreviation M := (ST W).

(** The addresses from [addr] on that answer. *)
Fixpoint scan (n : nat) (addr : Z) : M (list Z) :=
  match n with
  | O => mret []
  | S n =>
      begin_tx addr;;
      error ← end_tx;
      l ← scan n (addr + 1);
      mret (if error =? 0 then addr :: l else l)
  end.
Definition scan_i2c_bus : M (list Z) := scan (Z.to_nat (127 - 3)) 3.

Definition setup : M (list Z) := l ← scan_i2c_bus; pause 500;; mret l.

(** The samples and the value of each channel from [ch] on, up to a failure. *)
Fixpoint channels (todo : nat) (ch : Z) : M (list (list Z * Z)) :=
  match todo with
  | O => mret []
  | S todo =>
      begin_tx PCF8591_I2C_ADDR;; put_byte (Z.lor ch 0x40);; put_byte 0;;
      error ← end_tx;
      if negb (error =? 0) then mret []
      else
        value ← sample_loop 5 [];
        match (value : option (list Z)) with
        | None => mret []
        | Some value =>
            adcValue ← lift_opt (average value);
            lift_opt (millivolts adcValue);;
            pause 100;;
            l ← channels todo (ch + 1);
            mret ((value, adcValue) :: l)
        end
  end.
Definition loop : M (list (list Z * Z)) := l ← channels 4 0; pause 1000;; mret l.
End Sketch.
End AdcTest.

(** * time_solar_and_temp_monitor.ino *)
Module Solar.
(** The other hardware, and the libraries of the temperature sensor. *)
Class Board (W : Type) := {
  digitalWrite : Z -> bool -> W -> W;
  delayMicroseconds : Z -> W -> W;
  millis : W -> Z * W;
  analogRead : Z -> W -> Z * W;
  digitalRead : Z -> W -> Z * W;
  ds_search : W -> option (list Z) * W;
  ds_setResolution : list Z -> Z -> W -> W;     (* after [sensors.begin] *)
  ds_temperature : W -> float * W }.             (* requested, then read *)

Definition I2C_ADDR_RTC := 0x68.
Definition PIN_BUZZER := 11.
Definition PIN_LED := 13.
Definition PIN_LED_GREEN := 9.
Definition PIN_LED_BLUE := 10.
Definition PIN_BUTTON := 8.

Definition bcd2dec (val : Z) : Z := u8 (val / 16 * 10 + val mod 16).
Definition dec2bcd (val : Z) : Z := u8 (val mod 10 + val / 10 * 16).

(** [(v * 5000L) / 1023L] *)
Definition to_millivolts (v : Z) : Z := Z.quot (v * 5000) 1023.

Section Sketch.
Context {W : Type} `{Wire W} `{Board W}.
Variable crc8 : list Z -> Z.               (* of the library *)
Variable fuel : nat.                       (* bounds the periods of a tone *)
Abbreviation M := (ST W).

Definition act (f : W -> W) : M () := fun w => Some ((), f w).
Definition ask {A} (f : W -> A * W) : M A := fun w => Some (f w).

Fixpoint tone_loop (fuel : nat) (buzzer uSdelay ending : Z) : M () :=
  now ← ask millis;
  if now <? ending then
    match fuel with
    | O => undefined
    | S fuel =>
        act (digitalWrite buzzer true);; act (delayMicroseconds uSdelay);;
        act (digitalWrite buzzer false);; act (delayMicroseconds uSdelay);;
        tone_loop fuel buzzer uSdelay ending
    end
  else mret ().
Definition Tone (buzzer Freq duration : Z) : M () :=
  let uSdelay := Z.quot 1000000 (Freq * 2) in
  now ← ask millis;
  tone_loop fuel buzzer uSdelay (u32 (now + duration)).

(** The address of the temperature sensor, when there is one and its checksum is
    right; [ds_good] is the result's being there. *)
Definition setup : M (option (list Z)) :=
  act (digitalWrite PIN_LED true);; act (digitalWrite PIN_LED_GREEN true);; act (digitalWrite PIN_LED_BLUE true);;
  Tone PIN_BUZZER 990 120;;
  begin_tx I2C_ADDR_RTC;; put_byte 7;; put_byte 0;; end_tx;;
  pause 5000;;
  act (digitalWrite PIN_LED_BLUE true);;
  Tone PIN_BUZZER 990 120;;
  pause 5000;;
  act (digitalWrite PIN_LED false);;
  addr ← ask ds_search;
  r ← (match (addr : option (list Z)) with
       | Some addr =>
           if negb (nth 7 addr 0 =? crc8 (take 7 addr)) then Tone PIN_BUZZER 390 1700;; mret None
           else
             Tone PIN_BUZZER 790 700;;
             act (ds_setResolution addr 10);;
             mret (Some addr)
       | None => mret None
       end);
  act (digitalWrite PIN_LED_GREEN false);; act (digitalWrite PIN_LED_BLUE false);;
  mret r.

(** A [byte] argument of [bcd2dec]. *)
Definition read_bcd (mask : Z) : M Z := b ← get_byte; mret (bcd2dec (u8 (Z.land b mask))).

Definition readDsRtcTime : M datetime :=
  begin_tx I2C_ADDR_RTC;; put_byte 0;; end_tx;;
  request I2C_ADDR_RTC 7;;
  second ← read_bcd 0x7f;
  minute ← read_bcd (-1);
  hour ← read_bcd 0x3f;
  dayOfWeek ← read_bcd (-1);
  dayOfMonth ← read_bcd (-1);
  month ← read_bcd (-1);
  year ← read_bcd (-1);
  mret (Datetime second minute hour dayOfWeek dayOfMonth month year).

(** The bytes printed; [None] is printed as dashes. *)
Fixpoint dump_from (todo : nat) (n : Z) : M (list (option Z)) :=
  match todo with
  | O => mret []
  | S todo =>
      begin_tx I2C_ADDR_RTC;; put_byte n;; end_tx;;
      request I2C_ADDR_RTC 1;;
      a ← is_available;
      x ← (if (a : bool) then x ← get_byte; mret (Some (u8 x)) else mret None);
      l ← dump_from todo (n + 1);
      mret (x :: l)
  end.
Definition dump : M (list (option Z)) := dump_from 0x40 0.

(** [while (--count)] from [count + 1] on: a second, then the button. *)
Fixpoint wait (count : nat) : M () :=
  match count with
  | O => mret ()
  | S count =>
      pause 1000;;
      b ← ask (digitalRead PIN_BUTTON);
      if b =? 0 then mret () else wait count
  end.

Definition read_channel (pin : Z) : M Z := v ← ask (analogRead pin); pause 125;; mret v.

(** A line: the time, the four voltages, the temperature. *)
Definition loop : M (datetime * list Z * float) :=
  act (digitalWrite PIN_LED true);;
  t ← readDsRtcTime;
  degC ← ask ds_temperature;
  v3 ← read_channel 2; v4 ← read_channel 3; v5 ← read_channel 4; v6 ← read_channel 5;
  act (digitalWrite PIN_LED false);;
  wait 299;;
  mret (t, to_millivolts <$> [v3; v4; v5; v6], degC).
End Sketch.
End Solar.
