(* ===== verification/DeviceSketchesFacts.v ===== *)
(** The device sketches against the leaf's sensor code: the converter test computes
    what the leaf reads, the logger reads the same clock. *)
From S2P Require Import Prelude IpAddr Format Sensors SensorsFacts DeviceSketches.

(** * The converter *)
Section Adc.
Context {W : Type} `{Wire W}.

Lemma lift_opt_same {A} (o : option A) (w : W) a w' : lift_opt o w = Some (a, w') -> w' = w.
Proof. unfold lift_opt. destruct o; [|done]. by intros [= _ <-]. Qed.

(** The values of a run, from channel [ch] on. *)
Fixpoint put_values (ch : Z) (l : list Z) (adc : list Z) : list Z :=
  match l with [] => adc | v :: l => put_values (ch + 1) l (<[Z.to_nat ch := v]> adc) end.

Lemma dac_off_ends (w : W) : exists w', dac_off w = Some ((), w').
Proof. unfold dac_off, begin_tx, put_byte, end_tx. st_unfold. destruct (endTransmission _) as [e w']. by exists w'. Qed.

(** The test and the leaf's routine make the same bus operations, channel by
    channel: the leaf stores the values the test finds, and has them all exactly
    when the test has four. *)
Lemma channels_agree todo : forall ch d (w : W) l w1,
  AdcTest.channels todo ch w = Some (l, w1) ->
  exists d' w', channel_loop todo ch d w = Some (d', w')
    /\ adc_data d' = put_values ch l.*2 (adc_data d)
    /\ have_pcf8591 d' = (if bool_decide (length l = todo) then true else have_pcf8591 d).
Proof.
  induction todo as [|todo IH]; intros ch d w l w1 E; cbn [AdcTest.channels channel_loop] in *.
  { injection E as <- <-. destruct (dac_off_ends w) as [w' Ew]. do 2 eexists. by rewrite ST_bind_eq, Ew. }
  st_inv. rename x into u1, x0 into w2, x1 into u2, x2 into w3, x3 into u3, x4 into w4, x5 into error, x6 into w5.
  repeat match goal with H1 : ?m ?v = Some _ |- context [(?m ≫= _) ?v] => rewrite ST_bind_eq, H1; cbn beta iota end.
  destruct (negb (error =? 0)).
  { injection E as <- <-. do 2 eexists. split; [done|]. by rewrite bool_decide_false. }
  st_inv. rename x into value, x0 into w6.
  repeat match goal with H1 : ?m ?v = Some _ |- context [(?m ≫= _) ?v] => rewrite ST_bind_eq, H1; cbn beta iota end.
  destruct value as [value|].
  2: { injection E as <- <-. destruct (dac_off_ends w6) as [w' Ew]. do 2 eexists.
       rewrite ST_bind_eq, Ew. split; [done|]. by rewrite bool_decide_false. }
  st_inv. rename x into adcValue, x0 into w7, x2 into w8, x5 into l', x6 into w9.
  assert (w8 = w7) as -> by (by eapply lift_opt_same).
  repeat match goal with H1 : ?m ?v = Some _ |- context [(?m ≫= _) ?v] => rewrite ST_bind_eq, H1; cbn beta iota end.
  injection E as <- <-.
  edestruct IH as (d' & w' & E' & Ha & Hh); [eassumption|]. exists d', w'. split; [exact E'|]. split; [exact Ha|].
  rewrite Hh. cbn [length have_pcf8591 with_adc]. by repeat case_bool_decide; try lia.
Qed.

(** Whenever the test runs through, the leaf reads the four values it finds. *)
Lemma adc_test_agrees d (w : W) l w1 :
  AdcTest.channels 4 0 w = Some (l, w1) -> length l = 4%nat -> length (adc_data d) = 4%nat ->
  exists d' w', read_pcf8591_once d w = Some (d', w') /\ have_pcf8591 d' = true /\ adc_data d' = l.*2.
Proof.
  intros E Hl Hd. destruct (channels_agree 4 0 (with_adc false (adc_data d) d) w l w1 E) as (d' & w' & E' & Ha & Hh).
  exists d', w'. split; [exact E'|]. rewrite Hl in Hh. split; [exact Hh|]. rewrite Ha. cbn [adc_data with_adc].
  destruct l as [|[? a] [|[? b] [|[? c] [|[? e] []]]]]; try done.
  by destruct (adc_data d) as [|? [|? [|? [|? []]]]].
Qed.
End Adc.

(** * The logger *)
Section Logger.
Import Solar.

Lemma to_millivolts_range v : 0 <= v <= 1023 -> 0 <= to_millivolts v <= 5000.
Proof.
  intros Hv. unfold to_millivolts. rewrite Z.quot_div_nonneg by lia. Z.div_mod_to_equations. lia.
Qed.

Lemma bcd_inverse v : 0 <= v < 100 -> bcd2dec (dec2bcd v) = v.
Proof. intros Hv. unfold bcd2dec, dec2bcd. word_lia. Qed.

Context {W : Type} `{HW : Wire W} {HD : Ds1307 W}.

Lemma read_bcd_same mask (w : W) : read_bcd mask w = bcd_byte mask w.
Proof.
  unfold read_bcd, bcd_byte. rewrite !ST_bind_eq. destruct (get_byte w) as [[b w']|]; [|done]. unfold mret, ST_ret.
  do 2 f_equal. unfold bcd2dec, bcdToDec. pose proof (u8_ok (Z.land b mask)) as [Hb _].
  by rewrite Z.quot_div_nonneg, Z.rem_mod_nonneg by (done || lia).
Qed.

Lemma t_read_bcd v mask b l :
  wrx v = b :: l ->
  triple (rtc_at v) (read_bcd mask)
    (fun x w => x = bcdToDec (u8 (Z.land b mask)) /\ rtc_at (Rtc (cells v) (cur v) (wtx v) l) w).
Proof. intros E w Hw. rewrite read_bcd_same. by apply (t_bcd v mask b l E w). Qed.

(** The logger reads the time the clock chip holds. *)
Lemma logger_reads_clock t halted c :
  valid t -> holds t halted c -> triple (memory c) readDsRtcTime (fun t' w => t' = t /\ memory c w).
Proof.
  intros Ht Hh. rewrite <- (decoded_holds _ _ _ Ht Hh). apply triple_memory. intros v Hv. unfold readDsRtcTime.
  do 4 rtc_step.
  assert (rtc_request 7 (rtc_end (rtc_write (u8 0) (rtc_begin I2C_ADDR_RTC v)))
          = Rtc c 7 (Some []) [c !!! 0; c !!! 1; c !!! 2; c !!! 3; c !!! 4; c !!! 5; c !!! 6]) as ->.
  { unfold rtc_request. cbn -[get_cells Z.to_nat]. rewrite Hv. change (Z.to_nat 7) with 7%nat.
    change (0 `mod` 64) with 0. rewrite !get_cells_cons by done. done. }
  do 7 (eapply triple_bind; [by apply t_read_bcd|]; intros ?; cbn beta; apply triple_known; intros ->;
        cbn [cells cur wtx wrx]).
  apply triple_ret. intros w Hw. rewrite !Z.land_m1_r. split; [done|]. unfold rtc_at in Hw. unfold memory. by rewrite Hw.
Qed.
End Logger.
