(* ===== verification/LeafApp.v ===== *)
(** The leaf node's program: [src/software/mcu/leaf/src/leaf.ino], built for the
    ESP8266, with [scan_i2c_bus] and [deep_sleep_and_reset] of [sf-mcu.cpp].

    It boots, reads its sensors, connects, registers a topic, publishes the
    measurements and sleeps; [setup] runs once, [loop] again and again. A node
    of [Link] talks to the gateway, the sensors are those of [Sensors]. Console
    output and the pins are left out; [ESP.deepSleep] is an event, after which
    the code runs on until the sleep begins. *)
From S2P Require Import Prelude Format Mqttsn Radio Link Sensors.

Inductive PushStates := NEED_CONNECT | SENT_CONNECT | WAIT_REGACK | WAIT_PUBACK.
#[export] Instance PushStates_eq_dec : EqDecision PushStates.
Proof. solve_decision. Defined.

Definition FAULT_SLEEP_INTERVAL_MS := 20000.
Definition ROUTINE_SLEEP_INTERVAL_MS := 60000.
Definition STATS_INTERVAL_MS := 6000.
Definition RUNTIME_TIMEOUT := 20000.

(** The value of an [elapsedMillis] at [now], when it was set to 0 at [ms]. *)
Definition elapsedMillis (now ms : Z) : Z := u32 (now - ms).

(** The counts are [int]s, here mathematical integers: one grows by at most one in
    a turn of [loop], and no theorem is about a sum of 2^31 turns. *)
Record Metrics := Metric { rx_count : Z; crc_count : Z; timeout_count : Z; disconnects : Z }.

(** What the hardware and the third-party drivers say at boot. *)
Record hardware := Hardware {
  pin_scl : Z;
  pin_sda : Z;
  vcc : Z;
  macAddress : list Z;
  bmp_begins : bool;
  bmp_pressure : float;
  bmp_temperature : float;
  bmp_altitude : float;
  dht : option (float * float) }.

Section App.
Context {W : Type} `{HS : Spi W} {B : Type} `{HW : Wire B}.

(** The globals. Of the two [elapsedMillis], when they were last set to 0. *)
Record app := App {
  the_node : node (W := W);
  the_bus : B;
  sensorData : sensor_data;
  state : PushStates;
  metrics : Metrics;
  elapsedRuntime : Z;
  elapsedStatTime : Z;
  registered_topic_id : Z;
  in_beacon_mode : bool;
  in_log_mode : bool;
  puback_pass_hack : Z;
  sleeps : list Z                (* the [deepSleep] calls, in milliseconds *) }.
Abbreviation A := (ST app).

Definition set_node (x : node) (a : app) : app :=
  App x (the_bus a) (sensorData a) (state a) (metrics a) (elapsedRuntime a) (elapsedStatTime a)
    (registered_topic_id a) (in_beacon_mode a) (in_log_mode a) (puback_pass_hack a) (sleeps a).
Definition set_sensors (x : B) (d : sensor_data) (a : app) : app :=
  App (the_node a) x d (state a) (metrics a) (elapsedRuntime a) (elapsedStatTime a)
    (registered_topic_id a) (in_beacon_mode a) (in_log_mode a) (puback_pass_hack a) (sleeps a).
Definition set_state (s : PushStates) (a : app) : app :=
  App (the_node a) (the_bus a) (sensorData a) s (metrics a) (elapsedRuntime a) (elapsedStatTime a)
    (registered_topic_id a) (in_beacon_mode a) (in_log_mode a) (puback_pass_hack a) (sleeps a).
Definition set_metrics (m : Metrics) (a : app) : app :=
  App (the_node a) (the_bus a) (sensorData a) (state a) m (elapsedRuntime a) (elapsedStatTime a)
    (registered_topic_id a) (in_beacon_mode a) (in_log_mode a) (puback_pass_hack a) (sleeps a).
Definition set_times (r s : Z) (a : app) : app :=
  App (the_node a) (the_bus a) (sensorData a) (state a) (metrics a) r s
    (registered_topic_id a) (in_beacon_mode a) (in_log_mode a) (puback_pass_hack a) (sleeps a).
Definition set_topic (t : Z) (a : app) : app :=
  App (the_node a) (the_bus a) (sensorData a) (state a) (metrics a) (elapsedRuntime a)
    (elapsedStatTime a) t (in_beacon_mode a) (in_log_mode a) (puback_pass_hack a) (sleeps a).
Definition set_modes (beacon log : bool) (a : app) : app :=
  App (the_node a) (the_bus a) (sensorData a) (state a) (metrics a) (elapsedRuntime a)
    (elapsedStatTime a) (registered_topic_id a) beacon log (puback_pass_hack a) (sleeps a).
Definition set_hack (n : Z) (a : app) : app :=
  App (the_node a) (the_bus a) (sensorData a) (state a) (metrics a) (elapsedRuntime a)
    (elapsedStatTime a) (registered_topic_id a) (in_beacon_mode a) (in_log_mode a) n (sleeps a).
Definition log_sleep (ms : Z) (a : app) : app :=
  App (the_node a) (the_bus a) (sensorData a) (state a) (metrics a) (elapsedRuntime a)
    (elapsedStatTime a) (registered_topic_id a) (in_beacon_mode a) (in_log_mode a)
    (puback_pass_hack a) (sleeps a ++ [ms]).

Definition count_rx (m : Metrics) : Metrics :=
  Metric (rx_count m + 1) (crc_count m) (timeout_count m) (disconnects m).
Definition count_crc (m : Metrics) : Metrics :=
  Metric (rx_count m) (crc_count m + 1) (timeout_count m) (disconnects m).
Definition count_timeout (m : Metrics) : Metrics :=
  Metric (rx_count m) (crc_count m) (timeout_count m + 1) (disconnects m).
Definition count_disc (m : Metrics) : Metrics :=
  Metric (rx_count m) (crc_count m) (timeout_count m) (disconnects m + 1).

Definition on_node {X} (m : ST node X) : A X :=
  fun a => match m (the_node a) with
           | Some (x, n) => Some (x, set_node n a) | None => None end.
(** A function that takes [sensorData] by reference and uses the bus. *)
Definition on_sensors (m : sensor_data -> ST B sensor_data) : A () :=
  fun a => match m (sensorData a) (the_bus a) with
           | Some (d, b) => Some ((), set_sensors b d a) | None => None end.
Definition on_metrics (f : Metrics -> Metrics) : A () :=
  modify (fun a => set_metrics (f (metrics a)) a).
Definition on_data (f : sensor_data -> sensor_data) : A () :=
  modify (fun a => set_sensors (the_bus a) (f (sensorData a)) a).

(** The value [millis()] has from here on. *)
Definition at_time (ms : Z) : A () :=
  on_node (on_client (modify (fun w => World (obj w) (ext w) (sent w) ms))).
Definition wait (ms : Z) : A () :=
  on_node (on_radio (Radio.pause ms));; on_sensors (fun d => pause ms;; mret d).

Definition deep_sleep_and_reset (ms : Z) : A () := modify (log_sleep ms);; wait 500.

(** The loop of [scan_i2c_bus], which only prints what it finds. *)
Fixpoint scan_i2c_bus (addr : Z) (n : nat) (d : sensor_data) : ST B sensor_data :=
  match n with
  | O => mret d
  | S n => begin_tx addr;; end_tx;; scan_i2c_bus (addr + 1) n d
  end.

Definition read_chip_once (hw : hardware) : A () := on_data (with_chip (vcc hw) (macAddress hw)).

Definition read_radio_once : A () :=
  v ← on_node (on_radio ReadVersion);
  on_data (with_radio (negb (v =? 0) && negb (v =? 0xff)) v).

(** ** The program *)
Section Program.
(** The characters a pointer in the topic table points to while a message is
    handled, the indeterminate value of [register_handler], the contents of an
    uninitialised array, and the address of [TOPIC] in [register_topic]. *)
Context (deref : Z -> list Z) (junk : Z) (uninit : nat -> list Z) (frame : Z).

Definition vt := leaf_vtable deref junk.

Definition setup (hw : hardware) (now : Z) : A () :=
  on_data (fun _ => sensor_reset);;
  at_time now;;
  let beacon := pin_scl hw =? 0 in
  let log := pin_sda hw =? 0 in
  modify (set_modes beacon log);;
  when (beacon && negb log) (on_data (with_beacon true));;
  when (negb beacon && negb log) (on_sensors (scan_i2c_bus 3 124));;
  read_chip_once hw;;
  on_sensors (boot_count beacon);;
  when (negb beacon && negb log)
    (on_sensors read_datetime_once;;
     on_data (read_bmp_once (bmp_begins hw) (bmp_pressure hw) (bmp_temperature hw) (bmp_altitude hw));;
     on_sensors read_pcf8591_once;;
     match dht hw with
     | Some (h, t) => on_data (with_humidity h t)
     | None => mret ()
     end);;
  read_radio_once;;
  on_node Begin;;
  modify (set_metrics (Metric 0 0 0 0));;
  modify (set_times now now);;
  if beacon || log then mret ()
  else
    on_node (method (connect 0 30 (str "sfnode1")));;
    modify (set_state SENT_CONNECT).

(** The string [register_topic] builds on its stack. *)
Definition topic_name (d : sensor_data) : option (list Z) :=
  buf ← snprintf (uninit 128) 0 128 (str "sentrifarm/leaf/csv/");
  let n := length (str "sentrifarm/leaf/csv/") in
  buf ← snprintf buf n (128 - n) (mac d ≫= hex 2);
  Some (c_string buf).

(** While it runs, the pointer the topic table may hold since an earlier call
    points to the string it has just built. *)
Definition register_topic : A bool :=
  a ← get;
  TOPIC ← lift_opt (topic_name (sensorData a));
  let o := obj (client (the_node a)) in
  let '(topic_id, _) := find_topic_id (fun p => if p =? frame then TOPIC else deref p) TOPIC 0 o in
  if 0xffff =? topic_id then
    ok ← on_node (method (Mqttsn.register_topic frame TOPIC));
    when (negb ok) (deep_sleep_and_reset FAULT_SLEEP_INTERVAL_MS);;
    mret false
  else modify (set_topic topic_id);; mret true.

Definition publish_data : A () :=
  a ← get;
  buf ← lift_opt (make_mqtt_0 (uninit 192) 192 (sensorData a));
  on_node (method (publish FLAG_QOS_1 (registered_topic_id a) (c_string buf))).

Definition log_mode (fuel : nat) : A () :=
  on_node (on_radio (ReceiveMessage fuel 128));;
  on_node (on_radio Standby).

(** The case [WAIT_REGACK] of the switch. *)
Definition send_data (now : Z) : A () :=
  modify (fun a => let r := (air_side (the_node a)).1 in
                   set_sensors (the_bus a) (with_link (rssi_dbm_ r) (rx_snr_db_ r) (sensorData a)) a);;
  publish_data;;
  modify (fun a => set_times now (elapsedStatTime a) a);;
  modify (set_state WAIT_PUBACK).

Definition switch (now : Z) : A () :=
  a ← get;
  match state a with
  | SENT_CONNECT =>
      ok ← register_topic;
      if (ok : bool) then
        modify (fun a => set_times now (elapsedStatTime a) a);;
        modify (set_state WAIT_REGACK);;
        send_data now
      else mret ()
  | WAIT_REGACK => send_data now
  | WAIT_PUBACK =>
      modify (fun a => set_hack (puback_pass_hack a + 1) a);;
      when (DidPuback (ext (client (the_node a))) || (2 <? puback_pass_hack a + 1))
        (deep_sleep_and_reset ROUTINE_SLEEP_INTERVAL_MS)
  | NEED_CONNECT => mret ()
  end.

(** The part of [loop] after the reception; [got] is [rx_ok]. *)
Definition after_receive (got : bool) (now : Z) : A () :=
  a ← get;
  when (STATS_INTERVAL_MS <? elapsedMillis now (elapsedStatTime a))
    (modify (fun a => set_times (elapsedRuntime a) now a));;
  if RUNTIME_TIMEOUT <? elapsedMillis now (elapsedRuntime a) then
    wait 100;;
    when ((puback_pass_hack a =? 0) && bool_decide (state a <> WAIT_PUBACK))
      (deep_sleep_and_reset 10000);;
    deep_sleep_and_reset ROUTINE_SLEEP_INTERVAL_MS
  else if negb got then mret ()
  else
    on_node (on_client (on_ext ResetDisconnect));;
    waiting ← on_node (method (wait_for_response vt));
    a ← get;
    let l := ext (client (the_node a)) in
    if (waiting : bool) && DidDisconnect l then on_metrics count_disc
    else if waiting && negb (DidPuback l) then mret ()
    else switch now.

(** [now] is the time before the reception, [now'] the time after it. *)
Definition loop (fuel : nat) (now now' : Z) : A () :=
  a ← get;
  if in_log_mode a then log_mode fuel
  else if in_beacon_mode a then deep_sleep_and_reset 2500
  else if dead_ (air_side (the_node a)).1 then deep_sleep_and_reset 15000
  else
    at_time now;;
    '(got, crc) ← on_node (Link.TryReceive vt fuel);
    on_metrics (if (got : bool) then count_rx else if (crc : bool) then count_crc else count_timeout);;
    at_time now';;
    after_receive got now'.
End Program.
End App.
Arguments app W B : clear implicits.
