(* ===== verification/LeafAppFacts.v ===== *)
(** The leaf's program as a session with the gateway: what each turn of [loop]
    does in each phase, for any run of quiet turns between the replies, and
    what happens when no reply comes. *)
From S2P Require Import Prelude Format Mqttsn MqttsnFacts Radio RadioFacts Link Bridge LinkFacts.
From S2P Require Import Sensors SensorsFacts LeafApp.

(** * The reply to REGISTER *)
Definition regack_bytes (t1 t2 m1 m2 : Z) : list Z := [7; code REGACK; t1; t2; m1; m2; 0].

(** The client once a topic id is registered. *)
Definition registered (tid : Z) (o : mqttsn) : mqttsn :=
  set_waiting false (set_topics (alter (fun t => Topic (t_name t) tid) 0%nat (topic_table o)) 1 o).

Lemma parse_regack deref junk roll rx t1 t2 m1 m2 o e ms :
  awaiting REGACK o = true -> buffers_ok o -> topic_count o = 0 ->
  bytes_ok [t1; t2; m1; m2] -> message_id o = be16 m1 m2 ->
  let fr := data_frame roll rx (regack_bytes t1 t2 m1 m2) in
  exists b, length b = MAX_BUFFER_SIZE
    /\ parse (leaf_vtable deref junk) (World o (with_frame fr e) [] ms)
       = Some ((), World (registered (be16 t1 t2) (set_response_buffer b o)) (with_frame fr e) [] ms).
Proof.
  intros Haw [_ Hb] Ht Hby Hm fr. inversion_clear Hby as [|? ? Ht1 Hby'].
  inversion_clear Hby' as [|? ? Ht2 Hby]. inversion_clear Hby as [|? ? Hm1 Hby']. inversion_clear Hby' as [|? ? Hm2 _].
  set (p := regack_bytes t1 t2 m1 m2).
  set (b := p ++ drop (length p) (response_buffer o)). exists b.
  split; [subst b; rewrite length_app, length_drop, Hb; unfold MAX_BUFFER_SIZE; cbn; lia|].
  unfold parse. cbn [v_parse_impl leaf_vtable]. rewrite ST_bind_eq. subst fr. fold p.
  rewrite parse_impl_data; [|unfold MAX_BUFFER_SIZE; cbn; lia|done]. cbn [when]. fold b.
  set (w := World (set_response_buffer b o) _ [] ms).
  assert (forall off n, (off + n <= 7)%nat -> get_resp off n w = Some (take n (drop off p), w)) as Hget.
  { intros off n Hn. subst w. apply (get_resp_prefix off n p (drop (length p) (response_buffer o))); [done|]. exact Hn. }
  unfold dispatch. rewrite ST_bind_eq, Hget by lia. unfold p at 1. cbn [regack_bytes take drop hd].
  unfold dispatch_switch. rewrite type_of_code. unfold if_awaited. rewrite !ST_bind_eq.
  change (Mqttsn.this w) with (Some (obj w, w)). cbv iota beta.
  change (awaiting REGACK (obj w)) with (awaiting REGACK o). rewrite Haw.
  cbn [v_regack_handler leaf_vtable]. unfold regack_handler.
  rewrite !ST_bind_eq, Hget by lia. rewrite ST_bind_eq, Hget by lia. rewrite ST_bind_eq, Hget by lia.
  unfold p. cbn [regack_bytes take drop hd]. rewrite ST_bind_eq.
  change (Mqttsn.this w) with (Some (obj w, w)). cbv iota beta.
  change (topic_count (obj w)) with (topic_count o). change (message_id (obj w)) with (message_id o).
  rewrite !bswap_of_bytes by done. rewrite Ht, Hm, (Z.eqb_refl (be16 m1 m2)). unfold knows_topic.
  unfold on_obj, modify, registered. subst w. cbn [obj hd Z.eqb andb when].
  change (topic_count (set_response_buffer b o)) with (topic_count o). rewrite Ht.
  replace (existsb _ _) with false by done. unfold when. cbn [negb mret ST_ret obj ext sent millis].
  change ((0 <? MAX_TOPICS) && true) with true. unfold mret, ST_ret. cbv iota beta. cbn [obj].
  change (topic_count (set_response_buffer b o)) with (topic_count o). by rewrite Ht.
Qed.

(** * The program logic of the globals *)
Section Globals.
Context {W : Type} `{HS : Spi W} {HC : Sx1276 W} {B : Type} `{HW : Wire B}.
Implicit Types a : app W B.

(** The globals are those of [a0], but for the node, which satisfies [P]. *)
Definition app_at a0 (P : node (W := W) -> Prop) a : Prop := exists n, a = set_node n a0 /\ P n.

Lemma t_on_node {X} a0 P (m : ST node X) Q :
  triple P m Q -> triple (app_at a0 P) (on_node m) (fun x => app_at a0 (Q x)).
Proof.
  intros Hm a (n & -> & Hn). destruct (Hm n Hn) as (x & n' & E & HQ).
  exists x, (set_node n' a0). split; [|by exists n'].
  unfold on_node. change (the_node (set_node n a0)) with n. by rewrite E.
Qed.

Lemma t_modify a0 P f :
  (forall n, f (set_node n a0) = set_node n (f a0)) ->
  triple (app_at a0 P) (modify f) (fun _ => app_at (f a0) P).
Proof. intros Hf a (n & -> & Hn). do 2 eexists. split; [done|]. exists n. by rewrite Hf. Qed.

Lemma t_globals {X} a0 P (k : app W B -> ST (app W B) X) Q :
  (forall n, P n -> triple (app_at a0 P) (k (set_node n a0)) Q) ->
  triple (app_at a0 P) (a ← get; k a) Q.
Proof.
  intros Hk a (n & -> & Hn). destruct (Hk n Hn (set_node n a0)) as (x & a' & E & HQ); [by exists n|].
  exists x, a'. done.
Qed.

Lemma t_app_known {X} a0 (K : Prop) P (m : ST (app W B) X) Q :
  (K -> triple (app_at a0 P) m Q) -> triple (app_at a0 (fun n => K /\ P n)) m Q.
Proof. intros Hm a (n & -> & HK & Hn). apply Hm; [done|]. by exists n. Qed.

Lemma t_on_sensors a0 P (m : sensor_data -> ST B sensor_data) d b :
  m (sensorData a0) (the_bus a0) = Some (d, b) ->
  triple (app_at a0 P) (on_sensors m) (fun _ => app_at (set_sensors b d a0) P).
Proof.
  intros E a (n & -> & Hn). exists (), (set_node n (set_sensors b d a0)). split; [|by exists n].
  unfold on_sensors. change (sensorData (set_node n a0)) with (sensorData a0).
  change (the_bus (set_node n a0)) with (the_bus a0). by rewrite E.
Qed.

Lemma t_wait a0 c r v ms :
  triple (app_at a0 (node_at c r v)) (LeafApp.wait ms)
    (fun _ => app_at (set_sensors (wire_delay ms (the_bus a0)) (sensorData a0) a0) (node_at c r (tick ms v))).
Proof.
  unfold LeafApp.wait. eapply triple_bind; [apply t_on_node|].
  { apply (triple_on_radio c (at_ r v)), triple_pause. }
  intros []. by apply t_on_sensors.
Qed.

Lemma t_sleep a0 c r v ms :
  triple (app_at a0 (node_at c r v)) (deep_sleep_and_reset ms)
    (fun _ => app_at (set_sensors (wire_delay 500 (the_bus a0)) (sensorData a0) (log_sleep ms a0))
                (node_at c r (tick 500 v))).
Proof.
  unfold deep_sleep_and_reset. eapply triple_bind; [by apply t_modify|]. intros [].
  exact (t_wait (log_sleep ms a0) c r v 500).
Qed.

Lemma t_at_time a0 o e q ms r v now :
  triple (app_at a0 (node_at (World o e q ms) r v)) (at_time now)
    (fun _ => app_at a0 (node_at (World o e q now) r v)).
Proof.
  unfold at_time. eapply triple_post; [apply t_on_node; by apply triple_on_client|].
  intros [] a (n & -> & _ & Hn). by exists n.
Qed.

Lemma app_at_mono a0 (P P' : node -> Prop) a : app_at a0 P a -> (forall n, P n -> P' n) -> app_at a0 P' a.
Proof. intros (n & -> & Hn) HP. exists n. auto. Qed.

Lemma set_times_same a : set_times (LeafApp.elapsedRuntime a) (elapsedStatTime a) a = a.
Proof. by destruct a. Qed.
End Globals.

(** * The session *)

(** What the leaf is waiting for, and its last message id. *)
Inductive phase := Connecting (mid : Z) | Registering (mid : Z) | Publishing.

(** The replies of the gateway, and the topic id the second assigns. *)
Definition replies (ph : phase) (p : list Z) : Prop :=
  match ph with
  | Connecting _ => exists rc, p = [3; code CONNACK; rc]
  | Registering mid => exists t1 t2 m1 m2,
      p = regack_bytes t1 t2 m1 m2 /\ bytes_ok [t1; t2; m1; m2]
      /\ be16 m1 m2 = mid /\ be16 t1 t2 <> 0xffff
  | Publishing => exists t1 t2 m1 m2 rc, p = [7; code PUBACK; t1; t2; m1; m2; rc]
  end.

Section Session.
Context {W : Type} `{HS : Spi W} {HC : Sx1276 W} {B : Type} `{HW : Wire B}.
Context (deref : Z -> list Z) (junk : Z) (uninit : nat -> list Z) (frame : Z).
Hypothesis uninit_length : forall n, length (uninit n) = n.
Abbreviation loop := (LeafApp.loop deref junk uninit frame).
Abbreviation after := (after_receive deref junk uninit frame).
Abbreviation vt := (LeafApp.vt deref junk).

Definition radio_fit (r : radio) : Prop := dead_ r = false /\ max_tx_payload_bytes_ r = 0x80.
Definition leaf_fit (e : leaf) : Prop :=
  sent_ok e /\ length (rx_buffer_ e) = 128%nat /\ got_puback_ e = 0.
Definition client_fit (o : mqttsn) : Prop := buffers_ok o /\ fits 16 (message_id o).

(** The globals, and the client, in each phase. *)
Definition app_fit (ph : phase) (d : sensor_data) (start : Z) (a : app W B) : Prop :=
  in_log_mode a = false /\ in_beacon_mode a = false /\ puback_pass_hack a = 0 /\ sleeps a = []
  /\ sensorData a = d /\ LeafApp.elapsedRuntime a = start
  /\ state a = match ph with Publishing => WAIT_PUBACK | _ => SENT_CONNECT end.
Definition client_in (ph : phase) (o : mqttsn) : Prop :=
  match ph with
  | Connecting mid => awaiting CONNACK o = true /\ topic_count o = 0 /\ message_id o = mid
                      /\ length (topic_table o) = 10%nat
  | Registering mid => awaiting REGACK o = true /\ topic_count o = 0 /\ message_id o = mid
                      /\ (t_name <$> topic_table o !! 0%nat) = Some frame
  | Publishing => awaiting PUBACK o = true
  end.

(** In phase [ph] with measurements [d], the runtime counted from [start],
    [l] to arrive and [out] on the air so far. *)
Definition in_phase (ph : phase) (d : sensor_data) (start : Z) (l : list (nat * event))
    (out : list (list Z)) (a : app W B) : Prop :=
  exists o e ms r v,
    app_fit ph d start a /\ node_at (World o e [] ms) r v (the_node a)
    /\ radio_fit r /\ clean r v /\ leaf_fit e /\ client_fit o /\ client_in ph o
    /\ arrivals v = l /\ aired v = out.

Lemma triple_phase {X} ph d start l out (m : ST (app W B) X) Q :
  (forall a0 o e ms r v, app_fit ph d start a0 -> radio_fit r -> clean r v -> leaf_fit e -> client_fit o ->
     client_in ph o -> arrivals v = l -> aired v = out ->
     triple (app_at a0 (node_at (World o e [] ms) r v)) m Q) ->
  triple (in_phase ph d start l out) m Q.
Proof.
  intros Hm a (o & e & ms & r & v & Ha & Hn & Hr & Hc & He & Ho & Hi & Hl & Hout).
  apply (Hm a o e ms r v); try done. exists (the_node a). split; [by destruct a|done].
Qed.
(** ** A turn of [loop] *)
Lemma t_app_radio {X} (a0 : app W B) c (R : radio -> view -> Prop) (m : ST (app W B) X) Q :
  (forall r v, R r v -> triple (app_at a0 (node_at c r v)) m Q) ->
  triple (app_at a0 (fun n => client n = c /\ R (air_side n).1 (look (air_side n).2))) m Q.
Proof. intros Hm a (n & -> & Hc & HR). apply (Hm _ _ HR). by exists n. Qed.

(** A turn, from what the reception gives. *)
Lemma t_loop ph d start fuel now now' a0 o e ms r v got o' e' (R : radio -> view -> Prop) Q :
  app_fit ph d start a0 -> radio_fit r ->
  triple (node_at (World o e [] now) r v) (Link.TryReceive vt fuel)
    (fun res n => res = (got, false) /\ client n = World o' e' [] now /\ R (air_side n).1 (look (air_side n).2)) ->
  (forall m r' v', R r' v' ->
     triple (app_at (set_metrics m a0) (node_at (World o' e' [] now') r' v')) (after got now') Q) ->
  triple (app_at a0 (node_at (World o e [] ms) r v)) (loop fuel now now') Q.
Proof.
  intros (Hl & Hb & _) [Hd _] Hrcv Hk. unfold LeafApp.loop. apply t_globals. intros n [Hc [Hr Hv]].
  change (in_log_mode (set_node n a0)) with (in_log_mode a0).
  change (in_beacon_mode (set_node n a0)) with (in_beacon_mode a0).
  change (the_node (set_node n a0)) with n. rewrite Hl, Hb, Hr, Hd.
  eapply triple_bind; [apply t_at_time|]. intros [].
  eapply triple_bind; [apply t_on_node, Hrcv|]. intros [got' crc].
  apply t_app_known. intros [= -> ->]. cbv iota.
  eapply triple_bind; [by apply (t_modify a0 _ (fun a => set_metrics _ a))|]. intros [].
  apply t_app_radio. intros r' v' HR.
  eapply triple_bind; [apply t_at_time|]. intros []. by apply Hk.
Qed.

(** The rest of a turn without a message. *)
Lemma t_after_quiet a0 P now :
  elapsedMillis now (LeafApp.elapsedRuntime a0) <= RUNTIME_TIMEOUT ->
  triple (app_at a0 P) (after false now)
    (fun _ a => exists st, app_at (set_times (LeafApp.elapsedRuntime a0) st a0) P a).
Proof.
  intros Ht. unfold after_receive. apply t_globals. intros n Hn.
  change (LeafApp.elapsedRuntime (set_node n a0)) with (LeafApp.elapsedRuntime a0).
  rewrite (proj2 (Z.ltb_ge _ _)) by done. cbn [negb].
  unfold when. destruct (_ <? _).
  - eapply triple_bind; [by apply (t_modify a0 P (fun a => set_times (LeafApp.elapsedRuntime a) now a))|].
    intros []. apply triple_ret. intros a Ha. eauto.
  - apply triple_ret. intros a Ha. exists (elapsedStatTime a0). by rewrite set_times_same.
Qed.

(** The rest of a turn that took the awaited reply. *)
Lemma t_after_got a0 o e ms r v now Q :
  elapsedMillis now (LeafApp.elapsedRuntime a0) <= RUNTIME_TIMEOUT -> waiting_for_response o = false ->
  (forall st, triple (app_at (set_times (LeafApp.elapsedRuntime a0) st a0)
                        (node_at (World o (ResetDisconnect e) [] ms) r v)) (switch deref uninit frame now) Q) ->
  triple (app_at a0 (node_at (World o e [] ms) r v)) (after true now) Q.
Proof.
  intros Ht Hw Hk. unfold after_receive. apply t_globals. intros n Hn.
  change (LeafApp.elapsedRuntime (set_node n a0)) with (LeafApp.elapsedRuntime a0).
  rewrite (proj2 (Z.ltb_ge _ _)) by done. cbn [negb].
  eapply (triple_bind _ _ (fun _ a => exists st,
    app_at (set_times (LeafApp.elapsedRuntime a0) st a0) (node_at (World o e [] ms) r v) a)).
  { unfold when. destruct (_ <? _).
    - eapply triple_post; [by apply (t_modify a0 _ (fun a => set_times (LeafApp.elapsedRuntime a) now a))|].
      intros [] a Ha. by exists now.
    - apply triple_ret. intros a Ha. exists (elapsedStatTime a0). by rewrite set_times_same. }
  intros []. apply triple_ex. intros st.
  eapply triple_bind; [apply t_on_node; by apply triple_on_client|]. intros []. apply t_app_known. intros _.
  cbn [obj ext sent millis].
  eapply triple_bind; [apply t_on_node, triple_method_silent, wait_idle; by rewrite Hw|].
  intros w. apply t_app_known. intros ->. rewrite Hw. cbn [andb].
  apply t_globals. intros n' Hn'. 
  cbv zeta. cbn [andb]. apply Hk.
Qed.
(** ** The turns of a session *)
Lemma with_quality_fit r rssi snr : radio_fit r -> radio_fit (with_quality rssi snr (with_warm true r)).
Proof. done. Qed.

(** A turn that hears nothing changes nothing. *)
Lemma t_quiet ph d start k l out fuel now now' :
  (k < fuel)%nat -> elapsedMillis now' start <= RUNTIME_TIMEOUT ->
  triple (in_phase ph d start ((k, Quiet) :: l) out) (loop fuel now now') (fun _ => in_phase ph d start l out).
Proof.
  intros Hk Ht. apply triple_phase. intros a0 o e ms r v Ha Hr Hc He Ho Hi Hl Hout.
  eapply (t_loop ph d start _ _ _ _ _ _ _ _ _ false o (set_rx (rx_buffer_ e) 0 e)
    (fun r' v' => radio_fit r' /\ clean r' v' /\ arrivals v' = l /\ aired v' = out)); [done..| |].
  { eapply triple_post; [apply triple_TryReceive_quiet; [done|unfold next; by rewrite Hl..]|].
    intros res s (-> & Hcl & (rssi & snr & -> & _) & Haired & Harr & Hclean). rewrite Hl in Harr.
    split; [done|]. split; [done|]. split; [done|]. split; [done|]. split; [done|]. by rewrite Haired. }
  intros m r' v' (Hr' & Hc' & Hl' & Hout').
  destruct Ha as (Ha1 & Ha2 & Ha3 & Ha4 & Ha5 & Ha6 & Ha7).
  eapply triple_post; [apply t_after_quiet; cbn; by rewrite Ha6|].
  intros [] a (st & n & -> & Hn). exists o, (set_rx (rx_buffer_ e) 0 e), now', r', v'.
  split; [done|]. split; [done|]. done.
Qed.
(** The name of the leaf's topic. *)
Definition leaf_topic (d : sensor_data) : list Z := str "sentrifarm/leaf/csv/" ++ (mac d ≫= hex 2).

Lemma leaf_topic_length d : length (mac d) = 6%nat -> length (leaf_topic d) = 32%nat.
Proof. intros Hm. unfold leaf_topic. rewrite length_app, bind_hex_length, Hm. done. Qed.

Lemma topic_name_eq d : length (mac d) = 6%nat -> topic_name uninit d = Some (leaf_topic d).
Proof.
  intros Hm. unfold topic_name.
  assert (length (mac d ≫= hex 2) = 12%nat) as Hl by (rewrite bind_hex_length; lia).
  change (length (str "sentrifarm/leaf/csv/")) with 20%nat.
  rewrite snprintf_fresh by (rewrite ?uninit_length; cbn; lia). cbn [mbind option_bind].
  change (S (length (str "sentrifarm/leaf/csv/"))) with 21%nat.
  rewrite (snprintf_after (str "sentrifarm/leaf/csv/") (mac d ≫= hex 2) (drop 21 (uninit 128)))
    by (rewrite ?length_drop, ?uninit_length; lia).
  cbn [mbind option_bind]. rewrite c_string_text; [done|]. auto with texts.
Qed.

(** A frame of the leaf that carries the message [p]. *)
Definition carries (fr p : list Z) : Prop := exists roll, fr = data_frame roll 0 p.

Lemma with_frame_fit fr e : leaf_fit e -> (1 <= length fr <= 128)%nat -> leaf_fit (with_frame fr e).
Proof.
  intros (He1 & He2 & He3) Hfr. split; [done|]. split; [|done]. unfold with_frame. cbn [rx_buffer_ set_rx].
  rewrite length_app, length_take, length_drop. lia.
Qed.

(** The client after REGISTER. *)
Lemma register_client nm o ms :
  client_fit o -> waiting_for_response o = false -> topic_count o = 0 -> length (topic_table o) = 10%nat ->
  (length nm <= 80)%nat ->
  let rq := R_register frame nm in
  request_ok rq o /\ (footprint rq <= MAX_BUFFER_SIZE)%nat
  /\ client_fit (after_request rq ms o)
  /\ client_in (Registering (u16 (message_id o + 1))) (after_request rq ms o)
  /\ decode (wire (sent_event rq ms o)) = Some (P_register 0 (u16 (message_id o + 1)) nm).
Proof.
  intros [Hb Hm] Hw Ht Htt Hn rq.
  assert (request_ok rq o) as Hok by (split; [done|by rewrite Ht]).
  assert (footprint rq <= MAX_BUFFER_SIZE)%nat as Hf by (cbn [footprint rq]; unfold MAX_BUFFER_SIZE; lia).
  destruct (wire_decodes rq o ms Hok Hb Hm Hf) as (Hd & _ & Hb').
  assert (message_id (after_request rq ms o) = u16 (message_id o + 1)) as Hid
    by (unfold after_request; cbn [then_await awaited rq]; by destruct (waiting_for_response _)).
  split; [done|]. split; [done|]. split; [|split; [|exact Hd]].
  - split; [exact Hb'|]. rewrite Hid. apply u16_ok.
  - unfold client_in. rewrite Hid.
    unfold after_request. cbn [then_await awaited rq].
    destruct (waiting_for_response _); (split; [done|]); (split; [exact Ht|]); (split; [done|]);
      cbn; rewrite Ht; (destruct (topic_table o); [done|done]).
Qed.

(** [register_topic] while no topic is registered. *)
Lemma t_register a0 o e ms r v :
  length (mac (sensorData a0)) = 6%nat -> client_fit o -> leaf_fit e -> radio_fit r ->
  waiting_for_response o = false -> topic_count o = 0 ->
  let rq := R_register frame (leaf_topic (sensorData a0)) in
  triple (app_at a0 (node_at (World o e [] ms) r v)) (LeafApp.register_topic deref uninit frame)
    (fun ok a => ok = false /\ exists b v',
       app_at a0 (node_at (World (after_request rq ms o) (set_tx b (u8 (tx_rolling_ e + 1)) e) [] ms)
                    (with_warm false r) v') a
       /\ length b = (MAX_BUFFER_SIZE + 4)%nat
       /\ aired v' = aired v ++ [data_frame (tx_rolling_ e) 0 (wire (sent_event rq ms o))]
       /\ arrivals v' = arrivals v).
Proof.
  intros Hm [Hb Hmid] (He & _ & _) [_ Hr] Hw Ht rq. unfold LeafApp.register_topic. apply t_globals. intros n [Hn _].
  change (sensorData (set_node n a0)) with (sensorData a0). change (the_node (set_node n a0)) with n. rewrite Hn.
  eapply triple_bind; [apply triple_lift_opt, topic_name_eq, Hm|]. intros TOPIC. apply triple_known. intros ->.
  unfold find_topic_id. cbn [obj]. rewrite Ht. change (0xffff =? 0xffff) with true.
  change (take (Z.to_nat 0) (topic_table o)) with (@nil topic). cbv iota beta. cbn [find_topic_from Z.eqb Pos.eqb].
  assert (request_ok rq o) as Hok by (split; [done|by rewrite Ht]).
  eapply triple_bind.
  { apply t_on_node. apply (triple_request_as _ true rq); try done.
    - by apply register_issued.
    - cbn [footprint rq]. rewrite leaf_topic_length by done. unfold MAX_BUFFER_SIZE. lia. }
  intros ok. apply t_app_known. intros ->. cbn [negb when].
  apply triple_ret. intros a (n' & -> & b & v' & H1 & H2 & H3 & H4). split; [done|].
  exists b, v'. split; [by exists n'|done].
Qed.

(** The CONNACK makes the leaf register its topic. *)
Lemma t_connack mid d start k rx1 rx2 p c l out fuel now now' :
  (k < fuel)%nat -> elapsedMillis now' start <= RUNTIME_TIMEOUT -> length (mac d) = 6%nat ->
  replies (Connecting mid) p ->
  triple (in_phase (Connecting mid) d start ((k, Packet (data_frame rx1 rx2 p) c) :: l) out) (loop fuel now now')
    (fun _ a => exists fr q, in_phase (Registering (u16 (mid + 1))) d start l (out ++ [fr]) a
       /\ carries fr q /\ decode q = Some (P_register 0 (u16 (mid + 1)) (leaf_topic d))).
Proof.
  intros Hk Ht Hmac [rc ->]. apply triple_phase. intros a0 o e ms r v Ha Hr Hc He Ho Hi Hl Hout.
  destruct Hi as (Haw & Htc & Hmid & Htt). destruct Ho as [Hb Hmf]. 
  destruct (parse_reply_to deref junk rx1 rx2 (Connack rc) o e now Haw (proj2 Hb)) as (b & Hlb & Hp).
  cbn [taken] in Hp. set (o1 := set_waiting false (set_response_buffer b o)) in *.
  set (e1 := effect (Connack rc) _) in *.
  eapply (t_loop (Connecting mid) d start _ _ _ _ _ _ _ _ _ true o1 e1
    (fun r' v' => radio_fit r' /\ arrivals v' = l /\ aired v' = out)); [done..| |].
  { eapply triple_post; [eapply triple_TryReceive; [done|apply He| |done|done|exact Hp]|].
    - rewrite length_frame. cbn. lia.
    - intros res s (-> & Hcl & (rssi & snr & -> & _) & Haired & Harr). rewrite Haired, Harr. done. }
  intros m r' v' (Hr' & Hl' & Hout').
  destruct Ha as (Ha1 & Ha2 & Ha3 & Ha4 & Ha5 & Ha6 & Ha7).
  apply t_after_got; [cbn; by rewrite Ha6|done|]. intros st.
  assert (client_fit o1) as Ho1 by (split; [split; [apply Hb|done]|done]).
  pose proof (register_client (leaf_topic d) o1 now' Ho1 eq_refl Htc Htt
    ltac:(rewrite leaf_topic_length by done; lia)) as (_ & _ & Hreg).
  unfold switch. apply t_globals. intros n _.
  change (state (set_node n _)) with (state a0). rewrite Ha7.
  eapply triple_bind; [apply t_register|].
  { change (length (mac (sensorData a0)) = 6%nat). by rewrite Ha5. }
  all: try done.
  { by apply (with_frame_fit _ _ He); rewrite length_frame; cbn; lia. }
  intros ok. apply triple_known. intros ->. apply triple_ret. intros a (b' & v2 & (n' & -> & Hn') & Hlb' & Haired & Harr).
  eexists _, _. split; [|split; [by eexists|]].
  - eexists _, _, now', _, v2. split; [|split; [exact Hn'|]]; [done|].
    split; [done|]. split; [by left|]. split; [by split; [exact Hlb'|apply (with_frame_fit _ _ He); rewrite length_frame; cbn; lia]|].
    subst d mid. split; [exact (proj1 Hreg)|]. split; [exact (proj1 (proj2 Hreg))|].
    rewrite Harr, Haired, Hl', Hout'. done.
  - subst d mid. exact (proj2 (proj2 Hreg)).
Qed.
(** ** Publishing *)
Lemma plausible_link k rs sn d : plausible k d -> -100 < sn < 1000 -> plausible k (with_link rs sn d).
Proof. intros (? & ? & ? & _ & Hrest) Hs. do 3 (split; [done|]). split; [exact Hs|exact Hrest]. Qed.

(** The string [make_mqtt_0] leaves in the buffer. *)
Lemma data_string k d :
  plausible k d -> (k <= 6)%nat -> exists text buf,
    mqtt_text d = Some text /\ make_mqtt_0 (uninit 192) 192 d = Some buf /\ c_string buf = text
    /\ (length text <= 79 + k)%nat.
Proof.
  intros Hp Hk. destruct (text_length k d Hp) as (text & Et & Hl). exists text. eexists.
  split; [done|]. unfold make_mqtt_0. rewrite Et. cbn [mbind option_bind].
  rewrite snprintf_fresh by (rewrite ?uninit_length; lia). split; [done|]. split; [|done].
  apply c_string_text. by eapply mqtt_text_ok.
Qed.

(** The client after PUBLISH. *)
Lemma publish_client tid text o ms :
  client_fit o -> fits 16 tid -> (length text <= 85)%nat ->
  let rq := R_publish FLAG_QOS_1 tid text in
  request_ok rq o /\ (footprint rq <= MAX_BUFFER_SIZE)%nat
  /\ client_fit (after_request rq ms o) /\ client_in Publishing (after_request rq ms o)
  /\ decode (wire (sent_event rq ms o)) = Some (P_publish FLAG_QOS_1 tid (u16 (message_id o + 1)) text).
Proof.
  intros [Hb Hm] Ht Hl rq.
  assert (request_ok rq o) as Hok by (split; [by apply (bool_decide_unpack (fits 8 0x20))|done]).
  assert (footprint rq <= MAX_BUFFER_SIZE)%nat as Hf by (cbn [footprint rq]; unfold MAX_BUFFER_SIZE; lia).
  destruct (wire_decodes rq o ms Hok Hb Hm Hf) as (Hd & _ & Hb').
  split; [done|]. split; [done|]. split; [|split; [|exact Hd]].
  - split; [exact Hb'|].
    assert (message_id (after_request rq ms o) = u16 (message_id o + 1)) as ->; [|apply u16_ok].
    unfold after_request, then_await. change (awaited rq) with (Some PUBACK). by destruct (waiting_for_response _).
  - unfold client_in, after_request, then_await.
    change (awaited rq) with (Some PUBACK). by destruct (waiting_for_response _).
Qed.

Lemma t_send_data k (a0 : app W B) o e ms r v now :
  plausible k (sensorData a0) -> (k <= 6)%nat -> -100 < rx_snr_db_ r < 1000 ->
  fits 16 (registered_topic_id a0) -> client_fit o -> leaf_fit e -> radio_fit r ->
  let d := with_link (rssi_dbm_ r) (rx_snr_db_ r) (sensorData a0) in
  triple (app_at a0 (node_at (World o e [] ms) r v)) (send_data uninit now)
    (fun _ a => exists text b v', mqtt_text d = Some text /\ (length text <= 79 + k)%nat
       /\ let rq := R_publish FLAG_QOS_1 (registered_topic_id a0) text in
       app_at (set_state WAIT_PUBACK (set_times now (elapsedStatTime a0) (set_sensors (the_bus a0) d a0)))
         (node_at (World (after_request rq ms o) (set_tx b (u8 (tx_rolling_ e + 1)) e) [] ms)
            (with_warm false r) v') a
       /\ length b = (MAX_BUFFER_SIZE + 4)%nat
       /\ aired v' = aired v ++ [data_frame (tx_rolling_ e) 0 (wire (sent_event rq ms o))]
       /\ arrivals v' = arrivals v).
Proof.
  intros Hp Hk Hs Ht Ho He Hr d.
  destruct (data_string k d (plausible_link _ _ _ _ Hp Hs) Hk) as (text & buf & Et & Eb & Es & Hl).
  destruct (publish_client (registered_topic_id a0) text o ms Ho Ht ltac:(lia)) as (Hok & Hf & _).
  set (rq := R_publish _ _ _) in *. set (a1 := set_sensors (the_bus a0) d a0).
  unfold send_data. eapply triple_bind with (Q := fun _ => app_at a1 (node_at (World o e [] ms) r v)).
  { intros a (n & -> & [Hn [Hr' Hv]]). do 2 eexists. split; [done|]. exists n. split; [|done].
    cbn [the_node set_node air_side]. by rewrite Hr'. }
  intros []. eapply triple_bind.
  { unfold publish_data. apply t_globals. intros n _.
    change (sensorData (set_node n a1)) with d. rewrite Eb.
    eapply triple_bind; [by apply (triple_lift_opt _ _ buf)|]. intros b. apply triple_known. intros ->. rewrite Es.
    apply t_on_node, (triple_request rq); [done|apply Ho..|done|apply He|apply Hr]. }
  intros []. eapply triple_bind; [by apply (t_modify a1 _ (fun a => set_times now (elapsedStatTime a) a))|].
  intros []. eapply triple_post; [by apply (t_modify _ _ (set_state WAIT_PUBACK))|].
  intros [] a (n & -> & b & v' & H1 & H2 & H3 & H4). exists text, b, v'.
  split; [done|]. split; [done|]. split; [by exists n|done].
Qed.
(** The lookup finds the topic whose name is at [frame], the string there
    being the one it looks for. *)
Lemma find_registered tid nm o :
  topic_count o = 1 -> (t_name <$> topic_table o !! 0%nat) = Some frame ->
  (t_id <$> topic_table o !! 0%nat) = Some tid ->
  find_topic_id (fun p => if p =? frame then nm else deref p) nm 0 o = (tid, 0).
Proof.
  intros Hc Hn Hi. unfold find_topic_id. rewrite Hc. change (Z.to_nat 1) with 1%nat.
  destruct (topic_table o) as [|t l]; [done|]. cbn in Hn, Hi. injection Hn as Hn. injection Hi as Hi.
  cbn [take firstn find_topic_from]. rewrite Hn, Z.eqb_refl, decide_True by done. by rewrite Hi.
Qed.

(** The REGACK makes the leaf publish the measurements under the topic id it
    was given. *)
Lemma t_regack mid d start k rx1 rx2 t1 t2 m1 m2 c l out fuel now now' :
  (k < fuel)%nat -> elapsedMillis now' start <= RUNTIME_TIMEOUT -> length (mac d) = 6%nat -> plausible 6 d ->
  bytes_ok [t1; t2; m1; m2] -> be16 m1 m2 = mid -> be16 t1 t2 <> 0xffff ->
  triple (in_phase (Registering mid) d start
            ((k, Packet (data_frame rx1 rx2 (regack_bytes t1 t2 m1 m2)) c) :: l) out) (loop fuel now now')
    (fun _ a => exists fr q rs sn text, in_phase Publishing (with_link rs sn d) now' l (out ++ [fr]) a
       /\ carries fr q /\ decode q = Some (P_publish FLAG_QOS_1 (be16 t1 t2) (u16 (mid + 1)) text)
       /\ mqtt_text (with_link rs sn d) = Some text).
Proof.
  intros Hk Ht Hmac Hpl Hby Hm Htid. apply triple_phase. intros a0 o e ms r v Ha Hr Hc He Ho Hi Hl Hout.
  destruct Hi as (Haw & Htc & Hmid & Htt).
  destruct (parse_regack deref junk rx1 rx2 t1 t2 m1 m2 o e now Haw (proj1 Ho) Htc Hby) as (b & Hlb & Hp); [congruence|].
  set (o1 := registered _ _) in *. set (e1 := with_frame _ e) in *.
  assert (leaf_fit e1) as He1 by (apply with_frame_fit; [done|rewrite length_frame; cbn; lia]).
  assert (client_fit o1) as Ho1 by (split; [split; [apply Ho|done]|apply Ho]).
  assert (fits 16 (be16 t1 t2)) as Hft.
  { inversion_clear Hby as [|? ? H1 H2]. inversion_clear H2. unfold be16. word_lia. }
  eapply (t_loop (Registering mid) d start _ _ _ _ _ _ _ _ _ true o1 e1
    (fun r' v' => radio_fit r' /\ (-100 < rx_snr_db_ r' < 1000 /\ arrivals v' = l) /\ aired v' = out)); [done..| |].
  { eapply triple_post; [eapply triple_TryReceive; [done|apply He| |done|done|exact Hp]|].
    - rewrite length_frame. cbn. lia.
    - intros res s (-> & Hcl & (rssi & snr & -> & Hsn) & Haired & Harr). rewrite Haired, Harr.
      split_and!; try done; cbn; lia. }
  intros m r' v' (Hr' & (Hsn & Hl') & Hout').
  destruct Ha as (Ha1 & Ha2 & Ha3 & Ha4 & Ha5 & Ha6 & Ha7).
  apply t_after_got; [cbn; by rewrite Ha6|done|]. intros st.
  set (a1 := set_times _ st _). unfold switch. apply t_globals. intros n _.
  change (state (set_node n a1)) with (state a0). rewrite Ha7.
  eapply triple_bind with (Q := fun ok a => ok = true /\
    app_at (set_topic (be16 t1 t2) a1) (node_at (World o1 (ResetDisconnect e1) [] now') r' v') a).
  { unfold LeafApp.register_topic. apply t_globals. intros n' [Hn' _].
    change (sensorData (set_node n' a1)) with (sensorData a0). rewrite Ha5.
    change (the_node (set_node n' a1)) with n'. rewrite Hn'. cbn [obj].
    eapply triple_bind; [apply triple_lift_opt, topic_name_eq, Hmac|]. intros nm. apply triple_known. intros ->.
    rewrite (find_registered (be16 t1 t2)); [|done|..].
    2, 3: revert Htt; cbn; destruct (topic_table o); [done|intros [= <-]; done].
    rewrite (proj2 (Z.eqb_neq _ _)) by congruence.
    eapply triple_bind; [by apply (t_modify a1 _ (set_topic _))|]. intros []. by apply triple_ret. }
  intros ok. apply triple_known. intros ->.
  eapply triple_bind; [by apply (t_modify _ _ (fun a => set_times now' (elapsedStatTime a) a))|]. intros [].
  eapply triple_bind; [by apply (t_modify _ _ (set_state WAIT_REGACK))|]. intros [].
  eapply triple_post; [apply (t_send_data 6); try done|].
  { change (plausible 6 (sensorData a0)). by rewrite Ha5. }
  intros [] a (text & b' & v2 & Et & Hlt & (n' & -> & Hn') & Hlb' & Haired & Harr).
  destruct (publish_client (be16 t1 t2) text o1 now' Ho1 Hft ltac:(lia)) as (_ & _ & Hcf & Hci & Hd).
  change (message_id o1) with (message_id o) in Hd. rewrite Hmid in Hd.
  change (sensorData (set_state _ _)) with (sensorData a0) in Et. rewrite Ha5 in Et.
  eexists _, _, _, _, text. split; [|split; [by eexists|split; [exact Hd|exact Et]]].
  eexists _, _, now', _, v2. split; [|split; [exact Hn'|]].
  { do 4 (split; [done|]). split; [cbn; by rewrite Ha5|]. done. }
  split; [done|]. split; [by left|]. split; [split; [exact Hlb'|apply He1]|]. split; [exact Hcf|]. split; [exact Hci|].
  rewrite Harr, Haired, Hl', Hout'. done.
Qed.
(** The PUBACK ends the session: the leaf goes to sleep for a minute. *)
Lemma t_puback d start k rx1 rx2 p c l out fuel now now' :
  (k < fuel)%nat -> elapsedMillis now' start <= RUNTIME_TIMEOUT -> replies Publishing p ->
  triple (in_phase Publishing d start ((k, Packet (data_frame rx1 rx2 p) c) :: l) out) (loop fuel now now')
    (fun _ a => sleeps a = [ROUTINE_SLEEP_INTERVAL_MS] /\ aired (look (air_side (the_node a)).2) = out).
Proof.
  intros Hk Ht (t1 & t2 & m1 & m2 & rc & ->). apply triple_phase. intros a0 o e ms r v Ha Hr Hc He Ho Hi Hl Hout.
  destruct (parse_reply_to deref junk rx1 rx2 (Puback t1 t2 m1 m2 rc) o e now Hi (proj2 (proj1 Ho))) as (b & Hlb & Hp).
  cbn [taken] in Hp. set (o1 := set_waiting false _) in *. set (e1 := effect _ _) in *.
  eapply (t_loop Publishing d start _ _ _ _ _ _ _ _ _ true o1 e1 (fun _ v' => aired v' = out)); [done..| |].
  { eapply triple_post; [eapply triple_TryReceive; [done|apply He| |done|done|exact Hp]|].
    - rewrite length_frame. cbn. lia.
    - intros res s (-> & Hcl & _ & Haired & _). rewrite Haired. done. }
  intros m r' v' Hout'.
  destruct Ha as (Ha1 & Ha2 & Ha3 & Ha4 & Ha5 & Ha6 & Ha7).
  apply t_after_got; [cbn; by rewrite Ha6|done|]. intros st.
  set (a1 := set_times _ st _). unfold switch. apply t_globals. intros n [Hn _].
  change (state (set_node n a1)) with (state a0). rewrite Ha7.
  change (the_node (set_node n a1)) with n. rewrite Hn.
  eapply triple_bind; [by apply (t_modify a1 _ (fun a => set_hack (puback_pass_hack a + 1) a))|]. intros [].
  cbn [ext]. assert (DidPuback (ResetDisconnect e1) = true) as ->.
  { unfold DidPuback, e1. cbn. destruct He as (_ & _ & ->). done. }
  eapply triple_post; [apply t_sleep|].
  intros [] a (n' & -> & [_ [_ Hv]]). cbn. rewrite Hv, Ha4. done.
Qed.

(** ** Runs of [loop] *)

(** The times before and after the reception of each turn. *)
Fixpoint turns (fuel : nat) (ts : list (Z * Z)) : ST (app W B) () :=
  match ts with
  | [] => mret ()
  | (now, now') :: ts => loop fuel now now';; turns fuel ts
  end.

Lemma triple_turns_app P fuel ts ts' R Q :
  triple P (turns fuel ts) (fun _ => R) -> triple R (turns fuel ts') Q ->
  triple P (turns fuel (ts ++ ts')) Q.
Proof.
  revert P. induction ts as [|[now now'] ts IH]; intros P H1 H2; cbn [turns List.app] in *.
  - intros a Ha. destruct (H1 a Ha) as (u & a' & [= <- <-] & HR). by apply H2.
  - intros a Ha. destruct (H1 a Ha) as (u & a' & E & HR). rewrite ST_bind_eq in E |- *.
    destruct (loop fuel now now' a) as [[x a1]|]; [|done].
    destruct (IH (eq a1)) with (w := a1) as (y & a2 & E2 & HQ); [..|done|by exists y, a2].
    + intros ? <-. by exists u, a'.
    + done.
Qed.

Definition quiets (ns : list nat) : list (nat * event) := (fun n => (n, Quiet)) <$> ns.

(** Not longer than [RUNTIME_TIMEOUT] after [start]. *)
Definition in_time (start : Z) (t : Z * Z) : Prop := elapsedMillis t.2 start <= RUNTIME_TIMEOUT.

Lemma t_quiets ph d start ns l out fuel ts :
  length ts = length ns -> Forall (fun n => (n < fuel)%nat) ns -> Forall (in_time start) ts ->
  triple (in_phase ph d start (quiets ns ++ l) out) (turns fuel ts) (fun _ => in_phase ph d start l out).
Proof.
  revert ts. induction ns as [|n ns IH]; intros [|[now now'] ts] Hlen Hn Ht; try done; cbn [turns quiets fmap list_fmap List.app].
  - by apply triple_ret.
  - inversion_clear Hn. inversion_clear Ht.
    eapply triple_bind; [by apply t_quiet|]. intros []. apply IH; [cbn in Hlen; lia|done..].
Qed.

(** Quiet turns and then one that takes a reply. *)
Lemma t_then_reply ph d start ns k fr c l out fuel ts now now' Q :
  length ts = length ns -> Forall (fun n => (n < fuel)%nat) ns -> Forall (in_time start) ts ->
  triple (in_phase ph d start ((k, Packet fr c) :: l) out) (loop fuel now now') (fun _ => Q) ->
  triple (in_phase ph d start (quiets ns ++ (k, Packet fr c) :: l) out)
    (turns fuel (ts ++ [(now, now')])) (fun _ => Q).
Proof.
  intros Hlen Hn Ht Hl. eapply triple_turns_app; [by apply t_quiets|]. cbn [turns].
  eapply triple_bind; [exact Hl|]. intros []. by apply triple_ret.
Qed.
Lemma triple_skip {S X} (P : S -> Prop) (m : ST S X) Q : triple P m Q -> triple P (mret ();; m) Q.
Proof. done. Qed.

(** A quiet turn after [RUNTIME_TIMEOUT]. *)
Lemma t_timeout ph d start k l out fuel now now' :
  (k < fuel)%nat -> RUNTIME_TIMEOUT < elapsedMillis now' start ->
  triple (in_phase ph d start ((k, Quiet) :: l) out) (loop fuel now now')
    (fun _ a => aired (look (air_side (the_node a)).2) = out
       /\ sleeps a = match ph with Publishing => [60000] | _ => [10000; 60000] end).
Proof.
  intros Hk Ht. apply triple_phase. intros a0 o e ms r v Ha Hr Hc He Ho Hi Hl Hout.
  eapply (t_loop ph d start _ _ _ _ _ _ _ _ _ false o (set_rx (rx_buffer_ e) 0 e)
    (fun _ v' => aired v' = out)); [done..| |].
  { eapply triple_post; [apply triple_TryReceive_quiet; [done|unfold next; by rewrite Hl..]|].
    intros res s (-> & Hcl & _ & Haired & _). by rewrite Haired. }
  intros m r' v' Hout'. destruct Ha as (Ha1 & Ha2 & Ha3 & Ha4 & Ha5 & Ha6 & Ha7).
  unfold after_receive. apply t_globals. intros n Hn. set (a1 := set_node n _).
  change (LeafApp.elapsedRuntime a1) with (LeafApp.elapsedRuntime a0). change (state a1) with (state a0).
  change (puback_pass_hack a1) with (puback_pass_hack a0).
  rewrite Ha3, Ha6, Ha7, (proj2 (Z.ltb_lt _ _)) by done. cbn [Z.eqb andb].
  set (c := World o _ [] now'). clear Hn.
  eapply triple_bind with (Q := fun _ a => exists st,
    app_at (set_times (LeafApp.elapsedRuntime a0) st (set_metrics m a0)) (node_at c r' v') a).
  { unfold when. destruct (_ <? _).
    - eapply triple_post; [by apply (t_modify _ _ (fun a => set_times (LeafApp.elapsedRuntime a) now' a))|].
      intros [] a Ha. by exists now'.
    - apply triple_ret. intros a Ha. exists (elapsedStatTime (set_metrics m a0)).
      change (LeafApp.elapsedRuntime a0) with (LeafApp.elapsedRuntime (set_metrics m a0)).
      by rewrite set_times_same. }
  intros []. apply triple_ex. intros st.
  eapply triple_bind; [apply t_wait|]. intros [].
  destruct ph; [rewrite bool_decide_true by done..|rewrite bool_decide_false by (intros []; done)]; cbn [when].
  1, 2: eapply triple_bind; [apply t_sleep|]; intros [];
    eapply triple_post; [apply t_sleep|]; intros [] a (n' & -> & [_ [_ Hv]]); cbn; by rewrite Hv, Ha4.
  apply triple_skip. eapply triple_post; [apply t_sleep|]; intros [] a (n' & -> & [_ [_ Hv]]); cbn; by rewrite Hv, Ha4.
Qed.

(** * Properties *)

(** C10: whatever number of receptions time out in between, when the gateway
    answers CONNECT, REGISTER and PUBLISH within the leaf's timeout, the leaf
    transmits exactly two frames, a REGISTER of the topic made from its MAC
    address and, under the id it is given, a QoS 1 PUBLISH of its measurements,
    and then sleeps for a minute. *)
Theorem leaf_session fuel mid d start ns1 ns2 ns3 k1 k2 k3 r1 x1 p1 c1 r2 x2 t1 t2 m1 m2 c2 r3 x3 p3 c3
    rest out ts1 u1 ts2 u2 ts3 u3 :
  Forall (fun n => (n < fuel)%nat) (ns1 ++ k1 :: ns2 ++ k2 :: ns3 ++ [k3]) ->
  length ts1 = length ns1 -> length ts2 = length ns2 -> length ts3 = length ns3 ->
  Forall (in_time start) (ts1 ++ u1 :: ts2 ++ [u2]) -> Forall (in_time u2.2) (ts3 ++ [u3]) ->
  length (mac d) = 6%nat -> plausible 6 d ->
  replies (Connecting mid) p1 -> replies Publishing p3 ->
  bytes_ok [t1; t2; m1; m2] -> be16 m1 m2 = u16 (mid + 1) -> be16 t1 t2 <> 0xffff ->
  triple
    (in_phase (Connecting mid) d start
       (quiets ns1 ++ (k1, Packet (data_frame r1 x1 p1) c1)
        :: quiets ns2 ++ (k2, Packet (data_frame r2 x2 (regack_bytes t1 t2 m1 m2)) c2)
        :: quiets ns3 ++ (k3, Packet (data_frame r3 x3 p3) c3) :: rest) out)
    (turns fuel ((ts1 ++ [u1]) ++ (ts2 ++ [u2]) ++ (ts3 ++ [u3])))
    (fun _ a => sleeps a = [60000] /\ exists fr1 q1 fr2 q2 rs sn text,
       aired (look (air_side (the_node a)).2) = out ++ [fr1; fr2]
       /\ carries fr1 q1 /\ decode q1 = Some (P_register 0 (u16 (mid + 1)) (leaf_topic d))
       /\ carries fr2 q2
       /\ decode q2 = Some (P_publish FLAG_QOS_1 (be16 t1 t2) (u16 (u16 (mid + 1) + 1)) text)
       /\ mqtt_text (with_link rs sn d) = Some text).
Proof.
  intros Hk L1 L2 L3 T1 T2 Hmac Hpl R1 R3 Hby Hmid Htid.
  apply Forall_app in Hk as [K1 Hk]. inversion_clear Hk as [|? ? Hk1 Hk'].
  apply Forall_app in Hk' as [K2 Hk]. inversion_clear Hk as [|? ? Hk2 Hk'].
  apply Forall_app in Hk' as [K3 Hk]. inversion_clear Hk as [|? ? Hk3 _].
  apply Forall_app in T1 as [T1 Hu]. inversion_clear Hu as [|? ? Hu1 Hu'].
  apply Forall_app in Hu' as [T1' Hu]. inversion_clear Hu as [|? ? Hu2 _].
  apply Forall_app in T2 as [T2 Hu]. inversion_clear Hu as [|? ? Hu3 _].
  destruct u1 as [n1 n1'], u2 as [n2 n2'], u3 as [n3 n3'].
  eapply triple_turns_app; [apply t_then_reply; [done..|]; by apply t_connack|].
  apply triple_ex. intros fr1. apply triple_ex. intros q1.
  eapply triple_pre; [|intros a (Hp & Hc & Hd); exact (conj (conj Hc Hd) Hp)].
  apply triple_known. intros [Hc1 Hd1].
  eapply triple_turns_app; [apply t_then_reply; [done..|]; by apply t_regack|].
  do 5 (apply triple_ex; intros ?).
  eapply triple_pre; [|intros a (Hp & Hrest); exact (conj Hrest Hp)].
  apply triple_known. intros (Hc2 & Hd2 & Htext).
  eapply triple_post; [apply t_then_reply; [done..|]; by apply t_puback|].
  intros [] a [Hs Ha]. split; [exact Hs|]. do 7 eexists. rewrite Ha, <- app_assoc. done.
Qed.

(** C11: as long as nothing is received the leaf transmits nothing, so a request
    whose reply is lost is not sent again ([wait_for_response] is only reached
    after a reception); once the runtime has passed it sleeps, with two calls
    when it was still connecting or registering. *)
Theorem leaf_silence ph d start ns k l out fuel ts now now' :
  Forall (fun n => (n < fuel)%nat) (ns ++ [k]) -> length ts = length ns ->
  Forall (in_time start) ts -> RUNTIME_TIMEOUT < elapsedMillis now' start ->
  triple (in_phase ph d start (quiets ns ++ (k, Quiet) :: l) out) (turns fuel (ts ++ [(now, now')]))
    (fun _ a => aired (look (air_side (the_node a)).2) = out
       /\ sleeps a = match ph with Publishing => [60000] | _ => [10000; 60000] end).
Proof.
  intros Hk Hl Ht Hnow. apply Forall_app in Hk as [K Hk]. inversion_clear Hk as [|? ? Hk1 _].
  eapply triple_turns_app; [by apply t_quiets|]. cbn [turns].
  eapply triple_bind; [by apply t_timeout|]. intros []. by apply triple_ret.
Qed.
End Session.

(** ** Witnesses *)
Definition measured : sensor_data :=
  with_boot 7 (with_date true some_time (with_chip 3000 [1; 2; 3; 4; 5; 6] sensor_reset)).

Lemma measured_plausible : plausible 6 measured.
Proof.
  split; [vm_compute; intuition congruence|]. split; [lia|]. split; [by apply (bool_decide_unpack (fits 8 0))|].
  split; [done|]. split; [vm_compute; intuition congruence|].
  do 4 (split; [eexists; split; [vm_compute; reflexivity|vm_compute; lia]|]).
  split; [done|]. split; [repeat constructor; by apply (bool_decide_unpack (fits 8 0))|].
  by apply (bool_decide_unpack (fits 16 3000)).
Defined.

Definition no_rtc : rtc := Rtc ∅ 0 None [].
Definition connecting (l : list (nat * event)) : app demo rtc :=
  App (Node (World (await CONNACK new_MQTTSN) new_MQTTSX1276 [] 0) (with_alive new_SX1276Radio, hearing l))
    no_rtc measured SENT_CONNECT (Metric 0 0 0 0) 0 0 0xffff false false 0 [].
Definition array (n : nat) : list Z := replicate n 170.

Lemma connecting_in_phase l : in_phase 99 (Connecting 0) measured 0 l [] (connecting l).
Proof.
  eexists _, _, 0, _, _. split; [|split; [split; [reflexivity|split; reflexivity]|]]; [done|].
  split; [done|]. split; [by left|]. split; [done|].
  split; [split; [done|by apply (bool_decide_unpack (fits 16 0))]|]. done.
Defined.

(** The replies, with a timed out reception in front of each. *)
Definition replies_heard : list (nat * event) :=
  quiets [2%nat] ++ (O, Packet (data_frame 0 0 [3; code CONNACK; 0]) false)
  :: quiets [0%nat] ++ (1%nat, Packet (data_frame 1 0 (regack_bytes 0 7 0 1)) false)
  :: quiets [] ++ [(O, Packet (data_frame 2 1 [7; code PUBACK; 0; 7; 0; 2; 0]) false)].

Lemma leaf_session_witness : exists a fr1 fr2,
  turns (B := rtc) (fun _ => []) 0 array 99 3
    (([(1000, 2000)] ++ [(2000, 3000)]) ++ ([(3000, 4000)] ++ [(4000, 5000)]) ++ ([] ++ [(5000, 6000)]))
    (connecting replies_heard) = Some ((), a)
  /\ sleeps a = [60000] /\ aired (look (W := demo) (air_side (the_node a)).2) = [fr1; fr2].
Proof.
  destruct (leaf_session (W := demo) (B := rtc) (fun _ => []) 0 array 99 ltac:(intros; apply length_replicate)
    3 0 measured 0 [2%nat] [0%nat] [] 0 1 0 0 0 [3; code CONNACK; 0] false 1 0 0 7 0 1 false
    2 1 [7; code PUBACK; 0; 7; 0; 2; 0] false [] []
    [(1000, 2000)] (2000, 3000) [(3000, 4000)] (4000, 5000) [] (5000, 6000))
    with (w := connecting replies_heard) as ([] & a & E & Hs & fr1 & q1 & fr2 & q2 & rs & sn & text & Ha & _).
  - repeat constructor.
  - done.
  - done.
  - done.
  - repeat constructor; vm_compute; congruence.
  - repeat constructor; vm_compute; congruence.
  - done.
  - exact measured_plausible.
  - by exists 0.
  - by exists 0, 7, 0, 2, 0.
  - repeat constructor; by apply (bool_decide_unpack (fits 8 _)).
  - done.
  - done.
  - apply connecting_in_phase.
  - exists a, fr1, fr2. exact (conj E (conj Hs Ha)).
Defined.

Lemma leaf_silence_witness : exists a,
  turns (B := rtc) (fun _ => []) 0 array 99 1 ([(1000, 2000)] ++ [(20000, 20500)])
    (connecting (quiets [0%nat] ++ [(O, Quiet)])) = Some ((), a)
  /\ aired (look (W := demo) (air_side (the_node a)).2) = [] /\ sleeps a = [10000; 60000].
Proof.
  destruct (leaf_silence (W := demo) (B := rtc) (fun _ => []) 0 array 99 (Connecting 0) measured 0 [0%nat] 0 [] []
    1 [(1000, 2000)] 20000 20500) with (w := connecting (quiets [0%nat] ++ [(O, Quiet)])) as ([] & a & E & Ha & Hs).
  - repeat constructor.
  - done.
  - repeat constructor. vm_compute. congruence.
  - done.
  - apply connecting_in_phase.
  - exists a. exact (conj E (conj Ha Hs)).
Defined.
