(* ===== verification/LeafBootFacts.v ===== *)
(** The leaf's boot: [setup] reads the sensors, configures the radio and leaves
    the leaf connecting, the state the sessions of [LeafAppFacts] start from. *)
From S2P Require Import Prelude Format Mqttsn MqttsnFacts Radio RadioFacts Link Bridge LinkFacts.
From S2P Require Import Sensors SensorsFacts LeafApp LeafAppFacts.

(** * The bus during the boot *)
Section Bus.
Context {B : Type} `{HW : Wire B} {HD : Ds1307 B}.

(** Addressing the devices one by one changes nothing in the clock chip. *)
Lemma t_scan c n : forall addr d,
  triple (memory (W := B) c) (scan_i2c_bus addr n d) (fun d' w => d' = d /\ memory c w).
Proof.
  induction n as [|n IH]; intros addr d; cbn [scan_i2c_bus]; [by apply triple_ret|].
  eapply triple_bind with (Q := fun _ w => cells (chip_of w) = c /\ wtx (chip_of w) ∈ [None; Some []]).
  { intros w Hw. do 2 eexists. split; [done|]. rewrite begin_law. unfold rtc_begin. cbn [cells wtx].
    split; [done|]. destruct (_ =? _); set_solver. }
  intros []. eapply triple_bind with (Q := fun _ => memory c); [|intros ?; apply IH].
  intros w [Hw Ht]. unfold end_tx. destruct (end_law w) as [E1 E2].
  destruct (endTransmission w) as [e w']. do 2 eexists. split; [done|]. cbn [snd] in E2. unfold memory.
  rewrite E2. unfold rtc_end. rewrite !elem_of_cons, elem_of_nil in Ht. by destruct Ht as [->|[->|[]]].
Qed.

(** The converter changes nothing but its own members. *)
Lemma channels_only todo : forall ch d w d' w',
  channel_loop (W := B) todo ch d w = Some (d', w') -> exists h l, d' = with_adc h l d.
Proof.
  induction todo as [|todo IH]; intros ch d w d' w' E; cbn [channel_loop] in E.
  - st_inv. injection E as <- <-. eauto.
  - st_inv. destruct (negb _).
    { injection E as <- <-. exists (have_pcf8591 d), (adc_data d). by destruct d. }
    st_inv. match type of E with context [match ?x with Some _ => _ | None => _ end] => destruct x as [value|] end.
    + st_inv. apply IH in E as (h & l & ->). eexists h, l. by destruct d.
    + st_inv. injection E as <- <-. exists (have_pcf8591 d), (adc_data d). by destruct d.
Qed.

Lemma converter_only d w d' w' :
  read_pcf8591_once (W := B) d w = Some (d', w') -> exists h l, d' = with_adc h l d.
Proof. intros E. apply channels_only in E as (h & l & ->). exists h, l. by destruct d. Qed.
End Bus.

(** * The boot *)
Section Boot.
Context {W : Type} `{HS : Spi W} {HC : Sx1276 W} {B : Type} `{HW : Wire B} {HD : Ds1307 B}.

(** The globals of [a0] with a node that satisfies [P] and measurements and a
    bus that satisfy [K]. *)
Definition staged (a0 : app W B) (P : node (W := W) -> Prop) (K : sensor_data -> B -> Prop) (a : app W B) : Prop :=
  exists n d b, a = set_sensors b d (set_node n a0) /\ P n /\ K d b.

Lemma s_node {X} a0 P K (m : ST node X) Q :
  triple P m Q -> triple (staged a0 P K) (on_node m) (fun x => staged a0 (Q x) K).
Proof.
  intros Hm a (n & d & b & -> & Hn & HK). destruct (Hm n Hn) as (x & n' & E & HQ).
  exists x, (set_sensors b d (set_node n' a0)). split; [|by exists n', d, b].
  unfold on_node. cbn. by rewrite E.
Qed.

Lemma s_sensors a0 P (K K' : sensor_data -> B -> Prop) m :
  (forall d b, K d b -> exists d' b', m d b = Some (d', b') /\ K' d' b') ->
  triple (staged a0 P K) (on_sensors m) (fun _ => staged a0 P K').
Proof.
  intros Hm a (n & d & b & -> & Hn & HK). destruct (Hm d b HK) as (d' & b' & E & HK').
  exists (), (set_sensors b' d' (set_node n a0)). split; [|by exists n, d', b'].
  unfold on_sensors. cbn. by rewrite E.
Qed.

Lemma s_data a0 P (K K' : sensor_data -> B -> Prop) f :
  (forall d b, K d b -> K' (f d) b) -> triple (staged a0 P K) (on_data f) (fun _ => staged a0 P K').
Proof.
  intros Hf a (n & d & b & -> & Hn & HK). do 2 eexists. split; [done|]. exists n, (f d), b. auto.
Qed.

Lemma s_modify a0 P K f :
  (forall n d b, f (set_sensors b d (set_node n a0)) = set_sensors b d (set_node n (f a0))) ->
  triple (staged a0 P K) (modify f) (fun _ => staged (f a0) P K).
Proof.
  intros Hf a (n & d & b & -> & Hn & HK). do 2 eexists. split; [done|]. exists n, d, b. by rewrite Hf.
Qed.

Lemma s_known {X} a0 (Q : Prop) P K (m : ST (app W B) X) R :
  (Q -> triple (staged a0 P K) m R) -> triple (staged a0 (fun n => Q /\ P n) K) m R.
Proof. intros Hm a (n & d & b & -> & [HQ Hn] & HK). apply Hm; [done|]. by exists n, d, b. Qed.

(** A node whose radio has put [out] on the air and sends up to 128 bytes. *)
Definition set_up (c : world leaf) (out : list (list Z)) (ok : bool) (n : node (W := W)) : Prop :=
  exists r v, node_at c r v n /\ aired v = out /\ max_tx_payload_bytes_ r = 0x80 /\ (ok = true -> dead_ r = false).

(** [MQTTSX1276::Begin] *)
Lemma t_link_begin c r v :
  configured r -> max_tx_payload_bytes_ r = 0x80 ->
  triple (node_at (W := W) c r v) Link.Begin (fun ok => set_up c (aired v) ok).
Proof.
  intros Hr Hm. unfold Link.Begin.
  eapply triple_bind; [apply (triple_on_radio c (at_ r v)), triple_read; reflexivity|]. intros ?; cbn beta.
  eapply triple_bind; [apply (triple_on_radio c (at_ r v)), triple_Begin, Hr|]. intros ok; cbn beta.
  destruct ok.
  - eapply triple_pre; [apply (triple_ex (fun v' s => aired v' = aired v /\ node_at c (with_alive r) v' s))|].
    2: { intros s (Hc & Ha & Hr' & _). exists (look (air_side s).2). done. }
    intros v'. apply triple_known. intros Ha.
    eapply triple_bind; [apply (triple_on_radio c (at_ (with_alive r) v')), triple_SetCarrier|]. intros ?; cbn beta.
    eapply triple_bind.
    { set (r1 := with_warm false _). set (v1 := tuned _ _).
      apply (triple_on_radio c (at_ r1 v1) _ (fun _ => at_ r1 v1)). unfold ReadCarrier. do 3 chip_step. apply triple_ret. intros s Hs. exact Hs. }
    intros f; cbn beta. apply triple_ret. intros s [Hc Hat]. do 2 eexists. split; [split; [exact Hc|exact Hat]|].
    rewrite <- Ha. done.
  - apply triple_ret. intros s (Hc & Ha & Hr'). exists r, (look (air_side s).2). done.
Qed.
(** What is known of the measurements after the boot. *)
Definition booted (m : list Z) (n : Z) (d : sensor_data) (_ : B) : Prop := mac d = m /\ bootCount d = n.

(** What the boot makes of the count, and of the chip behind it. *)
Definition counted (m : list Z) (c : gmap Z Z) (d : sensor_data) (b : B) : Prop :=
  booted m (s32 (u32 (stored c + 1))) d b /\ memory (count_cells (u32 (stored c + 1)) c) b.

Lemma s_boot_count a0 P m c :
  triple (staged a0 P (fun d b => mac d = m /\ memory c b)) (on_sensors (boot_count false))
    (fun _ => staged a0 P (counted m c)).
Proof.
  apply s_sensors. intros d b [Hm Hb]. destruct (t_boot false d c b Hb) as (d' & b' & E & -> & Hb').
  do 2 eexists. split; [exact E|]. split; [by split|exact Hb'].
Qed.

(** The other sensors leave the count and the address alone. *)
Lemma s_sensors_read a0 P hw m c :
  triple (staged a0 P (counted m c))
    (on_sensors read_datetime_once;;
     on_data (read_bmp_once (bmp_begins hw) (bmp_pressure hw) (bmp_temperature hw) (bmp_altitude hw));;
     on_sensors read_pcf8591_once;;
     match dht hw with Some (h, t) => on_data (with_humidity h t) | None => mret () end)
    (fun _ => staged a0 P (booted m (s32 (u32 (stored c + 1))))).
Proof.
  set (K := booted m _).
  eapply triple_bind; [apply (s_sensors _ _ _ K)|intros []].
  { intros d b [Hk Hb]. destruct (t_datetime d _ b Hb) as (d' & b' & E & -> & _).
    do 2 eexists. split; [exact E|exact Hk]. }
  eapply triple_bind; [apply (s_data _ _ _ K)|intros []].
  { intros d b Hk. unfold read_bmp_once. by repeat split_if. }
  eapply triple_bind; [apply (s_sensors _ _ _ K)|intros []].
  { intros d b Hk. destruct (pcf8591_total d b) as (d' & b' & E). do 2 eexists. split; [exact E|].
    by destruct (converter_only _ _ _ _ E) as (h & l & ->). }
  destruct (dht hw) as [[h t]|]; [by apply s_data|by apply triple_ret].
Qed.

(** The client after CONNECT. *)
Lemma connect_client now :
  let rq := R_connect 0 30 (str "sfnode1") in
  request_ok rq new_MQTTSN /\ client_fit (after_request rq now new_MQTTSN)
  /\ client_in 0 (Connecting 0) (after_request rq now new_MQTTSN)
  /\ decode (wire (sent_event rq now new_MQTTSN)) = Some (P_connect 0 PROTOCOL_ID 30 (str "sfnode1")).
Proof.
  intros rq.
  assert (request_ok rq new_MQTTSN) as Hok by (split; apply (bool_decide_unpack _); exact I).
  destruct (wire_decodes rq new_MQTTSN now Hok ltac:(done) ltac:(apply (bool_decide_unpack (fits 16 0)); exact I))
    as (Hd & _ & Hb); [unfold MAX_BUFFER_SIZE; cbn; lia|].
  split; [done|]. split; [|split; [|exact Hd]]; [split; [exact Hb|apply (bool_decide_unpack (fits 16 0)); exact I]|done].
Qed.

(** The first request. *)
Lemma t_connect out ok now :
  triple (set_up (World new_MQTTSN new_MQTTSX1276 [] now) out ok) (method (connect 0 30 (str "sfnode1")))
    (fun _ n => exists fr q b r v, node_at (World (after_request (R_connect 0 30 (str "sfnode1")) now new_MQTTSN)
                                            (set_tx b 1 new_MQTTSX1276) [] now) r v n
       /\ carries fr q /\ decode q = Some (P_connect 0 PROTOCOL_ID 30 (str "sfnode1"))
       /\ aired v = out ++ [fr] /\ length b = (MAX_BUFFER_SIZE + 4)%nat
       /\ clean r v /\ max_tx_payload_bytes_ r = 0x80 /\ (ok = true -> dead_ r = false)).
Proof.
  destruct (connect_client now) as (Hok & _ & _ & Hd).
  apply triple_ex. intros r. apply triple_ex. intros v.
  eapply triple_pre; [|intros n (Hn & Ha & Hm & Hdead); exact (conj (conj (conj Ha Hm) Hdead) Hn)].
  apply triple_known. intros [[<- Hm] Hdead].
  eapply triple_post; [apply (triple_request (R_connect 0 30 (str "sfnode1"))); try done|].
  - unfold MAX_BUFFER_SIZE. cbn. lia.
  - intros [] n (b & v' & Hn & Hb & Ha & _). do 5 eexists. split; [exact Hn|]. split; [by eexists|].
    split; [exact Hd|]. split; [exact Ha|]. split; [exact Hb|].
    split; [by left|]. split; [exact Hm|exact Hdead].
Qed.

(** C12: the boot with no jumper set, with the clock chip answering on the bus.
    It runs to its end whatever the other devices of the bus answer. The count of
    boots goes up by one, one frame goes out, the CONNECT of the client "sfnode1"
    with a keep-alive of 30 seconds, and if the radio answered, the leaf is
    connecting: the state the sessions start from. *)
Theorem boot_connects frame hw now c v :
  pin_scl hw <> 0 -> pin_sda hw <> 0 ->
  triple (fun a : app W B => (exists ms, node_at (World new_MQTTSN new_MQTTSX1276 [] ms) new_SX1276Radio v (the_node a))
            /\ memory c (the_bus a) /\ puback_pass_hack a = 0 /\ sleeps a = [])
    (setup hw now)
    (fun _ a => exists fr q, carries fr q
       /\ aired (look (air_side (the_node a)).2) = aired v ++ [fr]
       /\ decode q = Some (P_connect 0 PROTOCOL_ID 30 (str "sfnode1"))
       /\ bootCount (sensorData a) = s32 (u32 (stored c + 1)) /\ mac (sensorData a) = macAddress hw
       /\ (dead_ (air_side (the_node a)).1 = false ->
           in_phase frame (Connecting 0) (sensorData a) now (arrivals (look (air_side (the_node a)).2))
             (aired v ++ [fr]) a)).
Proof.
  intros H1 H2 a ([ms Hn] & Hb & Hh & Hs). revert a Hn Hb Hh Hs.
  enough (forall a0 d0, puback_pass_hack a0 = 0 -> sleeps a0 = [] ->
    triple (staged a0 (node_at (World new_MQTTSN new_MQTTSX1276 [] ms) new_SX1276Radio v) (fun d b => d = d0 /\ memory c b))
      (setup hw now) (fun _ a => exists fr q, carries fr q
       /\ aired (look (air_side (the_node a)).2) = aired v ++ [fr]
       /\ decode q = Some (P_connect 0 PROTOCOL_ID 30 (str "sfnode1"))
       /\ bootCount (sensorData a) = s32 (u32 (stored c + 1)) /\ mac (sensorData a) = macAddress hw
       /\ (dead_ (air_side (the_node a)).1 = false ->
           in_phase frame (Connecting 0) (sensorData a) now (arrivals (look (air_side (the_node a)).2))
             (aired v ++ [fr]) a))) as Hmain.
  { intros a Hn Hb Hh Hs. apply (Hmain a (sensorData a) Hh Hs). exists (the_node a), (sensorData a), (the_bus a).
    split; [by destruct a|]. done. }
  intros a0 d0 Hh Hs. unfold setup.
  eapply triple_bind; [apply (s_data _ _ _ (fun d b => d = sensor_reset /\ memory c b)); by intros d b [_ Hb]|intros []].
  eapply triple_bind; [unfold at_time; apply s_node; by apply triple_on_client|intros []].
  apply s_known. intros _. rewrite (proj2 (Z.eqb_neq _ _) H1), (proj2 (Z.eqb_neq _ _) H2). cbn [negb andb orb when].
  eapply triple_bind; [by apply (s_modify _ _ _ (set_modes false false))|intros []].
  apply triple_skip.
  eapply triple_bind; [apply (s_sensors _ _ _ (fun _ b => memory c b))|intros []].
  { intros d b [-> Hb]. destruct (t_scan c 124 3 sensor_reset b Hb) as (d' & b' & E & _ & Hb').
    exists d', b'. split; [exact E|exact Hb']. }
  eapply triple_bind; [apply (s_data _ _ _ (fun d b => mac d = macAddress hw /\ memory c b)); done|intros []].
  eapply triple_bind; [apply s_boot_count|intros []].
  eapply triple_bind; [by apply s_sensors_read|intros []].
  eapply triple_bind.
  { unfold read_radio_once. eapply triple_bind.
    { apply s_node, (triple_on_radio _ (at_ new_SX1276Radio v)), triple_read; reflexivity. }
    intros x. apply (s_data _ _ _ (booted (macAddress hw) (s32 (u32 (stored c + 1))))). by intros d b Hk. }
  intros []. eapply triple_bind; [apply s_node, t_link_begin; [apply new_radio_configured|done]|intros ok].
  eapply triple_bind; [by apply (s_modify _ _ _ (set_metrics _))|intros []].
  eapply triple_bind; [by apply (s_modify _ _ _ (set_times _ _))|intros []].
  eapply triple_bind; [apply s_node; cbn [obj ext sent]; apply t_connect|intros []].
  eapply triple_post; [by apply (s_modify _ _ _ (set_state SENT_CONNECT))|].
  intros [] a (n & d & b & -> & (fr & q & buf & r & v' & Hn & Hc & Hd & Ha & Hbuf & Hcl & Hm & _) & [Hmac Hboot]).
  destruct (connect_client now) as (_ & Hcf & Hci & _).
  exists fr, q. split; [exact Hc|]. destruct Hn as [Hn1 [Hn2 Hn3]]. cbn -[str]. rewrite Hn3.
  do 4 (split; [done|]). rewrite Hn2. intros Hdead.
  eexists _, _, now, r, v'. split; [|split; [split; [exact Hn1|split; [exact Hn2|exact Hn3]]|]]; [done|].
  split; [done|]. split; [exact Hcl|]. split; [split; [exact Hbuf|done]|]. split; [exact Hcf|]. split; [exact Hci|]. done.
Qed.
End Boot.

(** ** Witness *)
Definition board : hardware := Hardware 1 1 3000 [1; 2; 3; 4; 5; 6] false (f32 0) (f32 0) (f32 0) None.
(** The clock chip's memory after 41 boots. *)
Definition booted_before : gmap Z Z := count_cells 41 clock_cells.
Definition switched_on : app demo rtc :=
  App (Node (World new_MQTTSN new_MQTTSX1276 [] 0) (new_SX1276Radio, awake))
    (Rtc booted_before 0 None []) sensor_reset NEED_CONNECT (Metric 0 0 0 0) 0 0 0xffff false false 0 [].

Lemma boot_connects_witness : exists a fr,
  setup board 500 switched_on = Some ((), a)
  /\ aired (look (W := demo) (air_side (the_node a)).2) = [fr] /\ bootCount (sensorData a) = 42
  /\ dead_ (air_side (the_node a)).1 = false
  /\ in_phase 99 (Connecting 0) (sensorData a) 500 (arrivals (look (W := demo) (air_side (the_node a)).2)) [fr] a.
Proof.
  destruct (boot_connects (W := demo) (B := rtc) 99 board 500 booted_before awake ltac:(done) ltac:(done)
    switched_on) as ([] & a & E & fr & q & _ & Ha & _ & Hb & _ & Hp).
  - split; [exists 0; split; [reflexivity|split; reflexivity]|]. split; [reflexivity|split; reflexivity].
  - assert ((fun p => dead_ (air_side (the_node p.2)).1) <$> setup (W := demo) board 500 switched_on = Some false)
      as Hdead by (vm_compute; reflexivity).
    rewrite E in Hdead. injection Hdead as Hdead.
    exists a, fr. split; [exact E|]. split; [exact Ha|]. split; [rewrite Hb; by vm_compute|].
    split; [exact Hdead|]. exact (Hp Hdead).
Defined.
