(* ===== verification/NodeApp.v ===== *)
(** The beacon node's program:
    [src/software/mcu/sx1276-mqttsn-node/src/node.ino], built for the ESP8266.

    An earlier program than the leaf's, over the same client, link and radio: it
    connects, registers a topic and publishes three readings without
    acknowledgement, then sleeps. Console output, the LED and the pins are left
    out, and with them what only they use ([regackTimedown], [connectTimedown],
    [regack_ttl]); [ESP.deepSleep] is an event, after which the code runs on. *)
From S2P Require Import Prelude Format Mqttsn Radio Link Sensors LeafApp.

Record my_data_t := MyData { bootversion : Z; bootmode : Z; demo_vcc : Z; cycles : Z }.

(** What the pressure sensor's driver returns; the pressure is never NaN. *)
Record reading := Reading { pressure : float; temperature : float; altitude : float }.

Definition PCF8591 := Z.shiftr 0x90 1.

Definition BUF : nat := 66.

(** The text of [poll_bmp]: the temperature and the altitude are truncated, the
    pressure is rounded down. *)
Definition bmp_text (r : reading) : option (list Z) :=
  p ← int_of (floorf (pressure r)); pf ← fraction (pressure r);
  t ← int_of (temperature r); tf ← fraction (temperature r);
  a ← int_of (altitude r); af ← fraction (altitude r);
  Some (str "HPA=" ++ sdec p ++ str "." ++ sdec pf ++ str " DEGC=" ++ sdec t ++ str "." ++ sdec tf
        ++ str " ALT=" ++ sdec a ++ str "." ++ sdec af).

Definition is_zero (f : float) : bool := match f with SpecFloat.S754_zero _ => true | _ => false end.

Definition adc_text (v : list Z) : list Z :=
  match v with
  | [a; b; c; d] => hex 2 a ++ [32] ++ hex 2 b ++ [32] ++ hex 2 c ++ [32] ++ hex 2 d
  | _ => []
  end.

Definition demo_text (demo : my_data_t) (sdk : list Z) : list Z :=
  hex 2 (bootversion demo) ++ [32] ++ hex 2 (bootmode demo) ++ [32] ++ dec (demo_vcc demo) ++ [32]
  ++ dec (cycles demo) ++ [32] ++ sdk.

Section Node.
Context {W : Type} `{HS : Spi W} {B : Type} `{HW : Wire B}.

Record mote := Mote {
  radio_node : node (W := W);
  wire_bus : B;
  started_ok : bool;
  bmp_good : bool;
  bmp_buf : list Z;
  bmp_len : Z;
  adc_buf : list Z;
  adc_len : Z;
  counts : Metrics;
  timeElapsed : Z;                (* when it was last set to 0 *)
  need_connect : bool;
  sent_connect : bool;
  need_rx : bool;
  all_done_nearly : bool;
  wait_regack : bool;
  naps : list Z                   (* the [deepSleep] calls, in milliseconds *) }.
Abbreviation M := (ST mote).

Definition put_node (x : node) (m : mote) : mote :=
  Mote x (wire_bus m) (started_ok m) (bmp_good m) (bmp_buf m) (bmp_len m) (adc_buf m) (adc_len m)
    (counts m) (timeElapsed m) (need_connect m) (sent_connect m) (need_rx m) (all_done_nearly m)
    (wait_regack m) (naps m).
Definition put_bus (x : B) (m : mote) : mote :=
  Mote (radio_node m) x (started_ok m) (bmp_good m) (bmp_buf m) (bmp_len m) (adc_buf m) (adc_len m)
    (counts m) (timeElapsed m) (need_connect m) (sent_connect m) (need_rx m) (all_done_nearly m)
    (wait_regack m) (naps m).
Definition put_started (b : bool) (m : mote) : mote :=
  Mote (radio_node m) (wire_bus m) b (bmp_good m) (bmp_buf m) (bmp_len m) (adc_buf m) (adc_len m)
    (counts m) (timeElapsed m) (need_connect m) (sent_connect m) (need_rx m) (all_done_nearly m)
    (wait_regack m) (naps m).
Definition put_bmp (good : bool) (buf : list Z) (n : Z) (m : mote) : mote :=
  Mote (radio_node m) (wire_bus m) (started_ok m) good buf n (adc_buf m) (adc_len m)
    (counts m) (timeElapsed m) (need_connect m) (sent_connect m) (need_rx m) (all_done_nearly m)
    (wait_regack m) (naps m).
Definition put_adc (buf : list Z) (n : Z) (m : mote) : mote :=
  Mote (radio_node m) (wire_bus m) (started_ok m) (bmp_good m) (bmp_buf m) (bmp_len m) buf n
    (counts m) (timeElapsed m) (need_connect m) (sent_connect m) (need_rx m) (all_done_nearly m)
    (wait_regack m) (naps m).
Definition put_counts (c : Metrics) (t : Z) (m : mote) : mote :=
  Mote (radio_node m) (wire_bus m) (started_ok m) (bmp_good m) (bmp_buf m) (bmp_len m) (adc_buf m)
    (adc_len m) c t (need_connect m) (sent_connect m) (need_rx m) (all_done_nearly m)
    (wait_regack m) (naps m).
(** [need_connect], [sent_connect], [all_done_nearly] and [wait_regack]. *)
Definition put_flags (need sent done regack : bool) (m : mote) : mote :=
  Mote (radio_node m) (wire_bus m) (started_ok m) (bmp_good m) (bmp_buf m) (bmp_len m) (adc_buf m)
    (adc_len m) (counts m) (timeElapsed m) need sent (need_rx m) done regack (naps m).
Definition log_nap (ms : Z) (m : mote) : mote :=
  Mote (radio_node m) (wire_bus m) (started_ok m) (bmp_good m) (bmp_buf m) (bmp_len m) (adc_buf m)
    (adc_len m) (counts m) (timeElapsed m) (need_connect m) (sent_connect m) (need_rx m)
    (all_done_nearly m) (wait_regack m) (naps m ++ [ms]).

Definition with_node {X} (k : ST node X) : M X :=
  fun m => match k (radio_node m) with
           | Some (x, n) => Some (x, put_node n m) | None => None end.
Definition with_bus {X} (k : ST B X) : M X :=
  fun m => match k (wire_bus m) with
           | Some (x, b) => Some (x, put_bus b m) | None => None end.

Definition set_clock (ms : Z) : M () :=
  with_node (on_client (modify (fun w => World (obj w) (ext w) (sent w) ms))).
Definition delay (ms : Z) : M () := with_node (on_radio (Radio.pause ms));; with_bus (Sensors.pause ms).

Definition go_to_sleep (ms : Z) : M () := modify (log_nap ms);; delay 500.

(** * The sensors *)
Definition poll_bmp (r : reading) : M () :=
  if is_zero (pressure r) then mret ()
  else
    m ← get;
    text ← lift_opt (bmp_text r);
    buf ← lift_opt (snprintf (bmp_buf m) 0 BUF text);
    modify (put_bmp (bmp_good m) buf (u8 (Z.of_nat (length text)))).

Definition poll_adc : M () :=
  v ← with_bus (begin_tx PCF8591;; put_byte 4;; end_tx;; request PCF8591 5;; get_byte;;
                a ← get_byte; b ← get_byte; c ← get_byte; d ← get_byte; end_tx;;
                mret [u8 a; u8 b; u8 c; u8 d]);
  m ← get;
  buf ← lift_opt (snprintf (adc_buf m) 0 BUF (adc_text v));
  modify (put_adc buf (u8 (Z.of_nat (length (adc_text v))))).

(** The two readings of the pressure sensor, and whether its driver starts. *)
Definition setup (begins : bool) (r1 r2 : reading) : M () :=
  delay 1000;;
  when begins (poll_bmp r1;; modify (fun m => put_bmp true (bmp_buf m) (bmp_len m) m));;
  poll_adc;;
  delay 10;;
  delay 50;;
  ok ← with_node Link.Begin;
  modify (put_started ok);;
  m ← get;
  when (bmp_good m) (poll_bmp r2);;
  poll_adc.

(** * The program *)
Section Program.
(** As for the leaf; [frame] is the address of [TOPIC] in [loop]. *)
Context (deref : Z -> list Z) (junk : Z) (uninit : nat -> list Z) (frame : Z).
(** What the chip and its library report. *)
Context (demo : my_data_t) (sdk : list Z).

Definition TOPIC : list Z := str "sentrifarm/node/beacon".

(** [publish] with a pointer and a length. *)
Definition publish_bytes (topic_id : Z) (buf : list Z) (n : Z) : M () :=
  data ← lift_opt (load buf 0 (Z.to_nat n));
  with_node (method (publish FLAG_QOS_0 topic_id data)).

Definition try_publish (topic_id : Z) : M () :=
  delay 1500;;
  m ← get;
  (if 0 <? bmp_len m then publish_bytes topic_id (bmp_buf m) (bmp_len m)
   else publish_bytes topic_id (str "BMP_BAD") 7);;
  delay 1500;;
  m ← get;
  publish_bytes topic_id (adc_buf m) (adc_len m);;
  pub_buf ← lift_opt (snprintf (uninit BUF) 0 BUF (demo_text demo sdk));
  delay 1500;;
  publish_bytes topic_id pub_buf (u8 (Z.of_nat (length (demo_text demo sdk))));;
  delay 1500;;
  modify (fun m => put_flags (need_connect m) (sent_connect m) true (wait_regack m) m).

(** [loop] once nothing is awaited any more. *)
Definition use_topic : M () :=
  modify (fun m => put_flags false (sent_connect m) (all_done_nearly m) (wait_regack m) m);;
  m ← get;
  let '(topic_id, _) := find_topic_id (fun p => if p =? frame then TOPIC else deref p) TOPIC 0
                          (obj (client (radio_node m))) in
  if 0xffff =? topic_id then
    ok ← with_node (method (Mqttsn.register_topic frame TOPIC));
    if negb ok then go_to_sleep 1000
    else modify (fun m => put_flags (need_connect m) (sent_connect m) (all_done_nearly m) true m)
  else
    when (all_done_nearly m) (go_to_sleep 10000);;
    try_publish topic_id.

(** [loop] after the reception of a message. *)
Definition respond : M () :=
  modify (fun m => put_flags (need_connect m) (sent_connect m) (all_done_nearly m) false m);;
  with_node (on_client (on_ext ResetDisconnect));;
  waiting ← with_node (method (wait_for_response (leaf_vtable deref junk)));
  m ← get;
  if (waiting : bool) then
    when (DidDisconnect (ext (client (radio_node m)))) (go_to_sleep 1000)
  else use_topic.

(** The reception of [loop]: [ok]. *)
Definition receive (fuel : nat) : M bool :=
  '(got, crc) ← with_node (Link.TryReceive (leaf_vtable deref junk) fuel);
  modify (fun m => put_counts ((if (got : bool) then count_rx else if (crc : bool) then count_crc else count_timeout)
                                 (counts m)) (timeElapsed m) m);;
  when got (delay 200);;
  mret got.

(** The part of [loop] after the reception. *)
Definition finish_turn (ok : bool) (now : Z) : M () :=
  m ← get;
  let report := 6000 <? elapsedMillis now (timeElapsed m) in
  when report (modify (fun m => put_counts (counts m) now m));;
  if report && all_done_nearly m then go_to_sleep 10000
  else if negb ok then mret ()
  else respond.

(** [now] is the time before the reception, [now'] the time after it. *)
Definition loop (fuel : nat) (now now' : Z) : M () :=
  m ← get;
  if negb (started_ok m) then delay 500;; delay 500
  else
    set_clock now;;
    when (need_connect m && negb (sent_connect m))
      (with_node (method (connect 0 30 (str "sfnode1")));;
       modify (fun m => put_flags (need_connect m) true false (wait_regack m) m));;
    ok ← (if need_rx m then receive fuel else mret false);
    set_clock now';;
    finish_turn ok now'.
End Program.
End Node.
Arguments mote W B : clear implicits.
