(* ===== verification/NodeAppFacts.v ===== *)
(** The beacon node's program as a session with the gateway: it connects,
    registers and publishes three readings, then sleeps; without a reply it
    stays awake and silent. The client's side is that of [LeafAppFacts]. *)
From S2P Require Import Prelude Format Mqttsn MqttsnFacts Radio RadioFacts Link Bridge LinkFacts.
From S2P Require Import Sensors SensorsFacts LeafApp LeafAppFacts LeafBootFacts NodeApp.

(** * The program logic of the globals *)
Section Globals.
Context {W : Type} `{HS : Spi W} {HC : Sx1276 W} {B : Type} `{HW : Wire B}.
Implicit Types m : mote W B.

(** The globals are those of [m0], but for the bus, and the node satisfies [P]. *)
Definition mote_at m0 (P : node (W := W) -> Prop) m : Prop :=
  exists n b, m = put_bus b (put_node n m0) /\ P n.

Lemma m_node {X} m0 P (k : ST node X) Q :
  triple P k Q -> triple (mote_at m0 P) (with_node k) (fun x => mote_at m0 (Q x)).
Proof.
  intros Hk m (n & b & -> & Hn). destruct (Hk n Hn) as (x & n' & E & HQ).
  exists x, (put_bus b (put_node n' m0)). split; [|by exists n', b].
  unfold with_node. change (radio_node (put_bus b (put_node n m0))) with n. by rewrite E.
Qed.

Lemma m_modify m0 P f :
  (forall n b, f (put_bus b (put_node n m0)) = put_bus b (put_node n (f m0))) ->
  triple (mote_at m0 P) (modify f) (fun _ => mote_at (f m0) P).
Proof. intros Hf m (n & b & -> & Hn). do 2 eexists. split; [done|]. exists n, b. by rewrite Hf. Qed.

Lemma m_globals {X} m0 P (k : mote W B -> ST (mote W B) X) Q :
  (forall n b, P n -> triple (mote_at m0 P) (k (put_bus b (put_node n m0))) Q) ->
  triple (mote_at m0 P) (m ← get; k m) Q.
Proof.
  intros Hk m (n & b & -> & Hn). destruct (Hk n b Hn (put_bus b (put_node n m0))) as (x & m' & E & HQ);
    [by exists n, b|]. exists x, m'. done.
Qed.

Lemma m_known {X} m0 (K : Prop) P (k : ST (mote W B) X) Q :
  (K -> triple (mote_at m0 P) k Q) -> triple (mote_at m0 (fun n => K /\ P n)) k Q.
Proof. intros Hk m (n & b & -> & HK & Hn). apply Hk; [done|]. by exists n, b. Qed.

Lemma m_ex {X Y} m0 (P : Y -> node (W := W) -> Prop) (k : ST (mote W B) X) Q :
  (forall y, triple (mote_at m0 (P y)) k Q) -> triple (mote_at m0 (fun n => exists y, P y n)) k Q.
Proof. intros Hk m (n & b & -> & y & Hn). apply (Hk y). by exists n, b. Qed.

Lemma m_radio {X} m0 c (R : radio -> view -> Prop) (k : ST (mote W B) X) Q :
  (forall r v, R r v -> triple (mote_at m0 (node_at c r v)) k Q) ->
  triple (mote_at m0 (fun n => client n = c /\ R (air_side n).1 (look (air_side n).2))) k Q.
Proof. intros Hk m (n & b & -> & Hc & HR). apply (Hk _ _ HR). by exists n, b. Qed.

Lemma m_delay m0 c r v ms :
  triple (mote_at m0 (node_at c r v)) (delay ms) (fun _ => mote_at m0 (node_at c r (tick ms v))).
Proof.
  unfold delay. eapply triple_bind; [apply m_node|].
  { apply (triple_on_radio c (at_ r v)), triple_pause. }
  intros [] m (n & b & -> & Hn). do 2 eexists. split; [done|]. by exists n, (wire_delay ms b).
Qed.

Lemma m_clock m0 o e q ms r v now :
  triple (mote_at m0 (node_at (World o e q ms) r v)) (set_clock now)
    (fun _ => mote_at m0 (node_at (World o e q now) r v)).
Proof.
  unfold set_clock. eapply triple_post; [apply m_node; by apply triple_on_client|].
  intros [] m (n & b & -> & _ & Hn). by exists n, b.
Qed.

Lemma m_sleep m0 c r v ms :
  triple (mote_at m0 (node_at c r v)) (go_to_sleep ms)
    (fun _ => mote_at (log_nap ms m0) (node_at c r (tick 500 v))).
Proof. unfold go_to_sleep. eapply triple_bind; [by apply m_modify|]. intros []. apply m_delay. Qed.
End Globals.

(** * The session *)
Inductive stage := Joining (mid : Z) | Naming (mid : Z) | Finished.

Section Session.
Context {W : Type} `{HS : Spi W} {HC : Sx1276 W} {B : Type} `{HW : Wire B}.
Context (deref : Z -> list Z) (junk : Z) (uninit : nat -> list Z) (frame : Z).
Context (demo : my_data_t) (sdk : list Z).
Hypothesis uninit_length : forall n, length (uninit n) = n.
Hypothesis demo_fits : (length (demo_text demo sdk) < 66)%nat.
Abbreviation loop := (NodeApp.loop deref junk uninit frame demo sdk).
Abbreviation vt := (leaf_vtable deref junk).
Implicit Types m : mote W B.

(** The readings that are published. *)
Record texts := Texts { bmp_published : list Z; adc_published : list Z }.

Definition holds (buf : list Z) (n : Z) (text : list Z) : Prop :=
  n = Z.of_nat (length text) /\ (length text <= 66)%nat /\ take (length text) buf = text /\ length buf = 66%nat.

(** The globals in each stage; [TT] has every time the statistics may have been
    reported at. *)
Definition mote_fit (s : stage) (t : texts) (TT : list Z) m : Prop :=
  started_ok m = true /\ need_rx m = true /\ naps m = []
  /\ timeElapsed m ∈ TT
  /\ (if 0 <? bmp_len m then holds (bmp_buf m) (bmp_len m) (bmp_published t)
      else bmp_published t = str "BMP_BAD")
  /\ holds (adc_buf m) (adc_len m) (adc_published t)
  /\ need_connect m && negb (sent_connect m) = false
  /\ all_done_nearly m = match s with Finished => true | _ => false end.

Definition client_at (s : stage) (o : mqttsn) : Prop :=
  match s with
  | Joining mid => client_in frame (Connecting mid) o
  | Naming mid => client_in frame (Registering mid) o
  | Finished => waiting_for_response o = false
  end.

(** In stage [s], [l] to arrive and [out] on the air so far. *)
Definition mote_in (s : stage) (t : texts) (TT : list Z) (l : list (nat * event)) (out : list (list Z)) m : Prop :=
  exists o e ms r v,
    mote_fit s t TT m /\ node_at (World o e [] ms) r v (radio_node m)
    /\ radio_fit r /\ clean r v /\ leaf_fit e /\ client_fit o /\ client_at s o
    /\ arrivals v = l /\ aired v = out.

Lemma triple_stage {X} s t TT l out (k : ST (mote W B) X) Q :
  (forall m0 o e ms r v, mote_fit s t TT m0 -> radio_fit r -> clean r v -> leaf_fit e -> client_fit o ->
     client_at s o -> arrivals v = l -> aired v = out ->
     triple (mote_at m0 (node_at (World o e [] ms) r v)) k Q) ->
  triple (mote_in s t TT l out) k Q.
Proof.
  intros Hk m (o & e & ms & r & v & Hm & Hn & Hr & Hc & He & Ho & Hi & Hl & Hout).
  apply (Hk m o e ms r v); try done. exists (radio_node m), (wire_bus m). split; [by destruct m|done].
Qed.

(** Where the globals of a stage end up. *)
Lemma stage_reached s t TT l out m0 m o e ms r v :
  mote_at m0 (node_at (World o e [] ms) r v) m -> mote_fit s t TT m0 ->
  radio_fit r -> clean r v -> leaf_fit e -> client_fit o -> client_at s o ->
  arrivals v = l -> aired v = out -> mote_in s t TT l out m.
Proof.
  intros (n & b & -> & Hn) Hm Hr Hc He Ho Hi Hl Hout. exists o, e, ms, r, v. split; [done|]. done.
Qed.

(** ** A turn of [loop] *)
Abbreviation finish := (finish_turn deref junk uninit frame demo sdk).

Lemma m_loop s t TT fuel now now' m0 o e ms r v got o' e' (R : radio -> view -> Prop) Q :
  mote_fit s t TT m0 ->
  (forall r' v', R r' v' -> R r' (tick 200 v')) ->
  triple (node_at (World o e [] now) r v) (Link.TryReceive vt fuel)
    (fun res n => res = (got, false) /\ client n = World o' e' [] now /\ R (air_side n).1 (look (air_side n).2)) ->
  (forall c r' v', R r' v' ->
     triple (mote_at (put_counts c (timeElapsed m0) m0) (node_at (World o' e' [] now') r' v')) (finish got now') Q) ->
  triple (mote_at m0 (node_at (World o e [] ms) r v)) (loop fuel now now') Q.
Proof.
  intros (Hs & Hrx & _ & _ & _ & _ & Hc & _) HR Hrcv Hk. unfold NodeApp.loop. apply m_globals. intros n b [Hn _].
  change (started_ok (put_bus b (put_node n m0))) with (started_ok m0).
  change (need_connect (put_bus b (put_node n m0))) with (need_connect m0).
  change (sent_connect (put_bus b (put_node n m0))) with (sent_connect m0).
  change (need_rx (put_bus b (put_node n m0))) with (need_rx m0).
  rewrite Hs, Hrx, Hc. cbn [negb when].
  eapply triple_bind; [apply m_clock|]. intros []. apply triple_skip.
  eapply triple_bind with (Q := fun ok m => ok = got /\ exists c r' v', R r' v' /\
    mote_at (put_counts c (timeElapsed m0) m0) (node_at (World o' e' [] now) r' v') m).
  { unfold receive. eapply triple_bind; [apply m_node, Hrcv|]. intros [got' crc].
    apply m_known. intros [= -> ->]. cbv iota. apply m_radio. intros r' v' HR'.
    eapply triple_bind; [apply (m_modify m0 _ (fun m => put_counts _ (timeElapsed m) m)); done|]. intros [].
    destruct got; cbn [when].
    - eapply triple_bind; [apply m_delay|]. intros []. apply triple_ret. intros m Hm. split; [done|].
      eexists _, _, _. split; [by apply HR|exact Hm].
    - apply triple_skip, triple_ret. intros m Hm. split; [done|]. by eexists _, _, _. }
  intros ok. apply triple_known. intros ->. apply triple_ex. intros c. apply triple_ex. intros r'.
  apply triple_ex. intros v'. apply triple_known. intros HR'.
  eapply triple_bind; [apply m_clock|]. intros []. by apply Hk.
Qed.

(** The statistics, in a turn that does not end in sleep. *)
Lemma m_finish ok now m0 P Q :
  (6000 < elapsedMillis now (timeElapsed m0) -> all_done_nearly m0 = false) ->
  (forall T, T = timeElapsed m0 \/ T = now ->
     triple (mote_at (put_counts (counts m0) T m0) P) (if negb ok then mret () else respond deref junk uninit frame demo sdk) Q) ->
  triple (mote_at m0 P) (finish ok now) Q.
Proof.
  intros Hd Hk. unfold finish_turn. apply m_globals. intros n b _.
  change (timeElapsed (put_bus b (put_node n m0))) with (timeElapsed m0).
  change (all_done_nearly (put_bus b (put_node n m0))) with (all_done_nearly m0).
  destruct (Z.ltb_spec 6000 (elapsedMillis now (timeElapsed m0))) as [Hl|Hl]; cbn [when andb].
  - rewrite Hd by done. eapply triple_bind; [by apply (m_modify m0 P (fun m => put_counts (counts m) now m))|].
    intros []. apply Hk. by right.
  - apply triple_skip. replace m0 with (put_counts (counts m0) (timeElapsed m0) m0) at 1 by (by destruct m0).
    apply Hk. by left.
Qed.

(** A turn that hears nothing. *)
Lemma m_quiet s t TT k l out fuel now now' :
  (k < fuel)%nat -> now' ∈ TT -> s <> Finished ->
  triple (mote_in s t TT ((k, Quiet) :: l) out) (loop fuel now now') (fun _ => mote_in s t TT l out).
Proof.
  intros Hk Ht Hs. apply triple_stage. intros m0 o e ms r v Hm Hr Hc He Ho Hi Hl Hout.
  eapply (m_loop s t TT _ _ _ _ _ _ _ _ _ false o (set_rx (rx_buffer_ e) 0 e)
    (fun r' v' => radio_fit r' /\ arrivals v' = l /\ aired v' = out /\ clean r' v')); [done|..].
  - intros r' v' (? & ? & ? & Hcl). split; [done|]. split; [done|]. split; [done|]. done.
  - eapply triple_post; [apply triple_TryReceive_quiet; [done|unfold next; by rewrite Hl..]|].
    intros res n (-> & Hcl & (rssi & snr & -> & _) & Haired & Harr & Hclean). rewrite Hl in Harr.
    split; [done|]. split; [done|]. split; [done|]. split; [done|]. by rewrite Haired.
  - intros c r' v' (Hr' & Hl' & Hout' & Hc'). apply m_finish.
    { intros _. destruct Hm as (_ & _ & _ & _ & _ & _ & _ & Hd). cbn. rewrite Hd. by destruct s. }
    intros T HT. apply triple_ret. intros m Hm'. eapply stage_reached; try done.
    destruct Hm as (H1 & H2 & H3 & H4 & H5 & H6 & H7 & H8). do 3 (split; [done|]).
    split; [cbn; by destruct HT as [->| ->]|done].
Qed.

(** A turn that took the awaited reply. *)
Lemma m_respond m0 o e ms r v Q :
  waiting_for_response o = false ->
  triple (mote_at (put_flags (need_connect m0) (sent_connect m0) (all_done_nearly m0) false m0)
            (node_at (World o (ResetDisconnect e) [] ms) r v)) (use_topic deref uninit frame demo sdk) Q ->
  triple (mote_at m0 (node_at (World o e [] ms) r v)) (respond deref junk uninit frame demo sdk) Q.
Proof.
  intros Hw Hk. unfold respond.
  eapply triple_bind; [by apply (m_modify m0 _ (fun m => put_flags _ _ _ false m))|]. intros [].
  eapply triple_bind; [apply m_node; by apply triple_on_client|]. intros []. apply m_known. intros _.
  cbn [obj ext sent millis].
  eapply triple_bind; [apply m_node, triple_method_silent, wait_idle; by rewrite Hw|].
  intros w. apply m_known. intros ->. rewrite Hw. apply m_globals. intros n b _. exact Hk.
Qed.

Lemma topic_length : length NodeApp.TOPIC = 22%nat. Proof. done. Qed.


(** ** Publishing *)

(** A node whose client awaits nothing; [mid] is its last message id, and [q]
    whether it has transmitted since its last reception. *)
Definition idle (q : bool) (mid : Z) (l : list (nat * event)) (out : list (list Z)) (n : node (W := W)) : Prop :=
  exists o e ms r v, node_at (World o e [] ms) r v n
    /\ radio_fit r /\ (q = true -> clean r v) /\ leaf_fit e /\ client_fit o /\ waiting_for_response o = false
    /\ message_id o = mid /\ arrivals v = l /\ aired v = out.

Lemma m_idle_delay m0 q mid l out ms :
  triple (mote_at m0 (idle q mid l out)) (delay ms) (fun _ => mote_at m0 (idle q mid l out)).
Proof.
  intros m (n & b & -> & o & e & t & r & v & Hn & Hr & Hc & He & Ho & Hw & Hm & Hl & Hout).
  destruct (m_delay (B := B) m0 _ r v ms (put_bus b (put_node n m0)) ltac:(by exists n, b))
    as ([] & m' & E & n' & b' & -> & Hn').
  exists (), (put_bus b' (put_node n' m0)). split; [exact E|]. exists n', b'. split; [done|].
  exists o, e, t, r, (tick ms v). done.
Qed.

Lemma m_publish m0 q mid l out tid buf n text :
  load buf 0 (Z.to_nat n) = Some text -> (length text <= 66)%nat -> fits 16 tid ->
  triple (mote_at m0 (idle q mid l out)) (publish_bytes tid buf n)
    (fun _ m => exists fr, mote_at m0 (idle true (u16 (mid + 1)) l (out ++ [fr])) m
       /\ exists p, carries fr p /\ decode p = Some (P_publish FLAG_QOS_0 tid (u16 (mid + 1)) text)).
Proof.
  intros Hbuf Hlen Ht. unfold publish_bytes.
  eapply triple_bind; [by apply (triple_lift_opt _ _ text)|]. intros data. apply triple_known. intros ->.
  do 5 (apply m_ex; intros ?). rename y into o, y0 into e, y1 into t, y2 into r, y3 into v.
  intros m (k & b & -> & Hn & Hr & Hc & He & [Hb Hmid] & Hw & <- & Hl & Hout).
  set (rq := R_publish FLAG_QOS_0 tid text).
  assert (request_ok rq o) as Hok by (split; [by apply (bool_decide_unpack (fits 8 0))|done]).
  assert (footprint rq <= MAX_BUFFER_SIZE)%nat as Hf by (cbn [footprint rq]; unfold MAX_BUFFER_SIZE; lia).
  destruct (wire_decodes rq o t Hok Hb Hmid Hf) as (Hd & _ & Hb').
  assert (message_id (after_request rq t o) = u16 (message_id o + 1)
          /\ waiting_for_response (after_request rq t o) = false) as [Hid Hw'].
  { unfold after_request, then_await. change (awaited rq) with (@None message_type).
    cbv zeta. set (o1 := set_message_buffer _ _).
    assert (waiting_for_response o1 = false) as -> by exact Hw. done. }
  destruct (m_node (B := B) m0 _ _ _ (triple_request rq o e t r v Hok Hb Hmid Hf (proj1 He) (proj2 Hr))
    (put_bus b (put_node k m0)) ltac:(by exists k, b)) as ([] & m' & E & n' & b' & -> & buf' & v' & Hn' & Hl' & Ha & Harr).
  exists (), (put_bus b' (put_node n' m0)). split; [exact E|]. eexists. split.
  - exists n', b'. split; [done|]. eexists _, _, t, _, v'. split; [exact Hn'|].
    split; [exact Hr|]. split; [by left|]. split; [split; [exact Hl'|apply He]|].
    split; [split; [exact Hb'|rewrite Hid; apply u16_ok]|].
    split; [exact Hw'|]. split; [exact Hid|]. split; [by rewrite Harr|]. by rewrite Ha, Hout.
  - eexists. split; [by eexists|exact Hd].
Qed.

Lemma holds_load buf n text : holds buf n text -> load buf 0 (Z.to_nat n) = Some text.
Proof.
  intros (-> & Hl & Ht & Hb). unfold load. rewrite Nat2Z.id, decide_True by (cbn; lia).
  rewrite drop_0. by rewrite Ht.
Qed.

(** The frame of the [i]-th publication. *)
Definition publication (fr : list Z) (tid mid : Z) (text : list Z) : Prop :=
  exists q, carries fr q /\ decode q = Some (P_publish FLAG_QOS_0 tid mid text).

Definition next_id (mid : Z) : Z := u16 (mid + 1).

Lemma m_try_publish t (m0 : mote W B) q mid l out tid :
  (if 0 <? bmp_len m0 then holds (bmp_buf m0) (bmp_len m0) (bmp_published t)
   else bmp_published t = str "BMP_BAD") ->
  holds (adc_buf m0) (adc_len m0) (adc_published t) -> fits 16 tid ->
  triple (mote_at m0 (idle q mid l out)) (try_publish uninit demo sdk tid)
    (fun _ m => exists f1 f2 f3,
       mote_at (put_flags (need_connect m0) (sent_connect m0) true (wait_regack m0) m0)
         (idle true (next_id (next_id (next_id mid))) l (out ++ [f1; f2; f3])) m
       /\ publication f1 tid (next_id mid) (bmp_published t)
       /\ publication f2 tid (next_id (next_id mid)) (adc_published t)
       /\ publication f3 tid (next_id (next_id (next_id mid))) (demo_text demo sdk)).
Proof.
  intros Hbmp Hadc Ht. unfold try_publish.
  eapply triple_bind; [apply m_idle_delay|]. intros []. apply m_globals. intros n b _.
  change (bmp_len (put_bus b (put_node n m0))) with (bmp_len m0).
  change (bmp_buf (put_bus b (put_node n m0))) with (bmp_buf m0).
  eapply triple_bind with (Q := fun _ m => exists fr, mote_at m0 (idle true (next_id mid) l (out ++ [fr])) m
       /\ publication fr tid (next_id mid) (bmp_published t)).
  { destruct (0 <? bmp_len m0).
    - apply m_publish; [by apply holds_load|by destruct Hbmp as (_ & ? & _)|done].
    - rewrite Hbmp. by apply m_publish; [|cbn; lia|]. }
  intros []. apply triple_ex. intros f1.
  eapply triple_pre; [|intros m [Hm Hp]; exact (conj Hp Hm)]. apply triple_known. intros Hp1.
  eapply triple_bind; [apply m_idle_delay|]. intros []. apply m_globals. intros n' b' _.
  eapply triple_bind; [apply (m_publish m0 _ _ _ _ _ (adc_buf m0) (adc_len m0)); [by apply holds_load|by destruct Hadc as (_ & ? & _)|done]|].
  intros []. apply triple_ex. intros f2.
  eapply triple_pre; [|intros m [Hm Hp]; exact (conj Hp Hm)]. apply triple_known. intros Hp2.
  eapply triple_bind; [apply triple_lift_opt; apply snprintf_fresh; [done|rewrite uninit_length; exact demo_fits]|].
  intros pub. apply triple_known. intros ->.
  eapply triple_bind; [apply m_idle_delay|]. intros [].
  eapply triple_bind.
  { apply (m_publish m0 _ _ _ _ _ _ _ (demo_text demo sdk)); [|lia|done].
    rewrite trunc_small by (unfold fits; lia). rewrite Nat2Z.id. rewrite load_app_l by lia.
    by rewrite drop_0, firstn_all. }
  intros []. apply triple_ex. intros f3.
  eapply triple_pre; [|intros m [Hm Hp]; exact (conj Hp Hm)]. apply triple_known. intros Hp3.
  eapply triple_bind; [apply m_idle_delay|]. intros [].
  eapply triple_post; [by apply (m_modify m0 _ (fun m => put_flags (need_connect m) (sent_connect m) true (wait_regack m) m))|].
  intros [] m Hm. exists f1, f2, f3. rewrite <- !app_assoc in Hm. done.
Qed.

(** ** The turns that hear a reply *)

(** The statistics leave the stage alone. *)
Lemma counted_fit s t TT c T (m0 : mote W B) :
  mote_fit s t TT m0 -> T ∈ TT -> mote_fit s t TT (put_counts c T m0).
Proof. intros (H1 & H2 & H3 & H4 & H5 & H6 & H7 & H8) HT. done. Qed.

Lemma mote_not_done s t TT (m0 : mote W B) : s <> Finished -> mote_fit s t TT m0 -> all_done_nearly m0 = false.
Proof. intros Hs (_ & _ & _ & _ & _ & _ & _ & ->). by destruct s. Qed.

Lemma mote_elapsed s t TT (m0 : mote W B) : mote_fit s t TT m0 -> timeElapsed m0 ∈ TT.
Proof. by intros (_ & _ & _ & ? & _). Qed.

(** A turn that takes the awaited reply, up to the use of the topic. *)
Lemma m_reply s t TT fuel now now' (m0 : mote W B) o e ms r v k fr c l o' e' Q :
  (k < fuel)%nat -> now' ∈ TT -> s <> Finished -> (1 <= length fr <= 128)%nat ->
  mote_fit s t TT m0 -> radio_fit r -> clean r v -> leaf_fit e -> arrivals v = (k, Packet fr c) :: l ->
  waiting_for_response o' = false ->
  parse vt (World o (with_frame fr e) [] now) = Some ((), World o' e' [] now) ->
  (forall m1 r' v', mote_fit s t TT m1 -> radio_fit r' -> arrivals v' = l -> aired v' = aired v ->
     triple (mote_at (put_flags (need_connect m1) (sent_connect m1) (all_done_nearly m1) false m1)
               (node_at (World o' (ResetDisconnect e') [] now') r' v')) (use_topic deref uninit frame demo sdk) Q) ->
  triple (mote_at m0 (node_at (World o e [] ms) r v)) (loop fuel now now') Q.
Proof.
  intros Hk Hnow Hs Hfr Hm Hr Hc He Hl Hw Hp Hcont.
  eapply (m_loop s t TT _ _ _ _ _ _ _ _ _ true o' e'
    (fun r' v' => radio_fit r' /\ arrivals v' = l /\ aired v' = aired v)); [done|done| |].
  { eapply triple_post; [eapply triple_TryReceive; [done|apply He|done|done|done|exact Hp]|].
    intros res n (-> & Hcl & (rssi & snr & -> & _) & Haired & Harr). rewrite Haired, Harr. done. }
  intros c' r' v' (Hr' & Hl' & Hout'). apply m_finish.
  { intros _. by eapply (mote_not_done s t TT m0). }
  intros T HT. cbn [negb]. apply m_respond; [done|].
  set (m1 := put_counts _ T _). apply (Hcont m1); [|done..].
  apply counted_fit; [apply counted_fit; [done|by eapply mote_elapsed]|].
  destruct HT as [->| ->]; [|done]. by eapply (mote_elapsed s t TT m0).
Qed.

Lemma m_connack mid t TT k rx1 rx2 p c l out fuel now now' :
  (k < fuel)%nat -> now' ∈ TT -> replies (Connecting mid) p ->
  triple (mote_in (Joining mid) t TT ((k, Packet (data_frame rx1 rx2 p) c) :: l) out) (loop fuel now now')
    (fun _ m => exists fr q, mote_in (Naming (next_id mid)) t TT l (out ++ [fr]) m
       /\ carries fr q /\ decode q = Some (P_register 0 (next_id mid) NodeApp.TOPIC)).
Proof.
  intros Hk Ht [rc ->]. apply triple_stage. intros m0 o e ms r v Hm Hr Hc He Ho Hi Hl Hout.
  destruct Hi as (Haw & Htc & Hmid & Htt). destruct Ho as [Hb Hmf].
  destruct (parse_reply_to deref junk rx1 rx2 (Connack rc) o e now Haw (proj2 Hb)) as (b & Hlb & Hp).
  cbn [taken] in Hp. set (o1 := set_waiting false (set_response_buffer b o)) in *.
  set (e1 := effect (Connack rc) _) in *.
  assert (leaf_fit e1) as He1 by (apply (with_frame_fit _ _ He); rewrite length_frame; cbn; lia).
  eapply (m_reply (Joining mid) t TT _ _ _ _ _ _ _ _ _ k _ c l o1 e1); try done.
  { rewrite length_frame. cbn. lia. }
  intros m1 r' v' Hm1 Hr' Hl' Hout'.
  assert (client_fit o1) as Ho1 by (split; [split; [apply Hb|done]|done]).
  destruct (register_client frame NodeApp.TOPIC o1 now' Ho1 eq_refl Htc Htt ltac:(cbn; lia)) as (Hok & Hf & Hcf & Hci & Hd).
  unfold use_topic. eapply triple_bind; [by apply (m_modify _ _ (fun m => put_flags false _ _ _ m))|]. intros [].
  apply m_globals. intros n b' [Hn _]. change (radio_node (put_bus b' (put_node n _))) with n. rewrite Hn.
  unfold find_topic_id. cbn [obj]. change (topic_count o1) with (topic_count o). rewrite Htc.
  change (take (Z.to_nat 0) (topic_table o1)) with (@nil topic). cbv iota beta. cbn [find_topic_from].
  change (0xffff =? 0xffff) with true. cbv iota.
  eapply triple_bind.
  { apply m_node. apply (triple_request_as _ true (R_register frame NodeApp.TOPIC)); try done.
    - by apply register_issued.
    - apply Ho1.
    - apply He1.
    - apply Hr'. }
  intros ok. apply m_known. intros ->. cbn [negb].
  eapply triple_post; [by apply (m_modify _ _ (fun m => put_flags (need_connect m) (sent_connect m) (all_done_nearly m) true m))|].
  intros [] m (n' & b2 & -> & buf & v2 & Hn' & Hlb' & Haired & Harr).
  eexists _, _. split; [|split; [by eexists|]].
  - destruct Hm1 as (H1 & H2 & H3 & H4 & H5 & H6 & H7 & H8).
    eexists _, _, now', _, v2. split; [|split; [exact Hn'|]]; [done|].
    split; [done|]. split; [by left|]. split; [split; [exact Hlb'|apply He1]|].
    split; [exact Hcf|]. subst mid. split; [exact Hci|]. by rewrite Harr, Haired, Hl', Hout', Hout.
  - subst mid. exact Hd.
Qed.

Lemma m_regack mid t TT k rx1 rx2 (t1 t2 m1 m2 : Z) c l out fuel now now' :
  (k < fuel)%nat -> now' ∈ TT ->
  bytes_ok [t1; t2; m1; m2] -> be16 m1 m2 = mid -> be16 t1 t2 <> 0xffff ->
  triple (mote_in (Naming mid) t TT ((k, Packet (data_frame rx1 rx2 (regack_bytes t1 t2 m1 m2)) c) :: l) out)
    (loop fuel now now')
    (fun _ m => exists f1 f2 f3, mote_in Finished t TT l (out ++ [f1; f2; f3]) m
       /\ publication f1 (be16 t1 t2) (next_id mid) (bmp_published t)
       /\ publication f2 (be16 t1 t2) (next_id (next_id mid)) (adc_published t)
       /\ publication f3 (be16 t1 t2) (next_id (next_id (next_id mid))) (demo_text demo sdk)).
Proof.
  intros Hk Ht Hby Hmid Htid. apply triple_stage. intros m0 o e ms r v Hm Hr Hc He Ho Hi Hl Hout.
  destruct Hi as (Haw & Htc & Hid & Htt).
  destruct (parse_regack deref junk rx1 rx2 t1 t2 m1 m2 o e now Haw (proj1 Ho) Htc Hby) as (b & Hlb & Hp); [congruence|].
  set (o1 := registered _ _) in *. set (e1 := with_frame _ e) in *.
  assert (leaf_fit e1) as He1 by (apply with_frame_fit; [done|rewrite length_frame; cbn; lia]).
  assert (client_fit o1) as Ho1 by (split; [split; [apply Ho|done]|apply Ho]).
  assert (fits 16 (be16 t1 t2)) as Hft.
  { inversion_clear Hby as [|? ? H1 H2]. inversion_clear H2. unfold be16. word_lia. }
  eapply (m_reply (Naming mid) t TT _ _ _ _ _ _ _ _ _ k _ c l o1 e1); try done.
  { rewrite length_frame. cbn. lia. }
  intros m3 r' v' Hm3 Hr' Hl' Hout'.
  unfold use_topic. eapply triple_bind; [by apply (m_modify _ _ (fun m => put_flags false _ _ _ m))|]. intros [].
  set (m4 := put_flags false _ _ _ _).
  apply m_globals. intros n b' [Hn _]. change (radio_node (put_bus b' (put_node n m4))) with n. rewrite Hn.
  cbn [obj]. rewrite (find_registered deref frame (be16 t1 t2)); [|done|..].
  2, 3: revert Htt; cbn; destruct (topic_table o); [done|intros [= <-]; done].
  rewrite (proj2 (Z.eqb_neq _ _)) by congruence.
  change (all_done_nearly (put_bus b' (put_node n m4))) with (all_done_nearly m3).
  rewrite (mote_not_done (Naming mid) t TT m3 ltac:(done) Hm3). apply triple_skip.
  destruct Hm3 as (H1 & H2 & H3 & H4 & H5 & H6 & H7 & H8).
  eapply triple_post; [eapply triple_pre; [apply (m_try_publish t m4 false mid l out); try done|]|].
  - intros m (n' & b2 & -> & Hn'). exists n', b2. split; [done|].
    eexists _, _, now', r', v'. split; [exact Hn'|]. split; [exact Hr'|].
    split; [done|]. split; [exact He1|]. split; [exact Ho1|]. split; [done|]. split; [exact Hid|].
    split; [done|by rewrite Hout'].
  - intros [] m (f1 & f2 & f3 & (n' & b2 & -> & o2 & e2 & ms2 & r2 & v2 & Hn' & Hr2 & Hc2 & He2 & Ho2 & Hw2 & Hid2 & Hl2 & Hout2) & P1 & P2 & P3).
    exists f1, f2, f3. split; [|done]. exists o2, e2, ms2, r2, v2. split; [done|]. by auto 10.
Qed.

(** A quiet turn more than six seconds after the last report, once all is
    published. *)
Lemma m_nap t TT k l out fuel now now' :
  (k < fuel)%nat -> Forall (fun T => 6000 < elapsedMillis now' T) TT ->
  triple (mote_in Finished t TT ((k, Quiet) :: l) out) (loop fuel now now')
    (fun _ m => naps m = [10000] /\ aired (look (air_side (radio_node m)).2) = out).
Proof.
  intros Hk Ht. apply triple_stage. intros m0 o e ms r v Hm Hr Hc He Ho Hi Hl Hout.
  eapply (m_loop Finished t TT _ _ _ _ _ _ _ _ _ false o (set_rx (rx_buffer_ e) 0 e)
    (fun _ v' => aired v' = out)); [done|done| |].
  { eapply triple_post; [apply triple_TryReceive_quiet; [done|unfold next; by rewrite Hl..]|].
    intros res n (-> & Hcl & _ & Haired & _). by rewrite Haired. }
  intros c r' v' Hout'. destruct Hm as (H1 & H2 & H3 & H4 & H5 & H6 & H7 & H8).
  unfold finish_turn. apply m_globals. intros n b _. set (m1 := put_counts c _ m0).
  change (timeElapsed (put_bus b (put_node n m1))) with (timeElapsed m0).
  change (all_done_nearly (put_bus b (put_node n m1))) with (all_done_nearly m0).
  rewrite Forall_forall in Ht. rewrite (proj2 (Z.ltb_lt _ _)) by (by apply Ht). rewrite H8. cbn [when andb].
  eapply triple_bind; [by apply (m_modify m1 _ (fun m => put_counts (counts m) now' m))|]. intros [].
  eapply triple_post; [apply m_sleep|]. intros [] m (n' & b' & -> & [_ [_ Hv]]). cbn. by rewrite Hv, H3.
Qed.

(** ** Runs of [loop] *)
Fixpoint node_turns (fuel : nat) (ts : list (Z * Z)) : ST (mote W B) () :=
  match ts with
  | [] => mret ()
  | (now, now') :: ts => loop fuel now now';; node_turns fuel ts
  end.

Lemma node_turns_app P fuel ts ts' R Q :
  triple P (node_turns fuel ts) (fun _ => R) -> triple R (node_turns fuel ts') Q ->
  triple P (node_turns fuel (ts ++ ts')) Q.
Proof.
  revert P. induction ts as [|[now now'] ts IH]; intros P H1 H2; cbn [node_turns List.app] in *.
  - intros a Ha. destruct (H1 a Ha) as (u & a' & [= <- <-] & HR). by apply H2.
  - intros a Ha. destruct (H1 a Ha) as (u & a' & E & HR). rewrite ST_bind_eq in E |- *.
    destruct (loop fuel now now' a) as [[x a1]|]; [|done].
    destruct (IH (eq a1)) with (w := a1) as (y & a2 & E2 & HQ); [..|done|by exists y, a2].
    + intros ? <-. by exists u, a'.
    + done.
Qed.

Lemma m_quiets s t TT ns l out fuel ts :
  s <> Finished -> length ts = length ns -> Forall (fun n => (n < fuel)%nat) ns -> Forall (fun u => u.2 ∈ TT) ts ->
  triple (mote_in s t TT (quiets ns ++ l) out) (node_turns fuel ts) (fun _ => mote_in s t TT l out).
Proof.
  clear demo_fits. intros Hs. revert ts. induction ns as [|n ns IH]; intros [|[now now'] ts] Hlen Hn Ht; try done;
    cbn [node_turns quiets fmap list_fmap List.app].
  - by apply triple_ret.
  - inversion_clear Hn. inversion_clear Ht.
    eapply triple_bind; [by apply m_quiet|]. intros []. apply IH; [cbn in Hlen; lia|done..].
Qed.

(** Quiet turns and then one that takes a reply. *)
Lemma m_then_reply s t TT ns k fr c l out fuel ts now now' Q :
  s <> Finished -> length ts = length ns -> Forall (fun n => (n < fuel)%nat) ns -> Forall (fun u => u.2 ∈ TT) ts ->
  triple (mote_in s t TT ((k, Packet fr c) :: l) out) (loop fuel now now') (fun _ => Q) ->
  triple (mote_in s t TT (quiets ns ++ (k, Packet fr c) :: l) out)
    (node_turns fuel (ts ++ [(now, now')])) (fun _ => Q).
Proof.
  intros Hs Hlen Hn Ht Hl. eapply node_turns_app; [by apply m_quiets|]. cbn [node_turns].
  eapply triple_bind; [exact Hl|]. intros []. by apply triple_ret.
Qed.

(** * Properties *)

(** C13: whatever number of receptions time out in between, when the gateway
    answers CONNECT and REGISTER the node transmits exactly a REGISTER of
    "sentrifarm/node/beacon" and, under the id it is given, three QoS 0 PUBLISH
    messages with its pressure reading, its converter values and its chip's
    data, and at the next turn that hears nothing, six seconds after any earlier
    report, goes to sleep for ten seconds. *)
Theorem node_session fuel mid t TT ns1 ns2 k1 k2 k3 r1 x1 p1 c1 r2 x2 (t1 t2 m1 m2 : Z) c2 rest out
    ts1 u1 ts2 u2 u3 :
  Forall (fun n => (n < fuel)%nat) (ns1 ++ k1 :: ns2 ++ [k2; k3]) ->
  length ts1 = length ns1 -> length ts2 = length ns2 ->
  Forall (fun u => u.2 ∈ TT) (ts1 ++ u1 :: ts2 ++ [u2]) ->
  Forall (fun T => 6000 < elapsedMillis u3.2 T) TT ->
  replies (Connecting mid) p1 -> bytes_ok [t1; t2; m1; m2] ->
  be16 m1 m2 = next_id mid -> be16 t1 t2 <> 0xffff ->
  triple
    (mote_in (Joining mid) t TT
       (quiets ns1 ++ (k1, Packet (data_frame r1 x1 p1) c1)
        :: quiets ns2 ++ (k2, Packet (data_frame r2 x2 (regack_bytes t1 t2 m1 m2)) c2)
        :: (k3, Quiet) :: rest) out)
    (node_turns fuel ((ts1 ++ [u1]) ++ (ts2 ++ [u2]) ++ [u3]))
    (fun _ m => naps m = [10000] /\ exists fr q f1 f2 f3,
       aired (look (air_side (radio_node m)).2) = out ++ [fr; f1; f2; f3]
       /\ carries fr q /\ decode q = Some (P_register 0 (next_id mid) NodeApp.TOPIC)
       /\ publication f1 (be16 t1 t2) (next_id (next_id mid)) (bmp_published t)
       /\ publication f2 (be16 t1 t2) (next_id (next_id (next_id mid))) (adc_published t)
       /\ publication f3 (be16 t1 t2) (next_id (next_id (next_id (next_id mid)))) (demo_text demo sdk)).
Proof.
  intros Hk L1 L2 HT Hlast R1 Hby Hmid Htid.
  apply Forall_app in Hk as [K1 Hk]. inversion_clear Hk as [|? ? Hk1 Hk'].
  apply Forall_app in Hk' as [K2 Hk]. inversion_clear Hk as [|? ? Hk2 Hk']. inversion_clear Hk' as [|? ? Hk3 _].
  apply Forall_app in HT as [T1 Hu]. inversion_clear Hu as [|? ? Hu1 Hu'].
  apply Forall_app in Hu' as [T2 Hu]. inversion_clear Hu as [|? ? Hu2 _].
  destruct u1 as [n1 n1'], u2 as [n2 n2'], u3 as [n3 n3'].
  eapply node_turns_app; [apply m_then_reply; [done..|]; by apply m_connack|].
  apply triple_ex. intros fr. apply triple_ex. intros q.
  eapply triple_pre; [|intros m (Hp & Hc & Hd); exact (conj (conj Hc Hd) Hp)].
  apply triple_known. intros [Hc1 Hd1].
  eapply node_turns_app; [apply m_then_reply; [done..|]; by apply m_regack|].
  do 3 (apply triple_ex; intros ?).
  eapply triple_pre; [|intros m (Hp & Hrest); exact (conj Hrest Hp)].
  apply triple_known. intros (P1 & P2 & P3). cbn [node_turns].
  eapply triple_bind; [by apply m_nap|]. intros []. apply triple_ret. intros m [Hs Ha].
  split; [exact Hs|]. do 5 eexists. rewrite Ha, <- app_assoc. done.
Qed.

(** Also: while no reply comes the node stays awake and silent, however long: it
    neither repeats the request nor sleeps. *)
Theorem node_deaf fuel s t TT ns l out ts :
  s <> Finished -> length ts = length ns -> Forall (fun n => (n < fuel)%nat) ns -> Forall (fun u => u.2 ∈ TT) ts ->
  triple (mote_in s t TT (quiets ns ++ l) out) (node_turns fuel ts)
    (fun _ m => naps m = [] /\ aired (look (air_side (radio_node m)).2) = out).
Proof.
  intros Hs Hl Hn Ht. eapply triple_post; [by apply m_quiets|].
  intros [] m (o & e & ms & r & v & (_ & _ & Hnaps & _) & [_ [_ Hv]] & _ & _ & _ & _ & _ & _ & Hout).
  by rewrite Hv, Hout.
Qed.
End Session.

(** * The boot *)
Section Boot.
Context {W : Type} `{HS : Spi W} {HC : Sx1276 W} {B : Type} `{HW : Wire B}.
Implicit Types m : mote W B.

(** A buffer that holds a text of the length recorded. *)
Definition held (buf : list Z) (n : Z) : Prop := exists text, holds buf n text.

(** The globals during the boot; [adc] says whether the converter was read. *)
Definition fresh_fit (st adc : bool) m : Prop :=
  started_ok m = st /\ need_connect m = true /\ sent_connect m = false /\ need_rx m = true /\ naps m = []
  /\ timeElapsed m = 0 /\ length (bmp_buf m) = 66%nat /\ length (adc_buf m) = 66%nat
  /\ (0 < bmp_len m -> held (bmp_buf m) (bmp_len m))
  /\ (adc = true -> held (adc_buf m) (adc_len m)).

Definition during (P : node (W := W) -> Prop) (st adc : bool) m : Prop :=
  P (radio_node m) /\ fresh_fit st adc m.

Lemma d_node {X} P st adc (k : ST node X) Q :
  triple P k Q -> triple (during P st adc) (with_node k) (fun x => during (Q x) st adc).
Proof.
  intros Hk m [Hn Hf]. destruct (Hk _ Hn) as (x & n' & E & HQ).
  exists x, (put_node n' m). unfold with_node. rewrite E. done.
Qed.

Lemma d_delay c r v st adc ms :
  triple (during (node_at c r v) st adc) (delay ms) (fun _ => during (node_at c r (tick ms v)) st adc).
Proof.
  unfold delay. eapply triple_bind; [apply d_node|].
  { apply (triple_on_radio c (at_ r v)), triple_pause. }
  intros [] m Hm. do 2 eexists. split; [done|exact Hm].
Qed.

(** The reading can be printed in the buffer. *)
Definition printable (r : reading) : Prop :=
  is_zero (pressure r) = true \/ exists text, bmp_text r = Some text /\ (length text < 66)%nat.

(** What [snprintf] leaves in a buffer of 66 bytes. *)
Lemma printed buf text :
  length buf = 66%nat -> (length text < 66)%nat ->
  exists buf', snprintf buf 0 BUF text = Some buf' /\ length buf' = 66%nat
    /\ holds buf' (u8 (Z.of_nat (length text))) text.
Proof.
  intros Hb Ht. eexists. split; [apply snprintf_fresh; [done|lia]|].
  assert (length (text ++ 0 :: drop (S (length text)) buf) = 66%nat) as Hl
    by (rewrite length_app; cbn [length]; rewrite length_drop; lia).
  split; [done|]. split; [apply trunc_small; unfold fits; lia|]. split; [lia|]. split; [|done].
  apply take_app_length.
Qed.

Lemma d_poll_bmp P st adc r :
  printable r -> triple (during P st adc) (poll_bmp r) (fun _ => during P st adc).
Proof.
  intros Hr m [Hn (H0 & H1 & H2 & H3 & H4 & H5 & H6 & H7 & H8 & H9)]. unfold poll_bmp.
  destruct (is_zero (pressure r)) eqn:Ez; [by do 2 eexists|].
  destruct Hr as [Hr|(text & Et & Hl)]; [congruence|].
  destruct (printed _ _ H6 Hl) as (buf & Es & Hb & Hh).
  rewrite ST_bind_eq. cbn [get]. cbv iota beta. rewrite ST_bind_eq. unfold lift_opt. rewrite Et.
  cbn [fmap option_fmap option_map]. rewrite ST_bind_eq, Es. cbn [fmap option_fmap option_map].
  do 2 eexists. split; [done|]. split; [done|]. unfold fresh_fit. cbn. repeat (split; [done|]).
  split; [intros _; by exists text|done].
Qed.

Lemma adc_text_length a b c d : length (adc_text [a; b; c; d]) = 11%nat.
Proof. unfold adc_text. rewrite !length_app, !hex_length. done. Qed.

Lemma d_poll_adc P st adc : triple (during P st adc) poll_adc (fun _ => during P st true).
Proof.
  intros m [Hn (H0 & H1 & H2 & H3 & H4 & H5 & H6 & H7 & H8 & H9)]. unfold poll_adc. rewrite ST_bind_eq.
  set (readings := (begin_tx PCF8591;; _)).
  assert (exists a b c d w, readings (wire_bus m) = Some ([a; b; c; d], w)) as (a & b & c & d & w & E).
  { subst readings. unfold begin_tx, put_byte, end_tx, request, get_byte, modify.
    repeat (rewrite ST_bind_eq; cbv beta iota;
            match goal with
            | |- context [endTransmission ?w] => destruct (endTransmission w)
            | |- context [wire_read ?w] => destruct (wire_read w)
            | |- _ => idtac
            end; cbv beta iota).
    by do 5 eexists. }
  unfold with_bus. rewrite E.
  destruct (printed (adc_buf m) (adc_text [a; b; c; d]) H7) as (buf & Es & Hb & Hh); [rewrite adc_text_length; lia|].
  rewrite ST_bind_eq. cbn [get]. cbv iota beta. rewrite ST_bind_eq. unfold lift_opt.
  change (adc_buf (put_bus w m)) with (adc_buf m). rewrite Es. cbn [fmap option_fmap option_map].
  do 2 eexists. split; [done|]. split; [done|]. unfold fresh_fit. cbn. repeat (split; [done|]).
  by eexists.
Qed.

(** What [setup] leaves. *)
Definition ready (c : world leaf) (out : list (list Z)) m : Prop :=
  exists ok, during (set_up c out ok) ok true m.

Lemma d_setup begins r1 r2 c v :
  printable r1 -> printable r2 ->
  triple (during (node_at c new_SX1276Radio v) false false) (setup begins r1 r2) (fun _ => ready c (aired v)).
Proof.
  intros Hr1 Hr2. unfold setup.
  eapply triple_bind; [apply d_delay|]. intros [].
  eapply triple_bind with (Q := fun _ => during (node_at c new_SX1276Radio (tick 1000 v)) false false).
  { destruct begins; cbn [when]; [|by apply triple_ret].
    eapply triple_bind; [by apply d_poll_bmp|]. intros [] m Hm. by do 2 eexists. }
  intros []. eapply triple_bind; [apply d_poll_adc|]. intros [].
  eapply triple_bind; [apply d_delay|]. intros []. eapply triple_bind; [apply d_delay|]. intros [].
  set (v3 := tick 50 _). change (aired v) with (aired v3).
  eapply triple_bind; [apply d_node, t_link_begin; [apply new_radio_configured|done]|]. intros ok.
  eapply triple_bind with (Q := fun _ => during (set_up c (aired v3) ok) ok true).
  { intros m [Hn Hf]. do 2 eexists. split; [done|]. split; [done|]. destruct Hf as [_ Hf]. done. }
  intros []. set (P := set_up c (aired v3) ok).
  apply triple_post with (Q := fun _ => during P ok true); [|intros _ m Hm; by exists ok].
  intros m Hm. rewrite ST_bind_eq. cbn [get]. cbv iota beta. revert m Hm.
  assert (forall b : bool, triple (during P ok true) (when b (poll_bmp r2);; poll_adc) (fun _ => during P ok true)) as Ht.
  { intros b. eapply triple_bind with (Q := fun _ => during P ok true); [|intros []; apply d_poll_adc].
    destruct b; [by apply d_poll_bmp|by apply triple_ret]. }
  intros m Hm. by apply (Ht (bmp_good m)).
Qed.

(** ** The first turn *)
Context (deref : Z -> list Z) (junk : Z) (uninit : nat -> list Z) (frame : Z).
Context (demo : my_data_t) (sdk : list Z).
Abbreviation loop := (NodeApp.loop deref junk uninit frame demo sdk).

(** What was read can be published. *)
Lemma fresh_texts m : fresh_fit true true m -> exists t, forall TT, 0 ∈ TT ->
  mote_fit (Joining 0) t TT (put_flags (need_connect m) true false (wait_regack m) m).
Proof.
  intros (H0 & H1 & H2 & H3 & H4 & H5 & H6 & H7 & H8 & H9). destruct (H9 eq_refl) as [adc Hadc].
  destruct (Z.ltb_spec 0 (bmp_len m)) as [Hl|Hl].
  - destruct (H8 Hl) as [bmp Hbmp]. exists (Texts bmp adc). intros TT HT.
    split; [done|]. split; [done|]. split; [done|]. split; [cbn; by rewrite H5|].
    cbn. rewrite (proj2 (Z.ltb_lt _ _)) by done. split; [done|]. split; [done|].
    split; [apply andb_false_r|done].
  - exists (Texts (str "BMP_BAD") adc). intros TT HT.
    split; [done|]. split; [done|]. split; [done|]. split; [cbn; by rewrite H5|].
    cbn. rewrite (proj2 (Z.ltb_ge _ _)) by done. split; [done|]. split; [done|].
    split; [apply andb_false_r|done].
Qed.

Lemma clock_same m o e q now :
  client (radio_node m) = World o e q now -> set_clock now m = Some ((), m).
Proof.
  intros Hc. destruct m as [[c a] ? ? ? ? ? ? ? ? ? ? ? ? ? ? ?]. cbn in Hc. subst c. done.
Qed.

(** The first turn sends the request and goes on like a turn of a node that
    has sent it. *)
Lemma first_turn m out ms now :
  during (set_up (World new_MQTTSN new_MQTTSX1276 [] ms) out true) true true m ->
  exists m' t fr q, (forall fuel now', loop fuel now now' m = loop fuel now now' m')
    /\ (forall TT, 0 ∈ TT -> mote_in frame (Joining 0) t TT (arrivals (look (air_side (radio_node m')).2)) (out ++ [fr]) m')
    /\ carries fr q /\ decode q = Some (P_connect 0 PROTOCOL_ID 30 (str "sfnode1")).
Proof.
  intros [(r & v & Hn & Ha & Hmx & Hdead) Hf].
  destruct (fresh_texts m Hf) as [t Ht]. destruct Hf as (H0 & H1 & H2 & H3 & H4 & H5 & _).
  destruct (m_clock (W := W) (B := B) m _ _ _ _ r v now m ltac:(exists (radio_node m), (wire_bus m); split; [by destruct m|exact Hn]))
    as ([] & m1 & E1 & n1 & b1 & -> & Hn1).
  destruct (t_connect out true now n1) as ([] & n2 & E2 & fr & q & b & r2 & v2 & Hn2 & Hc & Hd & Ha2 & Hb & Hcl & Hmx2 & Hdead2).
  { exists r, v. split; [exact Hn1|]. done. }
  exists (put_bus b1 (put_node n2 (put_flags (need_connect m) true false (wait_regack m) m))), t, fr, q.
  destruct Hn2 as [Hcn2 [Hr2 Hv2]].
  split; [|split; [|done]].
  - intros fuel now'. unfold NodeApp.loop. rewrite !(ST_bind_eq get). cbn [get]. cbv iota beta.
    cbn [started_ok need_connect sent_connect put_bus put_node put_flags].
    rewrite H0, H1, H2. cbn [negb andb]. rewrite ST_bind_eq, E1. cbn [when].
    cbn [started_ok need_connect sent_connect need_rx wait_regack put_bus put_node put_flags].
    cbv iota beta. rewrite ST_bind_eq. rewrite ST_bind_eq. unfold with_node at 1. cbn [radio_node put_bus put_node].
    rewrite E2. cbv iota beta. unfold modify at 1. cbv iota beta.
    rewrite (ST_bind_eq (set_clock now)). erewrite clock_same by exact Hcn2. cbv beta iota.
    change (need_connect (put_node n2 (put_bus b1 (put_node n1 m)))) with (need_connect m). by rewrite H1.
  - intros TT HT. cbn [radio_node put_bus put_node]. rewrite Hv2.
    destruct (connect_client now) as (_ & Hcf & Hci & _).
    eexists _, _, now, r2, v2. split; [exact (Ht TT HT)|]. split; [split; [exact Hcn2|split; [exact Hr2|exact Hv2]]|].
    split; [|split; [exact Hcl|split; [split; [exact Hb|done]|split; [exact Hcf|split; [exact Hci|done]]]]].
    split; [by apply Hdead2|exact Hmx2].
Qed.

(** Also: [setup] puts nothing on the air; if the radio answered, the first turn
    of [loop] transmits exactly the CONNECT frame and goes on as a turn of a node
    in the state the sessions start from, with what [setup] read to publish. *)
Theorem node_boots begins r1 r2 v now :
  printable r1 -> printable r2 ->
  triple (fun m => (exists ms, node_at (World new_MQTTSN new_MQTTSX1276 [] ms) new_SX1276Radio v (radio_node m))
            /\ fresh_fit false false m)
    (setup begins r1 r2)
    (fun _ m => aired (look (air_side (radio_node m)).2) = aired v
       /\ (started_ok m = true -> exists m' t fr q,
             (forall fuel now', loop fuel now now' m = loop fuel now now' m')
             /\ (forall TT, 0 ∈ TT -> mote_in frame (Joining 0) t TT
                   (arrivals (look (air_side (radio_node m')).2)) (aired v ++ [fr]) m')
             /\ carries fr q /\ decode q = Some (P_connect 0 PROTOCOL_ID 30 (str "sfnode1")))).
Proof.
  intros Hr1 Hr2 m0 [[ms Hn] Hf].
  destruct (d_setup begins r1 r2 _ v Hr1 Hr2 m0 (conj Hn Hf)) as ([] & m & E & ok & Hm).
  exists (), m. split; [exact E|]. destruct Hm as [Hs Hf']. pose proof Hf' as [Hok _]. split.
  { destruct Hs as (r & v' & [_ [_ Hv]] & Ha & _). by rewrite Hv. }
  rewrite Hok. intros ->. by apply (first_turn m (aired v) ms now).
Qed.
End Boot.

(** ** Witnesses *)
Definition chip_data : my_data_t := MyData 1 2 3000 123456.
Definition sdk_version : list Z := str "1.3.0(68100eb)".
Definition buffer_of (text : list Z) : list Z := text ++ replicate (66 - length text) 0.
Definition two_readings : texts := Texts (str "HPA=1013.2") (str "01 02 03 04").

Definition joining (l : list (nat * event)) : mote demo rtc :=
  Mote (Node (World (await CONNACK new_MQTTSN) new_MQTTSX1276 [] 0) (with_alive new_SX1276Radio, hearing l))
    no_rtc true true (buffer_of (str "HPA=1013.2")) 10 (buffer_of (str "01 02 03 04")) 11
    (Metric 0 0 0 0) 0 true true true false true [].

Lemma joining_in l TT : 0 ∈ TT -> mote_in 99 (Joining 0) two_readings TT l [] (joining l).
Proof.
  intros HT. eexists _, _, 0, _, _. split; [|split; [split; [reflexivity|split; reflexivity]|]].
  - do 3 (split; [reflexivity|]). split; [exact HT|].
    split; [split; [reflexivity|split; [cbn; lia|split; reflexivity]]|].
    split; [split; [reflexivity|split; [cbn; lia|split; reflexivity]]|]. split; reflexivity.
  - split; [done|]. split; [by left|]. split; [done|].
    split; [split; [done|by apply (bool_decide_unpack (fits 16 0))]|]. done.
Defined.

Definition node_hears : list (nat * event) :=
  quiets [2%nat] ++ (O, Packet (data_frame 0 0 [3; code CONNACK; 0]) false)
  :: quiets [] ++ (1%nat, Packet (data_frame 1 0 (regack_bytes 0 7 0 1)) false)
  :: (O, Quiet) :: [].

Lemma node_session_witness : exists m fr f1 f2 f3,
  node_turns (B := rtc) (fun _ => []) 0 array 99 chip_data sdk_version 3
    (([(1000, 2000)] ++ [(2000, 3000)]) ++ ([] ++ [(3000, 4000)]) ++ [(10000, 11000)])
    (joining node_hears) = Some ((), m)
  /\ naps m = [10000] /\ aired (look (W := demo) (air_side (radio_node m)).2) = [fr; f1; f2; f3].
Proof.
  destruct (node_session (W := demo) (B := rtc) (fun _ => []) 0 array 99 chip_data sdk_version
    ltac:(intros; apply length_replicate) ltac:(vm_compute; lia)
    3 0 two_readings [0; 2000; 3000; 4000] [2%nat] [] 0 1 0 0 0 [3; code CONNACK; 0] false 1 0 0 7 0 1 false []
    [] [(1000, 2000)] (2000, 3000) [] (3000, 4000) (10000, 11000))
    with (w := joining node_hears) as ([] & m & E & Hs & fr & q & f1 & f2 & f3 & Ha & _).
  - repeat constructor.
  - done.
  - done.
  - repeat constructor.
  - repeat constructor.
  - by exists 0.
  - repeat constructor; by apply (bool_decide_unpack (fits 8 _)).
  - done.
  - done.
  - apply joining_in. repeat constructor.
  - exists m, fr, f1, f2, f3. exact (conj E (conj Hs Ha)).
Defined.

Lemma node_deaf_witness : exists m,
  node_turns (B := rtc) (fun _ => []) 0 array 99 chip_data sdk_version 3 [(1000, 2000); (100000, 200000)]
    (joining (quiets [0%nat; 1%nat] ++ [])) = Some ((), m)
  /\ naps m = [] /\ aired (look (W := demo) (air_side (radio_node m)).2) = [].
Proof.
  destruct (node_deaf (W := demo) (B := rtc) (fun _ => []) 0 array 99 chip_data sdk_version 3 (Joining 0) two_readings
    [0; 2000; 200000] [0%nat; 1%nat] [] [] [(1000, 2000); (100000, 200000)])
    with (w := joining (quiets [0%nat; 1%nat] ++ [])) as ([] & m & E & Hs & Ha).
  - done.
  - done.
  - repeat constructor.
  - repeat constructor.
  - apply joining_in. repeat constructor.
  - exists m. exact (conj E (conj Hs Ha)).
Defined.

Definition node_switched_on : mote demo rtc :=
  Mote (Node (World new_MQTTSN new_MQTTSX1276 [] 0) (new_SX1276Radio, blank))
    no_rtc false false (replicate 66 0) 0 (replicate 66 0) 0 (Metric 0 0 0 0) 0 true false true false true [].
Definition fair_weather : reading := Reading (f32 1013) (f32 21) (f32 5).

Lemma node_boots_witness : exists m,
  setup true fair_weather fair_weather node_switched_on = Some ((), m)
  /\ aired (look (W := demo) (air_side (radio_node m)).2) = [].
Proof.
  destruct (node_boots (W := demo) (B := rtc) (fun _ => []) 0 array 99 chip_data sdk_version
    true fair_weather fair_weather blank 500) with (w := node_switched_on) as ([] & m & E & Ha & _).
  - right. eexists. split; [vm_compute; reflexivity|vm_compute; lia].
  - right. eexists. split; [vm_compute; reflexivity|vm_compute; lia].
  - split; [exists 0; split; [reflexivity|split; reflexivity]|].
    do 8 (split; [reflexivity|]). split; [intros Hl; exfalso; revert Hl; cbn; lia|done].
  - exists m. exact (conj E Ha).
Defined.
