(* ===== verification/BusPirate.v ===== *)
(** The Bus Pirate as an SPI adapter: [src/software/sx1276/buspirate_binary.c]
    and the register dump [src/software/sx1276/bp_sx1276_dump.c].

    The serial port's system calls are class [SerialPort]. The functions do not
    look at what [write] returns except where the code does; messages are left
    out. A function that ends without a return statement returns [None]. *)
From S2P Require Import Prelude.

(** The members of [struct termios] the code changes. *)
Record termios := Termios {
  c_cflag : Z; c_lflag : Z; c_iflag : Z; c_oflag : Z;
  c_vmin : Z; c_vtime : Z; c_ispeed : Z; c_ospeed : Z }.

(** The flag constants of <termios.h>. *)
Class TermiosFlags := {
  CLOCAL : Z; CREAD : Z; PARENB : Z; CSTOPB : Z; CSIZE : Z; CS8 : Z;
  ICANON : Z; ECHO : Z; ECHOE : Z; ISIG : Z; IXON : Z; IXOFF : Z; IXANY : Z; OPOST : Z }.

Class SerialPort (W : Type) := {
  sys_read : Z -> W -> option (list Z) * W;    (* [None]: -1; at most that many bytes *)
  sys_write : list Z -> W -> Z * W;
  usleep : Z -> W -> W;
  fcntl_blocking : W -> bool * W;
  tcgetattr : W -> option termios * W;
  tcflush : W -> bool * W;
  tcsetattr : termios -> W -> bool * W;
  sys_close : W -> W }.

Section Port.
Context {W : Type} `{SerialPort W}.
Abbreviation M := (ST W).
Definition op {A} (f : W -> A * W) : M A := fun w => Some (f w).
Definition pause (us : Z) : M () := op (fun w => ((), usleep us w)).

(** The reading loop: every [read] stores at the start of [buf]. *)
Fixpoint readto_loop (fuel : nat) (n retry : Z) (buf : list Z) : M (bool * list Z) :=
  if (0 <? n) && (retry <? 3) then
    match fuel with
    | O => undefined
    | S fuel =>
        er ← op (sys_read n);
        match (er : option (list Z)) with
        | None => mret (false, buf)
        | Some bs =>
            buf ← lift_opt (store buf 0 bs);
            readto_loop fuel (n - Z.of_nat (length bs))
              (if Z.of_nat (length bs) =? 0 then retry + 1 else retry) buf
        end
    end
  else mret (true, buf).

(** The return value and the buffer: [bytes] unless a read failed. *)
Definition bp_serial_readto (buf : list Z) (bytes : Z) : M (Z * list Z) :=
  '(ok, buf) ← readto_loop (Z.to_nat bytes + 3) bytes 0 buf;
  mret (if (ok : bool) then bytes else -1, buf).

Definition bp_bitbang_cmd (cmd_byte : Z) : M bool :=
  op (sys_write [cmd_byte]);;
  pause 10;;
  '(n, b) ← bp_serial_readto [cmd_byte] 1;
  mret ((n =? 1) && (hd 0 b =? 0x1)).

Definition bp_bitbang_spi_write_one (reg value : Z) : M bool :=
  let reg_mask := u8 (s8 (Z.lor reg 0x80)) in
  let cmd := [0x04; 0; 2; 0; 0; reg_mask; value] in
  op (sys_write cmd);;
  pause 1000;;
  '(n, cmd) ← bp_serial_readto cmd 1;
  mret (negb ((n =? 0) || negb (hd 0 cmd =? 0x1))).

(** [None]: false is returned and [*result] is not written. *)
Definition bp_bitbang_spi_read_one (reg : Z) : M (option Z) :=
  let reg_mask := Z.land reg 0x7f in
  let cmd := [0x04; 0; 1; 0; 1; reg_mask] in
  op (sys_write cmd);;
  pause 1000;;
  '(n, cmd) ← bp_serial_readto cmd 2;
  mret (if negb (n =? 2) || negb (hd 0 cmd =? 0x1) then None else cmd !! 1%nat).

(** [strncmp(buf, s, strlen(s)) == 0] *)
Definition starts_with (buf s : list Z) : bool := bool_decide (take (length s) buf = s).

Definition MAX_TRIES : nat := 25.

(** The tries from number [i] on; [buf] is not initialised. *)
Fixpoint enter_loop (tries : nat) (i : Z) (buf : list Z) : M (bool * list Z) :=
  match tries with
  | O => mret (false, buf)
  | S tries =>
      w ← op (sys_write [0]);
      if negb (w =? 1) then mret (false, buf)
      else
        pause 1;;
        '(n, buf) ← bp_serial_readto buf 5;
        if n <? 0 then mret (false, buf)
        else if starts_with buf (str "BBIO1") then mret (true, buf)
        else if (20 <? i) && (0 <? n) then mret (false, buf)
        else enter_loop tries (i + 1) buf
  end.

Definition bp_enable_binary_spi_mode (junk : list Z) : M bool :=
  '(ok, buf) ← enter_loop MAX_TRIES 0 junk;
  if negb ok then mret false
  else
    w ← op (sys_write [1]);
    if negb (w =? 1) then mret false
    else
      pause 1;;
      '(_, buf) ← bp_serial_readto buf 4;
      mret (starts_with buf (str "SPI1")).

Definition bp_power_on : M bool :=
  ok ← bp_bitbang_cmd 0x49;
  if negb ok then mret false
  else
    pause (6 * 1000);;
    ok ← bp_bitbang_cmd 0x4b;
    if negb ok then mret false else pause (6 * 1000);; mret true.

Definition bp_power_off : M bool := bp_bitbang_cmd 0x41.
Definition bp_cycle_reset : M bool := bp_power_on.

Definition bp_power_cycle : M (option bool) :=
  ok ← bp_bitbang_cmd 0x41;
  if negb ok then mret (Some false)
  else pause (1000 * 2000);; bp_power_on;; mret None.

Definition bp_spi_config : M bool :=
  ok ← bp_bitbang_cmd 0x8a;
  if negb ok then mret false
  else
    ok ← bp_bitbang_cmd 0x62;
    mret ok.

Definition clear (flags mask : Z) : Z := Z.land flags (Z.lnot mask).

(** The settings [bp_setup_serial] asks for. *)
Definition raw_8n1 `{TermiosFlags} (speed : Z) (t : termios) : termios :=
  let c := Z.lor (c_cflag t) (Z.lor CLOCAL CREAD) in
  let c := clear (clear (clear c PARENB) CSTOPB) CSIZE in
  Termios (Z.lor c CS8)
    (clear (c_lflag t) (Z.lor (Z.lor (Z.lor ICANON ECHO) ECHOE) ISIG))
    (clear (c_iflag t) (Z.lor (Z.lor IXON IXOFF) IXANY))
    (clear (c_oflag t) OPOST) 0 1 speed speed.

Definition bp_setup_serial `{TermiosFlags} (speed : Z) : M bool :=
  ok ← op fcntl_blocking;
  if negb ok then mret false
  else
    t ← op tcgetattr;
    match (t : option termios) with
    | None => mret false
    | Some t =>
        ok ← op tcflush;
        if negb ok then mret false else op (tcsetattr (raw_8n1 speed t))
    end.

(** * The dump *)

(** [todo] registers from [r] on; the registers read so far in [regval]. *)
Fixpoint dump_loop (todo : nat) (r : Z) (regval : list Z) : M (bool * list Z) :=
  match todo with
  | O => mret (true, regval)
  | S todo =>
      let cmd := [0x04; 0; 1; 0; 1; r] in
      op (sys_write cmd);;
      pause (60 * 0x71);;
      '(n, cmd) ← bp_serial_readto cmd 2;
      if negb (n =? 2) || negb (hd 0 cmd =? 0x1) then mret (false, regval)
      else
        v ← lift_opt (cmd !! 1%nat);
        dump_loop todo (r + 1) (<[Z.to_nat r := v]> regval)
  end.

(** The return value, and what is given to [od] when it is true. *)
Definition sx1276_dump : M (bool * list Z) := dump_loop 0x71 0 (replicate 0x71 0x5a).

(** [main] from the open port on: the exit status and what was printed. *)
Definition dump_main `{TermiosFlags} (B115200 : Z) (junk : list Z) (skip_reset : bool)
    : M (Z * option Z * option (bool * list Z)) :=
  ok ← bp_setup_serial B115200;
  ok ← (if (ok : bool) then bp_enable_binary_spi_mode junk else mret false);
  r ← (if (ok : bool) then
         (if skip_reset then mret () else bp_power_on;; mret ());;
         bp_spi_config;;
         pause 1000;;
         when skip_reset (pause 100000);;
         version ← bp_bitbang_spi_read_one 0x42;
         d ← sx1276_dump;
         pause 1000000;;
         mret (version, Some d)
       else mret (None, None));
  op (fun w => ((), sys_close w));;
  mret (if (ok : bool) then 0 else 1, fst r, snd r).
End Port.
