(* ===== verification/BusPirateFacts.v ===== *)
(** The Bus Pirate functions: they end and stay in their buffers whatever the
    port does, a prompt adapter's registers are dumped, a reply in two pieces is
    misread. *)
From S2P Require Import Prelude BusPirate.

Section Facts.
Context {W : Type} `{HP : SerialPort W}.

(** [read(fd, buf, n)] returns at most [n] bytes. *)
Definition reads_fit : Prop := forall n w bs w',
  0 < n -> sys_read n w = (Some bs, w') -> Z.of_nat (length bs) <= n.

Lemma op_eq {A} (f : W -> A * W) w : op f w = Some (f w).
Proof. done. Qed.

Section Total.
Context (Hfit : reads_fit).

Lemma readto_loop_total fuel n retry buf w :
  0 <= n -> 0 <= retry -> n + Z.max 0 (3 - retry) <= Z.of_nat fuel -> n <= Z.of_nat (length buf) ->
  exists ok buf' w', readto_loop fuel n retry buf w = Some ((ok, buf'), w') /\ length buf' = length buf.
Proof.
  revert n retry buf w. induction fuel as [|fuel IH]; intros n retry buf w Hn Hr Hf Hb; cbn [readto_loop].
  - destruct (Z.ltb_spec 0 n), (Z.ltb_spec retry 3); try lia; cbn; by do 3 eexists.
  - destruct (Z.ltb_spec 0 n), (Z.ltb_spec retry 3); cbn [andb]; try by do 3 eexists.
    rewrite ST_bind_eq, op_eq. destruct (sys_read n w) as [[bs|] w1] eqn:E; [|by do 3 eexists].
    pose proof (Hfit n w bs w1 ltac:(done) E) as Hl.
    rewrite ST_bind_eq. unfold lift_opt, store. rewrite decide_True by lia. cbn [fmap option_fmap option_map].
    set (buf1 := take 0 buf ++ bs ++ drop (0 + length bs) buf).
    assert (length buf1 = length buf) as Hl1
      by (subst buf1; rewrite !length_app, length_drop, length_take; lia).
    destruct (IH (n - Z.of_nat (length bs)) (if Z.of_nat (length bs) =? 0 then retry + 1 else retry) buf1 w1)
      as (ok & buf' & w' & E' & Hl').
    + lia.
    + destruct (_ =? 0); lia.
    + destruct (Z.eqb_spec (Z.of_nat (length bs)) 0); lia.
    + rewrite Hl1. lia.
    + exists ok, buf', w'. split; [exact E'|]. lia.
Qed.

Lemma readto_total buf n w :
  0 <= n <= Z.of_nat (length buf) ->
  exists r buf' w', bp_serial_readto buf n w = Some ((r, buf'), w') /\ length buf' = length buf
    /\ (r = n \/ r = -1).
Proof.
  intros Hn. unfold bp_serial_readto. rewrite ST_bind_eq.
  destruct (readto_loop_total (Z.to_nat n + 3) n 0 buf w) as (ok & buf' & w' & -> & Hl); [lia..|].
  do 3 eexists. split; [done|]. split; [done|]. destruct ok; auto.
Qed.

(** Every computation below is total: [total m] is [m] defined everywhere. *)
Definition total {A} (m : ST W A) : Prop := forall w, is_Some (m w).

Lemma total_bind {A B} (m : ST W A) (k : A -> ST W B) :
  total m -> (forall a, total (k a)) -> total (m ≫= k).
Proof. intros Hm Hk w. rewrite ST_bind_eq. destruct (Hm w) as [[a w'] ->]. apply Hk. Qed.
Lemma total_ret {A} (a : A) : total (mret a). Proof. by eexists. Qed.
Lemma total_op {A} (f : W -> A * W) : total (op f). Proof. by eexists. Qed.
Lemma total_pause us : total (pause us). Proof. by eexists. Qed.

(** A read into [buf] followed by anything that keeps within a buffer of its length. *)
Lemma total_read {B} buf n (k : Z * list Z -> ST W B) :
  0 <= n <= Z.of_nat (length buf) ->
  (forall r buf', length buf' = length buf -> total (k (r, buf'))) ->
  total (bp_serial_readto buf n ≫= k).
Proof.
  intros Hn Hk w. rewrite ST_bind_eq.
  destruct (readto_total buf n w Hn) as (r & buf' & w' & -> & Hl & _). by apply Hk.
Qed.

Ltac tot := repeat first
  [ apply total_ret | apply total_op | apply total_pause
  | apply total_bind; [|intros ?] | case_match ].

Lemma total_cmd c : total (bp_bitbang_cmd c).
Proof.
  unfold bp_bitbang_cmd. do 2 (apply total_bind; [tot|intros ?]).
  apply total_read; [cbn; lia|]. intros. tot.
Qed.

Ltac tot_cmd := repeat first
  [ apply total_cmd | apply total_ret | apply total_op | apply total_pause
  | apply total_bind; [|intros ?] | case_match ].

Lemma total_read_one reg : total (bp_bitbang_spi_read_one reg).
Proof.
  unfold bp_bitbang_spi_read_one. do 2 (apply total_bind; [tot|intros ?]).
  apply total_read; [cbn; lia|]. intros. tot.
Qed.

Lemma total_power_on : total bp_power_on.
Proof. unfold bp_power_on. tot_cmd. Qed.

Lemma total_spi_config : total bp_spi_config.
Proof. unfold bp_spi_config. tot_cmd. Qed.

Lemma enter_total tries i buf :
  length buf = 6%nat ->
  forall w, exists ok buf' w', enter_loop tries i buf w = Some ((ok, buf'), w') /\ length buf' = 6%nat.
Proof.
  revert i buf. induction tries as [|tries IH]; intros i buf Hb w; cbn [enter_loop].
  { by do 3 eexists. }
  rewrite ST_bind_eq, op_eq. destruct (sys_write [0] w) as [n w1]. destruct (negb (n =? 1)).
  { by do 3 eexists. }
  rewrite ST_bind_eq. unfold pause. rewrite op_eq, ST_bind_eq.
  destruct (readto_total buf 5 (usleep 1 w1)) as (r & buf' & w2 & -> & Hl & _); [lia|].
  rewrite Hb in Hl. repeat case_match; try (by do 3 eexists). by apply IH.
Qed.

Lemma total_enable junk : length junk = 6%nat -> total (bp_enable_binary_spi_mode junk).
Proof.
  intros Hj w. unfold bp_enable_binary_spi_mode. rewrite ST_bind_eq.
  destruct (enter_total MAX_TRIES 0 junk Hj w) as (ok & buf & w1 & -> & Hb).
  revert w1. destruct (negb ok); [by eexists|]. intros w1.
  refine (total_bind _ _ (total_op _) _ w1). intros n. case_match; [tot|].
  apply total_bind; [tot|intros ?]. apply total_read; [lia|]. intros. tot.
Qed.

Lemma total_dump todo r regval : 0 <= r -> total (dump_loop todo r regval).
Proof.
  revert r regval. induction todo as [|todo IH]; intros r regval Hr; cbn [dump_loop]; [tot|].
  do 2 (apply total_bind; [tot|intros ?]). apply total_read; [cbn; lia|]. intros n buf Hl.
  case_match; [tot|]. destruct buf as [|? [|v buf]]; [done|done|].
  apply total_bind; [by eexists|]. intros ?. apply IH. lia.
Qed.

Lemma total_setup `{TermiosFlags} speed : total (bp_setup_serial speed).
Proof. unfold bp_setup_serial. tot. Qed.

Lemma total_main `{TermiosFlags} speed junk skip : length junk = 6%nat -> total (dump_main speed junk skip).
Proof.
  intros Hj. unfold dump_main. apply total_bind; [apply total_setup|]. intros ok.
  apply total_bind; [destruct ok; [by apply total_enable|tot]|]. intros ok'.
  apply total_bind; [|intros ?; tot]. destruct ok'; [|tot].
  apply total_bind; [destruct skip; [tot|apply total_bind; [apply total_power_on|intros ?; tot]]|]. intros ?.
  apply total_bind; [apply total_spi_config|]. intros ?.
  apply total_bind; [tot|]. intros ?.
  apply total_bind; [destruct skip; unfold when; tot|]. intros ?.
  apply total_bind; [apply total_read_one|]. intros ?.
  apply total_bind; [apply total_dump; lia|]. intros ?. tot.
Qed.
End Total.
End Facts.

(** * An adapter that answers at once *)

(** [pending]: bytes sent by the adapter and not read yet; [spi_reg]: the
    registers of the chip behind it. The adapter answers a command to read a
    register with 1 and the register. *)
Class Adapter (W : Type) `{SerialPort W} := {
  pending : W -> list Z;
  spi_reg : W -> Z -> Z;
  read_prompt n w : 0 < n -> exists w',
    sys_read n w = (Some (take (Z.to_nat n) (pending w)), w')
    /\ pending w' = drop (Z.to_nat n) (pending w) /\ spi_reg w' = spi_reg w;
  read_command r w : pending w = [] -> exists k w',
    sys_write [0x04; 0; 1; 0; 1; r] w = (k, w')
    /\ pending w' = [0x1; spi_reg w r] /\ spi_reg w' = spi_reg w;
  usleep_quiet us w : pending (usleep us w) = pending w /\ spi_reg (usleep us w) = spi_reg w }.

Section Dump.
Context {W : Type} `{HP : SerialPort W} {HA : Adapter W}.

Lemma readto_two a b c1 c2 rest w :
  pending w = [a; b] -> exists w',
  bp_serial_readto (c1 :: c2 :: rest) 2 w = Some ((2, a :: b :: rest), w')
  /\ pending w' = [] /\ spi_reg w' = spi_reg w.
Proof.
  intros Hp. destruct (read_prompt 2 w ltac:(lia)) as (w' & E & Hp' & Hr). rewrite Hp in E, Hp'.
  change (take (Z.to_nat 2) [a; b]) with [a; b] in E. change (drop (Z.to_nat 2) [a; b]) with (@nil Z) in Hp'.
  exists w'. split; [|done]. unfold bp_serial_readto. rewrite ST_bind_eq.
  change (Z.to_nat 2 + 3)%nat with 5%nat. cbn [readto_loop]. cbn [Z.ltb Z.compare andb].
  rewrite ST_bind_eq, op_eq, E.
  rewrite ST_bind_eq. unfold lift_opt, store. rewrite decide_True by (cbn [length]; lia).
  cbn [fmap option_fmap option_map take drop length app Nat.add]. rewrite drop_0. done.
Qed.

Lemma dump_regs todo r regval w :
  pending w = [] -> 0 <= r -> (Z.to_nat r + todo <= length regval)%nat ->
  exists w', dump_loop todo r regval w
    = Some ((true, take (Z.to_nat r) regval
                   ++ ((fun i => spi_reg w (r + i)) <$> below todo)
                   ++ drop (Z.to_nat r + todo) regval), w')
    /\ pending w' = [].
Proof.
  revert r regval w. induction todo as [|todo IH]; intros r regval w Hp Hr Hl; cbn [dump_loop].
  { exists w. split; [|done]. rewrite Nat.add_0_r. cbn [below seq fmap list_fmap app].
    unfold below. cbn [seq fmap list_fmap app]. by rewrite take_drop. }
  rewrite ST_bind_eq, op_eq. destruct (read_command r w Hp) as (k & w1 & -> & Hp1 & Hr1).
  rewrite ST_bind_eq. unfold pause. rewrite op_eq.
  destruct (usleep_quiet (60 * 0x71) w1) as [Hq1 Hq2].
  destruct (readto_two 1 (spi_reg w r) 0x04 0 [1; 0; 1; r] (usleep (60 * 0x71) w1)) as (w2 & E2 & Hp2 & Hr2).
  { by rewrite Hq1, Hp1. }
  rewrite ST_bind_eq, E2. cbn [hd]. change (negb (2 =? 2) || negb (1 =? 1)) with false. cbn iota.
  rewrite ST_bind_eq. unfold lift_opt.
  cbn [lookup list_lookup fmap option_fmap option_map].
  destruct (IH (r + 1) (<[Z.to_nat r := spi_reg w r]> regval) w2 Hp2 ltac:(lia)
    ltac:(rewrite length_insert; lia)) as (w3 & E3 & Hp3).
  exists w3. split; [|done]. rewrite E3. f_equal. f_equal. f_equal.
  rewrite Hr2, Hq2, Hr1. replace (Z.to_nat (r + 1)) with (S (Z.to_nat r)) by lia.
  rewrite below_S, fmap_cons, <- list_fmap_compose.
  rewrite (take_S_r _ _ (spi_reg w r)) by (apply list_lookup_insert_eq; lia).
  rewrite take_insert_ge, drop_insert_lt by lia. rewrite <- app_assoc. cbn [app].
  rewrite Z.add_0_r. f_equal. f_equal. f_equal; [|f_equal; lia].
  apply list_fmap_ext. intros i x _. cbn. f_equal. lia.
Qed.
End Dump.

(** * Properties *)

(** Also: whatever the port answers, as long as [read] respects its count, the
    dump program ends without an access outside its buffers: every reading loop
    gives up after three empty reads and the mode is asked for at most 25 times. *)
Theorem dump_main_total {W} `{SerialPort W} `{TermiosFlags} speed junk skip w :
  reads_fit -> length junk = 6%nat -> is_Some (dump_main speed junk skip w).
Proof. intros Hfit Hj. by apply total_main. Qed.

(** Also: with an adapter that answers each command at once, [sx1276_dump] returns
    true with the value of every register from 0x00 to 0x70 in order. *)
Theorem dump_reads_registers {W} `{HP : SerialPort W} {HA : Adapter W} w :
  pending w = [] -> exists w',
  sx1276_dump w = Some ((true, spi_reg w <$> below 0x71), w').
Proof.
  intros Hp. destruct (dump_regs 0x71 0 (replicate 0x71 0x5a) w Hp ltac:(lia)) as (w' & E & _).
  { rewrite length_replicate. change (Z.to_nat 0) with O. lia. }
  exists w'. unfold sx1276_dump. rewrite E. f_equal.
Qed.

(** Also: [bp_serial_readto] stores every piece of a reply at the start of the
    buffer: when the two bytes of a register read arrive in two pieces, the
    value is lost; the read fails, or returns 0 when the register holds 1. *)
Theorem split_reply_misread {W} `{HP : SerialPort W} reg v w1 w2 w3 (w : W) k :
  sys_write [0x04; 0; 1; 0; 1; Z.land reg 0x7f] w = (k, w1) ->
  sys_read 2 (usleep 1000 w1) = (Some [0x1], w2) -> sys_read 1 w2 = (Some [v], w3) ->
  bp_bitbang_spi_read_one reg w = Some (if v =? 1 then Some 0 else None, w3).
Proof.
  intros Hw H2 H1. unfold bp_bitbang_spi_read_one. rewrite ST_bind_eq, op_eq, Hw.
  rewrite ST_bind_eq. unfold pause. rewrite op_eq, ST_bind_eq.
  unfold bp_serial_readto. rewrite ST_bind_eq.
  change (Z.to_nat 2 + 3)%nat with 5%nat. cbn [readto_loop]. cbn [Z.ltb Z.compare andb].
  rewrite ST_bind_eq, op_eq, H2, ST_bind_eq. unfold lift_opt at 1.
  match goal with |- context [store ?b 0 [1]] => change (store b 0 [1]) with (Some (1 :: drop 1 b)) end.
  cbn [fmap option_fmap option_map]. change (2 - Z.of_nat (length [1])) with 1.
  change (Z.of_nat (length [1]) =? 0) with false. cbn iota. cbn [Z.ltb Z.compare andb].
  rewrite ST_bind_eq, op_eq, H1, ST_bind_eq. unfold lift_opt at 1.
  match goal with |- context [store ?b 0 [v]] => change (store b 0 [v]) with (Some (v :: drop 1 b)) end.
  cbn [fmap option_fmap option_map drop]. change (1 - Z.of_nat (length [v])) with 0.
  cbn [readto_loop Z.ltb Z.compare andb]. unfold mret, ST_ret. cbn [hd].
  change (negb (2 =? 2)) with false. cbn [orb]. destruct (v =? 1); done.
Qed.

(** ** Witnesses *)

(** A port whose adapter has the registers [fun r => 2 * r]; [queue] waits to
    be read, and [slow] makes it deliver one byte at a time. *)
Record port := Port { queue : list Z; slow : bool }.

Definition port_read (n : Z) (w : port) : option (list Z) * port :=
  let k := if slow w then 1%nat else Z.to_nat n in
  (Some (take (min k (Z.to_nat n)) (queue w)), Port (drop (min k (Z.to_nat n)) (queue w)) (slow w)).
Definition port_write (bs : list Z) (w : port) : Z * port :=
  match bs with
  | [0x04; 0; 1; 0; 1; r] => (6, Port (queue w ++ [1; 2 * r]) (slow w))
  | _ => (Z.of_nat (length bs), w)
  end.

#[export] Instance port_serial : SerialPort port := {|
  sys_read := port_read; sys_write := port_write; usleep _ w := w;
  fcntl_blocking w := (true, w); tcgetattr w := (Some (Termios 0 0 0 0 0 0 0 0), w);
  tcflush w := (true, w); tcsetattr _ w := (true, w); sys_close w := w |}.

#[export] Instance linux_flags : TermiosFlags := {|
  CLOCAL := 0x800; CREAD := 0x80; PARENB := 0x100; CSTOPB := 0x40; CSIZE := 0x30; CS8 := 0x30;
  ICANON := 2; ECHO := 8; ECHOE := 16; ISIG := 1; IXON := 0x400; IXOFF := 0x1000; IXANY := 0x800;
  OPOST := 1 |}.

Lemma port_reads_fit : reads_fit (W := port).
Proof.
  intros n w bs w' Hn. cbn. unfold port_read. intros [= <- <-]. rewrite length_take. lia.
Defined.

Lemma dump_main_total_witness :
  is_Some (dump_main (W := port) 4098 (replicate 6 0) false (Port [] true)).
Proof. apply dump_main_total; [exact port_reads_fit|done]. Defined.

(** The prompt port, as a type of its own. *)
Definition prompt_port : Type := list Z.
#[export] Instance prompt_serial : SerialPort prompt_port := {|
  sys_read n w := (Some (take (Z.to_nat n) w), drop (Z.to_nat n) w);
  sys_write bs w := match bs with [0x04; 0; 1; 0; 1; r] => (6, w ++ [1; 2 * r]) | _ => (0, w) end;
  usleep _ w := w; fcntl_blocking w := (true, w);
  tcgetattr w := (Some (Termios 0 0 0 0 0 0 0 0), w); tcflush w := (true, w);
  tcsetattr _ w := (true, w); sys_close w := w |}.

#[export] Instance prompt_adapter : Adapter prompt_port.
Proof.
  refine (@Build_Adapter prompt_port prompt_serial (fun w => w) (fun _ r => 2 * r) _ _ _).
  - intros n w Hn. by eexists.
  - intros r w Hw. cbn in Hw. subst w. by do 2 eexists.
  - done.
Defined.

Lemma dump_reads_registers_witness : exists w',
  sx1276_dump (W := prompt_port) [] = Some ((true, (fun r => 2 * r) <$> below 0x71), w').
Proof.
  destruct (dump_reads_registers (W := prompt_port) [] ltac:(done)) as [w' E].
  exists w'. exact E.
Defined.

Lemma split_reply_misread_witness :
  bp_bitbang_spi_read_one (W := port) 0x42 (Port [] true) = Some (None, Port [] true).
Proof.
  apply (split_reply_misread 0x42 132 (Port [1; 132] true) (Port [132] true) (Port [] true) (Port [] true) 6);
    done.
Defined.
