(* ===== verification/Buses.v ===== *)
(** The two SPI buses of the gateway and its platforms:
    [src/software/sx1276/spidev_spi.cpp], [buspirate_spi.cpp],
    [sx1276_platform.cpp].

    The kernel's calls are classes: device files, spidev ioctls, GPIO lines.
    A method that only uses the file descriptor takes it as an argument.
    Messages and the trace flags, which only output uses, are left out. *)
From S2P Require Import Prelude BusPirate RadioLinux.

Class DeviceFiles (W : Type) := {
  sys_open : list Z -> W -> Z * W;      (* [-1]: cannot be opened *)
  close : Z -> W -> W }.

(** A transfer of a message: the buffer sent from, if any; whether a buffer is
    given to receive into; the length. *)
Record spi_ioc_transfer := Transfer { tx_buf : option (list Z); rx_buf : bool; len : Z }.

Inductive spi_setting := RD_MODE | RD_MODE32 | RD_LSB_FIRST | RD_BITS_PER_WORD | RD_MAX_SPEED_HZ.

Class SpiDev (W : Type) := {
  ioctl_rd : spi_setting -> Z -> W -> Z * W;   (* the value read is only printed *)
  (* The result and the bytes received into the start of the caller's buffer. *)
  spi_message : Z -> list spi_ioc_transfer -> W -> Z * list Z * W }.

(** GPIO lines; [false] is the NULL handle. *)
Class Gpio (W : Type) := {
  ugpio_request_one : Z -> W -> bool * W;
  ugpio_open : bool -> W -> Z * W;        (* the descriptor of the line's value *)
  ugpio_set_value : bool -> Z -> W -> W;
  ugpio_free : bool -> W -> W }.

(** [assert] *)
Definition assert_that {W} (b : bool) : ST W () := if b then mret () else undefined.

Definition op_ {W} (f : W -> W) : ST W () := fun w => Some ((), f w).

(** * The SPI device of the kernel (spidev_spi.cpp) *)
Module SpidevSPI.
Section Methods.
Context {W : Type} `{DeviceFiles W} `{SpiDev W} `{Clock W}.
Abbreviation M := (ST W).

Definition ConfigureSPI (fd_ : Z) : M bool :=
  r ← op (ioctl_rd RD_MODE fd_);
  if r <? 0 then mret false
  else
    r ← op (ioctl_rd RD_LSB_FIRST fd_);
    if r <? 0 then mret false
    else
      r ← op (ioctl_rd RD_BITS_PER_WORD fd_);
      if r <? 0 then mret false
      else
        r ← op (ioctl_rd RD_MAX_SPEED_HZ fd_);
        mret (negb (r <? 0)).

(** The return value and the new [fd_]. *)
Definition Open (fd_ : Z) (spidev : list Z) : M (bool * Z) :=
  assert_that (fd_ <? 0);;
  fd ← op (sys_open spidev);
  if fd =? -1 then mret (false, fd_)
  else
    ok ← ConfigureSPI fd;
    if (ok : bool) then mret (true, fd) else op_ (close fd);; mret (false, -1).

(** The return value and [result], which held [old]. *)
Definition ReadRegister (fd_ reg old : Z) : M (bool * Z) :=
  let buf := [Z.land reg 0x7f; 0; 0; 0] in
  let xfer := [Transfer (Some buf) false 1; Transfer None true 1] in
  '(status, rx) ← op (spi_message fd_ xfer);
  buf ← lift_opt (store buf 0 rx);
  op_ (RadioLinux.usleep 100);;
  if status <? 0 then mret (false, old)
  else if negb (status =? 2) then mret (false, old)
  else mret (true, hd 0 buf).

Definition WriteRegister (fd_ reg value : Z) : M bool :=
  let buf := [Z.lor reg 0x80; value; 0; 0] in
  let xfer := [Transfer (Some buf) false 2] in
  '(status, rx) ← op (spi_message fd_ xfer);
  op_ (RadioLinux.usleep 100);;
  if status <? 0 then mret false
  else if negb (status =? 2) then mret false
  else mret true.

Definition destructor (fd_ : Z) : M () := op_ (close fd_).

(** The driver's bus. The methods never fail when the kernel respects the
    length of a transfer (see [BusesFacts]), so the default is never used. *)
Definition bus (fd_ : Z) : SPI W := {|
  spi_ReadRegister reg old w := default (false, old, w) (ReadRegister fd_ reg old w);
  spi_WriteRegister reg x w := default (false, w) (WriteRegister fd_ reg x w) |}.
End Methods.
End SpidevSPI.

(** * The Bus Pirate (buspirate_spi.cpp) *)
Module BusPirateSPI.
Section Methods.
Context {W : Type} `{DeviceFiles W} `{SerialPort W} `{TermiosFlags}.
Variables (B115200 : Z) (junk : list Z).   (* the speed; an uninitialised buffer *)
Abbreviation M := (ST W).

Definition ConfigSerial : M bool := bp_setup_serial B115200.
Definition EnableBinaryMode : M bool := bp_enable_binary_spi_mode junk.
Definition ConfigSPI : M bool := bp_spi_config.
Definition Powerup : M bool := bp_power_on.

(** [a && b] of two calls. *)
Definition and_then (a b : M bool) : M bool := ok ← a; if (ok : bool) then b else mret false.

Definition Open (fd_ : Z) (ttydev : list Z) : M (bool * Z) :=
  assert_that (fd_ <? 0);;
  fd ← op (sys_open ttydev);
  if fd =? -1 then mret (false, fd_)
  else
    ok ← and_then ConfigSerial (and_then EnableBinaryMode (and_then Powerup ConfigSPI));
    if (ok : bool) then mret (true, fd) else op_ (close fd);; mret (false, -1).

Definition ReadRegister (reg old : Z) : M (bool * Z) :=
  BusPirate.pause 100;;
  r ← bp_bitbang_spi_read_one reg;
  mret (match (r : option Z) with Some x => (true, x) | None => (false, old) end).

Definition WriteRegister (reg value : Z) : M bool :=
  BusPirate.pause 100;;
  bp_bitbang_spi_write_one (Z.lor reg 0x80) value.

Definition destructor (fd_ : Z) : M () := when (-1 <? fd_) (op_ (close fd_)).

(** The driver's bus; the port's reads respect their length, so the defaults are
    never used (see [BusPirateFacts]). *)
Definition bus : SPI W := {|
  spi_ReadRegister reg old w := default (false, old, w) (ReadRegister reg old w);
  spi_WriteRegister reg x w := default (false, w) (WriteRegister reg x w) |}.
End Methods.
End BusPirateSPI.

(** * The platforms (sx1276_platform.cpp) *)
Inductive platform :=
  | BusPiratePlatform (fd_ : Z)
  | Carambola2Platform (fd_ : Z) (rst_gp_ : bool).

Definition rst_gpio_ := 18.

Section Platforms.
Context {W : Type} `{DeviceFiles W} `{SpiDev W} `{Clock W} `{Gpio W} `{SerialPort W} `{TermiosFlags}.
Variables (B115200 : Z) (junk : list Z).
Abbreviation M := (ST W).

Definition new_BusPiratePlatform (device : list Z) : M platform :=
  '(_, fd) ← BusPirateSPI.Open B115200 junk (-1) device;
  mret (BusPiratePlatform fd).

Definition new_Carambola2Platform (device : list Z) : M platform :=
  '(_, fd) ← SpidevSPI.Open (-1) device;
  rst_gp_ ← op (ugpio_request_one rst_gpio_);
  fd' ← op (ugpio_open rst_gp_);          (* [int fd], not used again *)
  mret (Carambola2Platform fd rst_gp_).

(** The destructor of the platform, then of the bus only it holds. *)
Definition delete (p : platform) : M () :=
  match p with
  | BusPiratePlatform fd => BusPirateSPI.destructor fd
  | Carambola2Platform fd rst_gp_ =>
      when rst_gp_ (op_ (ugpio_free rst_gp_));;
      SpidevSPI.destructor fd
  end.

(** [bp_power_cycle] may end without a return value. *)
Definition PowerSX1276 (powered : bool) (p : platform) : M bool :=
  match p with
  | BusPiratePlatform _ => if powered then bp_power_off else bp_power_on
  | Carambola2Platform _ _ => mret true
  end.
Definition PowerCycleSX1276 (p : platform) : M (option bool) :=
  match p with
  | BusPiratePlatform _ => bp_power_cycle
  | Carambola2Platform _ _ => mret (Some true)
  end.
Definition ResetSX1276 (p : platform) : M bool :=
  match p with
  | BusPiratePlatform _ => bp_cycle_reset
  | Carambola2Platform _ rst_gp_ =>
      op_ (ugpio_set_value rst_gp_ 0);;
      op_ (RadioLinux.usleep 1000);;
      op_ (ugpio_set_value rst_gp_ 1);;
      mret true
  end.

Definition GetSPI (p : platform) : Z :=
  match p with BusPiratePlatform fd => fd | Carambola2Platform fd _ => fd end.
Definition IsOpen (fd_ : Z) : bool := 0 <=? fd_.

Definition PFX_SPIDEV : list Z := str "/dev/spidev".

Definition GetInstance (device : list Z) : M (option platform) :=
  platform ← (if bool_decide (take (length PFX_SPIDEV) device = PFX_SPIDEV)
              then new_Carambola2Platform device else new_BusPiratePlatform device);
  if IsOpen (GetSPI platform) then mret (Some platform)
  else delete platform;; mret None.
End Platforms.
