(* ===== verification/BusesFacts.v ===== *)
(** The buses: the spidev bus is the bus the gateway's driver is proved over,
    and opening a platform neither leaks nor loses a file descriptor.

    Class [SpiWire] states what reaches the chip: the bytes of a message's
    transfers in order, the first byte a register number with its top bit set
    to write; [status] is the number of bytes exchanged. Class [FileTable] states
    which calls open and close descriptors. *)
From S2P Require Import Prelude Radio RadioFacts BusPirate BusPirateFacts RadioLinux RadioLinuxFacts Buses.

(** * The wire *)

(** The bytes a message clocks out: a transfer with nothing to send sends zeros. *)
Definition mosi_of (t : spi_ioc_transfer) : list Z :=
  match tx_buf t with
  | Some buf => take (Z.to_nat (len t)) buf
  | None => replicate (Z.to_nat (len t)) 0
  end.
Definition mosi (xs : list spi_ioc_transfer) : list Z := concat (mosi_of <$> xs).

(** The bytes clocked in that a message untouched. *)
Fixpoint kept (xs : list spi_ioc_transfer) (miso : list Z) : list Z :=
  match xs with
  | [] => []
  | t :: xs =>
      (if rx_buf t then take (Z.to_nat (len t)) miso else []) ++ kept xs (drop (Z.to_nat (len t)) miso)
  end.

(** A command and a data byte: a write when the command's top bit is set. *)
Definition exchange (command data : Z) (v : view) (miso : list Z) (v' : view) : Prop :=
  if Z.testbit command 7 then v' = chip_writes (Z.land command 0x7f) data v
  else exists status x, miso = [status; x] /\ fits 8 x /\ chip_reads command v x v'.

Class SpiWire (W : Type) `{SpiDev W} `{Clock W} (fd : Z) := {
  wire_view : W -> view;
  wire_time : W -> Z;
  wire_reliable : Prop;
  message_result xs w command data :
    mosi xs = [command; data] ->
    let '(status, rx, w') := spi_message fd xs w in
    wire_time w <= wire_time w' /\ (wire_reliable -> status = 2)
    /\ exists miso, length miso = 2%nat /\ rx = kept xs miso
         /\ if status =? 2 then exchange command data (wire_view w) miso (wire_view w')
            else wire_view w' = wire_view w;
  sleep_passes us w : 0 <= us ->
    wire_view (RadioLinux.usleep us w) = wire_view w
    /\ wire_time w + us <= wire_time (RadioLinux.usleep us w);
  clock_shows w :
    let '(t, w') := now w in
    t = wire_time w /\ wire_view w' = wire_view w /\ wire_time w <= wire_time w' }.

Lemma mask_id a : fits 7 a -> Z.land a 0x7f = a.
Proof. intros Ha. change 0x7f with (Z.ones 7). rewrite Z.land_ones by lia. by apply Z.mod_small. Qed.

Lemma top_bit_clear a : fits 7 a -> Z.testbit a 7 = false.
Proof. intros Ha. apply (fits_high_bits 7); [done|lia]. Qed.

Lemma top_bit_set a : Z.testbit (Z.lor a 0x80) 7 = true.
Proof. rewrite Z.lor_spec. apply orb_true_r. Qed.

Lemma command_register a : fits 7 a -> Z.land (Z.lor a 0x80) 0x7f = a.
Proof.
  intros Ha. change (Z.lor a 0x80) with (Z.lor a 128). rewrite Z.land_comm, Z.land_lor_distr_r.
  change (Z.land 127 128) with 0. rewrite Z.lor_0_r, Z.land_comm. by apply mask_id.
Qed.

Section Wire.
Context {W : Type} `{DeviceFiles W} `{HSD : SpiDev W} `{HK : Clock W} (fd : Z) {HW : SpiWire W fd}.

Lemma usleep_wire us w w0 : 0 <= us -> wire_time w0 <= wire_time w ->
  wire_view (RadioLinux.usleep us w) = wire_view w /\ wire_time w0 <= wire_time (RadioLinux.usleep us w).
Proof. intros Hu Ht. destruct (sleep_passes us w Hu) as [-> ?]. split; [done|lia]. Qed.

Lemma read_runs a old w :
  fits 7 a ->
  exists ok x w', SpidevSPI.ReadRegister fd a old w = Some ((ok, x), w')
    /\ (fits 8 old -> fits 8 x) /\ wire_time w <= wire_time w' /\ (wire_reliable -> ok = true)
    /\ (ok = false -> x = old)
    /\ if (ok : bool) then chip_reads a (wire_view w) x (wire_view w') else wire_view w' = wire_view w.
Proof.
  intros Ha. unfold SpidevSPI.ReadRegister. rewrite mask_id, ST_bind_eq, op_eq by done.
  set (xfer := [_; _]).
  pose proof (message_result xfer w a 0 eq_refl) as Hm.
  destruct (spi_message fd xfer w) as [[status rx] w1].
  destruct Hm as (Ht & Hr & [|g [|x []]] & Hl & -> & Hx); try done. clear Hl.
  change (kept xfer [g; x]) with [x]. rewrite ST_bind_eq.
  change (lift_opt (store [a; 0; 0; 0] 0 [x]) w1) with (Some ([x; 0; 0; 0], w1)). cbv beta iota.
  rewrite ST_bind_eq. unfold op_. cbv beta iota.
  destruct (usleep_wire 100 w1 w ltac:(lia) Ht) as [Hv Ht'].
  destruct (Z.eqb_spec status 2) as [->|Hn].
  - exists true, x, (RadioLinux.usleep 100 w1). split; [done|].
    unfold exchange in Hx. rewrite (top_bit_clear a Ha) in Hx.
    destruct Hx as (s & y & [= <- <-] & Hy & Hc). rewrite Hv. done.
  - exists false, old, (RadioLinux.usleep 100 w1).
    split; [by destruct (status <? 0)|]. rewrite Hv. split; [done|]. split; [done|].
    split; [intros HR; by apply Hr in HR|done].
Qed.

Lemma write_runs a x w :
  fits 7 a ->
  exists ok w', SpidevSPI.WriteRegister fd a x w = Some (ok, w')
    /\ wire_time w <= wire_time w' /\ (wire_reliable -> ok = true)
    /\ wire_view w' = if (ok : bool) then chip_writes a x (wire_view w) else wire_view w.
Proof.
  intros Ha. unfold SpidevSPI.WriteRegister. rewrite ST_bind_eq, op_eq.
  set (xfer := [_]).
  pose proof (message_result xfer w (Z.lor a 0x80) x eq_refl) as Hm.
  destruct (spi_message fd xfer w) as [[status rx] w1].
  destruct Hm as (Ht & Hr & miso & _ & _ & Hx). rewrite ST_bind_eq. unfold op_. cbv beta iota.
  destruct (usleep_wire 100 w1 w ltac:(lia) Ht) as [Hv Ht'].
  destruct (Z.eqb_spec status 2) as [->|Hn].
  - exists true, (RadioLinux.usleep 100 w1). split; [done|].
    unfold exchange in Hx. rewrite (top_bit_set a), (command_register a Ha) in Hx. rewrite Hv. done.
  - exists false, (RadioLinux.usleep 100 w1).
    split; [by destruct (status <? 0)|]. rewrite Hv. split; [done|].
    split; [intros HR; by apply Hr in HR|done].
Qed.

(** Time never goes back, whatever register is asked for. *)
Lemma read_time a old w :
  wire_time w <= wire_time (default (false, old, w) (SpidevSPI.ReadRegister fd a old w)).2.
Proof.
  unfold SpidevSPI.ReadRegister. rewrite ST_bind_eq, op_eq.
  set (xfer := [_; _]). pose proof (message_result xfer w (Z.land a 0x7f) 0 eq_refl) as Hm.
  destruct (spi_message fd xfer w) as [[status rx] w1]. destruct Hm as (Ht & _).
  destruct (usleep_wire 100 w1 w ltac:(lia) Ht) as [_ Ht'].
  rewrite ST_bind_eq. unfold lift_opt. destruct (store _ _ rx) as [buf|]; cbn [fmap option_fmap option_map]; [|cbn; lia].
  rewrite ST_bind_eq. unfold op_. cbv beta iota.
  destruct (_ <? _); [exact Ht'|]. destruct (negb _); exact Ht'.
Qed.
Lemma write_time a x w :
  wire_time w <= wire_time (default (false, w) (SpidevSPI.WriteRegister fd a x w)).2.
Proof.
  unfold SpidevSPI.WriteRegister. rewrite ST_bind_eq, op_eq.
  set (xfer := [_]). pose proof (message_result xfer w (Z.lor a 0x80) x eq_refl) as Hm.
  destruct (spi_message fd xfer w) as [[status rx] w1]. destruct Hm as (Ht & _).
  destruct (usleep_wire 100 w1 w ltac:(lia) Ht) as [_ Ht'].
  rewrite ST_bind_eq. unfold op_. cbv beta iota.
  destruct (_ <? _); [exact Ht'|]. destruct (negb _); exact Ht'.
Qed.

(** The driver's theorems hold over this bus. *)
Definition spidev_chip : @LinuxChip W (SpidevSPI.bus fd) HK.
Proof.
  refine (@Build_LinuxChip W (SpidevSPI.bus fd) HK wire_view wire_time wire_reliable _ _ _ _ _ _);
    cbn [spi_ReadRegister spi_WriteRegister SpidevSPI.bus].
  - intros a old w Ha. destruct (read_runs a old w Ha) as (ok & x & w' & -> & Hx). cbn. tauto.
  - intros a x w Ha. by destruct (write_runs a x w Ha) as (ok & w' & -> & Hx).
  - apply read_time.
  - apply write_time.
  - exact sleep_passes.
  - exact clock_shows.
Defined.
End Wire.

(** * File descriptors *)
Create HintDb untouched.

Lemma open_close (fd : Z) (s : gset Z) : fd ∉ s -> ({[fd]} ∪ s) ∖ {[fd]} = s.
Proof. intros Hn. rewrite difference_union_distr_l_L, difference_diag_L, (left_id_L _ _). apply difference_disjoint_L. set_solver. Qed.

(** [fds]: the descriptors of devices, that is those that [open] returned to the
    program and that it has not closed since. Those the GPIO and the socket
    libraries hold are not among them; a new descriptor is none in use. *)
Class FileTable (W : Type) `{DeviceFiles W} `{SpiDev W} `{Clock W} `{Gpio W} `{SerialPort W} := {
  fds : W -> gset Z;
  fds_valid w fd : fd ∈ fds w -> 0 <= fd;
  open_fds path w :
    let '(fd, w') := sys_open path w in
    (fd = -1 /\ fds w' = fds w) \/ (0 <= fd /\ (fd ∉ fds w) /\ fds w' = ({[fd]} ∪ fds w));
  close_fds fd w : fds (close fd w) = fds w ∖ {[fd]};
  ioctl_fds q fd w : fds (ioctl_rd q fd w).2 = fds w;
  message_fds fd xs w : fds (spi_message fd xs w).2 = fds w;
  sleep_fds us w : fds (RadioLinux.usleep us w) = fds w;
  now_fds w : fds (now w).2 = fds w;
  request_fds g w : fds (ugpio_request_one g w).2 = fds w;
  ugpio_open_fds g w : fds (ugpio_open g w).2 = fds w;
  ugpio_set_fds g x w : fds (ugpio_set_value g x w) = fds w;
  ugpio_free_fds g w : fds (ugpio_free g w) = fds w;
  read_fds n w : fds (sys_read n w).2 = fds w;
  write_fds bs w : fds (sys_write bs w).2 = fds w;
  serial_sleep_fds us w : fds (BusPirate.usleep us w) = fds w;
  fcntl_fds w : fds (fcntl_blocking w).2 = fds w;
  tcgetattr_fds w : fds (tcgetattr w).2 = fds w;
  tcflush_fds w : fds (tcflush w).2 = fds w;
  tcsetattr_fds t w : fds (tcsetattr t w).2 = fds w }.

Section Files.
Context {W : Type} `{HD : DeviceFiles W} `{HSD : SpiDev W} `{HK : Clock W} `{HG : Gpio W}
  `{HS : SerialPort W} `{HT : TermiosFlags} {HF : FileTable W}.

(** The computation opens and closes nothing. *)
Definition untouched {A} (m : ST W A) : Prop := forall s, keeps (fun w => fds w = s) m.

Lemma untouched_run {A} (m : ST W A) w a w' : untouched m -> m w = Some (a, w') -> fds w' = fds w.
Proof. intros Hm E. by apply (Hm (fds w) w a w'). Qed.
Lemma untouched_bind {A B} (m : ST W A) (k : A -> ST W B) :
  untouched m -> (forall a, untouched (k a)) -> untouched (m ≫= k).
Proof. intros Hm Hk s. apply keeps_bind; [apply Hm|]. intros a. apply Hk. Qed.
Lemma untouched_ret {A} (a : A) : untouched (mret a).
Proof. intros s. apply keeps_ret. Qed.
Lemma untouched_op {A} (f : W -> A * W) : (forall w, fds (f w).2 = fds w) -> untouched (op f).
Proof. intros Hf s w a w' <- [= E]. specialize (Hf w). by rewrite E in Hf. Qed.
Lemma untouched_op_ (f : W -> W) : (forall w, fds (f w) = fds w) -> untouched (op_ f).
Proof. intros Hf s w a w' <- [= _ <-]. done. Qed.
Lemma untouched_pause us : untouched (BusPirate.pause us).
Proof. apply untouched_op. intros w. apply serial_sleep_fds. Qed.
Lemma untouched_lift {A} (o : option A) : untouched (lift_opt o).
Proof. intros s. apply keeps_lift_opt. Qed.

Ltac keep :=
  repeat first
    [ solve [auto 1 with untouched nocore] | apply untouched_ret | apply untouched_pause | apply untouched_lift
    | apply untouched_op; first [apply ioctl_fds | apply request_fds | apply ugpio_open_fds | apply read_fds | apply write_fds
        | apply fcntl_fds | apply tcgetattr_fds | apply tcflush_fds | intros ?; apply tcsetattr_fds]
    | apply untouched_op; intros ?; apply message_fds
    | apply untouched_op_; intros ?; first [apply sleep_fds | apply ugpio_set_fds | apply ugpio_free_fds]
    | apply untouched_bind; [|intros ?]
    | match goal with
      | |- untouched (if ?b then _ else _) => destruct b
      | |- untouched (match ?x with _ => _ end) => destruct x
      end ].

Lemma untouched_readto buf n : untouched (bp_serial_readto buf n).
Proof.
  apply untouched_bind; [|intros [ok b]; keep].
  generalize (Z.to_nat n + 3)%nat. intros fuel. generalize 0 at 1. revert n buf.
  induction fuel as [|fuel IH]; intros n buf retry; cbn [readto_loop]; (destruct (_ && _); [|keep]).
  - intros s. apply keeps_undefined.
  - apply untouched_bind; [keep|]. intros [bs|]; [|keep]. apply untouched_bind; [keep|]. intros b. apply IH.
Qed.
#[local] Hint Resolve untouched_readto : untouched.

Lemma untouched_cmd c : untouched (bp_bitbang_cmd c).
Proof. unfold bp_bitbang_cmd. keep. Qed.
#[local] Hint Resolve untouched_cmd : untouched.

Lemma untouched_power_on : untouched bp_power_on.
Proof. unfold bp_power_on. keep. Qed.
#[local] Hint Resolve untouched_power_on : untouched.

Lemma untouched_spi_config : untouched bp_spi_config.
Proof. unfold bp_spi_config. keep. Qed.
#[local] Hint Resolve untouched_spi_config : untouched.

Lemma untouched_enter tries i buf : untouched (enter_loop tries i buf).
Proof.
  revert i buf. induction tries as [|tries IH]; intros i buf; cbn [enter_loop]; keep.
Qed.
#[local] Hint Resolve untouched_enter : untouched.

Lemma untouched_enable junk : untouched (bp_enable_binary_spi_mode junk).
Proof. unfold bp_enable_binary_spi_mode. keep. Qed.
#[local] Hint Resolve untouched_enable : untouched.

Lemma untouched_setup speed : untouched (bp_setup_serial speed).
Proof. unfold bp_setup_serial. keep. Qed.
#[local] Hint Resolve untouched_setup : untouched.

(** The buses' transactions and the platforms' resets. *)
Lemma untouched_transactions fd reg x :
  untouched (SpidevSPI.ReadRegister fd reg x) /\ untouched (SpidevSPI.WriteRegister fd reg x)
  /\ untouched (BusPirateSPI.ReadRegister reg x) /\ untouched (BusPirateSPI.WriteRegister reg x).
Proof.
  unfold SpidevSPI.ReadRegister, SpidevSPI.WriteRegister, BusPirateSPI.ReadRegister, BusPirateSPI.WriteRegister,
    bp_bitbang_spi_read_one, bp_bitbang_spi_write_one.
  split_and!; keep.
Qed.

Lemma untouched_reset p : untouched (ResetSX1276 p).
Proof. destruct p; unfold ResetSX1276, bp_cycle_reset; keep. Qed.

Lemma untouched_configure fd : untouched (SpidevSPI.ConfigureSPI fd).
Proof. unfold SpidevSPI.ConfigureSPI. keep. Qed.
#[local] Hint Resolve untouched_configure : untouched.

(** What [Open] leaves: nothing new, or the descriptor it returns. *)
Definition opened (s : gset Z) (fd : Z) (w' : W) : Prop :=
  (fd = -1 /\ fds w' = s) \/ (0 <= fd /\ (fd ∉ s) /\ fds w' = ({[fd]} ∪ s)).

Lemma open_then path (m : Z -> ST W bool) w r w' :
  (forall fd, untouched (m fd)) ->
  (fd ← op (sys_open path);
   if fd =? -1 then mret (false, -1)
   else ok ← m fd; if (ok : bool) then mret (true, fd) else op_ (close fd);; mret (false, -1)) w
  = Some (r, w') ->
  opened (fds w) (snd r) w'.
Proof.
  intros Hm. rewrite ST_bind_eq, op_eq. pose proof (open_fds path w) as Ho.
  destruct (sys_open path w) as [fd w1]. destruct (Z.eqb_spec fd (-1)) as [->|Hfd].
  - intros [= <- <-]. left. split; [done|]. by destruct Ho as [[_ ?]|[? _]].
  - destruct Ho as [[? _]|(Hge & Hnew & Hs)]; [done|].
    intros (ok & w2 & E & E')%ST_bind_Some. apply (untouched_run _ _ _ _ (Hm fd)) in E. destruct ok.
    + injection E' as <- <-. right. by rewrite E.
    + injection E' as <- <-. left. split; [done|]. rewrite close_fds, E, Hs. by apply open_close.
Qed.

Lemma open_spidev path w r w' :
  SpidevSPI.Open (-1) path w = Some (r, w') -> opened (fds w) (snd r) w'.
Proof. apply (open_then path SpidevSPI.ConfigureSPI). apply untouched_configure. Qed.

Lemma open_buspirate speed junk path w r w' :
  BusPirateSPI.Open speed junk (-1) path w = Some (r, w') -> opened (fds w) (snd r) w'.
Proof.
  apply (open_then path (fun _ => BusPirateSPI.and_then (BusPirateSPI.ConfigSerial speed)
    (BusPirateSPI.and_then (BusPirateSPI.EnableBinaryMode junk)
       (BusPirateSPI.and_then BusPirateSPI.Powerup BusPirateSPI.ConfigSPI)))).
  intros _. unfold BusPirateSPI.and_then, BusPirateSPI.ConfigSerial, BusPirateSPI.EnableBinaryMode,
    BusPirateSPI.Powerup, BusPirateSPI.ConfigSPI. keep.
Qed.

Lemma close_none w : fds (close (-1) w) = fds w.
Proof. rewrite close_fds. assert (-1 ∉ fds w) by (intros ?%fds_valid; lia).
  apply difference_disjoint_L. set_solver.
Qed.

Lemma delete_ends p w : exists w', delete p w = Some ((), w').
Proof.
  destruct p as [fd|fd []]; unfold delete, BusPirateSPI.destructor, SpidevSPI.destructor, when; [|by eexists..].
  destruct (-1 <? fd); by eexists.
Qed.

(** The descriptor of the bus is closed. *)
Lemma delete_closes p w w' s :
  0 <= GetSPI p -> (GetSPI p ∉ s) -> fds w = ({[GetSPI p]} ∪ s) -> delete p w = Some ((), w') -> fds w' = s.
Proof.
  intros Hp Hn Hw. rewrite <- (open_close _ _ Hn), <- Hw.
  destruct p as [fd|fd []]; cbn [GetSPI delete] in *; unfold BusPirateSPI.destructor, SpidevSPI.destructor, when, op_.
  - rewrite (proj2 (Z.ltb_lt (-1) fd)) by lia. intros [= <-]. apply close_fds.
  - cbn. intros [= <-]. by rewrite close_fds, ugpio_free_fds.
  - cbn. intros [= <-]. apply close_fds.
Qed.

Lemma delete_keeps p w w' :
  GetSPI p = -1 -> delete p w = Some ((), w') -> fds w' = fds w.
Proof.
  destruct p as [fd|fd []]; cbn [GetSPI delete]; intros ->; unfold BusPirateSPI.destructor,
    SpidevSPI.destructor, when, op_; cbn; intros [= <-]; try done;
    by rewrite close_none, ?ugpio_free_fds.
Qed.

(** ** Every platform opens or fails *)
Context (Hfit : reads_fit) (speed : Z) (junk : list Z) (Hjunk : length junk = 6%nat).

Lemma total_configure fd : total (SpidevSPI.ConfigureSPI fd).
Proof.
  unfold SpidevSPI.ConfigureSPI.
  repeat first [apply total_ret | apply total_bind; [apply total_op|intros ?] | case_match].
Qed.

Lemma total_open_spidev path : total (SpidevSPI.Open (-1) path).
Proof.
  unfold SpidevSPI.Open. apply total_bind; [apply total_ret|intros ?].
  apply total_bind; [apply total_op|intros fd]. destruct (fd =? -1); [apply total_ret|].
  apply total_bind; [apply total_configure|intros []]; [apply total_ret|by eexists].
Qed.

Lemma total_and_then (a b : ST W bool) : total a -> total b -> total (BusPirateSPI.and_then a b).
Proof. intros Ha Hb. apply total_bind; [done|]. intros []; [done|apply total_ret]. Qed.

Lemma total_open_buspirate path : total (BusPirateSPI.Open speed junk (-1) path).
Proof.
  unfold BusPirateSPI.Open. apply total_bind; [apply total_ret|intros ?].
  apply total_bind; [apply total_op|intros fd]. destruct (fd =? -1); [apply total_ret|].
  apply total_bind; [|intros []; [apply total_ret|by eexists]].
  repeat apply total_and_then;
    [apply total_setup|by apply total_enable|by apply total_power_on|by apply total_spi_config].
Qed.

(** A platform is made with the descriptor its bus was opened with. *)
Lemma made_platform device w :
  exists p w',
    (if bool_decide (take (length PFX_SPIDEV) device = PFX_SPIDEV)
     then new_Carambola2Platform device else new_BusPiratePlatform speed junk device) w
    = Some (p, w') /\ opened (fds w) (GetSPI p) w'.
Proof.
  destruct (bool_decide _).
  - unfold new_Carambola2Platform. destruct (total_open_spidev device w) as [[[ok fd] w1] E].
    rewrite ST_bind_eq, E, ST_bind_eq, op_eq. apply open_spidev in E.
    pose proof (request_fds rst_gpio_ w1) as Hr. destruct (ugpio_request_one rst_gpio_ w1) as [g w2].
    pose proof (ugpio_open_fds g w2) as Hg. rewrite ST_bind_eq, op_eq.
    destruct (ugpio_open g w2) as [fd' w3]. do 2 eexists. split; [done|]. cbn [GetSPI snd] in *.
    unfold opened in *. by rewrite Hg, Hr.
  - unfold new_BusPiratePlatform. destruct (total_open_buspirate device w) as [[[ok fd] w1] E].
    rewrite ST_bind_eq, E. apply open_buspirate in E. by do 2 eexists.
Qed.

Lemma get_instance device w :
  exists o w', GetInstance speed junk device w = Some (o, w')
    /\ match o with
       | Some p => 0 <= GetSPI p /\ (GetSPI p ∉ fds w) /\ fds w' = {[GetSPI p]} ∪ fds w
       | None => fds w' = fds w
       end.
Proof.
  unfold GetInstance. destruct (made_platform device w) as (p & w1 & E & Ho).
  rewrite ST_bind_eq, E. destruct Ho as [[Hp Hf]|(Hp & Hn & Hf)]; unfold IsOpen.
  - rewrite Hp. change (0 <=? -1) with false. cbv iota. rewrite ST_bind_eq.
    destruct (delete_ends p w1) as [w2 E2].
    rewrite E2. do 2 eexists. split; [done|]. cbn beta iota. rewrite <- Hf. by apply (delete_keeps p).
  - rewrite (proj2 (Z.leb_le _ _) Hp). by do 2 eexists.
Qed.
End Files.

(** * Properties *)

(** C34: over the kernel's spidev driver [ReadRegister] and [WriteRegister] are a
    register bus: a transaction that returns true reads or writes exactly that
    register of the chip, one that returns false leaves the chip and the
    caller's variable alone, and none fails when the kernel's messages do not. *)
Theorem spidev_refines_spi {W} `{HSD : SpiDev W} `{HK : Clock W} fd {HW : SpiWire W fd} a old x w :
  fits 7 a -> fits 8 old ->
  (exists ok y w', SpidevSPI.ReadRegister fd a old w = Some ((ok, y), w')
     /\ (wire_reliable -> ok = true)
     /\ if (ok : bool) then chip_reads a (wire_view w) y (wire_view w')
        else y = old /\ wire_view w' = wire_view w)
  /\ exists ok w', SpidevSPI.WriteRegister fd a x w = Some (ok, w')
       /\ (wire_reliable -> ok = true)
       /\ wire_view w' = if (ok : bool) then chip_writes a x (wire_view w) else wire_view w.
Proof.
  intros Ha Ho. split.
  - destruct (read_runs fd a old w Ha) as (ok & y & w' & E & _ & _ & Hr & Hy & Hx). exists ok, y, w'.
    split; [done|]. split; [done|]. destruct ok; [done|]. by split; [apply Hy|].
  - destruct (write_runs fd a x w Ha) as (ok & w' & E & _ & Hr & Hx). eauto 10.
Qed.

(** Also: [SX1276Platform::GetInstance] always ends. When it returns a platform
    the bus holds one newly opened descriptor; when it returns none every
    descriptor it opened has been closed. *)
Theorem get_instance_fds {W} `{HD : DeviceFiles W} `{HSD : SpiDev W} `{HK : Clock W} `{HG : Gpio W}
    `{HS : SerialPort W} `{HT : TermiosFlags} {HF : FileTable W} speed junk device w :
  reads_fit -> length junk = 6%nat ->
  exists o w', GetInstance speed junk device w = Some (o, w')
    /\ match o with
       | Some p => 0 <= GetSPI p /\ (GetSPI p ∉ fds w) /\ fds w' = {[GetSPI p]} ∪ fds w
       | None => fds w' = fds w
       end.
Proof.
  intros Hfit Hj. by apply get_instance.
Qed.

(** ** Witnesses *)

(** The chip of [RadioLinuxFacts] behind the kernel's driver. *)
Definition wired : Type := sim.
Definition wired_message (xs : list spi_ioc_transfer) (w : wired) : Z * list Z * wired :=
  match mosi xs with
  | [command; data] =>
      if Z.testbit command 7
      then (2, kept xs [0; 0], sim_next (chip_writes (Z.land command 0x7f) data (sim_view w)) w)
      else let '(x, v) := sim_read 8 command (sim_view w) in (2, kept xs [0; x], sim_next v w)
  | _ => (-1, [], w)
  end.
#[export] Instance wired_spidev : SpiDev wired := {|
  ioctl_rd _ _ w := (0, w); spi_message _ xs w := wired_message xs w |}.
#[export] Instance wired_clock : Clock wired := sim_clock.

#[export] Instance wired_wire fd : SpiWire wired fd.
Proof.
  refine (@Build_SpiWire wired wired_spidev wired_clock fd sim_view sim_time True _ _ _).
  - intros xs w command data E. cbn [spi_message wired_spidev]. unfold wired_message. rewrite E.
    unfold exchange. destruct (Z.testbit command 7).
    + cbn [sim_time sim_next]. split; [lia|]. split; [done|]. by exists [0; 0].
    + pose proof (sim_read_ok 8 (bool_decide_unpack (fits 8 8) I) command (sim_view w)) as [Hx Hc].
      destruct (sim_read 8 command (sim_view w)) as [x v]. cbn [fst snd sim_time sim_next sim_view] in *.
      split; [lia|]. split; [done|]. exists [0; x]. split; [done|]. split; [done|].
      change (2 =? 2) with true. cbn iota. by exists 0, x.
  - intros us w Hu. cbn. split; [done|lia].
  - intros w. cbn. split; [done|]. split; [done|lia].
Defined.

Definition at_bus (v : view) : wired := Sim v 0 [].

Lemma spidev_refines_spi_witness :
  (exists ok y w', SpidevSPI.ReadRegister (W := wired) 5 0x39 9 (at_bus blank) = Some ((ok, y), w')
     /\ (True -> ok = true)
     /\ if (ok : bool) then chip_reads 0x39 blank y (sim_view w') else y = 9 /\ sim_view w' = blank)
  /\ exists ok w', SpidevSPI.WriteRegister (W := wired) 5 0x39 7 (at_bus blank) = Some (ok, w')
       /\ (True -> ok = true)
       /\ sim_view w' = if (ok : bool) then chip_writes 0x39 7 blank else blank.
Proof.
  exact (spidev_refines_spi (W := wired) 5 0x39 9 7 (at_bus blank)
    (bool_decide_unpack (fits 7 0x39) I) (bool_decide_unpack (fits 8 9) I)).
Defined.

(** A machine that opens one descriptor, number 3; nobody answers its serial port. *)
Definition desk : Type := gset Z.
#[export] Instance desk_files : DeviceFiles desk := {|
  sys_open _ w := if decide (3 ∈ w) then (-1, w) else (3, {[3]} ∪ w);
  close fd w := w ∖ {[fd]} |}.
#[export] Instance desk_spidev : SpiDev desk := {|
  ioctl_rd _ _ w := (0, w); spi_message _ _ w := (-1, [], w) |}.
#[export] Instance desk_clock : Clock desk := {| RadioLinux.usleep _ w := w; now w := (0, w) |}.
#[export] Instance desk_gpio : Gpio desk := {|
  ugpio_request_one _ w := (true, w); ugpio_open _ w := (4, w); ugpio_set_value _ _ w := w; ugpio_free _ w := w |}.
#[export] Instance desk_serial : SerialPort desk := {|
  sys_read _ w := (Some [], w); sys_write bs w := (Z.of_nat (length bs), w); BusPirate.usleep _ w := w;
  fcntl_blocking w := (true, w); tcgetattr w := (None, w); tcflush w := (true, w);
  tcsetattr _ w := (true, w); sys_close w := w |}.

Lemma adds_descriptor fd (s : gset Z) :
  0 <= fd -> filter (fun fd => 0 <= fd) ({[fd]} ∪ s) = {[fd]} ∪ filter (fun fd => 0 <= fd) s.
Proof.
  intros Hfd. apply set_eq. intros x. rewrite elem_of_union, !elem_of_filter, elem_of_union, elem_of_singleton.
  intuition (subst; lia).
Qed.

(** The descriptors of a desk: the non-negative ones. *)
#[export] Instance desk_table : FileTable desk.
Proof.
  refine (@Build_FileTable desk _ _ _ _ _ (filter (fun fd => 0 <= fd)) _ _ _ _ _ _ _ _ _ _ _ _ _ _ _ _ _ _);
    try done.
  - intros w fd. rewrite elem_of_filter. by intros [? _].
  - intros path w. cbn. destruct (decide (3 ∈ w)) as [|Hn]; [by left|right].
    split; [lia|]. rewrite elem_of_filter. split; [by intros [_ ?]|].
    apply (adds_descriptor 3 w). lia.
  - intros fd w. apply set_eq. intros x. cbn.
    rewrite elem_of_difference, !elem_of_filter, elem_of_difference. tauto.
Defined.

Lemma get_instance_fds_witness :
  exists o w', GetInstance (W := desk) 4098 (replicate 6 0) (str "/dev/spidev0.0") ∅ = Some (o, w')
    /\ match o with
       | Some p => 0 <= GetSPI p /\ (GetSPI p ∉ fds (W := desk) ∅) /\ fds w' = ({[GetSPI p]} ∪ fds (W := desk) ∅)
       | None => fds w' = fds (W := desk) ∅
       end.
Proof.
  apply (get_instance_fds (W := desk)); [|done]. intros n w bs w' Hn [= <- <-]. cbn. lia.
Defined.

(** The spidev device opens, the silent Bus Pirate does not. *)
Example desk_platforms :
  (fst <$> GetInstance (W := desk) 4098 (replicate 6 0) (str "/dev/spidev0.0") ∅) = Some (Some (Carambola2Platform 3 true))
  /\ (fst <$> GetInstance (W := desk) 4098 (replicate 6 0) (str "/dev/ttyUSB0") ∅) = Some None.
Proof. vm_compute. done. Qed.
