(* ===== verification/FifoBridge.v ===== *)
(** The bridge between UDP and a pair of pipes:
    [src/software/sx1276/fifo_mqttsn_bridge.cpp].

    Two threads share the address of the last client under a mutex. Each thread
    is its program point with the locals alive there; a step of [out_step] or
    [in_step] is one call or one access to the shared strings, and an [event] is
    whose step it is and what the call returned. Output is left out. *)
From S2P Require Import Prelude.

Inductive thread := OutThread | InThread.
#[export] Instance thread_eq_dec : EqDecision thread.
Proof. solve_decision. Defined.

Abbreviation text := (list Z).

(** [OutLoop], with [Update] in line. *)
Inductive out_point :=
  | O_rcvfrom
  | O_lock (buffer : list Z) (ip port : text)
  | O_ip (buffer : list Z) (ip port : text)
  | O_port (buffer : list Z) (ip port : text)
  | O_unlock (buffer : list Z)
  | O_write (p : list Z)          (* the [n] bytes left *)
  | O_return.

(** [InLoop], with [Get] in line. *)
Inductive in_point :=
  | I_read
  | I_lock (buffer : list Z)
  | I_ip (buffer : list Z)
  | I_port (buffer : list Z) (ip : text)
  | I_unlock (buffer : list Z) (ip port : text)
  | I_sndto (buffer : list Z) (ip port : text).

Record bridge := Bridge {
  from_ip : text;
  from_port : text;
  mx : option thread;
  out : out_point;
  inp : in_point;
  fifo : list Z;                              (* the bytes [fd_out] accepted *)
  network : list (list Z * (text * text)) }.  (* the datagrams [srv_] sent *)

Definition initial : bridge := Bridge [] [] None O_rcvfrom I_read [] [].

Inductive event :=
  | Rcvfrom (buffer : list Z) (ip port : text)   (* empty when it returned no positive length *)
  | Rcvfrom_throws
  | Step_out
  | Write (r : Z)
  | Read (r : option (list Z))
  | Step_in
  | Sndto (thrown : bool).

Definition BUFFER : nat := 512.

Definition out_at (p : out_point) (s : bridge) : bridge :=
  Bridge (from_ip s) (from_port s) (mx s) p (inp s) (fifo s) (network s).
Definition in_at (p : in_point) (s : bridge) : bridge :=
  Bridge (from_ip s) (from_port s) (mx s) (out s) p (fifo s) (network s).
Definition with_mx (m : option thread) (s : bridge) : bridge :=
  Bridge (from_ip s) (from_port s) m (out s) (inp s) (fifo s) (network s).
Definition with_from (ip port : text) (s : bridge) : bridge :=
  Bridge ip port (mx s) (out s) (inp s) (fifo s) (network s).
Definition with_fifo (l : list Z) (s : bridge) : bridge :=
  Bridge (from_ip s) (from_port s) (mx s) (out s) (inp s) l (network s).
Definition with_network l (s : bridge) : bridge :=
  Bridge (from_ip s) (from_port s) (mx s) (out s) (inp s) (fifo s) l.

(** Taking the mutex; [None]: the thread waits. *)
Definition lock (t : thread) (s : bridge) : option bridge :=
  match mx s with None => Some (with_mx (Some t) s) | Some _ => None end.

Definition writing (p : list Z) : out_point := match p with [] => O_rcvfrom | _ => O_write p end.

(** [None]: the event is not one of the thread at its point. *)
Definition out_step (e : event) (s : bridge) : option bridge :=
  match out s, e with
  | O_rcvfrom, Rcvfrom buffer ip port =>
      if decide (length buffer <= BUFFER)%nat then
        Some (match buffer with [] => s | _ => out_at (O_lock buffer ip port) s end)
      else None
  | O_rcvfrom, Rcvfrom_throws => Some (out_at O_return s)
  | O_lock buffer ip port, Step_out => out_at (O_ip buffer ip port) <$> lock OutThread s
  | O_ip buffer ip port, Step_out => Some (out_at (O_port buffer ip port) (with_from ip (from_port s) s))
  | O_port buffer ip port, Step_out => Some (out_at (O_unlock buffer) (with_from (from_ip s) port s))
  | O_unlock buffer, Step_out => Some (out_at (O_write buffer) (with_mx None s))
  | O_write p, Write r =>
      if 0 <? r then
        if r <=? Z.of_nat (length p) then
          Some (out_at (writing (drop (Z.to_nat r) p)) (with_fifo (fifo s ++ take (Z.to_nat r) p) s))
        else None
      else if r =? 0 then Some s else Some (out_at O_return s)
  | _, _ => None
  end.

Definition in_step (e : event) (s : bridge) : option bridge :=
  match inp s, e with
  | I_read, Read None => Some s
  | I_read, Read (Some buffer) =>
      if decide (length buffer <= BUFFER)%nat then
        Some (match buffer with [] => s | _ => in_at (I_lock buffer) s end)
      else None
  | I_lock buffer, Step_in => in_at (I_ip buffer) <$> lock InThread s
  | I_ip buffer, Step_in => Some (in_at (I_port buffer (from_ip s)) s)
  | I_port buffer ip, Step_in => Some (in_at (I_unlock buffer ip (from_port s)) s)
  | I_unlock buffer ip port, Step_in => Some (in_at (I_sndto buffer ip port) (with_mx None s))
  | I_sndto buffer ip port, Sndto thrown =>
      Some (in_at I_read
        (if thrown then s else with_network (network s ++ [(buffer, (ip, port))]) s))
  | _, _ => None
  end.

Definition step (e : event) (s : bridge) : option bridge :=
  match e with
  | Read _ | Step_in | Sndto _ => in_step e s
  | _ => out_step e s
  end.

(** An interleaving, from the state [s]. *)
Fixpoint run (es : list event) (s : bridge) : option bridge :=
  match es with
  | [] => Some s
  | e :: es => s ← step e s; run es s
  end.

(** [main] up to the threads: the arguments are checked; [port] is [atoi(argv[2])]. *)
Definition arguments_ok (argc port : Z) : bool := negb (argc <? 5) && negb (port <? 1).
