(* ===== verification/FifoBridgeFacts.v ===== *)
(** The bridge between UDP and pipes: every interleaving of its two threads.

    [trace es s]: the events [es] lead from the initial state to [s]. The
    invariants are proved by induction on it: who holds the mutex, which address
    the shared strings hold, and how far each direction has got. *)
From S2P Require Import Prelude FifoBridge.

Inductive trace : list event -> bridge -> Prop :=
  | trace_start : trace [] initial
  | trace_step es s e s' : trace es s -> step e s = Some s' -> trace (es ++ [e]) s'.

Lemma run_app es es' s : run (es ++ es') s = run es s ≫= run es'.
Proof. revert s. induction es as [|e es IH]; intros s; cbn; [done|]. by destruct (step e s); cbn. Qed.

Lemma run_trace es s : run es initial = Some s -> trace es s.
Proof.
  revert s. induction es as [|e es IH] using rev_ind; intros s.
  - intros [= <-]. constructor.
  - rewrite run_app. destruct (run es initial) as [s0|] eqn:E; [|done]. cbn.
    destruct (step e s0) as [s1|] eqn:Es; [|done]. intros [= <-]. econstructor; [by apply IH|done].
Qed.

(** * What the environment gave and took *)
Definition datagram (e : event) : option (list Z * (text * text)) :=
  match e with Rcvfrom (b :: l) ip port => Some (b :: l, (ip, port)) | _ => None end.
Definition chunk (e : event) : option (list Z) :=
  match e with Read (Some (b :: l)) => Some (b :: l) | _ => None end.
Definition received (es : list event) : list (list Z * (text * text)) := omap datagram es.
Definition addresses (es : list event) : list (text * text) := snd <$> received es.
Definition chunks (es : list event) : list (list Z) := omap chunk es.

(** The address of the last of some datagrams; the strings start empty. *)
Definition latest (l : list (text * text)) : text * text := default ([], []) (last l).

(** An address that was the latest at some time. *)
Definition seen (es : list event) (a : text * text) : Prop :=
  exists l, l `prefix_of` addresses es /\ a = latest l.

Lemma received_snoc es e : received (es ++ [e]) = received es ++ option_list (datagram e).
Proof. unfold received. rewrite omap_app. cbn. by destruct (datagram e). Qed.

Lemma chunks_snoc es e : chunks (es ++ [e]) = chunks es ++ option_list (chunk e).
Proof. unfold chunks. rewrite omap_app. cbn. by destruct (chunk e). Qed.

Lemma addresses_snoc es e : addresses (es ++ [e]) = addresses es ++ (snd <$> option_list (datagram e)).
Proof. unfold addresses. by rewrite received_snoc, fmap_app. Qed.

Lemma addresses_same es e : datagram e = None -> addresses (es ++ [e]) = addresses es.
Proof. intros E. rewrite addresses_snoc, E. apply app_nil_r. Qed.

Lemma seen_snoc es e a : seen es a -> seen (es ++ [e]) a.
Proof.
  intros (l & Hl & ->). exists l. split; [|done]. rewrite addresses_snoc.
  by apply prefix_app_r.
Qed.

Lemma latest_snoc l a : latest (l ++ [a]) = a.
Proof. unfold latest. by rewrite last_snoc. Qed.

(** * Who holds the mutex *)
Definition out_holds (p : out_point) : bool :=
  match p with O_ip _ _ _ | O_port _ _ _ | O_unlock _ => true | _ => false end.
Definition in_holds (p : in_point) : bool :=
  match p with I_ip _ | I_port _ _ | I_unlock _ _ _ => true | _ => false end.

Definition exclusive (s : bridge) : Prop :=
  (out_holds (out s) && in_holds (inp s)) = false
  /\ mx s = if out_holds (out s) then Some OutThread
            else if in_holds (inp s) then Some InThread else None.

Ltac step_cases :=
  repeat match goal with
  | H : context [match ?x with _ => _ end] |- _ => destruct x eqn:?; try discriminate H
  end.

Lemma lock_Some t s s' : lock t s = Some s' -> mx s = None /\ s' = with_mx (Some t) s.
Proof. unfold lock. destruct (mx s); [done|]. by intros [= <-]. Qed.

Ltac step_inv :=
  step_cases;
  repeat match goal with
  | H : _ <$> _ = Some _ |- _ => apply fmap_Some in H as (? & [? ->]%lock_Some & ->)
  | H : Some _ = Some _ |- _ => injection H as <-
  end.

Lemma exclusive_step e s s' : exclusive s -> step e s = Some s' -> exclusive s'.
Proof.
  intros [Hx Hm] E. unfold exclusive.
  destruct e; cbn [step] in E; unfold out_step, in_step in E; step_inv;
    destruct s; cbn in *; subst; cbn in *; try done; unfold writing; repeat case_match; done.
Qed.

Lemma trace_exclusive es s : trace es s -> exclusive s.
Proof. induction 1; [done|]. by eapply exclusive_step. Qed.

(** * The shared address *)
Definition here (s : bridge) : text * text := (from_ip s, from_port s).

(** The strings hold the latest address, or are on the way to it. *)
Definition out_address (es : list event) (s : bridge) : Prop :=
  match out s with
  | O_lock _ ip port | O_ip _ ip port =>
      exists l, addresses es = l ++ [(ip, port)] /\ here s = latest l
  | O_port _ ip port => from_ip s = ip /\ latest (addresses es) = (ip, port)
  | _ => here s = latest (addresses es)
  end.

Definition in_address (es : list event) (s : bridge) : Prop :=
  match inp s with
  | I_port _ ip => ip = from_ip s
  | I_unlock _ ip port => (ip, port) = here s
  | I_sndto _ ip port => seen es (ip, port)
  | _ => True
  end.

Definition addressed (es : list event) (s : bridge) : Prop :=
  out_address es s /\ in_address es s /\ Forall (fun d => seen es d.2) (network s).

(** Between updates the strings hold an address that was the latest. *)
Lemma here_seen es s : out_holds (out s) = false -> out_address es s -> seen es (here s).
Proof.
  unfold out_address. intros Ho.
  destruct (out s); try done; try (intros ->; by eexists).
  intros (l & E & ->). exists l. split; [|done]. rewrite E. by apply prefix_app_r.
Qed.

Lemma out_address_step es e s s' :
  exclusive s -> addressed es s -> out_step e s = Some s' -> addressed (es ++ [e]) s'.
Proof.
  intros [Hx Hm] (Ho & Hi & Hn) E. unfold addressed.
  assert (Forall (fun d => seen (es ++ [e]) d.2) (network s)) as Hn'
    by (eapply Forall_impl; [exact Hn|]; intros d; apply seen_snoc).
  assert (in_address (es ++ [e]) s) as Hi'
    by (unfold in_address in *; destruct (inp s); try done; by apply seen_snoc).
  unfold out_step in E. destruct (out s) as [|b ip port|b ip port|b ip port|b|p|] eqn:Eo; destruct e; try done.
  - destruct (decide _); [|done]. injection E as <-. unfold out_address in *. rewrite Eo in Ho.
    destruct buffer as [|x buffer].
    + by rewrite Eo, addresses_same.
    + cbn. split; [|done]. exists (addresses es). by rewrite addresses_snoc.
  - injection E as <-. unfold out_address in *. rewrite Eo in Ho. cbn. by rewrite addresses_same.
  - apply fmap_Some in E as (s1 & [Hf ->]%lock_Some & ->). unfold out_address in *. rewrite Eo in Ho.
    cbn. by rewrite addresses_same.
  - injection E as <-. unfold out_address in *. rewrite Eo in Ho. destruct Ho as (l & El & _).
    cbn. rewrite addresses_same, El, latest_snoc by done. split; [done|]. split; [|done].
    cbn in Hx, Hm. unfold in_address in *. cbn. destruct (inp s); done.
  - injection E as <-. unfold out_address in *. rewrite Eo in Ho. destruct Ho as [Hip El].
    cbn. rewrite addresses_same by done. unfold here. cbn. rewrite Hip. split; [done|]. split; [|done].
    cbn in Hx, Hm. unfold in_address in *. cbn. destruct (inp s); done.
  - injection E as <-. unfold out_address in *. rewrite Eo in Ho. cbn. by rewrite addresses_same.
  - assert (out_address (es ++ [Write r]) s /\ here s = latest (addresses (es ++ [Write r]))) as [Ha Hl].
    { unfold out_address in *. rewrite Eo in *. by rewrite addresses_same. }
    destruct (0 <? r); [|destruct (r =? 0)]; [destruct (r <=? _); [|done]|..]; injection E as <-; [|done..].
    split; [|done]. unfold out_address, writing. cbn. by destruct (drop _ p).
Qed.

Lemma in_address_step es e s s' :
  exclusive s -> addressed es s -> in_step e s = Some s' -> addressed (es ++ [e]) s'.
Proof.
  intros [Hx Hm] (Ho & Hi & Hn) E. unfold addressed.
  assert (Forall (fun d => seen (es ++ [e]) d.2) (network s)) as Hn'
    by (eapply Forall_impl; [exact Hn|]; intros d; apply seen_snoc).
  assert (datagram e = None) as Hd by (unfold in_step in E; by destruct (inp s), e).
  assert (out_address (es ++ [e]) s) as Ho' by (unfold out_address; by rewrite addresses_same).
  unfold in_step in E. unfold in_address in *.
  destruct (inp s) as [|b|b|b ip|b ip port|b ip port] eqn:Ei; destruct e; try done.
  - destruct r as [buffer|]; [destruct (decide _); [|done]|]; injection E as <-; [|by rewrite Ei].
    destruct buffer; [by rewrite Ei|done].
  - apply fmap_Some in E as (s1 & [Hf ->]%lock_Some & ->). done.
  - by injection E as <-.
  - injection E as <-. cbn. split; [done|]. split; [|done]. by subst ip.
  - injection E as <-. cbn. split; [done|]. split; [|done]. rewrite Hi. apply seen_snoc.
    apply here_seen; [|done]. rewrite andb_true_r in Hx. done.
  - injection E as <-. destruct thrown; cbn; (split; [done|]); (split; [done|]); [done|].
    apply Forall_app. split; [done|]. constructor; [by apply seen_snoc|done].
Qed.

Lemma trace_addressed es s : trace es s -> addressed es s.
Proof.
  induction 1 as [|es s e s' Ht IH E].
  - split; [done|]. split; [done|constructor].
  - pose proof (trace_exclusive _ _ Ht) as Hx.
    destruct e; cbn [step] in E; first [by eapply out_address_step | by eapply in_address_step].
Qed.

(** * What got through *)

(** The bytes of the datagram being relayed that are not written yet. *)
Definition out_left (p : out_point) : list Z :=
  match p with
  | O_lock b _ _ | O_ip b _ _ | O_port b _ _ | O_unlock b | O_write b => b
  | O_rcvfrom | O_return => []
  end.

Definition bytes_of (es : list event) : list Z := concat (fst <$> received es).

Lemma bytes_of_snoc es e : bytes_of (es ++ [e]) = bytes_of es ++ concat (fst <$> option_list (datagram e)).
Proof. unfold bytes_of. by rewrite received_snoc, fmap_app, concat_app. Qed.

(** While the thread runs, what it wrote and what it still has to write is what
    came in; after a failure a beginning of it was written. *)
Definition relayed (es : list event) (s : bridge) : Prop :=
  match out s with
  | O_return => fifo s `prefix_of` bytes_of es
  | p => fifo s ++ out_left p = bytes_of es
  end.

Lemma relayed_prefix es s : relayed es s -> fifo s `prefix_of` bytes_of es.
Proof. unfold relayed. destruct (out s); try done; intros H; eexists; symmetry; exact H. Qed.

Lemma relayed_same es e s s' :
  datagram e = None -> out s' = out s -> fifo s' = fifo s -> relayed es s -> relayed (es ++ [e]) s'.
Proof.
  intros Hd Ho Hf. assert (bytes_of (es ++ [e]) = bytes_of es) as Hb
    by (rewrite bytes_of_snoc, Hd; apply app_nil_r).
  unfold relayed. by rewrite Ho, Hf, Hb.
Qed.

Lemma in_step_out e s s' : in_step e s = Some s' -> datagram e = None /\ out s' = out s /\ fifo s' = fifo s.
Proof.
  unfold in_step. intros E. destruct (inp s), e; try done; step_inv; done.
Qed.

Lemma relayed_step es e s s' : relayed es s -> step e s = Some s' -> relayed (es ++ [e]) s'.
Proof.
  intros Hr E. assert (out_step e s = Some s' \/ in_step e s = Some s') as [E'|E']
    by (destruct e; auto); [|apply in_step_out in E' as (? & ? & ?); by eapply relayed_same].
  clear E. pose proof (relayed_prefix _ _ Hr) as Hp. pose proof Hr as Hl. unfold relayed in Hl.
  assert (datagram e = None -> bytes_of (es ++ [e]) = bytes_of es) as Hb
    by (intros Hd; rewrite bytes_of_snoc, Hd; apply app_nil_r).
  unfold out_step in E'.
  destruct (out s) as [|b ip port|b ip port|b ip port|b|p|] eqn:Eo; destruct e; try done;
    cbn [out_left] in Hl.
  - destruct (decide _); [|done]. injection E' as <-. destruct buffer as [|x buffer].
    + by apply (relayed_same _ _ s).
    + unfold relayed. cbn [out out_at fifo out_left]. rewrite bytes_of_snoc. cbn.
      rewrite app_nil_r in Hl |- *. by rewrite Hl.
  - injection E' as <-. unfold relayed. cbn [out out_at fifo]. by rewrite Hb.
  - apply fmap_Some in E' as (s1 & [_ ->]%lock_Some & ->). unfold relayed. cbn. by rewrite Hb.
  - injection E' as <-. unfold relayed. cbn. by rewrite Hb.
  - injection E' as <-. unfold relayed. cbn. by rewrite Hb.
  - injection E' as <-. unfold relayed. cbn. by rewrite Hb.
  - destruct (0 <? r); [|destruct (r =? 0)]; [destruct (r <=? _); [|done]|..]; injection E' as <-;
      [|by apply (relayed_same _ _ s)|unfold relayed; cbn; by rewrite Hb].
    unfold relayed. cbn [out out_at fifo with_fifo]. rewrite Hb, <- Hl by done.
    pose proof (take_drop (Z.to_nat r) p) as Et.
    unfold writing. destruct (drop (Z.to_nat r) p); cbn [out_left]; rewrite <- app_assoc; by f_equal.
Qed.

Lemma trace_relayed es s : trace es s -> relayed es s.
Proof. induction 1; [done|]. by eapply relayed_step. Qed.

(** ** Towards the network *)
Definition in_left (p : in_point) : list (list Z) :=
  match p with
  | I_read => []
  | I_lock b | I_ip b | I_port b _ | I_unlock b _ _ | I_sndto b _ _ => [b]
  end.

(** The datagrams sent are chunks read, in order, without those [sndto] refused. *)
Definition delivered (es : list event) (s : bridge) : Prop :=
  exists l, chunks es = l ++ in_left (inp s) /\ ((fst <$> network s) `sublist_of` l)
    /\ ((Sndto true ∉ es) -> (fst <$> network s) = l).

Lemma delivered_step es e s s' : delivered es s -> step e s = Some s' -> delivered (es ++ [e]) s'.
Proof.
  intros (l & El & Hs & Hn) E. unfold delivered. rewrite chunks_snoc.
  assert ((Sndto true ∉ es ++ [e]) -> (Sndto true ∉ es) /\ e <> Sndto true) as Hno.
  { rewrite elem_of_app, list_elem_of_singleton. intros H. split; [tauto|]. intros ->. tauto. }
  assert (out_step e s = Some s' \/ in_step e s = Some s') as [E'|E'] by (destruct e; auto).
  - assert (chunk e = None /\ inp s' = inp s /\ network s' = network s) as (-> & -> & ->).
    { clear -E'. unfold out_step in E'. destruct (out s), e; try done; step_inv; done. }
    exists l. cbn. rewrite app_nil_r. split; [done|]. split; [done|]. intros [? _]%Hno. auto.
  - clear E. unfold in_step in E'.
    destruct (inp s) as [|b|b|b ip|b ip port|b ip port] eqn:Ei; destruct e; try done; cbn [in_left chunk] in *.
    + exists l. rewrite app_nil_r in El. subst l.
      destruct r as [buffer|]; [destruct (decide _); [|done]|]; injection E' as <-.
      * destruct buffer; cbn; rewrite ?Ei; cbn; rewrite ?app_nil_r; (split; [done|]); (split; [done|]);
          intros [? _]%Hno; auto.
      * cbn. rewrite Ei. cbn. rewrite !app_nil_r. split; [done|]. split; [done|]. intros [? _]%Hno; auto.
    + apply fmap_Some in E' as (s1 & [_ ->]%lock_Some & ->). exists l. cbn. rewrite app_nil_r.
      split; [done|]. split; [done|]. intros [? _]%Hno; auto.
    + injection E' as <-. exists l. cbn. rewrite app_nil_r. split; [done|]. split; [done|]. intros [? _]%Hno; auto.
    + injection E' as <-. exists l. cbn. rewrite app_nil_r. split; [done|]. split; [done|]. intros [? _]%Hno; auto.
    + injection E' as <-. exists l. cbn. rewrite app_nil_r. split; [done|]. split; [done|]. intros [? _]%Hno; auto.
    + injection E' as <-. exists (l ++ [b]). destruct thrown; cbn; rewrite ?app_nil_r, ?fmap_app; cbn;
        (split; [done|]).
      * split; [by apply sublist_inserts_r|]. by intros [_ ?]%Hno.
      * split; [by apply sublist_app|]. intros [? _]%Hno. by rewrite Hn.
Qed.

Lemma trace_delivered es s : trace es s -> delivered es s.
Proof. induction 1; [by exists []|]. by eapply delivered_step. Qed.

(** ** The mutex is given back *)
Lemma out_releases s : exclusive s -> out_holds (out s) = true ->
  exists n s', (n <= 3)%nat /\ run (replicate n Step_out) s = Some s' /\ mx s' = None.
Proof.
  destruct s as [ip port m o i f n]. intros _ Ho. cbn in Ho. destruct o; try done.
  - exists 3%nat. eexists. split; [lia|]. by split.
  - exists 2%nat. eexists. split; [lia|]. by split.
  - exists 1%nat. eexists. split; [lia|]. by split.
Qed.

Lemma in_releases s : exclusive s -> in_holds (inp s) = true ->
  exists n s', (n <= 3)%nat /\ run (replicate n Step_in) s = Some s' /\ mx s' = None.
Proof.
  destruct s as [ip port m o i f n]. intros _ Hi. cbn in Hi. destruct i; try done.
  - exists 3%nat. eexists. split; [lia|]. by split.
  - exists 2%nat. eexists. split; [lia|]. by split.
  - exists 1%nat. eexists. split; [lia|]. by split.
Qed.

(** * Properties *)

(** C37: however the two threads interleave, every datagram towards the network
    goes to an address and port that one datagram came from together, the latest
    one at some moment (or to none, before the first): the mutex keeps the two
    strings from being mixed. *)
Theorem no_mixed_address es s b ip port :
  run es initial = Some s -> (b, (ip, port)) ∈ network s ->
  exists l, l `prefix_of` addresses es /\ (ip, port) = latest l.
Proof.
  intros (_ & _ & Hn)%run_trace%trace_addressed Hin. rewrite Forall_forall in Hn. by apply (Hn _ Hin).
Qed.

(** C38: however the two threads interleave, the bytes written to the pipe are
    those of the datagrams received, in order, all of them whenever the thread
    waits for the next; the datagrams sent are the chunks read, in order, and
    all of them when no send failed and the thread waits for the next. *)
Theorem streams_relayed es s :
  run es initial = Some s ->
  (fifo s `prefix_of` bytes_of es) /\ (out s = O_rcvfrom -> fifo s = bytes_of es)
  /\ ((fst <$> network s) `sublist_of` chunks es)
  /\ (inp s = I_read -> (Sndto true ∉ es) -> (fst <$> network s) = chunks es).
Proof.
  intros Ht%run_trace. pose proof (trace_relayed _ _ Ht) as Hr.
  destruct (trace_delivered _ _ Ht) as (l & El & Hs & Hn).
  split; [by apply relayed_prefix|]. split.
  { intros Ho. unfold relayed in Hr. rewrite Ho in Hr. cbn in Hr. by rewrite app_nil_r in Hr. }
  rewrite El. split; [by apply sublist_inserts_r|]. intros Hi Hno. rewrite Hi. cbn. rewrite app_nil_r. auto.
Qed.

(** Also: no deadlock: in every reachable state at most one thread holds the mutex,
    and at most three steps of the holder, none of which can block, free it. *)
Theorem mutex_released es s :
  run es initial = Some s ->
  (mx s = None <-> out_holds (out s) = false /\ in_holds (inp s) = false)
  /\ (mx s <> None -> exists n s' e, (n <= 3)%nat /\ (e = Step_out \/ e = Step_in)
       /\ run (replicate n e) s = Some s' /\ mx s' = None).
Proof.
  intros Ht%run_trace. pose proof (trace_exclusive _ _ Ht) as He. pose proof He as [Hx Hm]. rewrite Hm.
  destruct (out_holds (out s)) eqn:Eo; [|destruct (in_holds (inp s)) eqn:Ei]; (split; [by split; [|intros []]|]);
    intros Hne; [..|done].
  - destruct (out_releases s He Eo) as (n & s' & Hl & E & Es). by exists n, s', Step_out; auto.
  - destruct (in_releases s He Ei) as (n & s' & Hl & E & Es). by exists n, s', Step_in; auto.
Qed.

(** ** Witnesses *)

(** Two clients; the reply read in between goes to the first. *)
Definition talk : list event :=
  [Rcvfrom [1; 2; 3] [10] [49]; Step_out; Read (Some [7; 8]); Step_out; Step_out; Step_out; Step_in;
   Write 2; Step_in; Step_in; Write 1; Rcvfrom [4] [11] [50]; Step_in; Step_out; Sndto false; Step_out].

Definition talked : bridge :=
  Bridge [11] [49] (Some OutThread) (O_port [4] [11] [50]) I_read [1; 2; 3] [([7; 8], ([10], [49]))].

Lemma no_mixed_address_witness :
  exists l, l `prefix_of` addresses talk /\ ([10], [49]) = latest l.
Proof.
  apply (no_mixed_address talk talked [7; 8]); [reflexivity|]. by left.
Defined.

Lemma streams_relayed_witness :
  (fifo talked `prefix_of` bytes_of talk) /\ (out talked = O_rcvfrom -> fifo talked = bytes_of talk)
  /\ ((fst <$> network talked) `sublist_of` chunks talk)
  /\ (inp talked = I_read -> (Sndto true ∉ talk) -> (fst <$> network talked) = chunks talk).
Proof. apply streams_relayed. reflexivity. Defined.

Lemma mutex_released_witness :
  (mx talked = None <-> out_holds (out talked) = false /\ in_holds (inp talked) = false)
  /\ (mx talked <> None -> exists n s' e, (n <= 3)%nat /\ (e = Step_out \/ e = Step_in)
       /\ run (replicate n e) talked = Some s' /\ mx s' = None).
Proof. apply (mutex_released talk). reflexivity. Defined.
