(* ===== verification/BridgeThreads.v ===== *)
(** The two threads of the bridge between UDP and the LoRa link:
    [src/software/sx1276/sx1276_mqttsn_bridge.cpp], class [WorkerThread] and the
    locking of [RadioManager].

    [Bridge] has what the methods do; here is when they do it. Each thread is
    its program point with the locals alive there. A step is one lock or unlock
    of [radio_mutex_], one call of the radio, one critical section of
    [port_mutex_] (they contain no other lock) or one access to data only that
    thread uses outside a lock. An [occurrence] is whose step it is and what the
    socket did. Output is left out. *)
From S2P Require Import Prelude Format Bridge.

Inductive worker := OutThread | InThread.
#[export] Instance worker_eq_dec : EqDecision worker.
Proof. solve_decision. Defined.

Abbreviation text := (list Z).

(** [OutLoop], with [Transmit] in line. *)
Inductive out_pc :=
  | O_rcvfrom
  | O_port (buffer : list Z) (ip port : text)
  | O_header (payload : list Z)
  | O_lock (roll : Z) (payload : list Z)
  | O_send (roll : Z) (payload : list Z)
  | O_unlock
  | O_return.

(** [InLoop], with [TryReceive] and [Restart] in line. The locals of
    [TryReceive] are its buffer, [timeout] and [crc_error]. *)
Inductive in_pc :=
  | I_try
  | I_lock (buffer : list Z) (timeout crc_error : bool)
  | I_receive (buffer : list Z) (timeout crc_error : bool)
  | I_yield (buffer : list Z) (timeout crc_error : bool)
  | I_got (payload : list Z)
  | I_fault
  | I_port (payload : list Z)
  | I_sndto (u : udp_out)
  | I_restart
  | I_reset
  | I_carrier
  | I_configure
  | I_restarted
  | I_undefined.                      (* after an access the source leaves undefined *)

Inductive occurrence :=
  | Rcvfrom (buffer : list Z) (ip port : text)   (* empty when it returned no positive length *)
  | Rcvfrom_throws
  | Step_out
  | Enter (junk : list Z)                        (* what the stack holds where the buffer is *)
  | Step_in
  | Sndto (thrown : bool).

Definition RCV_BUFFER : nat := 127.
Definition PAYLOAD_BUFFER : nat := 256.

Section Threads.
Context {R : Type} `{SimpleRadio R}.
Abbreviation M := (ST (manager * R)).

Record system := System {
  managed : manager;
  the_radio : R;
  radio_mx : option worker;           (* who holds [radio_mutex_] *)
  outp : out_pc;
  inp : in_pc;
  to_udp : list udp_out }.            (* the datagrams the socket sent *)

Definition started (m : manager) (r : R) : system := System m r None O_rcvfrom I_try [].

Definition out_at (p : out_pc) (s : system) : system :=
  System (managed s) (the_radio s) (radio_mx s) p (inp s) (to_udp s).
Definition in_at (p : in_pc) (s : system) : system :=
  System (managed s) (the_radio s) (radio_mx s) (outp s) p (to_udp s).
Definition with_mx (o : option worker) (s : system) : system :=
  System (managed s) (the_radio s) o (outp s) (inp s) (to_udp s).
Definition with_udp (l : list udp_out) (s : system) : system :=
  System (managed s) (the_radio s) (radio_mx s) (outp s) (inp s) l.
Definition with_both (m : manager) (r : R) (s : system) : system :=
  System m r (radio_mx s) (outp s) (inp s) (to_udp s).

(** Taking the mutex; [None]: the thread waits. *)
Definition acquire (t : worker) (s : system) : option system :=
  match radio_mx s with None => Some (with_mx (Some t) s) | Some _ => None end.

(** A part of the methods of [Bridge], run on the shared data. *)
Definition perform {A} (m : M A) (s : system) : option (A * system) :=
  '(a, (mg, r)) ← m (managed s, the_radio s); Some (a, with_both mg r s).

(** [None]: the occurrence is not one of the thread at its point, or it waits. *)
Definition out_call (e : occurrence) (s : system) : option system :=
  match outp s, e with
  | O_rcvfrom, Rcvfrom buffer ip port =>
      if decide (length buffer <= RCV_BUFFER)%nat then
        Some (match buffer with [] => s | _ => out_at (O_port buffer ip port) s end)
      else None
  | O_rcvfrom, Rcvfrom_throws => Some (out_at O_return s)
  | O_port buffer ip port, Step_out =>
      '(_, s) ← perform (on_manager (SetPort ip port)) s; Some (out_at (O_header buffer) s)
  | O_header payload, Step_out =>
      '(roll, s) ← perform next_roll s; Some (out_at (O_lock roll payload) s)
  | O_lock roll payload, Step_out => out_at (O_send roll payload) <$> acquire OutThread s
  | O_send roll payload, Step_out =>
      '(_, s) ← perform (send_framed roll payload) s; Some (out_at O_unlock s)
  | O_unlock, Step_out => Some (out_at O_rcvfrom (with_mx None s))
  | _, _ => None
  end.

(** Where a turn of the receiving loop leads. *)
Definition after_turn (t : turn) : in_pc :=
  match t with
  | Fault => I_fault
  | Got payload => I_got payload
  | Again true buffer timeout crc_error => I_receive buffer timeout crc_error
  | Again false buffer timeout crc_error => I_yield buffer timeout crc_error
  end.

(** Which socket call [InLoop] makes; [is_client] is the cast to a client socket. *)
Definition destination (is_client : bool) (payload : list Z) (m : manager) : udp_out :=
  match GetPort m with
  | Some (ip, port) => To_port ip port payload
  | None => if is_client then To_broker payload else Nowhere
  end.
Definition sending (u : udp_out) : in_pc := match u with Nowhere => I_try | _ => I_sndto u end.

Definition in_call (is_client : bool) (e : occurrence) (s : system) : option system :=
  match inp s, e with
  | I_try, Enter junk =>
      if decide (length junk = PAYLOAD_BUFFER + 4)%nat
      then Some (in_at (I_lock junk false false) s) else None
  | I_lock b t c, Step_in => in_at (I_receive b t c) <$> acquire InThread s
  | I_receive b t c, Step_in =>
      Some (match perform (receive_turn PAYLOAD_BUFFER b t c) s with
            | Some (t, s) => in_at (after_turn t) s
            | None => in_at I_undefined s
            end)
  | I_yield b t c, Step_in => Some (in_at (I_lock b t c) (with_mx None s))
  | I_got payload, Step_in => Some (in_at (I_port payload) (with_mx None s))
  | I_port payload, Step_in => Some (in_at (sending (destination is_client payload (managed s))) s)
  | I_sndto u, Sndto thrown =>
      Some (in_at I_try (if thrown then s else with_udp (to_udp s ++ [u]) s))
  | I_fault, Step_in => Some (in_at I_restart (with_mx None s))
  | I_restart, Step_in => in_at I_reset <$> acquire InThread s
  | I_reset, Step_in =>
      '(_, s) ← perform (radio_op (fun r => ((), ResetSX1276 r))) s; Some (in_at I_carrier s)
  | I_carrier, Step_in =>
      '(_, s) ← perform (radio_op (fun r => ((), ChangeCarrier 919000000 r))) s; Some (in_at I_configure s)
  | I_configure, Step_in =>
      '(_, s) ← perform (radio_op (fun r => ((), ApplyDefaultLoraConfiguration r))) s; Some (in_at I_restarted s)
  | I_restarted, Step_in => Some (in_at I_try (with_mx None s))
  | _, _ => None
  end.

Definition occur (is_client : bool) (e : occurrence) (s : system) : option system :=
  match e with
  | Enter _ | Step_in | Sndto _ => in_call is_client e s
  | _ => out_call e s
  end.

(** An interleaving, from the state [s]. *)
Fixpoint interleave (is_client : bool) (es : list occurrence) (s : system) : option system :=
  match es with
  | [] => Some s
  | e :: es => s ← occur is_client e s; interleave is_client es s
  end.
End Threads.
Arguments system R : clear implicits.
