(* ===== verification/BridgeThreadsFacts.v ===== *)
(** The bridge's threads: every interleaving of their steps is one of atomic
    turns.

    The specification is a machine whose steps are whole critical sections
    ([atomic]); [tracks] relates a state of the threads to the machine's state
    after the sections completed so far, and [refined] says it is kept along
    every interleaving, by induction on it. Then, a thread that runs alone through a turn does what
    [Bridge.in_turn] and [Bridge.out_turn] say. *)
From S2P Require Import Prelude Bridge LinkFacts BridgeThreads.

(** * The specification: atomic actions *)
Inductive action :=
  | A_port (ip port : text)
  | A_transmit (payload : list Z)
  | A_enter (junk : list Z)
  | A_turn
  | A_restart
  | A_deliver.

(** Where the receiving thread is between its actions. *)
Inductive phase :=
  | P_try
  | P_loop (buffer : list Z) (timeout crc_error : bool)
  | P_got (payload : list Z)
  | P_fault.

Definition after (t : turn) : phase :=
  match t with Fault => P_fault | Got p => P_got p | Again _ b t c => P_loop b t c end.
Definition call (u : udp_out) : list udp_out := match u with Nowhere => [] | _ => [u] end.

Section Facts.
Context {R : Type} `{HR : SimpleRadio R} (is_client : bool).

Record machine := Machine { m_manager : manager; m_radio : R; m_phase : phase; m_calls : list udp_out }.

Definition atomic (a : action) (s : machine) : option machine :=
  match a, m_phase s with
  | A_port ip port, ph => Some (Machine (SetPort ip port (m_manager s)) (m_radio s) ph (m_calls s))
  | A_transmit payload, ph =>
      '(_, (mg, r)) ← Transmit payload (m_manager s, m_radio s); Some (Machine mg r ph (m_calls s))
  | A_enter junk, P_try => Some (Machine (m_manager s) (m_radio s) (P_loop junk false false) (m_calls s))
  | A_turn, P_loop b t c =>
      '(x, (mg, r)) ← receive_turn PAYLOAD_BUFFER b t c (m_manager s, m_radio s);
      Some (Machine mg r (after x) (m_calls s))
  | A_restart, P_fault =>
      '(_, (mg, r)) ← Restart (m_manager s, m_radio s); Some (Machine mg r P_try (m_calls s))
  | A_deliver, P_got payload =>
      Some (Machine (m_manager s) (m_radio s) P_try
              (m_calls s ++ call (destination is_client payload (m_manager s))))
  | _, _ => None
  end.

Fixpoint atomics (l : list action) (s : machine) : option machine :=
  match l with
  | [] => Some s
  | a :: l => s ← atomic a s; atomics l s
  end.

Lemma atomics_app l l' s : atomics (l ++ l') s = atomics l s ≫= atomics l'.
Proof. revert s. induction l as [|a l IH]; intros s; cbn; [done|]. by destruct (atomic a s); cbn. Qed.

(** * Who holds the mutex *)
Definition out_holds (p : out_pc) : bool :=
  match p with O_send _ _ | O_unlock => true | _ => false end.
Definition in_holds (p : in_pc) : bool :=
  match p with
  | I_receive _ _ _ | I_yield _ _ _ | I_got _ | I_fault | I_reset | I_carrier | I_configure
  | I_restarted | I_undefined => true
  | _ => false
  end.

Definition exclusive (s : system R) : Prop :=
  (out_holds (outp s) && in_holds (inp s)) = false
  /\ radio_mx s = if out_holds (outp s) then Some OutThread
                  else if in_holds (inp s) then Some InThread else None.

Lemma acquire_Some t (s s' : system R) :
  acquire t s = Some s' -> radio_mx s = None /\ s' = with_mx (Some t) s.
Proof. unfold acquire. destruct (radio_mx s); [done|]. by intros [= <-]. Qed.

Lemma perform_Some {A} (m : ST (manager * R) A) (s : system R) a s' :
  perform m s = Some (a, s') ->
  exists mg r, m (managed s, the_radio s) = Some (a, (mg, r)) /\ s' = with_both mg r s.
Proof.
  unfold perform. destruct (m _) as [[a' [mg r]]|]; [|done]. cbn. intros [= <- <-]. eauto.
Qed.

Ltac call_inv :=
  repeat match goal with
  | H : context [match ?x with _ => _ end] |- _ => destruct x eqn:?; try discriminate H
  end;
  repeat match goal with
  | H : _ <$> _ = Some _ |- _ => apply fmap_Some in H as (? & [? ->]%acquire_Some & ->)
  | H : _ ≫= _ = Some _ |- _ => apply bind_Some in H as ([? ?] & (? & ? & ? & ->)%perform_Some & H)
  | H : perform _ _ = Some _ |- _ => apply perform_Some in H as (? & ? & ? & ->)
  | H : Some _ = Some _ |- _ => injection H as <-
  end.

Lemma after_turn_holds t : in_holds (after_turn t) = true.
Proof. by destruct t as [| |[]]. Qed.

Lemma sending_free u : in_holds (sending u) = false.
Proof. by destruct u. Qed.

Lemma threads_exclusive_step e (s s' : system R) : exclusive s -> occur is_client e s = Some s' -> exclusive s'.
Proof.
  intros [Hx Hm] E. unfold exclusive.
  destruct e; cbn [occur] in E; unfold out_call, in_call in E; call_inv;
    destruct s; cbn in *; subst; cbn in *; rewrite ?after_turn_holds, ?sending_free; try done;
    repeat case_match; try done; by rewrite ?andb_true_r, ?andb_false_r in *; subst.
Qed.

(** * The header's counter is the sender's own *)
Definition moved (m : manager) : manager :=
  set_counter (if rolling_counter_ m =? 0xff then 0 else rolling_counter_ m + 1) m.

Lemma handle_frame_counter room b n k m :
  handle_frame room b n (set_counter k m) = prod_map id (set_counter k) <$> handle_frame room b n m.
Proof.
  unfold handle_frame, expected_counter.
  destruct (xor_bytes b _) as [x|]; [|done]. cbn [mbind option_bind].
  destruct (if n <? 1 then None else _) as [l|]; [|done]. cbn.
  destruct (negb (x =? l)); [done|].
  destruct (b !! 0%nat) as [b0|]; [|done]. cbn. destruct (b !! 1%nat) as [b1|]; [|done]. cbn.
  destruct (b0 =? 2); [done|]. destruct (b0 =? 0); [|done]. destruct (n <? 4); [done|].
  destruct (load b 3 _) as [p|]; [|done]. cbn. by destruct (decide _).
Qed.

Lemma receive_turn_counter room b t c k m (r : R) :
  receive_turn room b t c (set_counter k m, r)
  = prod_map id (prod_map (set_counter k) id) <$> receive_turn room b t c (m, r).
Proof.
  unfold receive_turn. rewrite !ST_bind_eq. unfold radio_op.
  destruct (ReceiveSimpleMessage _ _ t c r) as [o r']. destruct (no_fault o); [|done]. cbn [negb].
  rewrite !ST_bind_eq. unfold lift_opt at 1 3. destruct (store b 0 (rx_bytes o)) as [b'|]; [|done].
  cbn [fmap option_fmap option_map].
  destruct (negb (rx_timeout o) && negb (rx_crc_error o)).
  - rewrite !ST_bind_eq. unfold Bridge.this. rewrite !ST_bind_eq. unfold lift_opt.
    rewrite handle_frame_counter. by destruct (handle_frame room b' (rx_size o) m) as [[x m']|].
  - rewrite !ST_bind_eq. unfold when. by destruct (rx_crc_error o).
Qed.

Lemma Transmit_split payload m (r : R) :
  Transmit payload (m, r) = send_framed (rolling_counter_ m) payload (moved m, r).
Proof. done. Qed.

Lemma moved_id (m : manager) : set_counter (rolling_counter_ m) m = m.
Proof. by destruct m. Qed.

(** A turn on the shared data, whose counter the sender may have moved. *)
Lemma receive_turn_ahead (f : manager -> manager) room b t c m (r : R) x mg r' :
  f = id \/ f = moved -> receive_turn room b t c (f m, r) = Some (x, (mg, r')) ->
  exists mg0, receive_turn room b t c (m, r) = Some (x, (mg0, r')) /\ mg = f mg0
    /\ rolling_counter_ mg0 = rolling_counter_ m.
Proof.
  intros Hf E.
  assert (forall mg0, receive_turn room b t c (m, r) = Some (x, (mg0, r')) -> rolling_counter_ mg0 = rolling_counter_ m) as Hc.
  { intros mg0 E0. pose proof (receive_turn_counter room b t c (rolling_counter_ m) m r) as E1.
    rewrite moved_id, E0 in E1. injection E1 as ->. done. }
  destruct Hf as [->| ->].
  - exists mg. split; [done|]. split; [done|]. by apply Hc.
  - unfold moved at 1 in E. rewrite receive_turn_counter in E.
    destruct (receive_turn room b t c (m, r)) as [[x0 [mg0 r0]]|] eqn:E0; [|done].
    injection E as <- <- <-. exists mg0. split; [done|]. unfold moved. by rewrite (Hc mg0).
Qed.

(** * What the environment gave *)
Definition datagram (e : occurrence) : option (list Z) :=
  match e with Rcvfrom (b :: l) _ _ => Some (b :: l) | _ => None end.
Definition address (e : occurrence) : option (text * text) :=
  match e with Rcvfrom (_ :: _) ip port => Some (ip, port) | _ => None end.
Definition stack (e : occurrence) : option (list Z) := match e with Enter junk => Some junk | _ => None end.

Definition a_datagram (a : action) : option (list Z) := match a with A_transmit p => Some p | _ => None end.
Definition a_address (a : action) : option (text * text) :=
  match a with A_port ip port => Some (ip, port) | _ => None end.
Definition a_stack (a : action) : option (list Z) := match a with A_enter junk => Some junk | _ => None end.

(** What the sending thread has taken and not yet dealt with. *)
Definition owed (p : out_pc) : list (list Z) :=
  match p with O_port b _ _ | O_header b | O_lock _ b | O_send _ b => [b] | _ => [] end.
Definition owed_address (p : out_pc) : list (text * text) :=
  match p with O_port _ ip port => [(ip, port)] | _ => [] end.
Definition owed_call (p : in_pc) : list udp_out := match p with I_sndto u => [u] | _ => [] end.

(** The actions are those of the threads, in the order each thread does them. *)
Definition accounted (es : list occurrence) (acts : list action) (s : system R) : Prop :=
  omap datagram es = omap a_datagram acts ++ owed (outp s)
  /\ omap address es = omap a_address acts ++ owed_address (outp s)
  /\ omap stack es = omap a_stack acts.

(** The socket calls of the machine are the datagrams sent, those refused and
    the one under way. *)
Definition called (es : list occurrence) (a : machine) (s : system R) : Prop :=
  exists l, m_calls a = l ++ owed_call (inp s) /\ (to_udp s `sublist_of` l)
    /\ ((Sndto true ∉ es) -> to_udp s = l).

Definition in_phase (p : in_pc) : phase :=
  match p with
  | I_lock b t c | I_receive b t c | I_yield b t c => P_loop b t c
  | I_got payload | I_port payload => P_got payload
  | I_fault | I_restart | I_reset | I_carrier | I_configure => P_fault
  | _ => P_try
  end.

(** How far the shared data is ahead of the completed actions. *)
Definition ahead (p : out_pc) : manager -> manager :=
  match p with O_lock _ _ | O_send _ _ => moved | _ => id end.
Definition radio_ahead (p : in_pc) (r : R) : R :=
  match p with
  | I_carrier => ResetSX1276 r
  | I_configure => ChangeCarrier 919000000 (ResetSX1276 r)
  | _ => r
  end.

Definition tracks (a : machine) (s : system R) : Prop :=
  managed s = ahead (outp s) (m_manager a)
  /\ match outp s with O_lock roll _ | O_send roll _ => roll = rolling_counter_ (m_manager a) | _ => True end
  /\ the_radio s = radio_ahead (inp s) (m_radio a)
  /\ m_phase a = in_phase (inp s).

Lemma accounted_step es e acts new (s s' : system R) :
  accounted es acts s ->
  owed (outp s) ++ option_list (datagram e) = omap a_datagram new ++ owed (outp s') ->
  owed_address (outp s) ++ option_list (address e) = omap a_address new ++ owed_address (outp s') ->
  option_list (stack e) = omap a_stack new ->
  accounted (es ++ [e]) (acts ++ new) s'.
Proof.
  intros (Hd & Ha & Hs) Ed Ea Es. unfold accounted. rewrite !omap_app, Hd, Ha, Hs.
  rewrite <- !app_assoc, <- Ed, <- Ea, <- Es. cbn.
  by destruct (datagram e), (address e), (stack e).
Qed.

Lemma called_same es e a a' (s s' : system R) :
  called es a s -> m_calls a' = m_calls a -> owed_call (inp s') = owed_call (inp s) ->
  to_udp s' = to_udp s -> called (es ++ [e]) a' s'.
Proof.
  intros (l & El & Hs & Hn) Ec Eo Eu. exists l. rewrite Ec, Eo, Eu. split; [done|]. split; [done|].
  intros Hno. apply Hn. intros ?. apply Hno. rewrite elem_of_app. by left.
Qed.

Definition refined (m0 : manager) (r0 : R) (es : list occurrence) (s : system R) : Prop :=
  exists acts a, atomics acts (Machine m0 r0 P_try []) = Some a
    /\ tracks a s /\ accounted es acts s /\ called es a s.

Section Refined.
Context (m0 : manager) (r0 : R).

(** An occurrence that completes the actions [new]. *)
Lemma refined_step es e s s' (new : list action) :
  refined m0 r0 es s ->
  owed (outp s) ++ option_list (datagram e) = omap a_datagram new ++ owed (outp s') ->
  owed_address (outp s) ++ option_list (address e) = omap a_address new ++ owed_address (outp s') ->
  option_list (stack e) = omap a_stack new ->
  (forall a, tracks a s -> called es a s ->
     exists a', atomics new a = Some a' /\ tracks a' s' /\ called (es ++ [e]) a' s') ->
  refined m0 r0 (es ++ [e]) s'.
Proof.
  intros (acts & a & Ea & Ht & Hacc & Hc) Hd Had Hst Hstep.
  destruct (Hstep a Ht Hc) as (a' & Ea' & Ht' & Hc'). exists (acts ++ new), a'.
  rewrite atomics_app, Ea. split; [done|]. split; [done|]. split; [|done].
  by apply (accounted_step es e acts new s).
Qed.

Lemma out_refined es e s s' :
  exclusive s -> refined m0 r0 es s -> out_call e s = Some s' -> refined m0 r0 (es ++ [e]) s'.
Proof.
  intros [Hx _] Hr E. unfold out_call in E.
  destruct (outp s) as [|b ip port|b|roll b|roll b| |] eqn:Eo; destruct e; try done.
  - destruct (decide _); [|done]. injection E as <-.
    apply (refined_step _ _ s _ []); rewrite ?Eo; try done; destruct buffer; rewrite ?Eo; try done;
      (intros a (Hm & _ & Hrd & Hp) Hc; rewrite Eo in Hm; exists a; split; [done|];
       split; [unfold tracks; rewrite ?Eo; cbn; rewrite ?Eo; done|by eapply called_same]).
  - injection E as <-. apply (refined_step _ _ s _ []); rewrite ?Eo; try done.
    intros a (Hm & _ & Hrd & Hp) Hc. rewrite Eo in Hm. exists a. split; [done|].
    split; [done|by eapply called_same].
  - injection E as <-. apply (refined_step _ _ s _ [A_port ip port]); rewrite ?Eo; try done.
    intros a (Hm & _ & Hrd & Hp) Hc. rewrite Eo in Hm. eexists. split; [done|].
    split; [|by eapply called_same]. unfold tracks. cbn. by rewrite Hm.
  - injection E as <-. apply (refined_step _ _ s _ []); rewrite ?Eo; try done.
    intros a (Hm & _ & Hrd & Hp) Hc. rewrite Eo in Hm. exists a. split; [done|].
    split; [|by eapply called_same]. unfold tracks. cbn. by rewrite Hm.
  - apply fmap_Some in E as (? & [? ->]%acquire_Some & ->).
    apply (refined_step _ _ s _ []); rewrite ?Eo; try done.
    intros a (Hm & Hroll & Hrd & Hp) Hc. rewrite Eo in Hm, Hroll. exists a. split; [done|].
    split; [done|by eapply called_same].
  - apply bind_Some in E as ([x ?] & (mg & r & Es & ->)%perform_Some & [= <-]).
    apply (refined_step _ _ s _ [A_transmit b]); rewrite ?Eo; try done.
    intros a (Hm & Hroll & Hrd & Hp) Hc. rewrite Eo in Hm, Hroll. cbn in Hm.
    assert (radio_ahead (inp s) (m_radio a) = m_radio a) as Era by (destruct (inp s); done).
    rewrite Era in Hrd. subst roll. rewrite Hm, Hrd in Es.
    eexists. cbn [atomics atomic]. rewrite Transmit_split, Es. split; [done|].
    split; [|by eapply called_same]. unfold tracks. cbn. split; [done|]. split; [done|].
    split; [by destruct (inp s)|done].
  - injection E as <-. apply (refined_step _ _ s _ []); rewrite ?Eo; try done.
    intros a (Hm & Hroll & Hrd & Hp) Hc. rewrite Eo in Hm. exists a. split; [done|].
    split; [done|by eapply called_same].
Qed.

Lemma tracks_in p (a : machine) (s s' : system R) :
  tracks a s -> s' = in_at p s \/ (exists o, s' = in_at p (with_mx o s)) ->
  radio_ahead p (m_radio a) = the_radio s -> m_phase a = in_phase p -> tracks a s'.
Proof.
  intros (Hm & Hroll & _ & _) [->|[o ->]] Hr Hp; unfold tracks; cbn; by rewrite Hr.
Qed.

(** An occurrence of the receiving thread that completes nothing. *)
Lemma in_silent es e p s s' :
  refined m0 r0 es s -> s' = in_at p s \/ (exists o, s' = in_at p (with_mx o s)) ->
  option_list (stack e) = [] -> datagram e = None -> address e = None ->
  (forall r, radio_ahead p r = radio_ahead (inp s) r) -> in_phase p = in_phase (inp s) ->
  owed_call p = owed_call (inp s) -> refined m0 r0 (es ++ [e]) s'.
Proof.
  intros Hr Hs Hst Hd Ha Hra Hph Hoc.
  apply (refined_step _ _ s _ []); [done|..].
  - rewrite Hd. destruct Hs as [->|[o ->]]; apply app_nil_r.
  - rewrite Ha. destruct Hs as [->|[o ->]]; apply app_nil_r.
  - done.
  - intros a Ht Hc. exists a. split; [done|]. split.
    + pose proof Ht as (_ & _ & Er & Ep). eapply tracks_in; [done|done|..]; [by rewrite Er, Hra|by rewrite Ep].
    + eapply called_same; [done|done|..]; by destruct Hs as [->|[o ->]].
Qed.

(** A turn of the receiving loop, finished or undefined. *)
Lemma in_turn_refined es s b t c x (s1 : system R) :
  refined m0 r0 es s -> inp s = I_receive b t c -> perform (receive_turn PAYLOAD_BUFFER b t c) s = Some (x, s1) ->
  exclusive s -> refined m0 r0 (es ++ [Step_in]) (in_at (after_turn x) s1).
Proof.
  intros Hr Ei (mg & r & Et & ->)%perform_Some [Hx _].
  apply (refined_step _ _ s _ [A_turn]); rewrite ?app_nil_r; try done.
  intros a (Hm & Hroll & Hrd & Hp) Hc. rewrite Ei in Hrd, Hp. cbn in Hrd, Hp. rewrite Hm, Hrd in Et.
  apply receive_turn_ahead in Et as (mg0 & Et & -> & Hk); [|destruct (outp s); auto].
  eexists. split.
  { cbn [atomics atomic]. rewrite Hp, Et. done. }
  split; [|eapply called_same; [done|done|cbn; rewrite Ei; by destruct x as [| |[]]|done]].
  unfold tracks. cbn. split; [done|]. split; [destruct (outp s); try done; by rewrite Hk|].
  by destruct x as [| |[]].
Qed.

(** The payload goes to where the port says. *)
Lemma in_deliver_refined es s payload :
  refined m0 r0 es s -> inp s = I_port payload ->
  refined m0 r0 (es ++ [Step_in]) (in_at (sending (destination is_client payload (managed s))) s).
Proof.
  intros Hr Ei. set (u := destination is_client payload (managed s)).
  apply (refined_step _ _ s _ [A_deliver]); rewrite ?app_nil_r; try done.
  intros a (Hm & Hroll & Hrd & Hp) Hc. rewrite Ei in Hrd, Hp. cbn in Hrd, Hp.
  assert (destination is_client payload (m_manager a) = u) as Eu.
  { unfold u, destination. rewrite Hm. by destruct (outp s). }
  eexists. split.
  { cbn [atomics atomic]. rewrite Hp, Eu. done. }
  split.
  { unfold tracks. cbn. rewrite Hrd. split; [done|]. split; [done|]. by destruct u. }
  destruct Hc as (l & El & Hs & Hn). rewrite Ei, app_nil_r in El. exists l. cbn. rewrite El.
  split; [by destruct u|]. split; [done|]. intros Hno. apply Hn. intros ?. apply Hno. rewrite elem_of_app. by left.
Qed.

(** The socket call, which may throw. *)
Lemma in_sent_refined es s u (thrown : bool) :
  refined m0 r0 es s -> inp s = I_sndto u ->
  refined m0 r0 (es ++ [Sndto thrown]) (in_at I_try (if thrown then s else with_udp (to_udp s ++ [u]) s)).
Proof.
  intros Hr Ei. apply (refined_step _ _ s _ []); rewrite ?app_nil_r; try done; [by destruct thrown..|].
  intros a Ht Hc. exists a. split; [done|]. split.
  { destruct Ht as (Hm & Hroll & Hrd & Hp). rewrite Ei in Hrd, Hp. unfold tracks. by destruct thrown. }
  destruct Hc as (l & El & Hs & Hn). rewrite Ei in El. cbn in El. exists (l ++ [u]). rewrite El.
  split; [destruct thrown; cbn; by rewrite app_nil_r|].
  assert (forall P : Prop, ((Sndto true ∉ es) -> P) -> (Sndto true ∉ es ++ [Sndto thrown]) -> P) as Hmono.
  { intros P HP Hno. apply HP. intros ?. apply Hno. rewrite elem_of_app. by left. }
  destruct thrown; cbn.
  - split; [by apply sublist_inserts_r|]. intros []. apply elem_of_app. right. by left.
  - split; [by apply sublist_app|]. apply Hmono. intros Hno. by rewrite Hn.
Qed.

(** A call of the radio on the way of a restart; only the last completes it. *)
Lemma in_restart_refined es s f p new (s1 : system R) :
  refined m0 r0 es s -> perform (radio_op (fun r => ((), f r))) s = Some ((), s1) ->
  owed_call (inp s) = [] -> owed_call p = [] -> omap a_datagram new = [] -> omap a_address new = [] ->
  omap a_stack new = [] ->
  (forall a, m_phase a = in_phase (inp s) -> radio_ahead (inp s) (m_radio a) = the_radio s ->
     exists r', atomics new a = Some (Machine (m_manager a) r' (in_phase p) (m_calls a))
                /\ radio_ahead p r' = f (the_radio s)) ->
  refined m0 r0 (es ++ [Step_in]) (in_at p s1).
Proof.
  intros Hr (mg & r & [= <- <-] & ->)%perform_Some Ho Hp Hd Ha Hst Hnew.
  apply (refined_step _ _ s _ new); rewrite ?Hd, ?Ha, ?Hst, ?app_nil_r; try done.
  intros a (Hm & Hroll & Hrd & Hph) Hc. destruct (Hnew a Hph (eq_sym Hrd)) as (r' & Ea & Er).
  eexists. split; [exact Ea|]. split; [|eapply called_same; [done|done|cbn; congruence|done]].
  unfold tracks. cbn. by rewrite Er.
Qed.

Lemma in_refined es e s s' :
  exclusive s -> refined m0 r0 es s -> in_call is_client e s = Some s' -> inp s' <> I_undefined ->
  refined m0 r0 (es ++ [e]) s'.
Proof.
  intros Hx Hr E Hu. unfold in_call in E.
  destruct (inp s) as [|b t c|b t c|b t c|p| |p|u| | | | | |] eqn:Ei; destruct e as [| | |junk| |thrown]; try done.
  - destruct (decide _); [|done]. injection E as <-.
    apply (refined_step _ _ s _ [A_enter junk]); rewrite ?app_nil_r; try done.
    intros a (Hm & Hroll & Hrd & Hp) Hc. rewrite Ei in Hrd, Hp. eexists. split.
    { cbn [atomics atomic]. by rewrite Hp. }
    split; [done|]. eapply called_same; [done|done|by cbn; rewrite Ei|done].
  - apply fmap_Some in E as (? & [? ->]%acquire_Some & ->).
    eapply in_silent; [done|by right; eexists|try done; by rewrite Ei..].
  - destruct (perform _ s) as [[x s1]|] eqn:Ep; injection E as <-; [|done]. by eapply in_turn_refined.
  - injection E as <-. eapply in_silent; [done|by right; eexists|try done; by rewrite Ei..].
  - injection E as <-. eapply in_silent; [done|by right; eexists|try done; by rewrite Ei..].
  - injection E as <-. eapply in_silent; [done|by right; eexists|try done; by rewrite Ei..].
  - injection E as <-. by apply in_deliver_refined.
  - injection E as <-. by apply in_sent_refined.
  - apply fmap_Some in E as (? & [? ->]%acquire_Some & ->).
    eapply in_silent; [done|by right; eexists|try done; by rewrite Ei..].
  - apply bind_Some in E as ([[] s1] & Ep & [= <-]).
    eapply (in_restart_refined _ s _ _ []); [done|exact Ep|try done; by rewrite Ei..|].
    rewrite Ei. intros [am ar aph ac] Hph Hrd. cbn in *. subst. by eexists.
  - apply bind_Some in E as ([[] s1] & Ep & [= <-]).
    eapply (in_restart_refined _ s _ _ []); [done|exact Ep|try done; by rewrite Ei..|].
    rewrite Ei. intros [am ar aph ac] Hph Hrd. cbn in *. subst. eexists. split; [done|]. by rewrite <- Hrd.
  - apply bind_Some in E as ([[] s1] & Ep & [= <-]).
    eapply (in_restart_refined _ s _ _ [A_restart]); [done|exact Ep|try done; by rewrite Ei..|].
    rewrite Ei. intros [am ar aph ac] Hph Hrd. cbn in *. subst. eexists. split; [done|]. by rewrite <- Hrd.
  - injection E as <-. eapply in_silent; [done|by right; eexists|try done; by rewrite Ei..].
Qed.

Lemma interleave_app es es' (s : system R) :
  interleave is_client (es ++ es') s = interleave is_client es s ≫= interleave is_client es'.
Proof. revert s. induction es as [|e es IH]; intros s; cbn; [done|]. by destruct (occur is_client e s); cbn. Qed.

Lemma occur_cases e (s s' : system R) :
  occur is_client e s = Some s' ->
  (out_call e s = Some s' /\ inp s' = inp s) \/ in_call is_client e s = Some s'.
Proof.
  intros E. assert (out_call e s = Some s' \/ in_call is_client e s = Some s') as [E'|E']
    by (destruct e; auto); [|by right].
  left. split; [done|]. unfold out_call in E'. call_inv; done.
Qed.

Lemma run_refined es s :
  interleave is_client es (started m0 r0) = Some s ->
  exclusive s /\ (inp s <> I_undefined -> refined m0 r0 es s).
Proof.
  revert s. induction es as [|e es IH] using rev_ind; intros s.
  - intros [= <-]. split; [done|]. intros _. exists [], (Machine m0 r0 P_try []).
    split; [done|]. split; [done|]. split; [done|]. by exists [].
  - rewrite interleave_app. destruct (interleave is_client es _) as [s1|]; [|done].
    destruct (IH s1 eq_refl) as [Hx Hr]. cbn.
    destruct (occur is_client e s1) as [s2|] eqn:E; [|done]. intros [= <-].
    split; [by eapply threads_exclusive_step|]. intros Hu. destruct (occur_cases _ _ _ E) as [[Eo Ei]|Ei].
    + eapply out_refined; [done|apply Hr; by rewrite <- Ei|done].
    + eapply in_refined; [done| |done|done]. apply Hr. intros Hu1.
      unfold in_call in Ei. by rewrite Hu1 in Ei; destruct e.
Qed.
End Refined.

(** * A thread alone *)

(** How [in_turn] goes on after the loop. *)
Definition finish (x : option (list Z)) : ST (manager * R) udp_out :=
  match x with
  | Some payload => m ← Bridge.this; mret (destination is_client payload m)
  | None => Restart;; mret Nowhere
  end.

Lemma in_turn_eq fuel junk : in_turn fuel junk is_client = (TryReceive fuel junk 256 ≫= finish).
Proof. done. Qed.

Abbreviation alone n := (interleave is_client (replicate n Step_in)).

Lemma alone_add n k (s s' : system R) : alone n s = Some s' -> alone (n + k) s = alone k s'.
Proof. intros E. by rewrite replicate_add, interleave_app, E. Qed.

Definition loop_end (x : option (list Z)) : in_pc := match x with Some p => I_got p | None => I_fault end.

Lemma turn_step m r p b t c l :
  in_call is_client Step_in (System m r (Some InThread) p (I_receive b t c) l)
  = Some (match receive_turn PAYLOAD_BUFFER b t c (m, r) with
          | Some (x, (mg, r')) => System mg r' (Some InThread) p (after_turn x) l
          | None => System m r (Some InThread) p I_undefined l
          end).
Proof.
  unfold in_call. cbn [inp]. unfold perform. cbn [managed the_radio].
  by destruct (receive_turn _ b t c (m, r)) as [[x [mg r']]|].
Qed.

(** The loop's turns are steps of the thread. *)
Lemma loop_alone fuel b t c m r p l x mg r' :
  receive_loop fuel PAYLOAD_BUFFER b t c (m, r) = Some (x, (mg, r')) ->
  exists n, alone n (System m r (Some InThread) p (I_receive b t c) l)
    = Some (System mg r' (Some InThread) p (loop_end x) l).
Proof.
  revert b t c m r. induction fuel as [|fuel IH]; intros b t c m r; [done|]. cbn [receive_loop].
  intros (y & [m1 r1] & Et & E)%ST_bind_Some.
  assert (alone 1 (System m r (Some InThread) p (I_receive b t c) l)
          = Some (System m1 r1 (Some InThread) p (after_turn y) l)) as E1
    by (cbn [replicate interleave occur]; by rewrite turn_step, Et).
  destruct y as [|q|[] b' t' c'].
  - injection E as <- <- <-. by exists 1%nat.
  - injection E as <- <- <-. by exists 1%nat.
  - destruct (IH _ _ _ _ _ E) as [n En]. exists (1 + n)%nat. by rewrite (alone_add _ _ _ _ E1).
  - destruct (IH _ _ _ _ _ E) as [n En]. exists (1 + (2 + n))%nat. rewrite (alone_add _ _ _ _ E1). exact En.
Qed.

Definition resting (p : in_pc) : Prop := exists u, p = sending u.

(** And the thread can reach the end of its turn in no other way. *)
Lemma alone_loop n b t c m r p l f :
  alone n (System m r (Some InThread) p (I_receive b t c) l) = Some f -> resting (inp f) ->
  exists fuel x mg r' k, receive_loop fuel PAYLOAD_BUFFER b t c (m, r) = Some (x, (mg, r'))
    /\ alone k (System mg r' (Some InThread) p (loop_end x) l) = Some f.
Proof.
  intros E [u Hu]. revert b t c m r E. induction n as [n IH] using lt_wf_ind. intros b t c m r E.
  destruct n as [|n]; [injection E as <-; by destruct u|].
  cbn [replicate interleave occur] in E. rewrite turn_step in E.
  destruct (receive_turn PAYLOAD_BUFFER b t c (m, r)) as [[y [m1 r1]]|] eqn:Et; cbn [mbind option_bind] in E;
    [|destruct n; [injection E as <-; by destruct u|done]].
  assert (forall fuel, receive_loop (S fuel) PAYLOAD_BUFFER b t c (m, r)
    = match y with Fault => Some (None, (m1, r1)) | Got q => Some (Some q, (m1, r1))
      | Again _ b' t' c' => receive_loop fuel PAYLOAD_BUFFER b' t' c' (m1, r1) end) as Ef.
  { intros fuel. cbn [receive_loop]. rewrite ST_bind_eq, Et. by destruct y. }
  destruct y as [|q|k b' t' c'].
  - exists 1%nat, None, m1, r1, n. by rewrite Ef.
  - exists 1%nat, (Some q), m1, r1, n. by rewrite Ef.
  - assert (exists n', (n' < S n)%nat /\
      alone n' (System m1 r1 (Some InThread) p (I_receive b' t' c') l) = Some f) as (n' & Hl & E').
    { destruct k; [by exists n; split; [lia|]|].
      destruct n as [|[|n]]; [injection E as <-; by destruct u..|]. exists n. split; [lia|done]. }
    destruct (IH n' Hl b' t' c' m1 r1 E') as (fuel & x & mg & r' & k' & El & Ek).
    exists (S fuel), x, mg, r', k'. by rewrite Ef.
Qed.

Lemma sending_inj u u' : sending u = sending u' -> u = u'.
Proof. destruct u, u'; try done; cbn; congruence. Qed.

Lemma finish_alone x m r p l o m' r' :
  finish x (m, r) = Some (o, (m', r')) <->
  exists n, alone n (System m r (Some InThread) p (loop_end x) l) = Some (System m' r' None p (sending o) l).
Proof.
  destruct x as [q|]; cbn [finish loop_end]; split.
  - intros [= <- <- <-]. by exists 2%nat.
  - intros (n & E). destruct n as [|[|n]]; [cbn in E; injection E; by destruct o..|].
    change (alone n (System m r None p (sending (destination is_client q m)) l)
      = Some (System m' r' None p (sending o) l)) in E.
    destruct n; [injection E as <- <- <-%sending_inj; done|].
    exfalso. cbn in E. by destruct (destination _ _ _).
  - intros [= <- <- <-]. by exists 6%nat.
  - intros (n & E). do 6 (destruct n as [|n]; [cbn in E; injection E; by destruct o|]).
    destruct n; [|done]. cbn in E. injection E as <- <- E. by apply (sending_inj Nowhere) in E as <-.
Qed.

Lemma in_turn_alone junk m r p l o m' r' :
  length junk = (PAYLOAD_BUFFER + 4)%nat ->
  (exists fuel, in_turn fuel junk is_client (m, r) = Some (o, (m', r')))
  <-> exists n, interleave is_client (Enter junk :: replicate n Step_in) (System m r None p I_try l)
                = Some (System m' r' None p (sending o) l).
Proof.
  intros Hj.
  assert (forall n, interleave is_client (Enter junk :: replicate (S n) Step_in) (System m r None p I_try l)
    = alone n (System m r (Some InThread) p (I_receive junk false false) l)) as Es.
  { intros n. cbn [interleave occur]. unfold in_call at 1. cbn [inp]. by rewrite decide_True. }
  split.
  - intros [fuel (x & [m1 r1] & El & Ef)%ST_bind_Some]. destruct (loop_alone _ _ _ _ _ _ p l _ _ _ El) as [n En].
    change (finish x (m1, r1) = Some (o, (m', r'))) in Ef.
    apply (finish_alone _ _ _ p l) in Ef as [k Ek]. exists (S (n + k)). by rewrite Es, (alone_add _ _ _ _ En).
  - intros (n & E). destruct n as [|n].
    { cbn [interleave occur replicate] in E. unfold in_call in E. cbn [inp] in E.
      rewrite decide_True in E by done. injection E. by destruct o. }
    rewrite Es in E. destruct (alone_loop _ _ _ _ _ _ _ _ _ E) as (fuel & x & m1 & r1 & k & El & Ek); [by eexists|].
    exists fuel. rewrite in_turn_eq, ST_bind_eq. unfold TryReceive. change 256%nat with PAYLOAD_BUFFER. rewrite El.
    apply (finish_alone _ _ _ p l). by exists k.
Qed.

Lemma port_step m r mx d ip port q l :
  out_call Step_out (System m r mx (O_port d ip port) q l)
  = Some (System (SetPort ip port m) r mx (O_header d) q l).
Proof. done. Qed.
Lemma header_step m r mx d q l :
  out_call Step_out (System m r mx (O_header d) q l)
  = Some (System (moved m) r mx (O_lock (rolling_counter_ m) d) q l).
Proof. done. Qed.
Lemma lock_step m r roll d q l :
  out_call Step_out (System m r None (O_lock roll d) q l)
  = Some (System m r (Some OutThread) (O_send roll d) q l).
Proof. done. Qed.
Lemma send_step m r mx roll d q l a m2 r2 :
  send_framed roll d (m, r) = Some (a, (m2, r2)) ->
  out_call Step_out (System m r mx (O_send roll d) q l) = Some (System m2 r2 mx O_unlock q l).
Proof. intros E. unfold out_call. cbn [outp]. unfold perform. cbn [managed the_radio]. by rewrite E. Qed.
Lemma unlock_step m r mx q l :
  out_call Step_out (System m r mx O_unlock q l) = Some (System m r None O_rcvfrom q l).
Proof. done. Qed.

Lemma send_data_ends roll d s : exists a s', send_framed roll d s = Some (a, s').
Proof.
  destruct s as [m r]. unfold send_framed. rewrite ST_bind_eq. cbn. rewrite ST_bind_eq. unfold radio_op.
  destruct (SendSimpleMessage _ r) as [[] r1]; by do 2 eexists.
Qed.

Lemma out_turn_alone ip port d m r q l m' r' :
  (length d <= RCV_BUFFER)%nat ->
  out_turn ip port d (m, r) = Some ((), (m', r'))
  <-> exists n, interleave is_client (Rcvfrom d ip port :: replicate n Step_out) (System m r None O_rcvfrom q l)
                = Some (System m' r' None O_rcvfrom q l).
Proof.
  intros Hd. cbn [interleave occur]. unfold out_call at 1. cbn [outp]. rewrite decide_True by done.
  cbn [mbind option_bind]. destruct d as [|x d].
  { cbn. split; [intros [= <- <-]; by exists 0%nat|]. intros ([|n] & E); [by injection E as <- <-|done]. }
  set (d0 := x :: d). unfold out_turn. rewrite (proj2 (Z.ltb_lt 0 (Z.of_nat (length d0)))) by (cbn; lia).
  rewrite ST_bind_eq. unfold on_manager at 1. cbv beta iota. set (m1 := SetPort ip port m).
  rewrite ST_bind_eq, Transmit_split.
  destruct (send_data_ends (rolling_counter_ m1) d0 (moved m1, r)) as (a & [m2 r2] & Es). rewrite Es.
  change (out_at (O_port d0 ip port) _) with (System m r None (O_port d0 ip port) q l).
  split.
  - intros [= <- <-]. exists 5%nat. cbn [replicate interleave occur].
    rewrite port_step. cbn [mbind option_bind]. rewrite header_step. cbn [mbind option_bind].
    rewrite lock_step. cbn [mbind option_bind]. by erewrite send_step.
  - intros (n & E).
    do 5 (destruct n as [|n]; [done|]; cbn [replicate interleave occur] in E;
      first [rewrite port_step in E | rewrite header_step in E | rewrite lock_step in E
            | rewrite unlock_step in E | erewrite send_step in E by done];
      cbn [mbind option_bind] in E).
    destruct n as [|n]; [by injection E as <- <-|done].
Qed.

(** * HELLO frames *)
Lemma continued_hello room b n m m' :
  handle_frame room b n m = Some (inr true, m') -> b !! 0%nat = Some 2.
Proof.
  unfold handle_frame. intros E.
  destruct (xor_bytes b _) as [x|]; [|done]. cbn [mbind option_bind] in E.
  destruct (if n <? 1 then None else _) as [y|]; [|done]. cbn in E.
  destruct (negb (x =? y)); [done|]. destruct (b !! 0%nat) as [b0|]; [|done]. cbn in E.
  destruct (b !! 1%nat) as [b1|]; [|done]. cbn in E. destruct (Z.eqb_spec b0 2) as [->|]; [done|].
  destruct (b0 =? 0); [|done]. destruct (n <? 4); [done|]. destruct (load b 3 _) as [q|]; [|done]. cbn in E.
  by destruct (decide _).
Qed.

Lemma turn_continued b t c s b' t' c' s' :
  receive_turn PAYLOAD_BUFFER b t c s = Some (Again true b' t' c', s') -> b' !! 0%nat = Some 2.
Proof.
  destruct s as [m r]. unfold receive_turn. rewrite ST_bind_eq. unfold radio_op.
  destruct (ReceiveSimpleMessage _ _ t c r) as [o r1]. destruct (no_fault o); [|done]. cbn [negb].
  rewrite ST_bind_eq. unfold lift_opt at 1. destruct (store b 0 (rx_bytes o)) as [b1|]; [|done].
  cbn [fmap option_fmap option_map]. destruct (negb (rx_timeout o) && negb (rx_crc_error o)).
  - rewrite ST_bind_eq. unfold Bridge.this. rewrite ST_bind_eq. unfold lift_opt.
    destruct (handle_frame _ b1 (rx_size o) m) as [[[q|k] m1]|] eqn:E; [done| |done].
    cbn. intros [= -> <- <- <- _]. by eapply continued_hello.
  - rewrite ST_bind_eq. unfold when. by destruct (rx_crc_error o).
Qed.

Lemma hello_turn roll i b t c m r r' :
  length b = (PAYLOAD_BUFFER + 4)%nat ->
  hears r (Z.of_nat (PAYLOAD_BUFFER + 4)) (hello_frame roll i) r' ->
  exists b', length b' = (PAYLOAD_BUFFER + 4)%nat
    /\ receive_turn PAYLOAD_BUFFER b t c (m, r) = Some (Again true b' false false, (hello_seen roll m, r')).
Proof.
  intros Hb Hh. unfold receive_turn. rewrite ST_bind_eq. unfold radio_op. rewrite Hh.
  cbn [no_fault negb rx_bytes rx_timeout rx_crc_error andb].
  assert (length (hello_frame roll i) = 10%nat) as Hl by done.
  assert (handle_frame PAYLOAD_BUFFER (hello_frame roll i ++ drop 10 b) (Z.of_nat (length (hello_frame roll i))) m
          = Some (inr true, hello_seen roll m)) as Ehf.
  { set (body := [0x02; roll; 0xff] ++ str "hello" ++ [48 + i]).
    change (hello_frame roll i) with (body ++ [fold_left Z.lxor body 0]).
    rewrite length_app, <- app_assoc. change (Z.of_nat _) with (Z.of_nat (length body) + 1).
    change ([?x] ++ ?y) with (x :: y). rewrite handle_frame_eq by (cbn; lia). by rewrite Z.eqb_refl. }
  exists (hello_frame roll i ++ drop 10 b).
  split; [rewrite length_app, length_drop, Hl, Hb; unfold PAYLOAD_BUFFER; lia|].
  rewrite ST_bind_eq. unfold lift_opt at 1, store. rewrite decide_True by (rewrite Hl, Hb; unfold PAYLOAD_BUFFER; lia).
  cbn [fmap option_fmap option_map take Nat.add]. rewrite app_nil_l.
  rewrite ST_bind_eq. unfold Bridge.this. rewrite ST_bind_eq. cbn [rx_size]. unfold lift_opt.
  rewrite Hl in *. by rewrite Ehf.
Qed.

Lemma hellos_alone hs b t c m r r' p l :
  length b = (PAYLOAD_BUFFER + 4)%nat ->
  hears_all (Z.of_nat (PAYLOAD_BUFFER + 4)) r (uncurry hello_frame <$> hs) r' ->
  exists m' b' t' c', alone (length hs) (System m r (Some InThread) p (I_receive b t c) l)
    = Some (System m' r' (Some InThread) p (I_receive b' t' c') l).
Proof.
  revert b t c m r. induction hs as [|[roll i] hs IH]; intros b t c m r Hb Hh; inversion Hh; subst.
  - by exists m, b, t, c.
  - destruct (hello_turn roll i b t c m r r1 Hb ltac:(done)) as (b1 & Hb1 & Et).
    destruct (IH b1 false false (hello_seen roll m) r1 Hb1 ltac:(done)) as (m' & b' & t' & c' & E).
    exists m', b', t', c'. cbn [length replicate interleave occur]. rewrite turn_step, Et. exact E.
Qed.
End Facts.

(** * Properties *)

(** C26: every interleaving of the two threads is one of atomic actions: setting
    the port, transmitting, a turn of the receiving loop, a restart, delivering.
    The transmissions are the datagrams received, each once and in order, but
    for the one under way, the ports are theirs, the loops start with the
    buffers the receiving thread had; the shared data is what the actions leave,
    but for what the threads have under way; the datagrams towards UDP are
    the machine's, in order, all of them when no send failed. *)
Theorem threads_serialize {R} `{SimpleRadio R} is_client m r es s :
  interleave is_client es (started m r) = Some s -> inp s <> I_undefined ->
  exists acts a, atomics is_client acts (Machine m r P_try []) = Some a
    /\ tracks a s /\ accounted es acts s /\ called es a s.
Proof. intros E Hu. by apply (run_refined is_client m r es s). Qed.

(** C27: a thread that runs alone from one turn to the next does exactly what
    [in_turn] and [out_turn] say, from any state in which [radio_mutex_] is
    free: the same shared data, the same call of the socket. *)
Theorem turns_alone {R} `{SimpleRadio R} is_client m r l m' r' :
  (forall junk p o, length junk = (PAYLOAD_BUFFER + 4)%nat ->
     (exists fuel, in_turn fuel junk is_client (m, r) = Some (o, (m', r')))
     <-> exists n, interleave is_client (Enter junk :: replicate n Step_in) (System m r None p I_try l)
                   = Some (System m' r' None p (sending o) l))
  /\ (forall d ip port q, (length d <= RCV_BUFFER)%nat ->
     out_turn ip port d (m, r) = Some ((), (m', r'))
     <-> exists n, interleave is_client (Rcvfrom d ip port :: replicate n Step_out) (System m r None O_rcvfrom q l)
                   = Some (System m' r' None O_rcvfrom q l)).
Proof. split; intros; [by apply in_turn_alone|by apply out_turn_alone]. Qed.

(** C28: after a reception the mutex is free one step later, so that a waiting
    [Transmit] can run, unless the frame was a HELLO: while HELLO frames come,
    however many, the receiving thread keeps the mutex and a thread waiting to
    transmit waits. *)
Theorem hellos_keep_mutex {R} `{SimpleRadio R} is_client m r p b t c l :
  (forall s1, in_call is_client Step_in (System m r (Some InThread) p (I_receive b t c) l) = Some s1 ->
     inp s1 = I_undefined
     \/ (exists s2, in_call is_client Step_in s1 = Some s2 /\ radio_mx s2 = None)
     \/ exists b' t' c', inp s1 = I_receive b' t' c' /\ b' !! 0%nat = Some 2)
  /\ (forall hs r' roll payload, length b = (PAYLOAD_BUFFER + 4)%nat -> p = O_lock roll payload ->
     hears_all (Z.of_nat (PAYLOAD_BUFFER + 4)) r (uncurry hello_frame <$> hs) r' ->
     exists s', interleave is_client (replicate (length hs) Step_in)
         (System m r (Some InThread) p (I_receive b t c) l) = Some s'
       /\ radio_mx s' = Some InThread /\ the_radio s' = r' /\ out_call Step_out s' = None).
Proof.
  split.
  - intros s1. rewrite turn_step. intros [= <-].
    destruct (receive_turn _ b t c (m, r)) as [[[|q|[] b' t' c'] [m1 r1]]|] eqn:E; [..|by left]; cbn; eauto.
    apply turn_continued in E. right. right. by do 3 eexists.
  - intros hs r' roll payload Hb -> Hh.
    destruct (hellos_alone is_client hs b t c m r r' (O_lock roll payload) l Hb Hh) as (m' & b' & t' & c' & E).
    eexists. split; [exact E|]. done.
Qed.

(** ** Witnesses *)
Definition talk : list occurrence :=
  [Enter (replicate 260 0); Step_in; Rcvfrom [9; 8] [10] [49]; Step_out; Step_in; Step_out; Step_in; Step_in;
   Sndto false; Step_out; Enter (replicate 260 1); Step_out; Step_out].

(** A frame comes in while a datagram waits to go out. *)
Lemma threads_serialize_witness :
  exists s, interleave true talk (started new_RadioManager [data_frame 4 0 [65]]) = Some s
    /\ to_udp s = [To_port [10] [49] [65]]
    /\ exists acts a, atomics true acts (Machine new_RadioManager [data_frame 4 0 [65]] P_try []) = Some a
         /\ tracks a s /\ accounted talk acts s /\ called talk a s.
Proof.
  eexists. split; [vm_compute; reflexivity|]. split; [reflexivity|].
  apply (threads_serialize true); [vm_compute; reflexivity|done].
Defined.

Lemma turns_alone_witness :
  exists n, interleave true (Enter (replicate 260 0) :: replicate n Step_in)
      (System new_RadioManager [hello_frame 3 0; data_frame 4 0 [65]] None O_rcvfrom I_try [])
    = Some (System (data_seen 4 0 (hello_seen 3 new_RadioManager)) [] None O_rcvfrom (sending (To_broker [65])) []).
Proof.
  apply (proj1 (turns_alone true new_RadioManager [hello_frame 3 0; data_frame 4 0 [65]] []
    (data_seen 4 0 (hello_seen 3 new_RadioManager)) [])); [done|].
  exists 2%nat. vm_compute. reflexivity.
Defined.

Lemma hellos_keep_mutex_witness :
  exists s', interleave true (replicate 2 Step_in)
      (System new_RadioManager [hello_frame 3 0; hello_frame 4 1] (Some InThread) (O_lock 0 [7])
         (I_receive (replicate 260 0) false false) []) = Some s'
    /\ radio_mx s' = Some InThread /\ the_radio s' = [] /\ out_call Step_out s' = None.
Proof.
  apply (proj2 (hellos_keep_mutex true new_RadioManager [hello_frame 3 0; hello_frame 4 1] (O_lock 0 [7])
    (replicate 260 0) false false []) [(3, 0); (4, 1)] [] 0 [7]); [done|done|].
  repeat econstructor.
Defined.
