(* ===== verification/BridgeTypesFacts.v ===== *)
(** The types of the gateway's data: whatever the two threads do, bytes stay
    bytes, buffers keep their sizes and the counts, [int]s in the source and
    mathematical integers in [manager], stay within an [int] for the first
    8388607 steps. *)
From S2P Require Import Prelude Format Bridge LinkFacts BridgeThreads BridgeThreadsFacts.

(** A radio with an invariant that sends frames of bytes of at most 131 bytes,
    four more than a datagram, and reports bytes. *)
Class ByteRadio (R : Type) `{SimpleRadio R} := {
  well : R -> Prop;
  send_well l r : well r -> bytes_ok l -> (length l <= 131)%nat -> well (SendSimpleMessage l r).2;
  receive_well n ms t c r : well r ->
    well (ReceiveSimpleMessage n ms t c r).2 /\ bytes_ok (rx_bytes (ReceiveSimpleMessage n ms t c r).1);
  reset_well r : well r -> well (ResetSX1276 r);
  carrier_well hz r : well r -> well (ChangeCarrier hz r);
  apply_well r : well r -> well (ApplyDefaultLoraConfiguration r) }.

(** The members of [RadioManager]: [uint8_t] counters, and [int] counts between
    0 and [k]: no overflow as long as [k] fits the width of an [int]. *)
Definition manager_typed (k : Z) (m : manager) : Prop :=
  byte_ok (rolling_counter_ m) /\ byte_ok (rolling_counter_rx_ m) /\ 0 <= num_tx_ m <= k
  /\ 0 <= num_valid_received_ m <= k /\ 0 <= num_crc_errors_ m <= k /\ 0 <= num_junk_ m <= k
  /\ 0 <= num_xorv_ m <= k /\ 0 <= dropped_ m <= k.

(** What one step adds to a count: at most 256, to the messages dropped. *)
Definition STEP_COUNT : Z := 256.

Ltac typed_members :=
  unfold manager_typed; cbn; repeat (apply conj; [first [assumption|lia]|]); lia.

Lemma manager_typed_le k k' m : k <= k' -> manager_typed k m -> manager_typed k' m.
Proof. intros Hk (? & ? & ? & ? & ? & ? & ? & ?). typed_members. Qed.

Definition datagram_typed (p : list Z) : Prop := bytes_ok p /\ (length p <= RCV_BUFFER)%nat.
Definition payload_typed (p : list Z) : Prop := bytes_ok p /\ (length p <= PAYLOAD_BUFFER)%nat.
Definition buffer_typed (b : list Z) : Prop := bytes_ok b /\ length b = (PAYLOAD_BUFFER + 4)%nat.

Definition udp_typed (u : udp_out) : Prop :=
  match u with To_port _ _ p | To_broker p => payload_typed p | Nowhere => True end.

Definition out_typed (p : out_pc) : Prop :=
  match p with
  | O_port b _ _ | O_header b => datagram_typed b
  | O_lock roll b | O_send roll b => byte_ok roll /\ datagram_typed b
  | _ => True
  end.

Definition in_typed (p : in_pc) : Prop :=
  match p with
  | I_lock b _ _ | I_receive b _ _ | I_yield b _ _ => buffer_typed b
  | I_got p | I_port p => payload_typed p
  | I_sndto u => udp_typed u
  | _ => True
  end.

Definition occurrence_typed (e : occurrence) : Prop :=
  match e with Rcvfrom b _ _ | Enter b => bytes_ok b | _ => True end.

(** * The methods *)
Lemma byte_load buf off n bs : load buf off n = Some bs -> bytes_ok buf -> bytes_ok bs.
Proof.
  unfold load. destruct (decide _); [|done]. intros [= <-] Hb. by apply Forall_take, Forall_drop.
Qed.

Lemma skipped_bounds r e : byte_ok r -> byte_ok e -> 0 <= skipped r e <= STEP_COUNT.
Proof. unfold skipped, STEP_COUNT. intros Hr He. destruct (Z.ltb_spec (r - e) 1); unfold fits in *; lia. Qed.

Lemma expected_byte k m : manager_typed k m -> byte_ok (expected_counter m).
Proof.
  intros (_ & Hx & _). unfold expected_counter. destruct (Z.eqb_spec (rolling_counter_rx_ m) 0xff);
    unfold fits in *; lia.
Qed.

Lemma typed_handle_frame k b n m x m' :
  manager_typed k m -> bytes_ok b -> handle_frame PAYLOAD_BUFFER b n m = Some (x, m') ->
  manager_typed (k + STEP_COUNT) m' /\ match x with inl p => payload_typed p | inr _ => True end.
Proof.
  intros Hm Hb. pose proof (expected_byte k m Hm) as He. destruct Hm as (H1 & H2 & H3 & H4 & H5 & H6 & H7 & H8).
  unfold handle_frame, STEP_COUNT. destruct (xor_bytes b _) as [xv|]; [|done]. cbn [mbind option_bind].
  destruct (if n <? 1 then None else _) as [l|]; [|done]. cbn [mbind option_bind].
  destruct (negb (xv =? l)).
  { intros [= <- <-]. split; [|done]. typed_members. }
  destruct (b !! 0%nat) as [b0|] eqn:E0; [|done]. destruct (b !! 1%nat) as [b1|] eqn:E1; [|done].
  cbn [mbind option_bind].
  pose proof (Forall_lookup_1 _ _ _ _ Hb E1) as Hb1.
  destruct (b0 =? 2). { intros [= <- <-]. split; [|done]. typed_members. }
  destruct (b0 =? 0).
  2: { intros [= <- <-]. split; [|done]. typed_members. }
  destruct (n <? 4); [done|]. destruct (load b 3 _) as [p|] eqn:Ep; [|done]. cbn [mbind option_bind].
  destruct (decide _) as [Hl|]; [|done]. intros [= <- <-].
  split; [|split; [by eapply byte_load|done]].
  pose proof (skipped_bounds b1 (expected_counter m) Hb1 He). unfold STEP_COUNT in *.
  destruct (_ && _); typed_members.
Qed.

Section Typed.
Context {R : Type} `{HR : SimpleRadio R} {HB : ByteRadio R}.

Definition well_typed (k : Z) (s : system R) : Prop :=
  manager_typed k (managed s) /\ well (the_radio s) /\ out_typed (outp s) /\ in_typed (inp s)
  /\ Forall udp_typed (to_udp s).

Lemma typed_receive_turn k b t c m (r : R) x m' r' :
  manager_typed k m -> well r -> buffer_typed b ->
  receive_turn PAYLOAD_BUFFER b t c (m, r) = Some (x, (m', r')) ->
  manager_typed (k + STEP_COUNT) m' /\ well r' /\ in_typed (after_turn x).
Proof.
  intros Hm Hr [Hb Hl]. unfold receive_turn. rewrite ST_bind_eq. unfold radio_op at 1.
  destruct (receive_well (Z.of_nat (PAYLOAD_BUFFER + 4)) 20000 t c r Hr) as [Hw Ho].
  destruct (ReceiveSimpleMessage _ _ t c r) as [o r1]. cbn [fst snd] in Hw, Ho.
  assert (manager_typed (k + STEP_COUNT) m) as Hk by (apply (manager_typed_le k); [unfold STEP_COUNT; lia|done]).
  destruct (negb (no_fault o)); [by intros [= <- <- <-]|]. rewrite ST_bind_eq. unfold lift_opt at 1.
  destruct (store b 0 (rx_bytes o)) as [b1|] eqn:Es; [|done]. cbn [fmap option_fmap option_map].
  assert (buffer_typed b1) as Hb1.
  { split; [exact (Forall_bytes_store _ _ _ _ Hb Ho Es)|]. by rewrite (store_length _ _ _ _ Es). }
  destruct (negb (rx_timeout o) && negb (rx_crc_error o)).
  - rewrite ST_bind_eq. unfold Bridge.this at 1. cbv beta iota. rewrite ST_bind_eq. unfold lift_opt at 1.
    destruct (handle_frame PAYLOAD_BUFFER b1 (rx_size o) m) as [[y m1]|] eqn:Eh; [|done].
    intros [= <- <- <-].
    destruct (typed_handle_frame k b1 _ m y _ Hm (proj1 Hb1) Eh) as [Hm1 Hy]. by destruct y as [p|[]].
  - destruct (rx_crc_error o); intros [= <- <- <-]; [|done].
    split; [|done]. destruct Hm as (H1 & H2 & H3 & H4 & H5 & H6 & H7 & H8). unfold STEP_COUNT.
    typed_members.
Qed.

Lemma typed_send k roll p m (r : R) a m' r' :
  manager_typed k m -> well r -> byte_ok roll -> datagram_typed p ->
  send_framed roll p (m, r) = Some (a, (m', r')) -> manager_typed (k + STEP_COUNT) m' /\ well r'.
Proof.
  intros Hm Hr Hroll [Hp Hl]. unfold send_framed. rewrite ST_bind_eq. unfold Bridge.this at 1. cbv beta iota.
  rewrite ST_bind_eq. unfold radio_op at 1.
  pose proof (send_well (data_frame roll (rolling_counter_rx_ m) p) r Hr) as Hw.
  destruct (SendSimpleMessage _ r) as [sent r1]. cbn [snd] in Hw.
  destruct Hm as (H1 & H2 & H3 & H4 & H5 & H6 & H7 & H8).
  assert (well r1) as Hr1.
  { apply Hw; [by apply byte_frame|]. unfold data_frame, seal. rewrite !length_app. cbn.
    unfold RCV_BUFFER in Hl. lia. }
  unfold STEP_COUNT. destruct sent; intros [= <- <- <-]; (split; [|done]); typed_members.
Qed.

Lemma typed_roll k m (r : R) roll m' r' :
  manager_typed k m -> next_roll (m, r) = Some (roll, (m', r')) ->
  manager_typed (k + STEP_COUNT) m' /\ byte_ok roll /\ r' = r.
Proof.
  intros (H1 & H2 & H3 & H4 & H5 & H6 & H7 & H8) [= <- <- <-]. split; [|by split].
  assert (byte_ok (if rolling_counter_ m =? 0xff then 0 else rolling_counter_ m + 1)).
  { destruct (Z.eqb_spec (rolling_counter_ m) 0xff); unfold fits in *; lia. }
  unfold STEP_COUNT. typed_members.
Qed.

Lemma typed_destination is_client p m : payload_typed p -> in_typed (sending (destination is_client p m)).
Proof. intros Hp. unfold destination. destruct (GetPort m) as [[ip port]|]; [done|]. by destruct is_client. Qed.

Lemma typed_out k e (s s' : system R) :
  occurrence_typed e -> well_typed k s -> out_call e s = Some s' ->
  well_typed (k + STEP_COUNT) s'.
Proof.
  intros He (Hm & Hr & Ho & Hi & Hu).
  assert (manager_typed (k + STEP_COUNT) (managed s)) as Hk
    by (apply (manager_typed_le k); [unfold STEP_COUNT; lia|done]). unfold out_call. destruct s as [m r mx p q l]. cbn in *.
  destruct p, e; try done; cbn in Ho, He.
  - destruct (decide _) as [Hl|]; [|done]. intros [= <-]. destruct buffer; done.
  - by intros [= <-].
  - by intros [= <-].
  - intros E. apply bind_Some in E as ([roll s1] & (m1 & r1 & E1 & ->)%perform_Some & E).
    injection E as <-. destruct (typed_roll _ _ _ _ _ _ Hm E1) as (Hm1 & Hroll & ->). done.
  - intros E. apply fmap_Some in E as (s1 & [_ ->]%acquire_Some & ->). done.
  - intros E. apply bind_Some in E as ([a s1] & (m1 & r1 & E1 & ->)%perform_Some & E).
    injection E as <-. destruct Ho as [Hroll Hd]. destruct (typed_send _ _ _ _ _ _ _ _ Hm Hr Hroll Hd E1). done.
  - by intros [= <-].
Qed.

Lemma typed_in k is_client e (s s' : system R) :
  occurrence_typed e -> well_typed k s -> in_call is_client e s = Some s' ->
  well_typed (k + STEP_COUNT) s'.
Proof.
  intros He (Hm & Hr & Ho & Hi & Hu).
  assert (manager_typed (k + STEP_COUNT) (managed s)) as Hk
    by (apply (manager_typed_le k); [unfold STEP_COUNT; lia|done]). unfold in_call. destruct s as [m r mx p q l]. cbn in *.
  destruct q, e; try done; cbn in Hi, He.
  - destruct (decide _) as [Hl|]; [|done]. by intros [= <-].
  - intros E. apply fmap_Some in E as (s1 & [_ ->]%acquire_Some & ->). done.
  - intros [= <-]. destruct (perform _ _) as [[x s1]|] eqn:E; [|done].
    apply perform_Some in E as (m1 & r1 & E1 & ->).
    destruct (typed_receive_turn _ _ _ _ _ _ _ _ _ Hm Hr Hi E1) as (Hm1 & Hr1 & Hx). done.
  - by intros [= <-].
  - by intros [= <-].
  - by intros [= <-].
  - intros [= <-]. repeat split; cbn; try done; try apply Hk. by apply typed_destination.
  - intros [= <-]. destruct thrown; [done|]. repeat split; cbn; try done; try apply Hk.
    apply Forall_app. by split; [|constructor].
  - intros E. apply fmap_Some in E as (s1 & [_ ->]%acquire_Some & ->). done.
  - intros [= <-]. repeat split; cbn; try done; try apply Hk. by apply reset_well.
  - intros [= <-]. repeat split; cbn; try done; try apply Hk. by apply carrier_well.
  - intros [= <-]. repeat split; cbn; try done; try apply Hk. by apply apply_well.
  - by intros [= <-].
Qed.

Lemma typed_occur k is_client e (s s' : system R) :
  occurrence_typed e -> well_typed k s -> occur is_client e s = Some s' -> well_typed (k + STEP_COUNT) s'.
Proof.
  intros He Hs E. destruct e; first [exact (typed_out _ _ _ _ He Hs E)|exact (typed_in _ is_client _ _ _ He Hs E)].
Qed.

Lemma typed_run is_client es : forall k (s s' : system R),
  Forall occurrence_typed es -> well_typed k s -> interleave is_client es s = Some s' ->
  well_typed (k + STEP_COUNT * Z.of_nat (length es)) s'.
Proof.
  induction es as [|e es IH]; intros k s s' He Hs.
  - intros [= <-]. by rewrite Z.mul_0_r, Z.add_0_r.
  - inversion He as [|? ? He1 He2]; subst. cbn [interleave length].
    destruct (occur is_client e s) as [s1|] eqn:E; [|done]. cbn [mbind option_bind]. intros E1.
    replace (k + STEP_COUNT * Z.of_nat (S (length es)))
      with ((k + STEP_COUNT) + STEP_COUNT * Z.of_nat (length es)) by lia.
    exact (IH _ _ _ He2 (typed_occur _ _ _ _ _ He1 Hs E) E1).
Qed.
End Typed.

(** * Properties *)

(** C24: whatever the threads do from the start of the gateway, in any
    interleaving, with datagrams and a stack of bytes and a radio that reports
    bytes: the two counters of the headers are bytes; every local buffer keeps
    its size and holds bytes; only frames of at most 131 bytes are ever handed
    to the radio, and only datagrams of at most 256 bytes to the socket; and
    after [n] steps each of the six [int] counts is between 0 and 256 * [n], so
    that none overflows in the first 8388607 steps. *)
Theorem threads_typed {R} `{HR : SimpleRadio R} {HB : ByteRadio R} is_client es (r : R) s :
  well r -> Forall occurrence_typed es ->
  interleave is_client es (started new_RadioManager r) = Some s ->
  well_typed (STEP_COUNT * Z.of_nat (length es)) s.
Proof.
  intros Hr He E. apply (typed_run _ _ 0 _ _ He) in E; [by rewrite Z.add_0_l in E|].
  split; [|done]. repeat split; cbn; lia.
Qed.

(** ** Witness: a radio that hears a list of frames and records those it sends. *)
Definition recorder : Type := list (list Z) * list (list Z).
#[export] Instance recorder_radio : SimpleRadio recorder := {|
  SendSimpleMessage l r := (true, (r.1, r.2 ++ [l]));
  ReceiveSimpleMessage _ _ _ _ r :=
    match r.1 with
    | [] => (Report true 0 true false [], r)
    | f :: fs => (Report true (Z.of_nat (length f)) false false f, (fs, r.2))
    end;
  ResetSX1276 r := r; ChangeCarrier _ r := r; ApplyDefaultLoraConfiguration r := r |}.

#[export] Instance recorder_bytes : ByteRadio recorder.
Proof.
  refine {| well r := Forall (Forall (fits 8)) r.1 /\ Forall (fun l => bytes_ok l /\ (length l <= 131)%nat) r.2 |};
    try done.
  - intros l r [H1 H2] Hl Hn. split; [done|]. apply Forall_app. by split; [|constructor].
  - intros n ms t c [[|f fs] sent] [H1 H2]; [by split|]. inversion H1; subst. by split.
Defined.

Definition busy : list occurrence :=
  [Enter (replicate 260 0); Rcvfrom [9; 8] [10] [49]; Step_out; Step_out; Step_out; Step_out; Step_out;
   Step_in; Step_in; Step_in; Step_in; Sndto false].

Lemma threads_typed_witness :
  exists s, interleave true busy (started new_RadioManager ([data_frame 4 0 [65]], [])) = Some s
    /\ well_typed 3072 s /\ (the_radio s).2 = [data_frame 0 255 [9; 8]] /\ to_udp s = [To_port [10] [49] [65]].
Proof.
  eexists. split; [vm_compute; reflexivity|]. split; [|by vm_compute].
  apply (threads_typed true busy ([data_frame 4 0 [65]], [])); [..|vm_compute; reflexivity].
  - split; [|constructor]. constructor; [|constructor]. by apply (bool_decide_eq_true_1 (bytes_ok (data_frame 4 0 [65]))).
  - repeat (constructor; [first [by apply (bool_decide_eq_true_1 (bytes_ok _))|done]|]). constructor.
Defined.
