(* ===== verification/BridgeMain.v ===== *)
(** The start of the gateway: [main] of
    [src/software/sx1276/sx1276_mqttsn_bridge.cpp] over the platforms of
    [Buses] and the driver of [RadioLinux].

    The sockets are class [Sockets]: a constructor that throws ends the program.
    Output, the trace settings and the waits for the threads are left out. *)
From S2P Require Import Prelude IpAddr Format BusPirate Bridge RadioLinux Buses BridgeThreads.

(** [inet_dgram_server(UDP_BIND_IP, port)] or [inet_dgram_client("127.0.0.1",
    port)]; [false]: it threw. *)
Class Sockets (W : Type) := {
  inet_dgram_server : list Z -> list Z -> W -> bool * W;
  inet_dgram_client : list Z -> list Z -> W -> bool * W }.

Definition UDP_BIND_IP : list Z := str "127.0.0.1".

(** How [main] ends before its threads, or the state they start from. *)
Inductive launch (R : Type) :=
  | Usage
  | Invalid_command
  | Invalid_port
  | Socket_exception
  | No_platform
  | Radio_fault
  | Running (p : platform) (s : system R).
Arguments Usage {R}. Arguments Invalid_command {R}. Arguments Invalid_port {R}.
Arguments Socket_exception {R}. Arguments No_platform {R}. Arguments Radio_fault {R}.
Arguments Running {R}.

Section Main.
Context {W : Type} `{DeviceFiles W} `{SpiDev W} `{HK : Clock W} `{Gpio W} `{SerialPort W} `{TermiosFlags}
  `{Sockets W}.
Variables (B115200 : Z) (bp_junk : list Z) (junk : Z) (high : bool).   (* [high]: SX1276_HIGH is "1" *)

(** The platform's bus, and its reset as the radio manager uses it. *)
Definition bus_of (p : platform) : SPI W :=
  match p with
  | BusPiratePlatform _ => BusPirateSPI.bus
  | Carambola2Platform fd _ => SpidevSPI.bus fd
  end.
Definition reset_of (p : platform) : Platform W :=
  {| platform_reset w := match ResetSX1276 p w with Some (_, w') => w' | None => w end |}.
Definition radio_of (p : platform) : SimpleRadio (linux_radio * W) :=
  @gateway_radio W (bus_of p) HK (reset_of p) junk.

(** From the platform on. The threads' state holds the world as well. *)
Definition start (p : platform) : ST W (launch (linux_radio * W)) := fun w =>
  '(_, (r, w)) ← @construct W (bus_of p) junk (new_radio junk high, w);
  let r := SetSymbolTimeout 732 r in
  '(_, (m, (r, w))) ← Restart (H := radio_of p) (new_RadioManager, (r, w));
  if fault_ r then '(_, w) ← delete p w; Some (Radio_fault, w)
  else
    '(_, (m, (r, w))) ← TransmitHello (H := radio_of p) (m, (r, w));
    Some (Running p (started m (r, w)), w).

Definition main (argv : list (list Z)) : ST W (launch (linux_radio * W)) :=
  match argv with
  | _ :: device :: udp_type :: udp_port :: _ =>
      if negb (bool_decide (udp_type = str "listen")) && negb (bool_decide (udp_type = str "connect"))
      then mret Invalid_command
      else
        port ← lift_opt (atoi udp_port);
        if port <? 1 then mret Invalid_port
        else
          ok ← op (if bool_decide (udp_type = str "listen")
                   then inet_dgram_server UDP_BIND_IP udp_port else inet_dgram_client UDP_BIND_IP udp_port);
          if negb ok then mret Socket_exception
          else
            p ← GetInstance B115200 bp_junk device;
            match (p : option platform) with
            | None => mret No_platform
            | Some p => op_ (RadioLinux.usleep 100);; start p
            end
  | _ => mret Usage
  end.
End Main.
