(* ===== verification/BridgeMainFacts.v ===== *)
(** The start of the gateway: the checks of its arguments, what a radio on
    the kernel's SPI bus has sent before the threads run, and the descriptors
    that are open when it ends. *)
From S2P Require Import Prelude IpAddr Format Radio RadioFacts BusPirate BusPirateFacts Bridge LinkFacts RadioLinux RadioLinuxFacts.
From S2P Require Import GatewayFacts Buses BusesFacts BridgeThreads BridgeMain.

(** * What the configuration leaves alone *)

(** The members only the setters change. *)
Definition fixed (r : linux_radio) : Z * Z * bool * bool * Z * Z :=
  (max_tx_payload_bytes_ r, max_rx_payload_bytes_ r, continuousMode_ r, high_power_mode_ r,
   preamble_ r, symbolTimeout_ r).

(** An invariant of the driver's configuration methods: of the object it may say
    what they do not assign, of the world what the bus and the clock keep, as long
    as the registers written are [allowed]. *)
Record configured {W} `{SPI W} `{Clock W} (allowed : Z -> Prop) (I : linux_radio * W -> Prop) : Prop := {
  keep_fault b r w : I (r, w) -> I (with_fault b r, w);
  keep_setup b r w : I (r, w) -> I (with_setup b r, w);
  keep_version x r w : I (r, w) -> I (with_version x r, w);
  keep_carrier x r w : I (r, w) -> I (with_carrier x r, w);
  keep_sleep us r w : 0 <= us -> I (r, w) -> I (r, RadioLinux.usleep us w);
  keep_now r w : I (r, w) -> I (r, (now w).2);
  keep_read reg old r w : fits 7 reg -> I (r, w) -> I (r, (spi_ReadRegister reg old w).2);
  keep_write reg x r w : fits 7 reg -> allowed reg -> I (r, w) -> I (r, (spi_WriteRegister reg x w).2) }.

(** The registers of the modem's settings: configuring writes them, no method
    that sends or tunes does. *)
Definition modem_regs : list Z := [SX1276REG_ModemConfig1; SX1276REG_ModemConfig2; SX1276REG_SymbTimeoutLsb].

Create HintDb configured.

Section Configured.
Context {W : Type} `{HS : SPI W} `{HK : Clock W} (allowed : Z -> Prop) (I : linux_radio * W -> Prop).
Hypothesis HI : configured allowed I.
Hypothesis others_allowed : forall reg, reg ∉ modem_regs -> allowed reg.
Hypothesis modem_allowed : forall reg, reg ∈ modem_regs -> allowed reg.
Ltac allow :=
  first [apply others_allowed; by apply (bool_decide_unpack _) | apply modem_allowed; by apply (bool_decide_unpack _)].
Ltac in_range := first [assumption | by apply (bool_decide_unpack (fits 7 _))].

Lemma keeps_object : keeps I this.
Proof. intros [r w] a s' Hx [= <- <-]. done. Qed.
Lemma keeps_set f : (forall r w, I (r, w) -> I (f r, w)) -> keeps I (set_this f).
Proof. intros Hf [r w] a s' Hx [= <- <-]. by apply Hf. Qed.
Lemma keeps_pause us : 0 <= us -> keeps I (pause us).
Proof. intros Hu [r w] a s' Hx [= <- <-]. by apply (keep_sleep allowed I HI). Qed.
Lemma keeps_now : keeps I time_now.
Proof.
  intros [r w] a s' Hx. pose proof (keep_now allowed I HI r w Hx) as Hr. unfold time_now.
  destruct (now w) as [t w']. by intros [= <- <-].
Qed.
Lemma keeps_spi_read reg old : fits 7 reg -> keeps I (spi_read reg old).
Proof.
  intros Hf [r w] a s' Hx. pose proof (keep_read allowed I HI reg old r w Hf Hx) as Hr. unfold spi_read.
  destruct (spi_ReadRegister reg old w) as [[ok y] w']. by intros [= <- <-].
Qed.
Lemma keeps_spi_write reg y : fits 7 reg -> allowed reg -> keeps I (spi_write reg y).
Proof.
  intros Hf Hal [r w] a s' Hx. pose proof (keep_write allowed I HI reg y r w Hf Hal Hx) as Hr. unfold spi_write.
  destruct (spi_WriteRegister reg y w) as [ok w']. by intros [= <- <-].
Qed.

Ltac keep_all :=
  repeat first
    [ solve [auto 1 with configured nocore] | apply keeps_ret | apply keeps_object | apply keeps_pause; first [assumption|lia]
    | apply keeps_now | apply keeps_spi_read; in_range | apply keeps_spi_write; [in_range|first [assumption|allow]]
    | apply keeps_set; intros ? ?;
      first [apply (keep_fault allowed I HI) | apply (keep_setup allowed I HI) | apply (keep_version allowed I HI) | apply (keep_carrier allowed I HI)]
    | apply keeps_bind; [|intros ?]
    | match goal with
      | |- keeps _ (when ?b _) => unfold when; destruct b
      | |- keeps _ (if ?b then _ else _) => destruct b
      | |- keeps _ (match ?x with _ => _ end) => destruct x
      end ].

Lemma keeps_harder n reg v : fits 7 reg -> keeps I (ReadRegisterHarder reg v n).
Proof.
  intros Hf. revert v. induction n as [|n IH]; intros v; cbn; [keep_all|].
  apply keeps_bind; [keep_all|]. intros [[] y]; [keep_all|apply IH].
Qed.
Lemma keeps_verify reg v : fits 7 reg -> allowed reg -> keeps I (WriteRegisterVerify reg v).
Proof.
  intros Hf Hal. unfold WriteRegisterVerify. assert (0 <= DEFAULT_INTRA_DELAY_US) as Hd by done.
  revert Hd. generalize DEFAULT_INTRA_DELAY_US. intros d Hd.
  generalize 2%nat. intros n. induction n as [|n IH]; cbn [verify_loop]; [keep_all|].
  apply keeps_bind; [keep_all|intros ok]. apply keeps_bind; [keep_all|intros [b c]].
  destruct (_ && _); [keep_all|done].
Qed.
#[local] Hint Extern 1 (keeps _ (ReadRegisterHarder _ _ _)) => apply keeps_harder; in_range : configured.
#[local] Hint Extern 1 (keeps _ (WriteRegisterVerify _ _)) => apply keeps_verify; [in_range|allow] : configured.

Lemma keeps_ReadCarrier junk : keeps I (ReadCarrier junk).
Proof. unfold ReadCarrier. keep_all. Qed.
#[local] Hint Resolve keeps_ReadCarrier : configured.

Lemma keeps_Standby : keeps I Standby.
Proof. unfold Standby, EnterStandby. keep_all. Qed.
Lemma keeps_Sleep : keeps I Sleep.
Proof. unfold Sleep, EnterSleep. keep_all. Qed.
Lemma keeps_program : keeps I program.
Proof. unfold program. keep_all. Qed.
#[local] Hint Resolve keeps_Standby keeps_Sleep keeps_program : configured.

Lemma keeps_construct junk : keeps I (construct junk).
Proof. unfold construct. keep_all. Qed.
Lemma keeps_ChangeCarrier junk hz : keeps I (ChangeCarrier junk hz).
Proof. unfold ChangeCarrier. keep_all. Qed.
Lemma keeps_Apply junk : keeps I (ApplyDefaultLoraConfiguration junk).
Proof. unfold ApplyDefaultLoraConfiguration. keep_all. Qed.


Lemma keeps_fifo_loop b pos v l : keeps I (fifo_loop b pos v l).
Proof.
  revert b v. induction l as [|x l IH]; intros b v; cbn [fifo_loop]; [keep_all|].
  apply keeps_bind; [keep_all|intros ok]. apply keeps_bind; [keep_all|intros u].
  apply keeps_bind; [keep_all|intros [k y]]. destruct (negb _); [keep_all|apply IH].
Qed.
Lemma keeps_tx_loop fuel t1 v : keeps I (tx_loop fuel t1 v).
Proof.
  revert v. induction fuel as [|fuel IH]; intros v; cbn [tx_loop]; [apply keeps_undefined|].
  apply keeps_bind; [keep_all|intros [ok y]]. destruct (negb ok); [keep_all|].
  destruct (z2b _); [keep_all|]. apply keeps_bind; [keep_all|intros u].
  apply keeps_bind; [keep_all|intros t]. destruct (t <? t1); [apply IH|keep_all].
Qed.
#[local] Hint Resolve keeps_fifo_loop keeps_tx_loop : configured.

Lemma keeps_Send junk fuel l : keeps I (SendSimpleMessage junk fuel l).
Proof. unfold SendSimpleMessage, start_tx. keep_all. Qed.

Lemma keeps_run {A} (d : A) (m : ST (linux_radio * W) A) s : keeps I m -> I s -> I (run d m s).2.
Proof. intros Hm Hs. unfold run. destruct (m s) as [[a s']|] eqn:E; [|done]. by apply (Hm s a s'). Qed.
End Configured.

Lemma fixed_configured {W} `{SPI W} `{Clock W} x :
  configured (fun _ => True) (fun s : linux_radio * W => fixed s.1 = x).
Proof. by split. Qed.

Lemma usable_fixed r r' : fixed r' = fixed r -> usable r -> usable r'.
Proof. unfold usable. by intros [= -> -> -> _ _ ->]. Qed.

(** The chip keeps the registers of its settings as long as none is written. *)
Definition modem_kept (v v' : view) : Prop := forall a, a ∈ modem_regs -> regs v' !!! a = regs v !!! a.

Lemma modem_not a b : a ∈ modem_regs -> b ∉ modem_regs -> b <> a.
Proof. by intros Ha Hb ->. Qed.

Lemma chip_reads_modem a v x v' : chip_reads a v x v' -> modem_kept v v'.
Proof.
  intros Hc b Hb. assert (SX1276REG_OpMode <> b) as H1 by (apply modem_not; [done|by apply (bool_decide_unpack _)]).
  assert (SX1276REG_FifoRxNbBytes <> b) as H2 by (apply modem_not; [done|by apply (bool_decide_unpack _)]).
  revert Hc. unfold chip_reads. destruct (a =? SX1276REG_Fifo); [by intros [_ ->]|].
  destruct (a =? SX1276REG_IrqFlags); [|by intros [-> _]].
  destruct (rx v) as [[[|n] e]|].
  - intros [_ ->]. cbn. rewrite lookup_total_insert_ne by done. destruct e; [done|]. cbn. by rewrite lookup_total_insert_ne.
  - by intros (_ & _ & ->).
  - intros ->. destruct (Z.testbit x 3); [|done]. cbn. by rewrite lookup_total_insert_ne.
Qed.

Lemma chip_writes_modem a x v : a ∉ modem_regs -> modem_kept v (chip_writes a x v).
Proof.
  intros Ha b Hb. pose proof (modem_not _ _ Hb Ha) as Hn. unfold chip_writes.
  destruct (a =? SX1276REG_Fifo); [done|]. destruct (a =? SX1276REG_FifoAddrPtr); [done|].
  destruct (a =? SX1276REG_OpMode).
  - case_bool_decide; [done|].
    destruct (x =? 0x83); [|destruct (x =? 0x86); [rewrite regs_listen|]]; cbn; by rewrite lookup_total_insert_ne.
  - case_bool_decide; [|done]. cbn. by rewrite lookup_total_insert_ne.
Qed.

Lemma modem_kept_trans v v1 v2 : modem_kept v v1 -> modem_kept v1 v2 -> modem_kept v v2.
Proof. intros H1 H2 a Ha. by rewrite H2, H1. Qed.

Lemma modem_kept_settings v v' : modem_kept v v' -> settings v' = settings v.
Proof.
  intros Hm. unfold settings, programmed. cbn [fst].
  by rewrite !Hm by (by apply (bool_decide_unpack _)).
Qed.

Lemma modem_configured {W} `{HS : SPI W} `{HK : Clock W} {HC : LinuxChip W} v :
  configured (fun reg => reg ∉ modem_regs) (fun s : linux_radio * W => modem_kept v (sees s.2)).
Proof.
  split; cbn [fst snd]; try done.
  - intros us r w Hu Hw. by destruct (usleep_passes us w Hu) as [-> _].
  - intros r w Hw. pose proof (now_shows w) as Hn. destruct (now w) as [t w'].
    cbn [snd]. by destruct Hn as (_ & -> & _).
  - intros reg old r w Hf Hw. pose proof (read_result reg old w Hf) as Hr.
    destruct (spi_ReadRegister reg old w) as [[ok x] w']. destruct Hr as (_ & _ & _ & Hr). cbn [snd].
    destruct ok; [|by rewrite Hr]. by eapply modem_kept_trans, chip_reads_modem.
  - intros reg x r w Hf Hreg Hw. pose proof (write_result reg x w Hf) as Hr.
    destruct (spi_WriteRegister reg x w) as [ok w']. destruct Hr as (_ & _ & Hr). cbn [snd]. rewrite Hr.
    destruct ok; [|done]. by eapply modem_kept_trans, chip_writes_modem.
Qed.

(** * The radio started *)

(** The first frames of the bridge, from the counter [c] and the digit [i]. *)
Fixpoint hellos (n : nat) (c i : Z) : list (list Z) :=
  match n with O => [] | S n => hello_frame c i :: hellos n (u8 (c + 1)) (i + 1) end.

Section Start.
Context {W : Type} `{HS : SPI W} `{HK : Clock W} `{HP : Platform W} {HC : LinuxChip W}.
Variable junk : Z.
Hypothesis junk_ok : fits 8 junk.
Hypothesis bus_works : reliable.
#[local] Instance started_radio : SimpleRadio (linux_radio * W) := gateway_radio junk.

(** The constructor's accesses send nothing. *)
Lemma t_construct r w :
  exists r' w', construct junk (r, w) = Some ((), (r', w')) /\ fixed r' = fixed r /\ aired (sees w') = aired (sees w).
Proof.
  assert (exists r' w', construct junk (r, w) = Some ((), (r', w')) /\ aired (sees w') = aired (sees w)) as (r' & w' & E & Ha).
  { unfold construct. rewrite ST_bind_eq.
    destruct (spi_read_runs 0x42 junk r w) as (ok & x & w1 & -> & _ & _ & _ & Hw1); [by apply (bool_decide_unpack (fits 7 0x42))|done|].
    rewrite ST_bind_eq. unfold set_this at 1. cbv beta iota. rewrite ST_bind_eq. unfold set_this at 1. cbv beta iota.
    destruct (t_ReadCarrier (with_fault (negb ok) (with_version x r)) (sees w1) junk junk_ok
      (with_fault (negb ok) (with_version x r), w1)) as ([] & [r2 w2] & E & f & Ha & _); [by apply lin_tracks|].
    do 2 eexists. split; [exact E|]. cbn [snd] in Ha. rewrite Ha.
    destruct ok; [by eapply chip_reads_silent|by rewrite Hw1]. }
  exists r', w'. split; [done|]. split; [|done].
  by apply (keeps_construct _ _ (fixed_configured (fixed r)) junk (r, w) () (r', w')).
Qed.

(** Tuned and configured, nothing sent. *)
Lemma reconfigured r w :
  usable r ->
  exists b r1 w1 r2 w2, ChangeCarrier junk 919000000 (r, w) = Some (b, (r1, w1))
    /\ ApplyDefaultLoraConfiguration junk (r1, w1) = Some (true, (r2, w2))
    /\ fault_ r2 = false /\ fixed r2 = fixed r /\ aired (sees w2) = aired (sees w)
    /\ settings (sees w2) = (Some 125000, 6, 9, symbolTimeout_ r).
Proof.
  intros (_ & _ & _ & Ht).
  destruct (t_carrier r (sees w) junk 919000000 ltac:(lia) junk_ok (r, w)) as (b & [r1 w1] & E1 & _ & Ha & _);
    [by apply lin_tracks|].
  pose proof (keeps_ChangeCarrier _ _ (fixed_configured (fixed r)) (fun _ _ => Logic.I) junk 919000000 (r, w) b (r1, w1) eq_refl E1) as Hf.
  cbn [fst snd] in *. assert (symbolTimeout_ r1 = symbolTimeout_ r) as Hto by (unfold fixed in Hf; congruence).
  rewrite <- Hto in Ht |- *.
  destruct (t_apply r1 (sees w1) junk Ht junk_ok (r1, w1) (conj eq_refl eq_refl)) as (ok & [r2 w2] & E2 & Ha2 & Hok & Hrel).
  pose proof (keeps_Apply _ _ (fixed_configured (fixed r1)) (fun _ _ => Logic.I) (fun _ _ => Logic.I) junk (r1, w1) ok (r2, w2) eq_refl E2) as Hf2.
  cbn [fst snd] in *. rewrite (Hrel bus_works) in *. destruct (Hok eq_refl) as [Hfl Hset].
  exists b, r1, w1, r2, w2. rewrite Ha2, Ha. split_and!; congruence || done.
Qed.

Lemma Restart_ready m r w :
  usable r -> aired (sees (platform_reset w)) = aired (sees w) ->
  exists r' w', Restart (m, (r, w)) = Some ((), (m, (r', w')))
    /\ fault_ r' = false /\ fixed r' = fixed r /\ aired (sees w') = aired (sees w)
    /\ settings (sees w') = (Some 125000, 6, 9, symbolTimeout_ r).
Proof.
  intros Hu Hq. destruct (reconfigured r (platform_reset w) Hu) as (b & r1 & w1 & r2 & w2 & E1 & E2 & Hrest).
  rewrite Hq in Hrest. exists r2, w2. split; [|done]. unfold Restart. rewrite ST_bind_eq. unfold radio_op at 1.
  cbn [Bridge.ResetSX1276 started_radio gateway_radio]. rewrite ST_bind_eq. unfold radio_op at 1.
  change (Bridge.ChangeCarrier 919000000 (r, platform_reset w))
    with (run true (ChangeCarrier junk 919000000) (r, platform_reset w)).2.
  unfold run at 1. rewrite E1. unfold radio_op.
  change (Bridge.ApplyDefaultLoraConfiguration _)
    with (run false (ApplyDefaultLoraConfiguration junk) (r1, w1)).2.
  unfold run. by rewrite E2.
Qed.

Lemma hello_loop_airs n i m r w :
  usable r -> fault_ r = false ->
  exists c r' w', hello_loop n i (m, (r, w)) = Some ((), (set_counter c m, (r', w')))
    /\ c = iter_n n (fun c => u8 (c + 1)) (rolling_counter_ m)
    /\ fixed r' = fixed r /\ fault_ r' = false /\ modem_kept (sees w) (sees w')
    /\ aired (sees w') = aired (sees w) ++ hellos n (rolling_counter_ m) i.
Proof.
  revert i m r w. induction n as [|n IH]; intros i m r w Hu Hf.
  { exists (rolling_counter_ m), r, w. rewrite app_nil_r. by destruct m. }
  cbn [hello_loop hellos]. rewrite ST_bind_eq. unfold Bridge.this at 1. cbv beta iota.
  rewrite ST_bind_eq. unfold on_manager at 1. cbv beta iota. rewrite ST_bind_eq. unfold radio_op at 1.
  set (fr := hello_frame (rolling_counter_ m) i).
  assert (Z.of_nat (length fr) <= 127) as Hfr by (by vm_compute).
  assert (send_outcome r (sees w) fr (Bridge.SendSimpleMessage fr (r, w)).1 (Bridge.SendSimpleMessage fr (r, w)).2) as Ho
    by (exact (send_once junk junk_ok r w fr Hu)).
  assert (modem_kept (sees w) (sees (Bridge.SendSimpleMessage fr (r, w)).2.2)) as Hk.
  { refine (keeps_run _ false _ (r, w) (keeps_Send _ _ (modem_configured (sees w)) (fun _ Hn => Hn) junk _ fr) _). done. }
  destruct (Bridge.SendSimpleMessage fr (r, w)) as [d [r1 w1]]. cbn [fst snd] in Ho, Hk.
  destruct Ho as (_ & _ & Hs & b & k & Er). destruct (Hs bus_works Hf Hfr) as (Ha & _ & Hf1). cbn [fst snd] in *.
  assert (fixed r1 = fixed r) as Hx by (by rewrite Er).
  destruct (IH (i + 1) (set_counter (u8 (rolling_counter_ m + 1)) m) r1 w1) as (c & r2 & w2 & -> & Hc & Hx2 & Hf2 & Hk2 & Ha2);
    [by apply (usable_fixed r)|done|].
  exists c, r2, w2. split; [done|]. cbn [rolling_counter_ set_counter] in *.
  split; [done|]. split; [by rewrite Hx2|]. split; [done|].
  split; [by eapply modem_kept_trans|]. rewrite Ha2, Ha, <- app_assoc. done.
Qed.

(** From the platform on, over the chip behind its bus. *)
Lemma launched high w :
  (forall w, aired (sees (platform_reset w)) = aired (sees w)) ->
  exists r0 w0 r1 w1 r2 w2,
    construct junk (new_radio junk high, w) = Some ((), (r0, w0))
    /\ Restart (new_RadioManager, (SetSymbolTimeout 732 r0, w0)) = Some ((), (new_RadioManager, (r1, w1)))
    /\ fault_ r1 = false /\ settings (sees w1) = (Some 125000, 6, 9, 732)
    /\ TransmitHello (new_RadioManager, (r1, w1)) = Some ((), (set_counter 5 new_RadioManager, (r2, w2)))
    /\ fault_ r2 = false /\ usable r2 /\ symbolTimeout_ r2 = 732
    /\ settings (sees w2) = (Some 125000, 6, 9, 732)
    /\ aired (sees w2) = aired (sees w) ++ hellos 5 0 0.
Proof.
  intros Hq. 
  destruct (t_construct (new_radio junk high) w) as (r0 & w0 & E0 & Hx0 & Ha0).
  assert (usable (SetSymbolTimeout 732 r0)) as Hu.
  { unfold fixed in Hx0. cbn in Hx0. injection Hx0 as H1 H2 H3 _ _ _. unfold usable. cbn. rewrite H1, H2, H3.
    split; [done|]. split; [by apply (bool_decide_unpack (fits 8 0x80))|].
    split; [by apply (bool_decide_unpack (fits 8 0x80))|lia]. }
  destruct (Restart_ready new_RadioManager _ w0 Hu (Hq w0)) as (r1 & w1 & E1 & Hf1 & Hx1 & Ha1 & Hs1).
  destruct (hello_loop_airs 5 0 new_RadioManager r1 w1) as (c & r2 & w2 & E2 & Hc & Hx2 & Hf2 & Hk2 & Ha2);
    [by apply (usable_fixed _ _ Hx1)|done|].
  exists r0, w0, r1, w1, r2, w2. split; [done|]. split; [done|]. split; [done|]. split; [done|].
  split; [by rewrite Hc in E2|]. split; [done|]. rewrite Hx1 in Hx2. split; [by apply (usable_fixed _ _ Hx2)|].
  split; [unfold fixed in Hx2; cbn in Hx2; congruence|].
  split; [rewrite (modem_kept_settings _ _ Hk2), Hs1; done|]. by rewrite Ha2, Ha1, Ha0.
Qed.
End Start.

(** The threads of a gateway on the kernel's SPI bus start over a radio that is
    configured and has greeted. *)
Section Launch.
Context {W : Type} `{HD : DeviceFiles W} `{HSD : SpiDev W} `{HK : Clock W} `{HG : Gpio W}
  `{HSP : SerialPort W} `{HT : TermiosFlags} `{HSk : Sockets W} (fd : Z) {HW : SpiWire W fd}.
Variables (speed : Z) (bp_junk : list Z) (junk : Z) (high : bool).
Hypothesis junk_ok : fits 8 junk.

(** The reset line sends nothing. *)
Definition reset_quiet : Prop := forall b x w, aired (wire_view (ugpio_set_value b x w)) = aired (wire_view w).

Lemma reset_silent g w : reset_quiet -> aired (wire_view (@platform_reset W (reset_of (Carambola2Platform fd g)) w)) = aired (wire_view w).
Proof.
  intros Hq.
  change (platform_reset w) with (ugpio_set_value g 1 (RadioLinux.usleep 1000 (ugpio_set_value g 0 w))).
  rewrite Hq. destruct (sleep_passes (fd := fd) 1000 (ugpio_set_value g 0 w) ltac:(lia)) as [-> _]. apply Hq.
Qed.

Lemma start_runs g w :
  wire_reliable -> reset_quiet ->
  exists r w', start junk high (Carambola2Platform fd g) w
      = Some (Running (Carambola2Platform fd g) (started (set_counter 5 new_RadioManager) (r, w')), w')
    /\ usable r /\ fault_ r = false /\ symbolTimeout_ r = 732
    /\ settings (wire_view w') = (Some 125000, 6, 9, 732)
    /\ aired (wire_view w') = aired (wire_view w) ++ hellos 5 0 0.
Proof.
  intros Hrel Hq.
  destruct (@launched W (SpidevSPI.bus fd) HK (reset_of (Carambola2Platform fd g)) (spidev_chip fd)
    junk junk_ok Hrel high w (fun w => reset_silent g w Hq))
    as (r0 & w0 & r1 & w1 & r2 & w2 & E0 & E1 & Hf1 & _ & E2 & Hf2 & Hu & Hto & Hs & Ha).
  exists r2, w2. split; [|done]. unfold start. cbn [bus_of]. rewrite E0. cbn [mbind option_bind].
  change (radio_of junk (Carambola2Platform fd g))
    with (@started_radio W (SpidevSPI.bus fd) HK (reset_of (Carambola2Platform fd g)) junk).
  rewrite E1. cbn [mbind option_bind]. rewrite Hf1, E2. done.
Qed.

Lemma argument_checks prog device udp_type udp_port args w port :
  atoi udp_port = Some port ->
  main speed bp_junk junk high (prog :: device :: udp_type :: udp_port :: args) w =
  if negb (bool_decide (udp_type ∈ [str "listen"; str "connect"])) then Some (Invalid_command, w)
  else if port <? 1 then Some (Invalid_port, w)
  else
    let '(ok, w) := (if bool_decide (udp_type = str "listen") then inet_dgram_server else inet_dgram_client)
                      UDP_BIND_IP udp_port w in
    if negb ok then Some (Socket_exception, w)
    else
      match GetInstance speed bp_junk device w with
      | Some (Some p, w) => start junk high p (RadioLinux.usleep 100 w)
      | Some (None, w) => Some (No_platform, w)
      | None => None
      end.
Proof.
  intros Ep. unfold main.
  assert (negb (bool_decide (udp_type ∈ [str "listen"; str "connect"]))
          = negb (bool_decide (udp_type = str "listen")) && negb (bool_decide (udp_type = str "connect"))) as ->.
  { rewrite <- negb_orb. f_equal. rewrite <- bool_decide_or. apply bool_decide_ext.
    rewrite !elem_of_cons, elem_of_nil. tauto. }
  destruct (_ && _); [done|]. rewrite Ep, ST_bind_eq. unfold lift_opt at 1. cbn [fmap option_fmap option_map].
  destruct (port <? 1); [done|]. rewrite ST_bind_eq. unfold op at 1.
  destruct (bool_decide _); [destruct (inet_dgram_server _ _ w) as [ok w0]|destruct (inet_dgram_client _ _ w) as [ok w0]];
    (destruct ok; [|done]); cbn [negb]; rewrite ST_bind_eq;
    by destruct (GetInstance speed bp_junk device w0) as [[[p|] w1]|].
Qed.
End Launch.

(** * The descriptors of devices *)
Section Descriptors.
Context {W : Type} `{HD : DeviceFiles W} `{HSD : SpiDev W} `{HK : Clock W} `{HG : Gpio W}
  `{HSP : SerialPort W} `{HT : TermiosFlags} `{HSk : Sockets W} {HF : FileTable W}.
Variables (speed : Z) (bp_junk : list Z) (junk : Z) (high : bool).

Lemma default_fds {A} (m : ST W A) (d : A) w : untouched m -> fds (default (d, w) (m w)).2 = fds w.
Proof. intros Hm. destruct (m w) as [[a w']|] eqn:E; [|done]. by eapply untouched_run. Qed.

Lemma descriptors_configured p x :
  @configured W (bus_of p) HK (fun _ => True) (fun s => fds s.2 = x).
Proof.
  split; cbn [snd]; try done; intros.
  - by rewrite sleep_fds.
  - by rewrite now_fds.
  - subst x. destruct p; cbn; apply default_fds, untouched_transactions; exact 0.
  - subst x. destruct p; cbn; apply default_fds, untouched_transactions; exact 0.
Qed.

Lemma total_harder `{SPI W} n reg v : total (ReadRegisterHarder reg v n).
Proof.
  revert v. induction n as [|n IH]; intros v; cbn.
  - apply total_bind; [|intros; apply total_ret]. intros [r w]. by eexists.
  - apply total_bind; [|intros [[] y]; [apply total_ret|apply IH]].
    intros [r w]. unfold spi_read. destruct (spi_ReadRegister reg v w) as [[ok y] w']. by eexists.
Qed.

Lemma total_construct p : total (@construct W (bus_of p) junk).
Proof.
  unfold construct, ReadCarrier. apply total_bind.
  { intros [r w]. unfold spi_read. destruct (spi_ReadRegister _ _ w) as [[ok y] w']. by eexists. }
  intros [ok y]. apply total_bind; [intros [r w]; by eexists|intros _].
  apply total_bind; [intros [r w]; by eexists|intros _].
  apply total_bind; [apply total_harder|intros [? ?]]. apply total_bind; [apply total_harder|intros [? ?]].
  apply total_bind; [apply total_harder|intros [? ?]]. intros [r w]. by eexists.
Qed.

Lemma restart_fds p m r w :
  exists r' w', Restart (H := radio_of junk p) (m, (r, w)) = Some ((), (m, (r', w'))) /\ fds w' = fds w.
Proof.
  set (w1 := @platform_reset W (reset_of p) w).
  set (s2 := (run true (@ChangeCarrier W (bus_of p) HK junk 919000000) (r, w1)).2).
  set (s3 := (run false (@ApplyDefaultLoraConfiguration W (bus_of p) HK junk) s2).2).
  exists s3.1, s3.2. split.
  { transitivity (Some ((), (m, s3))); [done|by destruct s3]. }
  assert (fds w1 = fds w) as Hw1.
  { unfold w1, reset_of. cbn. destruct (ResetSX1276 p w) as [[a w']|] eqn:E; [|done].
    by apply (untouched_run _ _ _ _ (untouched_reset p) E). }
  pose proof (descriptors_configured p (fds w)) as HI.
  refine (keeps_run _ false _ s2 (keeps_Apply _ _ HI (fun _ _ => Logic.I) (fun _ _ => Logic.I) junk) _).
  by refine (keeps_run _ true _ (r, w1) (keeps_ChangeCarrier _ _ HI (fun _ _ => Logic.I) junk _) _).
Qed.

Lemma hello_fds p n i m r w :
  exists m' r' w', hello_loop (H := radio_of junk p) n i (m, (r, w)) = Some ((), (m', (r', w'))) /\ fds w' = fds w.
Proof.
  revert i m r w. induction n as [|n IH]; intros i m r w; [by exists m, r, w|].
  cbn [hello_loop]. rewrite ST_bind_eq. unfold Bridge.this at 1. cbv beta iota.
  rewrite ST_bind_eq. unfold on_manager at 1. cbv beta iota. rewrite ST_bind_eq. unfold radio_op at 1.
  set (fr := hello_frame _ i). set (m1 := set_counter _ m).
  pose proof (keeps_run _ false _ (r, w) (keeps_Send _ _ (descriptors_configured p (fds w)) (fun _ _ => Logic.I) junk 1001 fr) eq_refl) as Hw.
  change (Bridge.SendSimpleMessage fr (r, w)) with (run false (@SendSimpleMessage W (bus_of p) HK junk 1001 fr) (r, w)).
  destruct (run false _ (r, w)) as [d [r1 w1]]. cbn [snd] in Hw.
  destruct (IH (i + 1) m1 r1 w1) as (m2 & r2 & w2 & -> & Hw2). exists m2, r2, w2. split; [done|congruence].
Qed.

Definition ends_with (w : W) (o : option (launch (linux_radio * W) * W)) : Prop :=
  exists l w', o = Some (l, w') /\
    match l with
    | Running p s =>
        0 <= GetSPI p /\ (GetSPI p ∉ fds w) /\ fds w' = ({[GetSPI p]} ∪ fds w) /\ (the_radio s).2 = w'
    | _ => fds w' = fds w
    end.

Lemma start_ends p w s :
  0 <= GetSPI p -> (GetSPI p ∉ fds s) -> fds w = ({[GetSPI p]} ∪ fds s) -> ends_with s (start junk high p w).
Proof.
  intros Hp Hn Hw. unfold start. destruct (total_construct p (new_radio junk high, w)) as [[[] [r0 w0]] E0].
  rewrite E0. cbn [mbind option_bind].
  assert (fds w0 = fds w) as Hw0
    by (by apply (keeps_construct _ _ (descriptors_configured p (fds w)) junk (new_radio junk high, w) () (r0, w0))).
  destruct (restart_fds p new_RadioManager (SetSymbolTimeout 732 r0) w0) as (r1 & w1 & E1 & Hw1).
  rewrite E1. cbn [mbind option_bind]. destruct (fault_ r1).
  - destruct (delete_ends p w1) as [w2 E2]. rewrite E2. cbn [mbind option_bind]. do 2 eexists. split; [done|].
    apply (delete_closes p w1); [done|done|congruence|done].
  - destruct (hello_fds p 5 0 new_RadioManager r1 w1) as (m2 & r2 & w2 & E2 & Hw2).
    unfold TransmitHello. rewrite E2. cbn [mbind option_bind]. do 2 eexists. split; [done|].
    split; [done|]. split; [done|]. split; [congruence|done].
Qed.
End Descriptors.

(** * Properties *)

(** C29: given a positive port, the mode "connect", a socket and a device on the
    kernel's SPI bus that opens and whose transactions work, [main] starts its
    threads over a radio that is configured: the chip's registers decode to a
    bandwidth of 125 kHz, coding rate 6, spreading factor 9 and a symbol timeout
    of 732, as does the object; no fault is pending, reception is single, and
    exactly five HELLO frames with the counters 0 to 4 have gone out, so that the
    next frame carries 5. The reset line is taken to put nothing on the air. *)
Theorem main_launches {W} `{HD : DeviceFiles W} `{HSD : SpiDev W} `{HK : Clock W} `{HG : Gpio W}
    `{HSP : SerialPort W} `{HT : TermiosFlags} `{HSk : Sockets W} fd {HW : SpiWire W fd}
    speed bp_junk junk high prog device udp_port args port g w w0 w1 :
  fits 8 junk -> wire_reliable -> reset_quiet fd ->
  atoi udp_port = Some port -> 1 <= port ->
  inet_dgram_client UDP_BIND_IP udp_port w = (true, w0) ->
  GetInstance speed bp_junk device w0 = Some (Some (Carambola2Platform fd g), w1) ->
  exists r w2,
    main speed bp_junk junk high (prog :: device :: str "connect" :: udp_port :: args) w
    = Some (Running (Carambola2Platform fd g) (started (set_counter 5 new_RadioManager) (r, w2)), w2)
    /\ usable r /\ fault_ r = false /\ symbolTimeout_ r = 732
    /\ settings (wire_view w2) = (Some 125000, 6, 9, 732)
    /\ aired (wire_view w2) = aired (wire_view w1)
         ++ [hello_frame 0 0; hello_frame 1 1; hello_frame 2 2; hello_frame 3 3; hello_frame 4 4].
Proof.
  intros Hj Hrel Hq Ep Hport Hsock Hget.
  rewrite (argument_checks _ _ _ _ _ _ _ _ _ _ _ Ep). cbn [negb].
  rewrite bool_decide_true by (right; by left). rewrite (bool_decide_false (str "connect" = str "listen")) by done.
  rewrite (proj2 (Z.ltb_ge port 1)), Hsock by done. cbn [negb]. rewrite Hget.
  destruct (sleep_passes (fd := fd) 100 w1 ltac:(lia)) as [Hv _].
  destruct (start_runs fd junk high Hj g (RadioLinux.usleep 100 w1) Hrel Hq) as (r & w2 & E & Hu & Hf & Hto & Hs & Ha).
  exists r, w2. split; [exact E|]. rewrite Hv in Ha. done.
Qed.

(** C30: [main] comes to an end or to its threads whatever its arguments, unless
    the port is a number [atoi] does not define. Of the devices it opens with
    [open], every one is closed again when it ends, and exactly one is open when
    it starts the threads: the platform's bus. (The descriptors the GPIO library
    and the socket library hold are not counted: the program drops the one
    [ugpio_open] returns. The libraries are taken to leave the devices' alone.) *)
Theorem main_frees {W} `{HD : DeviceFiles W} `{HSD : SpiDev W} `{HK : Clock W} `{HG : Gpio W}
    `{HSP : SerialPort W} `{HT : TermiosFlags} `{HSk : Sockets W} {HF : FileTable W}
    speed bp_junk junk high argv w :
  reads_fit -> length bp_junk = 6%nat ->
  (forall ip port w, fds (inet_dgram_server ip port w).2 = fds w /\ fds (inet_dgram_client ip port w).2 = fds w) ->
  (forall udp_port, argv !! 3%nat = Some udp_port -> atoi udp_port <> None) ->
  ends_with w (main speed bp_junk junk high argv w).
Proof.
  intros Hfit Hj Hsock Hport.
  destruct argv as [|a0 [|device [|udp_type [|udp_port args]]]]; try by do 2 eexists.
  destruct (atoi udp_port) as [port|] eqn:Ep; [|by destruct (Hport udp_port)].
  rewrite (argument_checks _ _ _ _ _ _ _ _ _ _ _ Ep).
  destruct (negb _); [by do 2 eexists|]. destruct (port <? 1); [by do 2 eexists|].
  set (sock := if bool_decide _ then _ else _).
  assert (fds (sock UDP_BIND_IP udp_port w).2 = fds w) as Hw0
    by (subst sock; destruct (bool_decide _); apply Hsock).
  destruct (sock UDP_BIND_IP udp_port w) as [ok w0]. cbn [snd] in Hw0.
  destruct ok; cbn [negb]; [|by do 2 eexists].
  destruct (get_instance Hfit speed bp_junk Hj device w0) as (o & w1 & -> & Ho). rewrite Hw0 in Ho.
  destruct o as [p|]; [|by do 2 eexists]. destruct Ho as (Hp & Hn & Ho).
  apply start_ends; [done|done|]. by rewrite sleep_fds.
Qed.

(** ** Witnesses *)
#[export] Instance wired_files : DeviceFiles wired := {| sys_open _ w := (5, w); close _ w := w |}.
#[export] Instance wired_gpio : Gpio wired := {|
  ugpio_request_one _ w := (true, w); ugpio_open _ w := (4, w); ugpio_set_value _ _ w := w; ugpio_free _ w := w |}.
#[export] Instance wired_serial : SerialPort wired := {|
  sys_read _ w := (Some [], w); sys_write bs w := (Z.of_nat (length bs), w); BusPirate.usleep _ w := w;
  fcntl_blocking w := (true, w); tcgetattr w := (None, w); tcflush w := (true, w);
  tcsetattr _ w := (true, w); sys_close w := w |}.
#[export] Instance wired_sockets : Sockets wired := {|
  inet_dgram_server _ _ w := (true, w); inet_dgram_client _ _ w := (true, w) |}.

Lemma main_launches_witness :
  exists r w2,
    main (W := wired) 4098 (replicate 6 0) 0 false [str "bridge"; str "/dev/spidev0.1"; str "connect"; str "1883"] (at_bus blank)
    = Some (Running (Carambola2Platform 5 true) (started (set_counter 5 new_RadioManager) (r, w2)), w2)
    /\ usable r /\ fault_ r = false /\ symbolTimeout_ r = 732
    /\ settings (sim_view w2) = (Some 125000, 6, 9, 732)
    /\ aired (sim_view w2)
       = [hello_frame 0 0; hello_frame 1 1; hello_frame 2 2; hello_frame 3 3; hello_frame 4 4].
Proof.
  refine (main_launches (W := wired) 5 4098 (replicate 6 0) 0 false (str "bridge") (str "/dev/spidev0.1") (str "1883") [] 1883
    true (at_bus blank) (at_bus blank) (at_bus blank) _ _ _ _ _ _ _);
    [by apply (bool_decide_unpack (fits 8 0))|done|done|done|lia|done|done].
Defined.

#[export] Instance desk_sockets : Sockets desk := {|
  inet_dgram_server _ _ w := (true, w); inet_dgram_client _ _ w := (true, w) |}.

(** Nothing answers on the bus: the fault ends [main]. *)
Lemma main_frees_witness :
  ends_with (W := desk) ∅
    (main (W := desk) 4098 (replicate 6 0) 0 false [str "bridge"; str "/dev/spidev0.1"; str "listen"; str "1883"] ∅).
Proof.
  apply (main_frees (W := desk)); [|done|done|].
  - intros n w bs w' Hn [= <- <-]. cbn. lia.
  - by intros udp_port [= <-].
Defined.

Example desk_has_no_radio :
  (fst <$> main (W := desk) 4098 (replicate 6 0) 0 false [str "bridge"; str "/dev/spidev0.1"; str "listen"; str "1883"] ∅)
  = Some Radio_fault.
Proof. vm_compute. done. Qed.
