(* ===== verification/GatewayTools.v ===== *)
(** The test programs of the gateway's radio:
    [src/software/sx1276/sx1276_test1_tx.cpp], [sx1276_test1_rx.cpp] and
    [sx1276_dump_regs.cpp], over the platforms of [Buses] and the driver of
    [RadioLinux].

    Output is left out, and with it what only output uses: the counts of faults,
    the turning cursor, the trace settings. The loops run for ever; a turn is a
    definition. The receiver's buffer holds nothing from turn to turn. *)
From S2P Require Import Prelude IpAddr Format BusPirate RadioLinux Buses BridgeMain.

(** How a [main] ends, or what its loop starts from. *)
Inductive ending (A : Type) :=
  | Usage
  | No_platform
  | Radio_fault
  | Done (a : A).
Arguments Usage {A}. Arguments No_platform {A}. Arguments Radio_fault {A}. Arguments Done {A}.

(** The local variables of a test's [main] that its loop uses. *)
Record tester := Tester {
  the_platform : platform;
  the_radio : linux_radio;
  inter_msg_delay_us : Z;
  timeout_ms : Z;              (* of the receiver *)
  total : Z;                   (* of the sender *)
  msg : list Z }.

Definition with_radio (r : linux_radio) (t : tester) : tester :=
  Tester (the_platform t) r (inter_msg_delay_us t) (timeout_ms t) (total t) (msg t).
Definition with_message (n : Z) (m : list Z) (t : tester) : tester :=
  Tester (the_platform t) (the_radio t) (inter_msg_delay_us t) (timeout_ms t) n m.

(** [%6d] *)
Definition pad6 (l : list Z) : list Z := replicate (6 - length l) 32 ++ l.
Definition beacon_text (n : Z) (time : list Z) : list Z :=
  str "TX BEACON " ++ pad6 (sdec n) ++ [32] ++ time ++ [10].

Section Tools.
Context {W : Type} `{HD : DeviceFiles W} `{HSD : SpiDev W} `{HK : Clock W} `{HG : Gpio W}
  `{HSP : SerialPort W} `{HT : TermiosFlags}.
Variables (B115200 : Z) (bp_junk : list Z) (junk : Z) (high : bool).
Variable getenv : string -> option (list Z).
Abbreviation M := (ST W).

(** A method of the radio on the platform's bus. *)
Definition on_bus {A} (p : platform) (m : SPI W -> ST (linux_radio * W) A) (r : linux_radio)
    : M (A * linux_radio) :=
  fun w => '(a, (r, w)) ← m (bus_of p) (r, w); Some ((a, r), w).

(** [platform->ResetSX1276(); radio.ChangeCarrier(919000000);
    radio.ApplyDefaultLoraConfiguration()]. *)
Definition reconfigure (p : platform) (r : linux_radio) : M linux_radio :=
  ResetSX1276 p;;
  '(_, r) ← on_bus p (fun _ => ChangeCarrier junk 919000000) r;
  '(_, r) ← on_bus p (fun _ => ApplyDefaultLoraConfiguration junk) r;
  mret r.

(** [atoi(getenv(key))], or [d]. *)
Definition env_int (key : string) (d : Z) : M Z :=
  match getenv key with Some s => lift_opt (atoi s) | None => mret d end.

(** Both tests up to their loops; only the receiver sets the symbol timeout.
    When [main] returns, the platform is deleted. *)
Definition open_radio (rx : bool) (argv : list (list Z)) : M (ending (platform * linux_radio * Z)) :=
  match argv with
  | _ :: device :: _ =>
      p ← GetInstance B115200 bp_junk device;
      match (p : option platform) with
      | None => mret No_platform
      | Some p =>
          delay_us ← env_int "BEACON_INTERVAL" 200000;
          op_ (RadioLinux.usleep 100);;
          '(_, r) ← on_bus p (fun _ => construct junk) (new_radio junk high);
          ResetSX1276 p;;
          let r := if rx then SetSymbolTimeout 732 r else r in
          '(_, r) ← on_bus p (fun _ => ChangeCarrier junk 919000000) r;
          '(_, r) ← on_bus p (fun _ => ApplyDefaultLoraConfiguration junk) r;
          if fault_ r then delete p;; mret Radio_fault
          else mret (Done (p, r, delay_us))
      end
  | _ => mret Usage
  end.

(** * The sender *)

(** [safe_str(m)] reads up to the terminator. *)
Definition safe_str (m : list Z) : option (list Z) :=
  if bool_decide (0 ∈ m) then Some ((fun c => if (c <? 32) || (c =? 127) then 46 else c) <$> c_string m)
  else None.

(** [stack] is what the stack holds where the array [msg] is. *)
Definition tx_main (stack : list Z) (argv : list (list Z)) : M (ending tester) :=
  e ← open_radio false argv;
  match (e : ending (platform * linux_radio * Z)) with
  | Usage => mret Usage
  | No_platform => mret No_platform
  | Radio_fault => mret Radio_fault
  | Done (p, r, delay_us) =>
      lift_opt (safe_str stack);;
      mret (Done (Tester p r (u32 delay_us) 0 0 stack))
  end.

(** A turn of the loop; [time] is what [strftime] makes of the time. *)
Definition tx_turn (fuel : nat) (time : list Z) (t : tester) : M tester :=
  let n := total t + 1 in
  if n <? 2 ^ 31 then
    m ← lift_opt (snprintf (msg t) 0 128 (beacon_text n time));
    let t := with_message n m t in
    '(sent, r) ← on_bus (the_platform t) (fun _ => SendSimpleText junk fuel m) (the_radio t);
    '(_, r) ← on_bus (the_platform t) (fun _ => Standby) r;
    if (sent : bool) then
      op_ (RadioLinux.usleep (inter_msg_delay_us t));;
      mret (with_radio r t)
    else
      lift_opt (safe_str m);;
      r ← reconfigure (the_platform t) (reset_fault r);
      op_ (RadioLinux.usleep 500000);;
      mret (with_radio r t)
  else undefined.

(** As many turns as there are [times]. *)
Fixpoint tx_loop (fuel : nat) (times : list (list Z)) (t : tester) : M tester :=
  match times with
  | [] => mret t
  | time :: times => t ← tx_turn fuel time t; tx_loop fuel times t
  end.

(** * The receiver *)
Definition rx_main (argv : list (list Z)) : M (ending tester) :=
  e ← open_radio true argv;
  match (e : ending (platform * linux_radio * Z)) with
  | Usage => mret Usage
  | No_platform => mret No_platform
  | Radio_fault => mret Radio_fault
  | Done (p, r, delay_us) =>
      ms ← env_int "TIMEOUT" 5000;
      mret (Done (Tester p r delay_us (u32 ms) 0 []))
  end.

(** A turn of the loop: what was received. *)
Definition rx_turn (fuel : nat) (t : tester) : M (Bridge.rx_report * tester) :=
  '(o, r) ← on_bus (the_platform t)
    (fun _ => ReceiveSimpleMessage junk fuel 127 (timeout_ms t) false false) (the_radio t);
  if Bridge.rx_crc_error o || negb (Bridge.no_fault o) then
    '(_, r) ← on_bus (the_platform t) (fun _ => Standby) r;
    r ← reconfigure (the_platform t) r;
    op_ (RadioLinux.usleep 500000);;
    mret (o, with_radio r t)
  else mret (o, with_radio r t).

(** * The register dump *)

(** [ok = ok && spi->ReadRegister(n, values[n])] for the registers from [n] on,
    of which [values] holds what the array held. *)
Fixpoint dump_loop (p : platform) (n : Z) (ok : bool) (values : list Z) : M (bool * list Z) :=
  match values with
  | [] => mret (ok, [])
  | v :: values =>
      '(ok, v) ← (if ok then op (@spi_ReadRegister W (bus_of p) n v) else mret (false, v));
      '(ok, l) ← dump_loop p (n + 1) ok values;
      mret (ok, v :: l)
  end.

(** The end of [main]: whether every read worked, and what is printed. [values]
    is what the stack holds where the array is. *)
Definition dump_main (values : list Z) (argv : list (list Z)) : M (ending (bool * list Z)) :=
  match argv with
  | _ :: device :: _ =>
      p ← GetInstance B115200 bp_junk device;
      match (p : option platform) with
      | None => mret No_platform
      | Some p =>
          op_ (RadioLinux.usleep 100);;
          '(ok, values) ← dump_loop p 0 true values;
          delete p;;
          mret (Done (ok, values))
      end
  | _ => mret Usage
  end.
End Tools.
