(* ===== verification/GatewayToolsFacts.v ===== *)
(** The gateway's test programs over the kernel's SPI bus: what the sender puts
    on the air, when it is undefined, what the register dump shows, and the
    descriptors they leave. *)
From S2P Require Import Prelude IpAddr Format Radio RadioFacts BusPirate BusPirateFacts Bridge RadioLinux RadioLinuxFacts.
From S2P Require Import GatewayFacts Buses BusesFacts BridgeMain BridgeMainFacts GatewayTools.

(** * Texts *)

(** The text of a beacon message can be sent as a format. *)
Definition printable (l : list Z) : Prop := (37 ∉ l) /\ text_ok l.

Lemma formatted_plain l : 37 ∉ l -> formatted l = Some l.
Proof.
  induction l as [|c l IH]; intros Hn; [done|]. apply not_elem_of_cons in Hn as [Hc Hn].
  cbn [formatted]. rewrite (IH Hn). destruct c as [|c|c]; [done| |done].
  do 6 (destruct c as [c|c|]; try reflexivity). by destruct Hc.
Qed.

Lemma printable_app l1 l2 : printable l1 -> printable l2 -> printable (l1 ++ l2).
Proof. intros [] []. split; [rewrite elem_of_app; tauto|by apply Forall_app]. Qed.

Lemma digits_printable l : Forall (fun c => 48 <= c <= 57) l -> printable l.
Proof.
  intros Hl. split; [|by eapply Forall_impl; [done|]; cbn; lia].
  rewrite Forall_forall in Hl. intros Hc%Hl. lia.
Qed.

Lemma inv_digits_digits fuel : forall x, 0 <= x -> Forall (fun c => 48 <= c <= 57) (inv_digits fuel x).
Proof.
  induction fuel as [|fuel IH]; intros x Hx; [constructor|]. cbn [inv_digits].
  constructor; [word_lia|]. case_match; [constructor|]. apply IH. word_lia.
Qed.

Lemma dec_printable x : 0 <= x -> printable (dec x).
Proof. intros Hx. apply digits_printable, Forall_rev. by apply inv_digits_digits. Qed.

Lemma printable_concrete l : bool_decide (printable l) = true -> printable l.
Proof. apply bool_decide_eq_true. Qed.

Lemma beacon_text_ok n time :
  0 <= n < 2 ^ 31 -> printable time -> (length time < 80)%nat ->
  printable (beacon_text n time) /\ (length (beacon_text n time) < 127)%nat.
Proof.
  intros Hn Ht Hl. unfold beacon_text, pad6, sdec. rewrite (proj2 (Z.ltb_ge n 0)) by lia.
  assert (length (dec n) <= 10)%nat as Hd by (apply dec_length; lia).
  split.
  - apply printable_app; [by apply printable_concrete|].
    apply printable_app; [apply printable_app|].
    + split; [intros Hc%elem_of_replicate; lia|by apply Forall_replicate].
    + apply dec_printable. lia.
    + apply printable_app; [by apply printable_concrete|].
      apply printable_app; [done|by apply printable_concrete].
  - rewrite !length_app, length_replicate. change (length (str _)) with 10%nat. cbn [length]. lia.
Qed.

(** [SendSimpleMessage] of a text sends it with its terminator. *)
Lemma send_text {W} `{SPI W} `{Clock W} junk fuel t rest s :
  printable t -> SendSimpleText junk fuel (t ++ 0 :: rest) s = SendSimpleMessage junk fuel (t ++ [0]) s.
Proof.
  intros [Hf Hz]. unfold SendSimpleText. rewrite c_string_text, formatted_plain by done.
  rewrite ST_bind_eq. unfold lift_opt at 1. cbn [fmap option_fmap option_map]. rewrite ST_bind_eq.
  unfold load. rewrite decide_True by (rewrite length_app; cbn; lia).
  change (drop 0 ?l) with l. replace (t ++ 0 :: rest) with ((t ++ [0]) ++ rest) by (by rewrite <- app_assoc).
  rewrite take_app_length' by (rewrite length_app; cbn; lia). done.
Qed.

Section Wire.
Context {W : Type} `{HD : DeviceFiles W} `{HSD : SpiDev W} `{HK : Clock W} `{HG : Gpio W}
  `{HSP : SerialPort W} `{HT : TermiosFlags} (fd : Z) {HW : SpiWire W fd}.
Variables (junk : Z) (g : bool).
Hypothesis junk_ok : fits 8 junk.
Hypothesis bus_works : wire_reliable.
Hypothesis quiet : reset_quiet fd.
Abbreviation p := (Carambola2Platform fd g).

Lemma on_bus_eq {A} (m : SPI W -> ST (linux_radio * W) A) r w a r' w' :
  m (SpidevSPI.bus fd) (r, w) = Some (a, (r', w')) -> on_bus p m r w = Some ((a, r'), w').
Proof. intros E. unfold on_bus. cbn [bus_of]. by rewrite E. Qed.

Lemma reset_runs w :
  exists w', ResetSX1276 p w = Some (true, w') /\ aired (wire_view w') = aired (wire_view w).
Proof.
  eexists. split; [reflexivity|].
  apply (reset_silent fd g w quiet).
Qed.

Lemma reconfigure_runs r w :
  usable r ->
  exists r' w', reconfigure junk p r w = Some (r', w') /\ usable r' /\ fault_ r' = false
    /\ aired (wire_view w') = aired (wire_view w).
Proof.
  intros Hu. destruct (reset_runs w) as (w0 & E0 & Ha0).
  destruct (@reconfigured W (SpidevSPI.bus fd) HK (spidev_chip fd) junk junk_ok bus_works r w0 Hu)
    as (b & r1 & w1 & r2 & w2 & E1 & E2 & Hf & Hx & Ha & _).
  exists r2, w2. unfold reconfigure. rewrite ST_bind_eq, E0. cbn beta iota.
  rewrite ST_bind_eq, (on_bus_eq (fun H => @ChangeCarrier W H HK junk 919000000) _ _ _ _ _ E1). cbn beta iota.
  rewrite ST_bind_eq, (on_bus_eq (fun H => @ApplyDefaultLoraConfiguration W H HK junk) _ _ _ _ _ E2).
  split; [done|]. split; [by apply (usable_fixed r)|]. split; [done|].
  change (aired (wire_view w2) = aired (wire_view w0)) in Ha. by rewrite Ha.
Qed.

Lemma send_runs fuel r w t rest :
  usable r -> fault_ r = false -> printable t -> (length t < 127)%nat -> (1000 < fuel)%nat ->
  exists sent r' w', on_bus p (fun H => @SendSimpleText W H HK junk fuel (t ++ 0 :: rest)) r w = Some ((sent, r'), w')
    /\ usable r' /\ fault_ r' = false /\ aired (wire_view w') = aired (wire_view w) ++ [t ++ [0]].
Proof.
  intros (Hc & Hmr & Hmt & Hto) Hf Ht Hl Hfu.
  destruct (@t_send W (SpidevSPI.bus fd) HK (spidev_chip fd) junk fuel r (wire_view w) (t ++ [0]) junk_ok Hfu Hmt (r, w))
    as (sent & [r' w'] & E & _ & _ & Hs & b & c & Er); [by apply lin_tracks|].
  destruct (Hs bus_works Hf) as (Ha & _ & Hf'); [rewrite length_app; cbn [length]; lia|].
  exists sent, r', w'. split; [|split; [cbn [fst] in Er; by rewrite Er|done]].
  apply (on_bus_eq (fun H => @SendSimpleText W H HK junk fuel (t ++ 0 :: rest))). by rewrite send_text.
Qed.

Lemma standby_runs r w :
  usable r -> fault_ r = false ->
  exists x r' w', on_bus p (fun H => @Standby W H HK) r w = Some ((x, r'), w')
    /\ usable r' /\ fault_ r' = false /\ aired (wire_view w') = aired (wire_view w).
Proof.
  intros Hu Hf.
  destruct (@t_Standby W (SpidevSPI.bus fd) HK (spidev_chip fd) r (wire_view w) (r, w))
    as (x & [r' w'] & E & c & Ha & [(Er & _)|(_ & Hn)]); [by apply lin_tracks| |done].
  cbn [fst snd] in *. exists x, r', w'. rewrite (aired_stood r) in Ha.
  split; [by apply (on_bus_eq (fun H => @Standby W H HK))|]. rewrite Er. by split.
Qed.

(** The sender between two messages. *)
Definition sender (t : tester) : Prop :=
  the_platform t = p /\ usable (the_radio t) /\ fault_ (the_radio t) = false /\ length (msg t) = 128%nat
  /\ 0 <= total t /\ 0 <= inter_msg_delay_us t.

Lemma sender_next r n m t :
  sender t -> usable r -> fault_ r = false -> length m = 128%nat -> 0 <= n ->
  sender (with_radio r (with_message n m t)).
Proof. by intros (? & _ & _ & _ & _ & ?) ? ? ? ?. Qed.

Lemma tx_turn_runs fuel time t w :
  sender t -> total t + 1 < 2 ^ 31 -> printable time -> (length time < 80)%nat -> (1000 < fuel)%nat ->
  exists t' w', tx_turn junk fuel time t w = Some (t', w') /\ sender t' /\ total t' = total t + 1
    /\ aired (wire_view w') = aired (wire_view w) ++ [beacon_text (total t + 1) time ++ [0]].
Proof.
  intros Hs Ht Htime Hlt Hfu. destruct Hs as (Ep & Hu & Hf & Hm & Ht0 & Hd) eqn:EHs. clear EHs. unfold tx_turn.
  rewrite (proj2 (Z.ltb_lt _ _)) by done.
  destruct (beacon_text_ok (total t + 1) time ltac:(lia) Htime Hlt) as [Hp Hlen].
  set (u := beacon_text (total t + 1) time) in *.
  rewrite snprintf_fresh by lia. set (rest := drop (S (length u)) (msg t)).
  rewrite ST_bind_eq. unfold lift_opt at 1. cbn [fmap option_fmap option_map].
  cbn [the_platform the_radio inter_msg_delay_us with_message]. rewrite Ep.
  destruct (send_runs fuel (the_radio t) w u rest Hu Hf Hp Hlen Hfu) as (sent & r1 & w1 & E1 & Hu1 & Hf1 & Ha1).
  rewrite ST_bind_eq, E1. cbn beta iota.
  destruct (standby_runs r1 w1 Hu1 Hf1) as (x & r2 & w2 & E2 & Hu2 & Hf2 & Ha2).
  rewrite ST_bind_eq, E2. cbn beta iota.
  assert (length (u ++ 0 :: rest) = 128%nat) as Hm'.
  { subst rest. rewrite length_app. cbn [length]. rewrite length_drop. lia. }
  destruct sent.
  - destruct (sleep_passes (fd := fd) (inter_msg_delay_us t) w2 Hd) as [Hv _].
    rewrite ST_bind_eq. unfold op_ at 1. cbn beta iota. do 2 eexists. split; [reflexivity|].
    split; [by apply sender_next; try lia|]. split; [done|]. by rewrite Hv, Ha2, Ha1.
  - assert (exists l, safe_str (u ++ 0 :: rest) = Some l) as [l El].
    { unfold safe_str. rewrite bool_decide_true by set_solver. by eexists. }
    rewrite El, ST_bind_eq. unfold lift_opt at 1. cbn [fmap option_fmap option_map].
    destruct (reconfigure_runs (reset_fault r2) w2 Hu2) as (r3 & w3 & E3 & Hu3 & Hf3 & Ha3).
    rewrite ST_bind_eq, E3. cbn beta iota.
    destruct (sleep_passes (fd := fd) 500000 w3 ltac:(lia)) as [Hv _].
    rewrite ST_bind_eq. unfold op_ at 1. cbn beta iota. do 2 eexists. split; [reflexivity|].
    split; [by apply sender_next; try lia|]. split; [done|]. by rewrite Hv, Ha3, Ha2, Ha1.
Qed.

(** The messages of the turns at the times [times], numbered from [n]. *)
Fixpoint beacons (n : Z) (times : list (list Z)) : list (list Z) :=
  match times with
  | [] => []
  | time :: times => (beacon_text n time ++ [0]) :: beacons (n + 1) times
  end.

Lemma tx_loop_runs fuel times : forall t w,
  sender t -> total t + Z.of_nat (length times) < 2 ^ 31 ->
  Forall (fun time => printable time /\ (length time < 80)%nat) times -> (1000 < fuel)%nat ->
  exists t' w', tx_loop junk fuel times t w = Some (t', w') /\ sender t'
    /\ aired (wire_view w') = aired (wire_view w) ++ beacons (total t + 1) times.
Proof.
  induction times as [|time times IH]; intros t w Hs Ht Hti Hfu.
  { exists t, w. by rewrite app_nil_r. }
  inversion Hti as [|? ? [Hp Hl] Hti']; subst. cbn [length] in Ht. cbn [tx_loop beacons].
  destruct (tx_turn_runs fuel time t w Hs ltac:(lia) Hp Hl Hfu) as (t1 & w1 & E1 & Hs1 & En & Ha1).
  destruct (IH t1 w1 Hs1 ltac:(lia) Hti' Hfu) as (t2 & w2 & E2 & Hs2 & Ha2).
  exists t2, w2. rewrite ST_bind_eq, E1, E2. split; [done|]. split; [done|]. rewrite Ha2, Ha1, En, <- app_assoc. done.
Qed.

(** An environment variable that is not set or is a number. *)
Definition numeric (env : string -> option (list Z)) (key : string) : Prop :=
  forall s, env key = Some s -> is_Some (atoi s).

Lemma env_int_runs env key d w : numeric env key -> exists x, env_int (W := W) env key d w = Some (x, w).
Proof.
  intros Hn. unfold env_int. destruct (env key) as [s|] eqn:E; [|by eexists].
  destruct (Hn s E) as [x Ex]. rewrite Ex. by eexists.
Qed.

Lemma open_runs speed bp_junk high env rx prog device args w w1 :
  GetInstance speed bp_junk device w = Some (Some p, w1) -> numeric env "BEACON_INTERVAL" ->
  exists r us w', open_radio speed bp_junk junk high env rx (prog :: device :: args) w = Some (Done (p, r, us), w')
    /\ usable r /\ fault_ r = false
    /\ settings (wire_view w') = (Some 125000, 6, 9, if rx then 732 else 8)
    /\ aired (wire_view w') = aired (wire_view w1).
Proof.
  intros Hget Hn. unfold open_radio. rewrite ST_bind_eq, Hget. cbn beta iota.
  destruct (env_int_runs env "BEACON_INTERVAL" 200000 w1 Hn) as [us Eus]. rewrite ST_bind_eq, Eus. cbn beta iota.
  rewrite ST_bind_eq. unfold op_ at 1. cbn beta iota.
  destruct (sleep_passes (fd := fd) 100 w1 ltac:(lia)) as [Hv _]. set (w2 := RadioLinux.usleep 100 w1) in *.
  destruct (@t_construct W (SpidevSPI.bus fd) HK (spidev_chip fd) junk junk_ok (new_radio junk high) w2)
    as (r0 & w3 & E0 & Hx0 & Ha0).
  rewrite ST_bind_eq, (on_bus_eq (fun H => @construct W H junk) _ _ _ _ _ E0). cbn beta iota.
  destruct (reset_runs w3) as (w4 & E4 & Ha4). rewrite ST_bind_eq, E4. cbn beta iota.
  set (r1 := if rx then SetSymbolTimeout 732 r0 else r0).
  assert (usable r1 /\ symbolTimeout_ r1 = if rx then 732 else 8) as [Hu1 Hto].
  { unfold fixed in Hx0. cbn in Hx0. injection Hx0 as H1 H2 H3 _ _ H6. subst r1. unfold usable.
    destruct rx; cbn; rewrite ?H1, ?H2, ?H3, ?H6; repeat split; try done; by apply (bool_decide_unpack _). }
  destruct (@reconfigured W (SpidevSPI.bus fd) HK (spidev_chip fd) junk junk_ok bus_works r1 w4 Hu1)
    as (b & r2 & w5 & r3 & w6 & E5 & E6 & Hf & Hx & Ha & Hset).
  rewrite ST_bind_eq, (on_bus_eq (fun H => @ChangeCarrier W H HK junk 919000000) _ _ _ _ _ E5). cbn beta iota.
  rewrite ST_bind_eq, (on_bus_eq (fun H => @ApplyDefaultLoraConfiguration W H HK junk) _ _ _ _ _ E6). cbn beta iota.
  rewrite Hf. exists r3, us, w6. split; [done|]. split; [by apply (usable_fixed r1)|]. split; [done|].
  rewrite Hto in Hset. split; [exact Hset|].
  change (aired (wire_view w6) = aired (wire_view w4)) in Ha. change (aired (wire_view w3) = aired (wire_view w2)) in Ha0.
  by rewrite Ha, Ha4, Ha0, Hv.
Qed.

(** ** The dump *)
Lemma held_range a : a ∈ held -> 0 <= a < 0x71.
Proof.
  unfold held, plain. rewrite !elem_of_cons, elem_of_nil. intros Ha.
  repeat (destruct Ha as [->|Ha]; [by apply (bool_decide_unpack _)|]). done.
Qed.

Lemma reads_keep_held a v x v' : chip_reads a v x v' -> forall b, b ∈ held -> regs v' !!! b = regs v !!! b.
Proof.
  intros Hr b Hb. assert (b <> SX1276REG_OpMode /\ b <> SX1276REG_FifoRxNbBytes) as [H1 H2]
    by (split; intros ->; by apply (bool_decide_eq_true_2 _) in Hb).
  unfold chip_reads in Hr. destruct (a =? SX1276REG_Fifo); [by destruct Hr as [_ ->]|].
  destruct (a =? SX1276REG_IrqFlags); [|by destruct Hr as [-> _]].
  destruct (rx v) as [[[|k] e]|].
  - destruct Hr as [_ ->]. cbn. rewrite lookup_total_insert_ne by done.
    destruct e; cbn; by rewrite ?lookup_total_insert_ne.
  - destruct Hr as (_ & _ & ->). reflexivity.
  - subst v'. destruct (Z.testbit x 3); cbn; by rewrite ?lookup_total_insert_ne.
Qed.

Lemma dump_loop_runs l : forall n w,
  0 <= n -> n + Z.of_nat (length l) <= 128 -> bytes_ok l ->
  exists l' w', dump_loop p n true l w = Some ((true, l'), w') /\ length l' = length l
    /\ (forall b, b ∈ held -> regs (wire_view w') !!! b = regs (wire_view w) !!! b)
    /\ forall i b, b ∈ held -> b = n + Z.of_nat i -> (i < length l)%nat ->
         l' !! i = Some (u8 (regs (wire_view w) !!! b)).
Proof.
  induction l as [|v l IH]; intros n w Hn Hl Hb.
  { exists [], w. split; [done|]. split; [done|]. split; [done|]. cbn. intros; lia. }
  inversion Hb as [|? ? Hv Hb']; subst. cbn [length] in Hl.
  destruct (read_runs fd n v w ltac:(unfold fits; lia)) as (ok & x & w1 & E & _ & _ & Hok & _ & Hc).
  rewrite (Hok bus_works) in *. destruct (IH (n + 1) w1 ltac:(lia) ltac:(lia) Hb') as (l' & w2 & E2 & Hl' & Hk & Hi).
  exists (x :: l'), w2. cbn [dump_loop]. rewrite ST_bind_eq, op_eq. cbn [bus_of].
  change (@spi_ReadRegister W (SpidevSPI.bus fd) n v w) with (default (false, v, w) (SpidevSPI.ReadRegister fd n v w)).
  rewrite E. cbv beta iota delta [default id]. rewrite ST_bind_eq, E2.
  split; [done|]. split; [cbn; lia|]. split; [intros b Hb0; by rewrite Hk, (reads_keep_held _ _ _ _ Hc)|].
  intros [|i] b Hb0 -> Hi0.
  - cbn [lookup list_lookup]. f_equal. replace (n + Z.of_nat 0) with n in * by lia.
    assert ((n =? SX1276REG_Fifo) = false /\ (n =? SX1276REG_IrqFlags) = false) as [E3 E4]
      by (split; apply Z.eqb_neq; intros ->; by apply (bool_decide_eq_true_2 _) in Hb0).
    unfold chip_reads in Hc. rewrite E3, E4 in Hc. destruct Hc as (_ & _ & Hc).
    apply Hc. by do 2 (apply elem_of_cons; right).
  - change ((x :: l') !! S i) with (l' !! i). rewrite (Hi i _ Hb0) by (cbn in Hi0; lia). f_equal. f_equal. by apply (reads_keep_held n _ x).
Qed.
End Wire.

(** * Properties *)

(** Also: over a device on the kernel's SPI bus that opens and works, and a stack
    that happens to hold a terminator, the sender's [main] starts its loop, and
    any number of turns, at any times, put exactly its numbered messages on the
    air, each once, in order, with its terminator. *)
Theorem tx_sends {W} `{HD : DeviceFiles W} `{HSD : SpiDev W} `{HK : Clock W} `{HG : Gpio W}
    `{HSP : SerialPort W} `{HT : TermiosFlags} fd {HW : SpiWire W fd}
    speed bp_junk junk high env stack fuel times prog device args g w w1 :
  fits 8 junk -> wire_reliable -> reset_quiet fd ->
  GetInstance speed bp_junk device w = Some (Some (Carambola2Platform fd g), w1) ->
  numeric env "BEACON_INTERVAL" -> length stack = 128%nat -> 0 ∈ stack -> (1000 < fuel)%nat ->
  Z.of_nat (length times) < 2 ^ 31 ->
  Forall (fun time => printable time /\ (length time < 80)%nat) times ->
  exists t w2 t' w3,
    tx_main speed bp_junk junk high env stack (prog :: device :: args) w = Some (Done t, w2)
    /\ tx_loop junk fuel times t w2 = Some (t', w3)
    /\ aired (wire_view w3) = aired (wire_view w1) ++ beacons 1 times.
Proof.
  intros Hj Hrel Hq Hget Hn Hst H0 Hfu Hti Htimes.
  destruct (open_runs fd junk g Hj Hrel Hq speed bp_junk high env false prog device args w w1 Hget Hn)
    as (r & us & w2 & E & Hu & Hf & _ & Ha).
  set (t := Tester (Carambola2Platform fd g) r (u32 us) 0 0 stack).
  assert (sender fd g t) as Hs.
  { split; [done|]. split; [done|]. split; [done|]. split; [done|]. cbn. destruct (u32_ok us). lia. }
  destruct (tx_loop_runs fd junk g Hj Hrel Hq fuel times t w2 Hs Hti Htimes Hfu) as (t' & w3 & E' & _ & Ha').
  exists t, w2, t', w3. split.
  - unfold tx_main. rewrite ST_bind_eq, E. cbn beta iota. unfold safe_str. by rewrite bool_decide_true.
  - split; [done|]. by rewrite Ha', Ha.
Qed.

(** Also: before its loop the sender prints [msg], which nothing has set: when the
    stack holds no terminator there the behaviour is undefined. *)
Theorem tx_reads_uninitialised {W} `{HD : DeviceFiles W} `{HSD : SpiDev W} `{HK : Clock W} `{HG : Gpio W}
    `{HSP : SerialPort W} `{HT : TermiosFlags} speed bp_junk junk high env stack argv x (w w1 : W) :
  open_radio speed bp_junk junk high env false argv w = Some (Done x, w1) -> 0 ∉ stack ->
  tx_main speed bp_junk junk high env stack argv w = None.
Proof.
  intros E H0. destruct x as [[p r] us]. unfold tx_main. rewrite ST_bind_eq, E. cbn beta iota.
  unfold safe_str. by rewrite bool_decide_false.
Qed.

(** Also: over a device that opens and works the register dump prints 0x71 bytes,
    of which those of the registers that hold what is written are the chip's. *)
Theorem dump_shows {W} `{HD : DeviceFiles W} `{HSD : SpiDev W} `{HK : Clock W} `{HG : Gpio W}
    `{HSP : SerialPort W} `{HT : TermiosFlags} fd {HW : SpiWire W fd}
    speed bp_junk stack prog device args g w w1 :
  wire_reliable -> GetInstance speed bp_junk device w = Some (Some (Carambola2Platform fd g), w1) ->
  length stack = 0x71%nat -> bytes_ok stack ->
  exists l w2, dump_main speed bp_junk stack (prog :: device :: args) w = Some (Done (true, l), w2)
    /\ length l = 0x71%nat
    /\ forall a, a ∈ held -> l !! Z.to_nat a = Some (u8 (regs (wire_view w1) !!! a)).
Proof.
  intros Hrel Hget Hl Hb. unfold dump_main. rewrite ST_bind_eq, Hget. cbn beta iota.
  rewrite ST_bind_eq. unfold op_ at 1. cbn beta iota.
  destruct (sleep_passes (fd := fd) 100 w1 ltac:(lia)) as [Hv _].
  destruct (dump_loop_runs fd g Hrel stack 0 (RadioLinux.usleep 100 w1)) as (l & w2 & E & Hl' & _ & Hi); [lia|lia|done|].
  destruct (delete_ends (Carambola2Platform fd g) w2) as [w3 E3].
  exists l, w3. rewrite ST_bind_eq, E. cbn beta iota. rewrite ST_bind_eq, E3.
  split; [done|]. split; [lia|]. intros a Ha. rewrite Hv in Hi.
  pose proof (held_range a Ha). apply Hi; [done|lia|lia].
Qed.

(** Also: on any bus, once a read has failed nothing more is read, and what is
    printed from there on is what the array held before. *)
Theorem dump_stops {W} `{HSD : SpiDev W} `{HK : Clock W} `{HSP : SerialPort W} (p : platform) l : forall n (w : W),
  exists ok l' w', dump_loop p n true l w = Some ((ok, l'), w') /\ length l' = length l
    /\ (ok = false -> exists k, (k < length l)%nat /\ drop (S k) l' = drop (S k) l).
Proof.
  assert (forall l n (w : W), exists w', dump_loop p n false l w = Some ((false, l), w')) as Hno.
  { intros l0. induction l0 as [|v l0 IH]; intros n w; [by exists w|].
    destruct (IH (n + 1) w) as [w' E]. exists w'. cbn [dump_loop]. rewrite ST_bind_eq.
    unfold mret at 1, ST_ret at 1. cbv beta iota. by rewrite ST_bind_eq, E. }
  induction l as [|v l IH]; intros n w; [by exists true, [], w|].
  cbn [dump_loop]. rewrite ST_bind_eq, op_eq. destruct (spi_ReadRegister n v w) as [[[] x] w1].
  - destruct (IH (n + 1) w1) as (ok & l' & w' & E & Hl & Hk). exists ok, (x :: l'), w'.
    rewrite ST_bind_eq, E. split; [done|]. split; [cbn; lia|]. intros Ho. destruct (Hk Ho) as (k & Hlt & Hd).
    exists (S k). split; [cbn; lia|done].
  - destruct (Hno l (n + 1) w1) as [w' E]. exists false, (x :: l), w'. rewrite ST_bind_eq, E.
    split; [done|]. split; [done|]. intros _. exists 0%nat. split; [cbn; lia|done].
Qed.

(** ** Witnesses *)
Definition noon : list Z := str "01-01-2016 12:00:00".
Definition no_env (key : string) : option (list Z) := None.

Lemma tx_sends_witness :
  exists t w2 t' w3,
    tx_main (W := wired) 4098 (replicate 6 0) 0 false no_env (replicate 128 0) [str "tx"; str "/dev/spidev0.1"] (at_bus blank)
    = Some (Done t, w2)
    /\ tx_loop (W := wired) 0 1001 [noon; noon] t w2 = Some (t', w3)
    /\ aired (sim_view w3) = [str "TX BEACON      1 01-01-2016 12:00:00" ++ [10; 0];
                              str "TX BEACON      2 01-01-2016 12:00:00" ++ [10; 0]].
Proof.
  refine (tx_sends (W := wired) 5 4098 (replicate 6 0) 0 false no_env (replicate 128 0) 1001 [noon; noon] (str "tx")
    (str "/dev/spidev0.1") [] true (at_bus blank) (at_bus blank) _ _ _ _ _ _ _ _ _ _);
    [by apply (bool_decide_unpack (fits 8 0))|done|done|done|done|done|left|lia|cbn; lia|].
  repeat (constructor; [split; [by apply printable_concrete|cbn; lia]|]). constructor.
Defined.

Lemma tx_reads_uninitialised_witness :
  tx_main (W := wired) 4098 (replicate 6 0) 0 false no_env (replicate 128 1) [str "tx"; str "/dev/spidev0.1"] (at_bus blank) = None.
Proof.
  destruct (open_runs (W := wired) 5 0 true) with 4098 (replicate 6 0) false no_env false (str "tx") (str "/dev/spidev0.1")
    (@nil (list Z)) (at_bus blank) (at_bus blank) as (r & us & w1 & E & _); [exact (u8_ok 0)|done..|].
  exact (tx_reads_uninitialised _ _ _ _ _ (replicate 128 1) _ _ _ _ E (bool_decide_eq_true_1 (0 ∉ replicate 128 1) eq_refl)).
Defined.

Lemma dump_shows_witness :
  exists l w2, dump_main (W := wired) 4098 (replicate 6 0) (replicate 0x71 0) [str "dump"; str "/dev/spidev0.1"]
      (at_bus (set_reg SX1276REG_PreambleLSB 8 blank)) = Some (Done (true, l), w2)
    /\ length l = 0x71%nat
    /\ forall a, a ∈ held -> l !! Z.to_nat a = Some (u8 (regs (set_reg SX1276REG_PreambleLSB 8 blank) !!! a)).
Proof.
  refine (dump_shows (W := wired) 5 4098 (replicate 6 0) (replicate 0x71 0) (str "dump") (str "/dev/spidev0.1") [] true
    (at_bus (set_reg SX1276REG_PreambleLSB 8 blank)) (at_bus (set_reg SX1276REG_PreambleLSB 8 blank)) _ _ _ _);
    [done|done|done|by apply (bool_decide_eq_true_1 (bytes_ok (replicate 0x71 0)))].
Defined.
