(* ===== verification/LinuxTools.v ===== *)
(** The small Linux tools: a relay between a terminal and a serial port
    ([src/software/util/b76800.c], module [Relay]), the switch of an ESP8266 to its
    boot loader ([esp8266pgm.c], module [Pgm]), a register dump and a test of spidev
    ([src/software/openwrt/sx1276_dump_reg.c], module [DumpReg], and
    [spidev_fdx_readloraver.c], module [Fdx]).

    System calls are classes, or their results are arguments. What is printed is
    the result of a function where it is data, and left out otherwise. *)
From S2P Require Import Prelude IpAddr Format BusPirate RadioLinux Buses.

(** * The relay (b76800.c) *)
Module Relay.
(** The members of [struct termios2] the code uses, and the kernel's constants. *)
Record termios2 := Termios2 { c_cflag : Z; c_ispeed : Z; c_ospeed : Z }.
Class Flags := { CBAUD : Z; BOTHER : Z }.

(** The descriptor, and what [TCSETS2] is given. [fd] is the result of [open];
    [got] is what [TCGETS2] fills in, if it works; [junk] is the stack. *)
Definition serial_open `{Flags} (fd : Z) (got : option termios2) (junk : termios2) (rate : Z)
    : Z * option termios2 :=
  if fd =? -1 then (-1, None)
  else
    let tio := default junk got in
    let flags := Z.lor (Z.land (c_cflag tio) (Z.lnot CBAUD)) BOTHER in
    (fd, Some (Termios2 flags rate rate)).

Record relay := Relay {
  exit_flag : bool;
  tv : Z;                      (* microseconds; Linux leaves the time not slept *)
  to_serial : list Z;          (* the bytes the serial port accepted *)
  to_stdout : list Z }.
Definition started : relay := Relay false 5000000 [] [].

(** What the system calls of a turn return. [stdin_set] and [serial_set] are the
    sets after [select]: those given to it when it fails; [None] is [-1]. *)
Record answers := Answers {
  slept : Z;
  stdin_set : bool; stdin_read : option (list Z); serial_write : Z;
  serial_set : bool; serial_read : option (list Z); stdout_write : Z;
  terminated : bool }.         (* SIGTERM came during the turn *)

(** What a [write] of [bs] that returned [r] moved. *)
Definition accepted (r : Z) (bs : list Z) : list Z := take (Z.to_nat r) bs.

Definition sig_handler (s : relay) : relay := Relay true (tv s) (to_serial s) (to_stdout s).

Definition read_stdin_to_serial (r : option (list Z)) (written : Z) (s : relay) : relay :=
  match r with
  | None => Relay true (tv s) (to_serial s) (to_stdout s)
  | Some buf =>
      if (0 <? length buf)%nat then Relay (exit_flag s) (tv s) (to_serial s ++ accepted written buf) (to_stdout s)
      else s
  end.

Definition read_serial_to_stdout (r : option (list Z)) (written : Z) (s : relay) : relay :=
  match r with
  | None => Relay true (tv s) (to_serial s) (to_stdout s)
  | Some buf =>
      if (0 <? length buf)%nat then Relay (exit_flag s) (tv s) (to_serial s) (to_stdout s ++ accepted written buf)
      else s
  end.

(** The body of the loop. *)
Definition io_turn (a : answers) (s : relay) : relay :=
  let s := Relay (exit_flag s) (tv s - slept a) (to_serial s) (to_stdout s) in
  let s := if stdin_set a then read_stdin_to_serial (stdin_read a) (serial_write a) s else s in
  let s := if serial_set a then read_serial_to_stdout (serial_read a) (stdout_write a) s else s in
  if terminated a then sig_handler s else s.

(** As many turns as the loop makes of [l]; the second part is what is left of it. *)
Fixpoint io_loop (l : list answers) (s : relay) : relay * list answers :=
  match l with
  | [] => (s, [])
  | a :: rest => if exit_flag s then (s, l) else io_loop rest (io_turn a s)
  end.

(** The exit code, or the loop; putting a descriptor that is not one into a set is
    undefined. The handler's installation and the mode of the input are seen only
    in what the calls of the loop return. *)
Definition main `{Flags} (argv : list (list Z)) (fd : Z) (got : option termios2) (junk : termios2)
    (l : list answers) : option (Z + relay * list answers) :=
  match argv with
  | _ :: device :: rate :: _ =>
      rate ← atoi rate;
      let (serial_fd, _) := serial_open fd got junk rate in
      if 0 <=? serial_fd then Some (inr (io_loop l started)) else None
  | _ => Some (inl 1)
  end.
End Relay.

(** * The boot loader of the ESP8266 (esp8266pgm.c) *)
Module Pgm.
(** Descriptors and modem lines; the lines are the bits [TIOCM_DTR] and
    [TIOCM_RTS] of a word. A query that fails leaves the word as it is. *)
Class Modem (W : Type) := {
  TIOCM_DTR : Z;
  TIOCM_RTS : Z;
  sys_open : list Z -> W -> Z * W;
  tiocmget : Z -> Z -> W -> Z * W;
  tiocmset : Z -> Z -> W -> W;
  sleep : Z -> W -> W }.

Section Pgm.
Context {W : Type} `{Modem W}.
Abbreviation M := (ST W).

(** What is printed: whether RST and PGM are at 0 V. *)
Definition report_state (fd : Z) : M (bool * bool) :=
  pins ← op (tiocmget fd 0);
  mret (z2b (Z.land pins TIOCM_DTR), z2b (Z.land pins TIOCM_RTS)).

Definition toggle_line (bits : Z) (fd : Z) (force_low : bool) : M () :=
  pins ← op (tiocmget fd 0);
  let bit := z2b (Z.land pins bits) in
  let pins := Z.lor (Z.land pins (Z.lnot bits)) (if force_low then 0 else if negb bit then bits else 0) in
  op_ (tiocmset fd pins).
Definition toggle_dtr : Z -> bool -> M () := toggle_line TIOCM_DTR.
Definition toggle_rts : Z -> bool -> M () := toggle_line TIOCM_RTS.

(** The three reports; [ESP_PORT] comes from the environment. *)
Definition main (getenv : string -> option (list Z)) : M (list (bool * bool)) :=
  let d := default (str "/dev/ttyUSB0") (getenv "ESP_PORT"%string) in
  fd ← op (sys_open d);
  pins ← op (tiocmget fd 0);
  op_ (tiocmset fd (Z.land pins (Z.lnot (Z.lor TIOCM_RTS TIOCM_DTR))));;
  r1 ← report_state fd;
  op_ (sleep 2);;
  toggle_dtr fd true;;
  toggle_dtr fd false;;
  toggle_rts fd true;;
  toggle_rts fd false;;
  r2 ← report_state fd;
  op_ (sleep 1);;
  toggle_dtr fd true;;
  op_ (sleep 1);;
  toggle_rts fd true;;
  r3 ← report_state fd;
  mret [r1; r2; r3].
End Pgm.
End Pgm.

(** * Two programs over spidev *)
Section Spidev.
Context {W : Type} `{DeviceFiles W} `{SpiDev W} `{Clock W}.
Abbreviation M := (ST W).

(** The same in both programs. *)
Definition dumpstat (fd : Z) : M () :=
  r ← op (ioctl_rd RD_MODE32 fd);
  when (negb (r <? 0)) (
    r ← op (ioctl_rd RD_LSB_FIRST fd);
    when (negb (r <? 0)) (
      r ← op (ioctl_rd RD_BITS_PER_WORD fd);
      when (negb (r <? 0)) (r ← op (ioctl_rd RD_MAX_SPEED_HZ fd); mret ()))).
End Spidev.

(** ** The register dump (sx1276_dump_reg.c) *)
Module DumpReg.
Section Dump.
Context {W : Type} `{DeviceFiles W} `{SpiDev W} `{Clock W}.
Abbreviation M := (ST W).

(** The registers from [r] on, [n] of them; [None] when a message fails. *)
Fixpoint dump_loop (fd : Z) (n : nat) (r : Z) (regval : list Z) : M (option (list Z)) :=
  match n with
  | O => mret (Some regval)
  | S n =>
      let buf := [r; 0; 0; 0] in
      let xfer := [Transfer (Some buf) false 1; Transfer None true 1] in
      '(status, rx) ← op (spi_message fd xfer);
      buf ← lift_opt (store buf 0 rx);
      if status <? 0 then mret None
      else
        regval ← lift_opt (store regval (Z.to_nat r) [hd 0 buf]);
        op_ (RadioLinux.usleep 1000);;
        dump_loop fd n (r + 1) regval
  end.

(** The bytes written to [od]; [od]: it was started. *)
Definition dumpregs (od : bool) (fd : Z) : M (option (list Z)) :=
  regval ← dump_loop fd 0x71 0 (replicate 0x71 0x5a);
  mret (if od then regval else None).

(** The exit code, with what [dumpregs] wrote. *)
Definition main (od : bool) (argv : list (list Z)) : M (Z * option (list Z)) :=
  match argv with
  | _ :: spidev :: _ =>
      fd ← op (Buses.sys_open spidev);
      if fd <? 0 then mret (1, None)
      else
        dumpstat fd;;
        l ← dumpregs od fd;
        op_ (close fd);;
        mret (0, l)
  | _ => mret (1, None)
  end.
End Dump.
End DumpReg.

(** ** The test of spidev (spidev_fdx_readloraver.c) *)
Module Fdx.
(** [read]: [None] is [-1], else at most that many bytes. *)
Class ReadFile (W : Type) := { read : Z -> Z -> W -> option (list Z) * W }.

(** What [getopt] returns, with [optarg]; [opt_h] is also its question mark. *)
Inductive option_letter := opt_m (optarg : list Z) | opt_r (optarg : list Z) | opt_v | opt_h.

Section Fdx.
Context {W : Type} `{DeviceFiles W} `{SpiDev W} `{Clock W} `{ReadFile W}.
Abbreviation M := (ST W).

(** The bytes printed, if any. *)
Definition do_read (fd len : Z) : M (option (list Z)) :=
  let len := if len <? 2 then 2 else if 32 <? len then 32 else len in
  r ← op (read fd len);
  match (r : option (list Z)) with
  | None => mret None
  | Some bs =>
      buf ← lift_opt (store (replicate 32 0) 0 bs);
      if negb (Z.of_nat (length bs) =? len) then mret None
      else mret (Some (take (Z.to_nat len) buf))
  end.

(** [len > sizeof buf] compares unsigned numbers. *)
Definition do_msg (fd len : Z) : M (option (list Z)) :=
  let len := if 32 <? len then 32 else if len <? 0 then 32 else len in
  let buf := 0x42 :: replicate 31 0 in
  let xfer := [Transfer (Some buf) false 1; Transfer None true len] in
  '(status, rx) ← op (spi_message fd xfer);
  buf ← lift_opt (store buf 0 rx);
  if status <? 0 then mret None
  else mret (Some (take (Z.to_nat len) buf)).

(** [msglen] and [readcount]; [None]: the usage is printed. *)
Fixpoint options (l : list option_letter) (msglen readcount : Z) : M (option (Z * Z)) :=
  match l with
  | [] => mret (Some (msglen, readcount))
  | opt_m optarg :: l =>
      msglen ← lift_opt (atoi optarg);
      if msglen <? 0 then mret None else options l msglen readcount
  | opt_r optarg :: l =>
      readcount ← lift_opt (atoi optarg);
      if readcount <? 0 then mret None else options l msglen readcount
  | opt_v :: l => options l msglen readcount
  | opt_h :: _ => mret None
  end.

(** The exit code and the two lines printed; [names] are the arguments behind the
    options. *)
Definition main (l : list option_letter) (names : list (list Z))
    : M (Z * option (list Z) * option (list Z)) :=
  o ← options l 0 0;
  match (o : option (Z * Z)), names with
  | Some (msglen, readcount), [name] =>
      fd ← op (Buses.sys_open name);
      if fd <? 0 then mret (1, None, None)
      else
        dumpstat fd;;
        m ← (if z2b msglen then do_msg fd msglen else mret None);
        r ← (if z2b readcount then do_read fd readcount else mret None);
        op_ (close fd);;
        mret (0, m, r)
  | _, _ => mret (1, None, None)
  end.
End Fdx.
End Fdx.
