(* ===== verification/LinuxToolsFacts.v ===== *)
(** What the Linux tools do: the relay moves both streams and how it ends, the
    sequence of levels that enters the boot loader, what the spidev programs
    print. *)
From S2P Require Import Prelude IpAddr Format Radio RadioFacts BusPirate BusPirateFacts RadioLinux RadioLinuxFacts Buses BusesFacts GatewayToolsFacts LinuxTools.

(** * The relay *)
Module RelayFacts.
Import Relay.

(** The rate is set through [BOTHER]; no other flag changes. *)
Lemma serial_open_rate `{Flags} fd got junk rate :
  Z.land BOTHER CBAUD = BOTHER -> fd <> -1 ->
  exists tio, serial_open fd got junk rate = (fd, Some tio) /\ c_ispeed tio = rate /\ c_ospeed tio = rate
    /\ Z.land (c_cflag tio) CBAUD = BOTHER
    /\ Z.land (c_cflag tio) (Z.lnot CBAUD) = Z.land (c_cflag (default junk got)) (Z.lnot CBAUD).
Proof.
  intros HB Hfd. unfold serial_open. rewrite (proj2 (Z.eqb_neq fd (-1)) Hfd). eexists. split; [done|].
  cbn [c_ispeed c_ospeed c_cflag]. split_and!; [done..| |].
  all: apply Z.bits_inj'; intros i Hi; apply (f_equal (fun x => Z.testbit x i)) in HB; rewrite Z.land_spec in HB;
    rewrite !Z.land_spec, Z.lor_spec, Z.land_spec, Z.lnot_spec by done;
    by destruct (Z.testbit BOTHER i), (Z.testbit CBAUD i), (Z.testbit (c_cflag (default junk got)) i).
Qed.

(** What a turn reads from the terminal and from the port. *)
Definition typed (a : answers) : list Z := if stdin_set a then default [] (stdin_read a) else [].
Definition arrived (a : answers) : list Z := if serial_set a then default [] (serial_read a) else [].
(** Every write is complete. *)
Definition whole (a : answers) : Prop :=
  Z.of_nat (length (typed a)) <= serial_write a /\ Z.of_nat (length (arrived a)) <= stdout_write a.
(** What ends the loop. *)
Definition ends (a : answers) : bool :=
  terminated a || (stdin_set a && bool_decide (stdin_read a = None))
  || (serial_set a && bool_decide (serial_read a = None)).

Lemma accepted_whole r bs : Z.of_nat (length bs) <= r -> accepted r bs = bs.
Proof. intros Hr. unfold accepted. apply take_ge. lia. Qed.

Lemma turn_moves a s :
  whole a ->
  io_turn a s = Relay (exit_flag s || ends a) (tv s - slept a) (to_serial s ++ typed a) (to_stdout s ++ arrived a).
Proof.
  intros [Hs Ho]. unfold io_turn, typed, arrived, ends, read_stdin_to_serial, read_serial_to_stdout, sig_handler in *.
  destruct (stdin_set a), (stdin_read a) as [[|b1 l1]|], (serial_set a), (serial_read a) as [[|b2 l2]|], (terminated a);
    cbn in *; rewrite ?app_nil_r, ?accepted_whole by done; f_equal; by destruct (exit_flag s).
Qed.

(** The loop makes turns as long as none ended it; if no write is short, both
    sides get exactly what was read from the other, in order. *)
Lemma relay_streams l s s' rest :
  Forall whole l -> io_loop l s = (s', rest) ->
  exists done, l = done ++ rest
    /\ to_serial s' = to_serial s ++ concat (typed <$> done)
    /\ to_stdout s' = to_stdout s ++ concat (arrived <$> done)
    /\ tv s' = tv s - foldr Z.add 0 (slept <$> done)
    /\ exit_flag s' = exit_flag s || existsb ends done
    /\ (rest <> [] -> exit_flag s' = true).
Proof.
  intros Hl. revert s. induction Hl as [|a l Ha Hl IH]; intros s E; cbn [io_loop] in E.
  { injection E as <- <-. exists []. cbn. rewrite !app_nil_r, orb_false_r. split_and!; done || lia. }
  destruct (exit_flag s) eqn:Ex.
  { injection E as <- <-. exists []. cbn. rewrite !app_nil_r, Ex. split_and!; done || lia. }
  destruct (IH _ E) as (d & -> & Hs & Ho & Ht & Hf & Hr). rewrite (turn_moves a s Ha) in *.
  exists (a :: d). cbn [fmap list_fmap concat foldr existsb app to_serial to_stdout tv exit_flag] in *.
  rewrite Hs, Ho, Ht, Hf, Ex, <- !app_assoc. split_and!; [done..|lia|done|].
  intros Hn. by apply Hr in Hn; rewrite Hf, Ex in Hn.
Qed.

(** [select] sleeps no longer than it is told. *)
Fixpoint timely (l : list answers) (s : relay) : Prop :=
  match l with
  | [] => True
  | a :: l => exit_flag s = true \/ (0 <= slept a <= tv s /\ timely l (io_turn a s))
  end.

Lemma turn_tv a s : tv (io_turn a s) = tv s - slept a.
Proof.
  unfold io_turn, read_stdin_to_serial, read_serial_to_stdout, sig_handler.
  destruct (stdin_set a), (stdin_read a) as [[]|], (serial_set a), (serial_read a) as [[]|], (terminated a); done.
Qed.

(** The timeout is set once: in all its life the loop sleeps at most five seconds
    in [select], and from there on an idle relay polls. *)
Lemma select_budget l s : 0 <= tv s -> timely l s -> 0 <= tv (fst (io_loop l s)) <= tv s.
Proof.
  revert s. induction l as [|a l IH]; intros s Hs Ht; [cbn; lia|]. cbn [io_loop timely] in *.
  destruct (exit_flag s); [cbn; lia|]. destruct Ht as [|[Ha Ht]]; [done|].
  pose proof (turn_tv a s) as E. specialize (IH (io_turn a s) ltac:(lia) Ht). lia.
Qed.

(** The end of the input is not noticed: the loop goes on, reading nothing. *)
Definition at_eof : answers := Answers 0 true (Some []) 0 false None 0 false.
Lemma eof_spins n : io_loop (replicate n at_eof) started = (started, []).
Proof. induction n as [|n IH]; [done|]. cbn [replicate io_loop]. exact IH. Qed.

(** A short write loses the rest. *)
Example short_write_loses :
  to_serial (fst (io_loop [Answers 0 true (Some (str "abc")) 2 false None 0 false] started)) = str "ab".
Proof. done. Qed.

(** A device that does not open is not noticed either. *)
Lemma unopened_undefined `{Flags} prog device rate args junk l : main (prog :: device :: rate :: args) (-1) None junk l = None.
Proof. cbn [main]. by destruct (atoi rate). Qed.
End RelayFacts.

(** * The boot loader *)
Module PgmFacts.
Import Pgm.

(** What was done to the lines, DTR first. *)
Inductive action := Set_lines (dtr rts : bool) | Wait (s : Z).

(** A port that opens and does what it is told. *)
Class Lines (W : Type) `{Modem W} := {
  dtr_bit : Z; rts_bit : Z;
  lines : W -> bool * bool;
  done_so_far : W -> list action;
  bits_law : TIOCM_DTR = Z.shiftl 1 dtr_bit /\ TIOCM_RTS = Z.shiftl 1 rts_bit
             /\ 0 <= dtr_bit /\ 0 <= rts_bit /\ dtr_bit <> rts_bit;
  get_law fd old w : 0 <= fd -> exists p, tiocmget fd old w = (p, w)
    /\ lines w = (Z.testbit p dtr_bit, Z.testbit p rts_bit);
  set_law fd p w : 0 <= fd -> let w' := tiocmset fd p w in
    lines w' = (Z.testbit p dtr_bit, Z.testbit p rts_bit)
    /\ done_so_far w' = done_so_far w ++ [Set_lines (Z.testbit p dtr_bit) (Z.testbit p rts_bit)];
  sleep_law s w : lines (sleep s w) = lines w /\ done_so_far (sleep s w) = done_so_far w ++ [Wait s] }.

(** Reset goes down, then PGM; reset up again, then PGM. *)
Definition boot_sequence : list action :=
  [Set_lines false false; Wait 2; Set_lines false false; Set_lines true false; Set_lines true false;
   Set_lines true true; Wait 1; Set_lines false true; Wait 1; Set_lines false false].

Section Lines.
Context {W : Type} `{Lines W}.

Lemma bit_masked p bits b k i :
  0 <= k -> 0 <= i -> bits = Z.shiftl 1 k ->
  Z.testbit (Z.lor (Z.land p (Z.lnot bits)) (if (b : bool) then bits else 0)) i = if decide (i = k) then b else Z.testbit p i.
Proof.
  intros Hk Hi ->. rewrite Z.lor_spec, Z.land_spec, Z.lnot_spec, Z.shiftl_1_l, Z.pow2_bits_eqb by done.
  assert (E : Z.testbit (if b then 2 ^ k else 0) i = b && (k =? i))
    by (destruct b; [by rewrite Z.pow2_bits_eqb|by rewrite Z.bits_0]). rewrite E.
  case_decide as D; [rewrite <- D, Z.eqb_refl|rewrite (proj2 (Z.eqb_neq k i)) by done];
    by destruct (Z.testbit p i), b.
Qed.

(** [triple]s over the lines and what was done. *)
Definition shows (l : bool * bool) (h : list action) (w : W) : Prop := lines w = l /\ done_so_far w = h.

Lemma report_shows fd l h : 0 <= fd -> triple (shows l h) (report_state fd) (fun r w => r = l /\ shows l h w).
Proof.
  intros Hfd w [Hl Hh]. destruct (get_law fd 0 w Hfd) as (p & E & Hp). destruct bits_law as (D & R & ? & ? & _).
  exists l, w. unfold report_state. rewrite ST_bind_eq, op_eq, E. cbv beta iota. rewrite D, R, !flag_set by done.
  rewrite <- Hl, Hp. done.
Qed.

(** A toggle sets one line, to high only if it was low and may be. *)
Lemma toggle_sets bits k fd low w :
  0 <= fd -> 0 <= k -> bits = Z.shiftl 1 k ->
  exists p q, lines w = (Z.testbit p dtr_bit, Z.testbit p rts_bit)
    /\ (forall i, 0 <= i -> Z.testbit q i = if decide (i = k) then negb low && negb (Z.testbit p k) else Z.testbit p i)
    /\ toggle_line bits fd low w = Some ((), tiocmset fd q w).
Proof.
  intros Hfd Hk Hb. destruct (get_law fd 0 w Hfd) as (p & E & Hp).
  exists p, (Z.lor (Z.land p (Z.lnot bits)) (if negb low && negb (Z.testbit p k) then bits else 0)).
  split; [done|]. split; [intros i Hi; by apply bit_masked|].
  unfold toggle_line. rewrite ST_bind_eq, op_eq, E. cbv beta iota zeta. rewrite Hb, flag_set by done.
  by destruct low, (Z.testbit p k).
Qed.

Lemma dtr_shows fd low dtr rts h :
  0 <= fd -> triple (shows (dtr, rts) h) (toggle_dtr fd low)
    (fun _ => shows (negb low && negb dtr, rts) (h ++ [Set_lines (negb low && negb dtr) rts])).
Proof.
  intros Hfd w [Hl Hh]. destruct bits_law as (D & _ & H1 & H2 & Hn).
  destruct (toggle_sets _ _ fd low w Hfd H1 D) as (p & q & Hp & Hq & E). rewrite Hl in Hp. injection Hp as -> ->.
  destruct (set_law fd q w Hfd) as [Hl' Hh']. rewrite !Hq in Hl', Hh' by done.
  repeat case_decide; try done.
  do 2 eexists. split; [exact E|]. split; [done|]. by rewrite Hh', Hh.
Qed.

Lemma rts_shows fd low dtr rts h :
  0 <= fd -> triple (shows (dtr, rts) h) (toggle_rts fd low)
    (fun _ => shows (dtr, negb low && negb rts) (h ++ [Set_lines dtr (negb low && negb rts)])).
Proof.
  intros Hfd w [Hl Hh]. destruct bits_law as (_ & R & H1 & H2 & Hn).
  destruct (toggle_sets _ _ fd low w Hfd H2 R) as (p & q & Hp & Hq & E). rewrite Hl in Hp. injection Hp as -> ->.
  destruct (set_law fd q w Hfd) as [Hl' Hh']. rewrite !Hq in Hl', Hh' by done.
  repeat case_decide; try done.
  do 2 eexists. split; [exact E|]. split; [done|]. by rewrite Hh', Hh.
Qed.

Lemma sleep_shows s l h : triple (shows l h) (op_ (sleep s)) (fun _ => shows l (h ++ [Wait s])).
Proof. intros w [Hl Hh]. destruct (sleep_law s w) as [E1 E2]. do 2 eexists. split; [done|]. split; congruence. Qed.

Lemma get_shows fd l h : 0 <= fd -> triple (shows l h) (op (tiocmget fd 0)) (fun _ => shows l h).
Proof. intros Hfd w Hw. destruct (get_law fd 0 w Hfd) as (p & E & _). exists p, w. by rewrite op_eq, E. Qed.

Lemma clear_shows fd p l h :
  0 <= fd -> triple (shows l h) (op_ (tiocmset fd (Z.land p (Z.lnot (Z.lor TIOCM_RTS TIOCM_DTR)))))
    (fun _ => shows (false, false) (h ++ [Set_lines false false])).
Proof.
  intros Hfd w [Hl Hh]. do 2 eexists. split; [done|]. set (q := Z.land _ _).
  destruct (set_law fd q w Hfd) as [Hl' Hh']. destruct bits_law as (D & R & H1 & H2 & _).
  assert (Hq : forall i, i = dtr_bit \/ i = rts_bit -> Z.testbit q i = false).
  { intros i Hi. unfold q. rewrite Z.land_spec, Z.lnot_spec, Z.lor_spec, D, R, !Z.shiftl_1_l, !Z.pow2_bits_eqb
      by (destruct Hi; lia). destruct Hi as [->| ->]; by rewrite Z.eqb_refl, ?orb_true_r, andb_false_r. }
  rewrite !Hq in Hl', Hh' by auto. split; [done|]. by rewrite Hh', Hh.
Qed.

(** Whatever the lines were, [main] puts the chip into reset with PGM low, keeps it
    there for a second and releases the reset while PGM is still low, for another
    second: the sequence that enters the boot loader. *)
Lemma pgm_boots_loader getenv d w fd w1 :
  default (str "/dev/ttyUSB0") (getenv "ESP_PORT"%string) = d -> Pgm.sys_open d w = (fd, w1) -> 0 <= fd ->
  exists w', Pgm.main getenv w = Some ([(false, false); (true, true); (false, false)], w')
    /\ done_so_far w' = done_so_far w1 ++ boot_sequence.
Proof.
  intros Hd Ho Hfd. unfold Pgm.main. rewrite Hd, ST_bind_eq, op_eq, Ho. cbv beta iota.
  match goal with |- context [?m w1 = _] => assert (Ht : triple (shows (lines w1) (done_so_far w1)) m
    (fun r w => r = [(false, false); (true, true); (false, false)] /\ shows (false, false) (done_so_far w1 ++ boot_sequence) w)) end.
  { eapply triple_bind; [by apply get_shows|intros p].
    eapply triple_bind; [by apply clear_shows|intros ?].
    eapply triple_bind; [by apply report_shows|intros r1; apply triple_known; intros ->].
    eapply triple_bind; [by apply sleep_shows|intros ?].
    do 2 (eapply triple_bind; [by apply dtr_shows|intros ?]).
    do 2 (eapply triple_bind; [by apply rts_shows|intros ?]).
    eapply triple_bind; [by apply report_shows|intros r2; apply triple_known; intros ->].
    eapply triple_bind; [by apply sleep_shows|intros ?].
    eapply triple_bind; [by apply dtr_shows|intros ?].
    eapply triple_bind; [by apply sleep_shows|intros ?].
    eapply triple_bind; [by apply rts_shows|intros ?].
    eapply triple_bind; [by apply report_shows|intros r3; apply triple_known; intros ->].
    apply triple_ret. intros s Hs. split; [done|]. rewrite <- !app_assoc in Hs. exact Hs. }
  destruct (Ht w1 (conj eq_refl eq_refl)) as (r & w' & E & -> & _ & Hh). by exists w'.
Qed.
End Lines.
End PgmFacts.

(** A port with two lines, and its history. *)
Record port := Port { p_pins : Z; p_done : list PgmFacts.action }.
#[local] Instance port_modem : Pgm.Modem port := {
  TIOCM_DTR := 2; TIOCM_RTS := 4;
  sys_open _ w := (3, w);
  tiocmget _ _ w := (p_pins w, w);
  tiocmset _ p w := Port p (p_done w ++ [PgmFacts.Set_lines (Z.testbit p 1) (Z.testbit p 2)]);
  sleep s w := Port (p_pins w) (p_done w ++ [PgmFacts.Wait s]) }.
#[local] Instance port_lines : PgmFacts.Lines port.
Proof.
  refine {| PgmFacts.dtr_bit := 1; PgmFacts.rts_bit := 2;
            PgmFacts.lines w := (Z.testbit (p_pins w) 1, Z.testbit (p_pins w) 2);
            PgmFacts.done_so_far := p_done |}.
  - done.
  - intros fd old w _. by eexists.
  - done.
  - done.
Defined.

Lemma pgm_boots_loader_witness :
  exists w', Pgm.main (fun _ => None) (Port 6 []) = Some ([(false, false); (true, true); (false, false)], w')
    /\ p_done w' = PgmFacts.boot_sequence.
Proof. exact (PgmFacts.pgm_boots_loader (fun _ => None) _ (Port 6 []) 3 (Port 6 []) eq_refl eq_refl (bool_decide_unpack (0 <= 3) I)). Defined.

(** * The programs over spidev *)
Section Spidev.
Context {W : Type} `{HD : DeviceFiles W} `{HSD : SpiDev W} `{HK : Clock W} `{HF : Fdx.ReadFile W} (fd : Z)
  {HW : SpiWire W fd} (works : wire_reliable).

(** A message of a register's number and a byte of answer. *)
Lemma message_reads a pad (w : W) :
  fits 7 a -> exists x w', spi_message fd [Transfer (Some (a :: pad)) false 1; Transfer None true 1] w = (2, [x], w')
    /\ fits 8 x /\ chip_reads a (wire_view w) x (wire_view w').
Proof.
  intros Ha. set (xs := [_; _]). pose proof (message_result xs w a 0 eq_refl) as Hm.
  destruct (spi_message fd xs w) as [[status rx] w1]. destruct Hm as (_ & Hr & miso & Hl & -> & Hx).
  rewrite (Hr works) in *. unfold exchange in Hx. cbn [Z.eqb Pos.eqb] in Hx.
  rewrite (top_bit_clear a Ha) in Hx. destruct Hx as (s & x & -> & Hx & Hc). by exists x, w1.
Qed.

Lemma dump_loop_reads n : forall r (regval : list Z) (w : W),
  0 <= r -> r + Z.of_nat n <= 0x71 -> length regval = 0x71%nat ->
  exists l w', DumpReg.dump_loop fd n r regval w = Some (Some l, w') /\ length l = 0x71%nat
    /\ (forall i, (i < Z.to_nat r)%nat -> l !! i = regval !! i)
    /\ (forall b, b ∈ held -> regs (wire_view w') !!! b = regs (wire_view w) !!! b)
    /\ forall b, b ∈ held -> r <= b < r + Z.of_nat n -> l !! Z.to_nat b = Some (u8 (regs (wire_view w) !!! b)).
Proof.
  induction n as [|n IH]; intros r regval w Hr Hn Hl.
  { exists regval, w. split_and!; try done. intros; lia. }
  destruct (message_reads r [0; 0; 0] w ltac:(unfold fits; lia)) as (x & w1 & E & Hx & Hc).
  assert (exists regval', store regval (Z.to_nat r) [x] = Some regval') as [regval' Es].
  { apply store_is_Some. cbn [length]. lia. }
  pose proof (store_length _ _ _ _ Es) as Hl'. destruct (store_Some _ _ _ _ Es) as [_ Ev].
  destruct (sleep_passes (fd := fd) 1000 w1 ltac:(lia)) as [Hv _].
  destruct (IH (r + 1) regval' (RadioLinux.usleep 1000 w1)) as (l & w2 & E2 & Hl2 & Hp & Hk & Hi); [lia|lia|congruence|].
  exists l, w2. split.
  { cbn [DumpReg.dump_loop]. rewrite ST_bind_eq, op_eq, E. cbv beta iota. rewrite ST_bind_eq.
    change (lift_opt (store [r; 0; 0; 0] 0 [x]) w1) with (Some ([x; 0; 0; 0], w1)). cbv beta iota.
    change (2 <? 0) with false. cbv iota. cbn [hd].
    rewrite ST_bind_eq, Es. exact E2. }
  assert (Hpre : length (take (Z.to_nat r) regval) = Z.to_nat r) by (rewrite length_take; lia).
  split; [done|]. split.
  { intros i Hi0. rewrite Hp, Ev by lia. rewrite lookup_app_l by lia. by rewrite lookup_take_lt. }
  rewrite Hv in Hk, Hi. split; [intros b Hb; by rewrite Hk, (reads_keep_held _ _ _ _ Hc)|].
  intros b Hb Hb1. destruct (decide (b = r)) as [->|Hne].
  - rewrite Hp, Ev by lia. rewrite lookup_app_r, Hpre, Nat.sub_diag by lia. cbn. f_equal.
    assert ((r =? SX1276REG_Fifo) = false /\ (r =? SX1276REG_IrqFlags) = false) as [E3 E4]
      by (split; apply Z.eqb_neq; intros ->; by apply (bool_decide_eq_true_2 _) in Hb).
    unfold chip_reads in Hc. rewrite E3, E4 in Hc. destruct Hc as (_ & _ & Hc).
    apply Hc. by do 2 (apply elem_of_cons; right).
  - rewrite (Hi b Hb) by lia. f_equal. f_equal. by apply (reads_keep_held r _ x).
Qed.

(** Over a bus that works, the dump has 0x71 bytes, of which those of the registers
    that hold what is written are the chip's. *)
Lemma dumpregs_shows (w : W) :
  exists l w', DumpReg.dumpregs true fd w = Some (Some l, w') /\ length l = 0x71%nat
    /\ forall b, b ∈ held -> l !! Z.to_nat b = Some (u8 (regs (wire_view w) !!! b)).
Proof.
  destruct (dump_loop_reads 0x71 0 (replicate 0x71 0x5a) w) as (l & w' & E & Hl & _ & _ & Hi); [lia|done|done|].
  exists l, w'. unfold DumpReg.dumpregs. rewrite ST_bind_eq, E. split; [done|]. split; [done|].
  intros b Hb. apply Hi; [done|]. by apply held_range.
Qed.

(** The test with a message of one byte prints what register 0x42, the version,
    reads as; a message never takes more than the buffer has. *)
Lemma do_msg_version (w : W) :
  exists x w', Fdx.do_msg fd 1 w = Some (Some [x], w') /\ fits 8 x /\ chip_reads 0x42 (wire_view w) x (wire_view w').
Proof.
  destruct (message_reads 0x42 (replicate 31 0) w) as (x & w1 & E & Hx & Hc); [by apply (bool_decide_unpack _)|].
  exists x, w1. unfold Fdx.do_msg. rewrite ST_bind_eq, op_eq. change (if 32 <? 1 then _ else _) with 1. rewrite E.
  split; [done|]. done.
Qed.
End Spidev.

Section Bounds.
Context {W : Type} `{HD : DeviceFiles W} `{HSD : SpiDev W} `{HK : Clock W} `{HF : Fdx.ReadFile W}.
(** The kernel respects lengths. *)
Hypothesis read_fits : forall fd n (w : W) bs w', Fdx.read fd n w = (Some bs, w') -> Z.of_nat (length bs) <= n.
Hypothesis message_fits : forall fd t n (w : W),
  (length (snd (fst (spi_message fd [t; Transfer None true n] w))) <= Z.to_nat n)%nat.

(** Whatever length is asked for, the test of spidev stays within its buffers. *)
Lemma fdx_in_bounds fd len (w : W) : is_Some (Fdx.do_msg fd len w) /\ is_Some (Fdx.do_read fd len w).
Proof.
  split.
  - unfold Fdx.do_msg. set (n := if 32 <? len then 32 else if len <? 0 then 32 else len).
    assert (Hn : 0 <= n <= 32) by (unfold n; repeat case_match; lia).
    rewrite ST_bind_eq, op_eq. pose proof (message_fits fd (Transfer (Some (0x42 :: replicate 31 0)) false 1) n w) as Hm.
    destruct (spi_message _ _ w) as [[status rx] w1]. cbn [fst snd] in Hm. rewrite ST_bind_eq.
    destruct (proj2 (store_is_Some (0x42 :: replicate 31 0) 0 rx)) as [buf Es].
    { cbn [length]. rewrite length_replicate. lia. }
    unfold lift_opt. rewrite Es. cbn [fmap option_fmap option_map]. by destruct (status <? 0).
  - unfold Fdx.do_read. set (n := if len <? 2 then 2 else if 32 <? len then 32 else len).
    assert (Hn : 2 <= n <= 32) by (unfold n; destruct (Z.ltb_spec len 2), (Z.ltb_spec 32 len); lia).
    rewrite ST_bind_eq, op_eq. destruct (Fdx.read fd n w) as [[bs|] w1] eqn:E; [|done].
    apply read_fits in E. rewrite ST_bind_eq. destruct (proj2 (store_is_Some (replicate 32 0) 0 bs)) as [buf Es].
    { rewrite length_replicate. lia. }
    unfold lift_opt. rewrite Es. cbn [fmap option_fmap option_map]. by destruct (negb _).
Qed.

(** The options give lengths that are not negative. *)
Lemma options_lengths l : forall m r (w : W) m' r' w',
  0 <= m -> 0 <= r -> Fdx.options l m r w = Some (Some (m', r'), w') -> 0 <= m' /\ 0 <= r'.
Proof.
  induction l as [|[s|s| |] l IH]; intros m r w m' r' w' Hm Hr E; cbn [Fdx.options] in E.
  - by injection E as <- <- _.
  - rewrite ST_bind_eq in E. unfold lift_opt in E. destruct (atoi s) as [v|]; [|done]. cbn in E.
    destruct (v <? 0) eqn:Hv; [done|]. apply IH in E; lia.
  - rewrite ST_bind_eq in E. unfold lift_opt in E. destruct (atoi s) as [v|]; [|done]. cbn in E.
    destruct (v <? 0) eqn:Hv; [done|]. apply IH in E; lia.
  - by apply (IH _ _ _ _ _ _ Hm Hr E).
  - done.
Qed.
End Bounds.
