(* ===== verification/MqttClient.v ===== *)
(** The MQTT client of the Linux tools: [src/software/sx1276/mqttclient.cpp],
    [mqttclient.hpp], and its tests [test_mqtt_discard.cpp],
    [test_mqtt_discard2.cpp].

    The mosquitto library is class [Mosquitto]; it calls back only from
    [mosquitto_loop], which returns the callbacks it makes. A call of one of the
    user's handlers is an [upcall]. Output is left out. *)
From S2P Require Import Prelude.

Abbreviation text := (list Z).

(** The return codes of <mosquitto.h>. *)
Class MosqCodes := {
  MOSQ_ERR_SUCCESS : Z; MOSQ_ERR_NOMEM : Z; MOSQ_ERR_PROTOCOL : Z; MOSQ_ERR_INVAL : Z;
  MOSQ_ERR_NO_CONN : Z; MOSQ_ERR_CONN_LOST : Z; MOSQ_ERR_ERRNO : Z;
  codes_distinct : NoDup [MOSQ_ERR_SUCCESS; MOSQ_ERR_NOMEM; MOSQ_ERR_PROTOCOL; MOSQ_ERR_INVAL;
    MOSQ_ERR_NO_CONN; MOSQ_ERR_CONN_LOST; MOSQ_ERR_ERRNO] }.

(** What [mosquitto_loop] found: a CONNACK with its code, a message. *)
Inductive callback := On_connect (rc : Z) | On_message (topic payload : text).

Class Mosquitto (W : Type) := {
  mosquitto_new : text -> bool -> W -> bool * W;             (* [false]: NULL *)
  mosquitto_connect : text -> Z -> Z -> W -> Z * W;
  mosquitto_reconnect : W -> Z * W;
  mosquitto_loop : Z -> Z -> W -> Z * list callback * W;
  mosquitto_subscribe : text -> Z -> W -> Z * W;
  mosquitto_unsubscribe : text -> W -> Z * W;
  mosquitto_destroy : W -> W;
  sleep : Z -> W -> W;                                       (* microseconds *)
  strerror_errno : W -> text }.                              (* the text of [errno] *)

Inductive ConnackState := NONE | WANT | HAVE | ERROR.
#[export] Instance connack_eq_dec : EqDecision ConnackState.
Proof. solve_decision. Defined.

(** The user's handlers being called. *)
Inductive upcall :=
  | Connack (client_id : text) (error : bool)
  | Message (client_id topic payload : text).

(** The data members; the handlers as whether they are registered. *)
Record client := Client {
  valid_ : bool;
  client_id_ : text;
  broker_host_ : text;
  last_error_ : text;
  broker_port_ : Z;
  keep_alive_s_ : Z;
  message_fcn_ : bool;
  connack_fcn_ : bool;
  mosq_ : bool;
  connack_state_ : ConnackState }.

Definition with_valid (b : bool) (c : client) : client :=
  Client b (client_id_ c) (broker_host_ c) (last_error_ c) (broker_port_ c) (keep_alive_s_ c)
    (message_fcn_ c) (connack_fcn_ c) (mosq_ c) (connack_state_ c).
Definition with_error (t : text) (c : client) : client :=
  Client (valid_ c) (client_id_ c) (broker_host_ c) t (broker_port_ c) (keep_alive_s_ c)
    (message_fcn_ c) (connack_fcn_ c) (mosq_ c) (connack_state_ c).
Definition with_mosq (b : bool) (c : client) : client :=
  Client (valid_ c) (client_id_ c) (broker_host_ c) (last_error_ c) (broker_port_ c) (keep_alive_s_ c)
    (message_fcn_ c) (connack_fcn_ c) b (connack_state_ c).
Definition with_connack (s : ConnackState) (c : client) : client :=
  Client (valid_ c) (client_id_ c) (broker_host_ c) (last_error_ c) (broker_port_ c) (keep_alive_s_ c)
    (message_fcn_ c) (connack_fcn_ c) (mosq_ c) s.
Definition RegisterMessageHandler (c : client) : client :=
  Client (valid_ c) (client_id_ c) (broker_host_ c) (last_error_ c) (broker_port_ c) (keep_alive_s_ c)
    true (connack_fcn_ c) (mosq_ c) (connack_state_ c).
Definition RegisterConnackHandler (c : client) : client :=
  Client (valid_ c) (client_id_ c) (broker_host_ c) (last_error_ c) (broker_port_ c) (keep_alive_s_ c)
    (message_fcn_ c) true (mosq_ c) (connack_state_ c).

Definition have_connack (c : client) : bool := bool_decide (connack_state_ c = HAVE).

Section Methods.
Context {W : Type} `{MosqCodes} `{Mosquitto W}.

(** The object, the handlers' calls so far, the library. *)
Abbreviation M := (ST (client * list upcall * W)).

Definition this : M client := fun '(c, l, w) => Some (c, (c, l, w)).
Definition set_this (f : client -> client) : M () := fun '(c, l, w) => Some ((), (f c, l, w)).
Definition upcall_ (u : upcall) : M () := fun '(c, l, w) => Some ((), (c, l ++ [u], w)).
Definition library {A} (f : W -> A * W) : M A := fun '(c, l, w) => let '(a, w) := f w in Some (a, (c, l, w)).
Definition errno_text : M text := fun '(c, l, w) => Some (strerror_errno w, (c, l, w)).

Definition CONNACK_TEXT (rc : Z) : text :=
  (if rc =? 1 then str "Connection error: procotol version"
   else if rc =? 2 then str "Connection error: identifier rejected"
   else str "Connection error: broker unavailable") ++ [10].

(** [OnConnect]; a code above 3 fails the assertion. *)
Definition OnConnect (rc : Z) : M () :=
  c ← this;
  if rc =? 0 then
    when (bool_decide (connack_state_ c = WANT))
      (set_this (with_connack HAVE);; when (connack_fcn_ c) (upcall_ (Connack (client_id_ c) false)))
  else if (1 <=? rc) && (rc <=? 3) then
    set_this (with_error (CONNACK_TEXT rc));;
    set_this (with_connack ERROR);;
    when (connack_fcn_ c) (upcall_ (Connack (client_id_ c) true))
  else undefined.

Definition OnMessage (topic payload : text) : M () :=
  c ← this; when (message_fcn_ c) (upcall_ (Message (client_id_ c) topic payload)).

Fixpoint callbacks (l : list callback) : M () :=
  match l with
  | [] => mret ()
  | On_connect rc :: l => OnConnect rc;; callbacks l
  | On_message topic payload :: l => OnMessage topic payload;; callbacks l
  end.

Definition MosqErrStr (code : Z) (txt : text) : M text :=
  if code =? MOSQ_ERR_SUCCESS then mret (str "ok")
  else if code =? MOSQ_ERR_ERRNO then e ← errno_text; mret (txt ++ str ": " ++ e)
  else if code =? MOSQ_ERR_NO_CONN then mret (txt ++ str ": Out of memory")
  else if code =? MOSQ_ERR_PROTOCOL then mret (txt ++ str ": Protocol error")
  else if code =? MOSQ_ERR_NOMEM then mret (txt ++ str ": Not connected to broker")
  else if code =? MOSQ_ERR_INVAL then mret (txt ++ str ": Invalid argument")
  else mret (str "Unknown Error").

(** The end of a method: the message of the code, success. *)
Definition finish (rc : Z) (txt : text) : M bool :=
  e ← MosqErrStr rc txt;
  set_this (with_error e);;
  mret (rc =? MOSQ_ERR_SUCCESS).

Definition Init : M bool :=
  c ← this;
  ok ← library (mosquitto_new (client_id_ c) true);
  set_this (with_mosq ok);;
  if (ok : bool) then mret true
  else e ← errno_text; set_this (with_error e);; mret false.

(** The constructors. *)
Definition construct : M () :=
  ok ← Init;
  set_this (with_valid ok);;
  when (negb ok) (library (fun w => ((), mosquitto_destroy w));; set_this (with_mosq false)).
Definition new_client (client_id host : text) (port : Z) : client :=
  Client false client_id host [] port 60 false false false NONE.
Definition LOCALHOST : text := str "127.0.0.1".
Definition CreateInstance (client_id : text) (host : option text) (port : Z) (w : W)
    : option (client * list upcall * W) :=
  snd <$> construct (new_client client_id (default LOCALHOST host) port, [], w).

Definition destructor : M () :=
  c ← this; when (mosq_ c) (library (fun w => ((), mosquitto_destroy w))).

(** The guard and the cleared message all operations start with. *)
Definition guarded (m : M bool) : M bool :=
  c ← this;
  if negb (valid_ c) then mret false else set_this (with_error []);; m.

Definition Connect : M bool :=
  guarded (
    set_this (with_connack WANT);;
    c ← this;
    rc ← library (mosquitto_connect (broker_host_ c) (broker_port_ c) (keep_alive_s_ c));
    finish rc (str "Unable to connect to broker")).

Definition loop_once (timeout max_packets : Z) : M Z :=
  '(rc, l) ← library (mosquitto_loop timeout max_packets);
  callbacks l;;
  mret rc.

Definition Poll : M bool :=
  guarded (
    rc ← loop_once 1000 1;
    rc ← (if rc =? MOSQ_ERR_CONN_LOST
          then set_this (with_connack WANT);; library mosquitto_reconnect
          else mret rc);
    finish rc (str "Broker poll error")).

Definition Subscribe (topic : text) : M bool :=
  guarded (rc ← library (mosquitto_subscribe topic 0); finish rc (str "Subscribe")).
Definition Unsubscribe (topic : text) : M bool :=
  guarded (rc ← library (mosquitto_unsubscribe topic); finish rc (str "Unsubscribe")).

(** * test_mqtt_discard2.cpp: [main] with at most [n] polls; [None]: it still
    runs. *)
Fixpoint poll_loop (n : nat) : M (option Z) :=
  match n with
  | O => mret None
  | S n =>
      ok ← Poll;
      if negb ok then mret (Some 1)
      else library (fun w => ((), sleep 1000000 w));; poll_loop n
  end.
Definition discard2_main (n : nat) (argv0 : text) (w : W) : option (option Z * (client * list upcall * W)) :=
  s ← CreateInstance argv0 None 1883 w;
  (set_this RegisterMessageHandler;;
   set_this RegisterConnackHandler;;
   c ← this;
   if negb (valid_ c) then mret (Some 1)
   else
     ok ← Connect;
     if negb ok then mret (Some 1)
     else
       ok ← Subscribe (str "#");
       if negb ok then mret (Some 1) else poll_loop n) s.
End Methods.

(** * test_mqtt_discard.cpp: the library used directly; its callbacks only print. *)
Section Discard.
Context {W : Type} `{MosqCodes} `{Mosquitto W}.

Fixpoint discard_loop (n : nat) (w : W) : W :=
  match n with
  | O => w
  | S n =>
      let '(rc, _, w) := mosquitto_loop (-1) 1 w in
      discard_loop n (if negb (rc =? 0) then (mosquitto_reconnect (sleep 20000000 w)).2 else w)
  end.

(** [true]: it reached the loop, which does not end. *)
Definition discard_main (n : nat) (client : text) (w : W) : bool * W :=
  let '(mosq, w) := mosquitto_new client true w in
  if negb mosq then (false, w)
  else
    let '(rc, w) := mosquitto_connect (str "localhost") 1883 60 w in
    if rc =? MOSQ_ERR_INVAL then (false, w)
    else
      let '(rc, w) := mosquitto_subscribe (str "#") 0 w in
      if rc =? MOSQ_ERR_INVAL then (false, w)
      else if rc =? MOSQ_ERR_NOMEM then (false, w)
      else (true, discard_loop n w).
End Discard.
