(* ===== verification/MqttClientFacts.v ===== *)
(** The MQTT client: what its connection state says about the broker, what
    reaches the handlers, and what becomes of a lost connection.

    Class [Broker] states what mosquitto documents, over two observations of
    the library: the CONNACK codes it has handed over since the last attempt to
    connect, and whether it has a connection. *)
From S2P Require Import Prelude MqttClient.

Definition connacks (l : list callback) : list Z :=
  omap (fun b => match b with On_connect rc => Some rc | _ => None end) l.
Definition messages (l : list callback) : list (text * text) :=
  omap (fun b => match b with On_message topic payload => Some (topic, payload) | _ => None end) l.
Definition delivered (l : list upcall) : list (text * text) :=
  omap (fun u => match u with Message _ topic payload => Some (topic, payload) | _ => None end) l.

(** The codes the assertion admits: a broker also refuses with 4 (bad user name
    or password) and 5 (not authorised). *)
Definition known (rc : Z) : Prop := 0 <= rc <= 3.

Class Broker (W : Type) `{MosqCodes} `{Mosquitto W} := {
  heard : W -> list Z;
  linked : W -> bool;
  connect_result host port keep w :
    let '(rc, w') := mosquitto_connect host port keep w in
    heard w' = [] /\ (linked w' = bool_decide (rc = MOSQ_ERR_SUCCESS));
  reconnect_result w :
    let '(rc, w') := mosquitto_reconnect w in
    heard w' = [] /\ (linked w' = bool_decide (rc = MOSQ_ERR_SUCCESS));
  loop_result ms n w :
    let '(rc, l, w') := mosquitto_loop ms n w in
    heard w' = heard w ++ connacks l
    /\ (linked w = false -> rc = MOSQ_ERR_NO_CONN /\ l = [] /\ linked w' = false);
  subscribe_heard topic qos w :
    heard (mosquitto_subscribe topic qos w).2 = heard w /\ linked (mosquitto_subscribe topic qos w).2 = linked w;
  unsubscribe_heard topic w :
    heard (mosquitto_unsubscribe topic w).2 = heard w /\ linked (mosquitto_unsubscribe topic w).2 = linked w }.

(** What the codes of an attempt amount to. *)
Definition verdict (h : list Z) : ConnackState :=
  match h with [] => WANT | _ => if bool_decide (Forall (fun rc => rc = 0) h) then HAVE else ERROR end.

Lemma verdict_app h rc : known rc ->
  verdict (h ++ [rc]) = if rc =? 0 then (match verdict h with WANT => HAVE | s => s end) else ERROR.
Proof.
  intros Hk. unfold verdict. destruct (h ++ [rc]) as [|x l] eqn:E; [by destruct h|]. rewrite <- E. clear E x l.
  destruct (Z.eqb_spec rc 0) as [->|Hrc].
  - assert (bool_decide (Forall (fun rc => rc = 0) (h ++ [0])) = bool_decide (Forall (fun rc => rc = 0) h)) as ->
      by (apply bool_decide_ext; rewrite Forall_app, Forall_singleton; tauto).
    destruct h; [done|]. by destruct (bool_decide _).
  - rewrite bool_decide_false; [done|]. by rewrite Forall_app, Forall_singleton; intros [_ ?].
Qed.

Section Client.
Context {W : Type} `{HC : MosqCodes} `{HM : Mosquitto W} {HB : Broker W}.
Abbreviation world := (client * list upcall * W)%type.

(** A connection was attempted, and the state says what came of it. *)
Definition attempted (s : world) : Prop :=
  valid_ s.1.1 = true /\ connack_state_ s.1.1 = verdict (heard s.2).

Lemma t_OnConnect rc (s : world) : known rc -> forall h,
  connack_state_ s.1.1 = verdict h ->
  exists c l, OnConnect rc s = Some ((), (c, s.1.2 ++ l, s.2))
    /\ connack_state_ c = verdict (h ++ [rc]) /\ valid_ c = valid_ s.1.1
    /\ message_fcn_ c = message_fcn_ s.1.1 /\ delivered l = [].
Proof.
  destruct s as [[c l] w]. intros Hk h Hc. cbn [fst snd] in *. rewrite (verdict_app h rc Hk), <- Hc.
  unfold OnConnect. rewrite ST_bind_eq. unfold this. cbv beta iota.
  destruct (Z.eqb_spec rc 0) as [->|Hrc].
  - destruct (bool_decide_reflect (connack_state_ c = WANT)) as [E|E]; unfold when.
    + rewrite ST_bind_eq. unfold set_this. cbv beta iota. rewrite E. destruct (connack_fcn_ c).
      * eexists _, [_]. by split_and!.
      * eexists _, []. rewrite app_nil_r. by split_and!.
    + exists c, []. rewrite app_nil_r. split; [done|]. by destruct (connack_state_ c).
  - rewrite (proj2 (Z.leb_le 1 rc)), (proj2 (Z.leb_le rc 3)) by (unfold known in Hk; lia). cbn [andb].
    rewrite ST_bind_eq. unfold set_this at 1. cbv beta iota. rewrite ST_bind_eq. unfold set_this at 1. cbv beta iota.
    unfold when. destruct (connack_fcn_ c).
    + eexists _, [_]. by split_and!.
    + eexists _, []. rewrite app_nil_r. by split_and!.
Qed.

(** The callbacks of one turn, in order. *)
Lemma t_callbacks bs (s : world) : Forall known (connacks bs) -> forall h,
  connack_state_ s.1.1 = verdict h ->
  exists c l, callbacks bs s = Some ((), (c, s.1.2 ++ l, s.2))
    /\ connack_state_ c = verdict (h ++ connacks bs) /\ valid_ c = valid_ s.1.1
    /\ message_fcn_ c = message_fcn_ s.1.1
    /\ delivered l = if message_fcn_ s.1.1 then messages bs else [].
Proof.
  revert s. induction bs as [|b bs IH]; intros s Hk h Hc.
  { exists s.1.1, []. destruct s as [[c l] w]. cbn. rewrite !app_nil_r. split; [done|].
    split; [done|]. split; [done|]. split; [done|]. by destruct (message_fcn_ c). }
  destruct b as [rc|topic payload]; cbn [callbacks connacks omap list_omap] in *.
  - inversion Hk as [|? ? Hr Hk']; subst. rewrite ST_bind_eq.
    destruct (t_OnConnect rc s Hr h Hc) as (c1 & l1 & -> & Hc1 & Hv1 & Hf1 & Hd1).
    destruct (IH (c1, s.1.2 ++ l1, s.2) Hk' _ Hc1) as (c2 & l2 & -> & Hc2 & Hv2 & Hf2 & Hd2).
    exists c2, (l1 ++ l2). cbn [fst snd] in *. rewrite <- !app_assoc. split; [done|].
    rewrite <- app_assoc in Hc2. split; [done|]. split; [congruence|]. split; [congruence|].
    unfold delivered in *. rewrite omap_app, Hd1, Hd2, Hf1. done.
  - rewrite ST_bind_eq. destruct s as [[c l] w]. unfold OnMessage. rewrite ST_bind_eq. unfold this. cbv beta iota.
    unfold when. cbn [fst snd] in *. destruct (message_fcn_ c) eqn:Ef.
    + unfold upcall_. destruct (IH (c, l ++ [Message (client_id_ c) topic payload], w) Hk h Hc)
        as (c2 & l2 & -> & Hc2 & Hv2 & Hf2 & Hd2).
      exists c2, (Message (client_id_ c) topic payload :: l2). cbn [fst snd] in *. rewrite Ef in *.
      rewrite <- app_assoc. split_and!; try done. unfold delivered, messages in *. cbn. by rewrite Hd2.
    + unfold mret, ST_ret. destruct (IH (c, l, w) Hk h Hc) as (c2 & l2 & -> & Hc2 & Hv2 & Hf2 & Hd2).
      exists c2, l2. cbn [fst snd] in *. rewrite Ef in *. by split_and!.
Qed.

(** A code above 3 stops the callbacks. *)
Lemma OnConnect_stops rc (s : world) : ~ known rc -> OnConnect rc s = None.
Proof.
  intros Hk. unfold OnConnect. rewrite ST_bind_eq. unfold this. destruct s as [[c l] w]. cbv beta iota.
  destruct (Z.eqb_spec rc 0) as [->|Hrc]; [by destruct Hk|].
  destruct (Z.leb_spec 1 rc), (Z.leb_spec rc 3); cbn [andb]; try done. by destruct Hk; unfold known; lia.
Qed.

Lemma callbacks_stop bs (s : world) : ~ Forall known (connacks bs) -> callbacks bs s = None.
Proof.
  revert s. induction bs as [|[rc|topic payload] bs IH]; intros s Hk; [by destruct Hk; constructor|..];
    cbn [callbacks]; rewrite ST_bind_eq.
  - destruct (decide (known rc)) as [Hr|Hr]; [|by rewrite OnConnect_stops].
    destruct (OnConnect rc s) as [[[] s1]|]; [|done]. apply IH. intros Hb. apply Hk. by constructor.
  - destruct (OnMessage topic payload s) as [[[] s1]|]; [|done]. by apply IH.
Qed.

(** * The operations *)
Lemma MosqErrStr_ends code txt (s : world) : exists e, MosqErrStr code txt s = Some (e, s).
Proof. unfold MosqErrStr. destruct s as [[c l] w]. repeat (case_match; [by eexists|]). by eexists. Qed.

Lemma finish_ends rc txt c l w :
  exists e, finish rc txt (c, l, w) = Some (rc =? MOSQ_ERR_SUCCESS, (with_error e c, l, w)).
Proof.
  destruct (MosqErrStr_ends rc txt (c, l, w)) as [e E]. exists e. unfold finish. by rewrite ST_bind_eq, E.
Qed.

Lemma guarded_valid (m : ST world bool) c l w :
  valid_ c = true -> guarded m (c, l, w) = m (with_error [] c, l, w).
Proof. intros Hv. unfold guarded. rewrite ST_bind_eq. unfold this. cbv beta iota. by rewrite Hv. Qed.

Lemma guarded_invalid (m : ST world bool) c l w : valid_ c = false -> guarded m (c, l, w) = Some (false, (c, l, w)).
Proof. intros Hv. unfold guarded. rewrite ST_bind_eq. unfold this. cbv beta iota. by rewrite Hv. Qed.

Definition same_handlers (c c' : client) : Prop := message_fcn_ c' = message_fcn_ c /\ valid_ c' = valid_ c.

Lemma t_Connect c l w :
  valid_ c = true ->
  exists b c' w', Connect (c, l, w) = Some (b, (c', l, w')) /\ same_handlers c c'
    /\ connack_state_ c' = verdict (heard w') /\ linked w' = b.
Proof.
  intros Hv. unfold Connect. rewrite guarded_valid by done. rewrite ST_bind_eq. unfold set_this. cbv beta iota.
  rewrite ST_bind_eq. unfold this. cbv beta iota. rewrite ST_bind_eq. unfold library.
  match goal with |- context [mosquitto_connect ?h ?p ?k w] => pose proof (connect_result h p k w) as Hr end.
  destruct (mosquitto_connect _ _ _ w) as [rc w1]. destruct Hr as [Hh Hl].
  match goal with |- context [finish rc ?t (?c1, l, w1)] => destruct (finish_ends rc t c1 l w1) as [e ->] end.
  do 3 eexists. split; [done|]. split; [done|]. rewrite Hh, Hl. split; [done|].
  by destruct (Z.eqb_spec rc MOSQ_ERR_SUCCESS), (bool_decide_reflect (rc = MOSQ_ERR_SUCCESS)).
Qed.

(** A poll: the messages reach the handler, in order; a lost connection is
    attempted again once. *)
Lemma t_Poll c l w :
  valid_ c = true -> connack_state_ c = verdict (heard w) ->
  let '(rc, bs, w0) := mosquitto_loop 1000 1 w in
  Forall known (connacks bs) ->
  exists b c' us w', Poll (c, l, w) = Some (b, (c', l ++ us, w')) /\ same_handlers c c'
    /\ connack_state_ c' = verdict (heard w')
    /\ delivered us = (if message_fcn_ c then messages bs else [])
    /\ (b, w') = (if rc =? MOSQ_ERR_CONN_LOST then (linked (mosquitto_reconnect w0).2, (mosquitto_reconnect w0).2)
                  else (rc =? MOSQ_ERR_SUCCESS, w0)).
Proof.
  intros Hv Hc. pose proof (loop_result 1000 1 w) as Hl.
  destruct (mosquitto_loop 1000 1 w) as [[rc bs] w0] eqn:El. destruct Hl as [Hh _]. intros Hk.
  unfold Poll. rewrite guarded_valid by done.
  rewrite ST_bind_eq. unfold loop_once. rewrite ST_bind_eq. unfold library at 1. rewrite El. cbv beta iota. rewrite ST_bind_eq.
  destruct (t_callbacks bs (with_error [] c, l, w0) Hk (heard w) Hc) as (c1 & us & -> & Hc1 & Hv1 & Hf1 & Hd1).
  cbn [fst snd] in *. rewrite <- Hh in Hc1. unfold mret at 1, ST_ret at 1. rewrite ST_bind_eq.
  destruct (rc =? MOSQ_ERR_CONN_LOST).
  - rewrite ST_bind_eq. unfold set_this at 1. cbv beta iota. unfold library.
    pose proof (reconnect_result w0) as Hr. destruct (mosquitto_reconnect w0) as [rc2 w2]. destruct Hr as [Hh2 Hl2].
    match goal with |- context [finish rc2 ?t (?c2, _, w2)] => destruct (finish_ends rc2 t c2 (l ++ us) w2) as [e ->] end.
    do 4 eexists. split; [done|]. split; [done|]. split; [by rewrite Hh2|]. split; [done|]. cbn [snd]. rewrite Hl2.
    f_equal. by destruct (Z.eqb_spec rc2 MOSQ_ERR_SUCCESS), (bool_decide_reflect (rc2 = MOSQ_ERR_SUCCESS)).
  - unfold mret at 1, ST_ret at 1.
    match goal with |- context [finish rc ?t (?c2, _, w0)] => destruct (finish_ends rc t c2 (l ++ us) w0) as [e ->] end.
    do 4 eexists. by split_and!.
Qed.

Lemma Poll_stops c l w :
  valid_ c = true -> ~ Forall known (connacks (mosquitto_loop 1000 1 w).1.2) -> Poll (c, l, w) = None.
Proof.
  intros Hv Hk. unfold Poll. rewrite guarded_valid by done.
  rewrite ST_bind_eq. unfold loop_once. rewrite ST_bind_eq. unfold library at 1.
  destruct (mosquitto_loop 1000 1 w) as [[rc bs] w0]. cbv beta iota. by rewrite ST_bind_eq, callbacks_stop.
Qed.

Lemma t_topic c l w topic (f : text -> W -> Z * W) txt :
  valid_ c = true -> (forall w, heard (f topic w).2 = heard w /\ linked (f topic w).2 = linked w) ->
  exists b c' w', guarded (rc ← library (f topic); finish rc txt) (c, l, w) = Some (b, (c', l, w'))
    /\ same_handlers c c' /\ connack_state_ c' = connack_state_ c /\ heard w' = heard w /\ linked w' = linked w.
Proof.
  intros Hv Hf. rewrite guarded_valid by done. rewrite ST_bind_eq. unfold library.
  pose proof (Hf w) as [Hh Hl]. destruct (f topic w) as [rc w1]. 
  destruct (finish_ends rc txt (with_error [] c) l w1) as [e ->]. do 3 eexists. by split_and!.
Qed.
End Client.

(** * Sessions *)
Inductive request := R_connect | R_poll | R_subscribe (topic : text) | R_unsubscribe (topic : text).

Section Sessions.
Context {W : Type} `{HC : MosqCodes} `{HM : Mosquitto W}.

Definition perform (r : request) : ST (client * list upcall * W) bool :=
  match r with
  | R_connect => Connect | R_poll => Poll
  | R_subscribe topic => Subscribe topic | R_unsubscribe topic => Unsubscribe topic
  end.
Fixpoint session (rs : list request) : ST (client * list upcall * W) (list bool) :=
  match rs with
  | [] => mret []
  | r :: rs => b ← perform r; bs ← session rs; mret (b :: bs)
  end.

(** The codes a request may be handed are those the assertion admits; and so for
    the requests of a session on its way. *)
Definition admitted_by (r : request) (s : client * list upcall * W) : Prop :=
  match r with R_poll => Forall known (connacks (mosquitto_loop 1000 1 s.2).1.2) | _ => True end.
Fixpoint all_admitted (rs : list request) (s : client * list upcall * W) : Prop :=
  match rs with
  | [] => True
  | r :: rs => admitted_by r s /\ match perform r s with Some (_, s') => all_admitted rs s' | None => True end
  end.

#[export] Instance known_dec rc : Decision (known rc).
Proof. unfold known. apply _. Defined.
#[export] Instance admitted_by_dec r s : Decision (admitted_by r s).
Proof. destruct r; apply _. Defined.

Context {HB : Broker W}.

Lemma t_perform r (s : client * list upcall * W) :
  attempted s -> admitted_by r s -> exists b s', perform r s = Some (b, s') /\ attempted s'.
Proof.
  destruct s as [[c l] w]. intros [Hv Hc] Hk. cbn [fst snd] in *. unfold attempted. destruct r as [| |topic|topic]; cbn [perform].
  - destruct (t_Connect c l w Hv) as (b & c' & w' & -> & [_ Hv'] & Hc' & _). do 2 eexists. split; [done|].
    cbn. by rewrite Hv'.
  - pose proof (t_Poll c l w Hv Hc) as Hp. cbn [admitted_by snd] in Hk.
    destruct (mosquitto_loop 1000 1 w) as [[rc bs] w0]. cbn [fst snd] in Hk.
    destruct (Hp Hk) as (b & c' & us & w' & -> & [_ Hv'] & Hc' & _). do 2 eexists. split; [done|]. cbn. by rewrite Hv'.
  - destruct (t_topic c l w topic (fun t => mosquitto_subscribe t 0) (str "Subscribe") Hv
      (fun w => subscribe_heard topic 0 w)) as (b & c' & w' & E & [_ Hv'] & Hc' & Hh & _).
    exists b, (c', l, w'). split; [exact E|]. cbn. by rewrite Hv', Hc', Hh.
  - destruct (t_topic c l w topic (fun t => mosquitto_unsubscribe t) (str "Unsubscribe") Hv
      (fun w => unsubscribe_heard topic w)) as (b & c' & w' & E & [_ Hv'] & Hc' & Hh & _).
    exists b, (c', l, w'). split; [exact E|]. cbn. by rewrite Hv', Hc', Hh.
Qed.

Lemma t_session rs (s : client * list upcall * W) :
  attempted s ->
  (is_Some (session rs s) <-> all_admitted rs s)
  /\ forall bs s', session rs s = Some (bs, s') -> length bs = length rs /\ attempted s'.
Proof.
  revert s. induction rs as [|r rs IH]; intros s Hs; cbn [session all_admitted].
  { split; [by split; [|eexists]|]. by intros bs s' [= <- <-]. }
  rewrite ST_bind_eq. destruct (decide (admitted_by r s)) as [Ha|Ha].
  - destruct (t_perform r s Hs Ha) as (b & s1 & E1 & H1). rewrite E1. destruct (IH s1 H1) as [Hi Hr]. rewrite ST_bind_eq.
    destruct (session rs s1) as [[bs s2]|].
    + destruct (Hr bs s2 eq_refl) as [Hl H2]. split; [split; [|by eexists]|].
      * intros _. split; [done|]. apply Hi. by eexists.
      * intros ? ? [= <- <-]. cbn. by rewrite Hl.
    + split; [|done]. split; [by intros []|]. intros [_ Hx]. by apply Hi in Hx as [].
  - assert (perform r s = None) as ->.
    { destruct r; try by destruct Ha. destruct s as [[c l] w], Hs as [Hv _]. by apply Poll_stops. }
    split; [|done]. split; [by intros []|]. by intros [].
Qed.

Lemma verdict_have h : verdict h = HAVE <-> h <> [] /\ Forall (fun rc => rc = 0) h.
Proof.
  destruct h as [|x h]; [by split; [|intros []]|]. unfold verdict.
  destruct (bool_decide_reflect (Forall (fun rc => rc = 0) (x :: h))); [by split|]. split; [done|]. by intros [].
Qed.

(** Without a connection a poll only reports. *)
Lemma unlinked_poll c l w :
  valid_ c = true -> connack_state_ c = verdict (heard w) -> linked w = false ->
  exists c' w', Poll (c, l, w) = Some (false, (c', l, w')) /\ linked w' = false
    /\ last_error_ c' = str "Broker poll error: Out of memory"
    /\ valid_ c' = true /\ connack_state_ c' = connack_state_ c /\ heard w' = heard w.
Proof.
  intros Hv Hc Hl. unfold Poll. rewrite guarded_valid by done.
  rewrite ST_bind_eq. unfold loop_once. rewrite ST_bind_eq. unfold library at 1.
  pose proof (loop_result 1000 1 w) as Hr. destruct (mosquitto_loop 1000 1 w) as [[rc bs] w0].
  destruct Hr as [Hh Hn]. destruct (Hn Hl) as (-> & -> & Hl0). cbn [callbacks]. rewrite ST_bind_eq.
  unfold mret at 1, ST_ret at 1. unfold mret at 1, ST_ret at 1. rewrite ST_bind_eq.
  pose proof codes_distinct as Hd. rewrite !NoDup_cons in Hd. rewrite !not_elem_of_cons in Hd.
  rewrite (proj2 (Z.eqb_neq MOSQ_ERR_NO_CONN MOSQ_ERR_CONN_LOST)) by intuition.
  unfold mret at 1, ST_ret at 1. unfold finish, MosqErrStr.
  rewrite (proj2 (Z.eqb_neq MOSQ_ERR_NO_CONN MOSQ_ERR_SUCCESS)) by intuition congruence.
  rewrite (proj2 (Z.eqb_neq MOSQ_ERR_NO_CONN MOSQ_ERR_ERRNO)) by intuition.
  rewrite Z.eqb_refl. do 2 eexists. split; [done|]. cbn in *. rewrite app_nil_r in Hh. by split_and!.
Qed.
End Sessions.

(** * Properties *)

(** C35: from the first [Connect] of a valid client on, whatever calls follow and
    whatever CONNACKs the broker sends, every call returns as long as the codes
    are 0 to 3, and a poll that is handed any other ends the process, by the
    assertion of [OnConnect]; and when they have returned, [have_connack()] is
    true exactly when the broker has answered the latest attempt to connect and
    has never refused it. *)
Theorem connack_tracks_broker {W} `{Broker W} c l w rs :
  valid_ c = true ->
  (is_Some (session (R_connect :: rs) (c, l, w)) <-> all_admitted (R_connect :: rs) (c, l, w))
  /\ forall bs c' l' w', session (R_connect :: rs) (c, l, w) = Some (bs, (c', l', w')) ->
       length bs = S (length rs)
       /\ (have_connack c' = true <-> heard w' <> [] /\ Forall (fun rc => rc = 0) (heard w')).
Proof.
  intros Hv. cbn [session all_admitted perform admitted_by].
  destruct (t_Connect c l w Hv) as (b & c1 & w1 & E & [_ Hv1] & Hc1 & _).
  rewrite ST_bind_eq, E, ST_bind_eq. destruct (t_session rs (c1, l, w1)) as [Hi Hr];
    [split; [cbn; congruence|done]|].
  destruct (session rs (c1, l, w1)) as [[bs [[c2 l2] w2]]|].
  - destruct (Hr _ _ eq_refl) as (Hl & _ & Hc'). split.
    + split; [intros _; split; [done|]; apply Hi; by eexists|by eexists].
    + intros ? ? ? ? [= <- <- <- <-]. split; [cbn; congruence|].
      cbn [fst snd] in Hc'. unfold have_connack. rewrite bool_decide_eq_true, Hc'. apply verdict_have.
  - split; [|done]. split; [by intros []|]. intros [_ Hx]. by apply Hi in Hx as [].
Qed.

(** Also: a [Poll] hands every message the library delivers to the registered
    handler, each once and in order; it returns what the library said, but for a
    lost connection, which it attempts again exactly once, returning whether
    that worked. *)
Theorem poll_delivers {W} `{Broker W} c l w rc bs w0 :
  valid_ c = true -> connack_state_ c = verdict (heard w) -> message_fcn_ c = true ->
  mosquitto_loop 1000 1 w = (rc, bs, w0) -> Forall known (connacks bs) ->
  exists b c' us w', Poll (c, l, w) = Some (b, (c', l ++ us, w')) /\ delivered us = messages bs
    /\ (rc <> MOSQ_ERR_CONN_LOST -> b = (rc =? MOSQ_ERR_SUCCESS) /\ w' = w0)
    /\ (rc = MOSQ_ERR_CONN_LOST -> w' = (mosquitto_reconnect w0).2 /\ b = linked w').
Proof.
  intros Hv Hc Hf El Hk. pose proof (t_Poll c l w Hv Hc) as Hp. rewrite El, Hf in Hp.
  destruct (Hp Hk) as (b & c' & us & w' & E & _ & _ & Hd & Hb). exists b, c', us, w'. split; [done|]. split; [done|].
  destruct (Z.eqb_spec rc MOSQ_ERR_CONN_LOST) as [->|Hn]; injection Hb as -> ->; by split.
Qed.

(** C36: once the single attempt to reconnect has failed the client never attempts
    again: every later [Poll] returns false with no connection made, and says
    "Out of memory". *)
Theorem lost_for_good {W} `{Broker W} c l w n :
  valid_ c = true -> connack_state_ c = verdict (heard w) -> linked w = false ->
  exists c' w', session (replicate n R_poll) (c, l, w) = Some (replicate n false, (c', l, w'))
    /\ linked w' = false
    /\ (n <> O -> last_error_ c' = str "Broker poll error: Out of memory").
Proof.
  revert c w. induction n as [|n IH]; intros c w Hv Hc Hl; [by exists c, w|]. cbn [replicate session perform].
  destruct (unlinked_poll c l w Hv Hc Hl) as (c1 & w1 & E & Hl1 & He1 & Hv1 & Hc1 & Hh1).
  rewrite ST_bind_eq, E. destruct (IH c1 w1 Hv1) as (c2 & w2 & E2 & Hl2 & He2); [congruence|done|].
  exists c2, w2. rewrite ST_bind_eq, E2. split; [done|]. split; [done|]. intros _.
  destruct n; [|by apply He2]. by injection E2 as <- <-.
Qed.

(** ** Witnesses *)

(** A library that plays back what the loop finds; reconnecting fails. *)
Record playback := Playback { script : list (Z * list callback); codes : list Z; up : bool }.

#[export] Instance mosq_codes : MosqCodes.
Proof. refine (Build_MosqCodes 0 1 2 3 4 7 14 _). apply (bool_decide_unpack _). by vm_compute. Defined.

Definition play (w : playback) : Z * list callback * playback :=
  if up w then
    match script w with
    | [] => (0, [], w)
    | (rc, bs) :: sc => (rc, bs, Playback sc (codes w ++ connacks bs) true)
    end
  else (4, [], w).

#[export] Instance playback_mosquitto : Mosquitto playback := {|
  mosquitto_new _ _ w := (true, w);
  mosquitto_connect _ _ _ w := (0, Playback (script w) [] true);
  mosquitto_reconnect w := (14, Playback (script w) [] false);
  mosquitto_loop _ _ w := play w;
  mosquitto_subscribe _ _ w := (0, w); mosquitto_unsubscribe _ w := (0, w);
  mosquitto_destroy w := w; sleep _ w := w; strerror_errno _ := str "Connection refused" |}.

#[export] Instance playback_broker : Broker playback.
Proof.
  refine (Build_Broker playback _ _ codes up _ _ _ _ _); try done.
  intros ms n w. cbn [mosquitto_loop playback_mosquitto]. unfold play. destruct (up w) eqn:E.
  - destruct (script w) as [|[rc bs] sc]; cbn.
    + by rewrite app_nil_r.
    + by split.
  - by rewrite app_nil_r.
Defined.

Definition made : client := with_valid true (with_mosq true (new_client (str "me") LOCALHOST 1883)).
Definition listening : client := RegisterMessageHandler made.

(** A broker that accepts, then one that answers "not authorised". *)
Definition accepting : playback := Playback [(0, [On_connect 0])] [] false.
Definition refusing : playback := Playback [(0, [On_connect 5])] [] false.
Definition subscribing : list request := [R_subscribe (str "#"); R_poll].

Lemma connack_tracks_broker_witness :
  (exists bs c' l' w', session (R_connect :: subscribing) (made, [], accepting) = Some (bs, (c', l', w'))
     /\ length bs = 3%nat /\ have_connack c' = true)
  /\ ~ is_Some (session (R_connect :: subscribing) (made, [], refusing)).
Proof.
  split.
  - destruct (connack_tracks_broker (W := playback) made [] accepting subscribing eq_refl) as [_ Hr].
    do 4 eexists. split; [vm_compute; reflexivity|]. destruct (Hr _ _ _ _ eq_refl) as [Hl Hc].
    split; [exact Hl|]. apply Hc. split; [discriminate|]. by constructor.
  - intros Hs. apply (connack_tracks_broker (W := playback) made [] refusing subscribing eq_refl) in Hs.
    destruct Hs as (_ & _ & Hk & _). inversion Hk as [|? ? Hx _]. unfold known in Hx. lia.
Defined.

Lemma poll_delivers_witness :
  exists b c' us w', Poll (W := playback) (with_connack WANT listening, [],
      Playback [(7, [On_message (str "a") [1]; On_message (str "b") [2]])] [] true)
    = Some (b, (c', us, w')) /\ delivered us = [(str "a", [1]); (str "b", [2])] /\ b = false.
Proof.
  destruct (poll_delivers (W := playback) (with_connack WANT listening) []
    (Playback [(7, [On_message (str "a") [1]; On_message (str "b") [2]])] [] true)
    7 [On_message (str "a") [1]; On_message (str "b") [2]] (Playback [] [] true)
    ltac:(done) ltac:(done) ltac:(done) ltac:(done) ltac:(constructor)) as (b & c' & us & w' & E & Hd & _ & Hr).
  destruct (Hr eq_refl) as [-> ->]. do 4 eexists. split; [exact E|]. by split.
Defined.

Lemma lost_for_good_witness :
  exists c' w', session (W := playback) (replicate 3 R_poll) (with_connack WANT made, [], Playback [] [] false)
    = Some (replicate 3 false, (c', [], w'))
    /\ linked w' = false
    /\ ((3 <> 0)%nat -> last_error_ c' = str "Broker poll error: Out of memory").
Proof. by apply (lost_for_good (W := playback) (with_connack WANT made) [] (Playback [] [] false) 3). Defined.

(** The test program gives up at its first lost connection. *)
Example discard2_stops :
  (fst <$> discard2_main (W := playback) 9 (str "me") (Playback [(0, [On_connect 0]); (7, [])] [] false)) = Some (Some 1).
Proof. vm_compute. done. Qed.
