(* ===== verification/CalDex.v ===== *)
(** The exception dump of the ground sensor firmware:
    [src/attic/ground-sensor/code/src/cal_dex.c], as compiled with
    [USE_ETS_PRINTF 0].

    Memory is read a word at a time through [word]; the world logs the addresses
    read and the text given to [c_puts] (console output). The linker's symbols,
    the special registers and the SDK's version string are parameters, and the
    exception vector table of the ROM is reached through [real_set]. The
    assembly of [cal_dex_handler] calls [cal_dex_dump] with the stack pointer
    and jumps to the original handler. *)
From S2P Require Import Prelude.

Record dex := Dex {
  TINYBUF : list Z;         (* char[120] *)
  text : list Z;
  reads : list Z }.

(** The linker symbols and what else is not in the file. *)
Record firmware := Firmware {
  word : Z -> Z;                        (* memory, by address *)
  handler_addr : Z;                     (* cal_dex_handler *)
  text_start : Z; text_end : Z; data_start : Z; data_end : Z;
  bss_start : Z; bss_end : Z; rodata_start : Z; rodata_end : Z;
  get_excvaddr : Z; get_depc : Z;
  system_get_sdk_version : list Z }.

Abbreviation M := (ST dex).

Definition c_puts (s : list Z) : M () :=
  modify (fun w => Dex (TINYBUF w) (text w ++ s) (reads w)).
Definition put_tiny (i c : Z) : M () :=
  w ← get;
  b ← lift_opt (store (TINYBUF w) (Z.to_nat i) [c]);
  put (Dex b (text w) (reads w)).
Definition puts_tiny : M () := w ← get; c_puts (c_string (TINYBUF w)).
Definition newline : list Z := [10].

Definition L (x : Z) : Z := Z.land x 0xFFFF.

(** The character of a nibble. *)
Definition nib_char (nib : Z) : Z := if nib <? 10 then 48 + nib else 97 - 10 + nib.

(** The loop of [print8x] and [print4x]: digit [i] from the right. *)
Fixpoint hex_loop (k : nat) (digits : Z) (i n : Z) : M () :=
  match k with
  | O => mret ()
  | S k => put_tiny (digits - 1 - i) (nib_char (Z.land n 0xf));; hex_loop k digits (i + 1) (Z.shiftr n 4)
  end.
Definition print8x (n : Z) : M () := hex_loop 8 8 0 (u32 n);; put_tiny 8 0;; puts_tiny.
Definition print4x (n : Z) : M () := hex_loop 4 4 0 (u32 n);; put_tiny 4 0;; puts_tiny.

Fixpoint dec_loop (k : nat) (i n : Z) : M () :=
  match k with
  | O => mret ()
  | S k => put_tiny (1 - i) (48 + n mod 10);; dec_loop k (i + 1) (n / 10)
  end.
Definition print2d (n : Z) : M () := dec_loop 2 0 (u32 n);; put_tiny 2 0;; puts_tiny.

Definition P4X (s : list Z) (n : Z) : M () := c_puts s;; print4x n.
Definition P8X (s : list Z) (n : Z) : M () := c_puts s;; print8x n.

Section Dump.
Context (fw : firmware).

Definition load_word (a : Z) : M Z :=
  modify (fun w => Dex (TINYBUF w) (text w) (reads w ++ [a]));; mret (word fw a).

Definition NUM := 8.

Fixpoint dump_hex_loop (k : nat) (p i : Z) : M () :=
  match k with
  | O => mret ()
  | S k =>
      when (i mod NUM =? 0) (print8x (p + 4 * i);; c_puts (str " "));;
      c_puts (str " ");;
      v ← load_word (u32 (p + 4 * i));
      print8x v;;
      when ((i + 1) mod NUM =? 0) (c_puts newline);;
      dump_hex_loop k p (i + 1)
  end.
Definition cal_dex_dump_hex (p cnt : Z) : M () := dump_hex_loop (Z.to_nat cnt) p 0.

Definition stackok (sp : Z) : bool :=
  let i := s32 sp in
  (0x3fffc000 <? i) && (i <? 0x40000000) && (Z.land i 3 =? 0).

(** [int*] arithmetic: [sp - 8] is 32 bytes below. *)
Definition cal_dex_dump_stack (sp : Z) : M () :=
  let p := u32 (sp - 4 * 8) in
  if stackok p then
    let n := s32 (0x40000000 - p) in
    let n := if 512 <? n then 512 else n in
    c_puts (str "Stack (");; print8x sp;; c_puts (str ")" ++ newline);;
    cal_dex_dump_hex p (Z.quot n 4)
  else
    c_puts (str "Stack pointer may be corrupt: ");; print8x sp;; c_puts newline.

(** A member of the [ex_regs] at [sp]: 0 epc1, 1 ps, 2 sar, 3 xx1, 4 a0, 5 to 18
    a2 to a15, 19 exccause. *)
Definition field (sp : Z) (index : Z) : M Z := load_word (u32 (sp + 4 * index)).

Definition cal_dex_dump (sp : Z) : M () :=
  let ex_sp := u32 (sp + 256) in
  let p := u32 (ex_sp - 4 * 8) in
  c_puts (str "cal_dex 0.1, dump 0.1" ++ newline);;
  c_puts (str "Fatal Exception: ");;
  exccause ← field sp 19; print4x exccause;;
  c_puts (str " (");;
  exccause ← field sp 19; print2d exccause;;
  c_puts (str "), sp ");; print8x sp;; c_puts newline;;
  c_puts (str "SDK Version: ");; c_puts (system_get_sdk_version fw);; c_puts newline;;
  if stackok p then
    c_puts (str "Fingerprint: 1/");;
    P8X (str "xh=") (handler_addr fw);;
    P4X (str ",t=") (L (text_start fw));; P4X (str "-") (L (text_end fw));;
    P4X (str ",d=") (L (data_start fw));; P4X (str "-") (L (data_end fw));;
    P4X (str ",b=") (L (bss_start fw));; P4X (str "-") (L (bss_end fw));;
    P4X (str ",ro=") (L (rodata_start fw));; P4X (str "-") (L (rodata_end fw));;
    c_puts newline;;
    v ← field sp 0; P8X (str " epc1: ") v;;
    v ← field sp 19; P8X (str "  exccause: ") v;;
    P8X (str "  excvaddr: ") (get_excvaddr fw);;
    P8X (str "  depc: ") (get_depc fw);;
    c_puts newline;;
    v ← field sp 1; P8X (str " ps  : ") v;;
    v ← field sp 2; P8X (str "  sar     : ") v;;
    v ← field sp 3; P8X (str "  unk1    : ") v;;
    c_puts newline;;
    v ← field sp 4; P8X (str " a0 :  ") v;;
    P8X (str "  a1 :  ") ex_sp;;
    v ← field sp 5; P8X (str "  a2 :  ") v;;
    v ← field sp 6; P8X (str "  a3 :  ") v;;
    c_puts newline;;
    v ← field sp 7; P8X (str " a4 :  ") v;;
    v ← field sp 8; P8X (str "  a5 :  ") v;;
    v ← field sp 9; P8X (str "  a6 :  ") v;;
    v ← field sp 10; P8X (str "  a7 :  ") v;;
    c_puts newline;;
    v ← field sp 11; P8X (str " a8 :  ") v;;
    v ← field sp 12; P8X (str "  a9 :  ") v;;
    v ← field sp 13; P8X (str "  a10:  ") v;;
    v ← field sp 14; P8X (str "  a11:  ") v;;
    c_puts newline;;
    v ← field sp 15; P8X (str " a12:  ") v;;
    v ← field sp 16; P8X (str "  a13:  ") v;;
    v ← field sp 17; P8X (str "  a14:  ") v;;
    v ← field sp 18; P8X (str "  a15:  ") v;;
    c_puts newline;;
    cal_dex_dump_stack p
  else
    c_puts (str "Stack pointer may be corrupted: ");; print8x sp;; c_puts newline.

(** * Installing the handler *)

(** [real_set]: [__real__xtos_set_exception_handler], of the ROM. [0] is the null
    pointer. The state: [orighandler], and the ROM's. *)
Context {T : Type} (real_set : Z -> Z -> T -> Z * T).

Definition wrap_xtos_set_exception_handler (exno exhandler : Z) (s : Z * T) : Z * (Z * T) :=
  let '(orighandler, t) := s in
  if negb (exhandler =? 0) then
    if orighandler =? 0 then
      let '(res, t) := real_set exno exhandler t in (res, (exhandler, t))
    else if negb (orighandler =? exhandler) then
      let '(res, t) := real_set exno exhandler t in (res, (orighandler, t))
    else
      let '(res, t) := real_set exno (handler_addr fw) t in (res, (orighandler, t))
  else
    let '(p, t) := real_set exno exhandler t in
    (if p =? handler_addr fw then orighandler else p, (orighandler, t)).
End Dump.
