(* ===== verification/CalDexFacts.v ===== *)
(** The exception dump: what it prints of a word reads back as the word, it reads
    only the register frame and the stack, and when the dump handler is
    installed. *)
From S2P Require Import Prelude CalDex.

(** The value of a string of hexadecimal digits, as an inverse of [%08x]. *)
Definition nib_value (c : Z) : Z := if c <? 97 then c - 48 else c - 97 + 10.
Definition hex_value (s : list Z) : Z := fold_left (fun v c => v * 16 + nib_value c) s 0.

(** The digits of [n] as [print8x] and [print4x] lay them out. *)
Fixpoint hex_digits (k : nat) (n : Z) : list Z :=
  match k with O => [] | S k => hex_digits k (Z.shiftr n 4) ++ [nib_char (Z.land n 0xf)] end.

Lemma nib_value_char x : nib_value (nib_char (Z.land x 0xf)) = x mod 16.
Proof.
  change 0xf with (Z.ones 4). rewrite Z.land_ones by lia. change (2 ^ 4) with 16.
  unfold nib_value, nib_char.
  destruct (Z.ltb_spec (x mod 16) 10); [destruct (Z.ltb_spec (48 + x mod 16) 97)|
    destruct (Z.ltb_spec (97 - 10 + x mod 16) 97)]; Z.div_mod_to_equations; lia.
Qed.

Lemma hex_value_snoc s c : hex_value (s ++ [c]) = hex_value s * 16 + nib_value c.
Proof. unfold hex_value. by rewrite fold_left_app. Qed.

Lemma hex_digits_value k n : 0 <= n < 16 ^ Z.of_nat k -> hex_value (hex_digits k n) = n.
Proof.
  revert n. induction k as [|k IH]; intros n Hn; cbn [hex_digits].
  - change (16 ^ Z.of_nat 0) with 1 in Hn. cbn. lia.
  - rewrite hex_value_snoc, nib_value_char, Z.shiftr_div_pow2 by lia. change (2 ^ 4) with 16.
    rewrite IH; [Z.div_mod_to_equations; lia|].
    rewrite Nat2Z.inj_succ, Z.pow_succ_r in Hn by lia. Z.div_mod_to_equations. lia.
Qed.

Lemma hex_digits_length k n : length (hex_digits k n) = k.
Proof. revert n. induction k; intros n; cbn; [done|]. rewrite length_app, IHk. cbn. lia. Qed.

Definition tiny_ok (w : dex) : Prop := length (TINYBUF w) = 120%nat.

Lemma hex_loop_eq k digits i n w :
  tiny_ok w -> 0 <= i -> i + Z.of_nat k = digits -> digits <= 8 ->
  exists w', hex_loop k digits i n w = Some ((), w')
    /\ TINYBUF w' = hex_digits k n ++ drop k (TINYBUF w)
    /\ text w' = text w /\ reads w' = reads w.
Proof.
  intros Hw Hi Hd H8. revert i n w Hw Hi Hd.
  induction k as [|k IH]; intros i n w Hw Hi Hd; cbn [hex_loop].
  { exists w. split; [done|]. by rewrite drop_0. }
  unfold put_tiny. rewrite ST_bind_eq. unfold get. rewrite ST_bind_eq. cbn [TINYBUF].
  replace (Z.to_nat (digits - 1 - i)) with k by lia.
  unfold lift_opt, store. unfold tiny_ok in Hw. rewrite decide_True by (cbn [length]; lia).
  cbn [fmap option_fmap option_map]. rewrite ST_bind_eq.
  set (b := take k (TINYBUF w) ++ [nib_char (Z.land n 0xf)] ++ drop (k + length [nib_char (Z.land n 0xf)]) (TINYBUF w)).
  unfold put.
  destruct (IH (i + 1) (Z.shiftr n 4) (Dex b (text w) (reads w))) as (w' & E & Hb & Ht & Hr).
  - unfold tiny_ok. cbn [TINYBUF]. subst b. rewrite !length_app, length_take, length_drop. cbn [length]. lia.
  - lia.
  - lia.
  - exists w'. split; [exact E|]. split; [|done]. rewrite Hb. cbn [TINYBUF hex_digits].
    rewrite <- app_assoc. f_equal. subst b.
    rewrite drop_app_ge by (rewrite length_take; lia). rewrite length_take.
    replace (k - k `min` length (TINYBUF w))%nat with O by lia. rewrite drop_0. cbn [app length].
    f_equal. f_equal. lia.
Qed.

Lemma nib_char_pos x : nib_char (Z.land x 0xf) <> 0.
Proof.
  change 0xf with (Z.ones 4). rewrite Z.land_ones by lia. change (2 ^ 4) with 16.
  unfold nib_char. pose proof (Z.mod_pos_bound x 16 ltac:(lia)). destruct (_ <? _); lia.
Qed.

Lemma hex_digits_no_nul k n : 0 ∉ hex_digits k n.
Proof.
  revert n. induction k as [|k IH]; intros n; cbn [hex_digits]; [apply not_elem_of_nil|].
  rewrite elem_of_app, list_elem_of_singleton. intros [H|H]; [by apply (IH _ H)|].
  by apply (nib_char_pos n).
Qed.

Lemma c_string_until s rest : 0 ∉ s -> c_string (s ++ 0 :: rest) = s.
Proof.
  induction s as [|b s IH]; intros Hs; cbn [c_string app]; [done|].
  rewrite not_elem_of_cons in Hs. destruct Hs as [Hb Hs].
  rewrite (proj2 (Z.eqb_neq b 0)) by congruence. by rewrite IH.
Qed.

(** What a print function does: it appends [s] to the text, keeps the rest. *)
Definition prints (m : ST dex ()) (s : list Z) : Prop := forall w, tiny_ok w ->
  exists w', m w = Some ((), w') /\ tiny_ok w' /\ text w' = text w ++ s /\ reads w' = reads w.

Lemma print_hex_prints k n :
  (k <= 8)%nat ->
  prints (hex_loop k (Z.of_nat k) 0 n;; put_tiny (Z.of_nat k) 0;; puts_tiny) (hex_digits k n).
Proof.
  intros Hk w Hw. rewrite ST_bind_eq.
  destruct (hex_loop_eq k (Z.of_nat k) 0 n w Hw ltac:(lia) ltac:(lia) ltac:(lia))
    as (w1 & -> & Hb & Ht & Hr).
  rewrite ST_bind_eq. unfold put_tiny. rewrite ST_bind_eq. unfold get. rewrite ST_bind_eq.
  assert (length (TINYBUF w1) = 120%nat) as Hl.
  { rewrite Hb, length_app, hex_digits_length, length_drop. unfold tiny_ok in Hw. lia. }
  rewrite Nat2Z.id. unfold lift_opt, store. rewrite decide_True by (cbn [length]; lia).
  cbn [fmap option_fmap option_map]. unfold put. cbv iota beta. unfold puts_tiny. rewrite ST_bind_eq.
  unfold get. cbv iota beta. cbn [TINYBUF]. unfold c_puts, modify. eexists. split; [done|]. cbn [TINYBUF text reads].
  rewrite Hb, take_app_length' by (symmetry; apply hex_digits_length).
  split; [|split; [|done]].
  - unfold tiny_ok in *. cbn [TINYBUF]. repeat rewrite ?length_app, ?length_drop, ?hex_digits_length.
    cbn [length]. lia.
  - rewrite Ht. f_equal. by apply c_string_until, hex_digits_no_nul.
Qed.

Lemma print8x_prints n : prints (print8x n) (hex_digits 8 (u32 n)).
Proof. apply (print_hex_prints 8). lia. Qed.
Lemma print4x_prints n : prints (print4x n) (hex_digits 4 (u32 n)).
Proof. apply (print_hex_prints 4). lia. Qed.

(** * What the dump reads *)
Section Reads.
Context (P : Z -> Prop).

(** Defined, within [TINYBUF], reading memory only at addresses in [P]. *)
Definition safe {A} (m : ST dex A) : Prop := forall w, tiny_ok w ->
  exists a w' l, m w = Some (a, w') /\ tiny_ok w' /\ reads w' = reads w ++ l /\ Forall P l.

Lemma safe_prints m s : prints m s -> safe m.
Proof.
  intros Hm w Hw. destruct (Hm w Hw) as (w' & E & Hw' & _ & Hr). exists (), w', [].
  rewrite app_nil_r. done.
Qed.

Lemma safe_bind {A B} (m : ST dex A) (k : A -> ST dex B) :
  safe m -> (forall a, safe (k a)) -> safe (m ≫= k).
Proof.
  intros Hm Hk w Hw. rewrite ST_bind_eq. destruct (Hm w Hw) as (a & w1 & l1 & -> & Hw1 & Hr1 & Hl1).
  destruct (Hk a w1 Hw1) as (b & w2 & l2 & -> & Hw2 & Hr2 & Hl2). exists b, w2, (l1 ++ l2).
  rewrite Hr2, Hr1, app_assoc. split_and!; try done. by apply Forall_app.
Qed.

Lemma safe_ret {A} (a : A) : safe (mret a).
Proof. intros w Hw. exists a, w, []. by rewrite app_nil_r. Qed.

Lemma safe_puts s : safe (c_puts s).
Proof. intros w Hw. eexists _, _, []. split; [done|]. by rewrite app_nil_r. Qed.

Lemma safe_when b m : (b = true -> safe m) -> safe (when b m).
Proof. destruct b; cbn; [auto|]. intros _. apply safe_ret. Qed.

Lemma safe_load fw a : P a -> safe (load_word fw a).
Proof. intros Ha w Hw. eexists _, _, [a]. split; [done|]. split; [done|]. split; [done|]. by constructor. Qed.

Lemma safe_print8x n : safe (print8x n).
Proof. eapply safe_prints, print8x_prints. Qed.
Lemma safe_print4x n : safe (print4x n).
Proof. eapply safe_prints, print4x_prints. Qed.

Lemma safe_put_tiny i c : 0 <= i < 120 -> safe (put_tiny i c).
Proof.
  intros Hi w Hw. unfold put_tiny. rewrite ST_bind_eq. unfold get. cbv iota beta. rewrite ST_bind_eq.
  unfold tiny_ok in Hw. unfold lift_opt, store. rewrite decide_True by (cbn [length]; lia).
  cbn [fmap option_fmap option_map]. eexists _, _, []. split; [done|]. rewrite app_nil_r.
  split; [|done]. unfold tiny_ok. cbn [TINYBUF].
  rewrite !length_app, length_take, length_drop. cbn [length]. lia.
Qed.

Lemma safe_puts_tiny : safe puts_tiny.
Proof. intros w Hw. eexists _, _, []. split; [done|]. by rewrite app_nil_r. Qed.

Lemma safe_print2d n : safe (print2d n).
Proof.
  unfold print2d. cbn [dec_loop].
  repeat first [apply safe_put_tiny; lia | apply safe_ret | apply safe_puts_tiny | apply safe_bind; [|intros ?]].
Qed.
End Reads.

(** The operations that read nothing, in sequence. *)
Ltac quiet := repeat first
  [ apply safe_puts | apply safe_print8x | apply safe_print4x | apply safe_print2d | apply safe_ret
  | apply safe_bind; [|intros ?] ].

(** The addresses the dump of [sp] may read: the register frame, and aligned
    words of the stack. *)
Definition dumpable (sp a : Z) : Prop :=
  (exists i, 0 <= i < 20 /\ a = u32 (sp + 4 * i))
  \/ (0x3fffc000 < a < 0x40000000 /\ a mod 4 = 0).

Lemma stackok_range p :
  fits 32 p -> stackok p = true -> 0x3fffc000 < p < 0x40000000 /\ p mod 4 = 0.
Proof.
  intros Hp. unfold stackok. rewrite !andb_true_iff, Z.eqb_eq, !Z.ltb_lt.
  change 3 with (Z.ones 2). rewrite Z.land_ones by lia. intros [[H1 H2] H3]. word_lia.
Qed.

Lemma safe_dump_hex fw sp k p i :
  0 <= i -> 0x3fffc000 < p -> p mod 4 = 0 -> p + 4 * (i + Z.of_nat k) <= 0x40000000 ->
  safe (dumpable sp) (dump_hex_loop fw k p i).
Proof.
  intros Hi Hp Ha. revert i Hi. induction k as [|k IH]; intros i Hi Hk; cbn [dump_hex_loop]; [apply safe_ret|].
  apply safe_bind; [apply safe_when; intros _; quiet|intros _].
  apply safe_bind; [quiet|intros _].
  apply safe_bind.
  { apply safe_load. right. rewrite trunc_small by word_lia. split; [lia|]. Z.div_mod_to_equations. lia. }
  intros v. apply safe_bind; [quiet|intros _].
  apply safe_bind; [apply safe_when; intros _; quiet|intros _]. apply IH; lia.
Qed.

Lemma safe_dump_stack fw sp p : safe (dumpable sp) (cal_dex_dump_stack fw p).
Proof.
  unfold cal_dex_dump_stack. set (q := u32 (p - 4 * 8)).
  assert (fits 32 q) as Hq by apply u32_ok. destruct (stackok q) eqn:E; [|quiet].
  destruct (stackok_range q Hq E) as [Hr Ha].
  do 3 (apply safe_bind; [quiet|intros _]).
  assert (s32 (0x40000000 - q) = 0x40000000 - q) as -> by (apply strunc_small; [lia|word_lia]).
  unfold cal_dex_dump_hex. apply safe_dump_hex; [lia|lia|exact Ha|].
  destruct (Z.ltb_spec 512 (0x40000000 - q)); Z.quot_rem_to_equations; lia.
Qed.

Lemma safe_field fw sp i : 0 <= i < 20 -> safe (dumpable sp) (field fw sp i).
Proof. intros Hi. apply safe_load. left. eauto. Qed.

Ltac dump_step :=
  apply safe_bind; [first [apply safe_field; lia | unfold P8X, P4X; by quiet]|intros ?].

Lemma safe_dump fw sp : safe (dumpable sp) (cal_dex_dump fw sp).
Proof.
  unfold cal_dex_dump. repeat dump_step. case_match; [|by quiet]. repeat dump_step. apply safe_dump_stack.
Qed.

(** * Properties *)

(** Also: [print8x] writes eight digits which read back, as a hexadecimal number,
    as the word, whatever the buffer held. *)
Theorem print8x_reads_back n w :
  fits 32 n -> tiny_ok w ->
  exists s w', print8x n w = Some ((), w') /\ text w' = text w ++ s /\ length s = 8%nat
    /\ hex_value s = n.
Proof.
  intros Hn Hw. destruct (print8x_prints n w Hw) as (w' & E & _ & Ht & _).
  exists (hex_digits 8 (u32 n)), w'. split; [done|]. split; [done|]. split; [apply hex_digits_length|].
  rewrite trunc_small by done. apply hex_digits_value. exact Hn.
Qed.

(** C39: whatever the stack pointer and the registers are, the dump ends, keeps
    within its line buffer, and reads memory only in the register frame and at
    aligned words of the stack. *)
Theorem dump_reads_only_stack fw sp w :
  tiny_ok w -> exists w' l, cal_dex_dump fw sp w = Some ((), w')
    /\ reads w' = reads w ++ l /\ Forall (dumpable sp) l.
Proof.
  intros Hw. destruct (safe_dump fw sp w Hw) as ([] & w' & l & E & _ & Hr & Hl). eauto.
Qed.

(** Also: the first installation of a handler goes to the vector unchanged; only
    when the same handler is installed again does the dump handler take the
    vector, and removing it gives the original handler back. *)
Theorem dump_handler_second_time {T} fw (real_set : Z -> Z -> T -> Z * T) (vec : T -> Z -> Z) exno exno' h t :
  (forall e x t, real_set e x t = (vec t e, snd (real_set e x t))
                 /\ vec (snd (real_set e x t)) e = x) ->
  h <> 0 -> handler_addr fw <> 0 -> 
  let install := wrap_xtos_set_exception_handler fw real_set in
  let s1 := snd (install exno h (0, t)) in
  let s2 := snd (install exno' h s1) in
  vec (snd s1) exno = h /\ vec (snd s2) exno' = handler_addr fw
  /\ fst (install exno' 0 s2) = h.
Proof.
  intros Hset Hh Hf install s1 s2. subst install s1 s2. unfold wrap_xtos_set_exception_handler.
  rewrite (proj2 (Z.eqb_neq h 0)) by done. cbn [negb Z.eqb].
  destruct (Hset exno h t) as [E1 V1]. destruct (real_set exno h t) as [r1 t1] eqn:R1. cbn [fst snd] in *.
  rewrite Z.eqb_refl. rewrite (proj2 (Z.eqb_neq h 0)) by done. cbn [negb].
  destruct (Hset exno' (handler_addr fw) t1) as [E2 V2].
  destruct (real_set exno' (handler_addr fw) t1) as [r2 t2] eqn:R2. cbn [fst snd] in *.
  destruct (Hset exno' 0 t2) as [E3 _]. destruct (real_set exno' 0 t2) as [r3 t3]. cbn [fst snd] in *.
  injection E3 as E3. rewrite E3, V2, Z.eqb_refl. done.
Qed.

(** ** Witnesses *)
Definition start_dex : dex := Dex (replicate 120 0) [] [].
Definition some_firmware : firmware :=
  Firmware (fun a => a) 0x40240000 0 0 0 0 0 0 0 0 0 0 [49].

Lemma print8x_reads_back_witness : exists s w',
  print8x 0xdeadbeef start_dex = Some ((), w') /\ text w' = [] ++ s /\ length s = 8%nat
  /\ hex_value s = 0xdeadbeef.
Proof. apply print8x_reads_back; [word_lia|done]. Defined.

Lemma dump_reads_only_stack_witness : exists w' l,
  cal_dex_dump some_firmware 0x3ffffd00 start_dex = Some ((), w')
  /\ reads w' = [] ++ l /\ Forall (dumpable 0x3ffffd00) l.
Proof. apply dump_reads_only_stack. done. Defined.

(** A ROM with one vector for each number, as a map. *)
Definition rom_set (e x : Z) (t : gmap Z Z) : Z * gmap Z Z := (t !!! e, <[e := x]> t).

Lemma dump_handler_second_time_witness :
  let install := wrap_xtos_set_exception_handler some_firmware rom_set in
  let s2 := snd (install 9 77 (snd (install 3 77 (0, ∅)))) in
  fst (install 9 0 s2) = 77.
Proof.
  apply (dump_handler_second_time some_firmware rom_set (fun t e => t !!! e) 3 9 77 ∅);
    [|done|done].
  intros e x t. split; [done|]. cbn. apply lookup_total_insert_eq.
Defined.
